(* ===== verification/_CoqProject ===== *)
-Q . S2P
Prelude.v
Float64.v
Bytes.v
Config.v
Zbc.v
Backend.v
Emulator.v
Segment.v
ZoneManager.v
WriteBuffer.v
Gc.v
Crc32c.v
Wal.v
Journal.v
JournalSpec.v
JournalTheorems.v
Recovery.v
RecoveryTheorems.v
Ztl.v
ZtlInv.v
ZtlSpec.v
GcSpec.v
ZtlTheorems.v
Pdu.v
Network.v
Params.v
DataTransfer.v
Login.v
LoginTheorems.v
Scsi.v
Connection.v
ScsiTheorems.v
ConnectionTheorems.v
ConnectionRun.v
Session.v
SessionTheorems.v
Listener.v
ListenerTheorems.v
ScsiStore.v
IscsiStore.v
ZtlLimits.v
GcTheorems.v
Background.v
Initiators.v
Smr.v
SmrTheorems.v
ZtlStart.v
Boot.v
Durable.v
Logged.v
Restart.v
RestartTheorems.v
SmrStore.v
Device.v
SmrDurable.v
StandardDrive.v
Program.v
ProgramRestart.v
Days.v
Api.v
ApiServer.v
