(* ===== verification/Prelude.v ===== *)
(** * Verification of the ZNS/SMR iSCSI target

    The program (src/cmd/zns-iscsi) serves a zoned block device - an SMR drive, or
    an emulator of one - as an ordinary disk over iSCSI.  Zones can only be
    written in sequence and are emptied as a whole; a translation layer in between
    maps segments of the logical disk to places in zones, buffers writes, logs
    changes of the map in a journal, and collects zones whose data have been
    overwritten.  This library models the Go program as functions and relations
    of Rocq, file by file, and proves what makes it correct; where the program
    departs from that, a lemma exhibits it.

    ** How the program is modelled

    A Go function that changes shared state or returns an error is a function of
    the monad [M S A] below: from a state to a state and an outcome - a value, an
    error, a panic, or a loop that ran out of fuel.  The state survives an error,
    as mutations made before a [return err] do.  A struct is a record, a method is
    a definition with the name of the method, and objects shared by pointer are
    fields of the state of whoever shares them.  Integers are [Z] with the
    wrap-around of their width written out ([u32], [u64], [i64]); [float64] is IEEE
    binary64 (Float64.v); [[]byte] is [list byte].  The iteration order of a Go
    map, clocks and random numbers are parameters of the definitions that use
    them, and the theorems hold for all of them.

    A method that holds a mutex from beginning to end is one step.  Foreground
    operations of the layer, cycles of the collector, flushes of a buffer and
    commits of the journal are single steps of Background.v, which come in any
    order; so are the requests of a connection, in Initiators.v and Listener.v.

    ** The parts, from the bottom up

    - Prelude, Float64, Bytes: the monad with its weakest-precondition rules,
      machine integers, floats, byte slices and big-endian fields.
    - Config (internal/config), Zbc (pkg/zbc).
    - Backend (internal/backend/backend.go): the [ZonedDevice] interface as a
      class, and as [ZonedDeviceSpec] the laws its comments promise.  The layer is
      verified against the laws only.  Emulator (internal/backend/emulator) and
      Smr, SmrTheorems, SmrStore (internal/backend/smr) discharge them, the latter
      over a transport whose drive meets [ZbcDrive]: a contract on the commands the
      backend sends and on the zones as it reads them, which a drive with the
      descriptors of the design document meets (SmrStore, [EmulatedDrive]) and one
      with those of the ZBC standard (StandardDrive), on which the layer starts but
      finds no zone to write ([standard_drive_refused]).  A failed write may leave
      anything in the sectors it was for.  Device is the interface value that holds
      either backend.
    - Segment, ZoneManager, WriteBuffer, Gc, Ztl (internal/ztl): addresses and
      mapping tables, zone states with the list of open zones, buffered writes,
      the collector, and the layer that composes them.  ZtlInv has the invariant
      [ztl_wf] and the store [ztl_sector] the layer implements; ZtlSpec and GcSpec
      prove each operation against it, ZtlTheorems and GcTheorems state the
      results, ZtlStart that the layer starts, ZtlLimits where it falls short.
    - Crc32c, Wal, Journal, Recovery (internal/journal): records and their
      checksum, the log over a file whose writes and syncs may fail, checkpoints
      and replay.  JournalSpec has the invariant of the file and the class the
      layer knows the journal by; JournalTheorems and RecoveryTheorems the results.
    - Scsi (internal/scsi): the command dispatcher over any [BlockDevice];
      ScsiTheorems on its own, ScsiStore over the layer.
    - Pdu, Network, Params, DataTransfer, Login, Connection, Session, Listener
      (internal/iscsi): protocol units, negotiation, data transfer, the login, the
      full-feature phase, sessions, and the server with its goroutines; the files
      named [...Theorems], ConnectionRun, IscsiStore and Initiators have the results.
    - Background: the collector's loop and the interleaving of background work.
    - Boot (cmd/zns-iscsi/main.go): from a device and a journal file to a running
      layer, recovery included, and the orderly end.  Durable and SmrDurable say what a device keeps over
      a power cycle ([DurableDevice], [DurableDrive]); Logged ties the layer to its
      journal - the records give the forward table ([logged_state]) - and follows
      each operation; Restart and RestartTheorems have lives with any number of
      power cycles, and power losses.
    - Program (cmd/zns-iscsi/main.go): configuration to serving target; ProgramRestart
      runs it again on what it leaves.  Days puts initiators on a layer, day after
      day: over any device that keeps what it was given, and in the program on a drive.
    - Api and ApiServer (internal/api): what the HTTP handlers report, the routes, the
      metrics and their registration.

    ** What is shown

    - The target is a disk: [initiators_refine_store] (any number of initiators,
      PDUs interleaved, background work in between; [iscsi_refines_store] for one),
      [background_refines_store], [ztl_refines_store], [smr_refines_store]: reads
      return what a flat array of sectors returns, and the store ends as that
      array.  [ztl_read_spec], [ztl_write_spec], [ztl_unmap_spec],
      [collect_keeps_store] and [run_cycle_keeps_store] say what each operation
      does on every outcome, errors included.
    - It stays that disk when it is switched off: [device_days_keep_store] (starts,
      initiators and restarts in one statement), [target_days] and
      [target_restarts] (the program on a drive), [restarts_keep_store] (any number of restarts), [restart_succeeds]
      (the next start does not fail), [crash_keeps_flushed] (after a power loss, what
      was not touched since the last flush is there).  What a power loss may do to
      the rest is shown by [overwrite_loses_both]; the emulated device is not one
      that survives its process ([emulator_restart_aliases]).
    - What was made durable survives: [ztl_flush_durable],
      [committed_records_survive], [recover_any_prefix], [open_resumes_lsn],
      [readers_total] (no reader of the journal loops), [record_roundtrip],
      [record_damage_detected].
    - The protocol: [login_follows_automaton] (the login is an abstract
      automaton), [conforming_login_authenticates] (with CHAP, an initiator that
      keeps to the stages logs in by a valid response only), [login_completes],
      [iscsi_exchange], [data_out_reassembles], [data_in_spec], [pdu_roundtrip],
      [text_roundtrip], [negotiation_spec], [negotiation_bounds].
    - The server: [connection_life], [server_sessions], [shutdown_waits],
      [session_manager_invariant].
    - Commands: [execute_answers], [scsi_forms_agree], [scsi_unmap_ranges].
    - Devices and zones: [emulator_invariant], [emulator_write_accepted],
      [zone_manager_invariant], [gc_victim_is_best], [smr_discover].
    - The whole starts in the state these theorems begin with: [start_fresh].

    Hypotheses that recur are limits of the program, not of the proofs.
    - Zone 0 is not taken into use ([zone0_unused], [zone0_kept]), because a segment
      at address 0 is lost ([zone_zero_segment_lost]).
    - Commands are inside the disk, succeed, and write whole segments ([io_ok],
      [ztl_step]; [partial_write_corrupts]); an unmap discards every segment it
      touches, in the specification too ([store_unmap]).
    - No emergency collection is due when a write begins ([emergencyFreeZones] <=
      [FreeZoneCount]).
    - A collected zone has no buffered data and is not the write zone ([gc_pre];
      [gc_loses_buffered_data], [write_zone_collected]); it was not written before the
      last start ([old_zone]), because the reverse map is not recovered
      ([restart_forgets]).  The theorems on restarts and power losses leave collection
      out altogether, since replaying the reset it logs makes a zone free twice
      ([replayed_reset_frees_twice]), and keep the segment size of the configuration.
    - The PDUs of a command have one of the forms the target serves
      ([carries_command]): all data with the command and its F bit, or data
      outstanding, no F bit, and Data-Out PDUs with the final bit on the last.  The
      others are shown to be refused or stuck ([solicited_write_refused],
      [complete_write_stuck]).
    - The journal recovery finds is one the target writes ([history]), perhaps cut
      off; for [committed_records_survive] it begins with whole records
      ([torn_tail_hides_later_records]).
    - The calls of the zone manager name zones that are not free ([zm_step];
      [replayed_reset_frees_twice]).

    ** Fuel

    Loops of the program that are not over a list take fuel: the read loops of a
    login and a connection, where more fuel than input bytes / 48 is enough
    ([connection_life], [login_Run_ends]); the scan of a journal file, given the
    length of the file ([readers_total]); emergency collection, whose callers fix
    no bound, so that theorems about it hold for any fuel.

    ** Not modelled

    - Libraries: YAML and JSON, HTTP routing and static files, the Prometheus
      registry, logging, MD5 and the random source; those the code's results
      depend on are parameters.
    - Command-line flags, the text of log messages, the choice of files by platform.
    - The operating system: opening devices, files and sockets, signals, and what a
      pass-through request does in the kernel; the requests themselves and the
      checks of what comes back are in Smr.
    - The scheduler below the steps named above: a reader of the layer takes no
      lock that covers the whole read, and what it sees in the middle of a write
      is not modelled; nor is a write that comes between the steps of a migration,
      so that its compare-and-swap never loses.  Starting and stopping the tickers
      is not modelled either.
    - The web dashboard (src/web), a client of the HTTP API. *)

From Corelib Require Export ssreflect.
From stdpp Require Export base tactics numbers list list_numbers gmap strings.
From Stdlib Require Export ZArith Lia.

Global Open Scope general_if_scope.

Global Open Scope Z_scope.

(** ** Go errors

    [errors.New] sentinels are identified by the package-level variable that
    holds them; [fmt.Errorf] without [%w] makes a fresh, unwrappable error; with
    [%w] it keeps its cause.  The formatted arguments of a message are not
    modelled, its format string is. *)
Inductive error :=
| ErrorNew (variable : string)
| Errorf (format : string)
| Wrapf (format : string) (cause : error).

#[export] Instance error_eq_dec : EqDecision error.
Proof. solve_decision. Defined.

(** [errors.Is]: equality along the chain of causes. *)
Fixpoint errors_Is (e target : error) : bool :=
  if decide (e = target) then true
  else match e with Wrapf _ c => errors_Is c target | _ => false end.

(** ** Outcomes and the state monad

    A Go function that mutates shared state and returns an error keeps the
    mutations made before the error; [Stop] therefore carries no state of its
    own, the monad threads the state through it. *)
Inductive stop :=
| Failed (e : error)    (* a non-nil error was returned *)
| Panicked              (* index out of range, division by zero *)
| Diverged.             (* the fuel of a loop ran out *)

Inductive outcome (A : Type) :=
| Ok (a : A)
| Stop (r : stop).
Arguments Ok {A} a.
Arguments Stop {A} r.
Abbreviation Fail e := (Stop (Failed e)).
Abbreviation Panic := (Stop Panicked).

(** The call returned, with or without an error. *)
Definition returns {A} (o : outcome A) : Prop :=
  match o with Ok _ => True | Stop (Failed _) => True | _ => False end.
Definition is_ok {A} (o : outcome A) : bool :=
  match o with Ok _ => true | _ => false end.

Definition M (S A : Type) : Type := S → S * outcome A.

#[export] Instance M_ret S : MRet (M S) := λ A a s, (s, Ok a).
#[export] Instance M_bind S : MBind (M S) := λ A B k m s,
  match m s with
  | (s', Ok a) => k a s'
  | (s', Stop r) => (s', Stop r)
  end.

Section combinators.
Context {S : Type}.

Definition stop_with {A} (r : stop) : M S A := λ s, (s, Stop r).
Definition throw {A} (e : error) : M S A := stop_with (Failed e).
Definition panic {A} : M S A := stop_with Panicked.
Definition gets {A} (f : S → A) : M S A := λ s, (s, Ok (f s)).
Definition modify (f : S → S) : M S unit := λ s, (f s, Ok tt).

(** [if err := m(); err != nil { return fmt.Errorf("fmt: %w", err) }] *)
Definition wrap {A} (format : string) (m : M S A) : M S A := λ s,
  match m s with
  | (s', Fail e) => (s', Fail (Wrapf format e))
  | r => r
  end.

(** The error of [m] as a value; a panic is not caught. *)
Definition attempt {A} (m : M S A) : M S (A + error) := λ s,
  match m s with
  | (s', Ok a) => (s', Ok (inl a))
  | (s', Fail e) => (s', Ok (inr e))
  | (s', Stop r) => (s', Stop r)
  end.

(** A conversion that may fail, e.g. a checked index. *)
Definition from_option {A} (r : stop) (o : option A) : M S A :=
  match o with Some a => mret a | None => stop_with r end.

Definition when_ (b : bool) (m : M S unit) : M S unit :=
  if b then m else mret tt.

(** A [for _, x := range xs] loop that threads an accumulator. *)
Fixpoint for_each {A B} (f : A → B → M S A) (a : A) (xs : list B) : M S A :=
  match xs with
  | [] => mret a
  | x :: xs => a ← f a x; for_each f a xs
  end.
End combinators.

(** Running an operation of a component inside a larger state. *)
Definition zoom {S T A} (get : S → T) (put : T → S → S) (m : M T A) : M S A :=
  λ s, let '(t, o) := m (get s) in (put t s, o).

(** ** Weakest preconditions *)
Definition wp {S A} (m : M S A) (Q : S → outcome A → Prop) (s : S) : Prop :=
  Q (m s).1 (m s).2.

Section wp_rules.
Context {S : Type}.
Implicit Types s : S.

Lemma wp_ret {A} (a : A) (Q : S → outcome A → Prop) s : Q s (Ok a) → wp (mret a) Q s.
Proof. done. Qed.

Lemma wp_bind {A B} (m : M S A) (k : A → M S B) (Q : S → outcome B → Prop) s :
  wp m (λ s' o, match o with
                | Ok a => wp (k a) Q s'
                | Stop r => Q s' (Stop r)
                end) s →
  wp (m ≫= k) Q s.
Proof. rw /wp /mbind /M_bind. by destruct (m s) as [s' [a|r]]. Qed.

Lemma wp_mono {A} (m : M S A) (Q1 Q2 : S → outcome A → Prop) s :
  wp m Q1 s → (∀ s' o, Q1 s' o → Q2 s' o) → wp m Q2 s.
Proof. rw /wp. auto. Qed.

Lemma wp_elim {A} (m : M S A) (Q : S → outcome A → Prop) s s' o : m s = (s', o) → wp m Q s → Q s' o.
Proof. rw /wp. by intros ->. Qed.

Lemma bind_ok {A B} (m : M S A) (k : A → M S B) s s' a : m s = (s', Ok a) → (m ≫= k) s = k a s'.
Proof. unfold mbind, M_bind. by intros ->. Qed.

Lemma run_result {A} (m : M S A) s o : (m s).2 = o → m s = ((m s).1, o).
Proof. intros <-. by destruct (m s). Qed.

Lemma wp_of_eq {A} (m : M S A) (Q : S → outcome A → Prop) s s' o : m s = (s', o) → Q s' o → wp m Q s.
Proof. rw /wp. by intros ->. Qed.

Lemma wp_wrap {A} (f : string) (m : M S A) (Q : S → outcome A → Prop) s :
  wp m (λ s' o, match o with
                | Fail e => Q s' (Fail (Wrapf f e))
                | _ => Q s' o
                end) s →
  wp (wrap f m) Q s.
Proof. rw /wp /wrap. by destruct (m s) as [s' [a|[e| |]]]. Qed.

Lemma wp_attempt {A} (m : M S A) (Q : S → outcome (A + error) → Prop) s :
  wp m (λ s' o, match o with
                | Ok a => Q s' (Ok (inl a))
                | Fail e => Q s' (Ok (inr e))
                | Stop r => Q s' (Stop r)
                end) s →
  wp (attempt m) Q s.
Proof. rw /wp /attempt. by destruct (m s) as [s' [a|[e| |]]]. Qed.

Lemma wp_gets {A} (f : S → A) (Q : S → outcome A → Prop) s : Q s (Ok (f s)) → wp (gets f) Q s.
Proof. done. Qed.

Lemma wp_modify (f : S → S) (Q : S → outcome unit → Prop) s : Q (f s) (Ok tt) → wp (modify f) Q s.
Proof. done. Qed.

Lemma wp_stop {A} (r : stop) (Q : S → outcome A → Prop) s : Q s (Stop r) → wp (stop_with r) Q s.
Proof. done. Qed.

Lemma wp_throw {A} (e : error) (Q : S → outcome A → Prop) s : Q s (Fail e) → wp (throw e) Q s.
Proof. done. Qed.

Lemma wp_panic {A} (Q : S → outcome A → Prop) s : Q s Panic → wp panic Q s.
Proof. done. Qed.

Lemma wp_from_option {A} (r : stop) (o : option A) (Q : S → outcome A → Prop) s :
  match o with Some a => Q s (Ok a) | None => Q s (Stop r) end →
  wp (from_option r o) Q s.
Proof. by destruct o. Qed.

Lemma wp_when (b : bool) (m : M S unit) (Q : S → outcome unit → Prop) s :
  (if b then wp m Q s else Q s (Ok tt)) → wp (when_ b m) Q s.
Proof. by destruct b. Qed.

Lemma wp_zoom {T A} (get : S → T) (put : T → S → S) (m : M T A) (Q : S → outcome A → Prop) s :
  wp m (λ t o, Q (put t s) o) (get s) → wp (zoom get put m) Q s.
Proof. rw /wp /zoom. by destruct (m (get s)). Qed.

(** Loop invariant for [for_each]: [I] holds of the iterations done so far. *)
Lemma wp_for_each {A B} (f : A → B → M S A) (I : list B → S → A → Prop)
    (Q : S → outcome A → Prop) xs a s :
  I [] s a →
  (∀ done x todo s a, xs = done ++ x :: todo → I done s a →
    wp (f a x) (λ s' o, match o with
                        | Ok a' => I (done ++ [x]) s' a'
                        | Stop r => Q s' (Stop r)
                        end) s) →
  (∀ s a, I xs s a → Q s (Ok a)) →
  wp (for_each f a xs) Q s.
Proof.
  intros Hinit Hstep Hpost.
  enough (Hgen : ∀ todo pre a s, xs = pre ++ todo → I pre s a →
    wp (for_each f a todo) Q s) by by apply (Hgen xs []).
  induction todo as [|x todo IH]; intros pre a' s' Hxs HI; simpl.
  - apply wp_ret, Hpost. by rw Hxs app_nil_r.
  - apply wp_bind. eapply wp_mono; [by eapply Hstep|].
    intros s'' [a''|r]; [|done]. intros HI'.
    apply (IH (pre ++ [x])); [by rw -app_assoc|done].
Qed.
End wp_rules.

(** Symbolic execution: one rule per combinator, deterministic. *)
Ltac wp_step :=
  lazymatch goal with
  | |- wp (mret _) _ _ => apply wp_ret
  | |- wp (mbind _ _) _ _ => apply wp_bind
  | |- wp (wrap _ _) _ _ => apply wp_wrap
  | |- wp (attempt _) _ _ => apply wp_attempt
  | |- wp (gets _) _ _ => apply wp_gets
  | |- wp (modify _) _ _ => apply wp_modify
  | |- wp (throw _) _ _ => apply wp_throw
  | |- wp (stop_with _) _ _ => apply wp_stop
  | |- wp panic _ _ => apply wp_panic
  | |- wp (from_option _ _) _ _ => apply wp_from_option
  | |- wp (when_ _ _) _ _ => apply wp_when
  | |- wp (zoom _ _ _) _ _ => apply wp_zoom
  end.
Ltac wp_steps := repeat (wp_step; cbn beta iota delta [id]).

(** ** What an operation does to its state whatever its result

    [always R m]: every run of [m] takes a state to one related by the preorder
    [R], on success and on failure. *)
Definition on {S T} (f : S → T) (R : relation T) : relation S := λ x y, R (f x) (f y).
#[export] Instance on_preorder {S T} (f : S → T) (R : relation T) : PreOrder R → PreOrder (on f R).
Proof. intros HR. split; [intros x; apply HR|intros x y z; apply HR]. Qed.

Definition always {S A} (R : relation S) (m : M S A) : Prop := ∀ s, R s (m s).1.

Section always.
Context {S : Type} (R : relation S) `{HR : !PreOrder R}.

Lemma always_ret {A} (a : A) : always R (mret a).
Proof using HR. intros s. apply HR. Qed.
Lemma always_stop {A} r : always R (stop_with r : M S A).
Proof using HR. intros s. apply HR. Qed.
Lemma always_throw {A} e : always R (throw e : M S A).
Proof using HR. intros s. apply HR. Qed.
Lemma always_gets {A} (f : S → A) : always R (gets f).
Proof using HR. intros s. apply HR. Qed.
Lemma always_modify f : (∀ s, R s (f s)) → always R (modify f).
Proof using. by intros H s. Qed.
Lemma always_bind {A B} (m : M S A) (k : A → M S B) :
  always R m → (∀ a, always R (k a)) → always R (m ≫= k).
Proof using HR.
  intros Hm Hk s. unfold mbind, M_bind. specialize (Hm s). destruct (m s) as [s' [a|r]]; [|done].
  etrans; [exact Hm|apply Hk].
Qed.
Lemma always_wrap {A} f (m : M S A) : always R m → always R (wrap f m).
Proof using. intros Hm s. specialize (Hm s). unfold wrap. by destruct (m s) as [s' [a|[e| |]]]. Qed.
Lemma always_attempt {A} (m : M S A) : always R m → always R (attempt m).
Proof using. intros Hm s. specialize (Hm s). unfold attempt. by destruct (m s) as [s' [a|[e| |]]]. Qed.
Lemma always_for_each {A B} (f : A → B → M S A) a l :
  (∀ a b, always R (f a b)) → always R (for_each f a l).
Proof using HR.
  intros Hf. revert a. induction l as [|b l IH]; intros a; simpl; [apply always_ret|].
  apply always_bind; [apply Hf|exact IH].
Qed.
End always.

(** Composite operations that succeed, taken apart and put together. *)
Lemma bind_inv {S A B} (m : M S A) (k : A → M S B) s s' b :
  (m ≫= k) s = (s', Ok b) → ∃ s1 a, m s = (s1, Ok a) ∧ k a s1 = (s', Ok b).
Proof. unfold mbind, M_bind. destruct (m s) as [s1 [a|r]]; [|done]. intros Hk. by exists s1, a. Qed.
Lemma wrap_inv {S A} f (m : M S A) s s' a : wrap f m s = (s', Ok a) → m s = (s', Ok a).
Proof. unfold wrap. by destruct (m s) as [s1 [b|[e| |]]]. Qed.
Lemma wrap_ok {S A} f (m : M S A) s s' a : m s = (s', Ok a) → wrap f m s = (s', Ok a).
Proof. unfold wrap. by intros ->. Qed.
Lemma zoom_inv {S T A} (get : S → T) (put : T → S → S) (m : M T A) s s' a :
  zoom get put m s = (s', Ok a) → ∃ t, m (get s) = (t, Ok a) ∧ s' = put t s.
Proof. unfold zoom. destruct (m (get s)) as [t o]. intros [= <- ->]. by exists t. Qed.
Lemma zoom_ok {S T A} (get : S → T) (put : T → S → S) (m : M T A) s t a :
  m (get s) = (t, Ok a) → zoom get put m s = (put t s, Ok a).
Proof. unfold zoom. by intros ->. Qed.

Lemma always_zoom {S T A} (R : relation T) (get : S → T) (put : T → S → S) (m : M T A) :
  (∀ t s, get (put t s) = t) → always R m → always (on get R) (zoom get put m).
Proof. intros Hg Hm s. specialize (Hm (get s)). unfold on, zoom. destruct (m (get s)). by rw Hg. Qed.

Lemma always_zoom_other {S T U A} (R : relation U) (f : S → U) (get : S → T) (put : T → S → S) (m : M T A) :
  Reflexive R → (∀ t s, f (put t s) = f s) → always (on f R) (zoom get put m).
Proof. intros HR Hf s. unfold on, zoom. destruct (m (get s)). simpl. rw Hf. apply HR. Qed.

(** [always] of a composite operation from that of its parts: the parts are
    looked up in the hint database [always]. *)
Create HintDb always.
Ltac always_step :=
  lazymatch goal with
  | |- always _ (mret _) => apply always_ret; apply _
  | |- always _ (mbind _ _) => apply always_bind; [apply _| |intros ?]
  | |- always _ (stop_with _) => apply always_stop; apply _
  | |- always _ (throw _) => apply always_throw; apply _
  | |- always _ (gets _) => apply always_gets; apply _
  | |- always _ (modify _) => apply always_modify; intros ?; unfold on; cbn; try reflexivity
  | |- always _ (wrap _ _) => apply always_wrap
  | |- always _ (attempt _) => apply always_attempt
  | |- always _ (for_each _ _ _) => apply always_for_each; [apply _|intros ? ?]
  | |- always _ (when_ _ _) => unfold when_
  | |- always _ (if _ then _ else _) => case_match
  | |- always _ (match _ with _ => _ end) => case_match
  | |- always _ _ => solve [auto with always]
  end.
Ltac always := repeat always_step.

(** Plain evaluation of a monadic definition. *)
Ltac M_unfold := unfold mbind, M_bind, mret, M_ret, gets, modify, throw, stop_with, id; cbn.

(** ** Machine integers: [Z] with the wrap-around written out. *)
Definition u8 (z : Z) : Z := z `mod` 2^8.
Definition u16 (z : Z) : Z := z `mod` 2^16.
Definition u32 (z : Z) : Z := z `mod` 2^32.
Definition u64 (z : Z) : Z := z `mod` 2^64.
(** Conversion to Go's 64-bit [int] / [int64]. *)
Definition i64 (z : Z) : Z := (z + 2^63) `mod` 2^64 - 2^63.

Lemma u64_small z : 0 ≤ z < 2^64 → u64 z = z.
Proof. apply Z.mod_small. Qed.
Lemma u64_range z : 0 ≤ u64 z < 2^64.
Proof. by apply Z.mod_pos_bound. Qed.
Lemma u32_small z : 0 ≤ z < 2^32 → u32 z = z.
Proof. apply Z.mod_small. Qed.
Lemma u32_range z : 0 ≤ u32 z < 2^32.
Proof. by apply Z.mod_pos_bound. Qed.
Lemma i64_small z : -2^63 ≤ z < 2^63 → i64 z = z.
Proof. intros. unfold i64. rw Z.mod_small; lia. Qed.

(** Arithmetic and length facts that goals are closed with. *)
Create HintDb go.
#[export] Hint Resolve u64_range u32_range : go.

(** Packing two bit fields. *)
Lemma lor_shiftl_low a b k : 0 ≤ k → 0 ≤ b < 2^k → Z.lor (Z.shiftl a k) b = a * 2^k + b.
Proof.
  intros Hk Hb.
  assert (Hland : Z.land (Z.shiftl a k) b = 0).
  { apply Z.bits_inj'. intros i Hi. rw Z.land_spec Z.bits_0.
    destruct (Z.lt_ge_cases i k).
    - by rw Z.shiftl_spec_low.
    - rw -(Z.mod_small b (2^k)) // Z.mod_pow2_bits_high; [lia|]. by rw andb_false_r. }
  rw -Z.lxor_lor // -Z.add_nocarry_lxor // Z.shiftl_mul_pow2 //.
Qed.
