(* ===== verification/Float64.v ===== *)
(** * Go's [float64]

    IEEE 754 binary64, on the executable specification of floating-point
    numbers of the core library.  The collector's scores and ratios are quotients of
    non-negative integers; the lemmas show they are never NaN and that the
    order on them is total and transitive. *)

From S2P Require Import Prelude.
From Corelib Require Export SpecFloat.

Definition float64_of_Z (z : Z) : spec_float := binary_normalize 53 1024 z 0 false.
Definition float64_div (x y : spec_float) : spec_float := SFdiv 53 1024 x y.
Definition float64_lt (x y : spec_float) : bool := SFltb x y.

(** Neither NaN nor negative. *)
Definition f_nonneg (x : spec_float) : Prop :=
  match x with
  | S754_zero _ | S754_infinity false | S754_finite false _ _ => True
  | _ => False
  end.

(** ** Rounding keeps the sign *)
Lemma iter_pos_inv {A} (P : A → Prop) f n x : (∀ y, P y → P (f y)) → P x → P (iter_pos f n x).
Proof. intros Hf. revert x. induction n; simpl; auto. Qed.

Lemma shr_1_nonneg r : 0 ≤ shr_m r → 0 ≤ shr_m (shr_1 r).
Proof. destruct r as [[|[]|] ? ?]; simpl; lia. Qed.

Lemma shr_fexp_nonneg m e l : 0 ≤ m → 0 ≤ shr_m (shr_fexp 53 1024 m e l).1.
Proof.
  intros Hm. unfold shr_fexp, shr.
  assert (0 ≤ shr_m (shr_record_of_loc m l)) by (destruct l as [|[]]; done).
  case_match; simpl; [done| |done]. by apply iter_pos_inv; [apply shr_1_nonneg|].
Qed.

Lemma round_nearest_even_nonneg m l : 0 ≤ m → 0 ≤ round_nearest_even m l.
Proof. destruct l as [|[]]; simpl; try case_match; lia. Qed.

Lemma binary_round_aux_nonneg m e l : 0 ≤ m → f_nonneg (binary_round_aux 53 1024 false m e l).
Proof.
  intros Hm. unfold binary_round_aux.
  pose proof (shr_fexp_nonneg m e l Hm) as H1. destruct (shr_fexp 53 1024 m e l) as [r e'].
  simpl in H1. pose proof (shr_fexp_nonneg _ e' loc_Exact
    (round_nearest_even_nonneg _ (loc_of_shr_record r) H1)) as H2.
  destruct (shr_fexp _ _ _ e' _) as [r' e'']. simpl in H2.
  destruct (shr_m r'); [done| |lia]. by case_match.
Qed.

(** ** Integers below 2^53 are exact *)
Lemma digits2_iter_xO p d : digits2_pos (Pos.iter xO p d) = (digits2_pos p + d)%positive.
Proof.
  induction d as [|d IH] using Pos.peano_ind; simpl; [by rw Pos.add_1_r|].
  rw Pos.iter_succ /= IH. lia.
Qed.

Lemma digits2_bound p k : Z.pos p < 2 ^ k → 0 ≤ k → Z.pos (digits2_pos p) ≤ k.
Proof.
  revert k. induction p as [p IH|p IH|]; intros k Hp Hk; simpl.
  - destruct (decide (k = 0)) as [->|]; [lia|]. specialize (IH (k - 1)).
    replace k with (Z.succ (k - 1)) in Hp by lia. rw Z.pow_succ_r in Hp; lia.
  - destruct (decide (k = 0)) as [->|]; [lia|]. specialize (IH (k - 1)).
    replace k with (Z.succ (k - 1)) in Hp by lia. rw Z.pow_succ_r in Hp; lia.
  - destruct (decide (k = 0)) as [->|]; lia.
Qed.

Lemma float64_of_pos p : Z.pos p < 2^53 → ∃ m e, float64_of_Z (Z.pos p) = S754_finite false m e.
Proof.
  intros Hp. pose proof (digits2_bound p 53 Hp ltac:(lia)) as Hd.
  unfold float64_of_Z, binary_normalize, binary_round, shl_align.
  set (d := Z.pos (digits2_pos p)) in *.
  assert (Hfe : fexp 53 1024 (d + 0) = d - 53) by (unfold fexp, emin; lia). rw Hfe.
  assert (Hfix : ∀ q, Z.pos (digits2_pos q) = 53 →
    binary_round_aux 53 1024 false (Z.pos q) (d - 53) loc_Exact = S754_finite false q (d - 53)).
  { intros q Hq. unfold binary_round_aux.
    assert (Hs : shr_fexp 53 1024 (Z.pos q) (d - 53) loc_Exact
                 = ({| shr_m := Z.pos q; shr_r := false; shr_s := false |}, d - 53)).
    { unfold shr_fexp. simpl Zdigits2. rw Hq.
      replace (fexp 53 1024 (53 + (d - 53)) - (d - 53)) with 0; [done|]. unfold fexp, emin. lia. }
    rw Hs /= Hs /=. destruct (Z.leb_spec (d - 53) (1024 - 53)); [done|lia]. }
  destruct (d - 53 - 0) as [|k|k] eqn:E; [|lia|].
  - exists p, (d - 53). replace 0 with (d - 53) at 1 by lia. apply Hfix. unfold d in *. lia.
  - exists (Pos.iter xO p k), (d - 53). apply Hfix. rw digits2_iter_xO. unfold d in *. lia.
Qed.

(** A quotient of naturals. *)
Lemma float64_ratio_nonneg a b :
  0 ≤ a < 2^53 → 0 < b < 2^53 → f_nonneg (float64_div (float64_of_Z a) (float64_of_Z b)).
Proof.
  intros Ha Hb. destruct b as [|b|]; [lia| |lia].
  destruct (float64_of_pos b) as (mb & eb & ->); [lia|].
  destruct a as [|a|]; [done| |lia].
  destruct (float64_of_pos a) as (ma & ea & ->); [lia|].
  unfold float64_div, SFdiv. simpl xorb.
  destruct (SFdiv_core_binary 53 1024 (Z.pos ma) ea (Z.pos mb) eb) as [[q e] l] eqn:E.
  apply binary_round_aux_nonneg. unfold SFdiv_core_binary in E.
  set (m' := match _ with Z0 => _ | _ => _ end) in E.
  assert (0 ≤ m') by (unfold m'; repeat case_match; first [lia | by apply Z.shiftl_nonneg]).
  destruct (Z.div_eucl m' (Z.pos mb)) as [q' r] eqn:Hdiv.
  injection E as <- _ _. replace q' with (m' / Z.pos mb) by (unfold Z.div; by rw Hdiv).
  apply Z.div_pos; lia.
Qed.

(** ** Order *)
Lemma float64_lt_neg1 x : f_nonneg x → float64_lt (float64_of_Z (-1)) x = true.
Proof. by destruct x as [|[]| |[]]. Qed.

Lemma Pcompare_cases m n :
  match Pos.compare_cont Eq m n with
  | Lt => (m < n)%positive | Eq => m = n | Gt => (n < m)%positive
  end.
Proof. change (Pos.compare_cont Eq m n) with (m ?= n)%positive. case: Pos.compare_spec; lia. Qed.

Lemma float64_lt_irrefl x : float64_lt x x = false.
Proof.
  unfold float64_lt, SFltb. destruct x as [|[]| |[] m e]; simpl; try done;
    rw Z.compare_refl; by rw (Pos.compare_refl m : Pos.compare_cont Eq m m = Eq).
Qed.

(** If [x] does not exceed [y] and [y < z], then [x] does not exceed [z]. *)
Lemma float64_lt_not_trans x y z :
  f_nonneg x → f_nonneg y → f_nonneg z →
  float64_lt y x = false → float64_lt y z = true → float64_lt z x = false.
Proof.
  unfold float64_lt, SFltb.
  destruct x as [|[]| |[] mx ex], y as [|[]| |[] my ey], z as [|[]| |[] mz ez]; simpl; try done.
  destruct (Z.compare_spec ey ex), (Z.compare_spec ey ez), (Z.compare_spec ez ex); subst;
    try done; try lia;
    repeat match goal with
    | |- context [Pos.compare_cont Eq ?a ?b] =>
        let H := fresh in pose proof (Pcompare_cases a b) as H;
        destruct (Pos.compare_cont Eq a b)
    end; intros; subst; done || lia.
Qed.
