(* ===== verification/Bytes.v ===== *)
(** * Bytes, byte slices, big-endian integers and 512-byte sectors

    The data types every component shares: Go's [[]byte] is [list byte], a
    slice expression is [slice], [copy(dst[off:], src)] is [copy_at], and
    [encoding/binary.BigEndian] is [be_put] / [be_get]. *)

From S2P Require Export Prelude.
From Stdlib.Strings Require Byte.

Abbreviation byte := Corelib.Init.Byte.byte.

Definition Z_of_byte (b : byte) : Z := Z.of_N (Byte.to_N b).
Definition byte_of_Z (z : Z) : byte :=
  match Byte.of_N (Z.to_N (u8 z)) with Some b => b | None => Corelib.Init.Byte.x00 end.
Definition zero_byte : byte := byte_of_Z 0.

#[export] Instance byte_eq_dec : EqDecision byte := Byte.byte_eq_dec.
#[export] Instance byte_inhabited : Inhabited byte := populate zero_byte.

(** [make([]byte, n)] *)
Definition make_bytes (n : Z) : list byte := replicate (Z.to_nat n) zero_byte.

(** [len(l)] *)
Definition len {A} (l : list A) : Z := Z.of_nat (length l).

(** [l[i:j]] for [0 <= i <= j <= len l]. *)
Definition slice {A} (i j : Z) (l : list A) : list A :=
  take (Z.to_nat (j - i)) (drop (Z.to_nat i) l).

(** [l[i:j]] with Go's bounds check. *)
Definition slice_checked {A} (i j : Z) (l : list A) : option (list A) :=
  if bool_decide (0 ≤ i ∧ i ≤ j ∧ j ≤ len l) then Some (slice i j l) else None.

(** [l[i]] with Go's bounds check. *)
Definition index {A} (l : list A) (i : Z) : option A :=
  if bool_decide (0 ≤ i) then l !! Z.to_nat i else None.

(** [copy(dst[off:], src)] for [0 <= off <= len dst]: copies the shorter of the
    two lengths. *)
Definition copy_at {A} (off : Z) (src dst : list A) : list A :=
  take (Z.to_nat off) dst
  ++ take (length dst - Z.to_nat off)%nat src
  ++ drop (Z.to_nat off + length src)%nat dst.

(** [binary.BigEndian.PutUintN]: the [n] low-order bytes, most significant first. *)
Fixpoint be_put (n : nat) (z : Z) : list byte :=
  match n with
  | O => []
  | S n => be_put n (z / 256) ++ [byte_of_Z z]
  end.

(** [binary.BigEndian.UintN] *)
Definition be_get (l : list byte) : Z :=
  foldl (λ acc b, acc * 256 + Z_of_byte b) 0 l.

Definition sectorSize : Z := 512.

(** The [i]-th 512-byte sector of a byte string. *)
Definition sec (l : list byte) (i : Z) : list byte :=
  slice (sectorSize * i) (sectorSize * (i + 1)) l.

(** ** Bytes *)
Lemma Z_of_byte_range b : 0 ≤ Z_of_byte b < 256.
Proof.
  unfold Z_of_byte. pose proof (Byte.to_N_bounded b). lia.
Qed.

Lemma byte_of_Z_of_byte b : byte_of_Z (Z_of_byte b) = b.
Proof.
  unfold byte_of_Z, Z_of_byte, u8. rw Z.mod_small; [apply Z_of_byte_range|].
  by rw N2Z.id Byte.of_to_N.
Qed.

Lemma Z_of_byte_of_Z z : Z_of_byte (byte_of_Z z) = u8 z.
Proof.
  unfold byte_of_Z, Z_of_byte.
  assert (0 ≤ u8 z < 256) as Hr by (by apply Z.mod_pos_bound).
  destruct (Byte.of_N (Z.to_N (u8 z))) eqn:E.
  - apply Byte.to_of_N in E. lia.
  - apply Byte.of_N_None_iff in E. lia.
Qed.

#[export] Instance Z_of_byte_inj : Inj (=) (=) Z_of_byte.
Proof. intros a b H. by rw -(byte_of_Z_of_byte a) H byte_of_Z_of_byte. Qed.

(** ** Big-endian integers *)
Lemma be_put_length n z : length (be_put n z) = n.
Proof.
  revert z. induction n as [|n IH]; intros z; [done|].
  simpl. rw length_app IH /=. lia.
Qed.

Lemma be_get_snoc l b : be_get (l ++ [b]) = be_get l * 256 + Z_of_byte b.
Proof. unfold be_get. by rw foldl_app. Qed.

Lemma be_get_range l : 0 ≤ be_get l < 256 ^ len l.
Proof.
  unfold len. induction l as [|b l IH] using rev_ind; [done|].
  rw be_get_snoc length_app Nat2Z.inj_add Z.pow_add_r; [lia..|].
  pose proof (Z_of_byte_range b). change (256 ^ Z.of_nat (length [b])) with 256. lia.
Qed.

Lemma be_get_put n z : be_get (be_put n z) = z `mod` 256 ^ Z.of_nat n.
Proof.
  revert z. induction n as [|n IH]; intros z; [by rw Z.mod_1_r|].
  simpl be_put. rw be_get_snoc IH Z_of_byte_of_Z.
  unfold u8. change (2 ^ 8) with 256.
  rw Nat2Z.inj_succ Z.pow_succ_r; [lia|].
  rw Z.rem_mul_r; [lia|apply Z.pow_pos_nonneg; lia|]. lia.
Qed.

Lemma be_put_get l : be_put (length l) (be_get l) = l.
Proof.
  induction l as [|b l IH] using rev_ind; [done|].
  rw length_app Nat.add_comm /= be_get_snoc.
  pose proof (Z_of_byte_range b).
  rw Z.div_add_l; [lia|]. rw Z.div_small; [done|]. rw Z.add_0_r IH.
  do 2 f_equal. rw -{2}(byte_of_Z_of_byte b). unfold byte_of_Z, u8.
  change (2 ^ 8) with 256. by rw Z.add_comm Z.mod_add.
Qed.

Lemma be_get_put_small n z :
  0 ≤ z < 256 ^ Z.of_nat n → be_get (be_put n z) = z.
Proof. intros. rw be_get_put. by apply Z.mod_small. Qed.

(** ** Slices *)
Section slices.
Context {A : Type}.
Implicit Types l : list A.

Lemma len_nonneg l : 0 ≤ len l.
Proof. unfold len. lia. Qed.

Lemma len_app l1 l2 : len (l1 ++ l2) = len l1 + len l2.
Proof. unfold len. rw length_app. lia. Qed.

Lemma len_slice i j l : 0 ≤ i ≤ j → j ≤ len l → len (slice i j l) = j - i.
Proof. unfold len, slice. intros. rw length_take length_drop. lia. Qed.

Lemma lookup_slice i j l k :
  slice i j l !! k = if decide (k < Z.to_nat (j - i))%nat then l !! (Z.to_nat i + k)%nat else None.
Proof.
  unfold slice. case_decide.
  - by rw lookup_take_lt // lookup_drop.
  - rw lookup_take_ge //. lia.
Qed.

Lemma slice_checked_Some i j l : 0 ≤ i ≤ j → j ≤ len l → slice_checked i j l = Some (slice i j l).
Proof. intros. unfold slice_checked. rw bool_decide_true //. lia. Qed.

Lemma slice_slice i j i' j' l :
  0 ≤ i → 0 ≤ i' → j' ≤ j - i → slice i' j' (slice i j l) = slice (i + i') (i + j') l.
Proof.
  intros. apply list_eq. intros k. rw !lookup_slice.
  repeat case_decide; try done; try lia. f_equal. lia.
Qed.

Lemma slice_all l : slice 0 (len l) l = l.
Proof. unfold slice, len. rw drop_0 take_ge //. lia. Qed.

Lemma slice_split i j k l : 0 ≤ i ≤ j → j ≤ k → slice i j l ++ slice j k l = slice i k l.
Proof.
  intros Hij Hjk. unfold slice.
  replace (Z.to_nat (k - i)) with (Z.to_nat (j - i) + Z.to_nat (k - j))%nat by lia.
  rw -take_take_drop drop_drop. do 3 f_equal. lia.
Qed.

Lemma len_copy_at off (src dst : list A) : 0 ≤ off ≤ len dst → len (copy_at off src dst) = len dst.
Proof.
  unfold len, copy_at. intros. rw !length_app !length_take length_drop. lia.
Qed.

Lemma lookup_copy_at off (src dst : list A) k :
  0 ≤ off → off + len src ≤ len dst →
  copy_at off src dst !! k =
  if decide (Z.to_nat off ≤ k < Z.to_nat off + length src)%nat
  then src !! (k - Z.to_nat off)%nat else dst !! k.
Proof.
  unfold copy_at, len. intros. rw (take_ge src); [lia|].
  case_decide as Hk.
  - rw lookup_app_r; [rw length_take; lia|].
    rw lookup_app_l; rw length_take; [lia|]. f_equal. lia.
  - destruct (decide (k < Z.to_nat off)%nat).
    + rw lookup_app_l; [rw length_take; lia|]. by rw lookup_take_lt.
    + rw !lookup_app_r ?length_take; [lia..|]. rw lookup_drop. f_equal. lia.
Qed.
End slices.

Lemma len_make_bytes n : 0 ≤ n → len (make_bytes n) = n.
Proof. unfold len, make_bytes. intros. rw length_replicate. lia. Qed.

Lemma make_bytes_slice n i j : 0 ≤ i ≤ j → j ≤ n → slice i j (make_bytes n) = make_bytes (j - i).
Proof.
  intros. apply list_eq. intros k. rw lookup_slice. unfold make_bytes.
  case_decide.
  - rw !lookup_replicate_2 //; lia.
  - symmetry. apply lookup_ge_None. rw length_replicate. lia.
Qed.

(** ** Sectors *)
Definition zero_sector : list byte := make_bytes sectorSize.

Lemma len_sec l i : 0 ≤ i → sectorSize * (i + 1) ≤ len l → len (sec l i) = sectorSize.
Proof. unfold sec, sectorSize. intros. rw len_slice; lia. Qed.

Lemma sec_slice l i j k :
  0 ≤ i → 0 ≤ k < j - i → sec (slice (sectorSize * i) (sectorSize * j) l) k = sec l (i + k).
Proof.
  unfold sec, sectorSize. intros. rw slice_slice; [lia..|]. f_equal; lia.
Qed.

Lemma sec_app_l l1 l2 i : 0 ≤ i → sectorSize * (i + 1) ≤ len l1 → sec (l1 ++ l2) i = sec l1 i.
Proof.
  unfold sec, sectorSize, len. intros. apply list_eq. intros k. rw !lookup_slice.
  case_decide; [|done]. rw lookup_app_l //. lia.
Qed.

Lemma sec_app_r l1 l2 n i : len l1 = sectorSize * n → n ≤ i → sec (l1 ++ l2) i = sec l2 (i - n).
Proof.
  unfold sec, sectorSize, len. intros. apply list_eq. intros k. rw !lookup_slice.
  do 2 (case_decide; try lia); [|done]. rw lookup_app_r; [lia|]. f_equal. lia.
Qed.

Lemma sec_make_bytes n i : 0 ≤ i → sectorSize * (i + 1) ≤ n → sec (make_bytes n) i = zero_sector.
Proof.
  unfold sec, zero_sector, sectorSize. intros. rw make_bytes_slice; [lia..|]. f_equal. lia.
Qed.

(** Copying whole sectors replaces exactly those sectors. *)
Lemma sec_copy_at off m src dst i :
  0 ≤ off → 0 ≤ i → len src = sectorSize * m → sectorSize * (off + m) ≤ len dst →
  sec (copy_at (sectorSize * off) src dst) i =
  if decide (off ≤ i < off + m) then sec src (i - off) else sec dst i.
Proof.
  unfold sec, sectorSize. intros. apply list_eq. intros k.
  rw lookup_slice. unfold len in *.
  case_decide; case_decide; rw lookup_slice; case_decide; try lia; try done.
  - rw lookup_copy_at; [lia|unfold len; lia|]. rw decide_True; [lia|]. f_equal. lia.
  - rw lookup_copy_at; [lia|unfold len; lia|]. rw decide_False //. lia.
Qed.

(** Byte strings made of the same sectors are equal. *)
Lemma sec_ext l1 l2 n :
  len l1 = sectorSize * n → len l2 = sectorSize * n →
  (∀ i, 0 ≤ i < n → sec l1 i = sec l2 i) → l1 = l2.
Proof.
  unfold sectorSize, len. intros H1 H2 H. apply list_eq. intros k.
  destruct (decide (k < length l1)%nat).
  2: { rw !lookup_ge_None_2 //; lia. }
  set (i := Z.of_nat k / 512).
  assert (Hi : 0 ≤ i < n).
  { split; [apply Z.div_pos; lia|]. apply Z.div_lt_upper_bound; lia. }
  specialize (H i Hi).
  pose proof (Z.div_mod (Z.of_nat k) 512 ltac:(lia)) as Hdm. fold i in Hdm.
  pose proof (Z.mod_pos_bound (Z.of_nat k) 512 ltac:(lia)).
  apply (f_equal (λ l, l !! Z.to_nat (Z.of_nat k `mod` 512))) in H.
  unfold sec, sectorSize in H. rw !lookup_slice in H. rw !decide_True in H; [lia..|].
  replace (Z.to_nat (512 * i) + Z.to_nat (Z.of_nat k `mod` 512))%nat with k in H by lia.
  done.
Qed.

Lemma slice_app_low {A} (l1 l2 : list A) i j : 0 ≤ i → j ≤ len l1 → slice i j (l1 ++ l2) = slice i j l1.
Proof.
  unfold slice, len. intros. destruct (decide (i ≤ j)) as [Hij|].
  - rw drop_app_le; [lia|]. rw take_app_le //. rw length_drop. lia.
  - by replace (Z.to_nat (j - i)) with 0%nat by lia.
Qed.

Lemma nil_of_len {A} (l : list A) : (0 <? len l) = false → l = [].
Proof. destruct l; [done|]. intros Hl%Z.ltb_ge. unfold len in Hl. simpl in Hl. lia. Qed.
