(* ===== verification/Config.v ===== *)
(** * [internal/config]: configuration, defaults and validation

    Reading the file and parsing YAML are parameters of [Load]; everything the
    code does with the result is modelled. *)

From S2P Require Import Bytes Float64.
Local Open Scope string_scope.
Local Open Scope Z_scope.

Record AuthConfig := { au_Enabled : bool; au_CHAPUser : string; au_CHAPSecret : string }.
Record TargetConfig := {
  tg_IQN : string;
  tg_Portal : string;
  tg_MaxSessions : Z;
  tg_Auth : AuthConfig;
}.
Record DeviceEmulatorConfig := { dec_ZoneCount : Z; dec_ZoneSizeMB : Z; dec_MaxOpenZones : Z }.
Record DeviceConfig := {
  dv_Backend : string;
  dv_Path : string;
  dv_Emulator : DeviceEmulatorConfig;
}.
Record ZTLConfig := {
  zc_SegmentSizeKB : Z;
  zc_BufferSizeMB : Z;
  zc_BufferFlushAgeSec : Z;
  zc_GCTriggerFreeRatio : spec_float;
  zc_GCEmergencyFreeZones : Z;
}.
Record JournalConfig := {
  jc_Path : string;
  jc_CheckpointIntervalSec : Z;
  jc_SyncPeriodMs : Z;
  jc_MaxSizeMB : Z;
}.
Record Config := {
  cfg_Target : TargetConfig;
  cfg_Device : DeviceConfig;
  cfg_ZTL : ZTLConfig;
  cfg_Journal : JournalConfig;
  cfg_API_Listen : string;
  cfg_Log_Level : string;
  cfg_Log_Format : string;
}.

(** The literal [0.20] is the float64 nearest to 1/5. *)
Definition DefaultConfig : Config := {|
  cfg_Target := {|
    tg_IQN := "iqn.2026-02.io.zns:target0"; tg_Portal := "0.0.0.0:3260"; tg_MaxSessions := 4;
    tg_Auth := {| au_Enabled := false; au_CHAPUser := ""; au_CHAPSecret := "" |} |};
  cfg_Device := {|
    dv_Backend := "emulator"; dv_Path := "";
    dv_Emulator := {| dec_ZoneCount := 64; dec_ZoneSizeMB := 256; dec_MaxOpenZones := 14 |} |};
  cfg_ZTL := {|
    zc_SegmentSizeKB := 8; zc_BufferSizeMB := 512; zc_BufferFlushAgeSec := 5;
    zc_GCTriggerFreeRatio := float64_div (float64_of_Z 1) (float64_of_Z 5);
    zc_GCEmergencyFreeZones := 3 |};
  cfg_Journal := {|
    jc_Path := "/var/lib/zns-iscsi/journal.wal"; jc_CheckpointIntervalSec := 60;
    jc_SyncPeriodMs := 10; jc_MaxSizeMB := 1024 |};
  cfg_API_Listen := "0.0.0.0:8080";
  cfg_Log_Level := "info";
  cfg_Log_Format := "json";
|}.

(** Go's [x <= y] on floats is false when either is NaN. *)
Definition float64_le (x y : spec_float) : bool := SFleb x y.

Definition Config_Validate (c : Config) : outcome unit :=
  if bool_decide (tg_IQN (cfg_Target c) = "") then Fail (Errorf "target.iqn is required")
  else if tg_MaxSessions (cfg_Target c) <=? 0
  then Fail (Errorf "target.max_sessions must be positive")
  else if negb (bool_decide (dv_Backend (cfg_Device c) = "emulator")) &&
          negb (bool_decide (dv_Backend (cfg_Device c) = "smr"))
  then Fail (Errorf "device.backend must be 'emulator' or 'smr', got %q")
  else if bool_decide (dv_Backend (cfg_Device c) = "smr") && bool_decide (dv_Path (cfg_Device c) = "")
  then Fail (Errorf "device.path is required when backend is 'smr'")
  else if dec_ZoneCount (dv_Emulator (cfg_Device c)) <=? 0
  then Fail (Errorf "device.emulator.zone_count must be positive")
  else if dec_ZoneSizeMB (dv_Emulator (cfg_Device c)) <=? 0
  then Fail (Errorf "device.emulator.zone_size_mb must be positive")
  else if dec_MaxOpenZones (dv_Emulator (cfg_Device c)) <=? 0
  then Fail (Errorf "device.emulator.max_open_zones must be positive")
  else if zc_SegmentSizeKB (cfg_ZTL c) <=? 0
  then Fail (Errorf "ztl.segment_size_kb must be positive")
  else if float64_le (zc_GCTriggerFreeRatio (cfg_ZTL c)) (float64_of_Z 0) ||
          float64_le (float64_of_Z 1) (zc_GCTriggerFreeRatio (cfg_ZTL c))
  then Fail (Errorf "ztl.gc_trigger_free_ratio must be between 0 and 1")
  else if jc_SyncPeriodMs (cfg_Journal c) <=? 0
  then Fail (Errorf "journal.sync_period_ms must be positive")
  else Ok tt.

(** [uint64(int)] conversions wrap. *)
Definition SectorsPerSegment (c : Config) : Z :=
  u64 (u64 (zc_SegmentSizeKB (cfg_ZTL c)) * 1024) / 512.
Definition ZoneSizeSectors (c : Config) : Z :=
  u64 (u64 (u64 (dec_ZoneSizeMB (dv_Emulator (cfg_Device c))) * 1024) * 1024) / 512.

Section load.
(** [os.ReadFile] and [yaml.Unmarshal] (which overrides the fields the file sets). *)
Context (ReadFile : string → outcome (list byte)).
Context (Unmarshal : list byte → Config → outcome Config).

Definition wrap_outcome {A} (format : string) (o : outcome A) : outcome A :=
  match o with Fail e => Fail (Wrapf format e) | _ => o end.

Definition Config_Load (path : string) : outcome Config :=
  match wrap_outcome "reading config file %q: %w" (ReadFile path) with
  | Stop r => Stop r
  | Ok data =>
      match wrap_outcome "parsing config file %q: %w" (Unmarshal data DefaultConfig) with
      | Stop r => Stop r
      | Ok cfg =>
          match wrap_outcome "invalid config: %w" (Config_Validate cfg) with
          | Stop r => Stop r
          | Ok _ => Ok cfg
          end
      end
  end.
End load.

(** ** What validation guarantees *)
Record config_ok (c : Config) : Prop := {
  ok_iqn : tg_IQN (cfg_Target c) ≠ "";
  ok_sessions : 0 < tg_MaxSessions (cfg_Target c);
  ok_backend : dv_Backend (cfg_Device c) = "emulator" ∨
               dv_Backend (cfg_Device c) = "smr" ∧ dv_Path (cfg_Device c) ≠ "";
  ok_zones : 0 < dec_ZoneCount (dv_Emulator (cfg_Device c)) ∧
             0 < dec_ZoneSizeMB (dv_Emulator (cfg_Device c)) ∧
             0 < dec_MaxOpenZones (dv_Emulator (cfg_Device c));
  ok_segment : 0 < zc_SegmentSizeKB (cfg_ZTL c);
  ok_ratio : float64_le (zc_GCTriggerFreeRatio (cfg_ZTL c)) (float64_of_Z 0) = false ∧
             float64_le (float64_of_Z 1) (zc_GCTriggerFreeRatio (cfg_ZTL c)) = false;
  ok_sync : 0 < jc_SyncPeriodMs (cfg_Journal c);
}.

Lemma if_fail_ok (b : bool) e (o : outcome unit) :
  (if b then Fail e else o) = Ok tt ↔ b = false ∧ o = Ok tt.
Proof. destruct b; [|tauto]. split; [done|by intros []]. Qed.

Lemma Config_Validate_iff c : Config_Validate c = Ok tt ↔ config_ok c.
Proof.
  unfold Config_Validate. rw !if_fail_ok !Z.leb_gt !orb_false_iff !andb_false_iff.
  rw !negb_false_iff !bool_decide_eq_false !bool_decide_eq_true. split.
  - intros (? & ? & Hb & Hp & ? & ? & ? & ? & ? & ? & _). split; try done.
    destruct Hb as [?|Hb]; [by left|right]. destruct Hp as [[]|?]; done.
  - intros [? ? Hb (? & ? & ?) ? [? ?] ?]. split_and!; try done.
    + destruct Hb as [?|[? _]]; [by left|by right].
    + destruct Hb as [-> |[_ ?]]; [by left|by right].
Qed.

Lemma SectorsPerSegment_eq c :
  0 < zc_SegmentSizeKB (cfg_ZTL c) < 2^53 → SectorsPerSegment c = 2 * zc_SegmentSizeKB (cfg_ZTL c).
Proof.
  intros. unfold SectorsPerSegment. rw !u64_small; [lia..|].
  replace (zc_SegmentSizeKB (cfg_ZTL c) * 1024) with (2 * zc_SegmentSizeKB (cfg_ZTL c) * 512) by lia.
  by rw Z.div_mul.
Qed.

(** Loading a configuration succeeds only with one that satisfies every
    constraint validation is meant to enforce, and any such configuration whose
    segment size fits 53 bits has a positive, even number of sectors per segment,
    as the translation layer requires. *)
Theorem config_load_valid ReadFile Unmarshal path c :
  Config_Load ReadFile Unmarshal path = Ok c →
  config_ok c ∧
  (zc_SegmentSizeKB (cfg_ZTL c) < 2^53 →
   SectorsPerSegment c = 2 * zc_SegmentSizeKB (cfg_ZTL c) ∧ 2 ≤ SectorsPerSegment c).
Proof.
  unfold Config_Load. destruct (ReadFile path) as [data|[]]; try done. simpl.
  destruct (Unmarshal data DefaultConfig) as [cfg|[]]; try done. simpl.
  destruct (Config_Validate cfg) as [[]|[]] eqn:Hv; try done. intros [= <-].
  apply Config_Validate_iff in Hv. split; [done|]. intros. destruct Hv.
  rw SectorsPerSegment_eq; lia.
Qed.

(** A file that changes nothing: the defaults are valid. *)
Lemma config_load_valid_witness :
  config_ok DefaultConfig ∧ (8 < 2^53 → SectorsPerSegment DefaultConfig = 2 * 8 ∧ 2 ≤ 16).
Proof.
  apply (config_load_valid (λ _, Ok []) (λ _ c, Ok c) "zns.yaml" DefaultConfig).
  vm_compute. reflexivity.
Defined.
