(* ===== verification/Zbc.v ===== *)
(** * [pkg/zbc]: zone states and zone descriptors *)

From S2P Require Import Bytes.

(** [zbc.ZoneState]: the [uint8] constants of types.go.  The code only ever
    produces these eight values. *)
Inductive ZoneState :=
| ZoneStateNotWritePointer
| ZoneStateEmpty
| ZoneStateImplicitOpen
| ZoneStateExplicitOpen
| ZoneStateClosed
| ZoneStateReadOnly
| ZoneStateFull
| ZoneStateOffline.

#[export] Instance ZoneState_eq_dec : EqDecision ZoneState.
Proof. solve_decision. Defined.

Definition ZoneState_value (s : ZoneState) : Z :=
  match s with
  | ZoneStateNotWritePointer => 0x00
  | ZoneStateEmpty => 0x01
  | ZoneStateImplicitOpen => 0x02
  | ZoneStateExplicitOpen => 0x03
  | ZoneStateClosed => 0x04
  | ZoneStateReadOnly => 0x0D
  | ZoneStateFull => 0x0E
  | ZoneStateOffline => 0x0F
  end.

Definition ZoneState_String (s : ZoneState) : string :=
  match s with
  | ZoneStateNotWritePointer => "NOT_WRITE_POINTER"
  | ZoneStateEmpty => "EMPTY"
  | ZoneStateImplicitOpen => "IMPLICIT_OPEN"
  | ZoneStateExplicitOpen => "EXPLICIT_OPEN"
  | ZoneStateClosed => "CLOSED"
  | ZoneStateReadOnly => "READ_ONLY"
  | ZoneStateFull => "FULL"
  | ZoneStateOffline => "OFFLINE"
  end.

(** [zbc.ZoneType] and [zbc.ZoneCondition] are raw nibbles of a descriptor, so
    they stay integers. *)
Definition ZoneTypeConventional : Z := 0x01.
Definition ZoneTypeSequentialWrite : Z := 0x02.
Definition ZoneTypeSeqWritePref : Z := 0x03.

Definition ZoneConditionNotWritePointer : Z := 0x0.
Definition ZoneConditionEmpty : Z := 0x1.
Definition ZoneConditionImplicitOpen : Z := 0x2.
Definition ZoneConditionExplicitOpen : Z := 0x3.
Definition ZoneConditionClosed : Z := 0x4.
Definition ZoneConditionReadOnly : Z := 0xD.
Definition ZoneConditionFull : Z := 0xE.
Definition ZoneConditionOffline : Z := 0xF.

Definition ZoneType_String (t : Z) : string :=
  if t =? ZoneTypeConventional then "CONVENTIONAL"
  else if t =? ZoneTypeSequentialWrite then "SEQUENTIAL_WRITE_REQUIRED"
  else if t =? ZoneTypeSeqWritePref then "SEQUENTIAL_WRITE_PREFERRED"
  else "UNKNOWN".

Definition ZoneCondition_String (c : Z) : string :=
  if c =? ZoneConditionNotWritePointer then "NOT_WRITE_POINTER"
  else if c =? ZoneConditionEmpty then "EMPTY"
  else if c =? ZoneConditionImplicitOpen then "IMPLICIT_OPEN"
  else if c =? ZoneConditionExplicitOpen then "EXPLICIT_OPEN"
  else if c =? ZoneConditionClosed then "CLOSED"
  else if c =? ZoneConditionReadOnly then "READ_ONLY"
  else if c =? ZoneConditionFull then "FULL"
  else if c =? ZoneConditionOffline then "OFFLINE"
  else "UNKNOWN".

(** A condition has the name of the state with its value. *)
Lemma ZoneCondition_String_state s : ZoneCondition_String (ZoneState_value s) = ZoneState_String s.
Proof. by destruct s. Qed.

Record ZoneDescriptor := {
  zd_ZoneType : Z;
  zd_ZoneState : ZoneState;
  zd_ZoneCondition : Z;
  zd_Reset : bool;
  zd_NonSeq : bool;
  zd_ZoneLength : Z;     (* in sectors *)
  zd_ZoneStartLBA : Z;
  zd_WritePointer : Z;   (* absolute LBA of next write position *)
}.

Definition IsWritePointerZone (z : ZoneDescriptor) : bool :=
  negb (zd_ZoneType z =? ZoneTypeConventional).

Definition UsedCapacitySectors (z : ZoneDescriptor) : Z :=
  if decide (zd_ZoneState z = ZoneStateFull) then zd_ZoneLength z
  else if zd_WritePointer z <=? zd_ZoneStartLBA z then 0
  else u64 (zd_WritePointer z - zd_ZoneStartLBA z).
