(* ===== verification/Backend.v ===== *)
(** * [internal/backend]: the [ZonedDevice] interface

    [ZonedDevice] is the Go interface as a class of operations over an abstract
    device state.  [ZonedDeviceSpec] states what the comments of backend.go
    promise to a client: which sectors each operation reads or changes.  The
    zone translation layer is verified against it; [Emulator.v] discharges it. *)

From S2P Require Import Bytes Zbc.

(** The package's sentinel errors. *)
Definition ErrOutOfOrder : error := ErrorNew "backend.ErrOutOfOrder".
Definition ErrTooManyOpenZones : error := ErrorNew "backend.ErrTooManyOpenZones".
Definition ErrZoneFull : error := ErrorNew "backend.ErrZoneFull".
Definition ErrZoneOffline : error := ErrorNew "backend.ErrZoneOffline".
Definition ErrZoneReadOnly : error := ErrorNew "backend.ErrZoneReadOnly".
Definition ErrInvalidLBA : error := ErrorNew "backend.ErrInvalidLBA".
Definition ErrAlignmentError : error := ErrorNew "backend.ErrAlignmentError".

Class ZonedDevice (D : Type) := {
  ReportZones : Z → Z → M D (list ZoneDescriptor);
  ZoneCount : D → Z;
  ZoneSize : D → Z;
  OpenZone : Z → M D unit;
  CloseZone : Z → M D unit;
  FinishZone : Z → M D unit;
  ResetZone : Z → M D unit;
  ReadSectors : Z → Z → M D (list byte);
  WriteSectors : Z → list byte → M D unit;
  Device_BlockSize : D → Z;
  Device_Capacity : D → Z;
  MaxOpenZones : D → Z;
}.

(** Two device states a reader cannot tell apart. *)
Definition dev_same `{ZonedDevice D} (wf : D → Prop) (sector : D → Z → list byte)
    (d d' : D) : Prop :=
  wf d' ∧ Device_Capacity d' = Device_Capacity d ∧ ZoneSize d' = ZoneSize d ∧
  ∀ lba, 0 ≤ lba < Device_Capacity d → sector d' lba = sector d lba.

(** What a zone descriptor of device [d] says about zone number [i]. *)
Definition desc_ok `{ZonedDevice D} (d : D) (i : nat) (desc : ZoneDescriptor) : Prop :=
  zd_ZoneStartLBA desc = ZoneSize d * Z.of_nat i ∧
  0 < zd_ZoneLength desc ≤ ZoneSize d ∧
  zd_ZoneStartLBA desc + zd_ZoneLength desc ≤ Device_Capacity d ∧
  (zd_ZoneState desc = ZoneStateEmpty → zd_WritePointer desc = zd_ZoneStartLBA desc).

(** The open zones of a report. *)
Definition desc_open (desc : ZoneDescriptor) : bool :=
  bool_decide (zd_ZoneState desc = ZoneStateImplicitOpen) ||
  bool_decide (zd_ZoneState desc = ZoneStateExplicitOpen).

Class ZonedDeviceSpec (D : Type) `{ZonedDevice D} := {
  dev_wf : D → Prop;
  dev_sector : D → Z → list byte;

  dev_geometry d : dev_wf d →
    0 < ZoneSize d ∧ 0 ≤ Device_Capacity d < 2^54;
  dev_sector_len d lba : dev_wf d → 0 ≤ lba < Device_Capacity d →
    len (dev_sector d lba) = sectorSize;

  (* [ReportZones(0, 0)] describes every zone of the device *)
  dev_report d : dev_wf d →
    wp (ReportZones 0 0) (λ d' o, returns o ∧ dev_same dev_wf dev_sector d d' ∧
      ∀ descs, o = Ok descs →
        (∀ i desc, descs !! i = Some desc → desc_ok d i desc) ∧
        len (filter desc_open descs) ≤ MaxOpenZones d) d;

  dev_open d lba : dev_wf d → 0 ≤ lba < 2^64 →
    wp (OpenZone lba) (λ d' o, returns o ∧ dev_same dev_wf dev_sector d d') d;
  dev_close d lba : dev_wf d → 0 ≤ lba < 2^64 →
    wp (CloseZone lba) (λ d' o, returns o ∧ dev_same dev_wf dev_sector d d') d;
  dev_finish d lba : dev_wf d → 0 ≤ lba < 2^64 →
    wp (FinishZone lba) (λ d' o, returns o ∧ dev_same dev_wf dev_sector d d') d;

  (* a reset touches the sectors of the zone that holds [lba] only *)
  dev_reset d lba : dev_wf d → 0 ≤ lba < 2^64 →
    wp (ResetZone lba) (λ d' o, returns o ∧
      dev_wf d' ∧ Device_Capacity d' = Device_Capacity d ∧ ZoneSize d' = ZoneSize d ∧
      ∀ l, 0 ≤ l < Device_Capacity d → l / ZoneSize d ≠ lba / ZoneSize d →
           dev_sector d' l = dev_sector d l) d;

  (* a successful read returns the sectors of the range *)
  dev_read d lba count : dev_wf d → 0 ≤ lba → 0 < count < 2^32 →
    lba + count ≤ Device_Capacity d →
    wp (ReadSectors lba count) (λ d' o, returns o ∧
      dev_same dev_wf dev_sector d d' ∧
      ∀ bs, o = Ok bs → len bs = sectorSize * count ∧
        ∀ i, 0 ≤ i < count → sec bs i = dev_sector d (lba + i)) d;

  (* a successful write replaces exactly the sectors it covers; one that failed may
     have left anything in them, but touched no others *)
  dev_write d lba data n : dev_wf d → 0 ≤ lba < 2^64 → 0 ≤ n < 2^32 →
    len data = sectorSize * n →
    wp (WriteSectors lba data) (λ d' o, returns o ∧
      dev_wf d' ∧ Device_Capacity d' = Device_Capacity d ∧ ZoneSize d' = ZoneSize d ∧
      (is_ok o → n ≠ 0 → lba + n ≤ Device_Capacity d) ∧
      ∀ l, 0 ≤ l < Device_Capacity d → is_ok o ∨ ¬ (lba ≤ l < lba + n) →
        dev_sector d' l =
        if bool_decide (lba ≤ l < lba + n) then sec data (l - lba)
        else dev_sector d l) d;
}.

(** A device whose failed writes touch nothing keeps the law for writes. *)
Lemma write_untouched {A} (ok : bool) (P : Prop) `{Decision P} (x y : A) :
  ok ∨ ¬ P → (if ok && bool_decide P then x else y) = (if bool_decide P then x else y).
Proof. intros [Ho|HP]; [by destruct ok|]. rw (bool_decide_eq_false_2 P) //. by rw andb_false_r. Qed.

(** A device whose in-range reads do not fail (no medium errors). *)
Class ReliableDevice (D : Type) `{ZonedDeviceSpec D} :=
  dev_read_ok d lba count : dev_wf d → 0 ≤ lba → 0 < count < 2^32 →
    lba + count ≤ Device_Capacity d →
    wp (ReadSectors lba count) (λ d' o, is_ok o) d.

Section dev_same.
Context {D : Type} `{ZonedDeviceSpec D}.
Implicit Types d : D.

Lemma dev_same_wf_refl d : dev_wf d → dev_same dev_wf dev_sector d d.
Proof. intros. by split_and!. Qed.

Lemma dev_same_trans d1 d2 d3 :
  dev_same dev_wf dev_sector d1 d2 → dev_same dev_wf dev_sector d2 d3 →
  dev_same dev_wf dev_sector d1 d3.
Proof.
  intros (_ & Hc & Hzs & Hs) (Hwd & Hc' & Hzs' & Hs').
  split_and!; [done|congruence|congruence|].
  intros lba Hlba. rw Hs'; [by rw Hc|]. by apply Hs.
Qed.
End dev_same.
