(* ===== verification/Emulator.v ===== *)
(** * [internal/backend/emulator]: the in-memory zoned device

    Mirrors emulator.go: one definition per method, errors and early returns as
    in the code.  [emu_wf] is the invariant of a well-formed emulator; the end
    of the file shows that every method preserves it and that the emulator
    implements the [ZonedDeviceSpec] contract. *)

From S2P Require Import Bytes Zbc Backend.

(** ** State *)
Record zoneState := {
  zs_state : ZoneState;
  zs_writePointer : Z;   (* absolute LBA of write pointer *)
  zs_data : list byte;
}.

Record Emulator := {
  e_zones : list zoneState;
  e_zoneCount : Z;
  e_zoneSectors : Z;
  e_maxOpenZones : Z;
  e_openCount : Z;
}.

Record EmulatorConfig := { ec_ZoneCount : Z; ec_ZoneSizeMB : Z; ec_MaxOpenZones : Z }.

Definition e_set_zones (zs : list zoneState) (e : Emulator) : Emulator :=
  {| e_zones := zs; e_zoneCount := e_zoneCount e; e_zoneSectors := e_zoneSectors e;
     e_maxOpenZones := e_maxOpenZones e; e_openCount := e_openCount e |}.
Definition e_set_openCount (n : Z) (e : Emulator) : Emulator :=
  {| e_zones := e_zones e; e_zoneCount := e_zoneCount e; e_zoneSectors := e_zoneSectors e;
     e_maxOpenZones := e_maxOpenZones e; e_openCount := n |}.
Definition zs_set_state (s : ZoneState) (z : zoneState) : zoneState :=
  {| zs_state := s; zs_writePointer := zs_writePointer z; zs_data := zs_data z |}.
Definition zs_set_wp (wp : Z) (z : zoneState) : zoneState :=
  {| zs_state := zs_state z; zs_writePointer := wp; zs_data := zs_data z |}.
Definition zs_set_data (d : list byte) (z : zoneState) : zoneState :=
  {| zs_state := zs_state z; zs_writePointer := zs_writePointer z; zs_data := d |}.

(** ** Operations *)

(** [emulator.New] *)
Definition Emulator_New (cfg : EmulatorConfig) : outcome Emulator :=
  if ec_ZoneCount cfg <=? 0 then Fail (Errorf "zone_count must be positive, got %d")
  else if ec_ZoneSizeMB cfg <=? 0 then Fail (Errorf "zone_size_mb must be positive, got %d")
  else if ec_MaxOpenZones cfg <=? 0 then Fail (Errorf "max_open_zones must be positive, got %d")
  else
    let zoneSectors := u64 (u64 (u64 (ec_ZoneSizeMB cfg * 1024) * 1024)) / sectorSize in
    Ok {| e_zones := (λ i : nat,
            {| zs_state := ZoneStateEmpty;
               zs_writePointer := u64 (Z.of_nat i * zoneSectors);
               zs_data := make_bytes (zoneSectors * sectorSize) |})
            <$> seq 0 (Z.to_nat (ec_ZoneCount cfg));
          e_zoneCount := ec_ZoneCount cfg;
          e_zoneSectors := zoneSectors;
          e_maxOpenZones := ec_MaxOpenZones cfg;
          e_openCount := 0 |}.

Definition Emulator_Capacity (e : Emulator) : Z := u64 (e_zoneCount e * e_zoneSectors e).

(** Go's [a / b] on [uint64]: a zero divisor panics. *)
Definition checked_div {S} (a b : Z) : M S Z :=
  if b =? 0 then panic else mret (a / b).

Definition zoneIndex (lba : Z) : M Emulator Z :=
  e ← gets id;
  q ← checked_div lba (e_zoneSectors e);
  let idx := i64 q in
  if e_zoneCount e <=? idx then throw (Wrapf "%w: lba=%d capacity=%d" ErrInvalidLBA)
  else mret idx.

Definition zoneStartLBA (e : Emulator) (idx : Z) : Z := u64 (idx * e_zoneSectors e).

Definition isOpen (s : ZoneState) : bool :=
  bool_decide (s = ZoneStateImplicitOpen) || bool_decide (s = ZoneStateExplicitOpen).

(** [z := &e.zones[idx]] and an assignment through it. *)
Definition zone_at (idx : Z) : M Emulator zoneState :=
  e ← gets id; from_option Panicked (index (e_zones e) idx).
Definition zone_update (idx : Z) (f : zoneState → zoneState) : M Emulator unit :=
  modify (λ e, e_set_zones (alter f (Z.to_nat idx) (e_zones e)) e).
Definition openCount_add (n : Z) : M Emulator unit :=
  modify (λ e, e_set_openCount (e_openCount e + n) e).

Definition Emulator_ReportZones (startLBA count : Z) : M Emulator (list ZoneDescriptor) :=
  e ← gets id;
  q ← checked_div startLBA (e_zoneSectors e);
  let startIdx := i64 q in
  if e_zoneCount e <=? startIdx then throw (Wrapf "%w: startLBA=%d" ErrInvalidLBA)
  else
    let end_ := if (0 <? count) && (startIdx + count <? e_zoneCount e)
                then startIdx + count else e_zoneCount e in
    for_each (λ descs i,
      z ← zone_at i;
      mret (descs ++ [{| zd_ZoneType := ZoneTypeSequentialWrite;
                         zd_ZoneState := zs_state z;
                         zd_ZoneCondition := 0;
                         zd_Reset := false;
                         zd_NonSeq := false;
                         zd_ZoneLength := e_zoneSectors e;
                         zd_ZoneStartLBA := zoneStartLBA e i;
                         zd_WritePointer := zs_writePointer z |}]))
      [] (seqZ startIdx (end_ - startIdx)).

Definition openZoneLocked (idx : Z) (explicit : bool) : M Emulator unit :=
  z ← zone_at idx;
  match zs_state z with
  | ZoneStateExplicitOpen => mret tt
  | ZoneStateImplicitOpen =>
      when_ explicit (zone_update idx (zs_set_state ZoneStateExplicitOpen))
  | ZoneStateEmpty | ZoneStateClosed =>
      e ← gets id;
      if e_maxOpenZones e <=? e_openCount e
      then throw (Wrapf "%w: limit=%d" ErrTooManyOpenZones)
      else
        zone_update idx
          (zs_set_state (if explicit then ZoneStateExplicitOpen else ZoneStateImplicitOpen)) ;;
        openCount_add 1
  | ZoneStateFull => throw (Wrapf "%w: zone %d is full" ErrZoneFull)
  | _ => throw (Errorf "cannot open zone %d in state %s")
  end.

Definition Emulator_OpenZone (zoneStartLBA : Z) : M Emulator unit :=
  idx ← zoneIndex zoneStartLBA; openZoneLocked idx true.

Definition Emulator_CloseZone (zoneStartLBA : Z) : M Emulator unit :=
  idx ← zoneIndex zoneStartLBA;
  z ← zone_at idx;
  match zs_state z with
  | ZoneStateImplicitOpen | ZoneStateExplicitOpen =>
      zone_update idx (zs_set_state ZoneStateClosed) ;; openCount_add (-1)
  | ZoneStateClosed | ZoneStateEmpty => mret tt
  | _ => throw (Errorf "cannot close zone %d in state %s")
  end.

Definition Emulator_FinishZone (zoneLBA : Z) : M Emulator unit :=
  idx ← zoneIndex zoneLBA;
  z ← zone_at idx;
  e ← gets id;
  let finish := zone_update idx
    (λ z, zs_set_wp (u64 (zoneStartLBA e idx + e_zoneSectors e)) (zs_set_state ZoneStateFull z)) in
  match zs_state z with
  | ZoneStateImplicitOpen | ZoneStateExplicitOpen => finish ;; openCount_add (-1)
  | ZoneStateClosed => finish
  | ZoneStateEmpty => finish
  | ZoneStateFull => mret tt
  | _ => throw (Errorf "cannot finish zone %d in state %s")
  end.

Definition Emulator_ResetZone (zoneLBA : Z) : M Emulator unit :=
  idx ← zoneIndex zoneLBA;
  z ← zone_at idx;
  e ← gets id;
  let wasOpen := isOpen (zs_state z) in
  zone_update idx (λ z,
    {| zs_state := ZoneStateEmpty;
       zs_writePointer := zoneStartLBA e idx;
       zs_data := make_bytes (len (zs_data z)) |}) ;;
  when_ wasOpen (openCount_add (-1)).

(** The copy loop of [ReadSectors].  Each iteration that does not [break] copies
    at least one byte, so [remaining] iterations are enough fuel. *)
Fixpoint read_loop (fuel : nat) (e : Emulator) (result : list byte)
    (offset remaining currentLBA : Z) : outcome (list byte) :=
  if remaining <=? 0 then Ok result else
  match fuel with
  | O => Stop Diverged
  | S fuel =>
      let idx := i64 (currentLBA / e_zoneSectors e) in
      if e_zoneCount e <=? idx then Ok result else
      match index (e_zones e) idx with
      | None => Panic
      | Some z =>
          let zoneStart := zoneStartLBA e idx in
          let offsetInZone := i64 (u64 (currentLBA - zoneStart)) * sectorSize in
          let available := len (zs_data z) - offsetInZone in
          if available <=? 0 then Ok result else
          let toCopy := if available <? remaining then available else remaining in
          match slice_checked offsetInZone (offsetInZone + toCopy) (zs_data z) with
          | None => Panic
          | Some src =>
              read_loop fuel e (copy_at offset src result) (offset + toCopy)
                (remaining - toCopy) (u64 (currentLBA + toCopy / sectorSize))
          end
      end
  end.

Definition Emulator_ReadSectors (lba count : Z) : M Emulator (list byte) :=
  if count =? 0 then mret [] else
  e ← gets id;
  let readEnd := u64 (lba + count) in
  if Emulator_Capacity e <? readEnd
  then throw (Wrapf "%w: lba=%d count=%d capacity=%d" ErrInvalidLBA)
  else if e_zoneSectors e =? 0 then panic
  else
    let remaining := count * sectorSize in
    match read_loop (Z.to_nat remaining) e (make_bytes remaining) 0 remaining lba with
    | Ok bs => mret bs
    | Stop r => stop_with r
    end.

(** [WriteSectors] from the boundary check on, with the zone open. *)
Definition write_open_zone (idx lba : Z) (data : list byte) : M Emulator unit :=
  e ← gets id;
  z ← zone_at idx;
  let zoneStart := zoneStartLBA e idx in
  let zoneEnd := u64 (zoneStart + e_zoneSectors e) in
  let writeEnd := u64 (lba + len data / sectorSize) in
  if zoneEnd <? writeEnd
  then throw (Errorf "write crosses zone boundary: lba=%d end=%d zone_end=%d")
  else
  let offsetInZone := i64 (u64 (lba - zoneStart)) * sectorSize in
  if negb (bool_decide (0 ≤ offsetInZone ≤ len (zs_data z))) then panic else
  zone_update idx (λ z, zs_set_wp writeEnd (zs_set_data (copy_at offsetInZone data (zs_data z)) z)) ;;
  (* transition to FULL if the write pointer is at the zone end *)
  when_ (writeEnd =? zoneEnd)
    (zone_update idx (zs_set_state ZoneStateFull) ;; openCount_add (-1)).

Definition Emulator_WriteSectors (lba : Z) (data : list byte) : M Emulator unit :=
  if len data =? 0 then mret tt else
  if negb (len data `mod` sectorSize =? 0)
  then throw (Wrapf "%w: data length %d not a multiple of sector size" ErrAlignmentError)
  else
  idx ← zoneIndex lba;
  z ← zone_at idx;
  if negb (lba =? zs_writePointer z)
  then throw (Wrapf "%w: lba=%d writePointer=%d" ErrOutOfOrder)
  else
  match zs_state z with
  | ZoneStateEmpty | ZoneStateClosed => openZoneLocked idx false
  | ZoneStateImplicitOpen | ZoneStateExplicitOpen => mret tt
  | ZoneStateFull => throw (Wrapf "%w: zone %d" ErrZoneFull)
  | ZoneStateReadOnly => throw (Wrapf "%w: zone %d" ErrZoneReadOnly)
  | ZoneStateOffline => throw (Wrapf "%w: zone %d" ErrZoneOffline)
  | _ => throw (Errorf "zone %d is in unexpected state %s")
  end ;;
  write_open_zone idx lba data.

#[export] Instance Emulator_device : ZonedDevice Emulator := {
  ReportZones := Emulator_ReportZones;
  ZoneCount := e_zoneCount;
  ZoneSize := e_zoneSectors;
  OpenZone := Emulator_OpenZone;
  CloseZone := Emulator_CloseZone;
  FinishZone := Emulator_FinishZone;
  ResetZone := Emulator_ResetZone;
  ReadSectors := Emulator_ReadSectors;
  WriteSectors := Emulator_WriteSectors;
  Device_BlockSize := λ _, 512;
  Device_Capacity := Emulator_Capacity;
  MaxOpenZones := e_maxOpenZones;
}.

(** ** Well-formed emulators *)
Definition open_bit (z : zoneState) : Z := if isOpen (zs_state z) then 1 else 0.
Definition open_total (zs : list zoneState) : Z := foldr (λ z n, open_bit z + n) 0 zs.

(** The state of a zone determines where its write pointer may be. *)
Definition zone_wf (zs : Z) (i : nat) (z : zoneState) : Prop :=
  let start := Z.of_nat i * zs in
  len (zs_data z) = sectorSize * zs ∧
  start ≤ zs_writePointer z ≤ start + zs ∧
  match zs_state z with
  | ZoneStateEmpty => zs_writePointer z = start
  | ZoneStateFull => zs_writePointer z = start + zs
  | ZoneStateImplicitOpen | ZoneStateExplicitOpen | ZoneStateClosed =>
      zs_writePointer z < start + zs
  | _ => False
  end.

Record emu_wf (e : Emulator) : Prop := {
  wf_zoneSectors : 2 ≤ e_zoneSectors e;
  wf_zoneCount : 0 < e_zoneCount e ∧ len (e_zones e) = e_zoneCount e;
  wf_capacity : e_zoneCount e * e_zoneSectors e < 2^54;
  wf_zones i z : e_zones e !! i = Some z → zone_wf (e_zoneSectors e) i z;
  wf_openCount : e_openCount e = open_total (e_zones e);
  wf_maxOpen : e_openCount e ≤ e_maxOpenZones e;
}.

(** The contents of the device, sector by sector. *)
Definition emu_sector (e : Emulator) (lba : Z) : list byte :=
  match e_zones e !! Z.to_nat (lba / e_zoneSectors e) with
  | Some z => sec (zs_data z) (lba `mod` e_zoneSectors e)
  | None => zero_sector
  end.

(** ** Helper lemmas *)
Lemma open_total_alter f i zs z :
  zs !! i = Some z → open_total (alter f i zs) = open_total zs + open_bit (f z) - open_bit z.
Proof.
  revert i. induction zs as [|z' zs IH]; intros [|i] Hi; simplify_eq/=; [lia|].
  rw IH //. lia.
Qed.

Lemma open_total_nonneg zs : 0 ≤ open_total zs.
Proof. induction zs as [|z zs IH]; simpl; [lia|]. unfold open_bit. case_match; lia. Qed.

Lemma open_total_lookup zs i z : zs !! i = Some z → open_bit z ≤ open_total zs.
Proof.
  revert i. induction zs as [|z' zs IH]; intros [|i] Hi; simplify_eq/=.
  - pose proof (open_total_nonneg zs). lia.
  - specialize (IH _ Hi). unfold open_bit in *. repeat case_match; lia.
Qed.

Section wf.
Context (e : Emulator) (Hwf : emu_wf e).

Lemma wf_capacity_eq : Emulator_Capacity e = e_zoneCount e * e_zoneSectors e.
Proof. destruct Hwf. unfold Emulator_Capacity. apply u64_small. nia. Qed.

Lemma wf_zoneStartLBA i : 0 ≤ i < e_zoneCount e → zoneStartLBA e i = i * e_zoneSectors e.
Proof. destruct Hwf. intros. apply u64_small. nia. Qed.

Lemma wf_zone_lookup i : 0 ≤ i < e_zoneCount e → ∃ z, e_zones e !! Z.to_nat i = Some z.
Proof.
  destruct Hwf as [_ [_ Hlen] _ _ _]. intros. unfold len in Hlen.
  destruct (lookup_lt_is_Some_2 (e_zones e) (Z.to_nat i)); [lia|eauto].
Qed.

Lemma wf_zone_lookup_lt i z : e_zones e !! i = Some z → Z.of_nat i < e_zoneCount e.
Proof.
  destruct Hwf as [_ [_ Hlen] _ _ _]. unfold len in Hlen.
  intros ?%lookup_lt_Some. lia.
Qed.

Lemma wp_checked_div {S} a b (Q : S → outcome Z → Prop) s :
  b ≠ 0 → Q s (Ok (a / b)) → wp (checked_div a b) Q s.
Proof. intros. unfold checked_div. by case_match; [lia|]. Qed.

(** [zoneIndex] finds the zone that holds [lba], or reports [ErrInvalidLBA]. *)
Lemma wp_zoneIndex lba (Q : Emulator → outcome Z → Prop) :
  0 ≤ lba < 2^64 →
  (∀ i z, 0 ≤ i < e_zoneCount e → i = lba / e_zoneSectors e →
     e_zones e !! Z.to_nat i = Some z → Q e (Ok i)) →
  (Emulator_Capacity e ≤ lba → Q e (Fail (Wrapf "%w: lba=%d capacity=%d" ErrInvalidLBA))) →
  wp (zoneIndex lba) Q e.
Proof.
  intros Hlba Hok Hfail. unfold zoneIndex. wp_steps.
  pose proof (wf_zoneSectors e Hwf) as Hzs.
  apply wp_checked_div; [lia|]. cbn beta iota.
  assert (0 ≤ lba / e_zoneSectors e < 2^63).
  { split; [apply Z.div_pos; lia|]. apply Z.div_lt_upper_bound; nia. }
  rw i64_small; [lia|].
  destruct (Z.leb_spec (e_zoneCount e) (lba / e_zoneSectors e)) as [Hle|Hlt]; wp_steps.
  - apply Hfail. rw wf_capacity_eq.
    pose proof (Z.mul_div_le lba (e_zoneSectors e)). nia.
  - destruct (wf_zone_lookup (lba / e_zoneSectors e)) as [z Hz]; [lia|]. eauto with lia.
Qed.

Lemma wp_zone_at i z (Q : Emulator → outcome zoneState → Prop) :
  0 ≤ i → e_zones e !! Z.to_nat i = Some z → Q e (Ok z) → wp (zone_at i) Q e.
Proof.
  intros Hi Hz HQ. unfold zone_at. wp_steps. unfold index. by rw bool_decide_true // Hz.
Qed.

(** Replacing one zone, with [openCount] kept in step, preserves the invariant. *)
Lemma emu_wf_update i z f n :
  e_zones e !! i = Some z → zone_wf (e_zoneSectors e) i (f z) →
  n = e_openCount e + open_bit (f z) - open_bit z → n ≤ e_maxOpenZones e →
  emu_wf (e_set_openCount n (e_set_zones (alter f i (e_zones e)) e)).
Proof.
  intros Hz Hfz -> Hmax. destruct Hwf as [H1 [H2 H3] H4 H5 H6 H7].
  split; simpl; try done.
  - split; [done|]. unfold len in *. by rw length_alter.
  - intros j z'. destruct (decide (i = j)) as [<-|Hne].
    + rw list_lookup_alter_eq Hz /=. by intros [= <-].
    + rw list_lookup_alter_ne //. auto.
  - rw (open_total_alter _ _ _ _ Hz). lia.
Qed.

Lemma emu_sector_update i z f n lba :
  0 ≤ lba → e_zones e !! i = Some z →
  emu_sector (e_set_openCount n (e_set_zones (alter f i (e_zones e)) e)) lba =
  if decide (lba / e_zoneSectors e = Z.of_nat i)
  then sec (zs_data (f z)) (lba `mod` e_zoneSectors e) else emu_sector e lba.
Proof.
  intros Hlba Hz. unfold emu_sector; simpl. pose proof (wf_zoneSectors e Hwf).
  assert (0 ≤ lba / e_zoneSectors e) by (apply Z.div_pos; lia).
  case_decide as Hi.
  - rw Hi Nat2Z.id list_lookup_alter_eq Hz //.
  - rw list_lookup_alter_ne //. lia.
Qed.

Lemma zone_wf_lookup i z : e_zones e !! i = Some z → zone_wf (e_zoneSectors e) i z.
Proof. apply wf_zones, Hwf. Qed.
End wf.

(** [e'] is [e] after a change of one zone that keeps its data. *)
Lemma dev_same_update e i z f n :
  emu_wf e → e_zones e !! i = Some z → zs_data (f z) = zs_data z →
  zone_wf (e_zoneSectors e) i (f z) →
  n = e_openCount e + open_bit (f z) - open_bit z → n ≤ e_maxOpenZones e →
  dev_same emu_wf emu_sector e (e_set_openCount n (e_set_zones (alter f i (e_zones e)) e)).
Proof.
  intros Hwf Hz Hdata Hfz Hn Hmax. split_and!; [by eapply emu_wf_update|done|done|].
  intros lba Hlba. rw (emu_sector_update _ Hwf _ z); [lia|done|].
  case_decide as Hi; [|done]. unfold emu_sector. by rw Hi Nat2Z.id Hz Hdata.
Qed.

Lemma dev_same_refl e : emu_wf e → dev_same emu_wf emu_sector e e.
Proof. intros. unfold dev_same. by split_and!. Qed.

(** Setting only the state of a zone. *)
Lemma e_set_openCount_id e : e_set_openCount (e_openCount e) e = e.
Proof. by destruct e. Qed.

Lemma e_update_state_only e i f :
  e_set_zones (alter f i (e_zones e)) e =
  e_set_openCount (e_openCount e) (e_set_zones (alter f i (e_zones e)) e).
Proof. by destruct e. Qed.

(** Rewrites the state after [zone_update idx f ;; openCount_add k] (or without
    the second step) into the shape of [dev_same_update] and [emu_wf_update]. *)
Ltac emu_shape :=
  unfold zone_update, openCount_add; wp_steps; simpl;
  lazymatch goal with
  | |- context [e_set_openCount _ _] => idtac
  | |- context [e_set_zones (alter ?f ?i (e_zones ?e)) ?e] => rw (e_update_state_only e i f)
  | _ => idtac
  end.

(** Case analysis on the state of a zone, and the side conditions of a change. *)
Ltac emu_case z := destruct z as [st p data]; cbn [zs_state]; destruct st; wp_steps.
Ltac emu_side :=
  first [ done | lia
        | unfold zone_wf, open_bit, isOpen in *; simpl in *; repeat case_bool_decide;
          simplify_eq/=; (lia || intuition lia) ].

(** Zone [i] is open in [e'] and otherwise as [z]. *)
Definition zone_opened (i : Z) (z : zoneState) (e' : Emulator) : Prop :=
  ∃ z', e_zones e' !! Z.to_nat i = Some z' ∧ isOpen (zs_state z') = true ∧
        zs_data z' = zs_data z ∧ zs_writePointer z' = zs_writePointer z.

Lemma zone_opened_alter i z e n s :
  e_zones e !! Z.to_nat i = Some z → isOpen s = true →
  zone_opened i z (e_set_openCount n (e_set_zones (alter (zs_set_state s) (Z.to_nat i) (e_zones e)) e)).
Proof. intros Hz Hs. exists (zs_set_state s z). split_and!; [|done..]. simpl. by rw list_lookup_alter_eq Hz. Qed.

Section contract.
Context (e : Emulator) (Hwf : emu_wf e).

Lemma emu_unchanged {A} (o : outcome A) :
  returns o → returns o ∧ dev_same emu_wf emu_sector e e.
Proof. split; [done|by apply dev_same_refl]. Qed.

Lemma emu_change_state i z f n :
  e_zones e !! i = Some z → zs_data (f z) = zs_data z →
  zone_wf (e_zoneSectors e) i (f z) →
  n = e_openCount e + open_bit (f z) - open_bit z → n ≤ e_maxOpenZones e →
  returns (Ok tt) ∧
  dev_same emu_wf emu_sector e (e_set_openCount n (e_set_zones (alter f i (e_zones e)) e)).
Proof. intros. split; [done|by eapply dev_same_update]. Qed.

Lemma wp_openZoneLocked i z explicit :
  0 ≤ i → e_zones e !! Z.to_nat i = Some z →
  wp (openZoneLocked i explicit) (λ e' o,
    (is_ok o → zone_opened i z e') ∧
    (returns o ∧ dev_same emu_wf emu_sector e e')) e.
Proof.
  intros Hi Hz. pose proof (zone_wf_lookup e Hwf _ _ Hz) as Hzwf.
  pose proof (wf_maxOpen e Hwf) as Hmax. pose proof (wf_zoneSectors e Hwf) as Hzs.
  unfold openZoneLocked. wp_steps. eapply wp_zone_at; [done..|]. cbn beta iota.
  emu_case z; try (split; [done|by apply emu_unchanged]).
  - case_match; wp_steps; [split; [done|by apply emu_unchanged]|].
    emu_shape. split; [intros _; apply zone_opened_alter; [done|by destruct explicit]|].
    eapply emu_change_state; [done|by destruct explicit| | |]; destruct explicit; emu_side.
  - destruct explicit; wp_steps.
    2: { split; [intros _; by eexists|by apply emu_unchanged]. }
    emu_shape. split; [intros _; by apply zone_opened_alter|].
    eapply emu_change_state; [done|done| | |]; emu_side.
  - split; [intros _; by eexists|by apply emu_unchanged].
  - case_match; wp_steps; [split; [done|by apply emu_unchanged]|].
    emu_shape. split; [intros _; apply zone_opened_alter; [done|by destruct explicit]|].
    eapply emu_change_state; [done|by destruct explicit| | |]; destruct explicit; emu_side.
Qed.

Lemma emu_open lba :
  0 ≤ lba < 2^64 →
  wp (Emulator_OpenZone lba) (λ e' o, returns o ∧ dev_same emu_wf emu_sector e e') e.
Proof.
  intros Hlba. unfold Emulator_OpenZone. wp_steps.
  apply wp_zoneIndex; [done|done| |]; cbn beta iota.
  - intros i z Hi _ Hz. eapply wp_mono; [eapply wp_openZoneLocked; [lia|done]|]. by intros e' o [_ ?].
  - intros _. by apply emu_unchanged.
Qed.

Lemma emu_close lba :
  0 ≤ lba < 2^64 →
  wp (Emulator_CloseZone lba) (λ e' o, returns o ∧ dev_same emu_wf emu_sector e e') e.
Proof.
  intros Hlba. unfold Emulator_CloseZone. wp_steps.
  apply wp_zoneIndex; [done|done| |]; cbn beta iota; [|intros _; by apply emu_unchanged].
  intros i z Hi _ Hz. wp_steps. eapply wp_zone_at; [lia|done|]. cbn beta iota.
  pose proof (zone_wf_lookup e Hwf _ _ Hz) as Hzwf. pose proof (wf_maxOpen e Hwf).
  emu_case z; try (by apply emu_unchanged);
    emu_shape; (eapply emu_change_state; [done|done| | |]; emu_side).
Qed.

Lemma emu_finish lba :
  0 ≤ lba < 2^64 →
  wp (Emulator_FinishZone lba) (λ e' o, returns o ∧ dev_same emu_wf emu_sector e e') e.
Proof.
  intros Hlba. unfold Emulator_FinishZone. wp_steps.
  apply wp_zoneIndex; [done|done| |]; cbn beta iota; [|intros _; by apply emu_unchanged].
  intros i z Hi _ Hz. wp_steps. eapply wp_zone_at; [lia|done|]. cbn beta iota.
  pose proof (zone_wf_lookup e Hwf _ _ Hz) as Hzwf. pose proof (wf_maxOpen e Hwf).
  assert (Hend : u64 (zoneStartLBA e i + e_zoneSectors e) =
    Z.of_nat (Z.to_nat i) * e_zoneSectors e + e_zoneSectors e).
  { rw (wf_zoneStartLBA e Hwf i Hi) Z2Nat.id; [lia|].
    destruct Hwf. apply u64_small. nia. }
  wp_steps. rw Hend. pose proof (wf_zoneSectors e Hwf).
  emu_case z; try (by apply emu_unchanged);
    emu_shape; (eapply emu_change_state; [done|done| | |]; emu_side).
Qed.
End contract.

(** ** Reading *)

(** Sectors of one zone. *)
Lemma div_mod_same_zone zs cur j :
  0 < zs → 0 ≤ cur → 0 ≤ j < zs - cur `mod` zs →
  (cur + j) / zs = cur / zs ∧ (cur + j) `mod` zs = cur `mod` zs + j.
Proof.
  intros. pose proof (Z.div_mod cur zs ltac:(lia)). pose proof (Z.mod_pos_bound cur zs ltac:(lia)).
  replace (cur + j) with ((cur `mod` zs + j) + (cur / zs) * zs) by lia.
  rw Z.div_add; [lia|]. rw Z.mod_add; [lia|].
  rw Z.div_small; [lia|]. rw Z.mod_small; lia.
Qed.

Lemma emu_sector_zone e z cur j :
  emu_wf e → 0 ≤ cur → 0 ≤ j < e_zoneSectors e - cur `mod` e_zoneSectors e →
  e_zones e !! Z.to_nat (cur / e_zoneSectors e) = Some z →
  emu_sector e (cur + j) = sec (zs_data z) (cur `mod` e_zoneSectors e + j).
Proof.
  intros Hwf Hcur Hj Hz. pose proof (wf_zoneSectors e Hwf).
  destruct (div_mod_same_zone (e_zoneSectors e) cur j) as [H1 H2]; [lia..|].
  unfold emu_sector. by rw H1 H2 Hz.
Qed.

Definition read_post (e : Emulator) (result : list byte) (o k cur : Z)
    (out : outcome (list byte)) : Prop :=
  ∃ bs, out = Ok bs ∧ len bs = sectorSize * (o + k) ∧
    ∀ i, 0 ≤ i < o + k → sec bs i = if decide (i < o) then sec result i
                                    else emu_sector e (cur + (i - o)).

Lemma read_loop_step e fuel result o k cur :
  emu_wf e → 0 ≤ o → 0 < k → 0 ≤ cur → cur + k ≤ Emulator_Capacity e →
  len result = sectorSize * (o + k) →
  ∃ m result', 1 ≤ m ≤ k ∧ len result' = sectorSize * (o + k) ∧
    read_loop (S fuel) e result (sectorSize * o) (sectorSize * k) cur =
    read_loop fuel e result' (sectorSize * (o + m)) (sectorSize * (k - m)) (cur + m) ∧
    ∀ i, 0 ≤ i < o + k → sec result' i =
      if decide (o ≤ i < o + m) then emu_sector e (cur + (i - o)) else sec result i.
Proof.
  intros Hwf Ho Hk Hcur Hcap Hlen. pose proof (wf_zoneSectors e Hwf) as Hzs.
  rw (wf_capacity_eq e Hwf) in Hcap. pose proof (wf_capacity e Hwf) as Hmax.
  pose proof (Z.div_mod cur (e_zoneSectors e) ltac:(lia)) as Hdm.
  pose proof (Z.mod_pos_bound cur (e_zoneSectors e) ltac:(lia)) as Hmod.
  set (zs := e_zoneSectors e) in *. set (r := cur `mod` zs) in *. set (idx := cur / zs) in *.
  assert (Hidx : 0 ≤ idx < e_zoneCount e) by nia.
  destruct (wf_zone_lookup e Hwf idx Hidx) as [z Hz].
  destruct (zone_wf_lookup e Hwf _ _ Hz) as [Hdata _]. fold zs in Hdata.
  set (m := Z.min k (zs - r)).
  exists m, (copy_at (sectorSize * o) (slice (sectorSize * r) (sectorSize * (r + m)) (zs_data z)) result).
  assert (Hslice : len (slice (sectorSize * r) (sectorSize * (r + m)) (zs_data z)) = sectorSize * m).
  { unfold sectorSize in *. rw len_slice; lia. }
  split_and!; [lia|lia|unfold sectorSize in *; rw len_copy_at; lia| |].
  - simpl. destruct (Z.leb_spec (sectorSize * k) 0); [unfold sectorSize in *; lia|].
    fold zs idx. rw i64_small; [nia|].
    destruct (Z.leb_spec (e_zoneCount e) idx); [lia|].
    unfold index. rw bool_decide_true; [lia|]. rw Hz.
    rw (wf_zoneStartLBA e Hwf idx Hidx). fold zs. rw u64_small; [nia|].
    replace (cur - idx * zs) with r by lia. rw i64_small; [nia|].
    rw Hdata. unfold sectorSize in *.
    destruct (Z.leb_spec (512 * zs - r * 512) 0); [lia|].
    replace (if 512 * zs - r * 512 <? 512 * k then 512 * zs - r * 512 else 512 * k) with (512 * m)
      by (case_match; lia).
    rw slice_checked_Some; [lia|lia|].
    rw (Z.mul_comm 512 m) Z.div_mul; [lia|]. rw u64_small; [lia|].
    f_equal; [f_equal|..]; try lia. f_equal; lia.
  - intros i Hi. rw (sec_copy_at o m); [lia|lia|done|unfold sectorSize in *; lia|].
    case_decide; [|done]. rw sec_slice; [lia|lia|].
    symmetry. apply emu_sector_zone; [done|done|fold zs r; lia|done].
Qed.

(** The loop terminates with the requested sectors. *)
Lemma read_loop_spec e fuel result o k cur :
  emu_wf e → 0 ≤ o → 0 ≤ k → 0 ≤ cur → cur + k ≤ Emulator_Capacity e →
  len result = sectorSize * (o + k) → k ≤ Z.of_nat fuel →
  read_post e result o k cur (read_loop fuel e result (sectorSize * o) (sectorSize * k) cur).
Proof.
  intros Hwf. revert result o k cur.
  induction fuel as [|fuel IH]; intros result o k cur Ho Hk Hcur Hcap Hlen Hfuel.
  { assert (k = 0) as -> by lia. exists result. split_and!; [done|done|].
    intros i Hi. rw decide_True //. lia. }
  destruct (decide (k = 0)) as [->|Hk0].
  { exists result. split_and!; [done|done|]. intros i Hi. rw decide_True //. lia. }
  destruct (read_loop_step e fuel result o k cur) as (m & result' & Hm & Hlen' & -> & Hsec);
    [done|lia..|].
  destruct (IH result' (o + m) (k - m) (cur + m)) as (bs & -> & Hbs & Hspec); [lia..|].
  exists bs. split_and!; [done|lia|]. intros i Hi. rw Hspec; [lia|].
  rw Hsec; [lia|]. repeat case_decide; try lia; try done. f_equal. lia.
Qed.

Lemma emu_read e lba count :
  emu_wf e → 0 ≤ lba → 0 < count < 2^32 → lba + count ≤ Emulator_Capacity e →
  ∃ bs, Emulator_ReadSectors lba count e = (e, Ok bs) ∧ len bs = sectorSize * count ∧
    ∀ i, 0 ≤ i < count → sec bs i = emu_sector e (lba + i).
Proof.
  intros Hwf Hlba Hcount Hcap.
  destruct (read_loop_spec e (Z.to_nat (count * sectorSize)) (make_bytes (count * sectorSize)) 0 count lba)
    as (bs & Hloop & Hlen & Hsec); [done|lia..|rw len_make_bytes; unfold sectorSize; lia|
                                    unfold sectorSize; lia|].
  exists bs. split_and!; [|lia|].
  - unfold Emulator_ReadSectors. destruct (Z.eqb_spec count 0); [lia|].
    unfold mbind, M_bind. simpl.
    pose proof (wf_capacity_eq e Hwf) as Hce. pose proof (wf_capacity e Hwf).
    rw u64_small; [lia|]. destruct (Z.ltb_spec (Emulator_Capacity e) (lba + count)); [lia|].
    destruct (Z.eqb_spec (e_zoneSectors e) 0); [pose proof (wf_zoneSectors e Hwf); lia|].
    rw Z.mul_0_r (Z.mul_comm sectorSize count) in Hloop. by rw Hloop.
  - intros i Hi. rw Hsec; [lia|]. rw decide_False; [lia|]. f_equal. lia.
Qed.

(** ** Resetting *)
Definition emu_reset_zone (i : Z) (z : zoneState) (e : Emulator) : Emulator :=
  e_set_openCount (e_openCount e - open_bit z)
    (e_set_zones (alter (λ z, {| zs_state := ZoneStateEmpty;
                                 zs_writePointer := i * e_zoneSectors e;
                                 zs_data := make_bytes (len (zs_data z)) |})
                        (Z.to_nat i) (e_zones e)) e).

Lemma emu_reset_eq e lba i z :
  emu_wf e → 0 ≤ lba < 2^64 → i = lba / e_zoneSectors e → 0 ≤ i < e_zoneCount e →
  e_zones e !! Z.to_nat i = Some z →
  Emulator_ResetZone lba e = (emu_reset_zone i z e, Ok tt).
Proof.
  intros Hwf Hlba Hi Hrange Hz.
  enough (wp (Emulator_ResetZone lba) (λ e' o, (e', o) = (emu_reset_zone i z e, Ok tt)) e) as Hwp
    by (unfold wp in Hwp; by destruct (Emulator_ResetZone lba e)).
  unfold Emulator_ResetZone. wp_steps. apply wp_zoneIndex; [done|done| |].
  2: { intros Hcap. rw (wf_capacity_eq e Hwf) in Hcap.
       pose proof (Z.div_mod lba (e_zoneSectors e)). pose proof (wf_zoneSectors e Hwf).
       pose proof (Z.mod_pos_bound lba (e_zoneSectors e)). nia. }
  intros i' z' _ -> Hz'. rw -Hi in Hz' |- *. simplify_eq. cbn beta iota. wp_steps.
  eapply wp_zone_at; [lia|done|]. cbn beta iota.
  unfold zone_update, openCount_add. wp_steps.
  rw (wf_zoneStartLBA e Hwf _ Hrange). unfold emu_reset_zone, open_bit.
  destruct (isOpen (zs_state z)); wp_steps; [done|].
  by rw e_update_state_only Z.sub_0_r.
Qed.

Lemma emu_reset_wf e i z :
  emu_wf e → 0 ≤ i → e_zones e !! Z.to_nat i = Some z → emu_wf (emu_reset_zone i z e).
Proof.
  intros Hwf Hi Hz. pose proof (wf_zoneSectors e Hwf). pose proof (wf_maxOpen e Hwf).
  destruct (zone_wf_lookup e Hwf _ _ Hz) as [Hdata _].
  eapply emu_wf_update; [done|done| | |].
  - unfold zone_wf; simpl. rw len_make_bytes; unfold sectorSize in *; lia.
  - unfold open_bit at 2. simpl. lia.
  - unfold open_bit. case_match; lia.
Qed.

Lemma emu_reset_sector e i z l :
  emu_wf e → 0 ≤ i → e_zones e !! Z.to_nat i = Some z → 0 ≤ l →
  emu_sector (emu_reset_zone i z e) l =
  if decide (l / e_zoneSectors e = i) then zero_sector else emu_sector e l.
Proof.
  intros Hwf Hi Hz Hl. pose proof (wf_zoneSectors e Hwf).
  destruct (zone_wf_lookup e Hwf _ _ Hz) as [Hdata _].
  unfold emu_reset_zone. rw (emu_sector_update e Hwf _ z); [done|done|].
  rw Z2Nat.id; [lia|]. case_decide; [|done]. simpl.
  pose proof (Z.mod_pos_bound l (e_zoneSectors e)).
  apply sec_make_bytes; unfold sectorSize in *; lia.
Qed.

(** ** Writing *)
Definition write_post (e : Emulator) (lba n : Z) (data : list byte) (e' : Emulator)
    (o : outcome unit) : Prop :=
  returns o ∧ emu_wf e' ∧ Emulator_Capacity e' = Emulator_Capacity e ∧
  e_zoneSectors e' = e_zoneSectors e ∧
  (is_ok o → n ≠ 0 → lba + n ≤ Emulator_Capacity e) ∧
  ∀ l, 0 ≤ l < Emulator_Capacity e →
    emu_sector e' l = if is_ok o && bool_decide (lba ≤ l < lba + n)
                      then sec data (l - lba) else emu_sector e l.

Lemma write_post_unchanged e lba n data (e' : Emulator) (err : stop) :
  returns (Stop err : outcome unit) → dev_same emu_wf emu_sector e e' →
  write_post e lba n data e' (Stop err).
Proof. intros Hr (Hwf & Hcap & Hzs & Hsec). by split_and!. Qed.

Lemma write_post_trans e e1 lba n data e' o :
  dev_same emu_wf emu_sector e e1 → write_post e1 lba n data e' o → write_post e lba n data e' o.
Proof.
  intros (Hwf & Hcap & Hzs & Hsec) (H1 & H2 & H3 & H4 & H5 & H6).
  simpl in *. split_and!; try congruence.
  - intros. rw -Hcap. auto.
  - intros l Hl. rw H6; [by rw Hcap|]. case_match; [done|]. by apply Hsec.
Qed.

(** The zone after a write that ends at [lba + n]. *)
Definition zone_written (off lba n : Z) (data : list byte) (full : bool) (z : zoneState) : zoneState :=
  {| zs_state := if full then ZoneStateFull else zs_state z;
     zs_writePointer := lba + n;
     zs_data := copy_at off data (zs_data z) |}.

Lemma write_open_zone_eq e i z lba data n :
  emu_wf e → 0 ≤ i → e_zones e !! Z.to_nat i = Some z → lba = zs_writePointer z →
  len data = sectorSize * n → 0 ≤ n < 2^32 →
  let zend := i * e_zoneSectors e + e_zoneSectors e in
  write_open_zone i lba data e =
  if zend <? lba + n
  then (e, Fail (Errorf "write crosses zone boundary: lba=%d end=%d zone_end=%d"))
  else (e_set_openCount (e_openCount e - (if lba + n =? zend then 1 else 0))
          (e_set_zones (alter (zone_written (sectorSize * (lba - i * e_zoneSectors e)) lba n data
                                 (lba + n =? zend)) (Z.to_nat i) (e_zones e)) e), Ok tt).
Proof.
  intros Hwf Hi Hz -> Hlen Hn zend. pose proof (wf_zoneSectors e Hwf) as Hzs.
  pose proof (wf_capacity e Hwf) as Hcap.
  destruct (zone_wf_lookup e Hwf _ _ Hz) as (Hdata & Hwp & _).
  pose proof (wf_zone_lookup_lt e Hwf _ _ Hz) as Hic. rw Z2Nat.id in Hwp, Hic; [lia..|].
  set (lba := zs_writePointer z) in *. set (zs := e_zoneSectors e) in *.
  assert (Hend : zend ≤ 2^54) by (unfold zend; nia).
  unfold write_open_zone, zone_at, mbind, M_bind. simpl.
  unfold index. rw bool_decide_true; [lia|]. rw Hz. cbn beta iota delta [from_option mret M_ret].
  rw (wf_zoneStartLBA e Hwf i); [lia|]. fold zs. rw (u64_small (i * zs + zs)); [lia|].
  rw Hlen (Z.mul_comm sectorSize) Z.div_mul; [done|]. rw (u64_small (lba + n)); [lia|].
  fold zend. destruct (Z.ltb_spec zend (lba + n)); [done|].
  rw (u64_small (lba - i * zs)); [lia|]. rw i64_small; [lia|].
  rw bool_decide_true; [unfold sectorSize in *; lia|]. simpl.
  rw (Z.mul_comm (lba - i * zs)). destruct (Z.eqb_spec (lba + n) zend); simpl.
  - unfold openCount_add, modify; simpl. unfold e_set_zones, e_set_openCount; simpl.
    by rw list_alter_alter_eq.
  - unfold e_set_zones, e_set_openCount; simpl. by rw Z.sub_0_r.
Qed.

Lemma zone_written_wf zs i z lba data n :
  2 ≤ zs → zone_wf zs i z → isOpen (zs_state z) = true → lba = zs_writePointer z →
  len data = sectorSize * n → 0 ≤ n → lba + n ≤ Z.of_nat i * zs + zs →
  zone_wf zs i (zone_written (sectorSize * (lba - Z.of_nat i * zs)) lba n data
                  (lba + n =? Z.of_nat i * zs + zs) z).
Proof.
  intros Hzs (Hd & Hwp & Hst) Hopen -> Hlen Hn Hfit. unfold zone_wf; simpl.
  split_and!; [unfold sectorSize in *; rw len_copy_at; lia|lia|lia|].
  destruct (Z.eqb_spec (zs_writePointer z + n) (Z.of_nat i * zs + zs)); [done|].
  destruct z as [[] p d]; simpl in *; unfold isOpen in Hopen; try discriminate; lia.
Qed.

(** With the zone open, the rest of the write meets the contract. *)
Lemma write_open_zone_post e i z lba data n :
  emu_wf e → 0 ≤ i → e_zones e !! Z.to_nat i = Some z → isOpen (zs_state z) = true →
  lba = zs_writePointer z → len data = sectorSize * n → 0 ≤ n < 2^32 →
  wp (write_open_zone i lba data) (write_post e lba n data) e.
Proof.
  intros Hwf Hi Hz Hopen Hlba Hlen Hn. unfold wp.
  rw (write_open_zone_eq e i z lba data n) //.
  pose proof (wf_zoneSectors e Hwf) as Hzs. pose proof (wf_maxOpen e Hwf).
  pose proof (zone_wf_lookup e Hwf _ _ Hz) as Hzwf.
  destruct (Z.ltb_spec (i * e_zoneSectors e + e_zoneSectors e) (lba + n)) as [|Hfit]; simpl.
  { apply write_post_unchanged; [done|by apply dev_same_refl]. }
  pose proof (wf_zone_lookup_lt e Hwf _ _ Hz) as Hic. rw Z2Nat.id in Hic; [lia|].
  pose proof (zone_written_wf (e_zoneSectors e) (Z.to_nat i) z lba data n) as Hzw.
  rw Z2Nat.id in Hzw; [lia|]. specialize (Hzw Hzs Hzwf Hopen Hlba Hlen ltac:(lia) ltac:(lia)).
  destruct Hzwf as (Hd & Hwp & _). rw Z2Nat.id in Hwp; [lia|].
  split_and!; [done| |done|done| |].
  - eapply emu_wf_update; [done..| |].
    + unfold open_bit at 2. rw Hopen. unfold open_bit, zone_written; simpl.
      destruct (_ =? _); [change (isOpen ZoneStateFull) with false|rw Hopen]; cbn iota; lia.
    + case_match; lia.
  - intros _ _. rw (wf_capacity_eq e Hwf). nia.
  - intros l Hl. rw (emu_sector_update e Hwf _ z); [lia|done|]. simpl.
    rw Z2Nat.id; [lia|]. pose proof (Z.div_mod l (e_zoneSectors e) ltac:(lia)) as Hdm.
    pose proof (Z.mod_pos_bound l (e_zoneSectors e) ltac:(lia)).
    case_decide as Hli.
    + rw (sec_copy_at _ n); [lia|lia|done|unfold sectorSize in *; lia|].
      rw Hli in Hdm. rw decide_bool_decide.
      replace (bool_decide (lba ≤ l < lba + n))
        with (bool_decide (lba - i * e_zoneSectors e ≤ l `mod` e_zoneSectors e
                           < lba - i * e_zoneSectors e + n)) by (apply bool_decide_ext; lia).
      case_match; [f_equal; lia|]. unfold emu_sector. by rw Hli Hz.
    + rw bool_decide_false; [|done]. intros [??]. apply Hli.
      symmetry. apply Z.div_unique_pos with (l - i * e_zoneSectors e); lia.
Qed.

Lemma emu_write e lba data n :
  emu_wf e → 0 ≤ lba < 2^64 → 0 ≤ n < 2^32 → len data = sectorSize * n →
  wp (Emulator_WriteSectors lba data) (write_post e lba n data) e.
Proof.
  intros Hwf Hlba Hn Hlen. unfold Emulator_WriteSectors. rw Hlen.
  pose proof (dev_same_refl e Hwf) as Hrefl.
  destruct (Z.eqb_spec (sectorSize * n) 0); wp_steps.
  { assert (n = 0) as -> by (unfold sectorSize in *; lia). split_and!; try done.
    intros l Hl. simpl. rw bool_decide_false; [lia|done]. }
  rw Z.mul_comm Z.mod_mul; [done|]. rw Z.eqb_refl. cbn [negb]. wp_steps.
  apply wp_zoneIndex; [done|done| |]; cbn beta iota.
  2: { intros _. by apply write_post_unchanged. }
  intros i z Hi _ Hz. wp_steps. eapply wp_zone_at; [lia|done|]. cbn beta iota.
  destruct (Z.eqb_spec lba (zs_writePointer z)) as [Hwp|]; cbn [negb]; wp_steps.
  2: by apply write_post_unchanged.
  assert (Hopened : ∀ e' (o : outcome unit), (is_ok o → zone_opened i z e') ∧
      returns o ∧ dev_same emu_wf emu_sector e e' →
      match o with
      | Ok _ => wp (write_open_zone i lba data) (write_post e lba n data) e'
      | Stop r => write_post e lba n data e' (Stop r)
      end).
  { intros e' [[]|r] (Hop & Hret & Hsame); [|by apply write_post_unchanged].
    destruct Hop as (z' & Hz' & Hop' & _ & Hwp'); [done|].
    eapply wp_mono; [eapply write_open_zone_post; try done; [apply Hsame|lia|congruence]|].
    intros e'' o. by apply write_post_trans. }
  destruct (zs_state z) eqn:Hst; wp_steps; try (by apply write_post_unchanged);
    try (eapply wp_mono; [apply (wp_openZoneLocked e Hwf i z); [lia|done]|apply Hopened]);
    (eapply write_open_zone_post; [done|lia|done|by rw Hst|done..]).
Qed.

Lemma emu_reset e lba :
  emu_wf e → 0 ≤ lba < 2^64 →
  wp (Emulator_ResetZone lba) (λ e' o, returns o ∧
    emu_wf e' ∧ Emulator_Capacity e' = Emulator_Capacity e ∧ e_zoneSectors e' = e_zoneSectors e ∧
    ∀ l, 0 ≤ l < Emulator_Capacity e → l / e_zoneSectors e ≠ lba / e_zoneSectors e →
         emu_sector e' l = emu_sector e l) e.
Proof.
  intros Hwf Hlba. pose proof (wf_zoneSectors e Hwf).
  destruct (decide (lba / e_zoneSectors e < e_zoneCount e)) as [Hlt|Hge].
  - assert (0 ≤ lba / e_zoneSectors e) by (apply Z.div_pos; lia).
    destruct (wf_zone_lookup e Hwf (lba / e_zoneSectors e)) as [z Hz]; [lia|].
    unfold wp. rw (emu_reset_eq e lba (lba / e_zoneSectors e) z) //=.
    split_and!; [done|by apply emu_reset_wf|done|done|].
    intros l Hl Hne. rw emu_reset_sector //; [lia|]. by rw decide_False.
  - unfold Emulator_ResetZone. wp_steps. apply wp_zoneIndex; [done|done| |].
    + intros i z Hi ->. lia.
    + intros _. cbn beta iota. by split_and!.
Qed.

Lemma emu_report e :
  emu_wf e →
  ∃ descs, Emulator_ReportZones 0 0 e = (e, Ok descs) ∧ len descs = e_zoneCount e ∧
    (∀ i desc, descs !! i = Some desc → desc_ok e i desc) ∧
    zd_ZoneState <$> descs = zs_state <$> e_zones e.
Proof.
  intros Hwf. pose proof (wf_zoneSectors e Hwf). destruct (wf_zoneCount e Hwf) as [Hc Hlen].
  enough (wp (Emulator_ReportZones 0 0) (λ e' o, e' = e ∧ ∃ descs, o = Ok descs ∧
      len descs = e_zoneCount e ∧ (∀ i desc, descs !! i = Some desc → desc_ok e i desc) ∧
      zd_ZoneState <$> descs = zs_state <$> e_zones e) e) as H'.
  { unfold wp in H'. destruct (Emulator_ReportZones 0 0 e) as [e' o]; simpl in H'.
    destruct H' as (-> & descs & -> & ?). eauto. }
  unfold Emulator_ReportZones. wp_steps. apply wp_checked_div; [lia|]. cbn beta iota.
  rw Zdiv_0_l. change (i64 0) with 0. destruct (Z.leb_spec (e_zoneCount e) 0); [lia|].
  rw /= Z.sub_0_r.
  apply wp_for_each with (I := λ done s descs, s = e ∧ len descs = len done ∧
    (∀ i desc, descs !! i = Some desc → desc_ok e i desc) ∧
    zd_ZoneState <$> descs = take (length done) (zs_state <$> e_zones e)).
  - done.
  - intros done x todo s descs Hsplit (-> & Hl & Hok & Hst). wp_steps.
    assert (Hx : x = len done ∧ 0 ≤ x < e_zoneCount e).
    { assert (Hlk : seqZ 0 (e_zoneCount e) !! length done = Some x)
        by (rw Hsplit; by apply list_lookup_middle).
      apply lookup_seqZ in Hlk as [-> ?]. unfold len. lia. }
    destruct Hx as [Hx Hxr]. destruct (wf_zone_lookup e Hwf x) as [z Hz]; [done|].
    eapply wp_zone_at; [lia|done|]. cbn beta iota. wp_steps.
    split_and!; [done|by rw !len_app Hl| |]; cycle 1.
    { rw fmap_app Hst length_app Nat.add_1_r. symmetry. apply take_S_r. simpl.
      rw list_lookup_fmap. replace (length done) with (Z.to_nat x) by (unfold len in Hx; lia).
      by rw Hz. }
    clear Hst. intros i desc. rw lookup_app_Some. intros [Hi|[Hge Hi]]; [by apply Hok|].
    apply list_lookup_singleton_Some in Hi as [Hi <-].
    destruct (zone_wf_lookup e Hwf _ _ Hz) as (_ & Hwp & Hst).
    unfold len in *. assert (Z.of_nat i = x) as Hix by lia.
    unfold desc_ok. simpl. rw (wf_zoneStartLBA e Hwf x Hxr) Hix (wf_capacity_eq e Hwf).
    split_and!; [lia|lia|lia|nia|]. intros He. rw He in Hst. lia.
  - intros s descs (-> & Hl & Hok & Hst). split; [done|]. exists descs.
    assert (Hlz : len descs = e_zoneCount e) by (rw Hl; unfold len; rw length_seqZ; lia).
    split_and!; [done|done|done|]. rw Hst take_ge //. rw length_fmap.
    unfold len in *. lia.
Qed.

Lemma open_total_filter (descs : list ZoneDescriptor) zs :
  zd_ZoneState <$> descs = zs_state <$> zs → len (filter desc_open descs) = open_total zs.
Proof.
  unfold len. revert zs. induction descs as [|d descs IH]; intros [|z zs]; try done.
  simpl. intros [= Hd Hds]. rw filter_cons -(IH zs) //. unfold open_bit, isOpen, desc_open.
  rw Hd. do 2 case_bool_decide; simpl; lia.
Qed.

(** ** The emulator implements the device contract *)
#[export] Program Instance Emulator_spec : ZonedDeviceSpec Emulator := {
  dev_wf := emu_wf;
  dev_sector := emu_sector;
}.
Next Obligation.
  intros e Hwf. simpl. rw (wf_capacity_eq e Hwf).
  pose proof (wf_zoneSectors e Hwf). pose proof (wf_capacity e Hwf).
  destruct (wf_zoneCount e Hwf). nia.
Qed.
Next Obligation.
  intros e lba Hwf Hlba. simpl in Hlba. rw (wf_capacity_eq e Hwf) in Hlba.
  pose proof (wf_zoneSectors e Hwf). unfold emu_sector.
  pose proof (Z.div_mod lba (e_zoneSectors e)). pose proof (Z.mod_pos_bound lba (e_zoneSectors e)).
  destruct (wf_zone_lookup e Hwf (lba / e_zoneSectors e)) as [z Hz]; [nia|].
  rw Hz. destruct (zone_wf_lookup e Hwf _ _ Hz) as [Hd _].
  apply len_sec; unfold sectorSize in *; lia.
Qed.
Next Obligation.
  intros e Hwf. destruct (emu_report e Hwf) as (descs & Heq & _ & Hok & Hst).
  unfold wp. simpl. rw Heq. split; [done|]. split; [by apply dev_same_refl|].
  intros ? [= <-]. split; [done|]. rw (open_total_filter _ _ Hst) -(wf_openCount e Hwf).
  apply (wf_maxOpen e Hwf).
Qed.
Next Obligation. intros. by apply emu_open. Qed.
Next Obligation. intros. by apply emu_close. Qed.
Next Obligation. intros. by apply emu_finish. Qed.
Next Obligation. intros. by apply emu_reset. Qed.
Next Obligation.
  intros e lba count Hwf Hlba Hcount Hcap. simpl in *.
  destruct (emu_read e lba count) as (bs & Heq & Hlen & Hsec); [done..|].
  unfold wp. rw Heq /=. split_and!; [done|by apply dev_same_refl|].
  by intros bs' [= <-].
Qed.
Next Obligation.
  intros e lba data n Hwf Hlba Hn Hlen. eapply wp_mono; [by apply (emu_write e lba data n)|].
  intros e' o (Hr & Hw & Hc & Hz & Hfit & Hs). split_and!; [done..|]. intros l Hl Ho. rw Hs //. by apply write_untouched.
Qed.

#[export] Instance Emulator_reliable : ReliableDevice Emulator.
Proof.
  intros e lba count Hwf Hlba Hcount Hcap. simpl in *.
  destruct (emu_read e lba count) as (bs & Heq & _); [done..|]. unfold wp. by rw Heq.
Qed.

(** ** Properties *)

(** The state [Emulator_New] builds, for any zone size. *)
Definition fresh_emulator (count zs maxOpen : Z) : Emulator :=
  {| e_zones := (λ i : nat,
       {| zs_state := ZoneStateEmpty; zs_writePointer := u64 (Z.of_nat i * zs);
          zs_data := make_bytes (zs * sectorSize) |}) <$> seq 0 (Z.to_nat count);
     e_zoneCount := count; e_zoneSectors := zs; e_maxOpenZones := maxOpen; e_openCount := 0 |}.

Lemma open_total_empty (zs : list zoneState) :
  (∀ i z, zs !! i = Some z → zs_state z = ZoneStateEmpty) → open_total zs = 0.
Proof.
  intros H. induction zs as [|z zs IH]; [done|]. simpl. rw IH.
  - intros i z' Hz. by apply (H (S i)).
  - unfold open_bit. by rw (H 0%nat z).
Qed.

Lemma fresh_emulator_wf count zs maxOpen :
  0 < count → 2 ≤ zs → 0 ≤ maxOpen → count * zs < 2^54 →
  emu_wf (fresh_emulator count zs maxOpen).
Proof.
  intros. assert (Hz : ∀ i z, e_zones (fresh_emulator count zs maxOpen) !! i = Some z →
      (Z.of_nat i < count ∧ z = {| zs_state := ZoneStateEmpty;
        zs_writePointer := Z.of_nat i * zs; zs_data := make_bytes (zs * sectorSize) |})).
  { intros i z. simpl. rw list_lookup_fmap_Some. intros (j & -> & Hj).
    apply lookup_seq in Hj as [-> Hlt]. split; [lia|]. f_equal. apply u64_small. simpl. nia. }
  split; simpl; try done; try lia.
  - split; [done|]. unfold len. rw length_fmap length_seq. lia.
  - intros i z [Hlt ->]%Hz. unfold zone_wf; simpl.
    split_and!; [rw len_make_bytes; unfold sectorSize; lia|lia|lia|done].
  - symmetry. apply open_total_empty. by intros i z [_ ->]%Hz.
Qed.

Lemma Emulator_New_fresh cfg e :
  Emulator_New cfg = Ok e → ec_ZoneCount cfg * (ec_ZoneSizeMB cfg * 2048) < 2^54 →
  e = fresh_emulator (ec_ZoneCount cfg) (ec_ZoneSizeMB cfg * 2048) (ec_MaxOpenZones cfg)
  ∧ emu_wf e.
Proof.
  unfold Emulator_New. intros Hnew Hcap.
  destruct (Z.leb_spec (ec_ZoneCount cfg) 0); [done|].
  destruct (Z.leb_spec (ec_ZoneSizeMB cfg) 0); [done|].
  destruct (Z.leb_spec (ec_MaxOpenZones cfg) 0); [done|].
  assert (Hzs : u64 (u64 (u64 (ec_ZoneSizeMB cfg * 1024) * 1024)) / sectorSize
                = ec_ZoneSizeMB cfg * 2048).
  { assert (ec_ZoneSizeMB cfg * 2048 < 2^54) by nia.
    rw (u64_small (ec_ZoneSizeMB cfg * 1024)); [lia|].
    rw (u64_small (ec_ZoneSizeMB cfg * 1024 * 1024)); [lia|]. rw u64_small; [lia|].
    unfold sectorSize. replace (ec_ZoneSizeMB cfg * 1024 * 1024)
      with (ec_ZoneSizeMB cfg * 2048 * 512) by lia. by rw Z.div_mul. }
  simpl in Hnew. rw Hzs in Hnew. injection Hnew as <-.
  split; [done|]. apply fresh_emulator_wf; lia.
Qed.

(** The commands a client can issue; reads do not change the state. *)
Inductive emu_cmd :=
| CmdOpen (lba : Z)
| CmdClose (lba : Z)
| CmdFinish (lba : Z)
| CmdReset (lba : Z)
| CmdWrite (lba : Z) (data : list byte).

Definition emu_exec (c : emu_cmd) : M Emulator unit :=
  match c with
  | CmdOpen lba => Emulator_OpenZone lba
  | CmdClose lba => Emulator_CloseZone lba
  | CmdFinish lba => Emulator_FinishZone lba
  | CmdReset lba => Emulator_ResetZone lba
  | CmdWrite lba data => Emulator_WriteSectors lba data
  end.

Definition emu_run (cs : list emu_cmd) (e : Emulator) : Emulator :=
  foldl (λ e c, (emu_exec c e).1) e cs.

(** Arguments within the Go types; a write below 2 TiB. *)
Definition cmd_ok (c : emu_cmd) : Prop :=
  match c with
  | CmdOpen lba | CmdClose lba | CmdFinish lba | CmdReset lba => 0 ≤ lba < 2^64
  | CmdWrite lba data => 0 ≤ lba < 2^64 ∧ len data < sectorSize * 2^32
  end.

Lemma emu_exec_wf c e : emu_wf e → cmd_ok c → emu_wf (emu_exec c e).1 ∧ returns (emu_exec c e).2.
Proof.
  intros Hwf Hok. destruct c as [lba|lba|lba|lba|lba data]; simpl in *.
  - by destruct (emu_open e Hwf lba Hok) as (? & ? & _).
  - by destruct (emu_close e Hwf lba Hok) as (? & ? & _).
  - by destruct (emu_finish e Hwf lba Hok) as (? & ? & _).
  - by destruct (emu_reset e lba Hwf Hok) as (? & ? & _).
  - destruct Hok as [Hlba Hlen].
    destruct (decide (len data `mod` sectorSize = 0)) as [Hm|Hm].
    + pose proof (Z.div_mod (len data) sectorSize ltac:(done)) as Hdm. pose proof (len_nonneg data).
      destruct (emu_write e lba data (len data / sectorSize)) as (? & ? & _);
        [done|done| |lia|done]. unfold sectorSize in *. lia.
    + unfold Emulator_WriteSectors. destruct (Z.eqb_spec (len data) 0); [done|].
      destruct (Z.eqb_spec (len data `mod` sectorSize) 0); [done|]. done.
Qed.

(** C33: whatever commands a client sends to a freshly created emulator, in
    whatever order, no command panics and the device stays consistent: every
    write pointer lies in its zone, EMPTY and FULL zones have it at the start
    and the end, [openCount] is the number of open zones and never exceeds the
    configured maximum. *)
Theorem emulator_invariant cfg e cs :
  Emulator_New cfg = Ok e → ec_ZoneCount cfg * (ec_ZoneSizeMB cfg * 2048) < 2^54 →
  Forall cmd_ok cs →
  emu_wf (emu_run cs e) ∧
  ∀ c, cmd_ok c → returns (emu_exec c (emu_run cs e)).2.
Proof.
  intros Hnew Hcap Hcs. destruct (Emulator_New_fresh cfg e Hnew Hcap) as [_ Hwf].
  assert (Hrun : emu_wf (emu_run cs e)).
  { clear Hnew. revert e Hwf. induction Hcs as [|c cs Hc Hcs IH]; intros e Hwf; [done|].
    simpl. apply IH. by apply emu_exec_wf. }
  split; [done|]. intros c Hc. by apply emu_exec_wf.
Qed.

Lemma emulator_invariant_witness :
  ∃ e, emu_wf (emu_run [CmdOpen 0; CmdFinish 2048; CmdReset 0] e).
Proof.
  eexists. eapply (emulator_invariant
    {| ec_ZoneCount := 4; ec_ZoneSizeMB := 1; ec_MaxOpenZones := 2 |});
    [reflexivity|reflexivity|repeat constructor; simpl; lia].
Defined.

(** The zones that take a write of [n] sectors at [lba]. *)
Definition write_accepted (e : Emulator) (lba n : Z) : Prop :=
  ∃ i z, e_zones e !! i = Some z ∧ lba = zs_writePointer z ∧
    lba + n ≤ Z.of_nat i * e_zoneSectors e + e_zoneSectors e ∧
    (isOpen (zs_state z) = true ∨
     (zs_state z = ZoneStateEmpty ∨ zs_state z = ZoneStateClosed) ∧
     e_openCount e < e_maxOpenZones e).

Lemma openZoneLocked_ok e i z :
  emu_wf e → 0 ≤ i → e_zones e !! Z.to_nat i = Some z →
  zs_state z = ZoneStateEmpty ∨ zs_state z = ZoneStateClosed →
  is_ok (openZoneLocked i false e).2 ↔ e_openCount e < e_maxOpenZones e.
Proof.
  intros Hwf Hi Hz Hst. unfold openZoneLocked, zone_at, mbind, M_bind. simpl.
  unfold index. rw bool_decide_true; [done|]. rw Hz. simpl.
  destruct Hst as [-> | ->]; simpl;
    destruct (Z.leb_spec (e_maxOpenZones e) (e_openCount e)); simpl; split; intros; try done; lia.
Qed.

Lemma write_open_zone_ok e i z lba data n :
  emu_wf e → 0 ≤ i → e_zones e !! Z.to_nat i = Some z → lba = zs_writePointer z →
  len data = sectorSize * n → 0 ≤ n < 2^32 →
  is_ok (write_open_zone i lba data e).2 ↔ lba + n ≤ i * e_zoneSectors e + e_zoneSectors e.
Proof.
  intros. rw (write_open_zone_eq e i z lba data n) //.
  destruct (Z.ltb_spec (i * e_zoneSectors e + e_zoneSectors e) (lba + n)); simpl;
    split; intros; try done; lia.
Qed.

(** The zone a write is checked against is the one that holds its first sector. *)
Lemma write_accepted_zone e lba n i z :
  emu_wf e → 0 < n → e_zones e !! i = Some z → lba = zs_writePointer z →
  lba + n ≤ Z.of_nat i * e_zoneSectors e + e_zoneSectors e →
  lba / e_zoneSectors e = Z.of_nat i ∧ 0 ≤ lba < 2^64.
Proof.
  intros Hwf Hn Hz -> Hfit. destruct (zone_wf_lookup e Hwf _ _ Hz) as (_ & Hwp & _).
  pose proof (wf_zone_lookup_lt e Hwf _ _ Hz). pose proof (wf_capacity e Hwf).
  pose proof (wf_zoneSectors e Hwf). split; [|nia].
  symmetry. apply Z.div_unique_pos with (zs_writePointer z - Z.of_nat i * e_zoneSectors e); lia.
Qed.

(** Running the state switch of [WriteSectors] on zone [z]. *)
Lemma write_switch_ok e i z lba data n :
  emu_wf e → 0 ≤ i → e_zones e !! Z.to_nat i = Some z → lba = zs_writePointer z →
  len data = sectorSize * n → 0 ≤ n < 2^32 →
  is_ok ((openZoneLocked i false ;; write_open_zone i lba data) e).2 ↔
  is_ok (openZoneLocked i false e).2 ∧ lba + n ≤ i * e_zoneSectors e + e_zoneSectors e.
Proof.
  intros Hwf Hi Hz Hwp Hlen Hn. unfold mbind at 1, M_bind at 1.
  pose proof (wp_openZoneLocked e Hwf i z false Hi Hz) as [Hop [_ Hsame]].
  destruct (openZoneLocked i false e) as [e' [[]|r]]; simpl in *; [|split; [done|by intros [? _]]].
  destruct Hop as (z' & Hz' & _ & _ & Hwp'); [done|].
  destruct Hsame as (Hwf' & _ & Hzs & _). simpl in Hzs.
  rw (write_open_zone_ok e' i z') //; [by rw Hwp'|]. rw Hzs. split; [done|by intros [_ ?]].
Qed.

Lemma write_accepted_iff e lba n i z :
  emu_wf e → 0 < n → 0 ≤ i → lba / e_zoneSectors e = i → e_zones e !! Z.to_nat i = Some z →
  write_accepted e lba n ↔
  lba = zs_writePointer z ∧ lba + n ≤ i * e_zoneSectors e + e_zoneSectors e ∧
  (isOpen (zs_state z) = true ∨
   (zs_state z = ZoneStateEmpty ∨ zs_state z = ZoneStateClosed) ∧
   e_openCount e < e_maxOpenZones e).
Proof.
  intros Hwf Hn Hi Hdiv Hz. split.
  - intros (j & z' & Hz' & Hwp & Hfit & Hst).
    destruct (write_accepted_zone e lba n j z') as [Hj _]; [done..|].
    rw Hj in Hdiv. subst i. rw Nat2Z.id in Hz. simplify_eq. done.
  - intros (Hwp & Hfit & Hst). exists (Z.to_nat i), z. by rw Z2Nat.id.
Qed.

(** C34: a write is accepted exactly when it starts at the write pointer of a
    zone, stays inside that zone, and the zone is open or may be opened without
    exceeding the limit of open zones. *)
Theorem emulator_write_accepted e lba data n :
  emu_wf e → 0 ≤ lba < 2^64 → 0 < n < 2^32 → len data = sectorSize * n →
  is_ok (Emulator_WriteSectors lba data e).2 ↔ write_accepted e lba n.
Proof.
  intros Hwf Hlba Hn Hlen. pose proof (wf_zoneSectors e Hwf) as Hzs.
  enough (wp (Emulator_WriteSectors lba data) (λ _ o, is_ok o ↔ write_accepted e lba n) e) by done.
  unfold Emulator_WriteSectors. rw Hlen.
  destruct (Z.eqb_spec (sectorSize * n) 0); [unfold sectorSize in *; lia|].
  rw Z.mul_comm Z.mod_mul; [done|]. rw Z.eqb_refl. cbn [negb]. wp_steps.
  apply wp_zoneIndex; [done|done| |]; cbn beta iota.
  2: { intros Hcap. split; [done|]. intros (i & z & Hz & Hwp & Hfit & _).
       destruct (write_accepted_zone e lba n i z) as [Hdiv _]; [done|lia|done..|].
       pose proof (wf_zone_lookup_lt e Hwf _ _ Hz). pose proof (wf_capacity_eq e Hwf). nia. }
  intros i z Hi Hdiv Hz. wp_steps. eapply wp_zone_at; [lia|done|]. cbn beta iota.
  pose proof (write_accepted_iff e lba n i z Hwf ltac:(lia) ltac:(lia) ltac:(done) Hz) as Hacc.
  unfold wp. rw Hacc.
  destruct (Z.eqb_spec lba (zs_writePointer z)) as [Hwp|]; cbn [negb].
  2: { simpl. split; [done|by intros [? _]]. }
  pose proof (write_open_zone_ok e i z lba data n) as Hopen_ok.
  pose proof (write_switch_ok e i z lba data n) as Hswitch.
  pose proof (openZoneLocked_ok e i z) as Hlimit. unfold isOpen.
  assert (Hopen : ∀ st, zs_state z = st → isOpen st = true →
    is_ok ((mret tt ;; write_open_zone i lba data) e).2 ↔
    lba = zs_writePointer z ∧ lba + n ≤ i * e_zoneSectors e + e_zoneSectors e ∧
    (true = true ∨ (st = ZoneStateEmpty ∨ st = ZoneStateClosed) ∧ e_openCount e < e_maxOpenZones e)).
  { intros st Hst Ho. change ((mret tt ;; write_open_zone i lba data) e) with (write_open_zone i lba data e).
    rw Hopen_ok //; [lia|lia|]. tauto. }
  assert (Hclosed : zs_state z = ZoneStateEmpty ∨ zs_state z = ZoneStateClosed →
    is_ok ((openZoneLocked i false ;; write_open_zone i lba data) e).2 ↔
    lba = zs_writePointer z ∧ lba + n ≤ i * e_zoneSectors e + e_zoneSectors e ∧
    e_openCount e < e_maxOpenZones e).
  { intros Hst. rw Hswitch //; [lia|lia|]. rw Hlimit //; [lia|]. tauto. }
  clear Hopen_ok Hswitch Hlimit.
  destruct (zs_state z) eqn:Hst; try (simpl; split; [done|]; intros (_ & _ & [?|[[?|?] _]]); done).
  - rw Hclosed; [by left|]. simpl. intuition done.
  - by apply Hopen.
  - by apply Hopen.
  - rw Hclosed; [by right|]. simpl. intuition done.
Qed.

Lemma emu_read_eq e' lba count bs :
  emu_wf e' → 0 ≤ lba → 0 < count < 2^32 → lba + count ≤ Emulator_Capacity e' →
  len bs = sectorSize * count → (∀ i, 0 ≤ i < count → sec bs i = emu_sector e' (lba + i)) →
  Emulator_ReadSectors lba count e' = (e', Ok bs).
Proof.
  intros Hwf Hlba Hcount Hcap Hlen Hsec.
  destruct (emu_read e' lba count) as (bs' & -> & Hlen' & Hsec'); [done..|].
  do 2 f_equal. apply (sec_ext _ _ count); [done..|]. intros i Hi. by rw Hsec // Hsec'.
Qed.

(** The sectors of an accepted write read back as written, and no other
    sector of the device changes. *)
Theorem emulator_read_back e lba data n e' :
  emu_wf e → 0 ≤ lba < 2^64 → 0 < n < 2^32 → len data = sectorSize * n →
  Emulator_WriteSectors lba data e = (e', Ok tt) →
  Emulator_ReadSectors lba n e' = (e', Ok data) ∧
  ∀ lba' n', 0 ≤ lba' → 0 < n' < 2^32 → lba' + n' ≤ Emulator_Capacity e →
    lba' + n' ≤ lba ∨ lba + n ≤ lba' →
    (Emulator_ReadSectors lba' n' e').2 = (Emulator_ReadSectors lba' n' e).2.
Proof.
  intros Hwf Hlba Hn Hlen Hw.
  pose proof (emu_write e lba data n Hwf Hlba ltac:(lia) Hlen) as Hpost. unfold wp in Hpost.
  rw Hw /= in Hpost. destruct Hpost as (_ & Hwf' & Hcap & _ & Hfit & Hsec).
  specialize (Hfit I ltac:(lia)). simpl in Hsec. split.
  - apply emu_read_eq; try done; [lia|lia|].
    intros i Hi. rw Hsec; [lia|]. rw bool_decide_true; [lia|]. f_equal. lia.
  - intros lba' n' Hlba' Hn' Hcap' Hdisj.
    destruct (emu_read e lba' n') as (bs & -> & Hbs & Hsecs); [done..|].
    rw (emu_read_eq e' lba' n' bs) //; [lia|].
    intros i Hi. rw Hsecs // Hsec; [lia|]. by rw bool_decide_false; [lia|].
Qed.

Definition small_emulator : Emulator := fresh_emulator 3 2 2.
Lemma small_emulator_wf : emu_wf small_emulator.
Proof. by apply fresh_emulator_wf. Qed.

Lemma emulator_write_accepted_witness :
  is_ok (Emulator_WriteSectors 2 (make_bytes 1024) small_emulator).2 ↔
  write_accepted small_emulator 2 2.
Proof. by apply emulator_write_accepted; [apply small_emulator_wf|..]. Defined.

Definition pattern_sector (b : Z) : list byte := replicate (Z.to_nat sectorSize) (byte_of_Z b).

Lemma emulator_read_back_witness :
  let e' := (Emulator_WriteSectors 4 (pattern_sector 7) small_emulator).1 in
  Emulator_ReadSectors 4 1 e' = (e', Ok (pattern_sector 7)).
Proof.
  intros e'. apply (emulator_read_back small_emulator 4 (pattern_sector 7) 1 e').
  - apply small_emulator_wf.
  - lia.
  - lia.
  - reflexivity.
  - vm_compute. reflexivity.
Defined.
