(* ===== verification/Segment.v ===== *)
(** * [internal/ztl/segment.go], [l2p.go] and [p2l.go]

    Physical addresses and the two mapping tables of the zone translation
    layer.  A [PhysAddr] packs a 24-bit zone number and a 40-bit sector offset
    into a [uint64]; the value 0 means "unmapped". *)

From S2P Require Import Bytes.

(** ** segment.go *)
Definition zoneIDBits : Z := 24.
Definition offsetBits : Z := 40.
Definition offsetMask : Z := Z.shiftl 1 offsetBits - 1.
Definition zoneIDMask : Z := Z.shiftl 1 zoneIDBits - 1.

Definition EncodePhysAddr (zoneID offsetSectors : Z) : Z :=
  Z.lor (u64 (Z.shiftl zoneID offsetBits)) (Z.land offsetSectors offsetMask).

Definition PhysAddr_ZoneID (p : Z) : Z := u32 (Z.land (Z.shiftr p offsetBits) zoneIDMask).
Definition PhysAddr_OffsetSectors (p : Z) : Z := Z.land p offsetMask.
Definition PhysAddr_IsUnmapped (p : Z) : bool := p =? 0.

(** [sectorsPerSegment] is positive in every caller ([ztl.New] checks it). *)
Definition LBAToSegmentID (lba sectorsPerSegment : Z) : Z := lba / sectorsPerSegment.
Definition SegmentToLBARange (segID sectorsPerSegment : Z) : Z * Z :=
  let startLBA := u64 (segID * sectorsPerSegment) in
  (startLBA, u64 (startLBA + sectorsPerSegment)).
Definition SegmentOffsetSectors (lba sectorsPerSegment : Z) : Z := lba `mod` sectorsPerSegment.

(** ** l2p.go: the forward table, an array of atomics *)
Record L2PTable := { l2p_entries : list Z; l2p_size : Z }.

Definition NewL2PTable (totalSegments : Z) : L2PTable :=
  {| l2p_entries := replicate (Z.to_nat totalSegments) 0; l2p_size := totalSegments |}.

Definition L2PTable_Get (segID : Z) (t : L2PTable) : Z :=
  if l2p_size t <=? segID then 0 else default 0 (l2p_entries t !! Z.to_nat segID).

Definition l2p_store (segID phys : Z) (t : L2PTable) : L2PTable :=
  {| l2p_entries := <[Z.to_nat segID := phys]> (l2p_entries t); l2p_size := l2p_size t |}.

Definition L2PTable_Set (segID phys : Z) : M L2PTable unit :=
  t ← gets id;
  if l2p_size t <=? segID then throw (Errorf "segment ID %d out of range (max %d)")
  else modify (l2p_store segID phys).

Definition L2PTable_CAS (segID old new : Z) : M L2PTable bool :=
  t ← gets id;
  if l2p_size t <=? segID then mret false
  else if default 0 (l2p_entries t !! Z.to_nat segID) =? old
  then modify (l2p_store segID new) ;; mret true
  else mret false.

(** The loop loads the entries one by one; without a concurrent writer it is the
    table itself. *)
Definition L2PTable_Snapshot (t : L2PTable) : list Z :=
  (λ i, default 0 (l2p_entries t !! Z.to_nat i)) <$> seqZ 0 (l2p_size t).

Definition L2PTable_LoadSnapshot (snap : list Z) : M L2PTable unit :=
  t ← gets id;
  if negb (len snap =? l2p_size t)
  then throw (Errorf "snapshot size %d does not match table size %d")
  else for_each (λ (_ : unit) (ipa : Z * Z), modify (l2p_store ipa.1 ipa.2)) tt
         (zip (seqZ 0 (len snap)) snap).

(** ** p2l.go: the reverse map, keyed by (zone, offset) *)
Abbreviation p2lKey := (Z * Z)%type.
Abbreviation P2LMap := (gmap p2lKey Z).

Definition p2l_key (phys : Z) : p2lKey := (PhysAddr_ZoneID phys, PhysAddr_OffsetSectors phys).

Definition P2LMap_Set (phys segID : Z) (m : P2LMap) : P2LMap := <[p2l_key phys := segID]> m.
Definition P2LMap_Get (phys : Z) (m : P2LMap) : option Z := m !! p2l_key phys.
Definition P2LMap_Delete (phys : Z) (m : P2LMap) : P2LMap := delete (p2l_key phys) m.
Definition P2LMap_Len (m : P2LMap) : Z := Z.of_nat (size m).

(** The calls [IterateZone] makes to its callback, for the iteration order
    [order] Go picks for the map. *)
Definition P2LMap_IterateZone (zoneID : Z)
    (order : list (p2lKey * Z) → list (p2lKey * Z)) (m : P2LMap) : list (Z * Z) :=
  (λ kv : p2lKey * Z, (kv.1.2, kv.2)) <$>
  filter (λ kv : p2lKey * Z, kv.1.1 = zoneID) (order (map_to_list m)).

(** ** Physical addresses *)
Lemma offsetMask_ones : offsetMask = Z.ones 40.
Proof. done. Qed.
Lemma zoneIDMask_ones : zoneIDMask = Z.ones 24.
Proof. done. Qed.

(** The encoding in plain arithmetic. *)
Lemma EncodePhysAddr_eq zoneID off :
  EncodePhysAddr zoneID off = (zoneID `mod` 2^24) * 2^40 + off `mod` 2^40.
Proof.
  unfold EncodePhysAddr, offsetBits, u64. rw offsetMask_ones Z.land_ones; [done|].
  rw Z.shiftl_mul_pow2; [done|]. change (2^64) with (2^24 * 2^40).
  rw Z.mul_mod_distr_r; [done|done|].
  rw -Z.shiftl_mul_pow2; [done|].
  rw lor_shiftl_low; [done|by apply Z.mod_pos_bound|]. by rw Z.shiftl_mul_pow2.
Qed.

Lemma PhysAddr_ZoneID_eq p : PhysAddr_ZoneID p = (p / 2^40) `mod` 2^24.
Proof.
  unfold PhysAddr_ZoneID, offsetBits, u32. rw zoneIDMask_ones Z.land_ones // Z.shiftr_div_pow2 //.
  apply Z.mod_small. pose proof (Z.mod_pos_bound (p / 2^40) (2^24)). lia.
Qed.

Lemma PhysAddr_OffsetSectors_eq p : PhysAddr_OffsetSectors p = p `mod` 2^40.
Proof. unfold PhysAddr_OffsetSectors. by rw offsetMask_ones Z.land_ones. Qed.

Lemma EncodePhysAddr_range zoneID off : 0 ≤ EncodePhysAddr zoneID off < 2^64.
Proof.
  rw EncodePhysAddr_eq. pose proof (Z.mod_pos_bound zoneID (2^24)).
  pose proof (Z.mod_pos_bound off (2^40)). lia.
Qed.

(** Decoding gives back the fields, truncated to their widths. *)
Lemma decode_encode zoneID off :
  PhysAddr_ZoneID (EncodePhysAddr zoneID off) = zoneID `mod` 2^24 ∧
  PhysAddr_OffsetSectors (EncodePhysAddr zoneID off) = off `mod` 2^40.
Proof.
  rw PhysAddr_ZoneID_eq PhysAddr_OffsetSectors_eq EncodePhysAddr_eq.
  pose proof (Z.mod_pos_bound off (2^40) ltac:(done)).
  rw Z.div_add_l // (Z.div_small (off `mod` 2^40)) // Z.add_0_r.
  rw Z.mod_mod // Z.add_comm Z.mod_add // Z.mod_mod //.
Qed.

Lemma decode_encode_small zoneID off :
  0 ≤ zoneID < 2^24 → 0 ≤ off < 2^40 →
  PhysAddr_ZoneID (EncodePhysAddr zoneID off) = zoneID ∧
  PhysAddr_OffsetSectors (EncodePhysAddr zoneID off) = off.
Proof. intros. destruct (decode_encode zoneID off) as [-> ->]. by rw !Z.mod_small. Qed.

Lemma encode_decode p : 0 ≤ p < 2^64 → EncodePhysAddr (PhysAddr_ZoneID p) (PhysAddr_OffsetSectors p) = p.
Proof.
  intros Hp. rw EncodePhysAddr_eq PhysAddr_ZoneID_eq PhysAddr_OffsetSectors_eq.
  rw !Z.mod_mod // (Z.mod_small (p / 2^40)).
  { split; [by apply Z.div_pos; lia|]. apply Z.div_lt_upper_bound; lia. }
  pose proof (Z.div_mod p (2^40)). lia.
Qed.

Lemma PhysAddr_ZoneID_range p : 0 ≤ PhysAddr_ZoneID p < 2^24.
Proof. rw PhysAddr_ZoneID_eq. by apply Z.mod_pos_bound. Qed.
Lemma PhysAddr_OffsetSectors_range p : 0 ≤ PhysAddr_OffsetSectors p < 2^40.
Proof. rw PhysAddr_OffsetSectors_eq. by apply Z.mod_pos_bound. Qed.

Lemma encode_unmapped zoneID off :
  0 ≤ zoneID < 2^24 → 0 ≤ off < 2^40 →
  PhysAddr_IsUnmapped (EncodePhysAddr zoneID off) = true ↔ zoneID = 0 ∧ off = 0.
Proof.
  intros. unfold PhysAddr_IsUnmapped. rw EncodePhysAddr_eq !Z.mod_small // Z.eqb_eq. lia.
Qed.

(** ** The forward table *)
Definition l2p_wf (t : L2PTable) : Prop := len (l2p_entries t) = l2p_size t.

Lemma NewL2PTable_wf n : 0 ≤ n → l2p_wf (NewL2PTable n).
Proof. unfold l2p_wf, len. simpl. rw length_replicate. lia. Qed.

Lemma NewL2PTable_Get n seg : 0 ≤ seg → L2PTable_Get seg (NewL2PTable n) = 0.
Proof.
  unfold L2PTable_Get. intros. simpl. case_match; [done|].
  rw lookup_replicate_2 //. lia.
Qed.

Lemma l2p_store_wf seg p t : l2p_wf t → l2p_wf (l2p_store seg p t).
Proof. unfold l2p_wf, len. simpl. by rw length_insert. Qed.

Lemma L2PTable_Get_store seg seg' p t :
  l2p_wf t → 0 ≤ seg < l2p_size t → 0 ≤ seg' →
  L2PTable_Get seg' (l2p_store seg p t) = if decide (seg' = seg) then p else L2PTable_Get seg' t.
Proof.
  unfold l2p_wf, L2PTable_Get, len. simpl. intros Hwf Hseg Hseg'.
  case_decide as Heq; subst.
  - destruct (Z.leb_spec (l2p_size t) seg); [lia|].
    rw list_lookup_insert_eq //. lia.
  - case_match; [done|]. rw list_lookup_insert_ne //. lia.
Qed.

Lemma L2PTable_Set_eq seg p t :
  L2PTable_Set seg p t =
  if l2p_size t <=? seg then (t, Fail (Errorf "segment ID %d out of range (max %d)"))
  else (l2p_store seg p t, Ok tt).
Proof. unfold L2PTable_Set. M_unfold. by case_match. Qed.

Lemma wp_L2PTable_Set seg p (Q : L2PTable → outcome unit → Prop) t :
  seg < l2p_size t → Q (l2p_store seg p t) (Ok tt) → wp (L2PTable_Set seg p) Q t.
Proof. intros Hs HQ. unfold wp. rw L2PTable_Set_eq. by destruct (Z.leb_spec (l2p_size t) seg); [lia|]. Qed.

Lemma L2PTable_CAS_eq seg old new t :
  0 ≤ seg →
  L2PTable_CAS seg old new t =
  if (seg <? l2p_size t) && (L2PTable_Get seg t =? old)
  then (l2p_store seg new t, Ok true) else (t, Ok false).
Proof.
  intros. unfold L2PTable_CAS, L2PTable_Get. M_unfold.
  destruct (Z.leb_spec (l2p_size t) seg), (Z.ltb_spec seg (l2p_size t)); try lia; [done|].
  cbn. by case_match.
Qed.

Lemma L2PTable_Snapshot_entries t : l2p_wf t → L2PTable_Snapshot t = l2p_entries t.
Proof.
  unfold l2p_wf, L2PTable_Snapshot, len. intros Hwf. apply list_eq. intros i.
  rw list_lookup_fmap. destruct (decide (i < length (l2p_entries t))%nat).
  - rw lookup_seqZ_lt /=; [lia|]. rw Nat2Z.id.
    by destruct (lookup_lt_is_Some_2 (l2p_entries t) i) as [x ->].
  - rw lookup_seqZ_ge; [lia|]. rw lookup_ge_None_2 //; lia.
Qed.

(** Storing a list into the cells from [k] on. *)
Lemma load_loop snap k t :
  0 ≤ k → k + len snap ≤ len (l2p_entries t) →
  for_each (λ (_ : unit) (ipa : Z * Z), modify (l2p_store ipa.1 ipa.2)) tt
    (zip (seqZ k (len snap)) snap) t =
  ({| l2p_entries := take (Z.to_nat k) (l2p_entries t) ++ snap
                     ++ drop (Z.to_nat k + length snap) (l2p_entries t);
      l2p_size := l2p_size t |}, Ok tt).
Proof.
  unfold len. revert k t. induction snap as [|p snap IH]; intros k [es n] Hk Hlen; simpl in *.
  { rw Nat.add_0_r take_drop //. }
  rw seqZ_cons /=; [lia|]. unfold mbind, M_bind; simpl.
  replace (Z.pred (Z.of_nat (S (length snap)))) with (Z.of_nat (length snap)) by lia.
  replace (Z.succ k) with (k + 1) by lia.
  rw IH; [lia|simpl; rw length_insert; lia|]. unfold l2p_store; simpl. do 2 f_equal.
  replace (Z.to_nat (k + 1)) with (S (Z.to_nat k)) by lia.
  rw (take_S_r _ _ p); [rw list_lookup_insert_eq //; lia|].
  rw take_insert_ge // -app_assoc /=. do 3 f_equal.
  replace (Z.to_nat k + S (length snap))%nat with (S (Z.to_nat k) + length snap)%nat by lia.
  by rw drop_insert_lt; [lia|].
Qed.

Lemma LoadSnapshot_eq snap t :
  l2p_wf t → len snap = l2p_size t →
  L2PTable_LoadSnapshot snap t = ({| l2p_entries := snap; l2p_size := l2p_size t |}, Ok tt).
Proof.
  unfold l2p_wf. intros Hwf Hlen. unfold L2PTable_LoadSnapshot. M_unfold.
  rw Hlen Z.eqb_refl /=. rw -Hlen load_loop; [done|lia|]. simpl.
  rw drop_ge; [unfold len in *; lia|]. by rw app_nil_r Hlen.
Qed.

(** ** The reverse map *)
Lemma p2l_key_inj p q : 0 ≤ p < 2^64 → 0 ≤ q < 2^64 → p2l_key p = p2l_key q → p = q.
Proof.
  unfold p2l_key. intros Hp Hq [= Hz Ho].
  by rw -(encode_decode p) // -(encode_decode q) // Hz Ho.
Qed.

(** [IterateZone] visits exactly the entries of the zone, whatever the order. *)
Lemma elem_of_IterateZone (zoneID off seg : Z) (order : list (p2lKey * Z) → list (p2lKey * Z))
    (m : P2LMap) :
  (∀ l, order l ≡ₚ l) →
  (off, seg) ∈ P2LMap_IterateZone zoneID order m ↔ m !! (zoneID, off) = Some seg.
Proof.
  intros Horder. unfold P2LMap_IterateZone. rw list_elem_of_fmap.
  rw -elem_of_map_to_list. split.
  - intros ([[z o] s] & [= -> ->] & Hin). apply list_elem_of_filter in Hin as [Hz Hin].
    simpl in *. subst. by rw Horder in Hin.
  - intros Hin. exists ((zoneID, off), seg). split; [done|].
    apply list_elem_of_filter. split; [done|]. by rw Horder.
Qed.

(** ** Properties *)

(** Packing a 24-bit zone and a 40-bit offset loses nothing in either
    direction, distinct pairs get distinct addresses, and the only pair whose
    address reads as "unmapped" is sector 0 of zone 0. *)
Theorem phys_addr_codec zoneID off zoneID' off' p :
  0 ≤ zoneID < 2^24 → 0 ≤ off < 2^40 → 0 ≤ zoneID' < 2^24 → 0 ≤ off' < 2^40 → 0 ≤ p < 2^64 →
  (PhysAddr_ZoneID (EncodePhysAddr zoneID off) = zoneID ∧
   PhysAddr_OffsetSectors (EncodePhysAddr zoneID off) = off) ∧
  EncodePhysAddr (PhysAddr_ZoneID p) (PhysAddr_OffsetSectors p) = p ∧
  (EncodePhysAddr zoneID off = EncodePhysAddr zoneID' off' ↔ zoneID = zoneID' ∧ off = off') ∧
  (PhysAddr_IsUnmapped (EncodePhysAddr zoneID off) = true ↔ zoneID = 0 ∧ off = 0).
Proof.
  intros Hz Ho Hz' Ho' Hp. split; [by apply decode_encode_small|].
  split; [by apply encode_decode|]. split; [|by apply encode_unmapped].
  split; [|by intros [-> ->]]. intros Heq.
  destruct (decode_encode_small zoneID off Hz Ho) as [Hzone Hoff].
  destruct (decode_encode_small zoneID' off' Hz' Ho') as [Hzone' Hoff']. split; congruence.
Qed.

Lemma phys_addr_codec_witness :
  PhysAddr_ZoneID (EncodePhysAddr 3 16) = 3 ∧ PhysAddr_OffsetSectors (EncodePhysAddr 3 16) = 16.
Proof. apply (phys_addr_codec 3 16 0 0 0); lia. Defined.

(** A snapshot of the forward table loads into any table of the same size
    and makes it equal to the one it was taken from; a snapshot of another size
    is refused and changes nothing. *)
Theorem l2p_snapshot_roundtrip (t t' : L2PTable) (snap : list Z) :
  l2p_wf t → l2p_wf t' →
  (l2p_size t = l2p_size t' → L2PTable_LoadSnapshot (L2PTable_Snapshot t) t' = (t, Ok tt)) ∧
  (len snap ≠ l2p_size t' →
   L2PTable_LoadSnapshot snap t' = (t', Fail (Errorf "snapshot size %d does not match table size %d"))).
Proof.
  intros Hwf Hwf'. rw L2PTable_Snapshot_entries //. split.
  - intros Hsize. rw LoadSnapshot_eq; [done|by rw Hwf|]. rw -Hsize. by destruct t.
  - intros Hne. unfold L2PTable_LoadSnapshot. M_unfold. by destruct (Z.eqb_spec (len snap) (l2p_size t')).
Qed.

Lemma l2p_snapshot_roundtrip_witness :
  let t := l2p_store 1 77 (NewL2PTable 3) in
  L2PTable_LoadSnapshot (L2PTable_Snapshot t) (NewL2PTable 3) = (t, Ok tt).
Proof. by apply (l2p_snapshot_roundtrip _ _ []). Defined.

(** Compare-and-swap replaces the entry of a segment exactly when it still
    holds the expected address, reports which of the two happened, and changes no
    other entry; outside the table it reports failure and changes nothing. *)
Theorem l2p_cas_spec (t : L2PTable) (segID old new seg' : Z) :
  l2p_wf t → 0 ≤ segID → 0 ≤ seg' →
  let '(t', o) := L2PTable_CAS segID old new t in
  let swaps := (segID <? l2p_size t) && (L2PTable_Get segID t =? old) in
  o = Ok swaps ∧ l2p_wf t' ∧ l2p_size t' = l2p_size t ∧
  L2PTable_Get seg' t' = if swaps && (seg' =? segID) then new else L2PTable_Get seg' t.
Proof.
  intros Hwf Hs Hs'. rw L2PTable_CAS_eq //.
  destruct (Z.ltb_spec segID (l2p_size t)); simpl; [|done].
  destruct (Z.eqb_spec (L2PTable_Get segID t) old); simpl; [|done].
  split; [done|]. split; [by apply l2p_store_wf|]. split; [done|].
  rw L2PTable_Get_store //. by destruct (Z.eqb_spec seg' segID), (decide (seg' = segID)).
Qed.

Lemma l2p_cas_spec_witness :
  L2PTable_Get 1 (L2PTable_CAS 1 0 77 (NewL2PTable 3)).1 = 77.
Proof.
  destruct (L2PTable_CAS 1 0 77 (NewL2PTable 3)) as [t' o] eqn:Heq.
  pose proof (l2p_cas_spec (NewL2PTable 3) 1 0 77 1) as Hcas. rw Heq in Hcas.
  apply Hcas; done.
Defined.
