(* ===== verification/ZoneManager.v ===== *)
(** * [internal/ztl/zone_manager.go]: zone states, open-zone LRU, allocation

    The manager shares the device with the rest of the zone translation layer,
    so its methods run on the pair [ZMD] of the two.  [container/list] elements
    have an identity of their own (two elements may hold the same zone), so the
    LRU list holds (element, zone) pairs and [openSet] maps a zone to an
    element. *)

From S2P Require Import Bytes Float64 Zbc Backend Emulator.

(** ** State *)
Record ZoneInfo := {
  zi_ID : Z;
  zi_State : ZoneState;
  zi_WritePointer : Z;   (* absolute LBA of the write pointer *)
  zi_StartLBA : Z;
  zi_SizeSectors : Z;
  zi_ValidSegs : Z;      (* uint32: live segments with L2P mappings *)
  zi_TotalSegs : Z;      (* uint32: total segments ever written *)
  zi_Frozen : bool;
}.

Definition ZoneInfo_zero : ZoneInfo :=
  {| zi_ID := 0; zi_State := ZoneStateNotWritePointer; zi_WritePointer := 0; zi_StartLBA := 0;
     zi_SizeSectors := 0; zi_ValidSegs := 0; zi_TotalSegs := 0; zi_Frozen := false |}.

(** The fraction of invalid segments of a zone. *)
Definition GCScore (z : ZoneInfo) : spec_float :=
  if zi_TotalSegs z =? 0 then float64_of_Z 0
  else
    let invalid := u32 (zi_TotalSegs z - zi_ValidSegs z) in
    float64_div (float64_of_Z invalid) (float64_of_Z (zi_TotalSegs z)).

Record ZoneManager := {
  zm_zones : list ZoneInfo;
  zm_freeList : list Z;          (* zone IDs that are EMPTY and available *)
  zm_openList : list (Z * Z);    (* LRU list: (element, zone ID), oldest first *)
  zm_nextElem : Z;               (* the identity of the next list element *)
  zm_openSet : gmap Z Z;         (* zone ID -> element *)
  zm_frozenSet : gset Z;
  zm_maxOpenZones : Z;
}.

Definition zi_set_state (s : ZoneState) (z : ZoneInfo) : ZoneInfo :=
  {| zi_ID := zi_ID z; zi_State := s; zi_WritePointer := zi_WritePointer z;
     zi_StartLBA := zi_StartLBA z; zi_SizeSectors := zi_SizeSectors z;
     zi_ValidSegs := zi_ValidSegs z; zi_TotalSegs := zi_TotalSegs z; zi_Frozen := zi_Frozen z |}.
Definition zi_set_wp (wp : Z) (z : ZoneInfo) : ZoneInfo :=
  {| zi_ID := zi_ID z; zi_State := zi_State z; zi_WritePointer := wp;
     zi_StartLBA := zi_StartLBA z; zi_SizeSectors := zi_SizeSectors z;
     zi_ValidSegs := zi_ValidSegs z; zi_TotalSegs := zi_TotalSegs z; zi_Frozen := zi_Frozen z |}.
Definition zi_set_segs (valid total : Z) (z : ZoneInfo) : ZoneInfo :=
  {| zi_ID := zi_ID z; zi_State := zi_State z; zi_WritePointer := zi_WritePointer z;
     zi_StartLBA := zi_StartLBA z; zi_SizeSectors := zi_SizeSectors z;
     zi_ValidSegs := valid; zi_TotalSegs := total; zi_Frozen := zi_Frozen z |}.

Definition zm_set_zones (zs : list ZoneInfo) (zm : ZoneManager) : ZoneManager :=
  {| zm_zones := zs; zm_freeList := zm_freeList zm; zm_openList := zm_openList zm;
     zm_nextElem := zm_nextElem zm; zm_openSet := zm_openSet zm;
     zm_frozenSet := zm_frozenSet zm; zm_maxOpenZones := zm_maxOpenZones zm |}.
Definition zm_set_freeList (l : list Z) (zm : ZoneManager) : ZoneManager :=
  {| zm_zones := zm_zones zm; zm_freeList := l; zm_openList := zm_openList zm;
     zm_nextElem := zm_nextElem zm; zm_openSet := zm_openSet zm;
     zm_frozenSet := zm_frozenSet zm; zm_maxOpenZones := zm_maxOpenZones zm |}.
Definition zm_set_open (l : list (Z * Z)) (next : Z) (s : gmap Z Z) (zm : ZoneManager) : ZoneManager :=
  {| zm_zones := zm_zones zm; zm_freeList := zm_freeList zm; zm_openList := l;
     zm_nextElem := next; zm_openSet := s;
     zm_frozenSet := zm_frozenSet zm; zm_maxOpenZones := zm_maxOpenZones zm |}.
Definition zm_set_frozen (s : gset Z) (zm : ZoneManager) : ZoneManager :=
  {| zm_zones := zm_zones zm; zm_freeList := zm_freeList zm; zm_openList := zm_openList zm;
     zm_nextElem := zm_nextElem zm; zm_openSet := zm_openSet zm;
     zm_frozenSet := s; zm_maxOpenZones := zm_maxOpenZones zm |}.

Definition zm_alter_zone (zoneID : Z) (f : ZoneInfo → ZoneInfo) (zm : ZoneManager) : ZoneManager :=
  zm_set_zones (alter f (Z.to_nat zoneID) (zm_zones zm)) zm.

(** [container/list] *)
Definition list_Remove (el : Z) (l : list (Z * Z)) : list (Z * Z) :=
  filter (λ ev, ev.1 ≠ el) l.
Definition list_MoveToBack (el : Z) (l : list (Z * Z)) : list (Z * Z) :=
  list_Remove el l ++ filter (λ ev, ev.1 = el) l.

(** [el := openList.PushBack(zoneID); openSet[zoneID] = el] *)
Definition zm_push_open (zoneID : Z) (zm : ZoneManager) : ZoneManager :=
  zm_set_open (zm_openList zm ++ [(zm_nextElem zm, zoneID)]) (zm_nextElem zm + 1)
    (<[zoneID := zm_nextElem zm]> (zm_openSet zm)) zm.

(** [if el, ok := openSet[zoneID]; ok { openList.Remove(el); delete(openSet, zoneID) }] *)
Definition zm_drop_open (zoneID : Z) (zm : ZoneManager) : ZoneManager :=
  match zm_openSet zm !! zoneID with
  | Some el => zm_set_open (list_Remove el (zm_openList zm)) (zm_nextElem zm)
                 (delete zoneID (zm_openSet zm)) zm
  | None => zm
  end.

Record ZMD (D : Type) := mkZMD { md_zm : ZoneManager; md_dev : D }.
Arguments mkZMD {D} _ _. Arguments md_zm {D} _. Arguments md_dev {D} _.

Section operations.
Context {D : Type} `{ZonedDevice D}.

Definition NewZoneManager (maxOpenZones : Z) : ZoneManager :=
  {| zm_zones := []; zm_freeList := []; zm_openList := []; zm_nextElem := 0;
     zm_openSet := ∅; zm_frozenSet := ∅; zm_maxOpenZones := maxOpenZones |}.

Definition on_device {A} (m : M D A) : M (ZMD D) A :=
  zoom md_dev (λ d s, mkZMD (md_zm s) d) m.
Definition zm_get : M (ZMD D) ZoneManager := gets md_zm.
Definition zm_modify (f : ZoneManager → ZoneManager) : M (ZMD D) unit :=
  modify (λ s, mkZMD (f (md_zm s)) (md_dev s)).

(** [&zm.zones[zoneID]] *)
Definition zone_ref (zoneID : Z) : M (ZMD D) ZoneInfo :=
  zm ← zm_get; from_option Panicked (index (zm_zones zm) zoneID).

Definition zoneinfo_of_desc (i : Z) (d : ZoneDescriptor) : ZoneInfo :=
  {| zi_ID := i; zi_State := zd_ZoneState d; zi_WritePointer := zd_WritePointer d;
     zi_StartLBA := zd_ZoneStartLBA d; zi_SizeSectors := zd_ZoneLength d;
     zi_ValidSegs := 0; zi_TotalSegs := 0; zi_Frozen := false |}.

(** One iteration of the loop of [Initialize]. *)
Definition init_zone (zm : ZoneManager) (id_desc : Z * ZoneDescriptor) : ZoneManager :=
  let '(k, d) := id_desc in
  let i := u32 k in
  let zm := zm_set_zones (zm_zones zm ++ [zoneinfo_of_desc i d]) zm in
  match zd_ZoneState d with
  | ZoneStateEmpty => zm_set_freeList (zm_freeList zm ++ [i]) zm
  | ZoneStateImplicitOpen | ZoneStateExplicitOpen => zm_push_open i zm
  | _ => zm
  end.

Definition ZoneManager_Initialize : M (ZMD D) unit :=
  descs ← wrap "ZoneManager.Initialize: %w" (on_device (ReportZones 0 0));
  zm_modify (λ zm,
    foldl init_zone (zm_set_freeList [] (zm_set_zones [] zm)) (zip (seqZ 0 (len descs)) descs)).

(** Closes the least-recently-used open zone. *)
Definition evictOldestLocked : M (ZMD D) unit :=
  zm ← zm_get;
  match zm_openList zm with
  | [] => mret tt
  | (el, zoneID) :: _ =>
      z ← zone_ref zoneID;
      wrap "closing zone %d for eviction: %w" (on_device (CloseZone (zi_StartLBA z))) ;;
      zm_modify (zm_alter_zone zoneID (zi_set_state ZoneStateClosed)) ;;
      zm_modify (λ zm, zm_set_open (list_Remove el (zm_openList zm)) (zm_nextElem zm)
                         (delete zoneID (zm_openSet zm)) zm)
  end.

Definition at_open_limit (zm : ZoneManager) : bool :=
  zm_maxOpenZones zm <=? Z.of_nat (size (zm_openSet zm)).

Definition AllocateFree : M (ZMD D) Z :=
  zm ← zm_get;
  if decide (zm_freeList zm = []) then throw (Errorf "no free zones available") else
  when_ (at_open_limit zm) (wrap "AllocateFree: evict: %w" evictOldestLocked) ;;
  zm ← zm_get;
  zoneID ← from_option Panicked (last (zm_freeList zm));
  zm_modify (λ zm, zm_set_freeList (removelast (zm_freeList zm)) zm) ;;
  z ← zone_ref zoneID;
  r ← attempt (on_device (OpenZone (zi_StartLBA z)));
  match r with
  | inr e =>
      (* put back in free list *)
      zm_modify (λ zm, zm_set_freeList (zm_freeList zm ++ [zoneID]) zm) ;;
      throw (Wrapf "opening zone %d: %w" e)
  | inl _ =>
      zm_modify (zm_alter_zone zoneID (zi_set_state ZoneStateExplicitOpen)) ;;
      zm_modify (zm_push_open zoneID) ;;
      mret zoneID
  end.

Definition zone_out_of_range (zm : ZoneManager) (zoneID : Z) : bool := len (zm_zones zm) <=? zoneID.

Definition GetOrOpen (zoneID : Z) : M (ZMD D) unit :=
  zm ← zm_get;
  if zone_out_of_range zm zoneID then throw (Errorf "zone ID %d out of range") else
  z ← zone_ref zoneID;
  match zm_openSet zm !! zoneID with
  | Some el =>
      zm_modify (λ zm, zm_set_open (list_MoveToBack el (zm_openList zm)) (zm_nextElem zm)
                         (zm_openSet zm) zm)
  | None =>
      when_ (at_open_limit zm) evictOldestLocked ;;
      wrap "opening zone %d: %w" (on_device (OpenZone (zi_StartLBA z))) ;;
      zm_modify (zm_alter_zone zoneID (zi_set_state ZoneStateExplicitOpen)) ;;
      zm_modify (zm_push_open zoneID)
  end.

Definition MarkFull (zoneID : Z) : M (ZMD D) unit :=
  zm ← zm_get;
  if zone_out_of_range zm zoneID then throw (Errorf "zone ID %d out of range") else
  z ← zone_ref zoneID;
  wrap "finishing zone %d: %w" (on_device (FinishZone (zi_StartLBA z))) ;;
  zm_modify (zm_alter_zone zoneID (λ z,
    zi_set_wp (u64 (zi_StartLBA z + zi_SizeSectors z)) (zi_set_state ZoneStateFull z))) ;;
  zm_modify (zm_drop_open zoneID).

Definition MarkEmpty (zoneID : Z) : M (ZMD D) unit :=
  zm ← zm_get;
  if zone_out_of_range zm zoneID then throw (Errorf "zone ID %d out of range") else
  zm_modify (zm_alter_zone zoneID (λ z,
    zi_set_segs 0 0 (zi_set_wp (zi_StartLBA z) (zi_set_state ZoneStateEmpty z)))) ;;
  zm_modify (zm_drop_open zoneID) ;;
  zm_modify (λ zm, zm_set_frozen (zm_frozenSet zm ∖ {[zoneID]}) zm) ;;
  zm_modify (λ zm, zm_set_freeList (zm_freeList zm ++ [zoneID]) zm).

(** One iteration of the loop of [ReconcileFromDevice]. *)
Definition reconcile_zone (zm : ZoneManager) (id_desc : Z * ZoneDescriptor) : ZoneManager :=
  let '(i, d) := id_desc in
  zm_alter_zone i (λ z, zi_set_wp (zd_WritePointer d) (zi_set_state (zd_ZoneState d) z)) zm.

Definition ReconcileFromDevice : M (ZMD D) unit :=
  descs ← wrap "ReconcileFromDevice: %w" (on_device (ReportZones 0 0));
  zm_modify (λ zm, foldl reconcile_zone zm (zip (seqZ 0 (len descs)) descs)).
End operations.

(** The remaining methods touch the manager only. *)
Definition UpdateWritePointer (zoneID newWP : Z) (zm : ZoneManager) : ZoneManager :=
  if zone_out_of_range zm zoneID then zm else zm_alter_zone zoneID (zi_set_wp newWP) zm.

Definition IncrementValidSegs (zoneID : Z) (zm : ZoneManager) : ZoneManager :=
  if zone_out_of_range zm zoneID then zm
  else zm_alter_zone zoneID (λ z, zi_set_segs (u32 (zi_ValidSegs z + 1)) (u32 (zi_TotalSegs z + 1)) z) zm.

Definition DecrementValidSegs (zoneID : Z) (zm : ZoneManager) : ZoneManager :=
  if zone_out_of_range zm zoneID then zm
  else zm_alter_zone zoneID (λ z,
         if 0 <? zi_ValidSegs z then zi_set_segs (u32 (zi_ValidSegs z - 1)) (zi_TotalSegs z) z else z) zm.

Definition Freeze (zoneID : Z) (zm : ZoneManager) : ZoneManager :=
  zm_set_frozen ({[zoneID]} ∪ zm_frozenSet zm) zm.
Definition Unfreeze (zoneID : Z) (zm : ZoneManager) : ZoneManager :=
  zm_set_frozen (zm_frozenSet zm ∖ {[zoneID]}) zm.

Definition FreeZoneCount (zm : ZoneManager) : Z := len (zm_freeList zm).
Definition OpenZoneCount (zm : ZoneManager) : Z := Z.of_nat (size (zm_openSet zm)).
Definition TotalZoneCount (zm : ZoneManager) : Z := len (zm_zones zm).

Definition ZoneManager_ZoneInfo (zoneID : Z) (zm : ZoneManager) : option ZoneInfo :=
  if zone_out_of_range zm zoneID then None else zm_zones zm !! Z.to_nat zoneID.
Definition AllZones (zm : ZoneManager) : list ZoneInfo := zm_zones zm.

Definition ZoneManager_WritePointer (zoneID : Z) (zm : ZoneManager) : Z :=
  if zone_out_of_range zm zoneID then 0
  else zi_WritePointer (default ZoneInfo_zero (zm_zones zm !! Z.to_nat zoneID)).
Definition ZoneManager_ZoneStartLBA (zoneID : Z) (zm : ZoneManager) : Z :=
  if zone_out_of_range zm zoneID then 0
  else zi_StartLBA (default ZoneInfo_zero (zm_zones zm !! Z.to_nat zoneID)).

(** A zone the collector may pick: not frozen, FULL or CLOSED, ever written. *)
Definition gc_eligible (zm : ZoneManager) (z : ZoneInfo) : bool :=
  negb (bool_decide (zi_ID z ∈ zm_frozenSet zm)) &&
  (bool_decide (zi_State z = ZoneStateFull) || bool_decide (zi_State z = ZoneStateClosed)) &&
  negb (zi_TotalSegs z =? 0).

Definition gc_scan_step (zm : ZoneManager) (best : Z * spec_float * bool) (z : ZoneInfo)
    : Z * spec_float * bool :=
  let '(bestID, bestScore, found) := best in
  if negb (gc_eligible zm z) then best
  else
    let score := GCScore z in
    if float64_lt bestScore score then (zi_ID z, score, true) else best.

Definition SelectGCVictim (zm : ZoneManager) : Z * bool :=
  let '(bestID, _, found) :=
    foldl (gc_scan_step zm) (0, float64_of_Z (-1), false) (zm_zones zm) in
  (bestID, found).

(** ** Well-formed zone managers *)

(** What readers of the translation layer rely on: identity, write pointer and
    extent of every zone. *)
Definition zi_geom (z : ZoneInfo) : Z * Z * Z * Z :=
  (zi_ID z, zi_WritePointer z, zi_StartLBA z, zi_SizeSectors z).

Record zm_wf (zm : ZoneManager) : Prop := {
  wf_zone i z : zm_zones zm !! i = Some z → zi_ID z = Z.of_nat i ∧ 0 ≤ zi_StartLBA z < 2^64;
  wf_free_NoDup : NoDup (zm_freeList zm);
  wf_free_range z : z ∈ zm_freeList zm → 0 ≤ z < len (zm_zones zm);
  wf_elems_NoDup : NoDup (zm_openList zm).*1;
  wf_elems_fresh el : el ∈ (zm_openList zm).*1 → el < zm_nextElem zm;
  wf_openSet z el : zm_openSet zm !! z = Some el ↔ (el, z) ∈ zm_openList zm;
  wf_open_range el z : (el, z) ∈ zm_openList zm → 0 ≤ z < len (zm_zones zm);
  wf_disjoint z : z ∈ zm_freeList zm → zm_openSet zm !! z = None;
  wf_limit : 0 < zm_maxOpenZones zm ∧ Z.of_nat (size (zm_openSet zm)) ≤ zm_maxOpenZones zm;
}.

Lemma list_MoveToBack_perm el l : list_MoveToBack el l ≡ₚ l.
Proof.
  unfold list_MoveToBack, list_Remove. induction l as [|[e z] l IH]; [done|].
  rw !filter_cons. simpl. repeat case_decide; try tauto.
  - by rw /= IH.
  - by rw -Permutation_middle IH.
Qed.

Lemma elem_of_list_Remove el (l : list (Z * Z)) e z :
  (e, z) ∈ list_Remove el l ↔ e ≠ el ∧ (e, z) ∈ l.
Proof. unfold list_Remove. by rw list_elem_of_filter. Qed.

Lemma list_Remove_NoDup el (l : list (Z * Z)) : NoDup l.*1 → NoDup (list_Remove el l).*1.
Proof.
  unfold list_Remove. induction l as [|[e z] l IH]; [done|]. simpl.
  rw NoDup_cons. intros [Hni Hnd]. rw filter_cons. case_decide; [|by apply IH]. simpl.
  rw NoDup_cons. split; [|by apply IH]. intros Hin. apply Hni.
  apply list_elem_of_fmap in Hin as ([e' z'] & -> & Hin).
  apply list_elem_of_filter in Hin as [_ Hin]. apply list_elem_of_fmap. by exists (e', z').
Qed.

Lemma fst_NoDup_elem (l : list (Z * Z)) e z z' :
  NoDup l.*1 → (e, z) ∈ l → (e, z') ∈ l → z = z'.
Proof.
  induction l as [|[e1 z1] l IH]; simpl; [by intros _ ?%elem_of_nil|].
  rw NoDup_cons !elem_of_cons. intros [Hni Hnd] [[= <- <-]|H1] [[= <-]|H2]; try done.
  - exfalso. apply Hni, list_elem_of_fmap. by exists (e, z').
  - simplify_eq. exfalso. apply Hni, list_elem_of_fmap. by exists (e, z).
  - by apply IH.
Qed.

Section zm_lemmas.
Context (zm : ZoneManager) (Hwf : zm_wf zm).

Lemma zm_zone_lookup i : 0 ≤ i < len (zm_zones zm) → ∃ z, zm_zones zm !! Z.to_nat i = Some z.
Proof.
  unfold len. intros. destruct (lookup_lt_is_Some_2 (zm_zones zm) (Z.to_nat i)); [lia|eauto].
Qed.

(** Changes of zone records that keep identity and start. *)
Lemma zm_alter_wf i f :
  (∀ z, zi_ID (f z) = zi_ID z ∧ zi_StartLBA (f z) = zi_StartLBA z) → zm_wf (zm_alter_zone i f zm).
Proof.
  intros Hf. assert (Hlen : len (alter f (Z.to_nat i) (zm_zones zm)) = len (zm_zones zm)).
  { unfold len. by rw length_alter. }
  destruct Hwf. split; simpl; rw ?Hlen; try done.
  intros j z. destruct (decide (Z.to_nat i = j)) as [<-|Hne].
  - rw list_lookup_alter_eq. destruct (zm_zones zm !! Z.to_nat i) eqn:E; [|done].
    intros [= <-]. destruct (Hf z0) as [-> ->]. by apply wf_zone0.
  - rw list_lookup_alter_ne //. apply wf_zone0.
Qed.

Lemma zm_openList_perm_wf l :
  l ≡ₚ zm_openList zm → zm_wf (zm_set_open l (zm_nextElem zm) (zm_openSet zm) zm).
Proof.
  intros Hl. destruct Hwf. split; simpl; try done.
  - by rw Hl.
  - intros el. rw Hl. apply wf_elems_fresh0.
  - intros z el. by rw Hl.
  - intros el z. rw Hl. apply wf_open_range0.
Qed.

Lemma zm_remove_wf el z :
  (el, z) ∈ zm_openList zm →
  zm_wf (zm_set_open (list_Remove el (zm_openList zm)) (zm_nextElem zm)
           (delete z (zm_openSet zm)) zm).
Proof.
  intros Hin. destruct Hwf. split; simpl; try done.
  - by apply list_Remove_NoDup.
  - intros e He. apply wf_elems_fresh0. apply list_elem_of_fmap in He as ([e' z'] & -> & He).
    apply elem_of_list_Remove in He as [_ He]. apply list_elem_of_fmap. by exists (e', z').
  - intros z' e. rw elem_of_list_Remove. rw lookup_delete_Some wf_openSet0. split.
    + intros [Hne He]. split; [|done]. intros ->. by destruct Hne; eapply fst_NoDup_elem.
    + intros [Hne He]. split; [|done]. intros <-. apply Hne.
      apply wf_openSet0 in He, Hin. congruence.
  - intros e z' [_ ?]%elem_of_list_Remove. by eapply wf_open_range0.
  - intros z' Hz. apply lookup_delete_None. auto.
  - split; [tauto|]. rw map_size_delete. case_match; unfold id; lia.
Qed.

Lemma zm_drop_open_wf z : zm_wf (zm_drop_open z zm).
Proof.
  unfold zm_drop_open. destruct (zm_openSet zm !! z) eqn:E; [|done].
  apply zm_remove_wf. by apply (wf_openSet _ Hwf).
Qed.

Lemma zm_push_open_wf z :
  0 ≤ z < len (zm_zones zm) → z ∉ zm_freeList zm → zm_openSet zm !! z = None →
  Z.of_nat (size (zm_openSet zm)) < zm_maxOpenZones zm → zm_wf (zm_push_open z zm).
Proof.
  intros Hz Hfree Hopen Hlim. destruct Hwf.
  assert (Hfresh : zm_nextElem zm ∉ (zm_openList zm).*1) by (intros ?%wf_elems_fresh0; lia).
  split; simpl; try done.
  - rw fmap_app /=. apply NoDup_app. split_and!; [done| |apply NoDup_singleton].
    by intros e He ->%list_elem_of_singleton.
  - intros e. rw fmap_app elem_of_app /= list_elem_of_singleton.
    intros [?%wf_elems_fresh0| ->]; lia.
  - intros z' e. rw elem_of_app list_elem_of_singleton lookup_insert_Some wf_openSet0.
    split.
    + intros [[<- <-]|[? ?]]; [by right|by left].
    + intros [He|[= -> ->]]; [right|by left]. split; [|done]. intros <-.
      apply wf_openSet0 in He. congruence.
  - intros e z'. rw elem_of_app list_elem_of_singleton.
    intros [?|[= -> ->]]; [by eapply wf_open_range0|done].
  - intros z' Hz'. apply lookup_insert_None. split; [auto|]. by intros <-.
  - split; [tauto|]. rw map_size_insert_None //. lia.
Qed.

Lemma zm_free_last_wf l z :
  zm_freeList zm = l ++ [z] → zm_wf (zm_set_freeList l zm) ∧ z ∉ l.
Proof.
  intros Hl. destruct Hwf. rw Hl in wf_free_NoDup0.
  apply NoDup_app in wf_free_NoDup0 as (Hnd & Hni & _). split.
  - split; simpl; try done.
    + intros z' Hz'. apply wf_free_range0. rw Hl. apply elem_of_app. by left.
    + intros z' Hz'. apply wf_disjoint0. rw Hl. apply elem_of_app. by left.
  - intros Hin. apply (Hni z Hin). by apply list_elem_of_singleton.
Qed.

Lemma zm_free_snoc_wf z :
  0 ≤ z < len (zm_zones zm) → z ∉ zm_freeList zm → zm_openSet zm !! z = None →
  zm_wf (zm_set_freeList (zm_freeList zm ++ [z]) zm).
Proof.
  intros Hz Hni Hopen. destruct Hwf. split; simpl; try done.
  - apply NoDup_app. split_and!; [done| |apply NoDup_singleton].
    by intros z' Hz' ->%list_elem_of_singleton.
  - intros z'. rw elem_of_app list_elem_of_singleton. intros [?| ->]; [auto|done].
  - intros z'. rw elem_of_app list_elem_of_singleton. intros [?| ->]; [auto|done].
Qed.

(** The open set and the LRU list hold the same zones. *)
Lemma zm_openSet_size : size (zm_openSet zm) = length (zm_openList zm).
Proof.
  rw -length_map_to_list -(length_fmap prod_swap (zm_openList zm)).
  apply Permutation_length, NoDup_Permutation.
  - apply NoDup_map_to_list.
  - apply NoDup_fmap_2; [intros [] [] [=]; congruence|].
    by eapply NoDup_fmap_1, (wf_elems_NoDup _ Hwf).
  - intros [z e]. rw elem_of_map_to_list (wf_openSet _ Hwf) list_elem_of_fmap. split.
    + intros ?. by exists (e, z).
    + by intros ([e' z'] & [= -> ->] & ?).
Qed.
End zm_lemmas.

(** ** The manager and its device *)
Section md.
Context {D : Type} `{ZonedDeviceSpec D}.
Implicit Types s : ZMD D.

(** Zone [i] is the [i]-th [ZoneSize] sectors of the device, and fits the bit
    fields of a physical address; a free zone is empty. *)
Record md_wf (s : ZMD D) : Prop := {
  md_zm_wf : zm_wf (md_zm s);
  md_dev_wf : dev_wf (md_dev s);
  md_count : len (zm_zones (md_zm s)) ≤ 2^24;
  md_zoneSize : ZoneSize (md_dev s) < 2^32;
  md_zone i z : zm_zones (md_zm s) !! i = Some z →
    zi_StartLBA z = ZoneSize (md_dev s) * Z.of_nat i ∧
    0 < zi_SizeSectors z ≤ ZoneSize (md_dev s) ∧
    zi_StartLBA z + zi_SizeSectors z ≤ Device_Capacity (md_dev s);
  md_free_wp i z : zm_zones (md_zm s) !! i = Some z → Z.of_nat i ∈ zm_freeList (md_zm s) →
    zi_WritePointer z = zi_StartLBA z;
}.

(** What a reader of the translation layer sees did not change. *)
Definition md_same (s s' : ZMD D) : Prop :=
  md_wf s' ∧ (zi_geom <$> zm_zones (md_zm s') = zi_geom <$> zm_zones (md_zm s) ∧
              zm_maxOpenZones (md_zm s') = zm_maxOpenZones (md_zm s)) ∧
  dev_same dev_wf dev_sector (md_dev s) (md_dev s').

Lemma md_same_refl s : md_wf s → md_same s s.
Proof. intros Hwf. split; [done|]. split; [done|]. by apply dev_same_wf_refl, md_dev_wf. Qed.

Lemma md_same_trans s1 s2 s3 : md_same s1 s2 → md_same s2 s3 → md_same s1 s3.
Proof.
  intros (_ & [Hz Hm] & Hs) (Hwf & [Hz' Hm'] & Hs').
  split; [done|]. split; [split; congruence|]. by eapply dev_same_trans.
Qed.

Lemma md_geom_lookup (zm zm' : ZoneManager) i z' :
  zi_geom <$> zm_zones zm' = zi_geom <$> zm_zones zm → zm_zones zm' !! i = Some z' →
  ∃ z, zm_zones zm !! i = Some z ∧ zi_geom z' = zi_geom z.
Proof.
  intros Hg Hz'. apply (f_equal (.!! i)) in Hg. rw !list_lookup_fmap Hz' /= in Hg.
  destruct (zm_zones zm !! i) as [z|]; [|done]. exists z. split; [done|]. by apply (inj Some) in Hg.
Qed.

Lemma md_geom_len (zm zm' : ZoneManager) :
  zi_geom <$> zm_zones zm' = zi_geom <$> zm_zones zm → len (zm_zones zm') = len (zm_zones zm).
Proof. intros Hg%(f_equal length). rw !length_fmap in Hg. unfold len. by rw Hg. Qed.

Lemma geom_alter i f (zs : list ZoneInfo) :
  (∀ z, zi_geom (f z) = zi_geom z) → zi_geom <$> alter f i zs = zi_geom <$> zs.
Proof.
  intros Hf. apply list_eq. intros j. rw !list_lookup_fmap.
  destruct (decide (i = j)) as [<-|].
  - rw list_lookup_alter_eq. destruct (zs !! i); [|done]. by rw /= Hf.
  - by rw list_lookup_alter_ne.
Qed.

(** Changes of the manager, or of the device, that keep [md_same]. *)
Lemma md_same_zm (s : ZMD D) zm :
  md_wf s → zm_wf zm → zi_geom <$> zm_zones zm = zi_geom <$> zm_zones (md_zm s) →
  zm_maxOpenZones zm = zm_maxOpenZones (md_zm s) →
  (∀ z, z ∈ zm_freeList zm → z ∈ zm_freeList (md_zm s)) → md_same s (mkZMD zm (md_dev s)).
Proof.
  intros Hwf Hzm Hg Hm Hfree. split; [|split; [done|by apply dev_same_wf_refl, (md_dev_wf s)]].
  destruct Hwf. split; simpl; try done.
  - by rw (md_geom_len _ _ Hg).
  - intros i z Hz. destruct (md_geom_lookup _ _ _ _ Hg Hz) as (z0 & Hz0 & [= ? ? -> ->]).
    by eapply md_zone0.
  - intros i z Hz Hi. destruct (md_geom_lookup _ _ _ _ Hg Hz) as (z0 & Hz0 & [= ? -> -> ?]).
    eauto.
Qed.

Lemma md_same_dev (s : ZMD D) d :
  md_wf s → dev_same dev_wf dev_sector (md_dev s) d → md_same s (mkZMD (md_zm s) d).
Proof.
  intros Hwf Hd. split; [|by split]. destruct Hd as (Hd & Hc & Hzs & _).
  destruct Hwf. split; simpl; rw ?Hzs ?Hc //.
Qed.

Lemma md_zone_lookup (s : ZMD D) i :
  md_wf s → 0 ≤ i < len (zm_zones (md_zm s)) →
  ∃ z, zm_zones (md_zm s) !! Z.to_nat i = Some z ∧ 0 ≤ zi_StartLBA z < 2^54.
Proof.
  intros Hwf Hi. destruct (zm_zone_lookup _ _ Hi) as [z Hz]. exists z. split; [done|].
  destruct (md_zone _ Hwf _ _ Hz) as (-> & ? & ?).
  destruct (dev_geometry _ (md_dev_wf _ Hwf)). rw Z2Nat.id; [lia|]. nia.
Qed.

Ltac zm_steps :=
  unfold zm_get, zm_modify; wp_steps.

(** Reading [zones[zoneID]] in range, and an operation of the device. *)
Lemma wp_zone_ref (zoneID : Z) z (Q : ZMD D → outcome ZoneInfo → Prop) s :
  0 ≤ zoneID → zm_zones (md_zm s) !! Z.to_nat zoneID = Some z → Q s (Ok z) →
  wp (zone_ref zoneID) Q s.
Proof. intros Hi Hz HQ. unfold zone_ref. zm_steps. unfold index. rw bool_decide_true //. by rw Hz. Qed.

Lemma wp_on_device_same (m : M D unit) (Q : ZMD D → outcome unit → Prop) s :
  md_wf s →
  wp m (λ d' o, returns o ∧ dev_same dev_wf dev_sector (md_dev s) d') (md_dev s) →
  (∀ s' o, md_zm s' = md_zm s → md_same s s' → returns o → Q s' o) → wp (on_device m) Q s.
Proof.
  intros Hwf Hm HQ. unfold on_device. wp_steps. eapply wp_mono; [exact Hm|].
  intros d' o [Hret Hd]. apply HQ; [done|by apply md_same_dev|done].
Qed.

Lemma geom_set_state (st : ZoneState) i (zs : list ZoneInfo) :
  zi_geom <$> alter (zi_set_state st) i zs = zi_geom <$> zs.
Proof. by apply geom_alter. Qed.

Lemma zm_set_state_wf zm st i : zm_wf zm → zm_wf (zm_alter_zone i (zi_set_state st) zm).
Proof. intros. by apply zm_alter_wf. Qed.

Lemma wp_evict (Q : ZMD D → outcome unit → Prop) s :
  md_wf s →
  (∀ s' o, md_same s s' → returns o → zm_freeList (md_zm s') = zm_freeList (md_zm s) →
    (∀ z, zm_openSet (md_zm s) !! z = None → zm_openSet (md_zm s') !! z = None) →
    (is_ok o → Z.of_nat (size (zm_openSet (md_zm s'))) < zm_maxOpenZones (md_zm s')) → Q s' o) →
  wp evictOldestLocked Q s.
Proof.
  intros Hwf HQ. pose proof (md_zm_wf _ Hwf) as Hzm. destruct (wf_limit _ Hzm) as [Hmax Hlim].
  unfold evictOldestLocked. zm_steps. pose proof (zm_openSet_size _ Hzm) as Hsize.
  destruct (zm_openList (md_zm s)) as [|[el zoneID] l] eqn:Hl.
  { wp_steps. apply HQ; [by apply md_same_refl|done..|]. intros _. rw Hsize. done. }
  assert (Hin : (el, zoneID) ∈ zm_openList (md_zm s)) by (rw Hl; by left).
  pose proof (wf_open_range _ Hzm _ _ Hin) as Hr.
  destruct (md_zone_lookup s zoneID Hwf Hr) as (z & Hz & Hstart).
  wp_step. eapply wp_zone_ref; [lia|done|]. cbn beta iota. wp_steps.
  apply wp_on_device_same; [done|apply dev_close; [apply Hwf|lia]|].
  intros s' o Heq Hsame Hret. destruct o as [[]|[e| |]]; try done; cbn beta iota.
  2: { by apply HQ; rw ?Heq. }
  wp_steps. destruct s' as [zm' d']. simpl in Heq. subst zm'.
  pose proof (md_same_zm _ (zm_set_open (list_Remove el (zm_openList (md_zm s)))
    (zm_nextElem (md_zm s)) (delete zoneID (zm_openSet (md_zm s)))
    (zm_alter_zone zoneID (zi_set_state ZoneStateClosed) (md_zm s))) (proj1 Hsame)) as Hs2.
  apply HQ; simpl; try done.
  - eapply md_same_trans; [exact Hsame|]. apply Hs2; simpl; [|apply geom_set_state|done|done].
    by apply (zm_remove_wf (zm_alter_zone _ _ _)); [apply zm_set_state_wf|].
  - intros z' Hz'. apply lookup_delete_None. by right.
  - intros _. rw map_size_delete_Some; [eexists; by apply (wf_openSet _ Hzm)|].
    rw Hsize. simpl in *. lia.
Qed.

(** [if len(openSet) >= maxOpenZones { evict }]: afterwards there is room. *)
Lemma wp_make_room (w : M (ZMD D) unit → M (ZMD D) unit) (Q : ZMD D → outcome unit → Prop) s :
  (w = id ∨ ∃ f, w = wrap f) → md_wf s →
  (∀ s' o, md_same s s' → returns o → zm_freeList (md_zm s') = zm_freeList (md_zm s) →
    (∀ z, zm_openSet (md_zm s) !! z = None → zm_openSet (md_zm s') !! z = None) →
    (is_ok o → Z.of_nat (size (zm_openSet (md_zm s'))) < zm_maxOpenZones (md_zm s')) → Q s' o) →
  wp (when_ (at_open_limit (md_zm s)) (w evictOldestLocked)) Q s.
Proof.
  intros Hw Hwf HQ. wp_step. unfold at_open_limit.
  destruct (Z.leb_spec (zm_maxOpenZones (md_zm s)) (Z.of_nat (size (zm_openSet (md_zm s))))).
  - destruct Hw as [-> |[f ->]]; [apply wp_evict; auto|].
    wp_step. apply wp_evict; [done|]. intros s' [[]|[e| |]] ?????; try done; by apply HQ.
  - apply HQ; [by apply md_same_refl|done..].
Qed.

Definition alloc_post (s s' : ZMD D) (o : outcome Z) : Prop :=
  match o with
  | Ok zoneID => zm_freeList (md_zm s) = zm_freeList (md_zm s') ++ [zoneID] ∧
                 is_Some (zm_openSet (md_zm s') !! zoneID)
  | _ => zm_freeList (md_zm s') = zm_freeList (md_zm s)
  end.

Lemma zm_set_freeList_id (zm : ZoneManager) l :
  zm_set_freeList (zm_freeList zm) (zm_set_freeList l zm) = zm.
Proof. by destruct zm. Qed.

Lemma wp_AllocateFree (Q : ZMD D → outcome Z → Prop) s :
  md_wf s →
  (∀ s' o, md_same s s' → returns o → alloc_post s s' o → Q s' o) → wp AllocateFree Q s.
Proof.
  intros Hwf HQ. unfold AllocateFree. zm_steps. case_decide as Hfree.
  { wp_steps. apply HQ; [by apply md_same_refl|done..]. }
  apply wp_bind, (wp_make_room (wrap "AllocateFree: evict: %w")); [right; by eexists|done|].
  intros s1 o Hs1 Hret Hfl _ Hroom. destruct o as [[]|r]; [|by apply HQ; [..|destruct r]].
  specialize (Hroom I). wp_steps.
  destruct (zm_freeList (md_zm s)) as [|zoneID l _] eqn:Hl using rev_ind; [done|].
  rw Hfl last_snoc. cbn beta iota. wp_steps. simpl. rw Hfl removelast_last.
  destruct Hs1 as (Hwf1 & Hg1 & Hd1). pose proof (md_zm_wf _ Hwf1) as Hzm1.
  assert (Hr : 0 ≤ zoneID < len (zm_zones (md_zm s1))).
  { apply (wf_free_range _ Hzm1). rw Hfl. apply elem_of_app. right. by left. }
  destruct (zm_free_last_wf _ Hzm1 l zoneID Hfl) as [Hzm2 Hni].
  set (s2 := mkZMD (zm_set_freeList l (md_zm s1)) (md_dev s1)).
  assert (Hs2 : md_same s1 s2).
  { apply md_same_zm; [done|done|done|done|]. intros z Hz. rw Hfl. apply elem_of_app. by left. }
  destruct (md_zone_lookup s1 zoneID Hwf1 Hr) as (z & Hz & Hstart).
  eapply wp_zone_ref; [lia|done|]. cbn beta iota. wp_steps.
  apply wp_on_device_same; [apply Hs2|apply dev_open; [apply Hwf1|lia]|].
  intros [zm3 d3] o Heq Hs3 Hret3. simpl in Heq. subst zm3.
  assert (Hs03 : md_same s (mkZMD (zm_set_freeList l (md_zm s1)) d3)).
  { apply (md_same_trans _ s1); [by split|]. by apply (md_same_trans _ s2). }
  destruct o as [[]|[e| |]]; try done; cbn beta iota; zm_steps; simpl.
  - set (zm4 := zm_alter_zone zoneID (zi_set_state ZoneStateExplicitOpen)
                  (zm_set_freeList l (md_zm s1))).
    apply HQ; [|done|]; cycle 1.
    { split; [by rw /= Hl|]. simpl. rw lookup_insert_eq. by eexists. }
    eapply md_same_trans; [exact Hs03|].
    apply (md_same_zm (mkZMD (zm_set_freeList l (md_zm s1)) d3) (zm_push_open zoneID zm4));
      [apply Hs3| |apply geom_set_state|done|done].
    apply zm_push_open_wf; [by apply zm_set_state_wf| |done| |done].
    + unfold len. simpl. rw length_alter. exact Hr.
    + apply (wf_disjoint _ Hzm1). rw Hfl. apply elem_of_app. right. by left.
  - rw -Hfl zm_set_freeList_id. apply HQ; [|done|by rw /= Hl].
    eapply md_same_trans; [exact (conj Hwf1 (conj Hg1 Hd1))|].
    apply (md_same_dev s1); [done|]. apply Hs3.
Qed.

Lemma wp_GetOrOpen (zoneID : Z) (Q : ZMD D → outcome unit → Prop) s :
  md_wf s → 0 ≤ zoneID → zoneID ∉ zm_freeList (md_zm s) →
  (∀ s' o, md_same s s' → returns o → zm_freeList (md_zm s') = zm_freeList (md_zm s) →
    (is_ok o → is_Some (zm_openSet (md_zm s') !! zoneID)) → Q s' o) →
  wp (GetOrOpen zoneID) Q s.
Proof.
  intros Hwf Hid Hni HQ. pose proof (md_zm_wf _ Hwf) as Hzm.
  unfold GetOrOpen. zm_steps. unfold zone_out_of_range.
  destruct (Z.leb_spec (len (zm_zones (md_zm s))) zoneID) as [|Hr].
  { wp_steps. apply HQ; [by apply md_same_refl|done..]. }
  destruct (md_zone_lookup s zoneID Hwf ltac:(lia)) as (z & Hz & Hstart).
  wp_step. eapply wp_zone_ref; [lia|done|]. cbn beta iota. wp_steps.
  destruct (zm_openSet (md_zm s) !! zoneID) as [el|] eqn:Ho.
  { zm_steps. apply HQ; [|done|done|by rw /= Ho].
    apply md_same_zm; [done|by apply zm_openList_perm_wf, list_MoveToBack_perm|done..]. }
  apply wp_bind, (wp_make_room id); [by left|done|].
  intros s1 o Hs1 Hret Hfl Hopen Hroom. destruct o as [[]|r]; [|by apply HQ].
  specialize (Hroom I). specialize (Hopen _ Ho). wp_steps.
  apply wp_on_device_same; [apply Hs1|apply dev_open; [apply Hs1|lia]|].
  intros [zm d] o Heq Hs2 Hret2. simpl in Heq. subst zm.
  pose proof (md_same_trans _ _ _ Hs1 Hs2) as Hs12.
  destruct o as [[]|[e| |]]; try done; cbn beta iota; zm_steps; simpl; [|by apply HQ].
  apply HQ; [|done|done|]; cycle 1.
  { intros _. simpl. rw lookup_insert_eq. by eexists. }
  eapply md_same_trans; [exact Hs12|].
  apply (md_same_zm (mkZMD (md_zm s1) d)); [apply Hs2| |apply geom_set_state|done|done].
  apply zm_push_open_wf; [apply zm_set_state_wf, Hs1| |by rw /= Hfl|done|done].
  unfold len. simpl. rw length_alter. destruct Hs1 as (_ & [Hg _] & _).
  rw -(md_geom_len _ _ Hg) in Hr. unfold len in Hr. lia.
Qed.

(** Changing the write pointer of a zone that is not free. *)
Lemma md_wf_alter (s : ZMD D) (zoneID : Z) f :
  md_wf s → 0 ≤ zoneID → zoneID ∉ zm_freeList (md_zm s) →
  (∀ z, zi_ID (f z) = zi_ID z ∧ zi_StartLBA (f z) = zi_StartLBA z ∧
        zi_SizeSectors (f z) = zi_SizeSectors z) →
  md_wf (mkZMD (zm_alter_zone zoneID f (md_zm s)) (md_dev s)).
Proof.
  intros Hwf Hid Hni Hf. split; simpl; try apply Hwf.
  - apply zm_alter_wf; [apply Hwf|]. intros z. by destruct (Hf z) as (? & ? & _).
  - unfold len. rw length_alter. apply Hwf.
  - intros i z. rw list_lookup_alter. case_decide; [|by apply md_zone].
    intros Hz. apply fmap_Some in Hz as (z0 & Hz & ->). destruct (Hf z0) as (_ & -> & ->).
    simplify_eq. by apply md_zone.
  - intros i z. rw list_lookup_alter. case_decide; [|by apply md_free_wp].
    intros _ Hin. exfalso. apply Hni. by replace zoneID with (Z.of_nat i) by lia.
Qed.

Lemma UpdateWritePointer_wf (s : ZMD D) (zoneID wp : Z) :
  md_wf s → 0 ≤ zoneID → zoneID ∉ zm_freeList (md_zm s) →
  md_wf (mkZMD (UpdateWritePointer zoneID wp (md_zm s)) (md_dev s)).
Proof.
  intros. unfold UpdateWritePointer. case_match; [by destruct s|]. by apply md_wf_alter.
Qed.

(** Counting segments changes neither geometry nor lists. *)
Lemma md_same_counts (s : ZMD D) (zoneID : Z) f :
  md_wf s → (∀ z, zi_geom (f z) = zi_geom z) →
  md_same s (mkZMD (zm_alter_zone zoneID f (md_zm s)) (md_dev s)).
Proof.
  intros Hwf Hf. apply md_same_zm; [done| |by apply geom_alter|done|done].
  apply zm_alter_wf; [apply Hwf|]. intros z. specialize (Hf z). by injection Hf.
Qed.

Lemma IncrementValidSegs_same (s : ZMD D) (zoneID : Z) :
  md_wf s → md_same s (mkZMD (IncrementValidSegs zoneID (md_zm s)) (md_dev s)).
Proof.
  intros. unfold IncrementValidSegs. case_match; [destruct s; by apply md_same_refl|].
  by apply md_same_counts.
Qed.

Lemma DecrementValidSegs_same (s : ZMD D) (zoneID : Z) :
  md_wf s → md_same s (mkZMD (DecrementValidSegs zoneID (md_zm s)) (md_dev s)).
Proof.
  intros. unfold DecrementValidSegs. case_match; [destruct s; by apply md_same_refl|].
  apply md_same_counts; [done|]. intros z. by case_match.
Qed.

Lemma zm_frozen_wf (zm : ZoneManager) fs : zm_wf zm → zm_wf (zm_set_frozen fs zm).
Proof. intros []. by split. Qed.

Lemma md_same_frozen (s : ZMD D) fs :
  md_wf s → md_same s (mkZMD (zm_set_frozen fs (md_zm s)) (md_dev s)).
Proof. intros. apply md_same_zm; [done|by apply zm_frozen_wf, md_zm_wf|done..]. Qed.

Lemma zm_drop_open_zones (zm : ZoneManager) (zoneID : Z) :
  zm_zones (zm_drop_open zoneID zm) = zm_zones zm ∧
  zm_freeList (zm_drop_open zoneID zm) = zm_freeList zm ∧
  (zm_wf zm → zm_openSet (zm_drop_open zoneID zm) !! zoneID = None).
Proof.
  unfold zm_drop_open. destruct (zm_openSet zm !! zoneID) eqn:E; [|by split_and!].
  split_and!; [done|done|]. intros _. simpl. by rw lookup_delete_eq.
Qed.

Lemma zm_drop_open_max (zm : ZoneManager) (zoneID : Z) :
  zm_maxOpenZones (zm_drop_open zoneID zm) = zm_maxOpenZones zm.
Proof. unfold zm_drop_open. by case_match. Qed.

Lemma wp_MarkFull (zoneID : Z) (Q : ZMD D → outcome unit → Prop) s :
  md_wf s → 0 ≤ zoneID → zoneID ∉ zm_freeList (md_zm s) →
  (∀ s' o, md_wf s' → returns o → zm_freeList (md_zm s') = zm_freeList (md_zm s) →
    dev_same dev_wf dev_sector (md_dev s) (md_dev s') →
    zm_maxOpenZones (md_zm s') = zm_maxOpenZones (md_zm s) →
    (is_ok o → zm_openSet (md_zm s') !! zoneID = None) → Q s' o) →
  wp (MarkFull zoneID) Q s.
Proof.
  intros Hwf Hid Hni HQ. unfold MarkFull. zm_steps. unfold zone_out_of_range.
  pose proof (dev_same_wf_refl _ (md_dev_wf _ Hwf)).
  destruct (Z.leb_spec (len (zm_zones (md_zm s))) zoneID) as [|Hr].
  { wp_steps. by apply HQ. }
  destruct (md_zone_lookup s zoneID Hwf ltac:(lia)) as (z & Hz & Hstart).
  wp_step. eapply wp_zone_ref; [lia|done|]. cbn beta iota. wp_steps.
  apply wp_on_device_same; [done|apply dev_finish; [apply Hwf|lia]|].
  intros [zm d] o Heq (Hwf1 & _ & Hd) Hret. simpl in Heq. subst zm.
  destruct o as [[]|[e| |]]; try done; cbn beta iota; zm_steps; [|by apply HQ].
  set (f := λ z, zi_set_wp (u64 (zi_StartLBA z + zi_SizeSectors z)) (zi_set_state ZoneStateFull z)).
  pose proof (md_wf_alter (mkZMD (md_zm s) d) zoneID f Hwf1 Hid Hni ltac:(done)) as Hwf2.
  pose proof (md_zm_wf _ Hwf2) as Hzm2. simpl in *.
  destruct (zm_drop_open_zones (zm_alter_zone zoneID f (md_zm s)) zoneID) as (Hz' & Hf' & Ho').
  apply HQ; simpl; [|done|by rw Hf'|done|by rw zm_drop_open_max|auto].
  apply (md_same_zm (mkZMD (zm_alter_zone zoneID f (md_zm s)) d)); [exact Hwf2|by apply zm_drop_open_wf|by rw Hz'|by rw zm_drop_open_max|by rw Hf'].
Qed.

(** The effect of [MarkEmpty] on a zone in range. *)
Definition zm_empty (zoneID : Z) (zm : ZoneManager) : ZoneManager :=
  let zm := zm_drop_open zoneID (zm_alter_zone zoneID (λ z,
    zi_set_segs 0 0 (zi_set_wp (zi_StartLBA z) (zi_set_state ZoneStateEmpty z))) zm) in
  zm_set_freeList (zm_freeList zm ++ [zoneID])
    (zm_set_frozen (zm_frozenSet zm ∖ {[zoneID]}) zm).

Lemma MarkEmpty_eq s (zoneID : Z) :
  zoneID < len (zm_zones (md_zm s)) →
  MarkEmpty zoneID s = (mkZMD (zm_empty zoneID (md_zm s)) (md_dev s), Ok tt).
Proof.
  intros. unfold MarkEmpty, zone_out_of_range, zm_get, zm_modify. M_unfold.
  by destruct (Z.leb_spec (len (zm_zones (md_zm s))) zoneID); [lia|].
Qed.

Lemma zm_empty_wf s (zoneID : Z) :
  md_wf s → 0 ≤ zoneID < len (zm_zones (md_zm s)) → zoneID ∉ zm_freeList (md_zm s) →
  md_wf (mkZMD (zm_empty zoneID (md_zm s)) (md_dev s)).
Proof.
  intros Hwf Hid Hni. unfold zm_empty.
  set (f := λ z, zi_set_segs 0 0 (zi_set_wp (zi_StartLBA z) (zi_set_state ZoneStateEmpty z))).
  pose proof (md_wf_alter s zoneID f Hwf ltac:(lia) Hni ltac:(done)) as Hwf1.
  set (zm1 := zm_alter_zone zoneID f (md_zm s)) in *.
  destruct (zm_drop_open_zones zm1 zoneID) as (Hz' & Hf' & Ho').
  pose proof (zm_drop_open_wf _ (md_zm_wf _ Hwf1) zoneID) as Hzm2. simpl in Hzm2.
  pose proof (zm_frozen_wf _ (zm_frozenSet (zm_drop_open zoneID zm1) ∖ {[zoneID]}) Hzm2) as Hzm3.
  split; simpl; rw ?Hz' ?Hf'; try apply Hwf1.
  - rw -Hf'. apply (zm_free_snoc_wf _ Hzm3); simpl; rw ?Hz' ?Hf' //.
    + unfold len. simpl. by rw length_alter.
    + apply Ho', Hwf1.
  - intros i z. rw elem_of_app list_elem_of_singleton. intros Hz [Hin|Hi].
    + by eapply (md_free_wp _ Hwf1).
    + simpl in Hz. replace i with (Z.to_nat zoneID) in Hz by lia.
      rw list_lookup_alter_eq in Hz. by apply fmap_Some in Hz as (z0 & _ & ->).
Qed.

(** ** Start-up *)
Definition zm_add_zone (z : ZoneInfo) (zm : ZoneManager) : ZoneManager :=
  zm_set_zones (zm_zones zm ++ [z]) zm.

Lemma md_add_zone_wf (d : D) (zm : ZoneManager) desc :
  md_wf (mkZMD zm d) → len (zm_zones zm) + 1 ≤ 2^24 → desc_ok d (length (zm_zones zm)) desc →
  md_wf (mkZMD (zm_add_zone (zoneinfo_of_desc (u32 (len (zm_zones zm))) desc) zm) d).
Proof.
  intros Hwf Hlen (Hstart & Hsz & Hcap & Hwp).
  pose proof (len_nonneg (zm_zones zm)).
  assert (Hu : u32 (len (zm_zones zm)) = len (zm_zones zm)) by (apply u32_small; lia).
  assert (Hlen' : len (zm_zones zm ++ [zoneinfo_of_desc (u32 (len (zm_zones zm))) desc])
                  = len (zm_zones zm) + 1) by (by rw len_app).
  assert (Hnew : ∀ i z, (zm_zones zm ++ [zoneinfo_of_desc (u32 (len (zm_zones zm))) desc]) !! i = Some z →
    zm_zones zm !! i = Some z ∨
    i = length (zm_zones zm) ∧ z = zoneinfo_of_desc (u32 (len (zm_zones zm))) desc).
  { intros i z. rw lookup_app_Some. intros [?|[Hge Hi]]; [by left|right].
    apply list_lookup_singleton_Some in Hi as [Hi <-]. split; [lia|done]. }
  pose proof (md_zm_wf _ Hwf) as Hzm. pose proof (dev_geometry _ (md_dev_wf _ Hwf)) as Hgeo.
  simpl in *. split; simpl; try apply Hwf; [|rw Hlen'; lia| |].
  - destruct Hzm. split; simpl; rw ?Hlen'; try done.
    + intros i z [Hz|[-> ->]]%Hnew; [by apply wf_zone0|]. simpl. rw Hu. split; [done|]. nia.
    + intros z Hz. specialize (wf_free_range0 z Hz). lia.
    + intros e z Hz. specialize (wf_open_range0 e z Hz). lia.
  - intros i z [Hz|[-> ->]]%Hnew; [by apply (md_zone _ Hwf)|done].
  - intros i z [Hz|[-> ->]]%Hnew; [by apply (md_free_wp _ Hwf)|].
    intros Hin%(wf_free_range _ Hzm). unfold len in Hin. lia.
Qed.

Lemma init_zone_eq (zm : ZoneManager) k desc :
  init_zone zm (k, desc) =
  let zm1 := zm_add_zone (zoneinfo_of_desc (u32 k) desc) zm in
  if bool_decide (zd_ZoneState desc = ZoneStateEmpty)
  then zm_set_freeList (zm_freeList zm1 ++ [u32 k]) zm1
  else if desc_open desc then zm_push_open (u32 k) zm1 else zm1.
Proof. unfold init_zone, desc_open. destruct (zd_ZoneState desc); done. Qed.

Lemma init_zone_wf (d : D) (zm : ZoneManager) desc :
  md_wf (mkZMD zm d) → len (zm_zones zm) + 1 ≤ 2^24 → desc_ok d (length (zm_zones zm)) desc →
  (desc_open desc → Z.of_nat (size (zm_openSet zm)) < zm_maxOpenZones zm) →
  md_wf (mkZMD (init_zone zm (len (zm_zones zm), desc)) d) ∧
  let zm' := init_zone zm (len (zm_zones zm), desc) in
  len (zm_zones zm') = len (zm_zones zm) + 1 ∧ zm_maxOpenZones zm' = zm_maxOpenZones zm ∧
  (size (zm_openSet zm') = size (zm_openSet zm) + if desc_open desc then 1 else 0)%nat.
Proof.
  intros Hwf Hlen Hok Hopen. pose proof (md_add_zone_wf d zm desc Hwf Hlen Hok) as Hwf1.
  pose proof (len_nonneg (zm_zones zm)). rw init_zone_eq. cbv zeta.
  assert (Hu : u32 (len (zm_zones zm)) = len (zm_zones zm)) by (apply u32_small; lia).
  set (z := zoneinfo_of_desc (u32 (len (zm_zones zm))) desc) in *.
  assert (Hlen' : len (zm_zones (zm_add_zone z zm)) = len (zm_zones zm) + 1) by (by rw /= len_app).
  rw Hu. pose proof (md_zm_wf _ Hwf) as Hzm. simpl in Hzm.
  assert (Hni : len (zm_zones zm) ∉ zm_freeList zm) by (intros ?%(wf_free_range _ Hzm); lia).
  assert (Hno : zm_openSet zm !! len (zm_zones zm) = None).
  { destruct (zm_openSet zm !! len (zm_zones zm)) as [el|] eqn:E; [|done].
    apply (wf_openSet _ Hzm) in E. apply (wf_open_range _ Hzm) in E. lia. }
  case_bool_decide as Hempty; [|destruct (desc_open desc) eqn:Hod].
  - assert (desc_open desc = false) as -> by (unfold desc_open; by rw Hempty).
    split; [|split_and!; [done|done|simpl; lia]].
    split; simpl; try apply Hwf1.
    + apply (zm_free_snoc_wf _ (md_zm_wf _ Hwf1)); [simpl in *; lia|done|done].
    + intros i z' Hz'. rw elem_of_app list_elem_of_singleton. intros [Hin|Hi].
      * by apply (md_free_wp _ Hwf1 i).
      * unfold len in Hi. apply Nat2Z.inj in Hi. subst i.
        rw list_lookup_middle // in Hz'. simplify_eq. apply Hok, Hempty.
  - split; [|split_and!; [done|done|]].
    + apply (md_same_zm (mkZMD (zm_add_zone z zm) d)); [exact Hwf1| |done..].
      apply zm_push_open_wf; [apply Hwf1|simpl in *; lia|done|done|by apply Hopen].
    + simpl. rw map_size_insert_None //. lia.
  - split; [done|]. split_and!; [done|done|simpl; lia].
Qed.

Lemma init_loop_wf (d : D) descs (zm : ZoneManager) :
  md_wf (mkZMD zm d) → len (zm_zones zm) + len descs ≤ 2^24 →
  (∀ j desc, descs !! j = Some desc → desc_ok d (length (zm_zones zm) + j) desc) →
  Z.of_nat (size (zm_openSet zm)) + len (filter desc_open descs) ≤ zm_maxOpenZones zm →
  md_wf (mkZMD (foldl init_zone zm (zip (seqZ (len (zm_zones zm)) (len descs)) descs)) d).
Proof.
  revert zm. induction descs as [|desc descs IH]; intros zm Hwf Hlen Hok Hmax.
  { done. }
  assert (Hlc : len (desc :: descs) = len descs + 1) by (unfold len; simpl; lia).
  pose proof (len_nonneg descs). pose proof (len_nonneg (filter desc_open descs)).
  rw Hlc seqZ_cons /=; [lia|].
  assert (Hf : len (filter desc_open (desc :: descs)) =
    len (filter desc_open descs) + if desc_open desc then 1 else 0).
  { rw filter_cons. destruct (desc_open desc); simpl; [unfold len; simpl; lia|lia]. }
  rw Hf in Hmax.
  destruct (init_zone_wf d zm desc) as (Hwf' & Hl' & Hm' & Hs');
    [done|lia|by rw -(Nat.add_0_r (length _)); apply Hok| |].
  { intros Ho. rw Is_true_true in Ho. rw Ho in Hmax. lia. }
  replace (Z.succ (len (zm_zones zm)))
    with (len (zm_zones (init_zone zm (len (zm_zones zm), desc)))) by lia.
  replace (Z.pred (len descs + 1)) with (len descs) by lia.
  apply IH; [done|lia| |rw Hs' Hm'; destruct (desc_open desc); lia].
  generalize dependent (init_zone zm (len (zm_zones zm), desc)). unfold len. intros zm' _ Hl' _ _.
  intros j desc' Hj. replace (length (zm_zones zm') + j)%nat
    with (length (zm_zones zm) + S j)%nat by lia. by apply Hok.
Qed.

Lemma init_loop_max (zm : ZoneManager) (l : list (Z * ZoneDescriptor)) :
  zm_maxOpenZones (foldl init_zone zm l) = zm_maxOpenZones zm.
Proof.
  revert zm. induction l as [|[k desc] l IH]; intros zm; [done|].
  simpl. rw IH. by destruct (zd_ZoneState desc).
Qed.

Lemma new_manager_wf (d : D) (n : Z) :
  dev_wf d → ZoneSize d < 2^32 → 0 < n →
  md_wf (mkZMD (zm_set_freeList [] (zm_set_zones [] (NewZoneManager n))) d).
Proof.
  intros. split; simpl; try done. split; simpl; try done.
  - constructor.
  - by intros z ?%elem_of_nil.
  - constructor.
  - by intros z ?%elem_of_nil.
  - intros z el. by rw lookup_empty elem_of_nil.
  - by intros el z ?%elem_of_nil.
  - rw map_size_empty. lia.
Qed.

Lemma wp_Initialize (n : Z) (Q : ZMD D → outcome unit → Prop) d :
  dev_wf d → ZoneSize d < 2^32 → Device_Capacity d ≤ 2^24 * ZoneSize d →
  0 < n → MaxOpenZones d ≤ n →
  (∀ s' o, dev_same dev_wf dev_sector d (md_dev s') → returns o →
    (is_ok o → md_wf s' ∧ zm_maxOpenZones (md_zm s') = n) → Q s' o) →
  wp ZoneManager_Initialize Q (mkZMD (NewZoneManager n) d).
Proof.
  intros Hd Hzs Hcap Hn Hmax HQ. unfold ZoneManager_Initialize, on_device. wp_steps. simpl.
  eapply wp_mono; [by apply dev_report|]. intros d' o (Hret & Hsame & Hdescs).
  destruct o as [descs|[e| |]]; try done; cbn beta iota; [|by apply HQ].
  unfold zm_modify. wp_steps. simpl. destruct (Hdescs descs eq_refl) as [Hok Hopen].
  destruct Hsame as (Hd' & Hc' & Hzs' & Hsec').
  assert (Hcount : len descs ≤ 2^24).
  { destruct (decide (len descs = 0)); [lia|].
    destruct (lookup_lt_is_Some_2 descs (Nat.pred (length descs))) as [desc Hl];
      [unfold len in *; lia|].
    destruct (Hok _ _ Hl) as (Hs & Hlen & Hfit & _). destruct (dev_geometry _ Hd).
    unfold len. nia. }
  apply HQ; [by split_and!|done|]. intros _. simpl. rw init_loop_max. split; [|done].
  pose proof (init_loop_wf d' descs (zm_set_freeList [] (zm_set_zones [] (NewZoneManager n)))) as Hl.
  apply Hl; simpl; [apply new_manager_wf; [done|by rw Hzs'|done]|done| |].
  - intros j desc Hj. destruct (Hok j desc Hj) as (? & ? & ? & ?). unfold desc_ok.
    by rw Hc' Hzs'.
  - rw map_size_empty. lia.
Qed.
End md.

(** ** The collector's choice *)
Lemma GCScore_nonneg z :
  0 ≤ zi_TotalSegs z < 2^32 → f_nonneg (GCScore z).
Proof.
  intros. unfold GCScore. case_match; [done|].
  pose proof (u32_range (zi_TotalSegs z - zi_ValidSegs z)).
  apply float64_ratio_nonneg; lia.
Qed.

Definition counts_ok (zm : ZoneManager) : Prop :=
  Forall (λ z, 0 ≤ zi_TotalSegs z < 2^32) (zm_zones zm).

(** The scan's invariant: [best] is the first zone of maximal score so far. *)
Definition best_so_far (zm : ZoneManager) (zs : list ZoneInfo) (best : Z * spec_float * bool) : Prop :=
  let '(bestID, bestScore, found) := best in
  if found : bool then
    ∃ z, z ∈ zs ∧ gc_eligible zm z = true ∧ zi_ID z = bestID ∧ bestScore = GCScore z ∧
         ∀ z', z' ∈ zs → gc_eligible zm z' = true → float64_lt bestScore (GCScore z') = false
  else bestID = 0 ∧ bestScore = float64_of_Z (-1) ∧ ∀ z', z' ∈ zs → gc_eligible zm z' = false.

Lemma gc_scan_best (zm : ZoneManager) zs todo best :
  Forall (λ z, 0 ≤ zi_TotalSegs z < 2^32) (zs ++ todo) →
  best_so_far zm zs best → best_so_far zm (zs ++ todo) (foldl (gc_scan_step zm) best todo).
Proof.
  revert zs best. induction todo as [|z todo IH]; intros zs best Hall Hbest.
  { by rw app_nil_r. }
  simpl. rw (assoc_L (++) zs [z] todo). apply IH; [by rw -assoc_L|].
  rw Forall_app Forall_cons in Hall. destruct Hall as (Hzs & Hz & _).
  destruct best as [[bestID bestScore] found]. unfold gc_scan_step, best_so_far in *.
  rw Forall_forall in Hzs. pose proof (GCScore_nonneg z Hz) as Hnn.
  destruct (gc_eligible zm z) eqn:Hel; simpl.
  - destruct found.
    + destruct Hbest as (zb & Hzb & Helb & <- & -> & Hmax).
      pose proof (GCScore_nonneg zb (Hzs _ Hzb)) as Hnb.
      destruct (float64_lt (GCScore zb) (GCScore z)) eqn:Hlt.
      * exists z. split_and!; [set_solver|done..|]. intros z' [Hz'| ->%list_elem_of_singleton]%elem_of_app He.
        -- eapply float64_lt_not_trans; [| | |by apply Hmax|]; eauto using GCScore_nonneg.
        -- apply float64_lt_irrefl.
      * exists zb. split_and!; [set_solver|done..|].
        intros z' [Hz'| ->%list_elem_of_singleton]%elem_of_app He; auto.
    + destruct Hbest as (-> & -> & Hnone). rw float64_lt_neg1 //.
      exists z. split_and!; [set_solver|done..|].
      intros z' [Hz'| ->%list_elem_of_singleton]%elem_of_app He; [|apply float64_lt_irrefl].
      by rw Hnone in He.
  - destruct found.
    + destruct Hbest as (zb & Hzb & Helb & <- & -> & Hmax). exists zb.
      split_and!; [set_solver|done..|].
      intros z' [Hz'| ->%list_elem_of_singleton]%elem_of_app He; [auto|congruence].
    + destruct Hbest as (-> & -> & Hnone). split_and!; [done..|].
      intros z' [Hz'| ->%list_elem_of_singleton]%elem_of_app; auto.
Qed.

(** ** Properties *)

(** Garbage collection picks a zone only if it is FULL or CLOSED, was
    written to and is not frozen; the zone it picks has a maximal score among
    those (no eligible zone has a larger share of dead segments), and it finds
    none exactly when no zone is eligible. *)
Theorem gc_victim_is_best (zm : ZoneManager) (id : Z) (found : bool) :
  counts_ok zm → SelectGCVictim zm = (id, found) →
  if found then
    ∃ z, z ∈ zm_zones zm ∧ zi_ID z = id ∧ gc_eligible zm z = true ∧
      ∀ z', z' ∈ zm_zones zm → gc_eligible zm z' = true →
        float64_lt (GCScore z) (GCScore z') = false
  else ∀ z, z ∈ zm_zones zm → gc_eligible zm z = false.
Proof.
  intros Hok. unfold SelectGCVictim.
  pose proof (gc_scan_best zm [] (zm_zones zm) (0, float64_of_Z (-1), false) Hok) as Hbest.
  destruct (foldl _ _ _) as [[bestID bestScore] f]. intros [= <- <-].
  destruct f; simpl in Hbest.
  - destruct Hbest as (z & Hz & Hel & Hid & -> & Hmax); [|by exists z].
    split_and!; [done..|]. by intros z' ?%elem_of_nil.
  - destruct Hbest as (_ & _ & Hnone); [|done].
    split_and!; [done..|]. by intros z' ?%elem_of_nil.
Qed.

Definition example_zone (id : Z) (st : ZoneState) (valid total : Z) : ZoneInfo :=
  {| zi_ID := id; zi_State := st; zi_WritePointer := 0; zi_StartLBA := 0; zi_SizeSectors := 8;
     zi_ValidSegs := valid; zi_TotalSegs := total; zi_Frozen := false |}.
Definition example_manager : ZoneManager :=
  zm_set_zones [example_zone 0 ZoneStateFull 3 4; example_zone 1 ZoneStateClosed 1 4;
                example_zone 2 ZoneStateFull 0 4; example_zone 3 ZoneStateExplicitOpen 0 4]
    (zm_set_frozen {[2]} (NewZoneManager 2)).

Lemma gc_victim_is_best_witness :
  SelectGCVictim example_manager = (1, true) ∧
  ∃ z, z ∈ zm_zones example_manager ∧ zi_ID z = 1 ∧ gc_eligible example_manager z = true ∧
    ∀ z', z' ∈ zm_zones example_manager → gc_eligible example_manager z' = true →
      float64_lt (GCScore z) (GCScore z') = false.
Proof.
  split; [vm_compute; reflexivity|].
  apply (gc_victim_is_best example_manager 1 true); [|vm_compute; reflexivity].
  repeat constructor; simpl; lia.
Defined.

Lemma Initialize_wf {D} `{ZonedDeviceSpec D} (d : D) (n : Z) s0 :
  dev_wf d → ZoneSize d < 2^32 → Device_Capacity d ≤ 2^24 * ZoneSize d →
  0 < n → MaxOpenZones d ≤ n →
  ZoneManager_Initialize (mkZMD (NewZoneManager n) d) = (s0, Ok tt) →
  md_wf s0 ∧ zm_maxOpenZones (md_zm s0) = n.
Proof.
  intros Hd Hzs Hcap Hn Hmax Hinit.
  pose proof (wp_Initialize n (λ s' o, is_ok o → md_wf s' ∧ zm_maxOpenZones (md_zm s') = n) d) as Hi.
  unfold wp in Hi. rw Hinit in Hi. apply Hi; auto.
Qed.

(** The methods of a manager as a transition system.  A caller never marks a
    zone that is on the free list, nor moves its write pointer. *)
Section steps.
Context {D : Type} `{ZonedDeviceSpec D}.

Inductive zm_step : ZMD D → ZMD D → Prop :=
| step_AllocateFree s : zm_step s (AllocateFree s).1
| step_GetOrOpen s zoneID : 0 ≤ zoneID → zoneID ∉ zm_freeList (md_zm s) →
    zm_step s (GetOrOpen zoneID s).1
| step_MarkFull s zoneID : 0 ≤ zoneID → zoneID ∉ zm_freeList (md_zm s) →
    zm_step s (MarkFull zoneID s).1
| step_MarkEmpty s zoneID : 0 ≤ zoneID → zoneID ∉ zm_freeList (md_zm s) →
    zm_step s (MarkEmpty zoneID s).1
| step_UpdateWritePointer s zoneID newWP : 0 ≤ zoneID → zoneID ∉ zm_freeList (md_zm s) →
    zm_step s (mkZMD (UpdateWritePointer zoneID newWP (md_zm s)) (md_dev s))
| step_IncrementValidSegs s zoneID : 
    zm_step s (mkZMD (IncrementValidSegs zoneID (md_zm s)) (md_dev s))
| step_DecrementValidSegs s zoneID : 
    zm_step s (mkZMD (DecrementValidSegs zoneID (md_zm s)) (md_dev s))
| step_Freeze s zoneID : zm_step s (mkZMD (Freeze zoneID (md_zm s)) (md_dev s))
| step_Unfreeze s zoneID : zm_step s (mkZMD (Unfreeze zoneID (md_zm s)) (md_dev s)).

Lemma UpdateWritePointer_max (zoneID newWP : Z) zm :
  zm_maxOpenZones (UpdateWritePointer zoneID newWP zm) = zm_maxOpenZones zm.
Proof. unfold UpdateWritePointer. by case_match. Qed.

Lemma md_same_step (s s' : ZMD D) :
  md_same s s' → md_wf s' ∧ zm_maxOpenZones (md_zm s') = zm_maxOpenZones (md_zm s).
Proof. by intros (? & [_ ?] & _). Qed.

Lemma zm_step_wf s s' :
  md_wf s → zm_step s s' → md_wf s' ∧ zm_maxOpenZones (md_zm s') = zm_maxOpenZones (md_zm s).
Proof.
  intros Hwf Hstep. destruct Hstep as [s|s z ? Hni|s z ? Hni|s z ? Hni|s z wp ? Hni|s z|s z|s z|s z].
  - apply md_same_step. by apply (wp_AllocateFree (λ s' _, md_same s s')).
  - apply md_same_step. by apply (wp_GetOrOpen z (λ s' _, md_same s s')).
  - apply (wp_MarkFull z (λ s' _, md_wf s' ∧ zm_maxOpenZones (md_zm s') = _)); auto.
  - destruct (decide (z < len (zm_zones (md_zm s)))) as [Hlt|Hge].
    + rw MarkEmpty_eq // /=. split; [by apply zm_empty_wf|].
      unfold zm_empty. simpl. by rw zm_drop_open_max.
    + unfold MarkEmpty, zm_get, zone_out_of_range. M_unfold.
      by destruct (Z.leb_spec (len (zm_zones (md_zm s))) z); [|lia].
  - split; [by apply UpdateWritePointer_wf|apply UpdateWritePointer_max].
  - by apply md_same_step, IncrementValidSegs_same.
  - by apply md_same_step, DecrementValidSegs_same.
  - by apply md_same_step, md_same_frozen.
  - by apply md_same_step, md_same_frozen.
Qed.
End steps.

(** C32: after a start-up that succeeds, with room for as many open zones as the
    device has ([maxOpenZones]), follows any sequence of AllocateFree, of GetOrOpen,
    MarkFull, MarkEmpty and UpdateWritePointer on zones that are not on the free
    list, and of the counting and freezing calls on any zone - but not
    ReconcileFromDevice. Then the zone manager never has more than [maxOpenZones]
    zones open, no zone is on the free list twice, no free zone is open and every
    free zone's write pointer is at its start (the rest of [md_wf]: LRU list and
    open set hold the same zones, zone records match the geometry of the device).
    That the zone is not free already is needed: MarkEmpty does not check it, and
    the replay of a reset then frees a zone twice ([replayed_reset_frees_twice]). *)
Theorem zone_manager_invariant {D} `{ZonedDeviceSpec D} (d : D) (n : Z) s0 s :
  dev_wf d → ZoneSize d < 2^32 → Device_Capacity d ≤ 2^24 * ZoneSize d →
  0 < n → MaxOpenZones d ≤ n →
  ZoneManager_Initialize (mkZMD (NewZoneManager n) d) = (s0, Ok tt) →
  rtc zm_step s0 s →
  md_wf s ∧ OpenZoneCount (md_zm s) ≤ n ∧
  NoDup (zm_freeList (md_zm s)) ∧
  ∀ zoneID, zoneID ∈ zm_freeList (md_zm s) →
    zm_openSet (md_zm s) !! zoneID = None ∧
    ∃ z, ZoneManager_ZoneInfo zoneID (md_zm s) = Some z ∧ zi_WritePointer z = zi_StartLBA z.
Proof.
  intros Hd Hzs Hcap Hn Hmax Hinit Hsteps.
  destruct (Initialize_wf d n s0) as [Hwf0 <-]; [done..|].
  assert (Hwf : md_wf s ∧ zm_maxOpenZones (md_zm s) = zm_maxOpenZones (md_zm s0)).
  { clear Hinit Hn Hmax. induction Hsteps as [|s0 s1 s Hstep _ IH]; [done|].
    destruct (zm_step_wf _ _ Hwf0 Hstep) as [Hwf1 Hm]. destruct (IH Hwf1). split; congruence. }
  destruct Hwf as [Hwf <-]. pose proof (md_zm_wf _ Hwf) as Hzm.
  split_and!; [done|apply (wf_limit _ Hzm)|apply (wf_free_NoDup _ Hzm)|].
  intros zoneID Hz. split; [by apply (wf_disjoint _ Hzm)|].
  pose proof (wf_free_range _ Hzm _ Hz) as Hr.
  destruct (md_zone_lookup s zoneID Hwf Hr) as (z & Hlk & _). exists z.
  unfold ZoneManager_ZoneInfo, zone_out_of_range.
  destruct (Z.leb_spec (len (zm_zones (md_zm s))) zoneID); [lia|]. split; [done|].
  apply (md_free_wp _ Hwf (Z.to_nat zoneID)); [done|]. by rw Z2Nat.id; [lia|].
Qed.

(** Start-up on an emulator of three zones of two sectors. *)
Definition small_start : ZMD Emulator * outcome unit :=
  ZoneManager_Initialize (mkZMD (NewZoneManager 2) small_emulator).

Lemma small_start_wf : md_wf small_start.1.
Proof.
  apply (Initialize_wf small_emulator 2); [apply small_emulator_wf|by vm_compute..|].
  vm_compute. reflexivity.
Qed.

Lemma zone_manager_invariant_witness :
  OpenZoneCount (md_zm (AllocateFree (AllocateFree (AllocateFree small_start.1).1).1).1) ≤ 2.
Proof.
  apply (zone_manager_invariant (D := Emulator) small_emulator 2 small_start.1).
  - apply small_emulator_wf.
  - by vm_compute.
  - by vm_compute.
  - done.
  - by vm_compute.
  - vm_compute. reflexivity.
  - eapply rtc_l; [apply step_AllocateFree|]. eapply rtc_l; [apply step_AllocateFree|].
    apply rtc_once, step_AllocateFree.
Defined.

(** [AllocateFree] hands out a zone of the free list that was not open,
    takes it off the list and leaves it open with its write pointer at its
    start; it changes no sector of the device, and when it fails the free list
    is as before. *)
Theorem allocate_free_spec {D} `{ZonedDeviceSpec D} (s s' : ZMD D) (o : outcome Z) :
  md_wf s → AllocateFree s = (s', o) →
  md_wf s' ∧ dev_same dev_wf dev_sector (md_dev s) (md_dev s') ∧ returns o ∧
  match o with
  | Ok zoneID =>
      zoneID ∈ zm_freeList (md_zm s) ∧ zm_openSet (md_zm s) !! zoneID = None ∧
      zoneID ∉ zm_freeList (md_zm s') ∧ is_Some (zm_openSet (md_zm s') !! zoneID) ∧
      FreeZoneCount (md_zm s') = FreeZoneCount (md_zm s) - 1 ∧
      ZoneManager_WritePointer zoneID (md_zm s') = ZoneManager_ZoneStartLBA zoneID (md_zm s')
  | _ => zm_freeList (md_zm s') = zm_freeList (md_zm s)
  end.
Proof.
  intros Hwf Heq. pose proof (md_zm_wf _ Hwf) as Hzm.
  assert (Hpost : md_same s s' ∧ returns o ∧ alloc_post s s' o).
  { pose proof (wp_AllocateFree (λ s' o, md_same s s' ∧ returns o ∧ alloc_post s s' o) s Hwf) as Hw.
    unfold wp in Hw. rw Heq in Hw. by apply Hw. }
  destruct Hpost as ((Hwf' & [Hg _] & Hd) & Hret & Hpost).
  split; [done|]. split; [done|]. split; [done|].
  destruct o as [zoneID|[e| |]]; try done. destruct Hpost as [Hfl Hopen].
  assert (Hin : zoneID ∈ zm_freeList (md_zm s)) by (rw Hfl; set_solver).
  pose proof (wf_free_NoDup _ Hzm) as Hnd. rw Hfl in Hnd.
  apply NoDup_app in Hnd as (_ & Hni & _).
  assert (Hni' : zoneID ∉ zm_freeList (md_zm s')) by (intros Hx; apply (Hni _ Hx); by left).
  split_and!; [done|by apply (wf_disjoint _ Hzm)|done|done| |].
  { unfold FreeZoneCount. rw Hfl len_app. unfold len. simpl. lia. }
  pose proof (wf_free_range _ Hzm _ Hin) as Hr.
  unfold ZoneManager_WritePointer, ZoneManager_ZoneStartLBA, zone_out_of_range.
  rw (md_geom_len _ _ Hg). destruct (Z.leb_spec (len (zm_zones (md_zm s))) zoneID); [lia|].
  pose proof Hr as Hr'. rw -(md_geom_len _ _ Hg) in Hr'.
  destruct (md_zone_lookup s' zoneID Hwf' Hr') as (z' & Hz' & _). rw Hz' /=.
  destruct (md_geom_lookup _ _ _ _ Hg Hz') as (z & Hz & [= _ -> -> _]).
  apply (md_free_wp _ Hwf (Z.to_nat zoneID)); [done|]. by rw Z2Nat.id; [lia|].
Qed.

Lemma allocate_free_spec_witness :
  (AllocateFree small_start.1).2 = Ok 2 ∧ md_wf (AllocateFree small_start.1).1.
Proof.
  split; [vm_compute; reflexivity|].
  eapply (allocate_free_spec (D := Emulator) small_start.1); [apply small_start_wf|].
  apply surjective_pairing.
Defined.
