(* ===== verification/WriteBuffer.v ===== *)
(** * [internal/ztl/buffer.go]: the per-zone write buffer

    Writes accumulate per zone and reach the device when the zone fills up, on
    a sync, or when they have aged.  [phys_sector] is what a reader of the
    buffer and the device sees at a physical address; flushing a zone keeps it. *)

From S2P Require Import Bytes Zbc Backend Emulator ZoneManager.

(** ** State *)
Record zoneBuffer := {
  zb_zoneID : Z;
  zb_data : list byte;       (* contiguous buffer for the zone *)
  zb_writePointer : Z;       (* LBA where buffered data starts *)
  zb_lastWriteAt : Z;        (* nanoseconds *)
}.

Record WriteBuffer := {
  wb_buffers : gmap Z zoneBuffer;
  wb_zoneSectors : Z;
  wb_flushAge : Z;           (* nanoseconds *)
  wb_sectorSize : Z;
}.

Definition NewWriteBuffer (zoneSectors flushAgeSec : Z) : WriteBuffer :=
  {| wb_buffers := ∅; wb_zoneSectors := zoneSectors;
     wb_flushAge := i64 (flushAgeSec * 1000000000); wb_sectorSize := 512 |}.

Definition wb_set_buffers (m : gmap Z zoneBuffer) (wb : WriteBuffer) : WriteBuffer :=
  {| wb_buffers := m; wb_zoneSectors := wb_zoneSectors wb;
     wb_flushAge := wb_flushAge wb; wb_sectorSize := wb_sectorSize wb |}.

(** ** Operations; [now] is the value [time.Now()] returns *)
Definition WriteBuffer_Add (now zoneID : Z) (data : list byte) (writePointer : Z)
    : M WriteBuffer unit :=
  if len data =? 0 then mret tt else
  modify (λ wb,
    let buf := default {| zb_zoneID := zoneID; zb_data := []; zb_writePointer := writePointer;
                          zb_lastWriteAt := 0 |} (wb_buffers wb !! zoneID) in
    wb_set_buffers
      (<[zoneID := {| zb_zoneID := zb_zoneID buf; zb_data := zb_data buf ++ data;
                      zb_writePointer := zb_writePointer buf; zb_lastWriteAt := now |}]>
         (wb_buffers wb)) wb).

Definition WriteBuffer_Lookup (zoneID startLBA sectorCount : Z)
    : M WriteBuffer (option (list byte)) :=
  wb ← gets id;
  match wb_buffers wb !! zoneID with
  | None => mret None
  | Some buf =>
      let bufStartLBA := zb_writePointer buf in
      let bufEndLBA := u64 (bufStartLBA + len (zb_data buf) / wb_sectorSize wb) in
      let requestStart := startLBA in
      let requestEnd := u64 (startLBA + sectorCount) in
      if (bufEndLBA <=? requestStart) || (requestEnd <=? bufStartLBA) then mret None else
      let overlapStart := Z.max requestStart bufStartLBA in
      let overlapEnd := Z.min requestEnd bufEndLBA in
      if overlapEnd <=? overlapStart then mret None
      else if negb (overlapStart =? requestStart) || negb (overlapEnd =? requestEnd)
      then mret None
      else
        let bufOffset := i64 (i64 (overlapStart - bufStartLBA) * wb_sectorSize wb) in
        let length := i64 (i64 (overlapEnd - overlapStart) * wb_sectorSize wb) in
        result ← from_option Panicked (slice_checked bufOffset (bufOffset + length) (zb_data buf));
        mret (Some result)
  end.

(** The buffer with the manager and the device it flushes to. *)
Record WBD (D : Type) := mkWBD { wd_buf : WriteBuffer; wd_md : ZMD D }.
Arguments mkWBD {D} _ _. Arguments wd_buf {D} _. Arguments wd_md {D} _.

Section flush.
Context {D : Type} `{ZonedDevice D}.

Definition on_buf {A} (m : M WriteBuffer A) : M (WBD D) A :=
  zoom wd_buf (λ b s, mkWBD b (wd_md s)) m.
Definition on_md {A} (m : M (ZMD D) A) : M (WBD D) A :=
  zoom wd_md (λ md s, mkWBD (wd_buf s) md) m.

Definition WriteBuffer_Flush (zoneID : Z) : M (WBD D) unit :=
  wb ← gets wd_buf;
  match wb_buffers wb !! zoneID with
  | None => mret tt
  | Some buf =>
      on_buf (modify (λ wb, wb_set_buffers (delete zoneID (wb_buffers wb)) wb)) ;;
      if len (zb_data buf) =? 0 then mret tt else
      wrap "WriteBuffer.Flush: open zone %d: %w" (on_md (GetOrOpen zoneID)) ;;
      wrap "WriteBuffer.Flush: write zone %d at lba %d: %w"
        (on_md (on_device (WriteSectors (zb_writePointer buf) (zb_data buf)))) ;;
      let newWP := u64 (zb_writePointer buf + len (zb_data buf) / wb_sectorSize wb) in
      on_md (zm_modify (UpdateWritePointer zoneID newWP))
  end.

(** [order] is the order in which Go ranges over the map. *)
Definition FlushAll (order : list Z → list Z) : M (WBD D) unit :=
  wb ← gets wd_buf;
  let zoneIDs := order (map_to_list (wb_buffers wb)).*1 in
  firstErr ← for_each (λ (firstErr : option error) id,
    r ← attempt (WriteBuffer_Flush id);
    mret match r, firstErr with
         | inr e, None => Some e
         | _, _ => firstErr
         end) None zoneIDs;
  match firstErr with
  | Some e => throw e
  | None => mret tt
  end.

Definition flushAged (now : Z) (order : list Z → list Z) : M (WBD D) unit :=
  wb ← gets wd_buf;
  let threshold := now - wb_flushAge wb in
  let aged := order (filter (λ kv : Z * zoneBuffer, zb_lastWriteAt kv.2 < threshold)
                       (map_to_list (wb_buffers wb))).*1 in
  for_each (λ (_ : unit) id,
    _ ← attempt (WriteBuffer_Flush id); mret tt (* best effort *)) tt aged.
End flush.

Definition DirtyBytes (wb : WriteBuffer) : Z :=
  map_fold (λ _ buf total, i64 (total + len (zb_data buf))) 0 (wb_buffers wb).
Definition WriteBuffer_ZoneCount (wb : WriteBuffer) : Z := Z.of_nat (size (wb_buffers wb)).

(** ** Lookup *)

(** Buffers hold whole sectors at addresses far from the end of [uint64]. *)
Definition buf_ok (zoneID : Z) (b : zoneBuffer) : Prop :=
  zb_zoneID b = zoneID ∧ 0 ≤ zb_writePointer b ∧
  ∃ n, 0 < n < 2^32 ∧ len (zb_data b) = sectorSize * n ∧ zb_writePointer b + n ≤ 2^54.

(** The buffered sectors are [zb_writePointer, zb_end). *)
Definition zb_end (b : zoneBuffer) : Z := zb_writePointer b + len (zb_data b) / sectorSize.

Lemma zb_end_eq b n : len (zb_data b) = sectorSize * n → zb_end b = zb_writePointer b + n.
Proof. unfold zb_end. intros ->. by rw Z.mul_comm Z.div_mul. Qed.

(** The buffered sectors [lba, lba + count), if all of them are buffered. *)
Definition buf_hit (wb : WriteBuffer) (zoneID lba count : Z) : option (list byte) :=
  match wb_buffers wb !! zoneID with
  | Some b =>
      if bool_decide (zb_writePointer b ≤ lba ∧ lba + count ≤ zb_end b)
      then Some (slice (sectorSize * (lba - zb_writePointer b))
                   (sectorSize * (lba - zb_writePointer b + count)) (zb_data b))
      else None
  | None => None
  end.

Lemma WriteBuffer_Lookup_eq zoneID lba count wb :
  wb_sectorSize wb = 512 → 0 ≤ lba → 0 < count → lba + count ≤ 2^54 →
  (∀ b, wb_buffers wb !! zoneID = Some b → buf_ok zoneID b) →
  WriteBuffer_Lookup zoneID lba count wb = (wb, Ok (buf_hit wb zoneID lba count)).
Proof.
  intros Hss Hlba Hcount Hend Hok. unfold WriteBuffer_Lookup, buf_hit. M_unfold.
  destruct (wb_buffers wb !! zoneID) as [b|]; [|done].
  destruct (Hok b eq_refl) as (_ & Hw & n & Hn & Hlen & Hfit). simpl.
  rw (zb_end_eq b n Hlen) Hss. unfold sectorSize in *.
  rw Hlen Z.mul_comm Z.div_mul //. rw !u64_small; [lia..|].
  destruct (Z.leb_spec (zb_writePointer b + n) lba); simpl.
  { rw bool_decide_false //. lia. }
  destruct (Z.leb_spec (lba + count) (zb_writePointer b)); simpl.
  { rw bool_decide_false //. lia. }
  destruct (Z.leb_spec ((lba + count) `min` (zb_writePointer b + n)) (lba `max` zb_writePointer b)); [lia|].
  destruct (Z.eqb_spec (lba `max` zb_writePointer b) lba); simpl.
  2: { rw bool_decide_false //. lia. }
  destruct (Z.eqb_spec ((lba + count) `min` (zb_writePointer b + n)) (lba + count)); simpl.
  2: { rw bool_decide_false //. lia. }
  rw bool_decide_true; [lia|].
  rw !(i64_small (_ - _)); [lia..|]. rw !i64_small; [lia..|].
  rw slice_checked_Some; [lia|lia|]. simpl. do 4 f_equal; lia.
Qed.

(** ** Adding *)
Definition wb_added (now zoneID : Z) (data : list byte) (wp : Z) (wb : WriteBuffer) : WriteBuffer :=
  (WriteBuffer_Add now zoneID data wp wb).1.
(** The buffer of the zone after [Add]. *)
Definition zb_added (now zoneID : Z) (data : list byte) (wp : Z) (ob : option zoneBuffer) : zoneBuffer :=
  let buf := default {| zb_zoneID := zoneID; zb_data := []; zb_writePointer := wp; zb_lastWriteAt := 0 |} ob in
  {| zb_zoneID := zb_zoneID buf; zb_data := zb_data buf ++ data;
     zb_writePointer := zb_writePointer buf; zb_lastWriteAt := now |}.

Lemma wb_added_buffers now zoneID data wp wb :
  len data ≠ 0 →
  wb_buffers (wb_added now zoneID data wp wb) =
    <[zoneID := zb_added now zoneID data wp (wb_buffers wb !! zoneID)]> (wb_buffers wb) ∧
  wb_sectorSize (wb_added now zoneID data wp wb) = wb_sectorSize wb.
Proof.
  intros. unfold wb_added, WriteBuffer_Add. destruct (Z.eqb_spec (len data) 0); [lia|done].
Qed.

(** The buffered sectors grow at the end; a zone without a buffer starts one at
    [writePointer]. *)
Lemma zb_added_ok now zoneID data n wp ob :
  (∀ b, ob = Some b → buf_ok zoneID b ∧ zb_end b = wp ∧ wp + n < zb_writePointer b + 2^32) →
  0 ≤ wp → 0 < n < 2^32 → wp + n ≤ 2^54 → len data = sectorSize * n →
  let b' := zb_added now zoneID data wp ob in
  buf_ok zoneID b' ∧ zb_end b' = wp + n ∧ zb_writePointer b' ≤ wp ∧
  zb_data b' = (if ob is Some b then zb_data b else []) ++ data ∧
  len (if ob is Some b then zb_data b else []) = sectorSize * (wp - zb_writePointer b').
Proof.
  intros Hb Hwp Hn Hend Hlen. destruct ob as [b|]; simpl.
  - destruct (Hb b eq_refl) as ((Hid & Hw & k & Hk & Hlk & Hfit) & He & Hsmall).
    rw (zb_end_eq b k Hlk) in He. unfold zb_added. simpl.
    assert (Hl : len (zb_data b ++ data) = sectorSize * (k + n)) by (rw len_app; lia).
    split; [split; [done|]; split; [done|]; exists (k + n); simpl; lia|].
    split; [rw (zb_end_eq _ (k + n)) //=; lia|]. split; [lia|]. split; [done|].
    rw Hlk. f_equal. lia.
  - unfold zb_added. simpl. split; [split; [done|]; split; [done|]; exists n; simpl; lia|].
    split; [rw (zb_end_eq _ n) //=|]. split; [lia|]. split; [done|]. rw Z.sub_diag. done.
Qed.

(** ** What a reader sees at a physical address *)
Section view.
Context {D : Type} `{ZonedDeviceSpec D}.
Implicit Types s : WBD D.

Definition phys_sector s (zoneID lba : Z) : list byte :=
  match wb_buffers (wd_buf s) !! zoneID with
  | Some b => if bool_decide (zb_writePointer b ≤ lba < zb_end b)
              then sec (zb_data b) (lba - zb_writePointer b)
              else dev_sector (md_dev (wd_md s)) lba
  | None => dev_sector (md_dev (wd_md s)) lba
  end.

(** A buffer ends at the zone's tracked write pointer, inside the zone. *)
Definition buf_wf (zm : ZoneManager) (zoneID : Z) (b : zoneBuffer) : Prop :=
  buf_ok zoneID b ∧ 0 ≤ zoneID ∧ zoneID ∉ zm_freeList zm ∧
  ∃ z, zm_zones zm !! Z.to_nat zoneID = Some z ∧
    zi_StartLBA z ≤ zb_writePointer b ∧ zb_end b = zi_WritePointer z ∧
    zi_WritePointer z ≤ zi_StartLBA z + zi_SizeSectors z.

Record wbd_wf s : Prop := {
  wbd_md : md_wf (wd_md s);
  wbd_sectorSize : wb_sectorSize (wd_buf s) = 512;
  wbd_buf zoneID b : wb_buffers (wd_buf s) !! zoneID = Some b →
    buf_wf (md_zm (wd_md s)) zoneID b;
}.

(** The extent of a zone. *)
Definition in_zone (zm : ZoneManager) (zoneID lba : Z) : Prop :=
  ∃ z, zm_zones zm !! Z.to_nat zoneID = Some z ∧ 0 ≤ zoneID ∧
       zi_StartLBA z ≤ lba < zi_StartLBA z + zi_SizeSectors z.

(** [s'] is [s] with the zones satisfying [P] seen as before. *)
Definition wbd_frame (P : Z → Prop) s s' : Prop :=
  wbd_wf s' ∧
  zi_geom <$> zm_zones (md_zm (wd_md s')) = zi_geom <$> zm_zones (md_zm (wd_md s)) ∧
  (∀ z, z ∈ zm_freeList (md_zm (wd_md s')) → z ∈ zm_freeList (md_zm (wd_md s))) ∧
  ∀ zoneID lba, P zoneID → in_zone (md_zm (wd_md s)) zoneID lba →
    phys_sector s' zoneID lba = phys_sector s zoneID lba.

Lemma in_zone_geom (zm zm' : ZoneManager) zoneID lba :
  zi_geom <$> zm_zones zm' = zi_geom <$> zm_zones zm →
  in_zone zm' zoneID lba → in_zone zm zoneID lba.
Proof.
  intros Hg (z' & Hz' & H0' & Hr). destruct (md_geom_lookup _ _ _ _ Hg Hz') as (z & Hz & [= _ _ Hst Hsz]).
  rw Hst Hsz in Hr. by exists z.
Qed.

Lemma wbd_frame_refl P s : wbd_wf s → wbd_frame P s s.
Proof. by intros; split_and!. Qed.

Lemma wbd_frame_trans P s1 s2 s3 : wbd_frame P s1 s2 → wbd_frame P s2 s3 → wbd_frame P s1 s3.
Proof.
  intros (_ & Hg & Hf & Hs) (Hwf & Hg' & Hf' & Hs'). split_and!; [done|congruence|auto|].
  intros z lba HP Hin. rw Hs'; [done|by apply (in_zone_geom _ _ _ _ (eq_sym Hg))|]. by apply Hs.
Qed.

Lemma wbd_frame_mono (P Q : Z → Prop) s s' :
  (∀ z, Q z → P z) → wbd_frame P s s' → wbd_frame Q s s'.
Proof. intros HPQ (? & ? & ? & Hs). split_and!; auto. Qed.

(** Distinct zones occupy distinct addresses. *)
Lemma in_zone_inj (md : ZMD D) (z1 z2 lba : Z) :
  md_wf md → in_zone (md_zm md) z1 lba → in_zone (md_zm md) z2 lba → z1 = z2.
Proof.
  intros Hwf (a & Ha & H1 & Hra) (b & Hb & H2 & Hrb).
  destruct (md_zone _ Hwf _ _ Ha) as (Hsa & Hza & _), (md_zone _ Hwf _ _ Hb) as (Hsb & Hzb & _).
  rw Z2Nat.id in Hsa; [done|]. rw Z2Nat.id in Hsb; [done|]. nia.
Qed.

Lemma in_zone_cap (md : ZMD D) (zoneID lba : Z) :
  md_wf md → in_zone (md_zm md) zoneID lba → 0 ≤ lba < Device_Capacity (md_dev md).
Proof.
  intros Hwf (z & Hz & H0' & Hr). destruct (md_zone _ Hwf _ _ Hz) as (Hs & Hz' & Hc).
  destruct (dev_geometry _ (md_dev_wf _ Hwf)). nia.
Qed.

Lemma buf_wf_geom (zm zm' : ZoneManager) zoneID b :
  zi_geom <$> zm_zones zm' = zi_geom <$> zm_zones zm → (∀ z, z ∈ zm_freeList zm' → z ∈ zm_freeList zm) →
  buf_wf zm zoneID b → buf_wf zm' zoneID b.
Proof.
  intros Hg Hf (Hok & Hid & Hni & z & Hz & Hr). split_and!; [done|done|auto|].
  symmetry in Hg. destruct (md_geom_lookup _ _ _ _ Hg Hz) as (z' & Hz' & [= _ Hwp Hst Hsz]).
  rw Hwp Hst Hsz in Hr.
  by exists z'.
Qed.

(** Changes of the manager and the device that no reader sees. *)
Lemma wbd_md_same P s md :
  wbd_wf s → md_same (wd_md s) md →
  (∀ z, z ∈ zm_freeList (md_zm md) → z ∈ zm_freeList (md_zm (wd_md s))) →
  wbd_frame P s (mkWBD (wd_buf s) md).
Proof.
  intros Hwf (Hmd & [Hg _] & _ & _ & _ & Hsec) Hfl. split_and!; [|done|done|].
  - split; simpl; [done|apply Hwf|]. intros zoneID b Hb. eapply buf_wf_geom; [done|done|].
    by apply (wbd_buf _ Hwf).
  - intros zoneID lba _ Hin. unfold phys_sector. simpl.
    rw Hsec //. by eapply in_zone_cap; [apply wbd_md|].
Qed.

(** Taking a buffer out of the map. *)
Definition wbd_drop (zoneID : Z) (s : WBD D) : WBD D :=
  mkWBD (wb_set_buffers (delete zoneID (wb_buffers (wd_buf s))) (wd_buf s)) (wd_md s).

Lemma wbd_drop_frame zoneID s : wbd_wf s → wbd_frame (λ z, z ≠ zoneID) s (wbd_drop zoneID s).
Proof.
  intros Hwf. split_and!; [|done|done|].
  - split; simpl; [apply Hwf|apply Hwf|]. intros z b [_ Hb]%lookup_delete_Some.
    by apply (wbd_buf _ Hwf).
  - intros z lba Hne _. unfold phys_sector. simpl. by rw lookup_delete_ne.
Qed.

(** Setting the write pointer a zone has already. *)
Lemma UpdateWritePointer_id (zm : ZoneManager) (zoneID : Z) z :
  zm_zones zm !! Z.to_nat zoneID = Some z →
  UpdateWritePointer zoneID (zi_WritePointer z) zm = zm.
Proof.
  intros Hz. unfold UpdateWritePointer. case_match; [done|].
  unfold zm_alter_zone, zm_set_zones. destruct zm as [zs ? ? ? ? ? ?]. simpl in *. f_equal.
  apply list_eq. intros i. rw list_lookup_alter. case_decide; [|done]. subst i. rw Hz /=.
  f_equal. by destruct z.
Qed.

(** A flushed buffer and the device written with its data; a write that failed may
    have left anything where the buffer belongs. *)
Lemma flush_written_frame (ok : bool) zoneID s b n md2 d' :
  wbd_wf s → wb_buffers (wd_buf s) !! zoneID = Some b → 
  len (zb_data b) = sectorSize * n →
  md_same (wd_md s) md2 →
  (∀ z, z ∈ zm_freeList (md_zm md2) → z ∈ zm_freeList (md_zm (wd_md s))) →
  dev_wf d' → Device_Capacity d' = Device_Capacity (md_dev md2) → ZoneSize d' = ZoneSize (md_dev md2) →
  (∀ l, 0 ≤ l < Device_Capacity (md_dev md2) → ok ∨ ¬ (zb_writePointer b ≤ l < zb_writePointer b + n) →
    dev_sector d' l = if bool_decide (zb_writePointer b ≤ l < zb_writePointer b + n)
                      then sec (zb_data b) (l - zb_writePointer b) else dev_sector (md_dev md2) l) →
  wbd_frame (λ z, ok ∨ z ≠ zoneID) s (mkWBD (wd_buf (wbd_drop zoneID s)) (mkZMD (md_zm md2) d')).
Proof.
  intros Hwf Hb Hlen Hs2 Hfl Hd Hc Hzs Hsec.
  destruct (wbd_drop_frame zoneID s Hwf) as (Hwf1 & _).
  destruct (wbd_md_same (λ _, True) _ md2 Hwf1 Hs2 Hfl) as (Hwf2 & Hg2 & _).
  destruct (wbd_buf _ Hwf _ _ Hb) as (Hok & Hid & Hni & z & Hz & Hstart & Hend & Hsz).
  rw (zb_end_eq b n Hlen) in Hend. simpl in Hg2.
  split_and!; [|done|done|].
  - split; simpl; [|apply Hwf|apply Hwf2].
    destruct (wbd_md _ Hwf2). split; simpl in *; rw ?Hc ?Hzs //.
  - intros z' lba HP Hin. pose proof (in_zone_cap _ _ _ (wbd_md _ Hwf) Hin) as Hcap.
    destruct Hs2 as (_ & _ & _ & Hc2 & _ & Hsec2).
    unfold phys_sector. simpl. destruct (decide (z' = zoneID)) as [->|Hne].
    + rw lookup_delete_eq Hb Hsec; [by rw Hc2|destruct HP as [?|[]]; [by left|done]|]. rw (zb_end_eq b n Hlen).
      case_bool_decide; [done|]. by apply Hsec2.
    + assert (Hout : ¬ (zb_writePointer b ≤ lba < zb_writePointer b + n)).
      { intros Hlba. apply Hne. apply (in_zone_inj _ z' zoneID lba (wbd_md _ Hwf)); [done|].
        exists z. split_and!; [done|done|lia|lia]. }
      rw lookup_delete_ne //. rw Hsec; [by rw Hc2|by right|]. by rw bool_decide_false ?Hsec2.
Qed.

Ltac wbd_steps := unfold on_md, on_buf; wp_steps.

Lemma wp_Flush zoneID (Q : WBD D → outcome unit → Prop) s :
  wbd_wf s →
  (∀ s' o, returns o → wb_buffers (wd_buf s') = delete zoneID (wb_buffers (wd_buf s)) →
    wbd_frame (λ z, is_ok o ∨ z ≠ zoneID) s s' → Q s' o) →
  wp (WriteBuffer_Flush zoneID) Q s.
Proof.
  intros Hwf HQ. unfold WriteBuffer_Flush. wbd_steps.
  destruct (wb_buffers (wd_buf s) !! zoneID) as [b|] eqn:Hb.
  2: { wp_steps. apply HQ; [done|by rw delete_id|by apply wbd_frame_refl]. }
  destruct (wbd_buf _ Hwf _ _ Hb) as ((Hbz & Hw0 & n & Hn & Hlen & Hfit) & Hid & Hni & z & Hz & Hstart & Hend & Hsz).
  rw (zb_end_eq b n Hlen) in Hend.
  wbd_steps. destruct (Z.eqb_spec (len (zb_data b)) 0); [unfold sectorSize in *; lia|].
  fold (wbd_drop zoneID s). simpl wd_md.
  pose proof (wbd_drop_frame zoneID s Hwf) as Hdrop. 
  assert (Hfail : ∀ md (e : error), md_same (wd_md s) md →
      zm_freeList (md_zm md) = zm_freeList (md_zm (wd_md s)) →
      Q (mkWBD (wd_buf (wbd_drop zoneID s)) md) (Fail e)).
  { intros md e Hmd Hfl. apply HQ; [done|done|]. eapply wbd_frame_trans.
    - eapply wbd_frame_mono, Hdrop. simpl. by intros z' [[]|?].
    - apply (wbd_md_same _ (wbd_drop zoneID s)); [apply Hdrop|done|by rw Hfl]. }
  wbd_steps. apply wp_GetOrOpen; [apply Hwf|done|done|]. simpl.
  intros md2 o Hs2 Hret Hfl2 _. destruct o as [[]|[e| |]]; try done; [|by apply Hfail].
  unfold on_device. wbd_steps. simpl.
  destruct (dev_geometry _ (md_dev_wf _ (wbd_md _ Hwf))).
  eapply wp_mono; [apply (dev_write _ _ _ n); [apply Hs2|lia|lia|done]|].
  intros d' o (Hret' & Hd' & Hc & Hzs & _ & Hsec).
  assert (Hframe : wbd_frame (λ z, is_ok o ∨ z ≠ zoneID) s (mkWBD (wd_buf (wbd_drop zoneID s)) (mkZMD (md_zm md2) d')))
    by (eapply flush_written_frame; try done; by rw Hfl2).
  destruct o as [[]|[e| |]]; try done; cbn beta iota; [|by apply HQ].
  unfold zm_modify. wbd_steps. simpl in *.
  destruct Hs2 as (Hwf2 & [Hg2 Hm2] & Hd2).
  destruct (md_geom_lookup _ _ _ _ (eq_sym Hg2) Hz) as (z2 & Hz2 & [= _ Hwp2 _ _]).
  rw (wbd_sectorSize _ Hwf) Hlen. replace (sectorSize * n / 512) with n
    by (unfold sectorSize; rw Z.mul_comm Z.div_mul //).
  rw u64_small; [lia|]. rw Hend Hwp2 (UpdateWritePointer_id _ _ _ Hz2).
  by apply HQ.
Qed.

(** What a loop of flushes leaves: the zones of [done] have no buffer, the
    others are as in [s0]; while no flush failed every zone reads as before. *)
Definition flushed (s0 : WBD D) (done : list Z) (ok : bool) (s1 : WBD D) : Prop :=
  wbd_frame (λ z, ok ∨ z ∉ done) s0 s1 ∧
  ∀ z, wb_buffers (wd_buf s1) !! z =
       if decide (z ∈ done) then None else wb_buffers (wd_buf s0) !! z.

Lemma flushed_nil s0 ok : wbd_wf s0 → flushed s0 [] ok s0.
Proof.
  intros. split; [by apply wbd_frame_refl|]. intros z.
  case_decide as Hz; [by apply not_elem_of_nil in Hz|done].
Qed.

Lemma wp_flushed_step s0 done ok z (Q : WBD D → outcome (unit + error) → Prop) s1 :
  flushed s0 done ok s1 →
  (∀ s2 r, flushed s0 (done ++ [z]) (ok && if r is inl _ then true else false) s2 → Q s2 (Ok r)) →
  wp (attempt (WriteBuffer_Flush z)) Q s1.
Proof.
  intros [Hframe Hbuf] HQ. wp_steps. apply wp_Flush; [apply Hframe|].
  intros s2 o Hret Hdel Hframe2.
  assert (Hbuf2 : ∀ z', wb_buffers (wd_buf s2) !! z' =
      if decide (z' ∈ done ++ [z]) then None else wb_buffers (wd_buf s0) !! z').
  { intros z'. rw Hdel. destruct (decide (z = z')) as [<-|Hne].
    - rw lookup_delete_eq. case_decide; set_solver.
    - rw lookup_delete_ne // Hbuf. repeat case_decide; set_solver. }
  destruct o as [[]|[e| |]]; try done; cbn beta iota; apply HQ.
  - split; [|done]. eapply wbd_frame_trans.
    + eapply wbd_frame_mono, Hframe. simpl. intros z' [Ho|Hz'].
      * left. by rw andb_true_r in Ho.
      * right. set_solver.
    + eapply wbd_frame_mono, Hframe2. simpl. by left.
  - split; [|done]. eapply wbd_frame_trans.
    + eapply wbd_frame_mono, Hframe. simpl. intros z' [Ho|Hz'].
      * by rw andb_false_r in Ho.
      * right. set_solver.
    + eapply wbd_frame_mono, Hframe2. simpl. intros z' [Ho|Hz'].
      * by rw andb_false_r in Ho.
      * right. set_solver.
Qed.

Definition no_error (firstErr : option error) : bool := if firstErr is Some _ then false else true.

Lemma wp_FlushAll order (Q : WBD D → outcome unit → Prop) s :
  wbd_wf s → (∀ l, order l ≡ₚ l) →
  (∀ s' o, returns o → wb_buffers (wd_buf s') = ∅ →
    wbd_frame (λ z, is_ok o ∨ wb_buffers (wd_buf s) !! z = None) s s' → Q s' o) →
  wp (FlushAll order) Q s.
Proof.
  intros Hwf Horder HQ. unfold FlushAll. wbd_steps.
  set (ids := order (map_to_list (wb_buffers (wd_buf s))).*1).
  assert (Hids : ∀ z, z ∈ ids ↔ is_Some (wb_buffers (wd_buf s) !! z)).
  { intros z. unfold ids. rw Horder list_elem_of_fmap. split.
    - intros ([z' b] & -> & Hin). apply elem_of_map_to_list in Hin. by exists b.
    - intros [b Hb]. exists (z, b). split; [done|]. by apply elem_of_map_to_list. }
  apply wp_for_each with (I := λ done s1 firstErr,
    flushed s done (no_error firstErr) s1).
  - by apply flushed_nil.
  - intros done z todo s1 fe _ Hfl. wp_step. eapply wp_flushed_step; [exact Hfl|].
    intros s2 r Hfl2. cbn beta iota. wp_steps. by destruct r, fe.
  - intros s1 fe [Hframe Hbuf]. cbn beta iota.
    assert (Hempty : wb_buffers (wd_buf s1) = ∅).
    { apply map_eq. intros z. rw Hbuf lookup_empty. case_decide as Hz; [done|].
      apply eq_None_not_Some. by rw -Hids. }
    assert (Hkeep : wbd_frame (λ z, no_error fe ∨
                                    wb_buffers (wd_buf s) !! z = None) s s1).
    { eapply wbd_frame_mono, Hframe. cbn beta. intros z Hz. destruct Hz as [Hz|Hz]; [left; exact Hz|right].
      intros [b Hb]%Hids. congruence. }
    destruct fe; wp_steps; by apply HQ.
Qed.

Lemma wp_flushAged now order (Q : WBD D → outcome unit → Prop) s :
  wbd_wf s → (∀ l, order l ≡ₚ l) →
  (∀ s', (∀ z b, wb_buffers (wd_buf s') !! z = Some b → wb_buffers (wd_buf s) !! z = Some b) →
    wbd_frame (λ z, ∀ b, wb_buffers (wd_buf s) !! z = Some b →
      now - wb_flushAge (wd_buf s) ≤ zb_lastWriteAt b) s s' → Q s' (Ok tt)) →
  wp (flushAged now order) Q s.
Proof.
  intros Hwf Horder HQ. unfold flushAged. wbd_steps.
  set (aged := order _).
  assert (Haged : ∀ z, z ∈ aged → ∃ b, wb_buffers (wd_buf s) !! z = Some b ∧
      zb_lastWriteAt b < now - wb_flushAge (wd_buf s)).
  { intros z. unfold aged. rw Horder list_elem_of_fmap. intros ([z' b] & -> & Hin).
    apply list_elem_of_filter in Hin as [Hold Hin]. apply elem_of_map_to_list in Hin. by exists b. }
  apply wp_for_each with (I := λ done s1 (_ : unit), ∃ ok, flushed s done ok s1).
  - exists true. by apply flushed_nil.
  - intros done z todo s1 fe _ [ok Hfl]. wp_step. eapply wp_flushed_step; [exact Hfl|].
    intros s2 r Hfl2. cbn beta iota. wp_steps. by eexists.
  - intros s1 [] [ok [Hframe Hbuf]]. apply HQ.
    + intros z b. rw Hbuf. by case_decide.
    + eapply wbd_frame_mono, Hframe. simpl. intros z Hz. right. intros Hin.
      destruct (Haged z Hin) as (b & Hb & Hold). specialize (Hz b Hb). lia.
Qed.
End view.

(** ** Properties *)

(** Read your writes.  After [Add] of contiguous data, [Lookup] of the range
    just added returns that data, and every lookup that hit before - in the same
    zone or another - still returns the same bytes. *)
Theorem write_buffer_read_back wb now zoneID data n wp :
  wb_sectorSize wb = 512 → (∀ z b, wb_buffers wb !! z = Some b → buf_ok z b) →
  (∀ b, wb_buffers wb !! zoneID = Some b → zb_end b = wp ∧ wp + n < zb_writePointer b + 2^32) →
  0 ≤ wp → 0 < n < 2^32 → wp + n ≤ 2^54 → len data = sectorSize * n →
  let wb' := (WriteBuffer_Add now zoneID data wp wb).1 in
  WriteBuffer_Lookup zoneID wp n wb' = (wb', Ok (Some data)) ∧
  ∀ z lba count d, 0 ≤ lba → 0 < count → lba + count ≤ 2^54 →
    WriteBuffer_Lookup z lba count wb = (wb, Ok (Some d)) →
    WriteBuffer_Lookup z lba count wb' = (wb', Ok (Some d)).
Proof.
  intros Hss Hok Hcont Hwp Hn Hend Hlen wb'.
  destruct (wb_added_buffers now zoneID data wp wb) as [Hbufs Hss'].
  { unfold sectorSize in *. lia. }
  fold (wb_added now zoneID data wp wb) in wb'. fold wb' in Hbufs, Hss'.
  set (b' := zb_added now zoneID data wp (wb_buffers wb !! zoneID)) in Hbufs.
  destruct (zb_added_ok now zoneID data n wp (wb_buffers wb !! zoneID)) as (Hbok & Hbend & Hbwp & Hdata & Hold); try done.
  { intros b Hb. split; [by apply Hok|by apply Hcont]. }
  fold b' in Hbok, Hbend, Hbwp, Hdata, Hold.
  assert (Hok' : ∀ z b, wb_buffers wb' !! z = Some b → buf_ok z b).
  { intros z b. rw Hbufs lookup_insert_Some. intros [[<- <-]|[_ Hb]]; [done|by apply Hok]. }
  rw Hss in Hss'. split.
  - rw WriteBuffer_Lookup_eq; [done|done|lia|done|apply Hok'|]. do 3 f_equal.
    unfold buf_hit. rw Hbufs lookup_insert_eq bool_decide_true; [lia|]. rw Hdata. f_equal.
    rw -Hold. replace (sectorSize * (wp - zb_writePointer b' + n))
      with (len (match wb_buffers wb !! zoneID with Some b => zb_data b | None => [] end) + len data) by lia.
    unfold slice, len. rw Nat2Z.id drop_app_length take_ge //. lia.
  - intros z lba count d Hl Hc Hlc. rw (WriteBuffer_Lookup_eq z lba count wb) //; [intros b; apply Hok|]. rw (WriteBuffer_Lookup_eq z lba count wb') //; [intros b; apply Hok'|].
    intros [= Hhit]. do 2 f_equal. revert Hhit. unfold buf_hit. rw Hbufs.
    destruct (decide (z = zoneID)) as [->|Hne]; [|by rw lookup_insert_ne].
    rw lookup_insert_eq. destruct (wb_buffers wb !! zoneID) as [b|] eqn:Hb; [|done].
    destruct (Hcont b eq_refl) as [He _]. change (zb_writePointer b') with (zb_writePointer b).
    case_bool_decide as Hin; [|done]. rw bool_decide_true; [lia|]. intros [= <-]. f_equal.
    rw Hdata. destruct (Hok _ _ Hb) as (_ & _ & k & _ & Hlk & _). rw (zb_end_eq b k Hlk) in Hin.
    unfold slice, len, sectorSize in *. rw drop_app_le; [lia|]. rw take_app_le //. rw length_drop. lia.
Qed.

Lemma write_buffer_read_back_witness :
  let wb := (WriteBuffer_Add 5 2 (pattern_sector 1) 40 (NewWriteBuffer 64 5)).1 in
  let wb' := (WriteBuffer_Add 6 2 (pattern_sector 2) 41 wb).1 in
  WriteBuffer_Lookup 2 41 1 wb' = (wb', Ok (Some (pattern_sector 2))) ∧
  WriteBuffer_Lookup 2 40 1 wb' = (wb', Ok (Some (pattern_sector 1))).
Proof.
  intros wb wb'.
  assert (Hwb : wb_buffers wb = {[2 := {| zb_zoneID := 2; zb_data := pattern_sector 1;
                                          zb_writePointer := 40; zb_lastWriteAt := 5 |}]}) by done.
  destruct (write_buffer_read_back wb 6 2 (pattern_sector 2) 1 41) as [Hnew Hkeep]; try done.
  { intros z b. rw Hwb lookup_singleton_Some. intros [<- <-]. split; [done|]. split; [done|]. by exists 1. }
  { intros b. rw Hwb lookup_singleton_Some. intros [_ <-]. vm_compute. done. }
Defined.
