(* ===== verification/Gc.v ===== *)
(** * [internal/ztl/gc.go], gc_stats.go and journal_iface.go

    The collector moves the live segments of a victim zone to fresh zones and
    resets the victim.  The tables it shares by pointer with the translation
    layer ([l2p], [p2l], the zone manager with its device, the journal and the
    statistics) live in the engine's record; ztl.go's record contains it.  The
    goroutine loop [run], which decides when [runCycle] is called, is in
    [Background.v]. *)

From S2P Require Import Bytes Float64 Zbc Backend Segment ZoneManager.

(** ** journal_iface.go: the [Journal] interface *)
Class JournalOps (J : Type) := {
  LogL2PUpdate : Z → Z → Z → M J Z;
  LogZoneOpen : Z → M J unit;
  LogZoneClose : Z → M J unit;
  LogZoneReset : Z → M J unit;
  GroupCommit : M J unit;
}.

(** What the layer relies on: the calls return. *)
Class JournalSpec (J : Type) `{JournalOps J} := {
  jr_wf : J → Prop;
  jr_LogL2PUpdate j seg old new : jr_wf j → wp (LogL2PUpdate seg old new) (λ j' o, jr_wf j' ∧ returns o) j;
  jr_LogZoneOpen j z : jr_wf j → wp (LogZoneOpen z) (λ j' o, jr_wf j' ∧ returns o) j;
  jr_LogZoneReset j z : jr_wf j → wp (LogZoneReset z) (λ j' o, jr_wf j' ∧ returns o) j;
  jr_GroupCommit j : jr_wf j → wp GroupCommit (λ j' o, jr_wf j' ∧ returns o) j;
}.

(** ** gc_stats.go *)
Record GCStats := {
  st_ZonesReclaimed : Z;
  st_BytesMigrated : Z;
  st_RunCount : Z;
  st_Running : Z;
}.
Definition GCStats_zero : GCStats :=
  {| st_ZonesReclaimed := 0; st_BytesMigrated := 0; st_RunCount := 0; st_Running := 0 |}.
Definition stats_reclaimed (st : GCStats) : GCStats :=
  {| st_ZonesReclaimed := i64 (st_ZonesReclaimed st + 1); st_BytesMigrated := st_BytesMigrated st;
     st_RunCount := st_RunCount st; st_Running := st_Running st |}.
Definition stats_migrated (n : Z) (st : GCStats) : GCStats :=
  {| st_ZonesReclaimed := st_ZonesReclaimed st; st_BytesMigrated := i64 (st_BytesMigrated st + n);
     st_RunCount := st_RunCount st; st_Running := st_Running st |}.
Definition stats_run (running inc : Z) (st : GCStats) : GCStats :=
  {| st_ZonesReclaimed := st_ZonesReclaimed st; st_BytesMigrated := st_BytesMigrated st;
     st_RunCount := i64 (st_RunCount st + inc); st_Running := running |}.

(** ** State *)
Record GCConfig := {
  gcc_FreeTriggerRatio : spec_float;
  gcc_EmergencyFreeZones : Z;
  gcc_SectorsPerSegment : Z;
}.

Record GCEngine (D J : Type) := {
  gc_l2p : L2PTable;
  gc_p2l : P2LMap;
  gc_md : ZMD D;                     (* zone manager and device *)
  gc_journal : option J;             (* nil or a journal *)
  gc_stats : GCStats;
  gc_sectorsPerSeg : Z;
  gc_freeTriggerRatio : spec_float;
  gc_emergencyFreeZones : Z;
}.
Arguments gc_l2p {D J} _. Arguments gc_p2l {D J} _. Arguments gc_md {D J} _.
Arguments gc_journal {D J} _. Arguments gc_stats {D J} _. Arguments gc_sectorsPerSeg {D J} _.
Arguments gc_freeTriggerRatio {D J} _. Arguments gc_emergencyFreeZones {D J} _.

Section gc.
Context {D J : Type} `{ZonedDevice D} `{JournalOps J}.
Implicit Types g : GCEngine D J.

Definition NewGCEngine (l2p : L2PTable) (p2l : P2LMap) (md : ZMD D) (journal : option J)
    (stats : GCStats) (cfg : GCConfig) : GCEngine D J :=
  {| gc_l2p := l2p; gc_p2l := p2l; gc_md := md; gc_journal := journal; gc_stats := stats;
     gc_sectorsPerSeg := gcc_SectorsPerSegment cfg;
     gc_freeTriggerRatio := gcc_FreeTriggerRatio cfg;
     gc_emergencyFreeZones := gcc_EmergencyFreeZones cfg |}.

Definition gc_set_l2p (t : L2PTable) g : GCEngine D J :=
  {| gc_l2p := t; gc_p2l := gc_p2l g; gc_md := gc_md g; gc_journal := gc_journal g;
     gc_stats := gc_stats g; gc_sectorsPerSeg := gc_sectorsPerSeg g;
     gc_freeTriggerRatio := gc_freeTriggerRatio g; gc_emergencyFreeZones := gc_emergencyFreeZones g |}.
Definition gc_set_p2l (m : P2LMap) g : GCEngine D J :=
  {| gc_l2p := gc_l2p g; gc_p2l := m; gc_md := gc_md g; gc_journal := gc_journal g;
     gc_stats := gc_stats g; gc_sectorsPerSeg := gc_sectorsPerSeg g;
     gc_freeTriggerRatio := gc_freeTriggerRatio g; gc_emergencyFreeZones := gc_emergencyFreeZones g |}.
Definition gc_set_md (md : ZMD D) g : GCEngine D J :=
  {| gc_l2p := gc_l2p g; gc_p2l := gc_p2l g; gc_md := md; gc_journal := gc_journal g;
     gc_stats := gc_stats g; gc_sectorsPerSeg := gc_sectorsPerSeg g;
     gc_freeTriggerRatio := gc_freeTriggerRatio g; gc_emergencyFreeZones := gc_emergencyFreeZones g |}.
Definition gc_set_journal (j : option J) g : GCEngine D J :=
  {| gc_l2p := gc_l2p g; gc_p2l := gc_p2l g; gc_md := gc_md g; gc_journal := j;
     gc_stats := gc_stats g; gc_sectorsPerSeg := gc_sectorsPerSeg g;
     gc_freeTriggerRatio := gc_freeTriggerRatio g; gc_emergencyFreeZones := gc_emergencyFreeZones g |}.
Definition gc_set_stats (st : GCStats) g : GCEngine D J :=
  {| gc_l2p := gc_l2p g; gc_p2l := gc_p2l g; gc_md := gc_md g; gc_journal := gc_journal g;
     gc_stats := st; gc_sectorsPerSeg := gc_sectorsPerSeg g;
     gc_freeTriggerRatio := gc_freeTriggerRatio g; gc_emergencyFreeZones := gc_emergencyFreeZones g |}.

(** Calls on the components. *)
Definition on_l2p {A} (m : M L2PTable A) : M (GCEngine D J) A := zoom gc_l2p gc_set_l2p m.
Definition on_zm {A} (m : M (ZMD D) A) : M (GCEngine D J) A := zoom gc_md gc_set_md m.
Definition p2l_modify (f : P2LMap → P2LMap) : M (GCEngine D J) unit :=
  modify (λ g, gc_set_p2l (f (gc_p2l g)) g).
Definition stats_modify (f : GCStats → GCStats) : M (GCEngine D J) unit :=
  modify (λ g, gc_set_stats (f (gc_stats g)) g).
Definition the_zm g : ZoneManager := md_zm (gc_md g).

(** [if gc.journal != nil { ... }] *)
Definition with_journal {A} (m : M J A) : M (GCEngine D J) unit := λ g,
  match gc_journal g with
  | None => (g, Ok tt)
  | Some j => match m j with
              | (j', Ok _) => (gc_set_journal (Some j') g, Ok tt)
              | (j', Stop r) => (gc_set_journal (Some j') g, Stop r)
              end
  end.

(** [defer f()]: also after an error or a panic. *)
Definition deferred {S A} (f : S → S) (m : M S A) : M S A := λ s,
  let '(s', o) := m s in (f s', o).

(** ** Operations *)
Definition shouldTrigger g : bool :=
  let total := TotalZoneCount (the_zm g) in
  if total =? 0 then false
  else
    let free := FreeZoneCount (the_zm g) in
    let ratio := float64_div (float64_of_Z free) (float64_of_Z total) in
    float64_lt ratio (gc_freeTriggerRatio g).

(** The second half of [migrateSegment]: the data goes to the write pointer of
    the new zone and the segment is remapped there. *)
Definition migrate_place (victimID segID currentPhys newZoneID : Z) (data : list byte)
    : M (GCEngine D J) unit :=
  sps ← gets gc_sectorsPerSeg;
  newWP ← gets (λ g, ZoneManager_WritePointer newZoneID (the_zm g));
  newStart ← gets (λ g, ZoneManager_ZoneStartLBA newZoneID (the_zm g));
  let newOffset := u64 (newWP - newStart) in
  let newPhys := EncodePhysAddr newZoneID newOffset in
  wrap "logging L2P update for segment %d: %w"
    (with_journal (LogL2PUpdate segID currentPhys newPhys)) ;;
  wrap "writing migrated data to zone %d: %w"
    (on_zm (on_device (WriteSectors newWP data))) ;;
  on_zm (zm_modify (UpdateWritePointer newZoneID (u64 (newWP + sps)))) ;;
  swapped ← on_l2p (L2PTable_CAS segID currentPhys newPhys);
  if negb swapped then
    on_zm (zm_modify (IncrementValidSegs newZoneID)) ;;
    on_zm (zm_modify (DecrementValidSegs newZoneID))
  else
    p2l_modify (P2LMap_Delete currentPhys) ;;
    p2l_modify (P2LMap_Set newPhys segID) ;;
    on_zm (zm_modify (DecrementValidSegs victimID)) ;;
    on_zm (zm_modify (IncrementValidSegs newZoneID)) ;;
    stats_modify (stats_migrated (len data)).

Definition migrateSegment (victimID segID victimOffset : Z) : M (GCEngine D J) unit :=
  currentPhys ← gets (λ g, L2PTable_Get segID (gc_l2p g));
  if PhysAddr_IsUnmapped currentPhys then p2l_modify (P2LMap_Delete currentPhys)
  else if negb (PhysAddr_ZoneID currentPhys =? victimID) ||
          negb (PhysAddr_OffsetSectors currentPhys =? victimOffset) then mret tt
  else
    info ← gets (λ g, ZoneManager_ZoneInfo victimID (the_zm g));
    match info with
    | None => throw (Errorf "victim zone %d not found")
    | Some victimInfo =>
        let readLBA := u64 (zi_StartLBA victimInfo + victimOffset) in
        sps ← gets gc_sectorsPerSeg;
        data ← wrap "reading segment from victim zone %d at LBA %d: %w"
                 (on_zm (on_device (ReadSectors readLBA (u32 sps))));
        newZoneID ← wrap "allocating zone for GC migration: %w" (on_zm AllocateFree);
        migrate_place victimID segID currentPhys newZoneID data
    end.

(** Segments of the victim that the forward table still maps there, in the
    order Go ranges over the reverse map. *)
Definition live_segments (order : list (p2lKey * Z) → list (p2lKey * Z)) (victimID : Z) g
    : list (Z * Z) :=
  filter (λ os : Z * Z,
    let phys := L2PTable_Get os.2 (gc_l2p g) in
    PhysAddr_IsUnmapped phys = false ∧ PhysAddr_ZoneID phys = victimID ∧
    PhysAddr_OffsetSectors phys = os.1)
    (P2LMap_IterateZone victimID order (gc_p2l g)).

Definition collectZone (order : list (p2lKey * Z) → list (p2lKey * Z)) (victimID : Z)
    : M (GCEngine D J) unit :=
  on_zm (zm_modify (Freeze victimID)) ;;
  deferred (λ g, gc_set_md (mkZMD (Unfreeze victimID (the_zm g)) (md_dev (gc_md g))) g) (
    liveSegs ← gets (live_segments order victimID);
    for_each (λ (_ : unit) (seg : Z * Z),
      wrap "migrating segment %d: %w" (migrateSegment victimID seg.2 seg.1)) tt liveSegs ;;
    wrap "logging zone reset for victim %d: %w" (with_journal (LogZoneReset victimID)) ;;
    wrap "committing zone reset journal for victim %d: %w" (with_journal GroupCommit) ;;
    info ← gets (λ g, ZoneManager_ZoneInfo victimID (the_zm g));
    match info with
    | None => throw (Errorf "victim zone %d not found")
    | Some victimInfo =>
        wrap "resetting victim zone %d: %w"
          (on_zm (on_device (ResetZone (zi_StartLBA victimInfo)))) ;;
        wrap "marking victim zone %d empty: %w" (on_zm (MarkEmpty victimID)) ;;
        stats_modify stats_reclaimed
    end).

Definition runCycle (order : list (p2lKey * Z) → list (p2lKey * Z)) : M (GCEngine D J) unit :=
  stats_modify (stats_run 1 0) ;;
  deferred (λ g, gc_set_stats (stats_run 0 0 (gc_stats g)) g) (
    stats_modify (λ st, stats_run (st_Running st) 1 st) ;;
    victim ← gets (λ g, SelectGCVictim (the_zm g));
    let '(victimID, found) := victim in
    if negb found then mret tt
    else _ ← attempt (collectZone order victimID); mret tt).

(** The loop ends when enough zones are free or an error stops it; [fuel]
    bounds the number of collected zones. *)
Fixpoint RunEmergencyGC (order : list (p2lKey * Z) → list (p2lKey * Z)) (fuel : nat)
    : M (GCEngine D J) unit :=
  enough ← gets (λ g, gc_emergencyFreeZones g <=? FreeZoneCount (the_zm g));
  if enough : bool then mret tt
  else
    match fuel with
    | O => stop_with Diverged
    | S fuel =>
        victim ← gets (λ g, SelectGCVictim (the_zm g));
        let '(victimID, found) := victim in
        if negb found then throw (Errorf "emergency GC: no GC victim available")
        else
          wrap "emergency GC cycle: %w" (collectZone order victimID) ;;
          RunEmergencyGC order fuel
    end.
End gc.
