(* ===== verification/Crc32c.v ===== *)
(** * CRC-32C, as [hash/crc32] computes it with the Castagnoli table

    The table-driven routine of the Go library is the bitwise one: each byte is
    xored into the low end of the register, which is then shifted out bit by
    bit.  A checksum detects any change confined to one byte, because a step of
    the register is injective. *)

From S2P Require Import Bytes.

Definition castagnoli : Z := 0x82F63B78.

Definition crc_bit (c : Z) : Z :=
  if Z.odd c then Z.lxor (Z.shiftr c 1) castagnoli else Z.shiftr c 1.
Definition crc_byte (c : Z) (b : byte) : Z := Nat.iter 8 crc_bit (Z.lxor c (Z_of_byte b)).
(** [crc32.Checksum(data, crc32.MakeTable(crc32.Castagnoli))] *)
Definition crc32c (data : list byte) : Z :=
  Z.lxor (foldl crc_byte 0xFFFFFFFF data) 0xFFFFFFFF.

(** The check value of the Castagnoli polynomial. *)
Example crc32c_check : crc32c (byte_of_Z <$> [49; 50; 51; 52; 53; 54; 55; 56; 57]) = 0xE3069283.
Proof. vm_compute. reflexivity. Qed.

(** ** Registers of 32 bits *)
Definition reg (c : Z) : Prop := 0 ≤ c < 2^32.

Lemma reg_bits c : reg c ↔ 0 ≤ c ∧ ∀ i, 32 ≤ i → Z.testbit c i = false.
Proof.
  split.
  - intros [H0 H1]. split; [done|]. intros i Hi. rw -(Z.mod_small c (2^32)) //.
    by rw Z.mod_pow2_bits_high; [lia|].
  - intros [H0 Hb]. split; [done|]. destruct (Z.lt_ge_cases c (2^32)) as [|Hge]; [done|].
    assert (Hlog : 32 ≤ Z.log2 c) by (apply Z.log2_le_pow2; lia).
    specialize (Hb _ Hlog). by rw Z.bit_log2 in Hb; [lia|].
Qed.

Lemma reg_lxor a b : reg a → reg b → reg (Z.lxor a b).
Proof.
  rw !reg_bits. intros [Ha Hab] [Hb Hbb]. split; [by apply Z.lxor_nonneg|].
  intros i Hi. by rw Z.lxor_spec Hab // Hbb.
Qed.

Lemma reg_shiftr c : reg c → reg (Z.shiftr c 1).
Proof.
  rw !reg_bits. intros [H0 Hb]. split; [by apply Z.shiftr_nonneg|].
  intros i Hi. rw Z.shiftr_spec; [lia|]. apply Hb. lia.
Qed.

Lemma reg_castagnoli : reg castagnoli.
Proof. done. Qed.

Lemma reg_byte b : reg (Z_of_byte b).
Proof. pose proof (Z_of_byte_range b). unfold reg. lia. Qed.

Lemma crc_bit_reg c : reg c → reg (crc_bit c).
Proof.
  intros Hc. unfold crc_bit. case_match; [apply reg_lxor; [|done]|]; by apply reg_shiftr.
Qed.

(** The bit shifted out is the top bit of the result. *)
Lemma crc_bit_top c : reg c → Z.testbit (crc_bit c) 31 = Z.odd c.
Proof.
  intros Hc. apply reg_bits in Hc as [_ Hb]. unfold crc_bit. destruct (Z.odd c).
  - by rw Z.lxor_spec Z.shiftr_spec // Hb.
  - by rw Z.shiftr_spec // Hb.
Qed.

Lemma lxor_cancel a b c : Z.lxor a c = Z.lxor b c → a = b.
Proof.
  intros Heq%(f_equal (λ x, Z.lxor x c)). by rw !Z.lxor_assoc !Z.lxor_nilpotent !Z.lxor_0_r in Heq.
Qed.

Lemma shiftr_odd_inj a b : Z.odd a = Z.odd b → Z.shiftr a 1 = Z.shiftr b 1 → a = b.
Proof.
  rw -!Z.div2_spec. intros Ho Hd. rw (Z.div2_odd a) (Z.div2_odd b). by rw Ho Hd.
Qed.

Lemma crc_bit_inj a b : reg a → reg b → crc_bit a = crc_bit b → a = b.
Proof.
  intros Ha Hb Heq. assert (Hodd : Z.odd a = Z.odd b) by (by rw -crc_bit_top // -crc_bit_top // Heq).
  apply shiftr_odd_inj; [done|]. unfold crc_bit in Heq. rw Hodd in Heq.
  destruct (Z.odd b); [by apply lxor_cancel in Heq|done].
Qed.

Lemma crc_bits_reg n c : reg c → reg (Nat.iter n crc_bit c).
Proof. intros Hc. induction n; [done|]. by apply crc_bit_reg. Qed.

Lemma crc_bits_inj n a b : reg a → reg b → Nat.iter n crc_bit a = Nat.iter n crc_bit b → a = b.
Proof.
  intros Ha Hb. induction n as [|n IH]; [done|]. intros Heq. apply IH.
  by apply crc_bit_inj in Heq; [|apply crc_bits_reg..].
Qed.

Lemma crc_byte_reg c b : reg c → reg (crc_byte c b).
Proof. intros Hc. apply crc_bits_reg, reg_lxor; [done|apply reg_byte]. Qed.

(** A step tells apart both registers and bytes. *)
Lemma crc_byte_inj_l c c' b : reg c → reg c' → crc_byte c b = crc_byte c' b → c = c'.
Proof.
  intros Hc Hc' Heq. apply crc_bits_inj in Heq; [by apply lxor_cancel in Heq|..];
    apply reg_lxor; (done || apply reg_byte).
Qed.

Lemma crc_byte_inj_r c b b' : reg c → crc_byte c b = crc_byte c b' → b = b'.
Proof.
  intros Hc Heq. apply crc_bits_inj in Heq; [|apply reg_lxor; (done || apply reg_byte)..].
  rw !(Z.lxor_comm c) in Heq. apply lxor_cancel in Heq. by apply (inj Z_of_byte).
Qed.

Lemma crc_fold_reg c l : reg c → reg (foldl crc_byte c l).
Proof. revert c. induction l as [|b l IH]; intros c Hc; [done|]. by apply IH, crc_byte_reg. Qed.

Lemma crc_fold_inj c c' l : reg c → reg c' → foldl crc_byte c l = foldl crc_byte c' l → c = c'.
Proof.
  revert c c'. induction l as [|b l IH]; intros c c' Hc Hc'; [done|]. simpl. intros Heq.
  apply IH in Heq; [|by apply crc_byte_reg..]. by apply crc_byte_inj_l in Heq.
Qed.

Lemma crc32c_range l : 0 ≤ crc32c l < 2^32.
Proof. apply reg_lxor; [by apply crc_fold_reg|done]. Qed.

(** Replacing one byte by another changes the checksum. *)
Lemma crc32c_one_byte l1 b b' l2 : crc32c (l1 ++ b :: l2) = crc32c (l1 ++ b' :: l2) → b = b'.
Proof.
  unfold crc32c. rw !foldl_app /=. intros Heq%lxor_cancel.
  assert (Hr : reg (foldl crc_byte 0xFFFFFFFF l1)) by by apply crc_fold_reg.
  apply crc_fold_inj in Heq; [|by apply crc_byte_reg..]. by apply crc_byte_inj_r in Heq.
Qed.
