(* ===== verification/Wal.v ===== *)
(** * [internal/journal/record.go]: write-ahead log records

    A record is 49 bytes: magic, CRC-32C over the rest, type, LSN, segment or
    zone, old and new address, timestamp.  A checkpoint record is one of those
    followed by the entries of the forward table. *)

From S2P Require Import Bytes Crc32c.
#[global] Arguments be_put : simpl never.

Definition RecordMagic : Z := 0xADA50001.
Definition RecordTypeL2PUpdate : Z := 0x01.
Definition RecordTypeZoneOpen : Z := 0x02.
Definition RecordTypeZoneClose : Z := 0x03.
Definition RecordTypeZoneReset : Z := 0x04.
Definition RecordTypeCheckpoint : Z := 0xFF.
Definition baseRecordSize : Z := 49.

(** [Record_] is Go's [Record]. *)
Record Record_ := {
  r_Type : Z;
  r_LSN : Z;
  r_SegmentID : Z;
  r_OldPhysAddr : Z;
  r_NewPhysAddr : Z;
  r_Timestamp : Z;      (* int64 *)
}.

(** Bytes 8 to 48. *)
Definition record_body (r : Record_) : list byte :=
  byte_of_Z (r_Type r) :: be_put 8 (r_LSN r) ++ be_put 8 (r_SegmentID r)
  ++ be_put 8 (r_OldPhysAddr r) ++ be_put 8 (r_NewPhysAddr r) ++ be_put 8 (u64 (r_Timestamp r)).

Definition Record_MarshalBinary (r : Record_) : list byte :=
  be_put 4 RecordMagic ++ be_put 4 (crc32c (record_body r)) ++ record_body r.

(** [data] has at least the bytes of a record: the fields are where they are. *)
Definition Record_UnmarshalBinary (data : list byte) : outcome Record_ :=
  if len data <? baseRecordSize then Fail (Errorf "record too short: %d < %d")
  else if negb (be_get (slice 0 4 data) =? RecordMagic)
  then Fail (Errorf "invalid magic: 0x%08X (expected 0x%08X)")
  else if negb (be_get (slice 4 8 data) =? crc32c (slice 8 baseRecordSize data))
  then Fail (Errorf "CRC32C mismatch: stored=0x%08X computed=0x%08X")
  else Ok {|
    r_Type := be_get (slice 8 9 data);
    r_LSN := be_get (slice 9 17 data);
    r_SegmentID := be_get (slice 17 25 data);
    r_OldPhysAddr := be_get (slice 25 33 data);
    r_NewPhysAddr := be_get (slice 33 41 data);
    r_Timestamp := i64 (be_get (slice 41 49 data));
  |}.

Record CheckpointRecord := {
  cp_Record : Record_;
  cp_L2PTableLen : Z;
  cp_L2PEntries : list Z;
}.

Definition r_set_SegmentID (seg : Z) (r : Record_) : Record_ :=
  {| r_Type := r_Type r; r_LSN := r_LSN r; r_SegmentID := seg; r_OldPhysAddr := r_OldPhysAddr r;
     r_NewPhysAddr := r_NewPhysAddr r; r_Timestamp := r_Timestamp r |}.

Definition CheckpointRecord_MarshalBinary (c : CheckpointRecord) : list byte :=
  Record_MarshalBinary (r_set_SegmentID (cp_L2PTableLen c) (cp_Record c))
  ++ (cp_L2PEntries c ≫= be_put 8).

(** The entries of the table, from byte [offset] on; the slice expression
    [data[offset:]] of the loop is in range after the length check.  A length
    so large that [baseRecordSize + int(len)*8] wraps passes the check and
    makes [make] panic or the loop run past the data. *)
Definition read_entries (data : list byte) (offset n : Z) : list Z :=
  (λ i, be_get (slice (offset + 8 * i) (offset + 8 * i + 8) data)) <$> seqZ 0 n.

Definition CheckpointRecord_UnmarshalBinary (data : list byte) : outcome CheckpointRecord :=
  match Record_UnmarshalBinary data with
  | Stop r => Stop r
  | Ok rec =>
      let L2PTableLen := r_SegmentID rec in
      let expectedLen := i64 (baseRecordSize + i64 (i64 L2PTableLen * 8)) in
      if len data <? expectedLen then Fail (Errorf "checkpoint record too short: %d < %d")
      else if len data <? baseRecordSize + 8 * L2PTableLen then Panic
      else Ok {| cp_Record := rec; cp_L2PTableLen := L2PTableLen;
                 cp_L2PEntries := read_entries data baseRecordSize L2PTableLen |}
  end.

(** ** Values the format can hold *)
Record record_ok (r : Record_) : Prop := {
  ro_type : 0 ≤ r_Type r < 2^8;
  ro_lsn : 0 ≤ r_LSN r < 2^64;
  ro_seg : 0 ≤ r_SegmentID r < 2^64;
  ro_old : 0 ≤ r_OldPhysAddr r < 2^64;
  ro_new : 0 ≤ r_NewPhysAddr r < 2^64;
  ro_time : -2^63 ≤ r_Timestamp r < 2^63;
}.

Lemma be_put_one z : be_put 1 z = [byte_of_Z z].
Proof. done. Qed.

Lemma i64_u64 z : -2^63 ≤ z < 2^63 → i64 (u64 z) = z.
Proof. intros. unfold i64, u64. rw Zplus_mod_idemp_l Z.mod_small; lia. Qed.

Lemma len_record_body r : len (record_body r) = 41.
Proof. done. Qed.
Lemma len_Record_MarshalBinary r : len (Record_MarshalBinary r) = baseRecordSize.
Proof. done. Qed.

(** Reading back what was written, whatever follows it. *)
Lemma Record_roundtrip r tail :
  record_ok r → Record_UnmarshalBinary (Record_MarshalBinary r ++ tail) = Ok r.
Proof.
  intros [Ht Hl Hs Ho Hn Hts]. unfold Record_UnmarshalBinary.
  set (m := Record_MarshalBinary r).
  assert (Hlen : len m = 49) by done.
  rw len_app Hlen. pose proof (len_nonneg tail). unfold baseRecordSize.
  destruct (Z.ltb_spec (49 + len tail) 49); [lia|].
  rw !(slice_app_low m tail); [lia..|].
  assert (Hmagic : be_get (slice 0 4 m) = RecordMagic) by reflexivity.
  assert (Hbody : slice 8 49 m = record_body r) by reflexivity.
  assert (Hcrc : slice 4 8 m = be_put 4 (crc32c (record_body r))) by reflexivity.
  rw Hmagic Hbody Hcrc Z.eqb_refl be_get_put_small; [apply crc32c_range|]. rw Z.eqb_refl. cbn [negb].
  assert (H1 : slice 8 9 m = be_put 1 (r_Type r)) by reflexivity.
  assert (H2 : slice 9 17 m = be_put 8 (r_LSN r)) by reflexivity.
  assert (H3 : slice 17 25 m = be_put 8 (r_SegmentID r)) by reflexivity.
  assert (H4 : slice 25 33 m = be_put 8 (r_OldPhysAddr r)) by reflexivity.
  assert (H5 : slice 33 41 m = be_put 8 (r_NewPhysAddr r)) by reflexivity.
  assert (H6 : slice 41 49 m = be_put 8 (u64 (r_Timestamp r))) by reflexivity.
  rw H1 H2 H3 H4 H5 H6. rw (be_get_put_small 1) // !(be_get_put_small 8) //; [apply u64_range|].
  rw i64_u64 //. by destruct r.
Qed.

(** ** Damage *)
Lemma slice_app_parts (a b c tail : list byte) :
  len a = 4 → len b = 4 → len c = 41 →
  slice 0 4 ((a ++ b ++ c) ++ tail) = a ∧ slice 4 8 ((a ++ b ++ c) ++ tail) = b ∧
  slice 8 49 ((a ++ b ++ c) ++ tail) = c ∧ 49 ≤ len ((a ++ b ++ c) ++ tail).
Proof.
  unfold len. intros Ha Hb Hc. split_and!; [..|rw !length_app; lia].
  - rw -!app_assoc. unfold slice. rw drop_0 take_app_length' //. lia.
  - rw -!app_assoc. unfold slice. rw drop_app_length'; [lia|]. rw take_app_length' //. lia.
  - rw -!app_assoc. unfold slice. rw (drop_app_ge a); [lia|].
    rw drop_app_length'; [lia|]. rw take_app_length' //. lia.
Qed.

Lemma unmarshal_rejects (a b c tail : list byte) :
  len a = 4 → len b = 4 → len c = 41 → be_get a ≠ RecordMagic ∨ be_get b ≠ crc32c c →
  ∃ e, Record_UnmarshalBinary ((a ++ b ++ c) ++ tail) = Fail e.
Proof.
  intros Ha Hb Hc Hbad. destruct (slice_app_parts a b c tail Ha Hb Hc) as (H1 & H2 & H3 & H4).
  unfold Record_UnmarshalBinary, baseRecordSize. rw H1 H2 H3.
  destruct (Z.ltb_spec (len ((a ++ b ++ c) ++ tail)) 49); [by eexists|].
  destruct (Z.eqb_spec (be_get a) RecordMagic); cbn [negb]; [|by eexists].
  destruct (Z.eqb_spec (be_get b) (crc32c c)); cbn [negb]; [|by eexists]. by destruct Hbad.
Qed.

Lemma be_get_inj l1 l2 : length l1 = length l2 → be_get l1 = be_get l2 → l1 = l2.
Proof. intros Hl Hg. rw -(be_put_get l1) -(be_put_get l2). by rw Hl Hg. Qed.

(** A field with one byte replaced decodes to another number. *)
Lemma be_get_insert n z i b :
  0 ≤ z < 256 ^ Z.of_nat n → (i < n)%nat → be_put n z !! i ≠ Some b → be_get (<[i:=b]> (be_put n z)) ≠ z.
Proof.
  intros Hz Hi Hne Hget. apply Hne.
  assert (Heq : be_get (<[i:=b]> (be_put n z)) = be_get (be_put n z)) by (by rw be_get_put_small).
  apply be_get_inj in Heq; [|by rw length_insert]. rw -Heq. apply list_lookup_insert_eq.
  by rw be_put_length.
Qed.

(** C28: a record with any one byte replaced by another is rejected, whatever
    follows it: the magic or the checksum does not match. *)
Theorem record_damage_detected r tail i b :
  record_ok r → (i < 49)%nat → Record_MarshalBinary r !! i ≠ Some b →
  ∃ e, Record_UnmarshalBinary (<[i:=b]> (Record_MarshalBinary r) ++ tail) = Fail e.
Proof.
  intros Hr Hi. unfold Record_MarshalBinary.
  set (a := be_put 4 RecordMagic). set (k := be_put 4 (crc32c (record_body r))). set (c := record_body r).
  assert (Ha : length a = 4%nat) by done. assert (Hk : length k = 4%nat) by done.
  assert (Hc : length c = 41%nat) by done. intros Hne.
  destruct (decide (i < 4)%nat) as [H4|H4]; [|destruct (decide (i < 8)%nat) as [H8|H8]].
  - rw lookup_app_l in Hne; [lia|]. rw insert_app_l; [lia|].
    apply unmarshal_rejects; [unfold len; by rw length_insert|done|done|]. left.
    by apply be_get_insert.
  - rw lookup_app_r in Hne; [lia|]. rw lookup_app_l in Hne; [lia|].
    replace i with (length a + (i - 4))%nat by lia. rw insert_app_r insert_app_l; [lia|].
    apply unmarshal_rejects; [done|unfold len; by rw length_insert|done|]. right.
    rw Ha in Hne. apply be_get_insert; [apply crc32c_range|lia|done].
  - rw !lookup_app_r in Hne; [lia|lia|]. rw Ha Hk in Hne.
    replace i with (length a + (length k + (i - 8)))%nat by lia. rw !insert_app_r.
    apply unmarshal_rejects; [done|done|unfold len; by rw length_insert|]. right.
    rw be_get_put_small; [apply crc32c_range|]. fold c. replace (i - 4 - 4)%nat with (i - 8)%nat in Hne by lia.
    destruct (lookup_lt_is_Some_2 c (i - 8)) as [b0 Hb0]; [lia|]. rw Hb0 in Hne. intros Heq. apply Hne.
    f_equal. rw insert_take_drop in Heq; [lia|]. rw -{1}(take_drop_middle c (i - 8) b0 Hb0) in Heq.
    by apply crc32c_one_byte in Heq.
Qed.

Definition sample_record : Record_ :=
  {| r_Type := RecordTypeL2PUpdate; r_LSN := 7; r_SegmentID := 3; r_OldPhysAddr := 0;
     r_NewPhysAddr := 2^40; r_Timestamp := -5 |}.
Lemma sample_record_ok : record_ok sample_record.
Proof. by split. Qed.

Lemma record_damage_detected_witness :
  ∃ e, Record_UnmarshalBinary (<[20%nat:=byte_of_Z 77]> (Record_MarshalBinary sample_record) ++ []) = Fail e.
Proof.
  apply (record_damage_detected sample_record [] 20 (byte_of_Z 77)).
  - apply sample_record_ok.
  - lia.
  - vm_compute. discriminate.
Defined.

(** ** Round trips *)
Lemma len_be_puts {A} (l : list A) (f : A → Z) : len (l ≫= λ x, be_put 8 (f x)) = 8 * len l.
Proof.
  unfold len. induction l as [|x l IH]; [done|]. rw bind_cons length_app be_put_length length_cons. lia.
Qed.

Lemma read_entries_app pre entries tail :
  Forall (λ p, 0 ≤ p < 2^64) entries →
  read_entries (pre ++ (entries ≫= be_put 8) ++ tail) (len pre) (len entries) = entries.
Proof.
  intros Hok. apply list_eq. intros i. unfold read_entries. rw list_lookup_fmap.
  destruct (decide (i < length entries)%nat) as [Hi|Hi].
  2: { rw lookup_seqZ_ge; [unfold len; lia|]. rw lookup_ge_None_2 //. lia. }
  rw lookup_seqZ_lt; [unfold len; lia|]. simpl.
  destruct (lookup_lt_is_Some_2 entries i Hi) as [p Hp]. rw Hp. f_equal.
  rw -(take_drop_middle entries i p Hp) bind_app bind_cons. 
  set (front := take i entries ≫= be_put 8). set (back := drop (S i) entries ≫= be_put 8).
  assert (Hfront : len front = 8 * Z.of_nat i).
  { unfold front. rw (len_be_puts _ id). unfold len. rw length_take. lia. }
  replace (pre ++ (front ++ be_put 8 p ++ back) ++ tail) with ((pre ++ front) ++ be_put 8 p ++ (back ++ tail))
    by (by rw -!app_assoc).
  unfold slice, len in *. rw drop_app_length'; [rw length_app; lia|]. rw take_app_length'; [rw be_put_length; lia|].
  apply be_get_put_small. exact (Forall_lookup_1 _ _ _ _ Hok Hp).
Qed.

Record checkpoint_ok (c : CheckpointRecord) : Prop := {
  co_record : record_ok (cp_Record c);
  co_len : cp_L2PTableLen c = len (cp_L2PEntries c) ∧ len (cp_L2PEntries c) < 2^56;
  co_seg : r_SegmentID (cp_Record c) = cp_L2PTableLen c;
  co_entries : Forall (λ p, 0 ≤ p < 2^64) (cp_L2PEntries c);
}.

Lemma Checkpoint_roundtrip c tail :
  checkpoint_ok c → CheckpointRecord_UnmarshalBinary (CheckpointRecord_MarshalBinary c ++ tail) = Ok c.
Proof.
  intros [Hc [Hl Hmax] Hs He].
  unfold CheckpointRecord_UnmarshalBinary, CheckpointRecord_MarshalBinary.
  assert (Hset : r_set_SegmentID (cp_L2PTableLen c) (cp_Record c) = cp_Record c).
  { rw -Hs. by destruct (cp_Record c). }
  rw Hset -app_assoc Record_roundtrip // Hs Hl. pose proof (len_nonneg (cp_L2PEntries c)).
  unfold baseRecordSize. rw !i64_small; [lia..|].
  assert (Hlen : len (Record_MarshalBinary (cp_Record c) ++ (cp_L2PEntries c ≫= be_put 8) ++ tail) =
                 49 + (8 * len (cp_L2PEntries c) + len tail)).
  { rw (len_app (Record_MarshalBinary _)) len_Record_MarshalBinary (len_app (_ ≫= _)) (len_be_puts _ id). unfold baseRecordSize. lia. }
  rw Hlen. pose proof (len_nonneg tail).
  destruct (Z.ltb_spec (49 + (8 * len (cp_L2PEntries c) + len tail)) (49 + len (cp_L2PEntries c) * 8)); [lia|].
  destruct (Z.ltb_spec (49 + (8 * len (cp_L2PEntries c) + len tail)) (49 + 8 * len (cp_L2PEntries c))); [lia|].
  do 2 f_equal. 
  pose proof (read_entries_app (Record_MarshalBinary (cp_Record c)) (cp_L2PEntries c) tail He) as Hread.
  rw len_Record_MarshalBinary in Hread. unfold baseRecordSize in Hread. rw Hread. destruct c; simpl in *; congruence.
Qed.

(** C27: a record, and a checkpoint with its table, read back as written, also
    when more bytes follow. *)
Theorem record_roundtrip r c tail :
  record_ok r → checkpoint_ok c →
  Record_UnmarshalBinary (Record_MarshalBinary r ++ tail) = Ok r ∧
  CheckpointRecord_UnmarshalBinary (CheckpointRecord_MarshalBinary c ++ tail) = Ok c.
Proof. intros Hr Hc. split; [by apply Record_roundtrip|by apply Checkpoint_roundtrip]. Qed.

Definition sample_checkpoint : CheckpointRecord :=
  {| cp_Record := {| r_Type := RecordTypeCheckpoint; r_LSN := 8; r_SegmentID := 3;
       r_OldPhysAddr := 0; r_NewPhysAddr := 0; r_Timestamp := 12 |};
     cp_L2PTableLen := 3; cp_L2PEntries := [0; 2^40 + 16; 5] |}.
Lemma sample_checkpoint_ok : checkpoint_ok sample_checkpoint.
Proof. split; [by split|done|done|repeat constructor; lia]. Qed.

Lemma record_roundtrip_witness :
  CheckpointRecord_UnmarshalBinary (CheckpointRecord_MarshalBinary sample_checkpoint ++ [zero_byte]) =
    Ok sample_checkpoint.
Proof. apply (record_roundtrip sample_record); [apply sample_record_ok|apply sample_checkpoint_ok]. Defined.
