(* ===== verification/Journal.v ===== *)
(** * [internal/journal/journal.go]: the write-ahead journal

    Records are framed with a length, collected in memory and written, flushed
    and synced by [GroupCommit].  The file and the [bufio.Writer] in front of it
    are modelled as the Go library documents them; what the next writes and
    syncs of the file do is a script in its state, so every fault is covered. *)

From S2P Require Import Bytes Crc32c Wal Gc.

(** ** [*os.File] opened for appending *)
Record File := {
  f_data : list byte;
  f_synced : Z;                    (* this many bytes survive a power loss *)
  f_writes : list (option Z);      (* per write: all of it, or an error after some bytes *)
  f_syncs : list bool;             (* per fsync: success *)
}.

Definition f_set (data : list byte) (writes : list (option Z)) (f : File) : File :=
  {| f_data := data; f_synced := f_synced f; f_writes := writes; f_syncs := f_syncs f |}.

(** The bytes written, and whether that was all. *)
Definition File_Write (p : list byte) : M File (Z * bool) := λ f,
  match f_writes f with
  | Some k :: rest =>
      let n := Z.max 0 (Z.min k (len p)) in
      (f_set (f_data f ++ slice 0 n p) rest f, Ok (n, bool_decide (n = len p)))
  | _ => (f_set (f_data f ++ p) (tail (f_writes f)) f, Ok (len p, true))
  end.

Definition File_Sync : M File unit := λ f,
  let f' := {| f_data := f_data f; f_writes := f_writes f; f_syncs := tail (f_syncs f);
               f_synced := if head (f_syncs f) is Some false then f_synced f else len (f_data f) |} in
  (f', if head (f_syncs f) is Some false then Fail (ErrorNew "fsync") else Ok tt).

(** ** [bufio.Writer] with its 64 KiB buffer *)
Definition bufSize : Z := 64 * 1024.
Record Writer := { w_file : File; w_buf : list byte; w_err : option error }.

Definition w_set_buf (b : list byte) (w : Writer) : Writer :=
  {| w_file := w_file w; w_buf := b; w_err := w_err w |}.
Definition w_set_file (f : File) (w : Writer) : Writer :=
  {| w_file := f; w_buf := w_buf w; w_err := w_err w |}.
Definition w_set_err (e : option error) (w : Writer) : Writer :=
  {| w_file := w_file w; w_buf := w_buf w; w_err := e |}.
Definition on_file {A} (m : M File A) : M Writer A := zoom w_file w_set_file m.

Definition ErrWrite : error := ErrorNew "os.File.Write".

Definition Writer_Flush : M Writer unit :=
  w ← gets id;
  match w_err w with
  | Some e => throw e
  | None =>
      if len (w_buf w) =? 0 then mret tt
      else
        r ← on_file (File_Write (w_buf w));
        let '(n, all) := r in
        modify (w_set_buf (slice n (len (w_buf w)) (w_buf w))) ;;
        if all : bool then mret tt
        else modify (w_set_err (Some ErrWrite)) ;; throw ErrWrite
  end.

(** The loop of [Write]; the result is what is left to copy into the buffer.
    Each round either empties the buffer or hands [p] to the file. *)
Fixpoint Writer_fill (fuel : nat) (p : list byte) : M Writer (list byte) :=
  w ← gets id;
  match w_err w with
  | Some _ => mret p
  | None =>
      if len p <=? bufSize - len (w_buf w) then mret p
      else
        match fuel with
        | O => stop_with Diverged
        | S fuel =>
            if len (w_buf w) =? 0 then
              r ← on_file (File_Write p);
              let '(n, all) := r in
              modify (w_set_err (if all : bool then None else Some ErrWrite)) ;;
              Writer_fill fuel (slice n (len p) p)
            else
              let n := bufSize - len (w_buf w) in
              modify (w_set_buf (w_buf w ++ slice 0 n p)) ;;
              _ ← attempt Writer_Flush;
              Writer_fill fuel (slice n (len p) p)
        end
  end.

Definition Writer_Write (p : list byte) : M Writer unit :=
  p ← Writer_fill 2 p;
  w ← gets id;
  match w_err w with
  | Some e => throw e
  | None => modify (w_set_buf (w_buf w ++ p))
  end.

(** ** The journal *)
Record Journal := {
  j_writer : Writer;
  j_lsn : Z;
  j_pending : list (list byte);
  j_clock : list Z;        (* what the next calls of [time.Now] return *)
}.

Definition j_set_writer (w : Writer) (j : Journal) : Journal :=
  {| j_writer := w; j_lsn := j_lsn j; j_pending := j_pending j; j_clock := j_clock j |}.
Definition j_set_pending (p : list (list byte)) (j : Journal) : Journal :=
  {| j_writer := j_writer j; j_lsn := j_lsn j; j_pending := p; j_clock := j_clock j |}.
Definition on_writer {A} (m : M Writer A) : M Journal A := zoom j_writer j_set_writer m.

Definition nextLSN : M Journal Z := λ j,
  let lsn := u64 (j_lsn j + 1) in
  ({| j_writer := j_writer j; j_lsn := lsn; j_pending := j_pending j; j_clock := j_clock j |}, Ok lsn).
Definition CurrentLSN (j : Journal) : Z := j_lsn j.
Definition time_now : M Journal Z := λ j,
  ({| j_writer := j_writer j; j_lsn := j_lsn j; j_pending := j_pending j; j_clock := tail (j_clock j) |},
   Ok (default 0 (head (j_clock j)))).

(** A record behind its length. *)
Definition frame (payload : list byte) : list byte := be_put 4 (len payload) ++ payload.

Definition appendRecord (rec : Record_) : M Journal unit :=
  modify (λ j, j_set_pending (j_pending j ++ [frame (Record_MarshalBinary rec)]) j).

Definition Journal_LogL2PUpdate (segID oldPhys newPhys : Z) : M Journal Z :=
  lsn ← nextLSN;
  now ← time_now;
  appendRecord {| r_Type := RecordTypeL2PUpdate; r_LSN := lsn; r_SegmentID := segID;
                  r_OldPhysAddr := oldPhys; r_NewPhysAddr := newPhys; r_Timestamp := now |} ;;
  mret lsn.

Definition logZoneAction (recType zoneID : Z) : M Journal unit :=
  lsn ← nextLSN;
  now ← time_now;
  appendRecord {| r_Type := recType; r_LSN := lsn; r_SegmentID := zoneID;
                  r_OldPhysAddr := 0; r_NewPhysAddr := 0; r_Timestamp := now |}.
Definition Journal_LogZoneOpen (zoneID : Z) : M Journal unit := logZoneAction RecordTypeZoneOpen zoneID.
Definition Journal_LogZoneClose (zoneID : Z) : M Journal unit := logZoneAction RecordTypeZoneClose zoneID.
Definition Journal_LogZoneReset (zoneID : Z) : M Journal unit := logZoneAction RecordTypeZoneReset zoneID.

Definition Journal_GroupCommit : M Journal unit :=
  pending ← gets j_pending;
  if decide (pending = []) then mret tt
  else
    for_each (λ (_ : unit) payload,
      wrap "writing WAL record: %w" (on_writer (Writer_Write payload))) tt pending ;;
    modify (j_set_pending []) ;;
    wrap "flushing WAL writer: %w" (on_writer Writer_Flush) ;;
    wrap "syncing WAL: %w" (on_writer (on_file File_Sync)).

Definition Journal_Close : M Journal unit := Journal_GroupCommit.

(** The goroutine of [StartGroupCommitLoop]: a commit per tick, and a last one when
    the context is cancelled; errors are dropped. *)
Definition GroupCommitLoop (ticks : nat) : M Journal unit :=
  for_each (λ (_ : unit) (_ : nat), _ ← attempt Journal_GroupCommit; mret tt) tt (seq 0 ticks) ;;
  _ ← attempt Journal_GroupCommit;
  mret tt.

#[export] Instance Journal_ops : JournalOps Journal := {|
  LogL2PUpdate := Journal_LogL2PUpdate;
  LogZoneOpen := Journal_LogZoneOpen;
  LogZoneClose := Journal_LogZoneClose;
  LogZoneReset := Journal_LogZoneReset;
  GroupCommit := Journal_GroupCommit;
|}.

(** ** Reading *)

(** The next frame: [None] at the end of the file, in the middle of a frame, or
    at a length no record has. *)
Definition next_frame (max : Z) (l : list byte) : option (list byte * list byte) :=
  if len l <? 4 then None
  else
    let length := be_get (slice 0 4 l) in
    if (length <? baseRecordSize) || (max <? length) then None
    else if len l <? 4 + length then None
    else Some (slice 4 (4 + length) l, slice (4 + length) (len l) l).

(** [fuel] bounds the number of frames; a file has fewer than it has bytes. *)
Fixpoint readRecords_loop (fuel : nat) (afterLSN : Z) (l : list byte) : outcome (list Record_) :=
  match fuel with
  | O => Stop Diverged
  | S fuel =>
      match next_frame (100 * 1024 * 1024) l with
      | None => Ok []
      | Some (recBuf, rest) =>
          match Record_UnmarshalBinary recBuf with
          | Ok rec =>
              match readRecords_loop fuel afterLSN rest with
              | Ok records => Ok (if afterLSN <? r_LSN rec then rec :: records else records)
              | Stop r => Stop r
              end
          | Stop _ => Ok []
          end
      end
  end.
Definition readRecords (afterLSN : Z) (l : list byte) : outcome (list Record_) :=
  readRecords_loop (S (length l)) afterLSN l.

Fixpoint scanMaxLSN_loop (fuel : nat) (maxLSN : Z) (l : list byte) : outcome Z :=
  match fuel with
  | O => Stop Diverged
  | S fuel =>
      match next_frame (2^32) l with
      | None => Ok maxLSN
      | Some (recBuf, rest) =>
          scanMaxLSN_loop fuel
            (match Record_UnmarshalBinary recBuf with
             | Ok rec => if maxLSN <? r_LSN rec then r_LSN rec else maxLSN
             | Stop _ => maxLSN
             end) rest
      end
  end.
Definition scanMaxLSN (l : list byte) : outcome Z := scanMaxLSN_loop (S (length l)) 0 l.

(** [Open]: [file] is what [os.OpenFile] returns. *)
Definition Journal_Open (file : outcome File) (clock : list Z) : outcome Journal :=
  match file with
  | Fail e => Fail (Wrapf "opening journal %q: %w" e)
  | Stop r => Stop r
  | Ok f =>
      match scanMaxLSN (f_data f) with
      | Fail e => Fail (Wrapf "scanning journal LSN: %w" e)
      | Stop r => Stop r
      | Ok lsn => Ok {| j_writer := {| w_file := f; w_buf := []; w_err := None |};
                        j_lsn := lsn; j_pending := []; j_clock := clock |}
      end
  end.

(** The file is read by path: what has been written so far. *)
Definition j_file (j : Journal) : list byte := f_data (w_file (j_writer j)).
Definition ReadAllRecords (afterLSN : Z) : M Journal (list Record_) :=
  on_writer Writer_Flush ;;
  j ← gets id;
  match readRecords afterLSN (j_file j) with
  | Ok records => mret records
  | Stop r => stop_with r
  end.
