(* ===== verification/JournalSpec.v ===== *)
(** * What the journal writes and what a reader gets back

    The bytes of the file are always a prefix of the frames of the records
    logged so far, in order; a reader of any prefix of frames gets a prefix of
    the records. *)

From S2P Require Import Bytes Crc32c Wal Gc Journal.

(** ** The writer *)

(** [w] has taken in the bytes [s]: they are in the file or the buffer, or a
    write failed and the file stops in the middle of them for good. *)
Record writer_took (s : list byte) (w : Writer) : Prop := {
  wt_buf : len (w_buf w) ≤ bufSize;
  wt_bytes : match w_err w with
             | None => f_data (w_file w) ++ w_buf w = s
             | Some _ => f_data (w_file w) `prefix_of` s
             end;
}.

Lemma prefix_app_l' {A} (l1 l2 l3 : list A) : l1 `prefix_of` l2 → l1 `prefix_of` l2 ++ l3.
Proof. intros. by apply prefix_app_r. Qed.

Lemma slice_prefix {A} n (l : list A) : slice 0 n l `prefix_of` l.
Proof. unfold slice. rw drop_0. apply prefix_take. Qed.

Lemma slice_rest {A} n (l : list A) : 0 ≤ n ≤ len l → l = slice 0 n l ++ slice n (len l) l.
Proof.
  intros Hn. unfold slice, len in *. rw drop_0 Z.sub_0_r.
  rw (take_ge (drop _ _)); [rw length_drop; lia|]. by rw take_drop.
Qed.

Lemma slice_empty {A} n (l : list A) : len l ≤ n → slice n (len l) l = [].
Proof. intros. unfold slice, len in *. rw drop_ge; [lia|]. by rw take_nil. Qed.

(** A write appends some bytes of [p], all of them unless it fails. *)
Lemma wp_File_Write p (Q : File → outcome (Z * bool) → Prop) f :
  (∀ f' n, 0 ≤ n ≤ len p → f_synced f' = f_synced f →
     f_data f' = f_data f ++ slice 0 n p → Q f' (Ok (n, bool_decide (n = len p)))) →
  wp (File_Write p) Q f.
Proof.
  intros HQ. pose proof (len_nonneg p). unfold wp, File_Write.
  assert (Hall : Q (f_set (f_data f ++ p) (tail (f_writes f)) f) (Ok (len p, true))).
  { specialize (HQ (f_set (f_data f ++ p) (tail (f_writes f)) f) (len p)).
    rw bool_decide_true // slice_all in HQ. by apply HQ. }
  destruct (f_writes f) as [|[k|] rest]; simpl; [exact Hall| |exact Hall].
  apply HQ; [lia|done|done].
Qed.

Lemma wp_Writer_Flush s (Q : Writer → outcome unit → Prop) w :
  writer_took s w →
  (∀ w' o, returns o → writer_took s w' → f_synced (w_file w') = f_synced (w_file w) →
    match o with Ok _ => w_err w' = None ∧ w_buf w' = [] | _ => w_err w' ≠ None end → Q w' o) →
  wp Writer_Flush Q w.
Proof.
  intros [Hlen Hs] HQ. unfold Writer_Flush, on_file. wp_steps. destruct (w_err w) as [e|] eqn:He.
  { wp_steps. apply HQ; [done|split; [done|by rw He]|done|by rw He]. }
  destruct (Z.eqb_spec (len (w_buf w)) 0) as [Hz|Hz].
  { wp_steps. apply HQ; [done|split; [done|by rw He]|done|]. split; [done|]. by apply nil_length_inv, Nat2Z.inj. }
  wp_steps. apply wp_File_Write. intros f' n Hn Hsync Hdata. wp_steps.
  case_bool_decide as Hall; wp_steps.
  - apply HQ; [done| |done|].
    + split; cbn [w_set_buf w_set_file w_file w_buf w_err]; (rw slice_empty; [lia|]); [done|].
      rw He. by rw Hdata app_nil_r Hall slice_all.
    + split; [done|]. cbn. by rw slice_empty; [lia|].
  - apply HQ; [done| |done|done]. split; cbn [w_set_err w_set_buf w_set_file w_file w_buf w_err].
    + rw len_slice; [lia|lia|]. lia.
    + rw Hdata -Hs. apply prefix_app, slice_prefix.
Qed.

(** Nothing to do: the data fits, or a write failed before. *)
Definition settled (p : list byte) (w : Writer) : Prop :=
  w_err w ≠ None ∨ len p + len (w_buf w) ≤ bufSize.

Definition fill_post (s : list byte) (w : Writer) (p : list byte)
    (Q : Writer → outcome (list byte) → Prop) : Prop :=
  ∀ w' c rest, p = c ++ rest → writer_took (s ++ c) w' → settled rest w' →
    f_synced (w_file w') = f_synced (w_file w) → Q w' (Ok rest).

Lemma wp_fill_settled fuel s p (Q : Writer → outcome (list byte) → Prop) w :
  writer_took s w → settled p w → fill_post s w p Q → wp (Writer_fill fuel p) Q w.
Proof.
  intros Hw Hset HQ.
  assert (HQ' : Q w (Ok p)) by (by apply (HQ w [] p); rw ?app_nil_r).
  destruct fuel; simpl Writer_fill; wp_steps; (destruct (w_err w) eqn:He; [by wp_steps|]);
    (destruct (Z.leb_spec (len p) (bufSize - len (w_buf w))); [by wp_steps|]);
    destruct Hset; [congruence|lia|congruence|lia].
Qed.

Lemma wp_fill_direct fuel s p (Q : Writer → outcome (list byte) → Prop) w :
  writer_took s w → w_buf w = [] → fill_post s w p Q → wp (Writer_fill (S fuel) p) Q w.
Proof.
  intros Hw Hb HQ. pose proof Hw as [Hlen Hs]. 
  destruct (w_err w) as [e|] eqn:He.
  { apply (wp_fill_settled _ s); [done|left; congruence|done]. }
  destruct (decide (len p + len (w_buf w) ≤ bufSize)).
  { apply (wp_fill_settled _ s); [done|by right|done]. }
  simpl. wp_steps. rw He. destruct (Z.leb_spec (len p) (bufSize - len (w_buf w))); [lia|].
  destruct (Z.eqb_spec (len (w_buf w)) 0) as [_|Hne]; [|by rw Hb in Hne].
  unfold on_file. wp_steps. apply wp_File_Write. intros f' n' Hn Hsync Hdata.
  wp_steps. apply (wp_fill_settled _ (s ++ slice 0 n' p)).
  - split; cbn [w_set_err w_set_file w_file w_buf w_err]; [done|]. rw Hdata. rw Hb app_nil_r in Hs.
    case_bool_decide; rw ?Hb ?app_nil_r Hs //.
  - unfold settled. cbn [w_set_err w_set_file w_file w_buf w_err]. case_bool_decide; [right|by left].
    rw slice_empty; [lia|]. rw Hb. done.
  - intros w' c rest Heq Htook Hset Hsync'. apply (HQ _ (slice 0 n' p ++ c)); [|by rw app_assoc|done|].
    + rw -app_assoc -Heq. by apply slice_rest.
    + by rw Hsync'.
Qed.

Lemma wp_Writer_fill s p (Q : Writer → outcome (list byte) → Prop) w :
  writer_took s w → fill_post s w p Q → wp (Writer_fill 2 p) Q w.
Proof.
  intros Hw HQ. destruct (decide (w_buf w = [])) as [Hb|Hb]; [by apply (wp_fill_direct 1 s)|].
  pose proof Hw as [Hlen Hs]. destruct (w_err w) as [e|] eqn:He.
  { apply (wp_fill_settled _ s); [done|left; congruence|done]. }
  destruct (decide (len p + len (w_buf w) ≤ bufSize)) as [|Hbig].
  { apply (wp_fill_settled _ s); [done|by right|done]. }
  assert (Hb' : len (w_buf w) ≠ 0) by (intros Hz; by apply Hb, nil_length_inv, Nat2Z.inj).
  pose proof (len_nonneg (w_buf w)). set (n := bufSize - len (w_buf w)).
  assert (Hk : ∃ k, k = 1%nat) by eauto. destruct Hk as [k Hk]. rw -{1}Hk. simpl Writer_fill.
  wp_steps. rw He. destruct (Z.leb_spec (len p) (bufSize - len (w_buf w))); [lia|].
  destruct (Z.eqb_spec (len (w_buf w)) 0); [done|]. wp_steps. fold n.
  apply (wp_Writer_Flush (s ++ slice 0 n p)).
  { split; cbn [w_set_buf w_file w_buf w_err].
    - rw len_app len_slice; [lia|lia|]. lia.
    - rw He in Hs |- *. by rw app_assoc Hs. }
  intros w' o Hret Htook Hsync Ho.
  assert (Hfin : wp (Writer_fill k (slice n (len p) p)) Q w').
  { assert (Hpost : fill_post (s ++ slice 0 n p) w' (slice n (len p) p) Q).
    { intros w2 c rest Heq Htook2 Hset2 Hsync2.
      apply (HQ _ (slice 0 n p ++ c)); [|by rw app_assoc|done|by rw Hsync2 Hsync].
      rw -app_assoc -Heq. apply slice_rest. lia. }
    destruct o as [[]|[e| |]]; try done.
    - destruct Ho. rw Hk. by eapply wp_fill_direct.
    - eapply wp_fill_settled; [done|by left|done]. }
  destruct o as [[]|[e| |]]; try done; wp_steps; exact Hfin.
Qed.

Lemma wp_Writer_Write s p (Q : Writer → outcome unit → Prop) w :
  writer_took s w →
  (∀ w' o, returns o → writer_took (s ++ p) w' → f_synced (w_file w') = f_synced (w_file w) →
    (is_ok o → w_err w' = None) → (¬ is_ok o → w_err w' ≠ None) → Q w' o) →
  wp (Writer_Write p) Q w.
Proof.
  intros Hw HQ. unfold Writer_Write. wp_steps. apply (wp_Writer_fill s); [done|].
  intros w' c rest Hp [Hlen Hs] Hset Hsync. wp_steps. destruct (w_err w') as [e|] eqn:He; wp_steps.
  - apply HQ; [done| |done|done|intros _; congruence]. split; [done|]. rw He Hp app_assoc. by apply prefix_app_l'.
  - destruct Hset as [|Hfit]; [congruence|].
    apply HQ; [done| |done|done|done]. split; cbn [w_set_buf w_file w_buf w_err].
    + rw len_app. lia.
    + rw He Hp app_assoc Hs. by rw app_assoc.
Qed.

(** ** The journal *)

(** [s] is the stream of frames logged so far: written, buffered or pending, in
    this order; after a failed write the file stops inside [s]. *)
Record journal_holds (s : list byte) (j : Journal) : Prop := {
  jh_buf : len (w_buf (j_writer j)) ≤ bufSize;
  jh_stream : match w_err (j_writer j) with
              | None => f_data (w_file (j_writer j)) ++ w_buf (j_writer j) ++ concat (j_pending j) = s
              | Some _ => j_file j `prefix_of` s
              end;
}.

Lemma journal_holds_file s j : journal_holds s j → j_file j `prefix_of` s.
Proof.
  intros [_ Hs]. unfold j_file in *. destruct (w_err (j_writer j)); [done|]. rw -Hs. by apply prefix_app_r.
Qed.

Lemma writer_holds s t j :
  writer_took s (j_writer j) → w_err (j_writer j) = None → s ++ concat (j_pending j) = t → journal_holds t j.
Proof. intros [Hb Hs] He <-. split; [done|]. rw He in Hs |- *. rw -Hs. by rw app_assoc. Qed.

Lemma writer_failed s t j :
  writer_took s (j_writer j) → w_err (j_writer j) ≠ None → s `prefix_of` t → journal_holds t j.
Proof.
  intros [Hb Hs] He Ht. split; [done|]. unfold j_file. destruct (w_err (j_writer j)); [|done]. by etrans.
Qed.

Lemma holds_writer s j : journal_holds s j →
  match w_err (j_writer j) with
  | None => ∃ t, writer_took t (j_writer j) ∧ t ++ concat (j_pending j) = s
  | Some _ => writer_took s (j_writer j)
  end.
Proof.
  intros [Hb Hs]. destruct (w_err (j_writer j)) eqn:He.
  - split; [done|]. by rw He.
  - eexists. split; [split; [done|]; by rw He|]. rw -Hs. by rw app_assoc.
Qed.

Lemma wp_flush_journal s (Q : Journal → outcome unit → Prop) j :
  journal_holds s j →
  (∀ j' o, returns o → journal_holds s j' → (is_ok o → j_file j' ++ concat (j_pending j') = s) → Q j' o) →
  wp (on_writer Writer_Flush) Q j.
Proof.
  intros Hj HQ. pose proof (holds_writer s j Hj) as Hw. unfold on_writer. wp_steps.
  destruct (w_err (j_writer j)) as [e|] eqn:He.
  { unfold wp, Writer_Flush. M_unfold. rw He. apply HQ; [done| |done]. by destruct j, Hj. }
  destruct Hw as (t & Ht & Hts). apply (wp_Writer_Flush t); [done|]. intros w' o Hret Htook _ Ho.
  destruct o as [[]|[e| |]]; try done.
  - destruct Ho as [Herr Hbuf]. apply HQ; [done|by eapply writer_holds|]. intros _.
    destruct Htook as [_ Hs]. rw Herr Hbuf app_nil_r in Hs. unfold j_file. cbn. by rw Hs.
  - apply HQ; [done| |done]. apply (writer_failed t); [done|done|]. rw -Hts. by apply prefix_app_r.
Qed.

(** Logging a record adds its frame to the stream. *)
Lemma wp_appendRecord s r (Q : Journal → outcome unit → Prop) j :
  journal_holds s j →
  (∀ j', journal_holds (s ++ frame (Record_MarshalBinary r)) j' → j_file j' = j_file j →
     j_lsn j' = j_lsn j → j_pending j' ≠ [] → Q j' (Ok tt)) →
  wp (appendRecord r) Q j.
Proof.
  intros [Hb Hs] HQ. unfold appendRecord. wp_steps. apply HQ; [|done|done|by destruct (j_pending j)].
  split; [done|]. cbn [j_set_pending j_writer j_pending]. destruct (w_err (j_writer j)).
  - by apply prefix_app_l'.
  - rw concat_app -Hs. cbn [concat]. by rw app_nil_r !app_assoc.
Qed.

(** The frame a log operation adds. *)
Definition logged_record (j : Journal) (ty seg old new : Z) : Record_ :=
  {| r_Type := ty; r_LSN := u64 (j_lsn j + 1); r_SegmentID := seg; r_OldPhysAddr := old;
     r_NewPhysAddr := new; r_Timestamp := default 0 (head (j_clock j)) |}.
Definition logged_frame (j : Journal) (ty seg old new : Z) : list byte :=
  frame (Record_MarshalBinary (logged_record j ty seg old new)).

Lemma wp_log s ty seg old new j :
  journal_holds s j →
  journal_holds (s ++ logged_frame j ty seg old new)
    ((nextLSN ≫= λ lsn, time_now ≫= λ now, appendRecord {| r_Type := ty; r_LSN := lsn; r_SegmentID := seg;
        r_OldPhysAddr := old; r_NewPhysAddr := new; r_Timestamp := now |}) j).1.
Proof.
  intros [Hb Hs]. 
  apply (wp_appendRecord s _ (λ j' _, journal_holds _ j') {| j_writer := j_writer j; j_lsn := u64 (j_lsn j + 1);
    j_pending := j_pending j; j_clock := tail (j_clock j) |}); [by split|done].
Qed.

Lemma LogL2PUpdate_holds s seg old new j :
  journal_holds s j →
  wp (Journal_LogL2PUpdate seg old new)
    (λ j' o, journal_holds (s ++ logged_frame j RecordTypeL2PUpdate seg old new) j' ∧
             o = Ok (u64 (j_lsn j + 1))) j.
Proof. intros Hj. split; [|done]. by apply (wp_log s RecordTypeL2PUpdate). Qed.

Lemma logZoneAction_holds s ty z j :
  journal_holds s j →
  wp (logZoneAction ty z) (λ j' o, journal_holds (s ++ logged_frame j ty z 0 0) j' ∧ o = Ok tt) j.
Proof. intros Hj. split; [|done]. by apply (wp_log s ty). Qed.

(** An error of the writer is sticky. *)
Lemma Writer_Write_err e p w : w_err w = Some e → Writer_Write p w = (w, Fail e).
Proof.
  intros He. assert (Hfill : Writer_fill 2 p w = (w, Ok p)) by (simpl; M_unfold; by rw He).
  unfold Writer_Write, mbind, M_bind. rw Hfill. M_unfold. by rw He.
Qed.

Definition write_pending (ps : list (list byte)) : M Journal unit :=
  for_each (λ (_ : unit) payload,
    wrap "writing WAL record: %w" (on_writer (Writer_Write payload))) tt ps.

(** Writing the pending frames: all of them are taken in, or a write fails. *)
Lemma wp_write_pending s (Q : Journal → outcome unit → Prop) j :
  journal_holds s j → j_pending j ≠ [] →
  (∀ j', w_err (j_writer j') = None → writer_took s (j_writer j') → Q j' (Ok tt)) →
  (∀ j' e, w_err (j_writer j') ≠ None → journal_holds s j' → Q j' (Fail e)) →
  wp (write_pending (j_pending j)) Q j.
Proof.
  intros Hj Hne Hok Hfail. pose proof (holds_writer s j Hj) as Hw. unfold write_pending.
  destruct (w_err (j_writer j)) as [e|] eqn:He.
  { destruct (j_pending j) as [|p ps]; [done|]. simpl. wp_steps. unfold on_writer. wp_steps.
    eapply wp_of_eq; [by apply Writer_Write_err|]. simpl. apply Hfail; [simpl; congruence|]. by destruct j, Hj. }
  destruct Hw as (t & Ht & Hts).
  apply wp_for_each with (I := λ done j' _, w_err (j_writer j') = None ∧
    writer_took (t ++ concat done) (j_writer j')).
  - rw app_nil_r. done.
  - intros pre x post j' [] Hpend (Herr & Htook). unfold on_writer. wp_steps.
    apply (wp_Writer_Write _ _ _ _ Htook). intros w' o Hret Htook' _ Hsucc Hbad.
    destruct o as [[]|[e| |]]; try done.
    + split; [by apply Hsucc|]. rw concat_app app_assoc. simpl. by rw app_nil_r.
    + assert (Herr' : w_err w' ≠ None) by (by apply Hbad; intros []).
      apply Hfail; [done|]. apply (writer_failed ((t ++ concat pre) ++ x)); [done|done|].
      rw -Hts Hpend concat_app. simpl. rw !app_assoc. by apply prefix_app_r.
  - intros j' [] [Herr Htook]. apply Hok; [done|]. by rw -Hts.
Qed.

Lemma wp_File_Sync (Q : File → outcome unit → Prop) f :
  (∀ f', f_data f' = f_data f → f_synced f' = len (f_data f) → Q f' (Ok tt)) →
  (∀ f', f_data f' = f_data f → Q f' (Fail (ErrorNew "fsync"))) →
  wp File_Sync Q f.
Proof.
  intros Hok Hfail. unfold wp, File_Sync. cbn.
  destruct (head (f_syncs f)) as [[]|]; [by apply Hok|by apply Hfail|by apply Hok].
Qed.

(** [GroupCommit]: the stream is unchanged; success with something to commit
    means that all of it is in the file and synced. *)
Lemma wp_GroupCommit s (Q : Journal → outcome unit → Prop) j :
  journal_holds s j →
  (j_pending j = [] → Q j (Ok tt)) →
  (∀ j' o, returns o → journal_holds s j' →
     (is_ok o → j_pending j' = [] ∧ j_file j' = s ∧ f_synced (w_file (j_writer j')) = len s ∧ w_err (j_writer j') = None) →
     Q j' o) →
  wp Journal_GroupCommit Q j.
Proof.
  intros Hj Hempty HQ. unfold Journal_GroupCommit. wp_steps.
  destruct (decide (j_pending j = [])) as [Hp|Hp]; [wp_steps; auto|].
  fold (write_pending (j_pending j)). wp_steps. apply (wp_write_pending s); [done|done| |].
  2: { intros j' e Herr Hj'. by apply HQ. }
  intros j' Herr Htook. unfold on_writer. wp_steps. apply (wp_Writer_Flush s); [done|].
  intros w' o Hret Htook' _ Ho. destruct o as [[]|[e| |]]; try done; cbn.
  2: { apply HQ; [done| |done]. by apply (writer_failed s). }
  destruct Ho as [Herr' Hbuf]. unfold on_file. wp_steps.
  destruct Htook' as [_ Hs]. rw Herr' Hbuf app_nil_r in Hs.
  assert (Hfin : ∀ f, f_data f = s →
    journal_holds s (j_set_writer (w_set_file f w') (j_set_writer w' (j_set_pending [] j')))).
  { intros f Hf. split; cbn [j_writer j_set_writer w_set_file w_buf w_err]; [by rw Hbuf|].
    rw Herr' Hbuf. cbn. by rw Hf app_nil_r. }
  apply wp_File_Sync; intros f' Hf; cbn in Hf.
  - intros Hsync. cbn in Hsync. apply HQ; [done|by apply Hfin; rw Hf|].
    intros _. unfold j_file. cbn. by rw Hf Hsync Hs.
  - apply HQ; [done|by apply Hfin; rw Hf|done].
Qed.

#[export] Program Instance Journal_spec : JournalSpec Journal := {|
  jr_wf j := ∃ s, journal_holds s j;
|}.
Next Obligation.
  intros j seg old new [s Hs]. eapply wp_mono; [by apply LogL2PUpdate_holds|].
  intros j' o [Hj' ->]. split; [by eexists|done].
Qed.
Next Obligation.
  intros j z [s Hs]. eapply wp_mono; [by apply logZoneAction_holds|].
  intros j' o [Hj' ->]. split; [by eexists|done].
Qed.
Next Obligation.
  intros j z [s Hs]. eapply wp_mono; [by apply logZoneAction_holds|].
  intros j' o [Hj' ->]. split; [by eexists|done].
Qed.
Next Obligation.
  intros j [s Hs]. apply (wp_GroupCommit s); [done| |].
  - intros _. split; [by eexists|done].
  - intros j' o Hret Hj' _. split; [by eexists|done].
Qed.

Lemma Journal_Open_holds f clock j :
  Journal_Open (Ok f) clock = Ok j → journal_holds (f_data f) j ∧ j_file j = f_data f.
Proof.
  unfold Journal_Open. destruct (scanMaxLSN (f_data f)) as [lsn|[]]; intros Heq; try done.
  injection Heq as <-. split; [|done]. split; [done|]. simpl. by rw app_nil_r.
Qed.
