(* ===== verification/JournalTheorems.v ===== *)
(** * What a journal promises across a crash

    Reading is total on any bytes; reading any prefix of the frames of records
    gives a prefix of the records; what a group commit reported as committed is
    read back after any later crash.  Two closed theorems show where the code
    stops short of that. *)

From S2P Require Import Bytes Crc32c Wal Gc Journal JournalSpec.

(** ** Frames *)

(** The bytes a record is stored as: it decodes to [r], also as a prefix. *)
Record payload_of (r : Record_) (p : list byte) : Prop := {
  po_len : baseRecordSize ≤ len p ≤ 100 * 1024 * 1024;
  po_dec : Record_UnmarshalBinary p = Ok r;
}.

Lemma payload_of_record r : record_ok r → payload_of r (Record_MarshalBinary r).
Proof.
  intros Hr. split; [rw len_Record_MarshalBinary; unfold baseRecordSize; lia|].
  rw -(app_nil_r (Record_MarshalBinary r)). by apply Record_roundtrip.
Qed.

Lemma len_frame p : len (frame p) = 4 + len p.
Proof. unfold frame. rw len_app. by rw {1}/len be_put_length. Qed.

Lemma next_frame_app m p rest :
  baseRecordSize ≤ len p ≤ m → m < 2^32 → next_frame m (frame p ++ rest) = Some (p, rest).
Proof.
  intros Hp Hm. unfold next_frame. pose proof (len_nonneg rest). unfold baseRecordSize in *.
  rw len_app len_frame. destruct (Z.ltb_spec (4 + len p + len rest) 4); [lia|].
  assert (Hhead : slice 0 4 (frame p ++ rest) = be_put 4 (len p)).
  { unfold frame. rw -app_assoc. unfold slice. rw drop_0. by rw take_app_length'. }
  rw Hhead be_get_put_small; [lia|]. unfold baseRecordSize.
  destruct (Z.ltb_spec (len p) 49); [lia|]. destruct (Z.ltb_spec m (len p)); [lia|]. cbn [orb].
  destruct (Z.ltb_spec (4 + len p + len rest) (4 + len p)); [lia|].
  f_equal. f_equal; unfold slice, len in *.
  - unfold frame. rw -app_assoc drop_app_length'; [by rw be_put_length|]. rw take_app_length' //. lia.
  - rw drop_app_length'; [unfold frame; rw length_app be_put_length; lia|]. rw take_ge //. lia.
Qed.

(** A frame that is cut short is not a frame. *)
Lemma next_frame_cut m p l :
  baseRecordSize ≤ len p ≤ m → m < 2^32 → l `prefix_of` frame p → l ≠ frame p → next_frame m l = None.
Proof.
  intros Hp Hm [k Hk] Hne. unfold next_frame. pose proof (len_nonneg l).
  destruct (Z.ltb_spec (len l) 4) as [|Hl]; [done|].
  assert (Hhead : slice 0 4 l = be_put 4 (len p)).
  { rw -(slice_app_low l k 0 4); [lia|lia|]. rw -Hk. unfold frame, slice. rw drop_0. by rw take_app_length'. }
  rw Hhead be_get_put_small; [unfold baseRecordSize in *; lia|].
  destruct (Z.ltb_spec (len p) baseRecordSize); [done|]. destruct (Z.ltb_spec m (len p)); [done|]. cbn [orb].
  destruct (Z.ltb_spec (len l) (4 + len p)); [done|]. destruct Hne.
  pose proof (len_frame p) as Hf. rw Hk len_app in Hf. assert (len k = 0) as Hk0 by (pose proof (len_nonneg k); lia).
  destruct k; [by rw Hk app_nil_r|done].
Qed.

(** Where a frame is found the rest is shorter. *)
Lemma next_frame_rest m l p rest : next_frame m l = Some (p, rest) → (length rest + 4 ≤ length l)%nat.
Proof.
  unfold next_frame. set (n := be_get (slice 0 4 l)). assert (0 ≤ n) as Hn by apply be_get_range.
  destruct (Z.ltb_spec (len l) 4); [done|]. destruct (_ || _); [done|].
  destruct (Z.ltb_spec (len l) (4 + n)); [done|]. intros Heq. injection Heq as _ <-.
  unfold slice, len in *. rw length_take length_drop. lia.
Qed.

(** ** Readers stop *)
Lemma readRecords_loop_total fuel a l : (length l < fuel)%nat → ∃ rs, readRecords_loop fuel a l = Ok rs.
Proof.
  revert l. induction fuel as [|fuel IH]; intros l Hl; [lia|]. simpl.
  destruct (next_frame _ l) as [[p rest]|] eqn:Hn; [|by eexists]. apply next_frame_rest in Hn.
  destruct (Record_UnmarshalBinary p); [|by eexists]. destruct (IH rest) as [rs ->]; [lia|]. by eexists.
Qed.

Lemma scanMaxLSN_loop_total fuel k l : (length l < fuel)%nat → ∃ n, scanMaxLSN_loop fuel k l = Ok n.
Proof.
  revert k l. induction fuel as [|fuel IH]; intros k l Hl; [lia|]. simpl.
  destruct (next_frame _ l) as [[p rest]|] eqn:Hn; [|by eexists]. apply next_frame_rest in Hn.
  apply IH. lia.
Qed.

(** More fuel than needed changes nothing. *)
Lemma readRecords_fuel fuel a l :
  (length l < fuel)%nat → readRecords_loop fuel a l = readRecords a l.
Proof.
  unfold readRecords. generalize (S (length l)) (Nat.lt_succ_diag_r (length l)).
  revert l. induction fuel as [|fuel IH]; intros l [|n] H1 H2; try lia. simpl.
  destruct (next_frame _ l) as [[p rest]|] eqn:Hn; [|done]. apply next_frame_rest in Hn.
  destruct (Record_UnmarshalBinary p); [|done]. rw (IH rest n) //; lia.
Qed.

Definition newer (afterLSN : Z) (rs : list Record_) : list Record_ :=
  filter (λ r, afterLSN < r_LSN r) rs.

Lemma readRecords_frame a r p rest rs :
  payload_of r p → readRecords a rest = Ok rs → readRecords a (frame p ++ rest) = Ok (newer a [r] ++ rs).
Proof.
  intros [Hp Hr] Hrest. unfold readRecords.  cbn [readRecords_loop]. rw next_frame_app // Hr readRecords_fuel.
  { rw length_app. pose proof (len_frame p). unfold len in *. lia. }
  rw Hrest. unfold newer. rw filter_cons filter_nil.
  destruct (Z.ltb_spec a (r_LSN r)); [by rw decide_True|by rw decide_False; [lia|]].
Qed.

(** ** Reading what was written *)

(** The file [recs] are stored in. *)
Definition stored (recs : list Record_) (ps : list (list byte)) : Prop := Forall2 payload_of recs ps.
Definition frames (ps : list (list byte)) : list byte := ps ≫= frame.
Definition journal_bytes (recs : list Record_) : list byte := frames (Record_MarshalBinary <$> recs).

Lemma stored_records recs : Forall record_ok recs → stored recs (Record_MarshalBinary <$> recs).
Proof. induction 1; constructor; [by apply payload_of_record|done]. Qed.

Lemma frames_app ps qs : frames (ps ++ qs) = frames ps ++ frames qs.
Proof. apply bind_app. Qed.

Lemma journal_bytes_app rs qs : journal_bytes (rs ++ qs) = journal_bytes rs ++ journal_bytes qs.
Proof. unfold journal_bytes. by rw fmap_app frames_app. Qed.

Lemma prefix_app_cases {A} (l a b : list A) :
  l `prefix_of` a ++ b → (∃ l', l = a ++ l' ∧ l' `prefix_of` b) ∨ (l `prefix_of` a ∧ l ≠ a).
Proof.
  revert l. induction a as [|x a IH]; intros l Hl; [left; by exists l|].
  destruct l as [|y l]; [right; split; [apply prefix_nil|done]|].
  pose proof (prefix_cons_inv_1 _ _ _ _ Hl) as ->. apply prefix_cons_inv_2 in Hl.
  destruct (IH l Hl) as [(l' & -> & ?)|[? ?]]; [left; by exists l'|right].
  split; [by apply prefix_cons|congruence].
Qed.

(** Bytes no reader finds a frame in. *)
Definition dead (l : list byte) : Prop := ∀ m, 100 * 1024 * 1024 ≤ m < 2^32 → next_frame m l = None.

(** The first bytes of a journal are some complete frames and a dead tail. *)
Lemma split_frames recs ps l :
  stored recs ps → l `prefix_of` frames ps →
  ∃ k torn, l = frames (take k ps) ++ torn ∧ dead torn ∧
    (∀ k', frames (take k' ps) `prefix_of` l → (k' ≤ k)%nat ∨ (length ps ≤ k)%nat).
Proof.
  intros Hst. revert l. induction Hst as [|r p recs ps Hp Hst IH]; intros l Hl.
  { exists 0%nat, []. apply prefix_nil_inv in Hl as ->. split_and!; [done|done|]. intros. right. simpl. lia. }
  change (frames (p :: ps)) with (frame p ++ frames ps) in Hl.
  apply prefix_app_cases in Hl as [(l' & -> & Hl')|[Hl Hne]].
  - destruct (IH l' Hl') as (k & torn & Hsplit & Hdead & Hmax). exists (S k), torn.
    split_and!; [rw Hsplit; apply app_assoc|done|].
    intros [|k'] Hk'; [lia|]. change (frame p ++ frames (take k' ps) `prefix_of` frame p ++ l') in Hk'.
    apply prefix_app_inv in Hk'. destruct (Hmax k' Hk'); simpl; lia.
  - exists 0%nat, l. destruct Hp as [Hlen _]. split_and!; [done| |].
    + intros m Hm. apply (next_frame_cut _ p); [lia|lia|done|done].
    + intros [|k'] Hk'; [lia|]. destruct Hne. change (frame p ++ frames (take k' ps) `prefix_of` l) in Hk'.
      apply (anti_symm prefix); [done|]. etrans; [|done]. by apply prefix_app_r.
Qed.

Lemma read_frames a recs ps torn :
  stored recs ps → dead torn → readRecords a (frames ps ++ torn) = Ok (newer a recs).
Proof.
  intros Hst Hdead. induction Hst as [|r p recs ps Hp Hst IH].
  { unfold readRecords. cbn [readRecords_loop]. by rw (Hdead (100 * 1024 * 1024)). }
  change (frames (p :: ps)) with (frame p ++ frames ps). rw -app_assoc (readRecords_frame _ r p _ _ Hp IH).
  unfold newer. by rw -filter_app.
Qed.

Lemma stored_take k recs ps : stored recs ps → stored (take k recs) (take k ps).
Proof. apply Forall2_take. Qed.

(** A reader of the first bytes of a journal gets the records whose frames are
    complete, and no others. *)
Lemma read_prefix a recs ps l :
  stored recs ps → l `prefix_of` frames ps →
  ∃ k, readRecords a l = Ok (newer a (take k recs)) ∧
       (∀ k', frames (take k' ps) `prefix_of` l → (k' ≤ k)%nat ∨ (length ps ≤ k)%nat).
Proof.
  intros Hst Hl. destruct (split_frames _ _ _ Hst Hl) as (k & torn & -> & Hdead & Hmax).
  exists k. split; [|done]. apply read_frames; [by apply stored_take|done].
Qed.

(** ** The file only grows *)
Definition grows (f f' : File) : Prop :=
  f_synced f ≤ len (f_data f) →
  f_data f `prefix_of` f_data f' ∧ f_synced f ≤ f_synced f' ≤ len (f_data f').

#[export] Instance grows_preorder : PreOrder grows.
Proof.
  split; [intros f Hf; split; [done|lia]|]. intros f g h Hfg Hgh Hf.
  destruct (Hfg Hf) as [H1 H2]. destruct Hgh as [H3 H4]; [lia|]. split; [by etrans|lia].
Qed.

Lemma prefix_len {A} (l k : list A) : l `prefix_of` k → len l ≤ len k.
Proof. intros ?%prefix_length. unfold len. lia. Qed.

Lemma always_File_Write p : always grows (File_Write p).
Proof.
  intros f. unfold File_Write.
  assert (Hext : ∀ l rest, grows f (f_set (f_data f ++ l) rest f)).
  { intros l rest Hf. cbn. pose proof (len_nonneg l). rw len_app. split; [by apply prefix_app_r|lia]. }
  destruct (f_writes f) as [|[k|] rest]; apply Hext.
Qed.
Lemma always_File_Sync : always grows File_Sync.
Proof. intros f Hf. cbn. destruct (head (f_syncs f)) as [[]|]; split; simpl; (done || lia). Qed.

Abbreviation w_grows := (on w_file grows).
Abbreviation j_grows := (on j_writer w_grows).

Lemma always_on_file {A} (m : M File A) : always grows m → always w_grows (on_file m).
Proof. by apply always_zoom. Qed.
Lemma always_on_writer {A} (m : M Writer A) : always w_grows m → always j_grows (on_writer m).
Proof. by apply always_zoom. Qed.
#[export] Hint Resolve always_File_Write always_File_Sync always_on_file always_on_writer : always.

Lemma always_Writer_Flush : always w_grows Writer_Flush.
Proof. unfold Writer_Flush. always. Qed.
#[export] Hint Resolve always_Writer_Flush : always.
Lemma always_Writer_Write p : always w_grows (Writer_Write p).
Proof.
  assert (Hfill : ∀ fuel q, always w_grows (Writer_fill fuel q)).
  { induction fuel as [|fuel IH]; intros q; cbn [Writer_fill]; always. }
  unfold Writer_Write. always.
Qed.
#[export] Hint Resolve always_Writer_Write : always.

(** ** Runs of the journal *)
Inductive journal_op :=
| OpL2P (seg old new : Z)
| OpZone (ty zone : Z)
| OpCommit
| OpRead (afterLSN : Z).

Definition journal_do (op : journal_op) : M Journal unit :=
  match op with
  | OpL2P seg old new => Journal_LogL2PUpdate seg old new ;; mret tt
  | OpZone ty zone => logZoneAction ty zone
  | OpCommit => Journal_GroupCommit
  | OpRead afterLSN => ReadAllRecords afterLSN ;; mret tt
  end.

(** The calls one after the other, whether they succeed or not. *)
Definition journal_run (ops : list journal_op) (j : Journal) : Journal :=
  foldl (λ j op, (journal_do op j).1) j ops.

(** The records the run asks to log. *)
Definition op_record (j : Journal) (op : journal_op) : list Record_ :=
  match op with
  | OpL2P seg old new => [logged_record j RecordTypeL2PUpdate seg old new]
  | OpZone ty zone => [logged_record j ty zone 0 0]
  | _ => []
  end.
Fixpoint logged (ops : list journal_op) (j : Journal) : list Record_ :=
  match ops with
  | [] => []
  | op :: ops => op_record j op ++ logged ops (journal_do op j).1
  end.

Definition op_ok (op : journal_op) : Prop :=
  match op with
  | OpL2P seg old new => 0 ≤ seg < 2^64 ∧ 0 ≤ old < 2^64 ∧ 0 ≤ new < 2^64
  | OpZone ty zone => 0 ≤ ty < 2^8 ∧ 0 ≤ zone < 2^64
  | _ => True
  end.
Definition clock_ok (j : Journal) : Prop := Forall (λ t, -2^63 ≤ t < 2^63) (j_clock j).

Lemma journal_do_holds op s j :
  journal_holds s j → journal_holds (s ++ journal_bytes (op_record j op)) (journal_do op j).1.
Proof.
  intros Hj. destruct op as [seg old new|ty z| |a]; cbn [op_record].
  - unfold journal_bytes. cbn. rw app_nil_r. exact (proj1 (LogL2PUpdate_holds s seg old new j Hj)).
  - unfold journal_bytes. cbn. rw app_nil_r. exact (proj1 (logZoneAction_holds s ty z j Hj)).
  - rw app_nil_r. by apply (wp_GroupCommit s (λ j' _, journal_holds s j')).
  - rw app_nil_r. change (wp (journal_do (OpRead a)) (λ j' _, journal_holds s j') j).
    unfold journal_do, ReadAllRecords. wp_steps. apply (wp_flush_journal s); [done|].
    intros j' [[]|r] Hret Hj' _; [|done]. wp_steps. by case_match.
Qed.

Lemma journal_run_holds ops s j :
  journal_holds s j → journal_holds (s ++ journal_bytes (logged ops j)) (journal_run ops j).
Proof.
  revert s j. induction ops as [|op ops IH]; intros s j Hj; simpl; [by rw app_nil_r|].
  rw journal_bytes_app app_assoc. by apply IH, journal_do_holds.
Qed.

Lemma journal_do_grows op : always j_grows (journal_do op).
Proof.
  assert (always j_grows nextLSN) by (intros j; apply grows_preorder).
  assert (always j_grows time_now) by (intros j; apply grows_preorder).
  destruct op; unfold journal_do, Journal_LogL2PUpdate, logZoneAction, appendRecord, Journal_GroupCommit,
    ReadAllRecords; always.
Qed.

Lemma journal_run_grows ops j : j_grows j (journal_run ops j).
Proof.
  revert j. induction ops as [|op ops IH]; intros j; [apply grows_preorder|].
  etrans; [apply (journal_do_grows op)|apply IH].
Qed.

Lemma journal_run_app ops1 ops2 j : journal_run (ops1 ++ ops2) j = journal_run ops2 (journal_run ops1 j).
Proof. apply foldl_app. Qed.

(** The clock only moves on, so the logged records fit the format. *)
Lemma journal_do_clock op : always (on j_clock (flip suffix)) (journal_do op).
Proof.
  assert (∀ A (m : M Writer A), always (on j_clock (flip suffix)) (on_writer m)).
  { intros A m. apply always_zoom_other; [apply _|done]. }
  assert (always (on j_clock (flip suffix)) nextLSN) by (intros j; unfold on, flip; cbn; reflexivity).
  assert (always (on j_clock (flip suffix)) time_now).
  { intros j. unfold on. cbn. destruct (j_clock j); [done|]. by exists [z]. }
  destruct op; unfold journal_do, Journal_LogL2PUpdate, logZoneAction, appendRecord, Journal_GroupCommit,
    ReadAllRecords; always.
Qed.

Lemma logged_ok ops j : Forall op_ok ops → clock_ok j → Forall record_ok (logged ops j).
Proof.
  revert j. induction ops as [|op ops IH]; intros j Hops Hc; [constructor|].
  inversion_clear Hops as [|? ? Hop Hops']. cbn [logged]. apply Forall_app. split.
  - assert (Ht : -2^63 ≤ default 0 (head (j_clock j)) < 2^63).
    { unfold clock_ok in Hc. destruct (j_clock j); [done|]. by inversion Hc. }
    pose proof (u64_range (j_lsn j + 1)).
    assert (Hr : ∀ ty seg old new, 0 ≤ ty < 2^8 → 0 ≤ seg < 2^64 → 0 ≤ old < 2^64 → 0 ≤ new < 2^64 →
      Forall record_ok [logged_record j ty seg old new]) by (intros; constructor; [by split|constructor]).
    destruct op; cbn [op_record op_ok] in *; [| |constructor..]; apply Hr; try apply Hop; done.
  - apply IH; [done|]. destruct (journal_do_clock op j) as [k Hk]. unfold clock_ok in *.
    rw Hk in Hc. by apply Forall_app in Hc as [_ ?].
Qed.

(** ** Crashes *)

(** What may be left of a file after a power loss: at least the synced bytes. *)
Definition survives (l : list byte) (f : File) : Prop := l `prefix_of` f_data f ∧ f_synced f ≤ len l.

Lemma journal_file_prefix recs0 f clock j ops :
  f_data f = journal_bytes recs0 → Journal_Open (Ok f) clock = Ok j →
  j_file (journal_run ops j) `prefix_of` journal_bytes (recs0 ++ logged ops j).
Proof.
  intros Hf Hopen. apply Journal_Open_holds in Hopen as [Hj _].
  rw journal_bytes_app -Hf. by apply journal_holds_file, journal_run_holds.
Qed.

Lemma GroupCommit_ok s j j' :
  journal_holds s j → j_pending j ≠ [] → Journal_GroupCommit j = (j', Ok tt) →
  journal_holds s j' ∧ j_file j' = s ∧ f_synced (w_file (j_writer j')) = len s.
Proof.
  intros Hj Hne Hc. enough (wp Journal_GroupCommit (λ j' o, is_ok o →
    journal_holds s j' ∧ j_file j' = s ∧ f_synced (w_file (j_writer j')) = len s) j) as Hwp.
  { by apply (wp_elim _ _ _ _ _ Hc Hwp). }
  apply (wp_GroupCommit s); [done|done|]. intros j2 o _ Hj2 Hok Ho. by destruct (Hok Ho) as (_ & ? & ? & _).
Qed.

Lemma journal_run_clock ops j : clock_ok j → clock_ok (journal_run ops j).
Proof.
  unfold clock_ok. revert j. induction ops as [|op ops IH]; intros j Hc; [done|].
  apply IH. destruct (journal_do_clock op j) as [k Hk]. rw Hk in Hc. by apply Forall_app in Hc as [_ ?].
Qed.

Lemma Journal_Open_clock f clock j : Journal_Open (Ok f) clock = Ok j → j_clock j = clock.
Proof. unfold Journal_Open. destruct (scanMaxLSN (f_data f)) as [?|[]]; intros Heq; by inversion Heq. Qed.

(** Of two prefixes of one list the longer extends the other. *)
Lemma prefix_of_longer {A} (k l m : list A) : k `prefix_of` m → l `prefix_of` m → len k ≤ len l → k `prefix_of` l.
Proof.
  intros Hk Hl Hlen. destruct (prefix_weak_total _ _ _ Hk Hl) as [|Hp]; [done|].
  apply prefix_length_eq in Hp as ->; [done|]. unfold len in Hlen. lia.
Qed.

(** A reader of a prefix of a journal that has all of [recs]. *)
Lemma read_beyond recs more l :
  Forall record_ok (recs ++ more) → l `prefix_of` journal_bytes (recs ++ more) → journal_bytes recs `prefix_of` l →
  ∃ rest, rest `prefix_of` more ∧ readRecords 0 l = Ok (newer 0 (recs ++ rest)).
Proof.
  intros Hok Hl Hpre. apply stored_records in Hok.
  destruct (read_prefix 0 _ _ _ Hok Hl) as (k & Hread & Hmax).
  exists (take (k - length recs) more). split; [apply prefix_take|]. rw Hread. do 2 f_equal.
  assert (length recs ≤ k ∨ length more = 0)%nat as Hk.
  { destruct (Hmax (length recs)) as [|Hk]; [|by left|].
    - rw fmap_app take_app_length'; [by rw length_fmap|exact Hpre].
    - rw length_fmap length_app in Hk. lia. }
  destruct Hk as [Hk|Hk]; [by rw take_app_ge|]. destruct more; [|done]. rw take_nil !app_nil_r.
  destruct (Hmax (length recs)) as [Hk'|Hk'].
  - rw fmap_app take_app_length'; [by rw length_fmap|exact Hpre].
  - by rw take_ge.
  - rw length_fmap app_nil_r in Hk'. by rw take_ge.
Qed.

(** C12: the journal is opened on a file that consists of complete records - a file
    whose end was torn by an earlier crash is excluded, as later records are not
    read behind such an end ([torn_tail_hides_later_records]). Then every record
    logged before a group commit that had something to commit and reported success
    is read back after a crash at any later time, in the order of logging, with no
    record that was not logged; whatever writes and syncs fail before or after. *)
Theorem committed_records_survive recs0 f clock j ops1 ops2 j1 l :
  Forall record_ok recs0 → f_data f = journal_bytes recs0 → f_synced f ≤ len (f_data f) →
  Journal_Open (Ok f) clock = Ok j → Forall (λ t, -2^63 ≤ t < 2^63) clock →
  Forall op_ok ops1 → Forall op_ok ops2 →
  j_pending (journal_run ops1 j) ≠ [] → Journal_GroupCommit (journal_run ops1 j) = (j1, Ok tt) →
  survives l (w_file (j_writer (journal_run ops2 j1))) →
  ∃ rest, rest `prefix_of` logged ops2 j1 ∧ readRecords 0 l = Ok (newer 0 (recs0 ++ logged ops1 j ++ rest)).
Proof.
  intros Hrecs Hf Hsync Hopen Hclock Hops1 Hops2 Hpend Hcommit [Hl Hlen].
  pose proof (Journal_Open_holds _ _ _ Hopen) as [Hj Hfile].
  assert (Hcj : clock_ok j) by (unfold clock_ok; by rw (Journal_Open_clock _ _ _ Hopen)).
  assert (Hcj1 : clock_ok j1).
  { pose proof (journal_run_clock (ops1 ++ [OpCommit]) j Hcj) as Hc. rw journal_run_app in Hc.
    simpl in Hc. by rw Hcommit in Hc. }
  destruct (GroupCommit_ok (journal_bytes (recs0 ++ logged ops1 j)) _ _ ltac:(rw journal_bytes_app -Hf;
    by apply journal_run_holds) Hpend Hcommit) as (Hj1 & Hfile1 & Hsync1).
  destruct (journal_run_grows ops2 j1) as [Hgrow [Hsyn _]].
  { change (f_data (w_file (j_writer j1))) with (j_file j1). rw Hfile1 Hsync1. lia. }
  pose proof (journal_holds_file _ _ (journal_run_holds ops2 _ _ Hj1)) as Hfile2.
  destruct (read_beyond (recs0 ++ logged ops1 j) (logged ops2 j1) l) as (rest & Hrest & Hread).
  - apply Forall_app; split; [apply Forall_app; split|]; [done|by apply logged_ok..].
  - rw journal_bytes_app. etrans; [exact Hl|exact Hfile2].
  - apply (prefix_of_longer _ _ (j_file (journal_run ops2 j1))); [|done|lia]. by rw -Hfile1.
  - exists rest. split; [done|]. by rw Hread app_assoc.
Qed.

Definition small_file : File :=
  {| f_data := []; f_synced := 0; f_writes := [None; Some 10]; f_syncs := [] |}.
Definition small_journal : Journal := {| j_writer := {| w_file := small_file; w_buf := []; w_err := None |};
  j_lsn := 0; j_pending := []; j_clock := [100; 200; 300] |}.
Definition small_ops1 : list journal_op := [OpL2P 3 0 (2^40 + 16); OpZone RecordTypeZoneReset 2].
Definition small_ops2 : list journal_op := [OpL2P 5 0 (2^40 + 32); OpCommit].
Definition small_committed : Journal := (Journal_GroupCommit (journal_run small_ops1 small_journal)).1.
Definition small_left : list byte := j_file (journal_run small_ops2 small_committed).

(** The second commit fails in the middle of its frame; the first one's records
    are read back. *)
Lemma committed_records_survive_witness :
  len small_left = 2 * 53 + 10 ∧
  ∃ rest, rest `prefix_of` logged small_ops2 small_committed ∧
    readRecords 0 small_left = Ok (newer 0 ([] ++ logged small_ops1 small_journal ++ rest)).
Proof.
  split; [by vm_compute|].
  apply (committed_records_survive [] small_file [100; 200; 300] small_journal small_ops1 small_ops2).
  - constructor.
  - done.
  - done.
  - done.
  - repeat constructor; lia.
  - repeat constructor; simpl; unfold RecordTypeZoneReset; lia.
  - repeat constructor; simpl; lia.
  - done.
  - refine (run_result Journal_GroupCommit _ _ _). vm_compute. reflexivity.
  - split; [done|]. vm_compute. discriminate.
Defined.

(** ** Log sequence numbers *)
Lemma next_frame_mono m m' l x : m ≤ m' → next_frame m l = Some x → next_frame m' l = Some x.
Proof.
  intros Hm. unfold next_frame. destruct (len l <? 4); [done|].
  destruct (Z.ltb_spec (be_get (slice 0 4 l)) baseRecordSize); [done|].
  destruct (Z.ltb_spec m (be_get (slice 0 4 l))); [done|].
  destruct (Z.ltb_spec m' (be_get (slice 0 4 l))); [lia|done].
Qed.

Lemma scan_covers fuel a k l rs m :
  readRecords_loop fuel a l = Ok rs → scanMaxLSN_loop fuel k l = Ok m →
  k ≤ m ∧ Forall (λ r, r_LSN r ≤ m) rs.
Proof.
  revert k l rs. induction fuel as [|fuel IH]; intros k l rs Hr Hs; [done|].
  assert (Hmono : ∀ f k l m, scanMaxLSN_loop f k l = Ok m → k ≤ m).
  { clear. induction f as [|f IH]; intros k l m; [done|]. cbn [scanMaxLSN_loop].
    destruct (next_frame (2^32) l) as [[p rest]|]; [|intros [=]; lia]. intros Hs%IH.
    destruct (Record_UnmarshalBinary p) as [r|]; [|done]. destruct (Z.ltb_spec k (r_LSN r)); lia. }
  split; [by apply Hmono in Hs|]. cbn [readRecords_loop scanMaxLSN_loop] in Hr, Hs.
  destruct (next_frame (100 * 1024 * 1024) l) as [[p rest]|] eqn:Hn; [|by injection Hr as <-].
  apply (next_frame_mono _ (2^32)) in Hn; [|done]. rw Hn in Hs.
  destruct (Record_UnmarshalBinary p) as [r|]; [|by injection Hr as <-].
  destruct (readRecords_loop fuel a rest) as [rs'|] eqn:Hrs; [|done]. injection Hr as <-.
  destruct (IH _ _ _ Hrs Hs) as [Hk Hall].
  assert (r_LSN r ≤ m) by (destruct (Z.ltb_spec k (r_LSN r)); lia).
  destruct (a <? r_LSN r); [by constructor|done].
Qed.

(** C40: whatever bytes the file has, [Open] succeeds with a sequence number no
    smaller than that of any record a reader returns, so the next record logged
    gets a larger one than all of them, unless the counter wraps. *)
Theorem open_resumes_lsn f clock afterLSN :
  ∃ j rs, Journal_Open (Ok f) clock = Ok j ∧ readRecords afterLSN (f_data f) = Ok rs ∧
    Forall (λ r, r_LSN r ≤ CurrentLSN j) rs ∧
    (CurrentLSN j < 2^64 - 1 → ∀ seg old new, ∃ j' lsn,
       Journal_LogL2PUpdate seg old new j = (j', Ok lsn) ∧ Forall (λ r, r_LSN r < lsn) rs).
Proof.
  destruct (readRecords_loop_total (S (length (f_data f))) afterLSN (f_data f)) as [rs Hrs]; [lia|].
  destruct (scanMaxLSN_loop_total (S (length (f_data f))) 0 (f_data f)) as [m Hm]; [lia|].
  destruct (scan_covers _ _ _ _ _ _ Hrs Hm) as [H0 Hall].
  unfold Journal_Open, scanMaxLSN. rw Hm. do 2 eexists. split_and!; [done|exact Hrs|exact Hall|].
  intros Hlt seg old new. do 2 eexists. split; [reflexivity|]. cbn in *. rw u64_small; [lia|].
  eapply Forall_impl; [exact Hall|]. cbn. lia.
Qed.

(** ** Where the journal loses records *)

(** An fsync that fails is not retried.  [GroupCommit] reports the error once,
    but has already dropped the pending records; the next one has nothing to do
    and reports success, and a crash then loses the record. *)
Theorem failed_sync_forgotten :
  ∃ j0 j1 j2 e, Journal_Open (Ok {| f_data := []; f_synced := 0; f_writes := []; f_syncs := [false] |}) [] = Ok j0 ∧
    let jl := journal_run [OpL2P 3 0 (2^40 + 16)] j0 in
    Journal_GroupCommit jl = (j1, Fail e) ∧ Journal_GroupCommit j1 = (j2, Ok tt) ∧
    survives [] (w_file (j_writer j2)).
Proof.
  do 4 eexists. split; [reflexivity|]. cbn zeta. split; [vm_compute; reflexivity|].
  split; [vm_compute; reflexivity|]. split; [apply prefix_nil|]. vm_compute. discriminate.
Qed.

(** [Open] does not cut off a frame that a crash left incomplete.  Records
    logged, committed and synced after it are behind bytes no reader gets past:
    recovery sees none of them. *)
Theorem torn_tail_hides_later_records :
  ∃ j0 j1, Journal_Open (Ok {| f_data := slice 0 10 (frame (Record_MarshalBinary sample_record));
                               f_synced := 10; f_writes := []; f_syncs := [] |}) [] = Ok j0 ∧
    Journal_GroupCommit (journal_run [OpL2P 3 0 (2^40 + 16); OpL2P 4 0 (2^40 + 32)] j0) = (j1, Ok tt) ∧
    f_synced (w_file (j_writer j1)) = len (j_file j1) ∧ len (j_file j1) = 10 + 2 * 53 ∧
    readRecords 0 (j_file j1) = Ok [].
Proof.
  do 2 eexists. split; [vm_compute; reflexivity|]. split; [vm_compute; reflexivity|].
  split_and!; vm_compute; reflexivity.
Qed.
