(* ===== verification/Recovery.v ===== *)
(** * [internal/journal/checkpoint.go], [recovery.go]

    A checkpoint is the whole forward table in one record; recovery loads the
    newest one and replays the records after it. *)

From S2P Require Import Bytes Backend Segment ZoneManager Crc32c Wal Gc Journal.

Definition WriteCheckpoint (l2p : L2PTable) : M Journal unit :=
  lsn ← nextLSN;
  let entries := L2PTable_Snapshot l2p in
  now ← time_now;
  let cpRec := {|
    cp_Record := {| r_Type := RecordTypeCheckpoint; r_LSN := lsn; r_SegmentID := 0;
                    r_OldPhysAddr := 0; r_NewPhysAddr := 0; r_Timestamp := now |};
    cp_L2PTableLen := len entries;
    cp_L2PEntries := entries |} in
  modify (λ j, j_set_pending (j_pending j ++ [frame (CheckpointRecord_MarshalBinary cpRec)]) j) ;;
  Journal_GroupCommit.

(** The newer of the checkpoint found so far and [c]. *)
Definition later_checkpoint (latest : option CheckpointRecord) (c : CheckpointRecord) : option CheckpointRecord :=
  match latest with
  | None => Some c
  | Some c' => if r_LSN (cp_Record c') <? r_LSN (cp_Record c) then Some c else latest
  end.

(** One record of the file: a damaged checkpoint is passed over. *)
Definition scan_checkpoint (latest : option CheckpointRecord) (recBuf : list byte)
    : outcome (option CheckpointRecord) :=
  match index recBuf 8 with
  | Some ty =>
      if Z_of_byte ty =? RecordTypeCheckpoint then
        match CheckpointRecord_UnmarshalBinary recBuf with
        | Ok c => Ok (later_checkpoint latest c)
        | Fail _ => Ok latest
        | Stop r => Stop r
        end
      else Ok latest
  | None => Ok latest
  end.

Fixpoint ReadLatestCheckpoint_loop (fuel : nat) (latest : option CheckpointRecord) (l : list byte)
    : outcome (option CheckpointRecord) :=
  match fuel with
  | O => Stop Diverged
  | S fuel =>
      match next_frame (1024 * 1024 * 1024) l with
      | None => Ok latest
      | Some (recBuf, rest) =>
          match scan_checkpoint latest recBuf with
          | Ok latest => ReadLatestCheckpoint_loop fuel latest rest
          | Stop r => Stop r
          end
      end
  end.

(** The table of the newest checkpoint, and its sequence number. *)
Definition ReadLatestCheckpoint (l : list byte) : outcome (option (list Z) * Z) :=
  match ReadLatestCheckpoint_loop (S (length l)) None l with
  | Ok None => Ok (None, 0)
  | Ok (Some c) => Ok (Some (cp_L2PEntries c), r_LSN (cp_Record c))
  | Stop r => Stop r
  end.

(** ** What [Recover] works on *)
Record Recovering (D : Type) := mkRecovering { rs_j : Journal; rs_l2p : L2PTable; rs_md : ZMD D }.
Arguments mkRecovering {D} _ _ _. Arguments rs_j {D} _. Arguments rs_l2p {D} _. Arguments rs_md {D} _.

Section recover.
Context {D : Type} `{ZonedDevice D}.

Definition on_journal {A} (m : M Journal A) : M (Recovering D) A :=
  zoom rs_j (λ j s, mkRecovering j (rs_l2p s) (rs_md s)) m.
Definition on_l2p {A} (m : M L2PTable A) : M (Recovering D) A :=
  zoom rs_l2p (λ t s, mkRecovering (rs_j s) t (rs_md s)) m.
Definition on_zones {A} (m : M (ZMD D) A) : M (Recovering D) A :=
  zoom rs_md (λ z s, mkRecovering (rs_j s) (rs_l2p s) z) m.

Definition replay_record (rec : Record_) : M (Recovering D) unit :=
  if r_Type rec =? RecordTypeL2PUpdate then
    wrap "recovery: replaying L2P update segID=%d: %w"
      (on_l2p (L2PTable_Set (r_SegmentID rec) (r_NewPhysAddr rec)))
  else if r_Type rec =? RecordTypeZoneReset then
    wrap "recovery: marking zone %d empty after reset: %w" (on_zones (MarkEmpty (u32 (r_SegmentID rec))))
  else mret tt.

Definition Recover : M (Recovering D) unit :=
  j ← gets rs_j;
  cp ← wrap "recovery: reading checkpoint: %w"
         (match ReadLatestCheckpoint (j_file j) with Ok cp => mret cp | Stop r => stop_with r end);
  let '(snap, checkpointLSN) := cp in
  match snap with
  | Some snap => wrap "recovery: loading L2P snapshot: %w" (on_l2p (L2PTable_LoadSnapshot snap))
  | None => mret tt
  end ;;
  records ← wrap "recovery: reading WAL records: %w" (on_journal (ReadAllRecords checkpointLSN));
  for_each (λ (_ : unit) rec, replay_record rec) tt records ;;
  wrap "recovery: reconciling from device: %w" (on_zones ReconcileFromDevice).
End recover.
