(* ===== verification/RecoveryTheorems.v ===== *)
(** * Crash recovery rebuilds the forward table

    A history is what a correct run logs: updates, zone actions and checkpoints
    of the table the updates so far give, with growing sequence numbers.
    Recovery from any prefix of its bytes gives the table after the events whose
    frames are complete: checkpoint plus tail is the same as replaying all. *)

From S2P Require Import Bytes Zbc Backend Emulator Segment ZoneManager Crc32c Wal Gc Journal JournalSpec JournalTheorems Recovery.

(** ** Histories *)
Inductive event := EvRecord (r : Record_) | EvCheckpoint (c : CheckpointRecord).

Definition ev_record (e : event) : Record_ :=
  match e with EvRecord r => r | EvCheckpoint c => cp_Record c end.
Definition ev_payload (e : event) : list byte :=
  match e with EvRecord r => Record_MarshalBinary r | EvCheckpoint c => CheckpointRecord_MarshalBinary c end.
Definition ev_lsn (e : event) : Z := r_LSN (ev_record e).

(** The reference semantics: the effect of an event on the table. *)
Definition update_entries (t : list Z) (r : Record_) : list Z :=
  if r_Type r =? RecordTypeL2PUpdate then <[Z.to_nat (r_SegmentID r) := r_NewPhysAddr r]> t else t.
Definition table_after (t0 : list Z) (evs : list event) : list Z :=
  foldl (λ t e, update_entries t (ev_record e)) t0 evs.

Record replayable (size zones : Z) (r : Record_) : Prop := {
  rp_seg : r_Type r = RecordTypeL2PUpdate → r_SegmentID r < size;
  rp_zone : r_Type r = RecordTypeZoneReset → u32 (r_SegmentID r) < zones;
}.

Section histories.
Variables (zones : Z) (t0 : list Z).

Inductive history : list event → Prop :=
| history_nil : history []
| history_record evs r :
    history evs → record_ok r → r_Type r ≠ RecordTypeCheckpoint → replayable (len t0) zones r →
    0 < r_LSN r → Forall (λ e, ev_lsn e < r_LSN r) evs → history (evs ++ [EvRecord r])
| history_checkpoint evs c :
    history evs → checkpoint_ok c → r_Type (cp_Record c) = RecordTypeCheckpoint →
    cp_L2PEntries c = table_after t0 evs → baseRecordSize + 8 * len t0 ≤ 100 * 1024 * 1024 →
    0 < r_LSN (cp_Record c) → Forall (λ e, ev_lsn e < r_LSN (cp_Record c)) evs →
    history (evs ++ [EvCheckpoint c]).

Lemma table_after_snoc evs e : table_after t0 (evs ++ [e]) = update_entries (table_after t0 evs) (ev_record e).
Proof. unfold table_after. by rw foldl_app. Qed.

Lemma update_entries_length t r : length (update_entries t r) = length t.
Proof. unfold update_entries. case_match; [apply length_insert|done]. Qed.

Lemma table_after_length evs : length (table_after t0 evs) = length t0.
Proof.
  induction evs as [|e evs IH] using rev_ind; [done|]. by rw table_after_snoc update_entries_length.
Qed.

Lemma history_take k evs : history evs → history (take k evs).
Proof.
  intros Hh. induction Hh as [|evs r Hh IH|evs c Hh IH].
  - rw take_nil. constructor.
  - destruct (decide (k ≤ length evs)%nat); [by rw take_app_le|]. rw take_ge; [rw length_app; simpl; lia|].
    by constructor.
  - destruct (decide (k ≤ length evs)%nat); [by rw take_app_le|]. rw take_ge; [rw length_app; simpl; lia|].
    by constructor.
Qed.

Lemma checkpoint_table_len evs c : history evs → checkpoint_ok c → cp_L2PEntries c = table_after t0 evs →
  len (cp_L2PEntries c) = len t0.
Proof. intros _ _ ->. unfold len. by rw table_after_length. Qed.

Lemma len_checkpoint c : len (CheckpointRecord_MarshalBinary c) = baseRecordSize + 8 * len (cp_L2PEntries c).
Proof. unfold CheckpointRecord_MarshalBinary. by rw len_app len_Record_MarshalBinary (len_be_puts _ id). Qed.

(** A checkpoint record is stored with the length of the table as its segment. *)
Lemma checkpoint_decodes c : checkpoint_ok c → Record_UnmarshalBinary (CheckpointRecord_MarshalBinary c) = Ok (cp_Record c).
Proof.
  intros [Hr _ Hseg _]. unfold CheckpointRecord_MarshalBinary.
  assert (Hset : r_set_SegmentID (cp_L2PTableLen c) (cp_Record c) = cp_Record c).
  { rw -Hseg. by destruct (cp_Record c). }
  rw Hset. by apply Record_roundtrip.
Qed.

Lemma checkpoint_unmarshals c : checkpoint_ok c →
  CheckpointRecord_UnmarshalBinary (CheckpointRecord_MarshalBinary c) = Ok c.
Proof. intros Hc. rw -(app_nil_r (CheckpointRecord_MarshalBinary c)). by apply Checkpoint_roundtrip. Qed.

Lemma history_stored evs : history evs → stored (ev_record <$> evs) (ev_payload <$> evs).
Proof.
  intros Hh. induction Hh as [|evs r Hh IH Hr|evs c Hh IH Hc Hty Htab Hsize]; [constructor|..];
    rw !fmap_app; apply Forall2_app; try done; constructor; try constructor; cbn.
  - rw len_Record_MarshalBinary. unfold baseRecordSize. lia.
  - rw -(app_nil_r (Record_MarshalBinary r)). by apply Record_roundtrip.
  - rw len_checkpoint (checkpoint_table_len evs) //. pose proof (len_nonneg t0). unfold baseRecordSize in *. lia.
  - by apply checkpoint_decodes.
Qed.

Lemma history_replayable evs : history evs → Forall (λ e, replayable (len t0) zones (ev_record e)) evs.
Proof.
  intros Hh. induction Hh; [constructor|..]; apply Forall_app; split; try done; constructor; try done.
  split; rw H0; done.
Qed.

(** ** The checkpoint recovery finds *)
Definition scan_event (latest : option CheckpointRecord) (e : event) : option CheckpointRecord :=
  match e with EvRecord _ => latest | EvCheckpoint c => later_checkpoint latest c end.
Definition latest_checkpoint (evs : list event) : option CheckpointRecord := foldl scan_event None evs.

Lemma byte_8_type r tail : 0 ≤ r_Type r < 2^8 →
  ∃ b, index (Record_MarshalBinary r ++ tail) 8 = Some b ∧ Z_of_byte b = r_Type r.
Proof.
  intros Hty. exists (byte_of_Z (r_Type r)). split; [done|]. rw Z_of_byte_of_Z. by apply Z.mod_small.
Qed.

Definition scannable (e : event) : Prop :=
  match e with
  | EvRecord r => record_ok r ∧ r_Type r ≠ RecordTypeCheckpoint
  | EvCheckpoint c => checkpoint_ok c ∧ r_Type (cp_Record c) = RecordTypeCheckpoint
  end.

Lemma history_scannable evs : history evs → Forall scannable evs.
Proof. intros Hh. induction Hh; [constructor|..]; apply Forall_app; split; try done; by constructor. Qed.

Lemma scan_checkpoint_event latest e :
  scannable e → scan_checkpoint latest (ev_payload e) = Ok (scan_event latest e).
Proof.
  destruct e as [r|c]; cbn [scannable ev_payload scan_event]; unfold scan_checkpoint.
  - intros [Hr Hty]. destruct (byte_8_type r [] (ro_type _ Hr)) as (b & Hb & Hbt). rw app_nil_r in Hb.
    rw Hb Hbt. by destruct (Z.eqb_spec (r_Type r) RecordTypeCheckpoint).
  - intros [Hc Hty].
    destruct (byte_8_type (r_set_SegmentID (cp_L2PTableLen c) (cp_Record c)) (cp_L2PEntries c ≫= be_put 8))
      as (b & Hb & Hbt); [apply Hc|].
    unfold CheckpointRecord_MarshalBinary at 1. rw Hb Hbt. cbn [r_set_SegmentID r_Type].
    by rw Hty checkpoint_unmarshals.
Qed.

Lemma scan_frames fuel latest evs torn :
  Forall scannable evs → stored (ev_record <$> evs) (ev_payload <$> evs) → dead torn →
  (length (frames (ev_payload <$> evs) ++ torn) < fuel)%nat →
  ReadLatestCheckpoint_loop fuel latest (frames (ev_payload <$> evs) ++ torn) = Ok (foldl scan_event latest evs).
Proof.
  intros Hscan Hst Hdead. revert fuel latest. induction evs as [|e evs IH]; intros [|fuel] latest Hfuel; try lia.
  { cbn [ReadLatestCheckpoint_loop]. cbn in *. by rw (Hdead (1024 * 1024 * 1024)). }
  rw !fmap_cons in Hst Hfuel |- *. apply Forall2_cons in Hst as [[Hlen _] Hst]. apply Forall_cons in Hscan as [He Hscan].
  assert (Heq : frames (ev_payload e :: (ev_payload <$> evs)) ++ torn =
    frame (ev_payload e) ++ (frames (ev_payload <$> evs) ++ torn)) by (symmetry; apply app_assoc).
  rw Heq in Hfuel |- *. cbn [ReadLatestCheckpoint_loop].
  rw next_frame_app; [unfold baseRecordSize in *; lia|lia|].
  rw scan_checkpoint_event //. apply IH; [done|done|].
  rw length_app in Hfuel. pose proof (len_frame (ev_payload e)). unfold len in *. lia.
Qed.

(** Loading the latest checkpoint and applying what is newer than it is the same
    as applying everything: the core of recovery. *)
Definition checkpoint_lsn (c : option CheckpointRecord) : Z :=
  match c with Some c => r_LSN (cp_Record c) | None => 0 end.
Definition checkpoint_table (c : option CheckpointRecord) : list Z :=
  match c with Some c => cp_L2PEntries c | None => t0 end.

Lemma latest_snoc evs e : latest_checkpoint (evs ++ [e]) = scan_event (latest_checkpoint evs) e.
Proof. unfold latest_checkpoint. by rw foldl_app. Qed.

Lemma newer_none a rs : Forall (λ r, r_LSN r ≤ a) rs → newer a rs = [].
Proof.
  intros Hall. unfold newer. induction Hall; [done|]. rw filter_cons decide_False; [lia|done].
Qed.

Lemma newer_Forall (P : Record_ → Prop) a rs : Forall P rs → Forall P (newer a rs).
Proof.
  rw !Forall_forall. intros Hall r [_ Hr]%list_elem_of_filter. auto.
Qed.

Lemma history_lsns evs : history evs → Forall (λ e, 0 < ev_lsn e) evs.
Proof. intros Hh. induction Hh; [constructor|..]; apply Forall_app; split; try done; by constructor. Qed.

Lemma latest_below evs b : 0 < b → Forall (λ e, ev_lsn e < b) evs → checkpoint_lsn (latest_checkpoint evs) < b.
Proof.
  intros Hb. induction evs as [|e evs IH] using rev_ind; [done|]. intros [Hevs He]%Forall_app.
  rw latest_snoc. specialize (IH Hevs). inversion_clear He as [|? ? Hlt _].
  destruct e as [r|c]; cbn [scan_event]; [exact IH|]. unfold later_checkpoint.
  destruct (latest_checkpoint evs) as [c'|]; [|exact Hlt].
  destruct (r_LSN (cp_Record c') <? r_LSN (cp_Record c)); [exact Hlt|exact IH].
Qed.

Lemma checkpoint_plus_tail evs :
  history evs →
  foldl update_entries (checkpoint_table (latest_checkpoint evs))
    (newer (checkpoint_lsn (latest_checkpoint evs)) (ev_record <$> evs)) = table_after t0 evs ∧
  length (checkpoint_table (latest_checkpoint evs)) = length t0.
Proof.
  intros Hh. induction Hh as [|evs r Hh [IH Hlen] Hr Hty Hrep Hpos Hlt|evs c Hh [IH Hlen] Hc Hty Htab Hsize Hpos Hlt].
  - done.
  - rw latest_snoc. cbn [scan_event]. split; [|done]. rw fmap_app /newer filter_app.
    pose proof (latest_below evs (r_LSN r) Hpos Hlt) as Hbelow. cbn [fmap list_fmap ev_record].
    rw (filter_cons _ r) decide_True //. rw filter_nil foldl_app IH table_after_snoc. done.
  - rw latest_snoc. cbn [scan_event].
    assert (Hlater : later_checkpoint (latest_checkpoint evs) c = Some c).
    { pose proof (latest_below evs (r_LSN (cp_Record c)) Hpos Hlt) as Hbelow. unfold later_checkpoint.
      destruct (latest_checkpoint evs) as [c'|]; [|done]. cbn in Hbelow.
      by destruct (Z.ltb_spec (r_LSN (cp_Record c')) (r_LSN (cp_Record c))); [|lia]. }
    rw Hlater. cbn [checkpoint_table checkpoint_lsn]. rw Htab table_after_length. split; [|done].
    rw newer_none.
    { rw fmap_app. apply Forall_app; split; [|constructor; [cbn; lia|constructor]].
      apply Forall_fmap. eapply Forall_impl; [exact Hlt|]. intros e. unfold ev_lsn. cbn. lia. }
    rw table_after_snoc. unfold update_entries. cbn. rw Hty. done.
Qed.
End histories.

(** ** [Recover] *)
Definition idle (j : Journal) : Prop := w_buf (j_writer j) = [] ∧ w_err (j_writer j) = None.

Lemma ReadAllRecords_idle a rs j :
  idle j → readRecords a (j_file j) = Ok rs → ReadAllRecords a j = (j, Ok rs).
Proof.
  intros [Hb He] Hr. assert (Hflush : on_writer Writer_Flush j = (j, Ok tt)).
  { unfold on_writer, zoom, Writer_Flush. M_unfold. rw He Hb. cbn. by destruct j. }
  unfold ReadAllRecords, mbind, M_bind. rw Hflush. unfold gets, id. by rw Hr.
Qed.

Section recover.
Context {D : Type} `{ZonedDevice D}.
Implicit Types s : Recovering D.

(** What a replay leaves alone, and how far it has come. *)
Record replayed (s : Recovering D) (rs : list Record_) (s' : Recovering D) : Prop := {
  re_j : rs_j s' = rs_j s;
  re_l2p : l2p_entries (rs_l2p s') = foldl update_entries (l2p_entries (rs_l2p s)) rs;
  re_size : l2p_size (rs_l2p s') = l2p_size (rs_l2p s);
  re_dev : md_dev (rs_md s') = md_dev (rs_md s);
  re_zones : len (zm_zones (md_zm (rs_md s'))) = len (zm_zones (md_zm (rs_md s)));
}.

Lemma zm_alter_zone_len i f zm : len (zm_zones (zm_alter_zone i f zm)) = len (zm_zones zm).
Proof. unfold len. cbn. by rw length_alter. Qed.

Lemma replay_record_step s0 rs s r :
  replayed s0 rs s →
  replayable (l2p_size (rs_l2p s0)) (len (zm_zones (md_zm (rs_md s0)))) r →
  wp (replay_record r) (λ s' o, o = Ok tt ∧ replayed s0 (rs ++ [r]) s') s.
Proof.
  intros [Hj Hl Hsz Hd Hz] [Hseg Hzone]. unfold replay_record.
  assert (Hfold : foldl update_entries (l2p_entries (rs_l2p s0)) (rs ++ [r]) =
                  update_entries (l2p_entries (rs_l2p s)) r) by (by rw foldl_app Hl).
  destruct (Z.eqb_spec (r_Type r) RecordTypeL2PUpdate) as [Hu|Hu].
  { unfold on_l2p. wp_steps. apply wp_L2PTable_Set; [rw Hsz; auto|]. split; [done|]. split; try done.
    cbn. rw Hfold. unfold update_entries. by rw Hu. }
  assert (Hsame : update_entries (l2p_entries (rs_l2p s)) r = l2p_entries (rs_l2p s)).
  { unfold update_entries. by destruct (Z.eqb_spec (r_Type r) RecordTypeL2PUpdate). }
  rw Hsame in Hfold. destruct (Z.eqb_spec (r_Type r) RecordTypeZoneReset) as [Hr|Hr].
  2: { wp_steps. split; [done|]. split; rw ?Hfold; done. }
  unfold on_zones, MarkEmpty, zm_get, zm_modify. wp_steps. specialize (Hzone Hr).
  unfold zone_out_of_range. destruct (Z.leb_spec (len (zm_zones (md_zm (rs_md s)))) (u32 (r_SegmentID r))); [lia|].
  wp_steps. split; [done|]. split; try (cbn; rw ?Hfold; done).
  cbn [rs_md md_zm zm_set_freeList zm_set_frozen zm_zones].
  rw (proj1 (zm_drop_open_zones _ _)). by rw zm_alter_zone_len.
Qed.

Lemma replay_all s rs :
  Forall (replayable (l2p_size (rs_l2p s)) (len (zm_zones (md_zm (rs_md s))))) rs →
  wp (for_each (λ (_ : unit) rec, replay_record rec) tt rs) (λ s' o, o = Ok tt ∧ replayed s rs s') s.
Proof.
  intros Hall. apply wp_for_each with (I := λ done s' _, replayed s done s'); [by split| |by intros s' []].
  intros done r rest s' [] -> Hdone. apply Forall_app in Hall as [_ Hall]. apply Forall_cons in Hall as [Hr _].
  eapply wp_mono; [by apply replay_record_step|]. intros s'' o [-> Hs'']. exact Hs''.
Qed.

(** The zone records after [ReconcileFromDevice] are what the device reports. *)
Definition reconciled (descs : list ZoneDescriptor) (zs : list ZoneInfo) : Prop :=
  ∀ i z d, zs !! i = Some z → descs !! i = Some d →
    zi_State z = zd_ZoneState d ∧ zi_WritePointer z = zd_WritePointer d.

Lemma reconcile_fold k descs zm :
  0 ≤ k →
  let zm' := foldl reconcile_zone zm (zip (seqZ k (len descs)) descs) in
  (∀ i, (i < Z.to_nat k)%nat → zm_zones zm' !! i = zm_zones zm !! i) ∧
  reconciled descs (drop (Z.to_nat k) (zm_zones zm')).
Proof.
  unfold len. revert k zm. induction descs as [|d descs IH]; intros k zm Hk; cbn zeta.
  { split; [done|]. intros i z d _ Hd. done. }
  rw seqZ_cons; [simpl; lia|]. cbn [zip zip_with foldl].
  replace (Z.pred (Z.of_nat (length (d :: descs)))) with (Z.of_nat (length descs)) by (simpl; lia).
  set (zm1 := reconcile_zone zm (k, d)). destruct (IH (Z.succ k) zm1) as [Hlow Hrec]; [lia|].
  replace (Z.to_nat (Z.succ k)) with (S (Z.to_nat k)) in * by lia. cbn zeta in Hlow, Hrec.
  set (zm' := foldl _ zm1 _) in *. split.
  - intros i Hi. rw Hlow; [lia|]. unfold zm1. cbn. by rw list_lookup_alter_ne; [lia|].
  - intros [|i] z d' Hz Hd; rw lookup_drop in Hz.
    + rw Nat.add_0_r Hlow in Hz; [lia|]. unfold zm1 in Hz. cbn in Hz. rw list_lookup_alter_eq in Hz.
      injection Hd as ->. destruct (zm_zones zm !! Z.to_nat k); [|done]. cbn in Hz. by injection Hz as <-.
    + apply (Hrec i); [|done]. rw lookup_drop. by replace (S (Z.to_nat k) + i)%nat with (Z.to_nat k + S i)%nat by lia.
Qed.

Lemma ReadLatestCheckpoint_history zones t0 evs torn :
  history zones t0 evs → dead torn →
  ReadLatestCheckpoint (frames (ev_payload <$> evs) ++ torn) =
  Ok (cp_L2PEntries <$> latest_checkpoint evs, checkpoint_lsn (latest_checkpoint evs)).
Proof.
  intros Hh Hdead. unfold ReadLatestCheckpoint.
  rw scan_frames; [by eapply history_scannable|by eapply history_stored|done|lia|].
  fold (latest_checkpoint evs). by destruct (latest_checkpoint evs).
Qed.

Lemma wp_load t0 (c : option CheckpointRecord) (Q : Recovering D → outcome unit → Prop) s :
  l2p_wf (rs_l2p s) → l2p_entries (rs_l2p s) = t0 → length (checkpoint_table t0 c) = length t0 →
  Q (mkRecovering (rs_j s) {| l2p_entries := checkpoint_table t0 c; l2p_size := len t0 |} (rs_md s)) (Ok tt) →
  wp (match cp_L2PEntries <$> c with
      | Some snap => wrap "recovery: loading L2P snapshot: %w" (on_l2p (L2PTable_LoadSnapshot snap))
      | None => mret tt
      end) Q s.
Proof.
  unfold l2p_wf. intros Hwf Ht0 Hlen HQ. rw Ht0 in Hwf. destruct c as [c|]; cbn [fmap option_fmap option_map].
  - unfold on_l2p. wp_steps. unfold wp. rw LoadSnapshot_eq; [unfold l2p_wf; by rw Ht0| |by rw -Hwf].
    cbn in Hlen. unfold len in *. lia.
  - wp_steps. rw Hwf -Ht0 in HQ. by destruct s as [j [] md].
Qed.

Lemma wp_reconcile d' descs (Q : Recovering D → outcome unit → Prop) s :
  ReportZones 0 0 (md_dev (rs_md s)) = (d', Ok descs) →
  (∀ md, reconciled descs (zm_zones (md_zm md)) → Q (mkRecovering (rs_j s) (rs_l2p s) md) (Ok tt)) →
  wp (on_zones ReconcileFromDevice) Q s.
Proof.
  intros Hrep HQ. unfold on_zones, ReconcileFromDevice, on_device, zm_modify. wp_steps.
  unfold wp. rw Hrep. cbn [fst snd]. wp_steps. apply HQ. cbn.
  exact (proj2 (reconcile_fold 0 descs (md_zm (rs_md s)) ltac:(lia))).
Qed.

Lemma Recover_history zones t0 s d' descs evs torn :
  history zones t0 evs → dead torn → j_file (rs_j s) = frames (ev_payload <$> evs) ++ torn → idle (rs_j s) →
  l2p_entries (rs_l2p s) = t0 → l2p_wf (rs_l2p s) →
  len (zm_zones (md_zm (rs_md s))) = zones →
  ReportZones 0 0 (md_dev (rs_md s)) = (d', Ok descs) →
  wp Recover (λ s' o, o = Ok tt ∧ l2p_entries (rs_l2p s') = table_after t0 evs ∧
    reconciled descs (zm_zones (md_zm (rs_md s')))) s.
Proof.
  intros Hh Hdead Hfile Hidle Ht0 Hwf Hzones Hrep. unfold Recover. wp_steps. rw Hfile.
  rw (ReadLatestCheckpoint_history zones t0) //. wp_steps.
  destruct (checkpoint_plus_tail _ _ _ Hh) as [Htail Hlen].
  apply (wp_load t0); [done|done|done|]. unfold on_journal. wp_steps. unfold wp at 1.
  rw (ReadAllRecords_idle (checkpoint_lsn (latest_checkpoint evs)) (newer (checkpoint_lsn (latest_checkpoint evs)) (ev_record <$> evs))); [done| |].
  { cbn [rs_j]. rw Hfile. apply read_frames; [by eapply history_stored|done]. }
  cbn [fst snd rs_j rs_l2p rs_md]. wp_steps. eapply wp_mono.
  { apply replay_all. cbn. apply newer_Forall, Forall_fmap. rw Hzones.
    exact (history_replayable _ _ _ Hh). }
  intros s' o [-> [Hj Hl Hsz Hd Hz]]. cbn in *. wp_steps. apply (wp_reconcile d' descs); [by rw Hd|].
  intros md Hrec. split; [done|]. split; [|done]. cbn. by rw Hl Htail.
Qed.
End recover.

(** C11: recovery after a crash. The journal is a sequence of events such as the
    target writes ([history]): records for segments of the table and zones of the
    device, LSNs that rise, checkpoints of at most 100 MiB whose table is the one
    the events before them lead to. The crash leaves any prefix of its bytes, also
    one that ends in the middle of a record or of a checkpoint. Then, if the device
    reports its zones, recovery succeeds, and the forward table is the one after the
    longest run of events whose frames are complete: loading the newest checkpoint
    and replaying the records after it equals replaying everything. The zone records
    are what the device reports. *)
Theorem recover_any_prefix {D} `{ZonedDevice D} (s : Recovering D) d' descs f clock evs :
  history (len (zm_zones (md_zm (rs_md s)))) (l2p_entries (rs_l2p s)) evs →
  l2p_wf (rs_l2p s) →
  f_data f `prefix_of` frames (ev_payload <$> evs) → Journal_Open (Ok f) clock = Ok (rs_j s) →
  ReportZones 0 0 (md_dev (rs_md s)) = (d', Ok descs) →
  ∃ k s', Recover s = (s', Ok tt) ∧
    l2p_entries (rs_l2p s') = table_after (l2p_entries (rs_l2p s)) (take k evs) ∧
    (∀ k', frames (ev_payload <$> take k' evs) `prefix_of` f_data f → (k' ≤ k ∨ length evs ≤ k)%nat) ∧
    reconciled descs (zm_zones (md_zm (rs_md s'))).
Proof.
  intros Hh Hwf Hpre Hopen Hrep.
  destruct (split_frames _ _ _ (history_stored _ _ _ Hh) Hpre) as (k & torn & Hsplit & Hdead & Hmax).
  rw -fmap_take in Hsplit.
  assert (Hidle : idle (rs_j s)) by (unfold Journal_Open in Hopen; destruct (scanMaxLSN (f_data f)) as [|[]]; by inversion Hopen).
  pose proof (Journal_Open_holds _ _ _ Hopen) as [_ Hfile].
  destruct (Recover s) as [s' o] eqn:Hrec.
  pose proof (wp_elim _ _ _ _ _ Hrec (Recover_history _ _ s d' descs _ torn (history_take _ _ k _ Hh) Hdead
    ltac:(by rw Hfile) Hidle eq_refl Hwf eq_refl Hrep)) as (-> & Htab & Hz).
  exists k, s'. split_and!; [done|done| |done].
  intros k' Hk'. rw length_fmap in Hmax. apply Hmax. by rw -fmap_take.
Qed.

(** Three zones, four segments; an update, a checkpoint, another update, and a
    crash in the middle of the last frame. *)
Definition wal_update (lsn seg new : Z) : Record_ :=
  {| r_Type := RecordTypeL2PUpdate; r_LSN := lsn; r_SegmentID := seg; r_OldPhysAddr := 0;
     r_NewPhysAddr := new; r_Timestamp := 0 |}.
Definition small_cp : CheckpointRecord :=
  {| cp_Record := {| r_Type := RecordTypeCheckpoint; r_LSN := 2; r_SegmentID := 4; r_OldPhysAddr := 0;
       r_NewPhysAddr := 0; r_Timestamp := 0 |}; cp_L2PTableLen := 4; cp_L2PEntries := [0; 77; 0; 0] |}.
Definition small_events : list event :=
  [EvRecord (wal_update 1 1 77); EvCheckpoint small_cp; EvRecord (wal_update 3 2 88); EvRecord (wal_update 4 3 99)].
Definition small_log : File :=
  {| f_data := slice 0 (53 + 85 + 53 + 20) (frames (ev_payload <$> small_events)); f_synced := 0;
     f_writes := []; f_syncs := [] |}.
Definition small_recovering : Recovering Emulator :=
  mkRecovering (match Journal_Open (Ok small_log) [] with Ok j => j | Stop _ => small_journal end)
    (NewL2PTable 4) small_start.1.

Lemma small_history : history 3 (replicate 4 0) small_events.
Proof.
  assert (Hr : ∀ lsn seg new, 0 ≤ lsn < 100 → 0 ≤ seg < 4 → 0 ≤ new < 100 →
    record_ok (wal_update lsn seg new) ∧ replayable 4 3 (wal_update lsn seg new)).
  { intros. split; split; cbn; unfold RecordTypeL2PUpdate, RecordTypeZoneReset; lia. }
  apply (history_record _ _ [_; _; _]); [|by apply Hr|done|by apply Hr|done|repeat constructor].
  apply (history_record _ _ [_; _]); [|by apply Hr|done|by apply Hr|done|repeat constructor].
  apply (history_checkpoint _ _ [_]); [| |done|done|by vm_compute|done|repeat constructor].
  2: { split; [by split|done|done|]. repeat constructor; lia. }
  apply (history_record _ _ []); [constructor|by apply Hr|done|by apply Hr|done|constructor].
Qed.

Lemma recover_any_prefix_witness :
  l2p_entries (rs_l2p (Recover small_recovering).1) = [0; 77; 88; 0] ∧
  ∃ k s', Recover small_recovering = (s', Ok tt) ∧
    l2p_entries (rs_l2p s') = table_after (replicate 4 0) (take k small_events).
Proof.
  split; [by vm_compute|].
  destruct (recover_any_prefix small_recovering (ReportZones 0 0 (md_dev (rs_md small_recovering))).1
    (match (ReportZones 0 0 (md_dev (rs_md small_recovering))).2 with Ok ds => ds | _ => [] end)
    small_log [] small_events) as (k & s' & Hrec & Htab & _).
  - exact small_history.
  - by vm_compute.
  - apply slice_prefix.
  - vm_compute. reflexivity.
  - vm_compute. reflexivity.
  - exists k, s'. split; [exact Hrec|exact Htab].
Defined.

(** ** The readers return *)

(** The bytes [p] are in the file and hold a checkpoint record whose table length is
    out of all proportion. *)
Definition oversized_checkpoint (p l : list byte) : Prop :=
  (∃ before after, l = before ++ p ++ after) ∧
  ∃ r, Record_UnmarshalBinary p = Ok r ∧ r_Type r = RecordTypeCheckpoint ∧ 2^59 ≤ r_SegmentID r.

Lemma next_frame_infix m l p rest : next_frame m l = Some (p, rest) → ∃ before, l = before ++ p ++ rest.
Proof.
  unfold next_frame. set (n := be_get (slice 0 4 l)). assert (0 ≤ n) as Hn by apply be_get_range.
  repeat case_match; try done. intros [= <- <-]. exists (slice 0 4 l).
  rw slice_split; [lia|lia|]. rw slice_split; [lia|lia|]. by rw slice_all.
Qed.

Lemma byte_8_slice p ty : index p 8 = Some ty → be_get (slice 8 9 p) = Z_of_byte ty.
Proof.
  intros Hi. change (p !! 8%nat = Some ty) in Hi. unfold slice. change (Z.to_nat 8) with 8%nat. change (Z.to_nat (9 - 8)) with 1%nat.
  by rw (drop_S p ty 8 Hi).
Qed.

Lemma unmarshal_checkpoint p :
  returns (CheckpointRecord_UnmarshalBinary p) ∨
  CheckpointRecord_UnmarshalBinary p = Panic ∧ ∃ r, Record_UnmarshalBinary p = Ok r ∧ 2^59 ≤ r_SegmentID r.
Proof.
  unfold CheckpointRecord_UnmarshalBinary. destruct (Record_UnmarshalBinary p) as [r|[e| |]] eqn:Hr;
    [|by left|unfold Record_UnmarshalBinary in Hr; by repeat case_match..].
  assert (Hs : 0 ≤ r_SegmentID r).
  { unfold Record_UnmarshalBinary in Hr. repeat case_match; try done. injection Hr as <-. apply be_get_range. }
  destruct (Z.ltb_spec (len p) (i64 (baseRecordSize + i64 (i64 (r_SegmentID r) * 8)))) as [|Hlen]; [by left|].
  destruct (Z.ltb_spec (len p) (baseRecordSize + 8 * r_SegmentID r)) as [Hp|]; [right|by left].
  split; [done|]. exists r. split; [done|]. destruct (Z.le_gt_cases (2^59) (r_SegmentID r)) as [|Hlt]; [done|].
  unfold baseRecordSize in *. rw !i64_small in Hlen; lia.
Qed.

Lemma scan_checkpoint_total latest p :
  (∃ c, scan_checkpoint latest p = Ok c) ∨ scan_checkpoint latest p = Panic ∧
  ∃ r, Record_UnmarshalBinary p = Ok r ∧ r_Type r = RecordTypeCheckpoint ∧ 2^59 ≤ r_SegmentID r.
Proof.
  unfold scan_checkpoint. destruct (index p 8) as [ty|] eqn:Hty; [|left; by eexists].
  destruct (Z.eqb_spec (Z_of_byte ty) RecordTypeCheckpoint) as [Ht|]; [|left; by eexists].
  destruct (unmarshal_checkpoint p) as [Hret|[-> (r & Hr & Hs)]].
  - left. destruct (CheckpointRecord_UnmarshalBinary p) as [c|[e| |]]; [by exists (later_checkpoint latest c)|by exists latest|done..].
  - right. split; [done|]. exists r. split_and!; [done| |done].
    unfold Record_UnmarshalBinary in Hr. repeat case_match; try done. injection Hr as <-. cbn [r_Type].
    by rw -Ht (byte_8_slice _ _ Hty).
Qed.

Lemma ReadLatestCheckpoint_loop_total fuel latest l : (length l < fuel)%nat →
  (∃ c, ReadLatestCheckpoint_loop fuel latest l = Ok c) ∨
  ReadLatestCheckpoint_loop fuel latest l = Panic ∧ ∃ p, oversized_checkpoint p l.
Proof.
  revert latest l. induction fuel as [|fuel IH]; intros latest l Hl; [lia|]. cbn [ReadLatestCheckpoint_loop].
  destruct (next_frame _ l) as [[p rest]|] eqn:Hn; [|left; by eexists].
  pose proof (next_frame_rest _ _ _ _ Hn). apply next_frame_infix in Hn as [before Hbefore].
  destruct (scan_checkpoint_total latest p) as [[c ->]|[-> Hr]].
  - destruct (IH c rest) as [Hok|[-> (p' & (b & a & ->) & Hp')]]; [lia|by left|]. right. split; [done|].
    exists p'. split; [|done]. exists (before ++ p ++ b), a. by rw Hbefore -!app_assoc.
  - right. split; [done|]. exists p. split; [|done]. by exists before, rest.
Qed.

(** C39: whatever is in the file, the three readers of the journal come to an end.
    The scan of [Open] and the reader of records return; the reader of the newest
    checkpoint returns too, unless the file holds a record of checkpoint type, with
    the right magic number and checksum, that states a table of at least 2^59
    entries - it then may panic, as it allocates the table before it knows that the
    bytes for it are there ([crafted_checkpoint_panics]). *)
Theorem readers_total l afterLSN :
  (∃ rs, readRecords afterLSN l = Ok rs) ∧ (∃ lsn, scanMaxLSN l = Ok lsn) ∧
  ((∃ cp, ReadLatestCheckpoint l = Ok cp) ∨
   ReadLatestCheckpoint l = Panic ∧ ∃ p, oversized_checkpoint p l).
Proof.
  split; [apply readRecords_loop_total; lia|]. split; [apply scanMaxLSN_loop_total; lia|].
  unfold ReadLatestCheckpoint. destruct (ReadLatestCheckpoint_loop_total (S (length l)) None l) as [[c ->]|[-> Hp]]; [lia| |by right].
  left. destruct c; by eexists.
Qed.

Definition crafted_log : list byte :=
  frame (Record_MarshalBinary {| r_Type := RecordTypeCheckpoint; r_LSN := 1; r_SegmentID := 2^61;
    r_OldPhysAddr := 0; r_NewPhysAddr := 0; r_Timestamp := 0 |}).
Lemma crafted_checkpoint_panics : ReadLatestCheckpoint crafted_log = Panic.
Proof. vm_compute. reflexivity. Qed.

(** ** Where recovery goes wrong *)

Definition reset_log : list byte :=
  frame (Record_MarshalBinary (wal_update 1 1 77)) ++
  frame (Record_MarshalBinary {| r_Type := RecordTypeZoneReset; r_LSN := 2; r_SegmentID := 2;
    r_OldPhysAddr := 0; r_NewPhysAddr := 0; r_Timestamp := 0 |}).
Definition reset_recovering : Recovering Emulator :=
  mkRecovering {| j_writer := {| w_file := {| f_data := reset_log; f_synced := 0; f_writes := []; f_syncs := [] |};
                    w_buf := []; w_err := None |}; j_lsn := 2; j_pending := []; j_clock := [] |}
    (NewL2PTable 4) small_start.1.

(** Replaying the reset of a zone puts it on the free list again, although
    start-up has already put it there: one zone is then free twice, and the next
    two allocations hand out the same zone. *)
Theorem replayed_reset_frees_twice :
  (Recover reset_recovering).2 = Ok tt ∧
  let md := rs_md (Recover reset_recovering).1 in
  zm_freeList (md_zm small_start.1) = [0; 1; 2] ∧ zm_freeList (md_zm md) = [0; 1; 2; 2] ∧
  (AllocateFree md).2 = Ok 2 ∧ (AllocateFree (AllocateFree md).1).2 = Ok 2.
Proof. cbv zeta. split_and!; vm_compute; reflexivity. Qed.
