(* ===== verification/Ztl.v ===== *)
(** * [internal/ztl/ztl.go]: the zone translation layer

    Random-access reads and writes on top of a zoned device: a write appends a
    segment to the current write zone and remaps it, a read follows the map to
    the write buffer or the device.  [ztl_sector] is the flat store of sectors
    the layer implements; the theorems show that reads, segment-aligned
    writes, flushes and unmaps refine it. *)

From S2P Require Import Bytes Float64 Config Zbc Backend Segment Emulator ZoneManager WriteBuffer Gc.

Record ZTL (D J : Type) := {
  z_gc : GCEngine D J;             (* owns l2p, p2l, zm, device, journal, gcStats *)
  z_buf : WriteBuffer;
  z_sectorsPerSeg : Z;
  z_zoneSectors : Z;
  z_emergencyFreeZones : Z;
  z_currentWriteZone : Z;
  z_currentZoneOpen : bool;
}.
Arguments z_gc {D J} _. Arguments z_buf {D J} _. Arguments z_sectorsPerSeg {D J} _.
Arguments z_zoneSectors {D J} _. Arguments z_emergencyFreeZones {D J} _.
Arguments z_currentWriteZone {D J} _. Arguments z_currentZoneOpen {D J} _.

(** [copy(result[off:], src)]: slicing past the end panics. *)
Definition copy_checked {A} (off : Z) (src dst : list A) : option (list A) :=
  if bool_decide (0 ≤ off ≤ len dst) then Some (copy_at off src dst) else None.

Section ztl.
Context {D J : Type} `{ZonedDevice D} `{JournalOps J}.
Implicit Types s : ZTL D J.

Definition z_set_gc (g : GCEngine D J) s : ZTL D J :=
  {| z_gc := g; z_buf := z_buf s; z_sectorsPerSeg := z_sectorsPerSeg s;
     z_zoneSectors := z_zoneSectors s; z_emergencyFreeZones := z_emergencyFreeZones s;
     z_currentWriteZone := z_currentWriteZone s; z_currentZoneOpen := z_currentZoneOpen s |}.
Definition z_set_buf (b : WriteBuffer) s : ZTL D J :=
  {| z_gc := z_gc s; z_buf := b; z_sectorsPerSeg := z_sectorsPerSeg s;
     z_zoneSectors := z_zoneSectors s; z_emergencyFreeZones := z_emergencyFreeZones s;
     z_currentWriteZone := z_currentWriteZone s; z_currentZoneOpen := z_currentZoneOpen s |}.
Definition z_set_current (zone : Z) (open : bool) s : ZTL D J :=
  {| z_gc := z_gc s; z_buf := z_buf s; z_sectorsPerSeg := z_sectorsPerSeg s;
     z_zoneSectors := z_zoneSectors s; z_emergencyFreeZones := z_emergencyFreeZones s;
     z_currentWriteZone := zone; z_currentZoneOpen := open |}.

Definition z_l2p s : L2PTable := gc_l2p (z_gc s).
Definition z_p2l s : P2LMap := gc_p2l (z_gc s).
Definition z_md s : ZMD D := gc_md (z_gc s).
Definition z_zm s : ZoneManager := md_zm (z_md s).
(** The buffer with what it flushes to. *)
Definition z_wbd s : WBD D := mkWBD (z_buf s) (z_md s).
Definition z_set_wbd (w : WBD D) s : ZTL D J :=
  z_set_buf (wd_buf w) (z_set_gc (gc_set_md (wd_md w) (z_gc s)) s).

Definition on_gc {A} (m : M (GCEngine D J) A) : M (ZTL D J) A := zoom z_gc z_set_gc m.
Definition on_wbd {A} (m : M (WBD D) A) : M (ZTL D J) A := zoom z_wbd z_set_wbd m.
Definition on_wb {A} (m : M WriteBuffer A) : M (ZTL D J) A := zoom z_buf z_set_buf m.
Definition zm_update (f : ZoneManager → ZoneManager) : M (ZTL D J) unit :=
  on_gc (on_zm (zm_modify f)).

(** [ztl.New]: the state it builds; the two goroutines it starts are the steps
    [runCycle] and [flushAged]. *)
Definition ZTL_New (cfg : Config) (device : D) (journal : option J) : outcome (ZTL D J) :=
  let sectorsPerSeg := SectorsPerSegment cfg in
  let zoneSectors := ZoneSize device in
  if sectorsPerSeg =? 0 then Fail (Errorf "sectors per segment must be positive")
  else if zoneSectors =? 0 then Fail (Errorf "zone size must be positive")
  else
    let totalSegments := Device_Capacity device / sectorsPerSeg in
    if totalSegments =? 0 then Fail (Errorf "device capacity too small for segment size")
    else
      match wrap "initializing zone manager: %w" ZoneManager_Initialize
              (mkZMD (NewZoneManager (MaxOpenZones device)) device) with
      | (_, Stop r) => Stop r
      | (md, Ok _) =>
          Ok {| z_gc := NewGCEngine (NewL2PTable totalSegments) ∅ md journal GCStats_zero
                  {| gcc_FreeTriggerRatio := zc_GCTriggerFreeRatio (cfg_ZTL cfg);
                     gcc_EmergencyFreeZones := zc_GCEmergencyFreeZones (cfg_ZTL cfg);
                     gcc_SectorsPerSegment := sectorsPerSeg |};
                z_buf := NewWriteBuffer zoneSectors (zc_BufferFlushAgeSec (cfg_ZTL cfg));
                z_sectorsPerSeg := sectorsPerSeg;
                z_zoneSectors := zoneSectors;
                z_emergencyFreeZones := zc_GCEmergencyFreeZones (cfg_ZTL cfg);
                z_currentWriteZone := 0;
                z_currentZoneOpen := false |}
      end.

(** The segments a request touches, [startSeg .. endSeg]. *)
Definition segment_loop (startSeg endSeg : Z) : list Z := seqZ startSeg (endSeg - startSeg + 1).

(** The overlap of segment [segID] with [lba, endLBA). *)
Definition segment_overlap (segID sps lba endLBA : Z) : Z * Z :=
  let '(segStartLBA, segEndLBA) := SegmentToLBARange segID sps in
  let start := if segStartLBA <? lba then lba else segStartLBA in
  let end_ := if endLBA <? segEndLBA then endLBA else segEndLBA in
  (start, end_).

(** One iteration of the loop of [Read]; the accumulator is the result buffer
    and [resultOffset]. *)
Definition read_segment (lba endLBA : Z) (acc : list byte * Z) (segID : Z)
    : M (ZTL D J) (list byte * Z) :=
  let '(result, resultOffset) := acc in
  sps ← gets z_sectorsPerSeg;
  let segStartLBA := (SegmentToLBARange segID sps).1 in
  let '(readStart, readEnd) := segment_overlap segID sps lba endLBA in
  let readCount := u32 (readEnd - readStart) in
  physAddr ← gets (λ s, L2PTable_Get segID (z_l2p s));
  if PhysAddr_IsUnmapped physAddr then mret (result, resultOffset + readCount * 512)
  else
    info ← gets (λ s, ZoneManager_ZoneInfo (PhysAddr_ZoneID physAddr) (z_zm s));
    match info with
    | None => throw (Errorf "zone %d not found in zone manager")
    | Some zoneInfo =>
        let physSegStartLBA := u64 (zi_StartLBA zoneInfo + PhysAddr_OffsetSectors physAddr) in
        let intraSegOffset := u64 (readStart - segStartLBA) in
        let physReadLBA := u64 (physSegStartLBA + intraSegOffset) in
        hit ← on_wb (WriteBuffer_Lookup (PhysAddr_ZoneID physAddr) physReadLBA readCount);
        data ← match hit with
               | Some bufData => mret bufData
               | None => wrap "reading lba=%d count=%d: %w"
                           (on_gc (on_zm (on_device (ReadSectors physReadLBA readCount))))
               end;
        result ← from_option Panicked (copy_checked resultOffset data result);
        mret (result, resultOffset + len data)
    end.

Definition ZTL_Read (lba count : Z) : M (ZTL D J) (list byte) :=
  if count =? 0 then mret [] else
  sps ← gets z_sectorsPerSeg;
  let startSeg := LBAToSegmentID lba sps in
  let endLBA := u64 (lba + count) in
  let endSeg := LBAToSegmentID (u64 (endLBA - 1)) sps in
  r ← for_each (read_segment lba endLBA) (make_bytes (count * 512), 0)
        (segment_loop startSeg endSeg);
  mret r.1.

Definition getWriteZone : M (ZTL D J) Z :=
  s ← gets id;
  let current := z_currentWriteZone s in
  let has_room :=
    z_currentZoneOpen s &&
    match ZoneManager_ZoneInfo current (z_zm s) with
    | Some zoneInfo =>
        let currentWP := ZoneManager_WritePointer current (z_zm s) in
        let remainingSectors := u64 (zi_StartLBA zoneInfo + zi_SizeSectors zoneInfo - currentWP) in
        z_sectorsPerSeg s <=? remainingSectors
    | None => false
    end in
  if has_room then mret current
  else
    modify (λ s, z_set_current (z_currentWriteZone s) false s) ;;
    zoneID ← wrap "allocating write zone: %w" (on_gc (on_zm AllocateFree));
    _ ← attempt (on_gc (with_journal (LogZoneOpen zoneID)));
    modify (z_set_current zoneID true) ;;
    mret zoneID.

(** [now] is the clock read by the write buffer. *)
Definition writeSegment (now segID : Z) (data : list byte) (startLBA : Z) : M (ZTL D J) unit :=
  zoneID ← getWriteZone;
  info ← gets (λ s, ZoneManager_ZoneInfo zoneID (z_zm s));
  match info with
  | None => throw (Errorf "zone %d not found")
  | Some zoneInfo =>
      currentWP ← gets (λ s, ZoneManager_WritePointer zoneID (z_zm s));
      let offsetInZone := u64 (currentWP - zi_StartLBA zoneInfo) in
      let newPhys := EncodePhysAddr zoneID offsetInZone in
      oldPhys ← gets (λ s, L2PTable_Get segID (z_l2p s));
      wrap "WAL log L2P update: %w"
        (on_gc (with_journal (LogL2PUpdate segID oldPhys newPhys))) ;;
      wrap "L2P set segment %d: %w" (on_gc (on_l2p (L2PTable_Set segID newPhys))) ;;
      when_ (negb (PhysAddr_IsUnmapped oldPhys)) (
        on_gc (p2l_modify (P2LMap_Delete oldPhys)) ;;
        zm_update (DecrementValidSegs (PhysAddr_ZoneID oldPhys))) ;;
      on_gc (p2l_modify (P2LMap_Set newPhys segID)) ;;
      zm_update (IncrementValidSegs zoneID) ;;
      let newWP := u64 (currentWP + len data / 512) in
      zm_update (UpdateWritePointer zoneID newWP) ;;
      wrap "write buffer add: %w" (on_wb (WriteBuffer_Add now zoneID data currentWP)) ;;
      when_ (u64 (zi_StartLBA zoneInfo + zi_SizeSectors zoneInfo) <=? newWP) (
        wrap "flush full zone %d: %w" (on_wbd (WriteBuffer_Flush zoneID)) ;;
        modify (λ s, z_set_current (z_currentWriteZone s) false s))
  end.

(** One iteration of the loop of [Write]; the accumulator is [dataOffset]. *)
Definition write_segment (now lba endLBA : Z) (data : list byte) (dataOffset segID : Z)
    : M (ZTL D J) Z :=
  sps ← gets z_sectorsPerSeg;
  let '(writeStart, writeEnd) := segment_overlap segID sps lba endLBA in
  let writeCount := i64 (i64 (writeEnd - writeStart) * 512) in
  segData ← from_option Panicked (slice_checked dataOffset (dataOffset + writeCount) data);
  wrap "writing segment %d: %w" (writeSegment now segID segData writeStart) ;;
  mret (dataOffset + writeCount).

Definition journal_commit : M (ZTL D J) unit := on_gc (with_journal GroupCommit).

Definition ZTL_Write (order : list (p2lKey * Z) → list (p2lKey * Z)) (gc_fuel : nat) (now : Z)
    (lba : Z) (data : list byte) : M (ZTL D J) unit :=
  if len data =? 0 then mret tt
  else if negb (len data mod 512 =? 0)
  then throw (Errorf "write data length %d not a multiple of sector size")
  else
    s ← gets id;
    when_ (FreeZoneCount (z_zm s) <? z_emergencyFreeZones s)
      (wrap "emergency GC: %w" (on_gc (RunEmergencyGC order gc_fuel))) ;;
    let sps := z_sectorsPerSeg s in
    let startSeg := LBAToSegmentID lba sps in
    let endLBA := u64 (lba + len data / 512) in
    let endSeg := LBAToSegmentID (u64 (endLBA - 1)) sps in
    for_each (write_segment now lba endLBA data) 0 (segment_loop startSeg endSeg) ;;
    wrap "WAL group commit: %w" journal_commit.

Definition ZTL_Flush (order : list Z → list Z) : M (ZTL D J) unit :=
  wrap "ZTL.Flush: %w" (on_wbd (FlushAll order)) ;;
  journal_commit.

Definition unmap_segment (_ : unit) (segID : Z) : M (ZTL D J) unit :=
  oldPhys ← gets (λ s, L2PTable_Get segID (z_l2p s));
  if PhysAddr_IsUnmapped oldPhys then mret tt
  else
    wrap "WAL log unmap: %w" (on_gc (with_journal (LogL2PUpdate segID oldPhys 0))) ;;
    on_gc (on_l2p (L2PTable_Set segID 0)) ;;
    on_gc (p2l_modify (P2LMap_Delete oldPhys)) ;;
    zm_update (DecrementValidSegs (PhysAddr_ZoneID oldPhys)).

Definition ZTL_Unmap (lba count : Z) : M (ZTL D J) unit :=
  sps ← gets z_sectorsPerSeg;
  let startSeg := LBAToSegmentID lba sps in
  let endLBA := u64 (lba + count) in
  let endSeg := LBAToSegmentID (u64 (endLBA - 1)) sps in
  for_each unmap_segment tt (segment_loop startSeg endSeg).

Definition ZTL_Close (order : list Z → list Z) : M (ZTL D J) unit :=
  wrap "ZTL.Close flush: %w" (on_wbd (FlushAll order)).

Definition ZTL_BlockSize s : Z := Device_BlockSize (md_dev (z_md s)).
Definition ZTL_Capacity s : Z := Device_Capacity (md_dev (z_md s)).
Definition L2PGet (segID : Z) s : Z := L2PTable_Get segID (z_l2p s).
End ztl.
