(* ===== verification/ZtlInv.v ===== *)
(** * The invariant of the translation layer and the store it implements

    [map_view] reads a logical sector through the forward map, the write buffer
    and the device.  [map_wf] says every mapped segment lies below the write
    pointer of a zone in use, no two overlap, the reverse map is the inverse of
    the forward map, and no buffer boundary cuts a segment.  Of the zones that
    were written before a restart ([OldZones]) the reverse map knows nothing, and
    the write pointer is what the device reports. *)

From S2P Require Import Bytes Zbc Backend Segment ZoneManager WriteBuffer Gc Ztl.

(** The zones written before the last restart: recovery restores the forward map
    only.  A layer over a new device has none. *)
Class OldZones := old_zone : Z → Prop.
#[export] Instance no_old_zones : OldZones | 100 := λ _, False.

Section inv.
Context {D : Type} `{ZonedDeviceSpec D} {Old : OldZones}.
Implicit Types w : WBD D.
Implicit Types t : L2PTable.

Abbreviation zones w := (zm_zones (md_zm (wd_md w))).
Abbreviation free w := (zm_freeList (md_zm (wd_md w))).
Abbreviation buffers w := (wb_buffers (wd_buf w)).

(** Segment [p] of [sps] sectors lies in the written part of a zone in use. *)
Definition placed w (sps p : Z) : Prop :=
  0 ≤ p < 2^64 ∧
  ∃ z, zones w !! Z.to_nat (PhysAddr_ZoneID p) = Some z ∧ PhysAddr_ZoneID p ∉ free w ∧
    let a := zi_StartLBA z + PhysAddr_OffsetSectors p in
    (¬ old_zone (PhysAddr_ZoneID p) → a + sps ≤ zi_WritePointer z) ∧
    a + sps ≤ zi_StartLBA z + zi_SizeSectors z ∧
    ∀ b, buffers w !! PhysAddr_ZoneID p = Some b → zb_writePointer b ≤ a ∨ a + sps ≤ zb_writePointer b.

Definition phys_start w (p : Z) : Z :=
  ZoneManager_ZoneStartLBA (PhysAddr_ZoneID p) (md_zm (wd_md w)) + PhysAddr_OffsetSectors p.

(** The sector a reader of logical address [lba] gets. *)
Definition map_view t w (sps lba : Z) : list byte :=
  let p := L2PTable_Get (lba / sps) t in
  if PhysAddr_IsUnmapped p then zero_sector
  else phys_sector w (PhysAddr_ZoneID p) (phys_start w p + lba `mod` sps).

Record map_wf t (m : P2LMap) w (sps : Z) : Prop := {
  mw_wbd : wbd_wf w;
  mw_sps : 0 < sps < 2^32;
  mw_zone i z : zones w !! i = Some z → sps ≤ zi_SizeSectors z;
  mw_l2p : l2p_wf t ∧ 0 ≤ l2p_size t ∧ l2p_size t * sps ≤ 2^54;
  mw_placed seg : 0 ≤ seg < l2p_size t → L2PTable_Get seg t ≠ 0 → placed w sps (L2PTable_Get seg t);
  mw_disjoint seg seg' : 0 ≤ seg < l2p_size t → 0 ≤ seg' < l2p_size t → seg ≠ seg' →
    L2PTable_Get seg t ≠ 0 → L2PTable_Get seg' t ≠ 0 →
    PhysAddr_ZoneID (L2PTable_Get seg t) = PhysAddr_ZoneID (L2PTable_Get seg' t) →
    PhysAddr_OffsetSectors (L2PTable_Get seg t) + sps ≤ PhysAddr_OffsetSectors (L2PTable_Get seg' t) ∨
    PhysAddr_OffsetSectors (L2PTable_Get seg' t) + sps ≤ PhysAddr_OffsetSectors (L2PTable_Get seg t);
  mw_old z : old_zone z → z ∉ free w ∧ buffers w !! z = None;
  (* the entry of address 0, zone 0 sector 0, is stale: it reads as unmapped *)
  mw_p2l k seg : ¬ old_zone k.1 → k ≠ (0, 0) ∧ m !! k = Some seg ↔
    0 ≤ seg < l2p_size t ∧ L2PTable_Get seg t ≠ 0 ∧ p2l_key (L2PTable_Get seg t) = k;
}.

(** ** Frames *)
Lemma phys_start_eq w p z :
  zones w !! Z.to_nat (PhysAddr_ZoneID p) = Some z →
  phys_start w p = zi_StartLBA z + PhysAddr_OffsetSectors p.
Proof.
  intros Hz. unfold phys_start, ZoneManager_ZoneStartLBA, zone_out_of_range.
  pose proof (PhysAddr_ZoneID_range p). pose proof (lookup_lt_Some _ _ _ Hz).
  destruct (Z.leb_spec (len (zones w)) (PhysAddr_ZoneID p)).
  - unfold len in *. lia.
  - by rw Hz.
Qed.

Lemma placed_in_zone w sps p i :
  0 ≤ i < sps → placed w sps p →
  in_zone (md_zm (wd_md w)) (PhysAddr_ZoneID p) (phys_start w p + i).
Proof.
  intros Hi (Hp & z & Hz & Hni & Ha & Hwp & _). exists z.
  rw (phys_start_eq w p z Hz). pose proof (PhysAddr_ZoneID_range p).
  pose proof (PhysAddr_OffsetSectors_range p). simpl in Ha. split_and!; [done|lia|lia|lia].
Qed.

Lemma placed_frame P w w' sps p :
  wbd_frame P w w' → (∀ z b, buffers w' !! z = Some b → buffers w !! z = Some b) →
  placed w sps p → placed w' sps p ∧ phys_start w' p = phys_start w p.
Proof.
  intros (_ & Hg & Hfree & _) Hbuf (Hp & z & Hz & Hni & Ha & Hwp & Hb).
  destruct (md_geom_lookup _ _ _ _ (eq_sym Hg) Hz) as (z' & Hz' & [= _ Hw Hst Hsz]).
  split; [|by rw (phys_start_eq w p z) // (phys_start_eq w' p z') // Hst].
  split; [done|]. exists z'. rw -Hst -Hw -Hsz. split_and!; auto.
Qed.

Lemma map_wf_frame P t m w w' sps :
  map_wf t m w sps → wbd_frame P w w' →
  (∀ z b, buffers w' !! z = Some b → buffers w !! z = Some b) → map_wf t m w' sps.
Proof.
  intros Hwf Hf Hbuf. pose proof Hf as (Hwf' & Hg & Hfree & _). split; try apply Hwf; [done| | |].
  - intros i z' Hz'. destruct (md_geom_lookup _ _ _ _ Hg Hz') as (z & Hz & [= _ _ _ ->]).
    by apply (mw_zone _ _ _ _ Hwf i).
  - intros seg Hseg Hne. eapply placed_frame; [done|done|]. by apply (mw_placed _ _ _ _ Hwf).
  - intros z Hz. destruct (mw_old _ _ _ _ Hwf z Hz) as [Hni Hb]. split; [auto|].
    apply eq_None_not_Some. intros [b Hb']. apply Hbuf in Hb'. congruence.
Qed.

Lemma map_view_frame (P : Z → Prop) t m w w' sps lba :
  map_wf t m w sps → wbd_frame P w w' →
  (∀ z b, buffers w' !! z = Some b → buffers w !! z = Some b) →
  0 ≤ lba < l2p_size t * sps → P (PhysAddr_ZoneID (L2PTable_Get (lba / sps) t)) →
  map_view t w' sps lba = map_view t w sps lba.
Proof.
  intros Hwf Hf Hbuf Hlba HP. unfold map_view. cbv zeta. 
  set (p := L2PTable_Get (lba / sps) t) in *.
  destruct (PhysAddr_IsUnmapped p) eqn:Hu; [done|].
  pose proof (mw_sps _ _ _ _ Hwf).
  assert (Hpl : placed w sps p).
  { apply (mw_placed _ _ _ _ Hwf); [split; [apply Z.div_pos; lia|apply Z.div_lt_upper_bound; lia]|].
    unfold PhysAddr_IsUnmapped in Hu. fold p. lia. }
  destruct (placed_frame P w w' sps p Hf Hbuf Hpl) as [_ ->].
  destruct Hf as (_ & _ & _ & Hsec). apply Hsec; [done|].
  apply (placed_in_zone w sps p); [|done]. apply Z.mod_pos_bound. lia.
Qed.

(** ** Appending to a zone *)

(** [w'] is [w] with [data] added at the write pointer of a zone, in its buffer
    or on the device. *)
Record appended (zoneID : Z) (data : list byte) (n : Z) (zi : ZoneInfo) w w' : Prop := {
  ap_wf : wbd_wf w';
  ap_zm : md_zm (wd_md w') =
          zm_alter_zone zoneID (zi_set_wp (zi_WritePointer zi + n)) (md_zm (wd_md w));
  ap_other z : z ≠ zoneID → buffers w' !! z = buffers w !! z;
  ap_here b : buffers w' !! zoneID = Some b →
    zb_writePointer b ≤ zi_WritePointer zi ∧
    match buffers w !! zoneID with
    | Some b0 => zb_writePointer b = zb_writePointer b0
    | None => zb_writePointer b = zi_WritePointer zi
    end;
  ap_sector z lba : in_zone (md_zm (wd_md w)) z lba →
    phys_sector w' z lba =
    if bool_decide (z = zoneID ∧ zi_WritePointer zi ≤ lba < zi_WritePointer zi + n)
    then sec data (lba - zi_WritePointer zi) else phys_sector w z lba;
}.

Section buffered.
(** The pure effect of [zm.UpdateWritePointer] and [buf.Add] in [writeSegment]. *)
Definition wbd_append (now zoneID : Z) (data : list byte) (wp n : Z) w : WBD D :=
  mkWBD (wb_added now zoneID data wp (wd_buf w))
    (mkZMD (UpdateWritePointer zoneID (wp + n) (md_zm (wd_md w))) (md_dev (wd_md w))).

Context (now zoneID : Z) (data : list byte) (n : Z) (w : WBD D) (zi : ZoneInfo).
Context (Hwf : wbd_wf w) (Hid : 0 ≤ zoneID) (Hni : zoneID ∉ free w).
Context (Hzi : zones w !! Z.to_nat zoneID = Some zi).
Context (Hn : 0 < n < 2^32) (Hlen : len data = sectorSize * n).
Context (Hlow : zi_StartLBA zi ≤ zi_WritePointer zi).
Context (Hfit : zi_WritePointer zi + n ≤ zi_StartLBA zi + zi_SizeSectors zi).

Let wp := zi_WritePointer zi.
Let w' := wbd_append now zoneID data wp n w.
Let b' := zb_added now zoneID data wp (buffers w !! zoneID).

Lemma append_zm : md_zm (wd_md w') = zm_alter_zone zoneID (zi_set_wp (wp + n)) (md_zm (wd_md w)).
Proof using All.
  unfold w', wbd_append, UpdateWritePointer, zone_out_of_range. simpl.
  pose proof (lookup_lt_Some _ _ _ Hzi).
  destruct (Z.leb_spec (len (zones w)) zoneID); [unfold len in *; lia|done].
Qed.

Lemma append_buffers : buffers w' = <[zoneID := b']> (buffers w).
Proof using All. apply wb_added_buffers. unfold sectorSize in *. lia. Qed.

(** What the zone's buffer held before. *)
Definition old_buf : zoneBuffer :=
  default {| zb_zoneID := zoneID; zb_data := []; zb_writePointer := wp; zb_lastWriteAt := 0 |}
    (buffers w !! zoneID).

Lemma old_buf_ok : ∃ k, 0 ≤ k ∧ len (zb_data old_buf) = sectorSize * k ∧
  zb_writePointer old_buf + k = wp ∧ zi_StartLBA zi ≤ zb_writePointer old_buf ∧ zb_zoneID old_buf = zoneID.
Proof using All.
  unfold old_buf. destruct (buffers w !! zoneID) as [b|] eqn:Hb; simpl.
  - destruct (wbd_buf _ Hwf _ _ Hb) as ((? & ? & k & ? & Hk & ?) & _ & _ & z & Hz & ? & Hend & ?).
    rw (zb_end_eq b k Hk) in Hend. simplify_eq. exists k. unfold wp. split_and!; try done; lia.
  - exists 0. unfold wp. split_and!; try done; lia.
Qed.

Lemma zb_end_added : zb_writePointer b' = zb_writePointer old_buf ∧ zb_end b' = wp + n.
Proof using All.
  destruct old_buf_ok as (k & Hk & Hlk & Hwk & _). split; [done|].
  rw (zb_end_eq b' (k + n)). { unfold b'. simpl. rw len_app Hlen. fold old_buf. lia. }
  unfold b'. simpl. fold old_buf. lia.
Qed.

Lemma append_wf : wbd_wf w'.
Proof using All.
  pose proof (wbd_md _ Hwf) as Hmd. destruct (md_zone _ Hmd _ _ Hzi) as (Hs & Hsz & Hcap).
  destruct (dev_geometry _ (md_dev_wf _ Hmd)). pose proof (md_zoneSize _ Hmd).
  destruct old_buf_ok as (k & Hk & Hlk & Hwk & Hsk & Hzk). destruct zb_end_added as [Hwb Heb].
  split.
  - by apply UpdateWritePointer_wf.
  - unfold w', wbd_append. simpl. rw (proj2 (wb_added_buffers _ _ _ _ _ _)).
    { unfold sectorSize in *. lia. } apply Hwf.
  - rw append_zm append_buffers. intros z b. rw lookup_insert_Some. intros [[<- <-]|[Hne Hb]].
    + split_and!; [|done|done|].
      * split; [done|]. split; [rw Hwb; nia|]. exists (k + n).
        split; [unfold wp in *; lia|]. split; [|rw Hwb; unfold wp in *; lia].
        unfold b'. simpl. rw len_app Hlen. fold old_buf. lia.
      * exists (zi_set_wp (wp + n) zi). simpl. rw list_lookup_alter_eq Hzi.
        split_and!; [done|by rw Hwb|done|done].
    + destruct (wbd_buf _ Hwf _ _ Hb) as (Hok & Hz0 & Hzni & z' & Hz' & Hr).
      split_and!; [done|done|done|]. exists z'. split; [|done]. simpl.
      rw list_lookup_alter_ne //. lia.
Qed.

Lemma append_phys_sector z lba :
  phys_sector w' z lba =
  if bool_decide (z = zoneID ∧ wp ≤ lba < wp + n) then sec data (lba - wp) else phys_sector w z lba.
Proof using All.
  destruct old_buf_ok as (k & Hk & Hlk & Hwk & Hsk & Hzk). destruct zb_end_added as [Hwb Heb].
  unfold phys_sector. rw append_buffers. destruct (decide (z = zoneID)) as [->|Hne].
  2: { rw lookup_insert_ne // bool_decide_false //. by intros [? _]. }
  rw lookup_insert_eq Heb Hwb. unfold b'. simpl. fold old_buf.
  assert (Hold : match buffers w !! zoneID with
    | Some b => if bool_decide (zb_writePointer b ≤ lba < zb_end b)
                then sec (zb_data b) (lba - zb_writePointer b) else dev_sector (md_dev (wd_md w)) lba
    | None => dev_sector (md_dev (wd_md w)) lba
    end = if bool_decide (zb_writePointer old_buf ≤ lba < wp)
          then sec (zb_data old_buf) (lba - zb_writePointer old_buf)
          else dev_sector (md_dev (wd_md w)) lba).
  { revert Hlk Hwk. unfold old_buf. destruct (buffers w !! zoneID) as [b|] eqn:Hb; simpl; intros Hlk Hwk.
    - by rw (zb_end_eq b k Hlk) Hwk.
    - rw bool_decide_false //. unfold wp. lia. }
  rw Hold. case_bool_decide; case_bool_decide; try case_bool_decide; try done; try lia.
  - rw sec_app_l; [lia| |done]. unfold sectorSize in *. lia.
  - rw (sec_app_r _ _ k); [done|lia|]. f_equal. lia.
Qed.

Lemma append_appended : appended zoneID data n zi w w'.
Proof using All.
  destruct zb_end_added as [Hwb _]. destruct old_buf_ok as (k & ? & _ & Hk & _).
  split; [apply append_wf|apply append_zm| | |].
  - intros z Hne. by rw append_buffers lookup_insert_ne.
  - intros b. rw append_buffers lookup_insert_eq. intros [= <-]. rw Hwb. unfold wp in *.
    split; [lia|]. unfold old_buf. by destruct (buffers w !! zoneID).
  - intros z lba _. apply append_phys_sector.
Qed.
End buffered.

Section remap.
Context (zoneID : Z) (data : list byte) (n : Z) (w w' : WBD D) (zi : ZoneInfo).
Context (Hwf : wbd_wf w) (Hid : 0 ≤ zoneID) (Hni : zoneID ∉ free w) (Hno : ¬ old_zone zoneID).
Context (Hzi : zones w !! Z.to_nat zoneID = Some zi).
Context (Hn : 0 < n < 2^32).
Context (Hlow : zi_StartLBA zi ≤ zi_WritePointer zi).
Context (Hfit : zi_WritePointer zi + n ≤ zi_StartLBA zi + zi_SizeSectors zi).
Context (Happ : appended zoneID data n zi w w').

Let wp := zi_WritePointer zi.

(** ** Remapping a segment to the appended data *)
Context (t : L2PTable) (m : P2LMap) (seg : Z).
Context (Hmap : map_wf t m w n) (Hseg : 0 ≤ seg < l2p_size t).

Let newPhys := EncodePhysAddr zoneID (wp - zi_StartLBA zi).
Let oldPhys := L2PTable_Get seg t.

Let t' := l2p_store seg newPhys t.
Let m' := P2LMap_Set newPhys seg (if PhysAddr_IsUnmapped oldPhys then m else P2LMap_Delete oldPhys m).

Lemma newPhys_decode :
  PhysAddr_ZoneID newPhys = zoneID ∧ PhysAddr_OffsetSectors newPhys = wp - zi_StartLBA zi.
Proof using All.
  pose proof (wbd_md _ Hwf) as Hmd. destruct (md_zone _ Hmd _ _ Hzi) as (Hs & Hsz & Hcap).
  pose proof (md_zoneSize _ Hmd). pose proof (md_count _ Hmd).
  pose proof (lookup_lt_Some _ _ _ Hzi). unfold len in *.
  apply decode_encode_small; unfold wp; lia.
Qed.

Lemma t'_Get seg' : 0 ≤ seg' →
  L2PTable_Get seg' t' = if decide (seg' = seg) then newPhys else L2PTable_Get seg' t.
Proof using All. intros. apply L2PTable_Get_store; [apply Hmap|done|done]. Qed.

Lemma append_zone z0 zid :
  zones w !! Z.to_nat zid = Some z0 → 0 ≤ zid →
  zones w' !! Z.to_nat zid = Some (if decide (zid = zoneID) then zi_set_wp (wp + n) zi else z0).
Proof using All.
  intros Hz0 H0'. rw (ap_zm _ _ _ _ _ _ Happ). simpl. case_decide; subst.
  - by rw list_lookup_alter_eq Hzi.
  - rw list_lookup_alter_ne //. lia.
Qed.

Lemma placed_append p : placed w n p → placed w' n p ∧ phys_start w' p = phys_start w p.
Proof using All.
  intros (Hp & z & Hz & Hnif & Ha & Hwp & Hb). pose proof (PhysAddr_ZoneID_range p) as Hr.
  pose proof (append_zone z (PhysAddr_ZoneID p) Hz (proj1 Hr)) as Hz'.
  destruct (decide (PhysAddr_ZoneID p = zoneID)) as [Heq|Hne].
  - assert (z = zi) as -> by congruence. split.
    + split; [done|]. exists (zi_set_wp (wp + n) zi). rw Heq in Ha Hb Hz' |- *. specialize (Ha Hno).
      split; [done|]. split; [by rw (ap_zm _ _ _ _ _ _ Happ)|]. cbn [zi_set_wp zi_StartLBA zi_WritePointer zi_SizeSectors].
      unfold wp in *. split_and!; [lia|lia|]. intros b Hb'.
      destruct (ap_here _ _ _ _ _ _ Happ b Hb') as [_ Hbw].
      destruct (buffers w !! zoneID) as [b0|]; rw Hbw; [by apply Hb|lia].
    + by rw (phys_start_eq w' p _ Hz') (phys_start_eq w p _ Hz).
  - split; [|by rw (phys_start_eq w' p _ Hz') (phys_start_eq w p _ Hz)].
    split; [done|]. exists z. split; [done|]. split; [by rw (ap_zm _ _ _ _ _ _ Happ)|].
    split; [done|]. split; [done|]. rw (ap_other _ _ _ _ _ _ Happ) //.
Qed.

Lemma placed_new : placed w' n newPhys ∧ phys_start w' newPhys = wp.
Proof using All.
  destruct newPhys_decode as [Hz Ho]. pose proof (append_zone _ _ Hzi Hid) as Hz'.
  rw decide_True // in Hz'. rw -Hz in Hz'.
  split; [|rw (phys_start_eq w' _ _ Hz') Ho; simpl; lia].
  split; [apply EncodePhysAddr_range|]. exists (zi_set_wp (wp + n) zi).
  split; [done|]. rw Hz. split; [by rw (ap_zm _ _ _ _ _ _ Happ)|]. rw Ho. cbn [zi_set_wp zi_StartLBA zi_WritePointer zi_SizeSectors]. unfold wp in *.
  split; [lia|]. split; [lia|]. intros b Hb. left. destruct (ap_here _ _ _ _ _ _ Happ b Hb). lia.
Qed.

(** An old segment of the zone ends before the appended one starts. *)
Lemma old_below seg' :
  0 ≤ seg' < l2p_size t → L2PTable_Get seg' t ≠ 0 →
  PhysAddr_ZoneID (L2PTable_Get seg' t) = zoneID →
  PhysAddr_OffsetSectors (L2PTable_Get seg' t) + n ≤ PhysAddr_OffsetSectors newPhys.
Proof using All.
  intros Hs Hne Hz. destruct (mw_placed _ _ _ _ Hmap seg' Hs Hne) as (_ & z & Hz' & _ & Ha & _).
  destruct newPhys_decode as [_ ->]. rw Hz in Hz' Ha. specialize (Ha Hno). simplify_eq. unfold wp. lia.
Qed.

(** Distinct mapped segments have distinct keys. *)
Lemma key_inj seg1 seg2 :
  0 ≤ seg1 < l2p_size t → 0 ≤ seg2 < l2p_size t →
  L2PTable_Get seg1 t ≠ 0 → L2PTable_Get seg2 t ≠ 0 →
  p2l_key (L2PTable_Get seg1 t) = p2l_key (L2PTable_Get seg2 t) → seg1 = seg2.
Proof using All.
  intros H1 H2 Hn1 Hn2 [= Hz Ho]. destruct (decide (seg1 = seg2)); [done|].
  destruct (mw_disjoint _ _ _ _ Hmap seg1 seg2); try done; lia.
Qed.

Lemma new_key_fresh seg' :
  0 ≤ seg' < l2p_size t → L2PTable_Get seg' t ≠ 0 → p2l_key (L2PTable_Get seg' t) ≠ p2l_key newPhys.
Proof using All.
  intros Hs Hne [= Hz Ho]. destruct newPhys_decode as [Hzn _].
  pose proof (old_below seg' Hs Hne ltac:(congruence)). lia.
Qed.

Lemma oldPhys_unmapped : PhysAddr_IsUnmapped oldPhys = bool_decide (oldPhys = 0).
Proof using All. unfold PhysAddr_IsUnmapped. case_bool_decide; lia. Qed.

Lemma newPhys_key : p2l_key newPhys = (0, 0) ↔ newPhys = 0.
Proof using All.
  split; [|by intros ->]. unfold p2l_key. intros [= Hz Ho].
  by rw -(encode_decode newPhys (EncodePhysAddr_range _ _)) Hz Ho.
Qed.

(** The reverse map without the entry of the old address. *)
Lemma old_p2l k seg' :
  ¬ old_zone k.1 →
  k ≠ (0, 0) ∧ (if PhysAddr_IsUnmapped oldPhys then m else P2LMap_Delete oldPhys m) !! k = Some seg'
  ↔ seg' ≠ seg ∧ k ≠ (0, 0) ∧ m !! k = Some seg'.
Proof using All.
  intros Hko. rw oldPhys_unmapped. case_bool_decide as Ho.
  - split; [|tauto]. intros Hk. split; [|done]. intros ->.
    apply (mw_p2l _ _ _ _ Hmap) in Hk; [tauto|done].
  - unfold P2LMap_Delete. rw lookup_delete_Some. split.
    + intros (Hk0 & Hne & Hk). split; [|done]. intros ->.
      destruct (proj1 (mw_p2l _ _ _ _ Hmap k seg Hko)) as (_ & _ & Hkk); [done|]. done.
    + intros (Hne & Hk0 & Hk). split_and!; [done| |done]. intros <-. apply Hne.
      destruct (proj1 (mw_p2l _ _ _ _ Hmap (p2l_key oldPhys) seg' Hko)) as (? & ? & ?); [done|].
      by apply key_inj.
Qed.

Lemma commit_p2l k seg' :
  ¬ old_zone k.1 →
  k ≠ (0, 0) ∧ m' !! k = Some seg' ↔
  0 ≤ seg' < l2p_size t' ∧ L2PTable_Get seg' t' ≠ 0 ∧ p2l_key (L2PTable_Get seg' t') = k.
Proof using All.
  intros Hko. change (l2p_size t') with (l2p_size t). unfold m', P2LMap_Set. rw lookup_insert_Some. split.
  - intros (Hk0 & [[<- <-]|[Hne Hk]]).
    + rw t'_Get; [lia|]. rw decide_True //. split_and!; try done; try lia. by rw -newPhys_key.
    + destruct (proj1 (old_p2l k seg' Hko)) as (Hns & _ & Hk'); [done|].
      destruct (proj1 (mw_p2l _ _ _ _ Hmap k seg' Hko)) as (? & ? & ?); [done|].
      rw t'_Get; [lia|]. by rw decide_False.
  - intros [Hs Hget]. rw t'_Get in Hget; [lia|]. destruct Hget as [Hne Hk].
    case_decide as Heq.
    + subst. split; [by rw newPhys_key|by left].
    + destruct (proj2 (mw_p2l _ _ _ _ Hmap k seg' Hko)) as [Hk0 Hm]; [done|].
      split; [done|right]. split; [|by apply old_p2l]. subst k. intros Hx.
      by apply (new_key_fresh seg').
Qed.

Lemma commit_wf : map_wf t' m' w' n.
Proof using All.
  split.
  - apply Happ.
  - apply Hmap.
  - intros i z. rw (ap_zm _ _ _ _ _ _ Happ) /= list_lookup_alter. case_decide as Hi; [|by apply (mw_zone _ _ _ _ Hmap)].
    subst i. rw Hzi. intros [= <-]. by apply (mw_zone _ _ _ _ Hmap _ _ Hzi).
  - split; [apply l2p_store_wf|]; apply Hmap.
  - intros s' Hs. change (l2p_size t') with (l2p_size t) in Hs.
    rw t'_Get; [lia|]. case_decide; intros; [apply placed_new|].
    apply placed_append. by apply (mw_placed _ _ _ _ Hmap).
  - intros s1 s2 H1 H2 Hne. change (l2p_size t') with (l2p_size t) in *.
    rw !t'_Get; [lia|lia|]. destruct newPhys_decode as [Hz _].
    repeat case_decide; intros Hn1 Hn2 Heq; try congruence.
    + right. apply old_below; [done|done|congruence].
    + left. apply old_below; [done|done|congruence].
    + by apply (mw_disjoint _ _ _ _ Hmap).
  - intros z Hz. destruct (mw_old _ _ _ _ Hmap z Hz) as [Hf Hb].
    split; [by rw (ap_zm _ _ _ _ _ _ Happ)|]. rw (ap_other _ _ _ _ _ _ Happ) //. by intros ->.
  - apply commit_p2l.
Qed.

Lemma commit_view lba :
  0 ≤ lba < l2p_size t * n →
  map_view t' w' n lba =
  if decide (lba / n = seg)
  then if PhysAddr_IsUnmapped newPhys then zero_sector else sec data (lba `mod` n)
  else map_view t w n lba.
Proof using All.
  intros Hlba. assert (0 ≤ lba / n < l2p_size t)
    by (split; [apply Z.div_pos; lia|apply Z.div_lt_upper_bound; lia]).
  pose proof (Z.mod_pos_bound lba n ltac:(lia)) as Hmod.
  unfold map_view. rw t'_Get; [lia|]. case_decide as Hs.
  - destruct (PhysAddr_IsUnmapped newPhys); [done|].
    destruct newPhys_decode as [Hz _]. destruct placed_new as [_ ->].
    unfold wp in *. rw (ap_sector _ _ _ _ _ _ Happ) Hz; [exists zi; split_and!; [done|done|lia..]|].
    rw bool_decide_true; [split; [done|lia]|]. f_equal. lia.
  - set (p := L2PTable_Get (lba / n) t) in *.
    destruct (PhysAddr_IsUnmapped p) eqn:Hu; [done|].
    assert (Hne : L2PTable_Get (lba / n) t ≠ 0) by (unfold PhysAddr_IsUnmapped in Hu; fold p; lia).
    pose proof (mw_placed _ _ _ _ Hmap _ H1 Hne) as Hpl. fold p in Hpl.
    destruct (placed_append p Hpl) as [_ ->].
    rw (ap_sector _ _ _ _ _ _ Happ); [by apply (placed_in_zone w n p)|]. rw bool_decide_false //.
    intros [Hz Hin]. pose proof (old_below _ H1 Hne Hz) as Hb. fold p in Hb.
    destruct newPhys_decode as [_ Ho]. rw Ho in Hb.
    destruct Hpl as (_ & z & Hz' & _). rw (phys_start_eq w p z Hz') in Hin.
    rw Hz in Hz'. simplify_eq. lia.
Qed.
End remap.
End inv.

Section unmap.
Context {D : Type} `{ZonedDeviceSpec D} {Old : OldZones}.
Context (t : L2PTable) (m : P2LMap) (w : WBD D) (sps seg : Z).
Context (Hmap : map_wf t m w sps) (Hseg : 0 ≤ seg < l2p_size t) (Hold : L2PTable_Get seg t ≠ 0).

Let t' := l2p_store seg 0 t.
Let m' := P2LMap_Delete (L2PTable_Get seg t) m.

Lemma unmap_Get seg' : 0 ≤ seg' →
  L2PTable_Get seg' t' = if decide (seg' = seg) then 0 else L2PTable_Get seg' t.
Proof using All. intros. apply L2PTable_Get_store; [apply Hmap|done|done]. Qed.

Lemma unmap_mapped seg' : 0 ≤ seg' →
  L2PTable_Get seg' t' ≠ 0 → seg' ≠ seg ∧ L2PTable_Get seg' t' = L2PTable_Get seg' t.
Proof using All. intros Hs. rw unmap_Get //. by case_decide. Qed.

Lemma unmap_wf : map_wf t' m' w sps.
Proof using All.
  split; try apply Hmap.
  - split; [apply l2p_store_wf|]; apply Hmap.
  - intros s' Hs Hne. destruct (unmap_mapped s') as [_ Heq]; [lia|done|].
    rw Heq in Hne |- *. by apply (mw_placed _ _ _ _ Hmap).
  - intros s1 s2 H1 H2 Hne Hn1 Hn2.
    destruct (unmap_mapped s1) as [_ Heq1]; [lia|done|].
    destruct (unmap_mapped s2) as [_ Heq2]; [lia|done|].
    rw Heq1 Heq2 in Hn1 Hn2 |- *. by apply (mw_disjoint _ _ _ _ Hmap).
  - intros k s' Hko. unfold m', P2LMap_Delete. change (l2p_size t') with (l2p_size t).
    rw lookup_delete_Some. split.
    + intros (Hk0 & Hne & Hk). destruct (proj1 (mw_p2l _ _ _ _ Hmap k s' Hko)) as (? & ? & <-); [done|].
      rw unmap_Get; [lia|]. rw decide_False //. by intros ->.
    + intros (Hs & Hne & Hk). destruct (unmap_mapped s') as [Hns Heq]; [lia|done|].
      rw Heq in Hne Hk. destruct (proj2 (mw_p2l _ _ _ _ Hmap k s' Hko)) as [Hk0 Hm]; [done|].
      split_and!; [done| |done]. subst k. intros [= Hz Ho].
      pose proof (mw_sps _ _ _ _ Hmap).
      destruct (mw_disjoint _ _ _ _ Hmap s' seg); try done; lia.
Qed.

Lemma unmap_view lba :
  0 ≤ lba < l2p_size t * sps →
  map_view t' w sps lba = if decide (lba / sps = seg) then zero_sector else map_view t w sps lba.
Proof using All.
  intros Hlba. unfold map_view. pose proof (mw_sps _ _ _ _ Hmap). rw unmap_Get.
  { apply Z.div_pos; lia. } by case_decide.
Qed.
End unmap.
