(* ===== verification/ZtlSpec.v ===== *)
(** * The translation layer implements a flat store of sectors

    [ztl_sector] is the store; each operation of ztl.go is shown to read or
    update it as its callers expect, on every outcome. *)

From S2P Require Import Bytes Float64 Config Zbc Backend Segment Emulator ZoneManager WriteBuffer Gc Ztl ZtlInv.

Section spec.
Context {D J : Type} `{ZonedDeviceSpec D} `{JournalSpec J} {Old : OldZones}.
Implicit Types s : ZTL D J.
Implicit Types g : GCEngine D J.

Definition journal_ok (oj : option J) : Prop := match oj with Some j => jr_wf j | None => True end.

(** The zone that takes writes is in use and its write pointer in range. *)
Definition current_ok (zm : ZoneManager) (cur : Z) : Prop :=
  ∃ z, zm_zones zm !! Z.to_nat cur = Some z ∧ 0 ≤ cur ∧ cur ∉ zm_freeList zm ∧
    zi_StartLBA z ≤ zi_WritePointer z ≤ zi_StartLBA z + zi_SizeSectors z.

Record ztl_wf s : Prop := {
  zw_map : map_wf (z_l2p s) (z_p2l s) (z_wbd s) (z_sectorsPerSeg s);
  zw_current : z_currentZoneOpen s = true → current_ok (z_zm s) (z_currentWriteZone s);
  zw_current_new : z_currentZoneOpen s = true → ¬ old_zone (z_currentWriteZone s);
  zw_journal : journal_ok (gc_journal (z_gc s));
  zw_gc_sps : gc_sectorsPerSeg (z_gc s) = z_sectorsPerSeg s;
}.

(** The flat store: its size in sectors and its contents. *)
Definition ztl_size s : Z := l2p_size (z_l2p s) * z_sectorsPerSeg s.
Definition ztl_sector s (lba : Z) : list byte :=
  map_view (z_l2p s) (z_wbd s) (z_sectorsPerSeg s) lba.

(** Zone 0 does not take writes: its first sector would encode as "unmapped". *)
Definition zone0_unused s : Prop := z_currentZoneOpen s = true → z_currentWriteZone s ≠ 0.

(** Between [s] and [s'] zones may leave the free list; unless zone 0 did, it
    stays out of use. *)
Definition zone0_kept s s' : Prop := 0 ∉ zm_freeList (z_zm s) ∨ 0 ∈ zm_freeList (z_zm s').
Definition free_step s s' : Prop :=
  (∀ z, z ∈ zm_freeList (z_zm s') → z ∈ zm_freeList (z_zm s)) ∧
  (zone0_unused s → zone0_kept s s' → zone0_unused s').

Lemma zone0_kept_split s1 s2 s3 :
  free_step s1 s2 → free_step s2 s3 → zone0_kept s1 s3 → zone0_kept s1 s2 ∧ zone0_kept s2 s3.
Proof. unfold zone0_kept. intros [Hf1 _] [Hf2 _] [Hk|Hk]; split; auto. Qed.

Lemma free_step_trans s1 s2 s3 : free_step s1 s2 → free_step s2 s3 → free_step s1 s3.
Proof.
  intros H1' H2'. split; [intros z Hz; by apply H1', H2'|]. intros Hu Hk.
  destruct (zone0_kept_split _ _ _ H1' H2' Hk). apply H2'; [|done]. by apply H1'.
Qed.

(** [s'] shows the same store as [s]. *)
Definition ztl_same s s' : Prop :=
  ztl_wf s' ∧ z_l2p s' = z_l2p s ∧ z_sectorsPerSeg s' = z_sectorsPerSeg s ∧
  free_step s s' ∧
  ∀ lba, 0 ≤ lba < ztl_size s → ztl_sector s' lba = ztl_sector s lba.

Lemma ztl_same_refl s : ztl_wf s → ztl_same s s.
Proof. intros. by split_and!. Qed.

Lemma ztl_same_trans s1 s2 s3 : ztl_same s1 s2 → ztl_same s2 s3 → ztl_same s1 s3.
Proof.
  intros (_ & Ht & Hsps & Hr & Hv) (Hwf & Ht' & Hsps' & Hr' & Hv').
  split; [done|]. split; [congruence|]. split; [congruence|].
  split; [by eapply free_step_trans|]. intros lba Hlba. rw Hv'; [|by apply Hv]. unfold ztl_size in *. by rw Ht Hsps.
Qed.

(** ** Rules for calls on the components *)
Lemma wp_with_journal {A} (m : M J A) (Q : GCEngine D J → outcome unit → Prop) g :
  journal_ok (gc_journal g) →
  (∀ j, jr_wf j → wp m (λ j' o, jr_wf j' ∧ returns o) j) →
  (∀ oj o, journal_ok oj → returns o → Q (gc_set_journal oj g) o) →
  wp (with_journal m) Q g.
Proof.
  intros Hok Hm HQ. unfold wp, with_journal. destruct (gc_journal g) as [j|] eqn:Hj.
  - specialize (Hm j Hok) as [Hj' Hret]. destruct (m j) as [j' [a|[e| |]]]; try done; by apply HQ.
  - specialize (HQ None (Ok tt) I I). destruct g. simpl in *. subst. done.
Qed.

Ltac ztl_unfold :=
  unfold zm_update, on_gc, on_zm, on_l2p, on_wb, on_wbd, p2l_modify, stats_modify, zm_modify.
Ltac ztl_steps := ztl_unfold; wp_steps.

(** Changing only the journal. *)
Lemma ztl_same_journal s oj :
  ztl_wf s → journal_ok oj → ztl_same s (z_set_gc (gc_set_journal oj (z_gc s)) s).
Proof. intros [] Hj. split_and!; [by split|done..]. Qed.

Lemma current_ok_geom (zm zm' : ZoneManager) cur :
  zi_geom <$> zm_zones zm' = zi_geom <$> zm_zones zm →
  (∀ z, z ∈ zm_freeList zm' → z ∈ zm_freeList zm) → current_ok zm cur → current_ok zm' cur.
Proof.
  intros Hg Hf (z & Hz & H0' & Hni & Hr).
  destruct (md_geom_lookup _ _ _ _ (eq_sym Hg) Hz) as (z' & Hz' & [= _ Hw Hst Hsz]).
  exists z'. rw -Hw -Hst -Hsz. split_and!; auto; lia.
Qed.

(** Buffer, manager and device change in a way the map does not notice. *)
Lemma ztl_wf_wbd P s w :
  ztl_wf s → wbd_frame P (z_wbd s) w →
  (∀ z b, wb_buffers (wd_buf w) !! z = Some b → wb_buffers (z_buf s) !! z = Some b) →
  ztl_wf (z_set_wbd w s).
Proof.
  intros Hwf Hf Hb. destruct w as [wb md]. split; try apply Hwf.
  - by eapply map_wf_frame; [apply Hwf| |].
  - simpl. intros Ho. destruct Hf as (_ & Hg & Hfree & _).
    eapply current_ok_geom; [done|done|]. by apply Hwf.
Qed.

Lemma ztl_same_wbd s w :
  ztl_wf s → wbd_frame (λ _, True) (z_wbd s) w →
  (∀ z b, wb_buffers (wd_buf w) !! z = Some b → wb_buffers (z_buf s) !! z = Some b) →
  ztl_same s (z_set_wbd w s).
Proof.
  intros Hwf Hf Hb. split; [by eapply ztl_wf_wbd|]. split; [done|]. split; [done|].
  destruct w as [wb md]. split.
  - split; [apply Hf|done].
  - intros lba Hlba. by apply (map_view_frame (λ _, True) _ (z_p2l s) (z_wbd s)); [apply Hwf|..].
Qed.

Lemma ztl_same_md s md :
  ztl_wf s → md_same (z_md s) md →
  (∀ z, z ∈ zm_freeList (md_zm md) → z ∈ zm_freeList (z_zm s)) →
  ztl_same s (z_set_gc (gc_set_md md (z_gc s)) s).
Proof.
  intros Hwf Hmd Hf. 
  pose proof (ztl_same_wbd s (mkWBD (z_buf s) md) Hwf) as Hs.
  apply Hs; [|done]. apply (wbd_md_same _ (z_wbd s)); [apply (zw_map _ Hwf)|done|done].
Qed.

(** ** Choosing the zone to write to *)
Definition has_room s (zoneID : Z) : Prop :=
  z_currentZoneOpen s = true ∧ z_currentWriteZone s = zoneID ∧ 
  ∃ z, zm_zones (z_zm s) !! Z.to_nat zoneID = Some z ∧
    zi_WritePointer z + z_sectorsPerSeg s ≤ zi_StartLBA z + zi_SizeSectors z.

Lemma ZoneInfo_Some (zm : ZoneManager) (i : Z) z :
  0 ≤ i → ZoneManager_ZoneInfo i zm = Some z ↔ zm_zones zm !! Z.to_nat i = Some z.
Proof.
  intros Hi. unfold ZoneManager_ZoneInfo, zone_out_of_range.
  destruct (Z.leb_spec (len (zm_zones zm)) i); [|done].
  split; [done|]. intros Hz%lookup_lt_Some. unfold len in *. lia.
Qed.

Lemma WritePointer_eq (zm : ZoneManager) (i : Z) z :
  0 ≤ i → zm_zones zm !! Z.to_nat i = Some z → ZoneManager_WritePointer i zm = zi_WritePointer z.
Proof.
  intros Hi Hz. unfold ZoneManager_WritePointer, zone_out_of_range.
  pose proof (lookup_lt_Some _ _ _ Hz). rw Hz.
  destruct (Z.leb_spec (len (zm_zones zm)) i); [unfold len in *; lia|done].
Qed.

Lemma zone_bounds s i z :
  ztl_wf s → zm_zones (z_zm s) !! i = Some z →
  0 ≤ zi_StartLBA z ∧ 0 < zi_SizeSectors z < 2^32 ∧ zi_StartLBA z + zi_SizeSectors z < 2^54.
Proof.
  intros Hwf Hz. pose proof (wbd_md _ (mw_wbd _ _ _ _ (zw_map _ Hwf))) as Hmd.
  destruct (md_zone _ Hmd _ _ Hz) as (Hs & Hsz & Hcap).
  pose proof (md_zoneSize _ Hmd). destruct (dev_geometry _ (md_dev_wf _ Hmd)). nia.
Qed.

(** Making [zone] the write zone. *)
Lemma ztl_same_current s s1 (zone : Z) (open : bool) :
  ztl_same s s1 →
  (open = true → current_ok (z_zm s1) zone ∧ ¬ old_zone zone ∧ (zone0_kept s s1 → zone ≠ 0)) →
  ztl_same s (z_set_current zone open s1).
Proof.
  intros (Hwf & Ht & Hsps & Hr & Hv) Hc. split; [|split; [done|split; [done|split; [|done]]]].
  - split; try apply Hwf; intros Ho; by apply Hc.
  - split; [apply Hr|]. intros Hr0 Hk Ho. by apply Hc.
Qed.

(** A zone taken off the free list is empty and in use. *)
Lemma allocated_zone s md (zoneID : Z) :
  ztl_wf s → md_same (z_md s) md → zm_freeList (z_zm s) = zm_freeList (md_zm md) ++ [zoneID] →
  current_ok (md_zm md) zoneID ∧ ¬ old_zone zoneID ∧
  (0 ∉ zm_freeList (z_zm s) ∨ 0 ∈ zm_freeList (md_zm md) → zoneID ≠ 0) ∧
  ∃ z, zm_zones (md_zm md) !! Z.to_nat zoneID = Some z ∧
    zi_WritePointer z + z_sectorsPerSeg s ≤ zi_StartLBA z + zi_SizeSectors z.
Proof.
  intros Hwf Hmd Hfl. pose proof (wbd_md _ (mw_wbd _ _ _ _ (zw_map _ Hwf))) as Hmdw.
  assert (Hin : zoneID ∈ zm_freeList (z_zm s)) by (rw Hfl; set_solver).
  pose proof (wf_free_range _ (md_zm_wf _ Hmdw) _ Hin) as Hr.
  destruct (md_zone_lookup _ _ Hmdw Hr) as (z & Hz & _).
  destruct Hmd as (_ & [Hg _] & _).
  destruct (md_geom_lookup _ _ _ _ (eq_sym Hg) Hz) as (z' & Hz' & [= _ Hw Hst Hsz]).
  assert (Hwp : zi_WritePointer z = zi_StartLBA z).
  { apply (md_free_wp _ Hmdw (Z.to_nat zoneID)); [done|]. by rw Z2Nat.id; [lia|]. }
  destruct (zone_bounds _ _ _ Hwf Hz) as (? & ? & ?).
  pose proof (mw_zone _ _ _ _ (zw_map _ Hwf) _ _ Hz) as Hsps.
  pose proof (wf_free_NoDup _ (md_zm_wf _ Hmdw)) as Hnd. unfold z_zm in Hfl, Hin. simpl in Hnd.
  change (wd_md (z_wbd s)) with (z_md s) in Hnd. rw Hfl in Hnd.
  apply NoDup_app in Hnd as (_ & Hnd & _). split_and!.
  - exists z'. split_and!; [done|lia| |lia|lia]. intros Hx. apply (Hnd _ Hx). by left.
  - intros Ho. by destruct (mw_old _ _ _ _ (zw_map _ Hwf) _ Ho) as [[] _].
  - intros [Hr0|Hr0] ->; [done|]. apply (Hnd _ Hr0). by left.
  - exists z'. split; [done|lia].
Qed.

Lemma wp_getWriteZone (Q : ZTL D J → outcome Z → Prop) s :
  ztl_wf s →
  (∀ s' o, returns o → ztl_same s s' → match o with Ok z => has_room s' z | _ => True end → Q s' o) →
  wp getWriteZone Q s.
Proof.
  intros Hwf HQ. unfold getWriteZone. wp_steps.
  match goal with |- context [if ?b then _ else _] => destruct b eqn:Hroom end; wp_steps.
  { apply andb_true_iff in Hroom as [Hopen Hroom].
    destruct (zw_current _ Hwf Hopen) as (z & Hz & Hc0 & Hni & Hwp).
    rw (proj2 (ZoneInfo_Some _ _ z Hc0) Hz) (WritePointer_eq _ _ z Hc0 Hz) in Hroom.
    destruct (zone_bounds _ _ _ Hwf Hz) as (? & ? & ?). rw u64_small in Hroom; [lia|].
    apply HQ; [done|by apply ztl_same_refl|]. split_and!; [done|done|]. exists z. split; [done|lia]. }
  clear Hroom. set (s1 := z_set_current (z_currentWriteZone s) false s).
  assert (Hs1 : ztl_same s s1) by (apply ztl_same_current; [by apply ztl_same_refl|done]).
  ztl_steps. apply wp_AllocateFree; [apply (mw_wbd _ _ _ _ (zw_map _ Hwf))|].
  intros md o Hmd Hret Halloc. change (gc_md (z_gc s1)) with (z_md s) in *.
  assert (Hsub : ∀ z, z ∈ zm_freeList (md_zm md) → z ∈ zm_freeList (z_zm s)).
  { intros z. unfold z_zm. destruct o as [zid|]; simpl in Halloc; [|by rw Halloc].
    destruct Halloc as [-> _]. set_solver. }
  pose proof (ztl_same_trans _ _ _ Hs1 (ztl_same_md s1 md (proj1 Hs1) Hmd Hsub)) as Hs2.
  set (s2 := z_set_gc (gc_set_md md (z_gc s1)) s1) in *.
  destruct o as [zoneID|[e| |]]; try done; [|by apply HQ].
  destruct Halloc as [Hfl _].
  destruct (allocated_zone s md zoneID Hwf Hmd Hfl) as (Hcur & Hno & Hr0 & Hroom).
  wp_steps. apply wp_with_journal; [apply Hs2|intros; by apply jr_LogZoneOpen|].
  intros oj o Hoj Hret'. set (s3 := z_set_gc (gc_set_journal oj (z_gc s2)) s2).
  assert (Hs3 : ztl_same s s3).
  { eapply ztl_same_trans; [exact Hs2|]. by apply ztl_same_journal; [apply Hs2|]. }
  assert (Hfinal : Q (z_set_current zoneID true s3) (Ok zoneID)).
  { apply HQ; [done| |by split_and!]. by apply ztl_same_current. }
  destruct o as [[]|[e| |]]; try done; wp_steps; exact Hfinal.
Qed.

(** ** Writing one segment *)

(** The segment counters, and the whole effect of [writeSegment] up to the flush. *)
Definition counted (zoneID oldPhys : Z) (zm : ZoneManager) : ZoneManager :=
  IncrementValidSegs zoneID
    (if PhysAddr_IsUnmapped oldPhys then zm else DecrementValidSegs (PhysAddr_ZoneID oldPhys) zm).

Definition ztl_commit (now seg : Z) (data : list byte) (zoneID wp newPhys : Z) s : ZTL D J :=
  let oldPhys := L2PTable_Get seg (z_l2p s) in
  z_set_buf (wb_added now zoneID data wp (z_buf s))
    (z_set_gc
       (gc_set_md (mkZMD (UpdateWritePointer zoneID (wp + z_sectorsPerSeg s)
                            (counted zoneID oldPhys (z_zm s))) (md_dev (z_md s)))
          (gc_set_p2l (P2LMap_Set newPhys seg
                         (if PhysAddr_IsUnmapped oldPhys then z_p2l s
                          else P2LMap_Delete oldPhys (z_p2l s)))
             (gc_set_l2p (l2p_store seg newPhys (z_l2p s)) (z_gc s)))) s).

Lemma counted_same (md : ZMD D) zoneID oldPhys :
  md_wf md → md_same md (mkZMD (counted zoneID oldPhys (md_zm md)) (md_dev md)) ∧
  zm_freeList (counted zoneID oldPhys (md_zm md)) = zm_freeList (md_zm md).
Proof.
  intros Hwf. unfold counted. destruct (PhysAddr_IsUnmapped oldPhys).
  - split; [by apply IncrementValidSegs_same|]. unfold IncrementValidSegs. by case_match.
  - pose proof (DecrementValidSegs_same md (PhysAddr_ZoneID oldPhys) Hwf) as H1'. split.
    + eapply md_same_trans; [exact H1'|]. apply (IncrementValidSegs_same (mkZMD _ _)), H1'.
    + unfold IncrementValidSegs, DecrementValidSegs. by repeat case_match.
Qed.

Lemma list_fmap_alter_same {A B} (g : A → B) f i (l : list A) : (∀ x, g (f x) = g x) → g <$> alter f i l = g <$> l.
Proof.
  intros Hf. revert i. induction l as [|x l IH]; intros [|i]; [done|done| |]; rw !fmap_cons.
  - by rw Hf.
  - f_equal. apply IH.
Qed.

Section commit.
Context (now seg : Z) (data : list byte) (zoneID : Z) (s : ZTL D J) (zi : ZoneInfo).
Context (Hwf : ztl_wf s) (Hseg : 0 ≤ seg < l2p_size (z_l2p s)).
Context (Hlen : len data = sectorSize * z_sectorsPerSeg s).
Context (Hopen : z_currentZoneOpen s = true) (Hcur : z_currentWriteZone s = zoneID).
Context (Hzi : zm_zones (z_zm s) !! Z.to_nat zoneID = Some zi).
Context (Hroom : zi_WritePointer zi + z_sectorsPerSeg s ≤ zi_StartLBA zi + zi_SizeSectors zi).

Let wp := zi_WritePointer zi.
Let newPhys := EncodePhysAddr zoneID (wp - zi_StartLBA zi).
Let s' := ztl_commit now seg data zoneID wp newPhys s.
Let w1 : WBD D := mkWBD (z_buf s)
  (mkZMD (counted zoneID (L2PTable_Get seg (z_l2p s)) (z_zm s)) (md_dev (z_md s))).

Lemma current_zone : 0 ≤ zoneID ∧ zoneID ∉ zm_freeList (z_zm s) ∧
  zi_StartLBA zi ≤ zi_WritePointer zi.
Proof using All.
  destruct (zw_current _ Hwf Hopen) as (z & Hz & H0' & Hni & Hr). rw Hcur in Hz H0' Hni.
  simplify_eq. split_and!; [done|done|lia].
Qed.

Lemma counted_frame : wbd_frame (λ _, True) (z_wbd s) w1.
Proof using All.
  pose proof (mw_wbd _ _ _ _ (zw_map _ Hwf)) as Hw.
  destruct (counted_same (z_md s) zoneID (L2PTable_Get seg (z_l2p s)) (wbd_md _ Hw)) as [Hs Hf].
  apply (wbd_md_same _ (z_wbd s)); [done|done|]. simpl. by rw Hf.
Qed.

Lemma counted_zone : ∃ zi1, zm_zones (md_zm (wd_md w1)) !! Z.to_nat zoneID = Some zi1 ∧
  zi_geom zi1 = zi_geom zi.
Proof using All.
  destruct counted_frame as (_ & Hg & _).
  destruct (md_geom_lookup _ _ _ _ (eq_sym Hg) Hzi) as (z & Hz & Heq). by exists z.
Qed.

(** The lemmas on appending, at the counted state. *)
Lemma counted_room : ∃ zi1, zm_zones (md_zm (wd_md w1)) !! Z.to_nat zoneID = Some zi1 ∧
  zi_WritePointer zi1 = zi_WritePointer zi ∧ zi_StartLBA zi1 = zi_StartLBA zi ∧
  map_wf (z_l2p s) (z_p2l s) w1 (z_sectorsPerSeg s) ∧ zoneID ∉ zm_freeList (md_zm (wd_md w1)) ∧ ¬ old_zone zoneID ∧
  zi_StartLBA zi1 ≤ zi_WritePointer zi1 ∧
  zi_WritePointer zi1 + z_sectorsPerSeg s ≤ zi_StartLBA zi1 + zi_SizeSectors zi1 ∧
  zi_SizeSectors zi1 = zi_SizeSectors zi.
Proof using All.
  destruct current_zone as (Hid & Hni & Hlow). pose proof counted_frame as Hf.
  destruct counted_zone as (zi1 & Hz1 & [= _ Hw Hst Hsz]). exists zi1. rw Hw Hst Hsz.
  pose proof (zw_current_new _ Hwf Hopen) as Hno. rw Hcur in Hno. split_and!; try done.
  - by apply (map_wf_frame _ _ _ _ _ _ (zw_map _ Hwf) Hf).
  - intros Hx. apply Hni. destruct Hf as (_ & _ & Hfree & _). by apply Hfree.
Qed.

Lemma commit_zone : PhysAddr_ZoneID newPhys = zoneID.
Proof using All.
  destruct current_zone as (Hid & _). pose proof counted_room as (zi1 & Hz1 & Hw & Hst & Hmap1 & Hni1 & Hno & Hlow1 & Hfit1 & _).
  pose proof (mw_sps _ _ _ _ Hmap1) as Hsps.
  pose proof (append_appended now zoneID data _ w1 zi1 (mw_wbd _ _ _ _ Hmap1) Hid Hni1 Hz1 Hsps Hlen Hlow1 Hfit1) as Happ.
  destruct (newPhys_decode zoneID data _ w1 _ zi1 (mw_wbd _ _ _ _ Hmap1) Hid Hni1 Hno Hz1 Hsps
    Hlow1 Hfit1 Happ _ _ seg Hmap1 Hseg) as [Hz _]. by rw Hw Hst in Hz.
Qed.

Lemma commit_buffers : wb_buffers (z_buf s') =
  <[zoneID := zb_added now zoneID data wp (wb_buffers (z_buf s) !! zoneID)]> (wb_buffers (z_buf s)).
Proof using All.
  pose proof (mw_sps _ _ _ _ (zw_map _ Hwf)). apply wb_added_buffers. unfold sectorSize in *. lia.
Qed.

Lemma commit_sizes : zi_SizeSectors <$> zm_zones (z_zm s') = zi_SizeSectors <$> zm_zones (z_zm s).
Proof using All.
  destruct counted_frame as (_ & Hg & _). apply (f_equal (fmap (λ g : Z * Z * Z * Z, g.2))) in Hg.
  rw -!list_fmap_compose in Hg. transitivity (zi_SizeSectors <$> zm_zones (md_zm (wd_md w1))); [|exact Hg].
  change (z_zm s') with (UpdateWritePointer zoneID (wp + z_sectorsPerSeg s) (md_zm (wd_md w1))).
  unfold UpdateWritePointer. case_match; [done|]. by apply list_fmap_alter_same.
Qed.

(** What was placed stays where it is. *)
Lemma commit_placed p : placed (z_wbd s) (z_sectorsPerSeg s) p →
  placed (z_wbd s') (z_sectorsPerSeg s) p ∧ phys_start (z_wbd s') p = phys_start (z_wbd s) p.
Proof using All.
  intros Hp. destruct (placed_frame _ _ _ _ p counted_frame ltac:(done) Hp) as [Hp1 <-].
  destruct current_zone as (Hid & _). pose proof counted_room as (zi1 & Hz1 & Hw & Hst & Hmap1 & Hni1 & Hno & Hlow1 & Hfit1 & _).
  pose proof (mw_sps _ _ _ _ Hmap1) as Hsps.
  pose proof (append_appended now zoneID data _ w1 zi1 (mw_wbd _ _ _ _ Hmap1) Hid Hni1 Hz1 Hsps Hlen Hlow1 Hfit1) as Happ.
  pose proof (placed_append zoneID data _ w1 _ zi1 (mw_wbd _ _ _ _ Hmap1) Hid Hni1 Hno Hz1 Hsps
    Hlow1 Hfit1 Happ _ _ seg Hmap1 Hseg p Hp1) as Hp'. by rw Hw in Hp'.
Qed.

Lemma commit_facts :
  map_wf (z_l2p s') (z_p2l s') (z_wbd s') (z_sectorsPerSeg s) ∧
  (∀ lba, 0 ≤ lba < ztl_size s →
    ztl_sector s' lba =
    if decide (lba / z_sectorsPerSeg s = seg)
    then if PhysAddr_IsUnmapped newPhys then zero_sector else sec data (lba `mod` z_sectorsPerSeg s)
    else ztl_sector s lba) ∧
  current_ok (z_zm s') zoneID.
Proof using All.
  destruct current_zone as (Hid & Hni & Hlow). pose proof counted_frame as Hf.
  pose proof counted_room as (zi1 & Hz1 & Hw & Hst & Hmap1 & Hni1 & Hno & Hlow1 & Hfit1 & Hsz).
  pose proof (mw_sps _ _ _ _ Hmap1) as Hsps.
  pose proof (append_appended now zoneID data _ w1 zi1 (mw_wbd _ _ _ _ Hmap1) Hid Hni1 Hz1 Hsps Hlen
    Hlow1 Hfit1) as Happ.
  pose proof (commit_wf zoneID data _ w1 _ zi1 (mw_wbd _ _ _ _ Hmap1) Hid Hni1 Hno Hz1 Hsps
    Hlow1 Hfit1 Happ _ _ seg Hmap1 Hseg) as Hwf'.
  pose proof (commit_view zoneID data _ w1 _ zi1 (mw_wbd _ _ _ _ Hmap1) Hid Hni1 Hno Hz1 Hsps
    Hlow1 Hfit1 Happ _ _ seg Hmap1 Hseg) as Hview.
  pose proof (ap_zm _ _ _ _ _ _ Happ) as Hzm.
  rw Hw Hst in Hwf' Hview Hzm. split; [exact Hwf'|]. split.
  - intros lba Hlba. unfold ztl_sector. simpl z_sectorsPerSeg. 
    etransitivity; [by apply Hview|]. case_decide; [done|].
    by apply (map_view_frame (λ _, True) _ (z_p2l s) (z_wbd s)); [apply Hwf|done..].
  - change (z_zm s') with (md_zm (wd_md (wbd_append now zoneID data (zi_WritePointer zi)
      (z_sectorsPerSeg s) w1))). rw Hzm.
    exists (zi_set_wp (zi_WritePointer zi + z_sectorsPerSeg s) zi1). simpl.
    rw list_lookup_alter_eq Hz1 Hst Hsz. split_and!; [done|done|done|lia|lia].
Qed.

Lemma ztl_commit_wf : ztl_wf s'.
Proof using All.
  destruct commit_facts as (Hm & _ & Hc). split; try apply Hwf; [exact Hm|].
  intros _. simpl. by rw Hcur.
Qed.
End commit.

(** A state that differs from [s] in the contents of the store only. *)
Definition ztl_next s s' : Prop :=
  ztl_wf s' ∧ l2p_size (z_l2p s') = l2p_size (z_l2p s) ∧
  z_sectorsPerSeg s' = z_sectorsPerSeg s ∧ free_step s s'.

Lemma ztl_same_next s s' : ztl_same s s' → ztl_next s s'.
Proof. intros (? & Ht & ? & ? & _). split; [done|]. split; [by rw Ht|done]. Qed.

Lemma ztl_next_trans s1 s2 s3 : ztl_next s1 s2 → ztl_next s2 s3 → ztl_next s1 s3.
Proof.
  intros (_ & ? & ? & ?) (? & ? & ? & ?).
  split; [done|]. split; [congruence|]. split; [congruence|]. by eapply free_step_trans.
Qed.

(** Flushing a zone; a failed flush may lose what the zone's buffer held. *)
Lemma wp_ztl_flush zoneID (Q : ZTL D J → outcome unit → Prop) s :
  ztl_wf s →
  (∀ s' o, returns o → ztl_next s s' → (is_ok o → ztl_same s s') → Q s' o) →
  wp (on_wbd (WriteBuffer_Flush zoneID)) Q s.
Proof.
  intros Hwf HQ. ztl_steps. apply wp_Flush; [apply (zw_map _ Hwf)|].
  intros w o Hret Hdel Hf.
  assert (Hb : ∀ z b, wb_buffers (wd_buf w) !! z = Some b → wb_buffers (z_buf s) !! z = Some b).
  { intros z b. rw Hdel. by intros [_ ?]%lookup_delete_Some. }
  apply HQ; [done| |].
  - destruct w as [wb md]. split; [by eapply ztl_wf_wbd|]. split; [done|]. split; [done|].
    split; [apply Hf|done].
  - intros Ho. apply ztl_same_wbd; [done| |done]. eapply wbd_frame_mono, Hf. by left.
Qed.

Lemma commit_free now seg data zoneID wp newPhys s :
  ztl_wf s → free_step s (ztl_commit now seg data zoneID wp newPhys s).
Proof.
  intros Hwf. split; [|done]. unfold z_zm, z_md in *. simpl.
  assert (Hfree : ∀ zm, zm_freeList (UpdateWritePointer zoneID (wp + z_sectorsPerSeg s) zm) = zm_freeList zm)
    by (intros; unfold UpdateWritePointer; by case_match).
  rw Hfree (proj2 (counted_same (gc_md (z_gc s)) _ _ (wbd_md _ (mw_wbd _ _ _ _ (zw_map _ Hwf))))).
  done.
Qed.

(** The end of [writeSegment]: a full zone is flushed and given up. *)
Definition flush_if_full (zoneID : Z) (full : bool) : M (ZTL D J) unit :=
  when_ full (
    wrap "flush full zone %d: %w" (on_wbd (WriteBuffer_Flush zoneID)) ;;
    modify (λ s, z_set_current (z_currentWriteZone s) false s)).

Lemma wp_flush_if_full zoneID full (Q : ZTL D J → outcome unit → Prop) s :
  ztl_wf s →
  (∀ s' o, returns o → ztl_next s s' → (is_ok o → ztl_same s s') → Q s' o) →
  wp (flush_if_full zoneID full) Q s.
Proof.
  intros Hwf HQ. unfold flush_if_full. wp_step. destruct full.
  2: { apply HQ; [done|by apply ztl_same_next, ztl_same_refl|intros; by apply ztl_same_refl]. }
  wp_steps. apply wp_ztl_flush; [done|]. intros s1 o Hret Hnext Hsame.
  destruct o as [[]|[e| |]]; try done; [|by apply HQ]. cbn beta iota. wp_steps.
  assert (Hs : ztl_same s (z_set_current (z_currentWriteZone s1) false s1)).
  { apply ztl_same_current; [by apply Hsame|done]. }
  apply HQ; [done|by apply ztl_same_next|done].
Qed.

Lemma newPhys_nonzero s zoneID zi :
  ztl_wf s → zm_zones (z_zm s) !! Z.to_nat zoneID = Some zi → zoneID ≠ 0 →
  0 ≤ zoneID ∧ zi_StartLBA zi ≤ zi_WritePointer zi ≤ zi_StartLBA zi + zi_SizeSectors zi →
  EncodePhysAddr zoneID (zi_WritePointer zi - zi_StartLBA zi) ≠ 0.
Proof.
  intros Hwf Hzi Hne [Hid Hwp] Henc. destruct (zone_bounds _ _ _ Hwf Hzi) as (? & ? & ?).
  pose proof (md_count _ (wbd_md _ (mw_wbd _ _ _ _ (zw_map _ Hwf)))) as Hcount.
  pose proof (lookup_lt_Some _ _ _ Hzi) as Hlt. unfold z_zm, z_md in Hlt. unfold len in Hcount.
  simpl in Hcount. change (gc_md (z_gc s)) with (z_md s) in *.
  assert (zoneID < 2^24) by lia.
  assert (Hun : PhysAddr_IsUnmapped (EncodePhysAddr zoneID (zi_WritePointer zi - zi_StartLBA zi)) = true)
    by (by rw Henc).
  apply encode_unmapped in Hun; lia.
Qed.

(** Segment [seg] holds [data] in [s'], unless it was placed at address 0. *)
Definition seg_written s s' (seg : Z) (data : list byte) : Prop :=
  ∃ newPhys, z_l2p s' = l2p_store seg newPhys (z_l2p s) ∧
    (zone0_unused s → zone0_kept s s' → newPhys ≠ 0) ∧
    ∀ lba, 0 ≤ lba < ztl_size s → ztl_sector s' lba =
      if decide (lba / z_sectorsPerSeg s = seg)
      then if PhysAddr_IsUnmapped newPhys then zero_sector else sec data (lba `mod` z_sectorsPerSeg s)
      else ztl_sector s lba.

Lemma wp_writeSegment now seg data startLBA (Q : ZTL D J → outcome unit → Prop) s :
  ztl_wf s → 0 ≤ seg < l2p_size (z_l2p s) →
  len data = sectorSize * z_sectorsPerSeg s →
  (∀ s' o, returns o → ztl_next s s' → (is_ok o → seg_written s s' seg data) → Q s' o) →
  wp (writeSegment now seg data startLBA) Q s.
Proof.
  intros Hwf Hseg Hlen HQ. unfold writeSegment. wp_step.
  apply wp_getWriteZone; [done|]. intros s1 o Hret Hs1 Hroom.
  destruct o as [zoneID|[e| |]]; try done; cbn beta iota;
    [|by apply HQ; [done|by apply ztl_same_next|]].
  destruct Hroom as (Hopen & Hcur & zi & Hzi & Hroom).
  pose proof Hs1 as (Hwf1 & Ht1 & Hsps1 & Hfree1 & Hv1).
  destruct (zw_current _ Hwf1 Hopen) as (z & Hz & Hid & Hni & Hwp). rw Hcur in Hz Hid Hni.
  assert (z = zi) as -> by congruence. clear Hz.
  destruct (zone_bounds _ _ _ Hwf1 Hzi) as (? & ? & ?).
  wp_steps. rw (proj2 (ZoneInfo_Some _ _ zi Hid) Hzi). wp_steps.
  rw (WritePointer_eq _ _ zi Hid Hzi). ztl_steps.
  apply wp_with_journal; [apply Hwf1|intros; by apply jr_LogL2PUpdate|].
  intros oj o Hoj Hret'. pose proof (ztl_same_journal s1 oj Hwf1 Hoj) as Hs2.
  set (s2 := z_set_gc (gc_set_journal oj (z_gc s1)) s1) in *.
  pose proof (ztl_same_trans _ _ _ Hs1 Hs2) as Hs02.
  destruct o as [[]|[e| |]]; try done; [|by apply HQ; [done|by apply ztl_same_next|]].
  rw -Ht1 in Hseg. rw -Hsps1 in Hlen.
  assert (Hn : len data / 512 = z_sectorsPerSeg s1)
    by (rw Hlen; unfold sectorSize; rw Z.mul_comm Z.div_mul //).
  pose proof (mw_sps _ _ _ _ (zw_map _ Hwf1)) as Hsps.
  rw Hn !u64_small; [lia..|].
  set (newPhys := EncodePhysAddr zoneID (zi_WritePointer zi - zi_StartLBA zi)).
  ztl_steps. apply (wp_L2PTable_Set seg newPhys _ (z_l2p s1)); [lia|]. cbn beta iota.
  assert (Hadd : ∀ wb (Q' : WriteBuffer → outcome unit → Prop),
    Q' (wb_added now zoneID data (zi_WritePointer zi) wb) (Ok tt) →
    wp (WriteBuffer_Add now zoneID data (zi_WritePointer zi)) Q' wb).
  { intros wb Q' HQ'. unfold wp, wb_added in *. unfold WriteBuffer_Add in *. by case_match. }
  assert (Htail : ∀ st, st = ztl_commit now seg data zoneID (zi_WritePointer zi) newPhys s2 →
    wp (flush_if_full zoneID (zi_StartLBA zi + zi_SizeSectors zi <=?
                              zi_WritePointer zi + z_sectorsPerSeg s1)) Q st).
  { intros st ->.
    pose proof (ztl_commit_wf now seg data zoneID s2 zi (proj1 Hs2) Hseg Hlen Hopen Hcur Hzi Hroom) as Hwf3.
    destruct (commit_facts now seg data zoneID s2 zi (proj1 Hs2) Hseg Hlen Hopen Hcur Hzi Hroom)
      as (_ & Hview & _).
    apply wp_flush_if_full; [exact Hwf3|]. intros s' o Hret'' Hnext Hsame.
    assert (Hsz : l2p_size (z_l2p s2) = l2p_size (z_l2p s)) by (by rw -Ht1).
    pose proof (commit_free now seg data zoneID (zi_WritePointer zi) newPhys s2 (proj1 Hs2)) as Hfree3.
    assert (Hnext' : ztl_next s s').
    { eapply ztl_next_trans; [|exact Hnext]. split; [exact Hwf3|]. split; [exact Hsz|].
      split; [done|]. eapply free_step_trans; [apply Hs02|exact Hfree3]. }
    apply HQ; [done|done|]. intros Ho. exists newPhys.
    destruct (Hsame Ho) as (_ & Ht3 & _ & _ & Hv). split; [by rw Ht3 -Ht1|]. split.
    - intros Hu Hk. apply (newPhys_nonzero s1); [done|done| |lia]. rw -Hcur.
      apply Hfree1; [done| |done].
      destruct (zone0_kept_split s s1 s') as [? _]; try done.
      eapply free_step_trans; [apply Hs2|]. eapply free_step_trans; [exact Hfree3|apply Hnext].
    - intros lba Hlba.
      assert (Hszs : ztl_size s = ztl_size s2) by (unfold ztl_size; rw -Hsz -Hsps1; done).
      rw Hszs in Hlba. rw Hv; [exact Hlba|]. etransitivity; [by apply Hview|]. rw -Hszs in Hlba.
      change (z_sectorsPerSeg s2) with (z_sectorsPerSeg s1). rw Hsps1. case_decide; [done|].
      destruct Hs02 as (_ & _ & _ & _ & Hv2). by apply Hv2. }
  destruct (PhysAddr_IsUnmapped (L2PTable_Get seg (z_l2p s1))) eqn:Hu; cbn [negb];
    ztl_steps; apply Hadd; cbn beta iota; apply: Htail;
    unfold ztl_commit, counted; change (z_l2p s2) with (z_l2p s1); rw Hu; reflexivity.
Qed.

(** ** Writing whole segments *)

(** The segments of an aligned request, and its overlap with each of them. *)
Lemma aligned_segments (sps a k : Z) :
  0 < sps → 0 ≤ a → 0 < k → sps * (a + k) ≤ 2^54 →
  u64 (sps * a + sps * k) = sps * (a + k) ∧
  segment_loop (LBAToSegmentID (sps * a) sps) (LBAToSegmentID (u64 (sps * (a + k) - 1)) sps) = seqZ a k.
Proof.
  intros Hs Ha Hk Hmax. rw !u64_small; [nia..|]. split; [nia|].
  unfold segment_loop, LBAToSegmentID. rw (Z.mul_comm sps a) Z.div_mul; [lia|].
  replace ((sps * (a + k) - 1) / sps) with (a + k - 1); [f_equal; lia|].
  apply Z.div_unique_pos with (sps - 1); nia.
Qed.

Lemma aligned_overlap (sps a k seg : Z) :
  0 < sps → 0 ≤ a ≤ seg → seg < a + k → sps * (a + k) ≤ 2^54 →
  segment_overlap seg sps (sps * a) (sps * (a + k)) = (sps * seg, sps * (seg + 1)).
Proof.
  intros Hs Ha Hseg Hmax. unfold segment_overlap, SegmentToLBARange.
  rw !u64_small; [nia..|].
  destruct (Z.ltb_spec (seg * sps) (sps * a)), (Z.ltb_spec (sps * (a + k)) (seg * sps + sps));
    f_equal; nia.
Qed.

Lemma div_range (sps a k lba : Z) : 0 < sps → sps * a ≤ lba < sps * (a + k) ↔ a ≤ lba / sps < a + k.
Proof.
  intros Hs. pose proof (Z.div_mod lba sps ltac:(lia)). pose proof (Z.mod_pos_bound lba sps Hs). nia.
Qed.

(** The store after the first [j] segments of the write.  A segment placed at
    address 0 reads as unmapped; none is while zone 0 stays out of use. *)
Definition written s s' (data : list byte) (a j : Z) : Prop :=
  (∀ lba, 0 ≤ lba < ztl_size s →
    ztl_sector s' lba =
    if decide (a ≤ lba / z_sectorsPerSeg s < a + j)
    then if PhysAddr_IsUnmapped (L2PTable_Get (lba / z_sectorsPerSeg s) (z_l2p s')) then zero_sector
         else sec data (lba - z_sectorsPerSeg s * a)
    else ztl_sector s lba) ∧
  (zone0_unused s → zone0_kept s s' → ∀ seg, a ≤ seg < a + j → L2PTable_Get seg (z_l2p s') ≠ 0).

(** One more segment. *)
Lemma written_step s0 s s1 data a seg :
  let sps := z_sectorsPerSeg s0 in
  ztl_wf s0 → ztl_next s0 s → ztl_next s s1 → 0 ≤ a ≤ seg → seg < l2p_size (z_l2p s0) →
  sectorSize * (sps * (seg - a + 1)) ≤ len data →
  written s0 s data a (seg - a) →
  seg_written s s1 seg (slice (sectorSize * (sps * (seg - a))) (sectorSize * (sps * (seg - a + 1))) data) →
  written s0 s1 data a (seg - a + 1).
Proof.
  intros sps Hwf0 Hnext Hnext1 Ha Hseg Hlen [Hw Hz] (newPhys & Ht & Hne & Hv).
  pose proof Hnext as (Hwf & Hsz & Hsps & Hfree). pose proof Hnext1 as (_ & _ & _ & Hfree1).
  pose proof (mw_sps _ _ _ _ (zw_map _ Hwf0)) as Hspos. fold sps in Hspos, Hsps.
  assert (Hget : ∀ seg', 0 ≤ seg' → L2PTable_Get seg' (z_l2p s1) =
    if decide (seg' = seg) then newPhys else L2PTable_Get seg' (z_l2p s)).
  { intros seg' Hs'. rw Ht. apply L2PTable_Get_store; [apply Hwf|lia|done]. }
  split.
  - intros lba Hlba. fold sps. 
    assert (Hdiv : 0 ≤ lba / sps) by (apply Z.div_pos; lia).
    pose proof (Z.div_mod lba sps ltac:(lia)) as Hdm. pose proof (Z.mod_pos_bound lba sps ltac:(lia)).
    rw (Hget _ Hdiv) Hv; [unfold ztl_size in *; by rw Hsz Hsps|]. rw Hsps.
    pose proof (Hw lba Hlba) as Hwl. fold sps in Hwl.
    destruct (decide (lba / sps = seg)) as [Hs|Hs].
    + rw decide_True; [lia|]. destruct (PhysAddr_IsUnmapped newPhys); [done|]. rw sec_slice; [nia|lia|]. f_equal. nia.
    + rw Hwl. repeat case_decide; try done; lia.
  - intros Hu Hk seg' Hs'. destruct (zone0_kept_split _ _ _ Hfree Hfree1 Hk) as [Hk0 Hk1].
    rw Hget; [lia|]. case_decide; [apply Hne; [by apply Hfree|done]|apply Hz; [done|done|lia]].
Qed.

Lemma wp_write_segment now data a k seg s0 (Q : ZTL D J → outcome Z → Prop) s :
  let sps := z_sectorsPerSeg s0 in
  ztl_next s0 s → len data = sectorSize * (sps * k) →
  0 ≤ a ≤ seg → seg < a + k → a + k ≤ l2p_size (z_l2p s0) → ztl_wf s0 →
  written s0 s data a (seg - a) →
  (∀ s' o, returns o → ztl_next s0 s' →
    (is_ok o → o = Ok (sectorSize * (sps * (seg - a + 1))) ∧ written s0 s' data a (seg - a + 1)) → Q s' o) →
  wp (write_segment now (sps * a) (sps * (a + k)) data (sectorSize * (sps * (seg - a))) seg) Q s.
Proof.
  intros sps Hnext Hlen Ha Hseg Hk Hwf0 Hw HQ. pose proof Hnext as (Hwf & Hsz & Hsps & _).
  pose proof (mw_sps _ _ _ _ (zw_map _ Hwf0)) as Hspos. fold sps in Hspos.
  destruct (mw_l2p _ _ _ _ (zw_map _ Hwf0)) as (_ & _ & Hmax). fold sps in Hmax.
  unfold write_segment. wp_steps. rw Hsps. fold sps.
  rw (aligned_overlap sps a k seg); [lia|lia|lia|nia|].
  replace (sps * (seg + 1) - sps * seg) with sps by lia. unfold sectorSize in *.
  rw (i64_small sps); [lia|]. rw i64_small; [lia|].
  replace (512 * (sps * (seg - a)) + sps * 512) with (512 * (sps * (seg - a + 1))) by lia.
  wp_steps. rw slice_checked_Some; [nia|nia|]. wp_steps.
  apply wp_writeSegment; [done|lia| |].
  { rw len_slice; [nia|nia|]. rw Hsps. unfold sectorSize. fold sps. lia. }
  intros s1 o Hret Hnext1 Hview. pose proof (ztl_next_trans _ _ _ Hnext Hnext1) as Hnext01.
  destruct o as [[]|[e| |]]; try done; cbn beta iota; wp_steps; [|by apply HQ].
  apply HQ; [done|done|]. intros _. split; [done|].
  eapply (written_step s0 s s1); try done; [lia|unfold sectorSize; fold sps; nia|by apply Hview].
Qed.

(** Logging to the journal does not touch the store. *)
Lemma wp_ztl_journal {A} (m : M J A) (Q : ZTL D J → outcome unit → Prop) s :
  ztl_wf s → (∀ j, jr_wf j → wp m (λ j' o, jr_wf j' ∧ returns o) j) →
  (∀ s' o, returns o → ztl_same s s' → Q s' o) → wp (on_gc (with_journal m)) Q s.
Proof.
  intros Hwf Hm HQ. unfold on_gc. wp_step. apply wp_with_journal; [apply Hwf|done|].
  intros oj o Hoj Hret. apply HQ; [done|by apply ztl_same_journal].
Qed.

Lemma written_same s0 s s' data a j :
  ztl_next s0 s → written s0 s data a j → ztl_same s s' → written s0 s' data a j.
Proof.
  intros (_ & Hsz & Hsps & Hf) [Hw Hz] (_ & Ht & _ & Hf' & Hv). split.
  - intros lba Hlba. rw Ht -Hw //. apply Hv. unfold ztl_size in *. by rw Hsz Hsps.
  - intros Hu Hk. rw Ht. apply Hz; [done|]. by destruct (zone0_kept_split _ _ _ Hf Hf' Hk).
Qed.

Lemma wp_ZTL_Write order fuel now data a k (Q : ZTL D J → outcome unit → Prop) s :
  let sps := z_sectorsPerSeg s in
  ztl_wf s → z_emergencyFreeZones s ≤ FreeZoneCount (z_zm s) →
  0 ≤ a → 0 < k → a + k ≤ l2p_size (z_l2p s) → len data = sectorSize * (sps * k) →
  (∀ s' o, returns o → ztl_next s s' → (is_ok o → written s s' data a k) → Q s' o) →
  wp (ZTL_Write order fuel now (sps * a) data) Q s.
Proof.
  intros sps Hwf Hfree Ha Hk Hmax Hlen HQ. unfold ZTL_Write.
  pose proof (mw_sps _ _ _ _ (zw_map _ Hwf)) as Hspos. fold sps in Hspos.
  destruct (mw_l2p _ _ _ _ (zw_map _ Hwf)) as (_ & _ & Hcap). fold sps in Hcap.
  destruct (Z.eqb_spec (len data) 0); [unfold sectorSize in *; nia|].
  assert (Hn : len data = (sps * k) * 512) by (unfold sectorSize in *; lia).
  rw Hn Z.mod_mul // Z.eqb_refl Z.div_mul //. cbn [negb].
  destruct (aligned_segments sps a k) as [Hend Hloop]; [lia|lia|lia|nia|].
  wp_steps. destruct (Z.ltb_spec (FreeZoneCount (z_zm s)) (z_emergencyFreeZones s)); [lia|].
  fold sps. wp_steps. rw Hend Hloop.
  apply wp_for_each with (I := λ done s' acc, ztl_next s s' ∧
    acc = sectorSize * (sps * len done) ∧ written s s' data a (len done)).
  - split; [by apply ztl_same_next, ztl_same_refl|]. split; [unfold len; simpl; lia|].
    split; [|intros _ _ seg Hseg; unfold len in *; simpl in *; lia].
    intros lba Hlba. case_decide; [unfold len in *; simpl in *; lia|done].
  - intros done seg todo s' acc Hsplit (Hnext & -> & Hw).
    assert (Hseg : seg = a + len done ∧ len done < k).
    { assert (Hlk : seqZ a k !! length done = Some seg) by (rw Hsplit; by apply list_lookup_middle).
      apply lookup_seqZ in Hlk as [-> ?]. unfold len. lia. }
    destruct Hseg as [Hseg Hlt]. pose proof (len_nonneg done).
    replace (len done) with (seg - a) in Hw |- * by lia.
    apply wp_write_segment; try done; [lia|lia|].
    intros s2 o Hret Hnext2 Hw2. destruct o as [acc|[e| |]]; try done; [|by apply HQ].
    destruct (Hw2 I) as [[= ->] Hw3]. split; [done|].
    rw len_app. replace (len done + len [seg]) with (seg - a + 1) by (unfold len at 2; simpl; lia).
    done.
  - intros s' acc (Hnext & _ & Hw). wp_steps.
    assert (Hlk : len (seqZ a k) = k) by (unfold len; rw length_seqZ; lia). rw Hlk in Hw.
    unfold journal_commit. apply wp_ztl_journal; [apply Hnext|intros; by apply jr_GroupCommit|].
    intros s2 o Hret Hsame. pose proof (ztl_next_trans _ _ _ Hnext (ztl_same_next _ _ Hsame)).
    pose proof (written_same _ _ _ _ _ _ Hnext Hw Hsame) as Hw2.
    destruct o as [[]|[e| |]]; try done; by apply HQ.
Qed.

(** ** Flushing *)
Lemma wp_ztl_flush_all order (Q : ZTL D J → outcome unit → Prop) s :
  ztl_wf s → (∀ l, order l ≡ₚ l) →
  (∀ s' o, returns o → ztl_next s s' → wb_buffers (z_buf s') = ∅ → (is_ok o → ztl_same s s') → Q s' o) →
  wp (on_wbd (FlushAll order)) Q s.
Proof.
  intros Hwf Horder HQ. ztl_steps. apply wp_FlushAll; [apply (zw_map _ Hwf)|done|].
  intros w o Hret Hempty Hf.
  assert (Hb : ∀ z b, wb_buffers (wd_buf w) !! z = Some b → wb_buffers (z_buf s) !! z = Some b)
    by (intros z b; by rw Hempty).
  assert (Hwf' : ztl_wf (z_set_wbd w s)) by by eapply ztl_wf_wbd.
  destruct w as [wb md]. apply HQ; [done| |done|].
  - split; [done|]. split; [done|]. split; [done|]. split; [apply Hf|done].
  - intros Ho. apply ztl_same_wbd; [done| |done]. eapply wbd_frame_mono, Hf. by left.
Qed.

Lemma wp_ZTL_Flush order (Q : ZTL D J → outcome unit → Prop) s :
  ztl_wf s → (∀ l, order l ≡ₚ l) →
  (∀ s' o, returns o → ztl_next s s' → wb_buffers (z_buf s') = ∅ → (is_ok o → ztl_same s s') → Q s' o) →
  wp (ZTL_Flush order) Q s.
Proof.
  intros Hwf Horder HQ. unfold ZTL_Flush. wp_steps. apply wp_ztl_flush_all; [done|done|].
  intros s1 o Hret Hnext Hempty Hsame. destruct o as [[]|[e| |]]; try done; cbn beta iota;
    [|by apply HQ].
  unfold journal_commit, on_gc. wp_step. apply wp_with_journal; [apply Hnext|intros; by apply jr_GroupCommit|].
  intros oj o Hoj Hret2. pose proof (ztl_same_journal s1 oj (proj1 Hnext) Hoj) as Hs.
  apply HQ; [done| |done|].
  - by eapply ztl_next_trans, ztl_same_next.
  - intros _. by eapply ztl_same_trans; [apply Hsame|].
Qed.

(** ** Reading *)

(** The state of [Read]'s loop before segment [seg]: the result holds the
    sectors below [read_pos] and zeros from there on. *)
Definition read_pos (sps lba count seg : Z) : Z := Z.max lba (Z.min (lba + count) (sps * seg)).
Definition read_inv s (lba count seg : Z) s' (acc : list byte * Z) : Prop :=
  ztl_same s s' ∧ len acc.1 = sectorSize * count ∧
  acc.2 = sectorSize * (read_pos (z_sectorsPerSeg s) lba count seg - lba) ∧
  ∀ i, 0 ≤ i < count → sec acc.1 i =
    if decide (lba + i < read_pos (z_sectorsPerSeg s) lba count seg)
    then ztl_sector s (lba + i) else zero_sector.

(** A run of [c] sectors inside one mapped segment, found in the buffer or on
    the device. *)
Lemma lookup_run s p j c :
  ztl_wf s → placed (z_wbd s) (z_sectorsPerSeg s) p → 0 ≤ j → 0 < c → j + c ≤ z_sectorsPerSeg s →
  let lba := phys_start (z_wbd s) p + j in
  match buf_hit (z_buf s) (PhysAddr_ZoneID p) lba c with
  | Some data => len data = sectorSize * c ∧
                 ∀ i, 0 ≤ i < c → sec data i = phys_sector (z_wbd s) (PhysAddr_ZoneID p) (lba + i)
  | None => ∀ i, 0 ≤ i < c → 
      phys_sector (z_wbd s) (PhysAddr_ZoneID p) (lba + i) = dev_sector (md_dev (z_md s)) (lba + i)
  end.
Proof.
  intros Hwf Hpl Hj Hc Hjc lba. pose proof (mw_wbd _ _ _ _ (zw_map _ Hwf)) as Hw.
  destruct Hpl as (_ & z & Hz & _ & Ha & Hwp & Hb).
  assert (Hlba : lba = zi_StartLBA z + PhysAddr_OffsetSectors p + j)
    by (unfold lba; by rw (phys_start_eq _ _ _ Hz)).
  unfold phys_sector, buf_hit. change (wb_buffers (wd_buf (z_wbd s))) with (wb_buffers (z_buf s)) in *.
  destruct (wb_buffers (z_buf s) !! PhysAddr_ZoneID p) as [b|] eqn:Hbuf; [|done].
  specialize (Hb b eq_refl). simpl.
  assert (Hno : ¬ old_zone (PhysAddr_ZoneID p)).
  { intros Ho. destruct (mw_old _ _ _ _ (zw_map _ Hwf) _ Ho) as [_ Hn]. by rw Hbuf in Hn. }
  specialize (Ha Hno).
  destruct (wbd_buf _ Hw _ _ Hbuf) as ((_ & Hw0 & n & Hn & Hlen & _) & _ & _ & z' & Hz' & _ & Hend & _).
  assert (z' = z) as -> by congruence. pose proof (zb_end_eq b n Hlen) as Hbe.
  case_bool_decide as Hcov.
  - split; [rw len_slice; unfold sectorSize in *; lia|]. intros i Hi.
    rw bool_decide_true; [lia|]. rw sec_slice; [lia|lia|]. f_equal. lia.
  - intros i Hi. rw bool_decide_false //. lia.
Qed.

Lemma wp_ztl_dev_read s s1 lba c (Q : ZTL D J → outcome (list byte) → Prop) :
  ztl_same s s1 → 0 ≤ lba → 0 < c < 2^32 → lba + c ≤ Device_Capacity (md_dev (z_md s1)) →
  (∀ s' o, returns o → ztl_same s s' →
    (∀ data, o = Ok data → len data = sectorSize * c ∧
      ∀ i, 0 ≤ i < c → sec data i = dev_sector (md_dev (z_md s1)) (lba + i)) →
    (ReliableDevice D → is_ok o) → Q s' o) →
  wp (on_gc (on_zm (on_device (ReadSectors lba c)))) Q s1.
Proof.
  intros Hs Hlba Hc Hcap HQ. pose proof Hs as (Hwf & _). unfold on_gc, on_zm, on_device. wp_steps.
  pose proof (wbd_md _ (mw_wbd _ _ _ _ (zw_map _ Hwf)) : md_wf (z_md s1)) as Hmd.
  pose proof (dev_read _ lba c (md_dev_wf _ Hmd) Hlba Hc Hcap) as Hread.
  assert (Hrel : ReliableDevice D → wp (ReadSectors lba c) (λ d' o, is_ok o) (md_dev (z_md s1))).
  { intros Hr. by apply (Hr _ lba c (md_dev_wf _ Hmd) Hlba Hc Hcap). }
  unfold wp in *. change (gc_md (z_gc s1)) with (z_md s1).
  destruct (ReadSectors lba c (md_dev (z_md s1))) as [d' o]. simpl in *.
  destruct Hread as (Hret & Hd & Hdata). apply HQ; [done| |done|done].
  eapply ztl_same_trans; [exact Hs|]. apply ztl_same_md; [done|by apply md_same_dev|done].
Qed.

Lemma overlap_eq (sps lba count seg : Z) :
  0 < sps → 0 ≤ lba → 0 < count → lba + count ≤ 2^54 → 0 ≤ seg → sps * (seg + 1) ≤ 2^54 →
  lba / sps ≤ seg ≤ (lba + count - 1) / sps →
  let start := read_pos sps lba count seg in
  let end_ := read_pos sps lba count (seg + 1) in
  segment_overlap seg sps lba (u64 (lba + count)) = (start, end_) ∧
  (SegmentToLBARange seg sps).1 = sps * seg ∧
  sps * seg ≤ start ∧ start < end_ ∧ end_ ≤ sps * (seg + 1) ∧ lba ≤ start ∧ end_ ≤ lba + count.
Proof.
  intros Hs Hl Hc Hend Hseg Hmax Hr start end_. unfold start, end_, read_pos.
  pose proof (Z.div_mod lba sps ltac:(lia)). pose proof (Z.mod_pos_bound lba sps Hs).
  pose proof (Z.div_mod (lba + count - 1) sps ltac:(lia)).
  pose proof (Z.mod_pos_bound (lba + count - 1) sps Hs).
  assert (lba < sps * (seg + 1)) by nia. assert (sps * seg ≤ lba + count - 1) by nia.
  unfold segment_overlap, SegmentToLBARange. rw !u64_small; [nia..|]. simpl.
  rw (Z.mul_comm seg sps). rw Z.mul_add_distr_l Z.mul_1_r in H3 Hmax |- *.
  destruct (Z.ltb_spec (sps * seg) lba), (Z.ltb_spec (lba + count) (sps * seg + sps));
    split_and!; try lia; f_equal; lia.
Qed.

(** Adding the sectors of the next segment to the result. *)
Lemma read_extend s lba count seg s1 s2 result off data :
  let start := read_pos (z_sectorsPerSeg s) lba count seg in
  let end_ := read_pos (z_sectorsPerSeg s) lba count (seg + 1) in
  read_inv s lba count seg s1 (result, off) → ztl_same s s2 →
  lba ≤ start → start < end_ → end_ ≤ lba + count →
  len data = sectorSize * (end_ - start) →
  (∀ i, 0 ≤ i < end_ - start → sec data i = ztl_sector s (start + i)) →
  ∃ r, copy_checked off data result = Some r ∧ 
       read_inv s lba count (seg + 1) s2 (r, off + len data).
Proof.
  intros start end_ (_ & Hlen & Hoff & Hsec) Hs2 H1' H2' H3' Hdl Hds. simpl in *. fold start in Hoff.
  assert (Hb : 0 ≤ off ≤ len result) by (rw Hoff Hlen; unfold sectorSize; lia).
  exists (copy_at off data result). unfold copy_checked. rw bool_decide_true //. split; [done|].
  split; [done|]. simpl. split; [by rw len_copy_at|]. split.
  { rw Hdl Hoff. fold end_. unfold sectorSize. lia. }
  intros i Hi. rw Hoff (sec_copy_at _ (end_ - start)); [lia|lia|done|unfold sectorSize in *; lia|].
  fold end_. case_decide as Hd.
  - rw decide_True; [lia|]. rw Hds; [lia|]. f_equal. lia.
  - rw Hsec //. fold start. repeat case_decide; try done; lia.
Qed.

(** Skipping an unmapped segment: the result holds zeros there already. *)
Lemma read_skip s lba count seg s1 result off :
  let start := read_pos (z_sectorsPerSeg s) lba count seg in
  let end_ := read_pos (z_sectorsPerSeg s) lba count (seg + 1) in
  read_inv s lba count seg s1 (result, off) → 
  lba ≤ start → start < end_ → end_ ≤ lba + count →
  (∀ i, 0 ≤ i < end_ - start → ztl_sector s (start + i) = zero_sector) →
  read_inv s lba count (seg + 1) s1 (result, off + sectorSize * (end_ - start)).
Proof.
  intros start end_ (Hs & Hlen & Hoff & Hsec) H1' H2' H3' Hz. simpl in *. fold start in Hoff, Hsec.
  split; [done|]. simpl. split; [done|]. fold end_. split; [rw Hoff; unfold sectorSize; lia|].
  intros i Hi. rw Hsec //. repeat case_decide; try done; try lia.
  replace (lba + i) with (start + (lba + i - start)) by lia. rw Hz //. lia.
Qed.

(** A sector of segment [seg], through the map. *)
Lemma ztl_sector_seg s (seg l : Z) :
  0 < z_sectorsPerSeg s → z_sectorsPerSeg s * seg ≤ l < z_sectorsPerSeg s * (seg + 1) →
  ztl_sector s l =
  let p := L2PTable_Get seg (z_l2p s) in
  if PhysAddr_IsUnmapped p then zero_sector
  else phys_sector (z_wbd s) (PhysAddr_ZoneID p) (phys_start (z_wbd s) p + (l - z_sectorsPerSeg s * seg)).
Proof.
  intros Hs Hl. unfold ztl_sector, map_view. 
  assert (Hdiv : l / z_sectorsPerSeg s = seg).
  { symmetry. apply Z.div_unique_pos with (l - z_sectorsPerSeg s * seg); lia. }
  rw Hdiv. pose proof (Z.div_mod l (z_sectorsPerSeg s) ltac:(lia)) as Hm. rw Hdiv in Hm.
  replace (l `mod` z_sectorsPerSeg s) with (l - z_sectorsPerSeg s * seg) by lia. done.
Qed.

Lemma placed_bounds s p :
  ztl_wf s → placed (z_wbd s) (z_sectorsPerSeg s) p →
  ∃ zi, zm_zones (z_zm s) !! Z.to_nat (PhysAddr_ZoneID p) = Some zi ∧
    phys_start (z_wbd s) p = zi_StartLBA zi + PhysAddr_OffsetSectors p ∧
    0 ≤ phys_start (z_wbd s) p ∧
    phys_start (z_wbd s) p + z_sectorsPerSeg s ≤ Device_Capacity (md_dev (z_md s)) ∧
    phys_start (z_wbd s) p + z_sectorsPerSeg s < 2^54.
Proof.
  intros Hwf (_ & z & Hz & _ & Ha & Hwp & _). exists z. split; [done|].
  rw (phys_start_eq _ _ _ Hz). split; [done|].
  destruct (zone_bounds s _ z Hwf Hz) as (? & ? & ?).
  pose proof (PhysAddr_OffsetSectors_range p) as [? _].
  pose proof (wbd_md _ (mw_wbd _ _ _ _ (zw_map _ Hwf))) as Hmd.
  destruct (md_zone _ Hmd _ _ Hz) as (_ & _ & Hcap).
  change (md_dev (wd_md (z_wbd s))) with (md_dev (z_md s)) in Hcap. split_and!; lia.
Qed.

Lemma wp_read_segment s lba count seg s1 acc (Q : ZTL D J → outcome (list byte * Z) → Prop) :
  ztl_wf s → 0 ≤ lba → 0 < count < 2^32 → lba + count ≤ ztl_size s →
  lba / z_sectorsPerSeg s ≤ seg ≤ (lba + count - 1) / z_sectorsPerSeg s →
  read_inv s lba count seg s1 acc →
  (∀ s' o, returns o → ztl_same s s' →
    (∀ acc', o = Ok acc' → read_inv s lba count (seg + 1) s' acc') →
    (ReliableDevice D → is_ok o) → Q s' o) →
  wp (read_segment lba (u64 (lba + count)) acc seg) Q s1.
Proof.
  intros Hwf Hlba Hcount Hsize Hr Hinv HQ. destruct acc as [result off].
  pose proof Hinv as ((Hwf1 & Ht1 & Hsps1 & _ & Hv1) & _ & Hoff & _). simpl in Hoff.
  pose proof (mw_sps _ _ _ _ (zw_map _ Hwf)) as Hsps.
  destruct (mw_l2p _ _ _ _ (zw_map _ Hwf)) as (_ & _ & Hmax). unfold ztl_size in *.
  set (sps := z_sectorsPerSeg s) in *.
  assert (Hseg : 0 ≤ seg < l2p_size (z_l2p s)).
  { split; [assert (0 ≤ lba / sps) by (apply Z.div_pos; lia); lia|].
    assert ((lba + count - 1) / sps < l2p_size (z_l2p s)) by (apply Z.div_lt_upper_bound; lia). lia. }
  destruct (overlap_eq sps lba count seg) as (Hov & Hfst & B1 & B2 & B3 & B4 & B5);
    [lia|lia|lia|lia|lia|nia|done|].
  set (start := read_pos sps lba count seg) in *. set (end_ := read_pos sps lba count (seg + 1)) in *.
  unfold read_segment. wp_steps. rw Hsps1 Hfst Hov (u32_small (end_ - start)); [lia|].
  wp_steps. rw Ht1.
  assert (Hsect : ∀ i, 0 ≤ i < end_ - start → ztl_sector s (start + i) =
    let p := L2PTable_Get seg (z_l2p s) in
    if PhysAddr_IsUnmapped p then zero_sector
    else phys_sector (z_wbd s1) (PhysAddr_ZoneID p) (phys_start (z_wbd s1) p + (start - sps * seg) + i)).
  { intros i Hi. rw -Hv1; [unfold ztl_size; fold sps; nia|].
    rw (ztl_sector_seg s1 seg); [by rw Hsps1; lia|rw Hsps1; lia|]. rw Ht1 Hsps1.
    cbv zeta. case_match; [done|]. f_equal. lia. }
  assert (Hdone : ∀ s2 data, ztl_same s s2 → len data = sectorSize * (end_ - start) →
    (∀ i, 0 ≤ i < end_ - start → sec data i = ztl_sector s (start + i)) →
    wp (result' ← from_option Panicked (copy_checked off data result); mret (result', off + len data)) Q s2).
  { intros s2 data Hs2 Hdl Hds.
    destruct (read_extend s lba count seg s1 s2 result off data Hinv Hs2 B4 B2 B5 Hdl Hds)
      as (r & Hcopy & Hinv2).
    wp_steps. rw Hcopy. wp_steps. apply HQ; [done|done| |done]. by intros acc' [= <-]. }
  destruct (PhysAddr_IsUnmapped (L2PTable_Get seg (z_l2p s))) eqn:Hu.
  { wp_steps. apply HQ; [done|apply Hinv| |done]. intros acc' [= <-].
    replace ((end_ - start) * 512) with (sectorSize * (end_ - start)) by (unfold sectorSize; lia).
    eapply read_skip; [exact Hinv|done|done|done|].
    intros i Hi. rw (Hsect i Hi). cbv zeta. by rw Hu. }
  assert (Hpl : placed (z_wbd s1) sps (L2PTable_Get seg (z_l2p s))).
  { rw -Ht1 -Hsps1. apply (mw_placed _ _ _ _ (zw_map _ Hwf1)); rw Ht1; [done|].
    unfold PhysAddr_IsUnmapped in Hu. lia. }
  set (p := L2PTable_Get seg (z_l2p s)) in *. rw -Hsps1 in Hpl.
  destruct (placed_bounds s1 p Hwf1 Hpl) as (zi & Hzi & Hps & Hp0 & Hpcap & Hpmax).
  rw Hsps1 in Hpcap Hpmax. wp_steps.
  rw (proj2 (ZoneInfo_Some _ _ zi (proj1 (PhysAddr_ZoneID_range p))) Hzi). wp_steps.
  rw -Hps !u64_small; [lia..|]. set (j := start - sps * seg) in *.
  pose proof (lookup_run s1 p j (end_ - start) Hwf1 Hpl) as Hrun. cbv zeta in Hrun.
  unfold on_wb. wp_steps. pose proof (mw_wbd _ _ _ _ (zw_map _ Hwf1)) as Hw1.
  eapply wp_of_eq; [apply WriteBuffer_Lookup_eq; [apply (wbd_sectorSize _ Hw1)|lia|lia|lia|]|].
  { intros b Hb. by destruct (wbd_buf _ Hw1 _ _ Hb). }
  cbn beta iota. rw Hsps1 in Hrun. specialize (Hrun ltac:(lia) ltac:(lia) ltac:(lia)).
  assert (Hbuf : z_set_buf (z_buf s1) s1 = s1) by by destruct s1.
  rw Hbuf. destruct (buf_hit _ _ _ _) as [data|].
  - destruct Hrun as [Hdl Hds]. apply wp_bind, wp_ret, Hdone; [apply Hinv|done|].
    intros i Hi. rw (Hsect i Hi) (Hds i Hi). cbv zeta. by rw Hu.
  - apply wp_bind, wp_wrap, (wp_ztl_dev_read s); [apply Hinv|lia|lia|lia|].
    intros s' o Hret Hs' Hdata Hrel. destruct o as [data|[e| |]]; try done; cbn beta iota.
    + destruct (Hdata data eq_refl) as [Hdl Hds]. apply Hdone; [done|done|].
      intros i Hi. rw (Hsect i Hi) (Hds i Hi). cbv zeta. rw Hu. by rw Hrun.
    + by apply HQ.
Qed.

Lemma wp_ZTL_Read lba count (Q : ZTL D J → outcome (list byte) → Prop) s :
  ztl_wf s → 0 ≤ lba → 0 < count < 2^32 → lba + count ≤ ztl_size s →
  (∀ s' o, returns o → ztl_same s s' →
    (∀ data, o = Ok data → len data = sectorSize * count ∧
       ∀ i, 0 ≤ i < count → sec data i = ztl_sector s (lba + i)) →
    (ReliableDevice D → is_ok o) → Q s' o) →
  wp (ZTL_Read lba count) Q s.
Proof.
  intros Hwf Hlba Hcount Hsize HQ. unfold ZTL_Read.
  pose proof (mw_sps _ _ _ _ (zw_map _ Hwf)) as Hsps.
  destruct (mw_l2p _ _ _ _ (zw_map _ Hwf)) as (_ & _ & Hmax). unfold ztl_size in *.
  set (sps := z_sectorsPerSeg s) in *.
  destruct (Z.eqb_spec count 0); [lia|]. wp_steps. fold sps.
  rw (u64_small (lba + count)); [lia|]. rw (u64_small (lba + count - 1)); [lia|].
  rw -{1}(u64_small (lba + count)); [lia|]. unfold segment_loop, LBAToSegmentID.
  set (a := lba / sps). set (b := (lba + count - 1) / sps).
  assert (Hab : a ≤ b) by (apply Z.div_le_mono; lia).
  apply wp_for_each with (I := λ done s' acc, read_inv s lba count (a + len done) s' acc).
  - pose proof (Z.div_mod lba sps ltac:(lia)). pose proof (Z.mod_pos_bound lba sps ltac:(lia)).
    fold a in H3. assert (Hpos : read_pos sps lba count (a + len (@nil Z)) = lba)
      by (unfold read_pos, len; simpl; nia).
    split; [by apply ztl_same_refl|]. fold sps. rw Hpos.
    split; [rw len_make_bytes; unfold sectorSize; lia|]. split; [simpl; lia|].
    intros i Hi. simpl. case_decide; [lia|]. apply sec_make_bytes; unfold sectorSize; lia.
  - intros done seg todo s1 acc Hsplit Hinv.
    assert (Hseg : seg = a + len done ∧ seg ≤ b).
    { assert (Hlk : seqZ a (b - a + 1) !! length done = Some seg) by (rw Hsplit; by apply list_lookup_middle).
      apply lookup_seqZ in Hlk as [-> ?]. unfold len. lia. }
    destruct Hseg as [Hseg Hle]. rw -Hseg in Hinv.
    pose proof (len_nonneg done). 
    eapply (wp_read_segment s); [done|done|done|done|fold sps; unfold a, b in *; lia|exact Hinv|].
    intros s2 o Hret Hs2 Hacc Hrel. destruct o as [acc'|[e| |]]; try done.
    + rw len_app. replace (a + (len done + len [seg])) with (seg + 1) by (unfold len at 2; simpl; lia).
      by apply Hacc.
    + by apply HQ.
  - intros s1 [r off] (Hs & Hlen & _ & Hsec). wp_steps. apply HQ; [done|done| |done].
    intros data [= <-]. split; [done|]. intros i Hi. rw (Hsec i Hi). fold sps.
    rw decide_True //. unfold len. rw length_seqZ. unfold read_pos.
    replace (a + Z.of_nat (Z.to_nat (b - a + 1))) with (b + 1) by lia.
    pose proof (Z.div_mod (lba + count - 1) sps ltac:(lia)).
    pose proof (Z.mod_pos_bound (lba + count - 1) sps ltac:(lia)). fold b in H3. nia.
Qed.

(** ** Unmapping *)
Definition unmapped_upto s s' (a j : Z) : Prop :=
  ∀ lba, 0 ≤ lba < ztl_size s →
    ztl_sector s' lba =
    if decide (a ≤ lba / z_sectorsPerSeg s < a + j) then zero_sector else ztl_sector s lba.

Lemma wp_unmap_segment (seg : Z) (Q : ZTL D J → outcome unit → Prop) s :
  ztl_wf s → 0 ≤ seg < l2p_size (z_l2p s) →
  (∀ s' o, returns o → ztl_next s s' →
    (is_ok o → ∀ lba, 0 ≤ lba < ztl_size s →
      ztl_sector s' lba = if decide (lba / z_sectorsPerSeg s = seg) then zero_sector
                          else ztl_sector s lba) → Q s' o) →
  wp (unmap_segment tt seg) Q s.
Proof.
  intros Hwf Hseg HQ. unfold unmap_segment. wp_steps. set (p := L2PTable_Get seg (z_l2p s)).
  destruct (PhysAddr_IsUnmapped p) eqn:Hu; wp_steps.
  { apply HQ; [done|by apply ztl_same_next, ztl_same_refl|]. intros _ lba Hlba.
    case_decide as Heq; [|done]. unfold ztl_sector, map_view. rw Heq. fold p. by rw Hu. }
  apply wp_ztl_journal; [done|intros; by apply jr_LogL2PUpdate|]. intros s1 o Hret Hs1.
  destruct o as [[]|[e| |]]; try done; cbn beta iota; [|by apply HQ; [done|by apply ztl_same_next|]].
  pose proof Hs1 as (Hwf1 & Ht1 & Hsps1 & Hfree1 & Hv1). unfold on_gc, on_l2p. wp_steps.
  change (gc_l2p (z_gc s1)) with (z_l2p s1). rw Ht1.
  apply wp_L2PTable_Set; [lia|]. cbn beta iota. ztl_steps.
  assert (Hp : L2PTable_Get seg (z_l2p s1) ≠ 0).
  { rw Ht1. fold p. unfold PhysAddr_IsUnmapped in Hu. lia. }
  rw -Ht1 in Hseg. 
  pose proof (unmap_wf _ _ _ _ seg (zw_map _ Hwf1) Hseg Hp) as Hm.
  pose proof (unmap_view _ _ _ _ seg (zw_map _ Hwf1) Hseg Hp) as Hview.
  rw Ht1 in Hm Hview. fold p in Hm.
  match goal with |- Q ?st _ => set (s3 := st) end.
  set (s2 := z_set_gc (gc_set_p2l (P2LMap_Delete p (z_p2l s1))
    (gc_set_l2p (l2p_store seg 0 (z_l2p s)) (z_gc s1))) s1).
  assert (Hwf2 : ztl_wf s2) by (split; try apply Hwf1; exact Hm).
  assert (Hs3 : ztl_same s2 s3).
  { apply (ztl_same_md s2 (mkZMD (DecrementValidSegs (PhysAddr_ZoneID p) (z_zm s1)) (md_dev (z_md s1))));
      [done|apply (DecrementValidSegs_same (z_md s1))|].
    - apply (wbd_md _ (mw_wbd _ _ _ _ (zw_map _ Hwf1))).
    - unfold DecrementValidSegs. by case_match. }
  assert (Hn2 : ztl_next s s2) by (split; [done|split; [done|split; [exact Hsps1|exact Hfree1]]]).
  apply HQ; [done|by eapply ztl_next_trans, ztl_same_next|]. intros _ lba Hlba.
  destruct Hs3 as (_ & _ & _ & _ & Hv3). assert (Hszs : ztl_size s2 = ztl_size s) by (unfold ztl_size; by rw -Hsps1).
  rw Hv3; [by rw Hszs|].
  etransitivity; [apply Hview; unfold ztl_size in *; by rw Hsps1|]. rw Hsps1. case_decide; [done|].
  rw -Hv1 //. unfold ztl_sector. by rw Ht1 Hsps1.
Qed.

Lemma wp_ZTL_Unmap lba count (Q : ZTL D J → outcome unit → Prop) s :
  let sps := z_sectorsPerSeg s in
  ztl_wf s → 0 ≤ lba → 0 < count → lba + count ≤ ztl_size s →
  (∀ s' o, returns o → ztl_next s s' →
    (is_ok o → unmapped_upto s s' (lba / sps) ((lba + count - 1) / sps - lba / sps + 1)) → Q s' o) →
  wp (ZTL_Unmap lba count) Q s.
Proof.
  intros sps Hwf Hlba Hcount Hsize HQ. unfold ZTL_Unmap.
  pose proof (mw_sps _ _ _ _ (zw_map _ Hwf)) as Hsps. fold sps in Hsps.
  destruct (mw_l2p _ _ _ _ (zw_map _ Hwf)) as (_ & _ & Hmax). fold sps in Hmax.
  unfold ztl_size in Hsize. fold sps in Hsize.
  wp_steps. fold sps. rw (u64_small (lba + count)); [lia|]. rw u64_small; [lia|].
  unfold segment_loop, LBAToSegmentID. set (a := lba / sps). set (b := (lba + count - 1) / sps).
  assert (Hab : 0 ≤ a ≤ b) by (split; [apply Z.div_pos; lia|apply Z.div_le_mono; lia]).
  assert (Hb : b < l2p_size (z_l2p s)) by (apply Z.div_lt_upper_bound; lia).
  apply wp_for_each with (I := λ done s' _, ztl_next s s' ∧ unmapped_upto s s' a (len done)).
  - split; [by apply ztl_same_next, ztl_same_refl|]. intros l Hl.
    case_decide; [unfold len in *; simpl in *; lia|done].
  - intros done seg todo s1 [] Hsplit [Hnext Hun].
    assert (Hseg : seg = a + len done ∧ seg ≤ b).
    { assert (Hlk : seqZ a (b - a + 1) !! length done = Some seg) by (rw Hsplit; by apply list_lookup_middle).
      apply lookup_seqZ in Hlk as [-> ?]. unfold len. lia. }
    destruct Hseg as [Hseg Hle]. pose proof (len_nonneg done).
    pose proof Hnext as (Hwf1 & Hsz1 & Hsps1 & _).
    apply wp_unmap_segment; [done|lia|]. intros s2 o Hret Hnext2 Hview.
    pose proof (ztl_next_trans _ _ _ Hnext Hnext2).
    destruct o as [[]|[e| |]]; try done; [|by apply HQ]. split; [done|]. intros l Hl.
    rw Hview; [done|unfold ztl_size in *; by rw Hsz1 Hsps1|]. rw Hsps1. fold sps. rw len_app (Hun l Hl). fold sps.
    replace (len [seg]) with 1 by done. repeat case_decide; try done; lia.
  - intros s1 [] [Hnext Hun]. apply HQ; [done|done|]. intros _.
    assert (Hlk : len (seqZ a (b - a + 1)) = b - a + 1) by (unfold len; rw length_seqZ; lia).
    by rw Hlk in Hun.
Qed.

End spec.

(** ** Start-up: an empty store *)
Section empty_store.
Context {D J : Type} `{ZonedDeviceSpec D} `{JournalSpec J}.

Lemma ZTL_New_wf cfg (d : D) (jo : option J) s :
  dev_wf d → ZoneSize d < 2^32 → Device_Capacity d ≤ 2^24 * ZoneSize d → 0 < MaxOpenZones d →
  SectorsPerSegment cfg < 2^32 → journal_ok jo →
  ZTL_New cfg d jo = Ok s →
  (∀ i z, zm_zones (z_zm s) !! i = Some z → SectorsPerSegment cfg ≤ zi_SizeSectors z) →
  ztl_wf s ∧ zone0_unused s ∧ z_sectorsPerSeg s = SectorsPerSegment cfg ∧
  ztl_size s = Device_Capacity d / SectorsPerSegment cfg * SectorsPerSegment cfg ∧
  wb_buffers (z_buf s) = ∅ ∧
  ∀ lba, 0 ≤ lba < ztl_size s → ztl_sector s lba = zero_sector.
Proof.
  intros Hd Hzs Hcap Hmax Hsps Hj Hnew Hzones. unfold ZTL_New in Hnew.
  assert (0 ≤ SectorsPerSegment cfg) by (apply Z.div_pos; [apply u64_range|lia]).
  destruct (Z.eqb_spec (SectorsPerSegment cfg) 0); [done|].
  destruct (Z.eqb_spec (ZoneSize d) 0); [done|].
  destruct (Z.eqb_spec (Device_Capacity d / SectorsPerSegment cfg) 0); [done|].
  destruct (dev_geometry _ Hd) as [_ Hgeo].
  set (sps := SectorsPerSegment cfg) in *. set (segs := Device_Capacity d / sps) in *.
  assert (Hsegs : 0 ≤ segs) by (apply Z.div_pos; lia).
  pose proof (Z.mul_div_le (Device_Capacity d) sps ltac:(lia)) as Hmul. fold segs in Hmul.
  unfold wrap in Hnew.
  destruct (ZoneManager_Initialize (mkZMD (NewZoneManager (MaxOpenZones d)) d)) as [md [[]|[e| |]]] eqn:Hinit;
    try done. injection Hnew as <-.
  destruct (Initialize_wf d (MaxOpenZones d) md) as [Hmd _]; try done.
  assert (Hget : ∀ seg, 0 ≤ seg → L2PTable_Get seg (NewL2PTable segs) = 0)
    by (intros; by apply NewL2PTable_Get).
  assert (Hmap : map_wf (NewL2PTable segs) ∅
    (mkWBD (NewWriteBuffer (ZoneSize d) (zc_BufferFlushAgeSec (cfg_ZTL cfg))) md) sps).
  { split; simpl; try done.
    - lia.
    - split; [by apply NewL2PTable_wf|]. split; [done|lia].
    - intros seg Hseg Hne. rw Hget in Hne; [lia|done].
    - intros seg seg' Hseg _ _ Hne. rw Hget in Hne; [lia|done].
    - intros k seg _. rw lookup_empty. split; [by intros [_ ?]|].
      intros (Hseg & Hne & _). rw Hget in Hne; [lia|done]. }
  split; [by split|]. split; [done|]. split; [done|]. split; [done|]. split; [done|].
  intros lba Hlba. unfold ztl_sector, map_view. cbv zeta.
  change (z_l2p _) with (NewL2PTable segs). rw Hget; [|done]. apply Z.div_pos; simpl; lia.
Qed.
End empty_store.
