(* ===== verification/GcSpec.v ===== *)
(** * Collection keeps the store

    A collection moves the live segments of a victim zone and resets it.
    [gc_step] relates the states of the layer around one call of the collector:
    no reader notices, and no segment arrives in the victim. *)

From S2P Require Import Bytes Float64 Zbc Backend Segment Emulator ZoneManager WriteBuffer Gc Ztl ZtlInv ZtlSpec.

(** ** The map when data goes straight to the device, and when a zone is emptied *)
Section device.
Context {D : Type} `{ZonedDeviceSpec D} {Old : OldZones}.
Implicit Types w : WBD D.

Abbreviation zones w := (zm_zones (md_zm (wd_md w))).
Abbreviation free w := (zm_freeList (md_zm (wd_md w))).
Abbreviation buffers w := (wb_buffers (wd_buf w)).

Definition wbd_set_dev (d : D) w : WBD D := mkWBD (wd_buf w) (mkZMD (md_zm (wd_md w)) d).

(** [w] with [data] written to the device at the write pointer of a zone. *)
Definition wbd_direct (zoneID wp n : Z) (d : D) w : WBD D :=
  mkWBD (wd_buf w) (mkZMD (UpdateWritePointer zoneID (wp + n) (md_zm (wd_md w))) d).

Lemma in_zone_unique w z1 z2 a b :
  wbd_wf w → in_zone (md_zm (wd_md w)) z1 a → in_zone (md_zm (wd_md w)) z2 b → a = b → z1 = z2.
Proof. intros Hwf H1 H2 ->. eapply in_zone_inj; [apply (wbd_md _ Hwf)|done|done]. Qed.

Lemma direct_appended zoneID data n w zi d :
  wbd_wf w → 0 ≤ zoneID → zoneID ∉ free w → zones w !! Z.to_nat zoneID = Some zi →
  0 < n → zi_StartLBA zi ≤ zi_WritePointer zi →
  zi_WritePointer zi + n ≤ zi_StartLBA zi + zi_SizeSectors zi →
  buffers w !! zoneID = None →
  dev_wf d → Device_Capacity d = Device_Capacity (md_dev (wd_md w)) →
  ZoneSize d = ZoneSize (md_dev (wd_md w)) →
  (∀ l, 0 ≤ l < Device_Capacity (md_dev (wd_md w)) →
    dev_sector d l = if bool_decide (zi_WritePointer zi ≤ l < zi_WritePointer zi + n)
                     then sec data (l - zi_WritePointer zi) else dev_sector (md_dev (wd_md w)) l) →
  appended zoneID data n zi w (wbd_direct zoneID (zi_WritePointer zi) n d w).
Proof.
  intros Hwf Hid Hni Hzi Hn Hlow Hfit Hb Hd Hcap Hzs Hsec. pose proof (wbd_md _ Hwf) as Hmd.
  assert (Hzm : md_zm (wd_md (wbd_direct zoneID (zi_WritePointer zi) n d w)) =
    zm_alter_zone zoneID (zi_set_wp (zi_WritePointer zi + n)) (md_zm (wd_md w))).
  { simpl. unfold UpdateWritePointer, zone_out_of_range. pose proof (lookup_lt_Some _ _ _ Hzi).
    by destruct (Z.leb_spec (len (zones w)) zoneID); [unfold len in *; lia|]. }
  assert (Hmd' : md_wf (mkZMD (zm_alter_zone zoneID (zi_set_wp (zi_WritePointer zi + n))
                                 (md_zm (wd_md w))) d)).
  { destruct (md_wf_alter (wd_md w) zoneID (zi_set_wp (zi_WritePointer zi + n)) Hmd Hid Hni ltac:(done)).
    split; simpl in *; rw ?Hcap ?Hzs //. }
  split; [|exact Hzm|done|simpl; by rw Hb|].
  - split; [rw -Hzm in Hmd'; exact Hmd'|apply Hwf|]. intros z b Hzb.
    change (buffers w !! z = Some b) in Hzb.
    destruct (wbd_buf _ Hwf _ _ Hzb) as (Hok & Hz0 & Hzni & z' & Hz' & Hr).
    assert (z ≠ zoneID) by (intros ->; congruence). rw Hzm. split_and!; [done|done|done|].
    exists z'. split; [|done]. simpl. rw list_lookup_alter_ne //. lia.
  - intros z lba Hin. pose proof (in_zone_cap _ _ _ Hmd Hin) as Hl.
    unfold phys_sector. simpl. destruct (decide (z = zoneID)) as [->|Hne].
    + rw Hb Hsec //. by repeat case_bool_decide; try tauto.
    + rw Hsec // (bool_decide_false (z = zoneID ∧ _)); [tauto|]. rw bool_decide_false //.
      intros Hr. apply Hne. eapply (in_zone_inj (wd_md w)); [done|exact Hin|].
      exists zi. split_and!; [done|done|lia|lia].
Qed.

(** A device change confined to a zone without buffered data. *)
Lemma wbd_dev_frame v w d zi :
  wbd_wf w → 0 ≤ v → zones w !! Z.to_nat v = Some zi →
  dev_wf d → Device_Capacity d = Device_Capacity (md_dev (wd_md w)) →
  ZoneSize d = ZoneSize (md_dev (wd_md w)) →
  (∀ l, 0 ≤ l < Device_Capacity (md_dev (wd_md w)) →
    l / ZoneSize (md_dev (wd_md w)) ≠ zi_StartLBA zi / ZoneSize (md_dev (wd_md w)) →
    dev_sector d l = dev_sector (md_dev (wd_md w)) l) →
  wbd_frame (λ z, z ≠ v) w (wbd_set_dev d w).
Proof.
  intros Hwf Hid Hzi Hd Hcap Hzs Hsec. pose proof (wbd_md _ Hwf) as Hmd.
  destruct (dev_geometry _ (md_dev_wf _ Hmd)) as [Hz0 _].
  split_and!; [|done|done|].
  - split; [|apply Hwf|apply Hwf]. destruct Hmd. split; simpl; rw ?Hzs ?Hcap //.
  - intros z lba Hne Hin. pose proof (in_zone_cap _ _ _ Hmd Hin) as Hl.
    unfold phys_sector. simpl. rw Hsec //. destruct Hin as (zi' & Hzi' & Hz & Hr).
    destruct (md_zone _ Hmd _ _ Hzi') as (Hs' & Hsz' & _), (md_zone _ Hmd _ _ Hzi) as (Hs & _ & _).
    rw !Z2Nat.id // in Hs Hs'. rw Hs Z.mul_comm Z.div_mul; [lia|]. intros Hq. apply Hne.
    rw -Hq. apply (Z.div_unique _ _ _ (lba - zi_StartLBA zi')); lia.
Qed.

(** [MarkEmpty] on a zone that holds no mapped segment. *)
Lemma map_wf_empty t m w sps v :
  map_wf t m w sps → 0 ≤ v < len (zones w) → v ∉ free w → ¬ old_zone v → buffers w !! v = None →
  (∀ seg, 0 ≤ seg < l2p_size t → L2PTable_Get seg t ≠ 0 → PhysAddr_ZoneID (L2PTable_Get seg t) ≠ v) →
  let w' := mkWBD (wd_buf w) (mkZMD (zm_empty v (md_zm (wd_md w))) (md_dev (wd_md w))) in
  map_wf t m w' sps ∧ ∀ lba, 0 ≤ lba < l2p_size t * sps → map_view t w' sps lba = map_view t w sps lba.
Proof.
  intros Hwf Hv Hni Hno Hb Hseg w'. pose proof (mw_wbd _ _ _ _ Hwf) as Hw. pose proof (mw_sps _ _ _ _ Hwf).
  assert (Hzones : ∀ i z, zones w !! i = Some z →
    zones w' !! i = Some (if decide (i = Z.to_nat v)
      then zi_set_segs 0 0 (zi_set_wp (zi_StartLBA z) (zi_set_state ZoneStateEmpty z)) else z)).
  { intros i z Hz. simpl. set (zm1 := zm_alter_zone _ _ _).
    destruct (zm_drop_open_zones zm1 v) as (-> & _). subst zm1. simpl.
    case_decide as Hi; [subst i; by rw list_lookup_alter_eq Hz|rw list_lookup_alter_ne //; congruence]. }
  assert (Hfree : free w' = free w ++ [v]).
  { simpl. by destruct (zm_drop_open_zones (zm_alter_zone v (λ z,
      zi_set_segs 0 0 (zi_set_wp (zi_StartLBA z) (zi_set_state ZoneStateEmpty z))) (md_zm (wd_md w))) v)
      as (_ & -> & _). }
  assert (Hother : ∀ z x, z ≠ v → 0 ≤ z → zones w !! Z.to_nat z = Some x → z ∉ free w →
    zones w' !! Z.to_nat z = Some x ∧ z ∉ free w').
  { intros z x Hne Hz Hx Hnf. rw (Hzones _ _ Hx) decide_False; [lia|]. split; [done|]. rw Hfree. set_solver. }
  assert (Hplaced : ∀ p, placed w sps p → PhysAddr_ZoneID p ≠ v →
    placed w' sps p ∧ phys_start w' p = phys_start w p).
  { intros p (Hp & z & Hz & Hnf & Hr) Hne. pose proof (PhysAddr_ZoneID_range p).
    destruct (Hother _ _ Hne ltac:(lia) Hz Hnf) as [Hz' Hnf'].
    split; [|by rw (phys_start_eq w p z) // (phys_start_eq w' p z)]. split; [done|]. by exists z. }
  split; [split; try apply Hwf|].
  - split; [by apply zm_empty_wf; [apply Hw|..]|apply Hw|]. intros z b Hzb.
    destruct (wbd_buf _ Hw _ _ Hzb) as (Hok & Hz0 & Hzni & x & Hx & Hr).
    assert (z ≠ v) by (intros ->; simpl in Hzb; congruence).
    destruct (Hother z x) as [Hx' Hnf]; [done..|]. split_and!; [done|done|done|]. by exists x.
  - intros i z' Hz'. assert (is_Some (zones w !! i)) as [z Hz].
    { apply lookup_lt_is_Some. apply lookup_lt_Some in Hz'. simpl in Hz'.
      revert Hz'. set (zm1 := zm_alter_zone _ _ _).
      destruct (zm_drop_open_zones zm1 v) as (-> & _). subst zm1. simpl. by rw length_alter. }
    rw (Hzones _ _ Hz) in Hz'. injection Hz' as <-. pose proof (mw_zone _ _ _ _ Hwf _ _ Hz). by case_decide.
  - intros seg Hs Hne. apply Hplaced; [by apply (mw_placed _ _ _ _ Hwf)|auto].
  - intros z Hz. destruct (mw_old _ _ _ _ Hwf z Hz) as [Hf Hn]. split; [|done]. rw Hfree.
    rw not_elem_of_app list_elem_of_singleton. split; [done|by intros ->].
  - intros lba Hlba. unfold map_view. cbv zeta. set (p := L2PTable_Get (lba / sps) t).
    destruct (PhysAddr_IsUnmapped p) eqn:Hu; [done|].
    assert (Hs : 0 ≤ lba / sps < l2p_size t)
      by (split; [apply Z.div_pos; lia|apply Z.div_lt_upper_bound; lia]).
    assert (Hne : p ≠ 0) by (unfold PhysAddr_IsUnmapped in Hu; lia).
    destruct (Hplaced p) as [_ ->]; [by apply (mw_placed _ _ _ _ Hwf)|by apply Hseg|done].
Qed.
End device.

(** ** Steps of the collector *)
Section gc.
Context {D J : Type} `{ZonedDeviceSpec D} `{JournalSpec J} {Old : OldZones}.
Implicit Types s : ZTL D J.
Implicit Types g : GCEngine D J.

(** A zone that may be collected: in use, with no data in the write buffer and
    not taking writes; its segments were placed since the last restart. *)
Record gc_pre (v : Z) s : Prop := {
  gp_wf : ztl_wf s;
  gp_range : 0 ≤ v < len (zm_zones (z_zm s));
  gp_used : v ∉ zm_freeList (z_zm s);
  gp_new : ¬ old_zone v;
  gp_buf : wb_buffers (z_buf s) !! v = None;
  gp_cur : z_currentZoneOpen s = true → z_currentWriteZone s ≠ v;
}.

Record gc_step (v : Z) s s' : Prop := {
  gs_wf : ztl_wf s';
  gs_buf : z_buf s' = z_buf s;
  gs_sps : z_sectorsPerSeg s' = z_sectorsPerSeg s;
  gs_size : l2p_size (z_l2p s') = l2p_size (z_l2p s);
  gs_cur : z_currentZoneOpen s' = z_currentZoneOpen s ∧
           z_currentWriteZone s' = z_currentWriteZone s;
  gs_len : len (zm_zones (z_zm s')) = len (zm_zones (z_zm s));
  gs_free z : z ∈ zm_freeList (z_zm s') → z ∈ zm_freeList (z_zm s);
  (* no segment arrives in the victim *)
  gs_live seg : 0 ≤ seg < l2p_size (z_l2p s) → L2PTable_Get seg (z_l2p s') ≠ 0 →
    PhysAddr_ZoneID (L2PTable_Get seg (z_l2p s')) = v →
    L2PTable_Get seg (z_l2p s') = L2PTable_Get seg (z_l2p s);
  gs_view lba : zone0_kept s s' → 0 ≤ lba < ztl_size s → ztl_sector s' lba = ztl_sector s lba;
}.

Lemma gc_pre_step v s s' : gc_pre v s → gc_step v s s' → gc_pre v s'.
Proof.
  intros [Hwf Hr Hu Hno Hb Hc] [Hwf' Hbuf Hsps Hsize [Ho Hw] Hlen Hf _ _].
  split; [done|by rw Hlen|auto|done|by rw Hbuf|]. by rw Ho Hw.
Qed.

Lemma gc_step_trans v s1 s2 s3 : gc_step v s1 s2 → gc_step v s2 s3 → gc_step v s1 s3.
Proof.
  intros [Hwf Hbuf Hsps Hsize [Ho Hw] Hlen Hf Hl Hv] [Hwf' Hbuf' Hsps' Hsize' [Ho' Hw'] Hlen' Hf' Hl' Hv'].
  split; try congruence; auto; [split; congruence| |].
  - intros seg Hs Hne Hz. rw Hsize in Hl'. pose proof (Hl' seg Hs Hne Hz) as Heq.
    rw Heq in Hne Hz |- *. by apply Hl.
  - intros lba Hk Hlba. unfold ztl_size in *. rw Hsize Hsps in Hv'.
    assert (zone0_kept s1 s2 ∧ zone0_kept s2 s3) as [Hk1 Hk2] by (unfold zone0_kept in *; naive_solver).
    by rw Hv' // Hv.
Qed.

(** Nothing the store is made of changes. *)
Lemma gc_step_same v s s' :
  ztl_wf s → z_l2p s' = z_l2p s → z_p2l s' = z_p2l s → z_wbd s' = z_wbd s →
  z_sectorsPerSeg s' = z_sectorsPerSeg s →
  z_currentZoneOpen s' = z_currentZoneOpen s → z_currentWriteZone s' = z_currentWriteZone s →
  gc_sectorsPerSeg (z_gc s') = gc_sectorsPerSeg (z_gc s) → journal_ok (gc_journal (z_gc s')) →
  gc_step v s s'.
Proof.
  intros Hwf Ht Hm Hw Hsps Ho Hc Hg Hj.
  assert (Hbuf : z_buf s' = z_buf s) by exact (f_equal wd_buf Hw).
  assert (Hmd : z_md s' = z_md s) by exact (f_equal wd_md Hw).
  assert (Hzm : z_zm s' = z_zm s) by (unfold z_zm; by rw Hmd).
  split; try done; [|by rw Ht|by rw Hzm|by rw Hzm|by rw Ht|].
  - destruct Hwf. split; rw ?Ht ?Hm ?Hw ?Hsps ?Ho ?Hc ?Hzm ?Hg //.
  - intros lba _ _. unfold ztl_sector. by rw Ht Hw Hsps.
Qed.

Lemma gc_step_refl v s : ztl_wf s → gc_step v s s.
Proof. intros Hwf. by apply gc_step_same; try done; apply Hwf. Qed.

(** The manager and the device change as no reader notices. *)
Lemma gc_step_md v s md :
  ztl_wf s → md_same (z_md s) md → (∀ z, z ∈ zm_freeList (md_zm md) → z ∈ zm_freeList (z_zm s)) →
  gc_step v s (z_set_gc (gc_set_md md (z_gc s)) s).
Proof.
  intros Hwf Hmd Hf. destruct (ztl_same_md s md Hwf Hmd Hf) as (Hwf' & Ht & Hsps & _ & Hv).
  split; try done; [|by intros lba _; apply Hv].
  destruct Hmd as (_ & [Hg _] & _). by apply md_geom_len.
Qed.

Lemma gc_step_counts v s zm :
  ztl_wf s → md_same (z_md s) (mkZMD zm (md_dev (z_md s))) → zm_freeList zm = zm_freeList (z_zm s) →
  gc_step v s (z_set_gc (gc_set_md (mkZMD zm (md_dev (z_md s))) (z_gc s)) s).
Proof. intros. apply gc_step_md; [done|done|]. simpl. by intros z; rw H5. Qed.

(** Dropping the stale entry of address 0. *)
Lemma gc_step_p2l0 v s :
  ztl_wf s → gc_step v s (z_set_gc (gc_set_p2l (P2LMap_Delete 0 (z_p2l s)) (z_gc s)) s).
Proof.
  intros Hwf. split; try done. split; try apply Hwf. destruct (zw_map _ Hwf). split; try done.
  intros k seg Hko. unfold P2LMap_Delete. change (z_p2l (z_set_gc _ s)) with (delete (p2l_key 0) (z_p2l s)).
  destruct (decide (k = (0, 0))) as [->|Hne].
  - split; [by intros [? _]|]. intros Hs. by apply mw_p2l in Hs as [? _].
  - rw lookup_delete_ne; [by intros <-; apply Hne|]. by apply mw_p2l.
Qed.

(** Where a segment lives, and that it does. *)
Definition lives_at (v off seg : Z) s : Prop :=
  L2PTable_Get seg (z_l2p s) ≠ 0 ∧ p2l_key (L2PTable_Get seg (z_l2p s)) = (v, off).

(** The new home of a migrated segment, up to the counters. *)
Definition gc_commit (seg newZone wp newPhys : Z) (d : D) s : ZTL D J :=
  let oldPhys := L2PTable_Get seg (z_l2p s) in
  z_set_gc
    (gc_set_p2l (P2LMap_Set newPhys seg (P2LMap_Delete oldPhys (z_p2l s)))
       (gc_set_l2p (l2p_store seg newPhys (z_l2p s))
          (gc_set_md (mkZMD (UpdateWritePointer newZone (wp + z_sectorsPerSeg s) (z_zm s)) d) (z_gc s)))) s.

Section commit.
Context (v seg newZone : Z) (zi : ZoneInfo) (d : D) (data : list byte) (s0 s : ZTL D J).
Context (Hs : gc_step v s0 s) (Hseg : 0 ≤ seg < l2p_size (z_l2p s)).
Context (Hold : L2PTable_Get seg (z_l2p s) ≠ 0).
Context (Hid : 0 ≤ newZone) (Hni : newZone ∉ zm_freeList (z_zm s)) (Hno : ¬ old_zone newZone).
Context (Hv : newZone ≠ v).
Context (Hzi : zm_zones (z_zm s) !! Z.to_nat newZone = Some zi).
Context (Hlow : zi_StartLBA zi ≤ zi_WritePointer zi).
Context (Hfit : zi_WritePointer zi + z_sectorsPerSeg s ≤ zi_StartLBA zi + zi_SizeSectors zi).
Context (Hb : wb_buffers (z_buf s) !! newZone = None).
Context (Hzero : zone0_kept s0 s → newZone ≠ 0).
Context (Hd : dev_wf d) (Hcap : Device_Capacity d = Device_Capacity (md_dev (z_md s))).
Context (Hzs : ZoneSize d = ZoneSize (md_dev (z_md s))).
Context (Hsec : ∀ l, 0 ≤ l < Device_Capacity (md_dev (z_md s)) →
  dev_sector d l =
  if bool_decide (zi_WritePointer zi ≤ l < zi_WritePointer zi + z_sectorsPerSeg s)
  then sec data (l - zi_WritePointer zi) else dev_sector (md_dev (z_md s)) l).
Context (Hdata : zone0_kept s0 s → ∀ lba, 0 ≤ lba < ztl_size s → lba / z_sectorsPerSeg s = seg →
  sec data (lba `mod` z_sectorsPerSeg s) = ztl_sector s lba).

Let wp := zi_WritePointer zi.
Let newPhys := EncodePhysAddr newZone (wp - zi_StartLBA zi).
Let s' := gc_commit seg newZone wp newPhys d s.

Lemma gc_commit_appended :
  appended newZone data (z_sectorsPerSeg s) zi (z_wbd s)
    (wbd_direct newZone (zi_WritePointer zi) (z_sectorsPerSeg s) d (z_wbd s)).
Proof using All.
  pose proof (zw_map _ (gs_wf _ _ _ Hs)) as Hmap. pose proof (mw_sps _ _ _ _ Hmap).
  apply direct_appended; try done; [apply (mw_wbd _ _ _ _ Hmap)|lia].
Qed.

Lemma gc_commit_map :
  map_wf (z_l2p s') (z_p2l s') (z_wbd s') (z_sectorsPerSeg s) ∧
  (zone0_kept s0 s → ∀ lba, 0 ≤ lba < ztl_size s → newPhys ≠ 0 → ztl_sector s' lba = ztl_sector s lba).
Proof using All.
  pose proof (zw_map _ (gs_wf _ _ _ Hs)) as Hmap. pose proof (mw_wbd _ _ _ _ Hmap) as Hw.
  pose proof (mw_sps _ _ _ _ Hmap) as Hsps.
  pose proof gc_commit_appended as Happ.
  pose proof (commit_wf newZone data _ (z_wbd s) _ zi Hw Hid Hni Hno Hzi Hsps Hlow Hfit Happ _ _ seg Hmap Hseg) as Hwf'.
  pose proof (commit_view newZone data _ (z_wbd s) _ zi Hw Hid Hni Hno Hzi Hsps Hlow Hfit Happ _ _ seg Hmap Hseg) as Hview.
  assert (Hu : PhysAddr_IsUnmapped (L2PTable_Get seg (z_l2p s)) = false) by (unfold PhysAddr_IsUnmapped; lia).
  rw Hu in Hwf'. split; [exact Hwf'|]. intros Hk lba Hlba Hne.
  etransitivity; [by apply Hview|]. case_decide as Hq; [|done].
  fold wp newPhys. unfold PhysAddr_IsUnmapped. destruct (Z.eqb_spec newPhys 0); [done|]. by apply Hdata.
Qed.

Lemma gc_commit_step : gc_step v s0 s' ∧ L2PTable_Get seg (z_l2p s') = newPhys ∧
  PhysAddr_ZoneID newPhys ≠ v.
Proof using All.
  destruct gc_commit_map as [Hm Hview]. pose proof (gs_wf _ _ _ Hs) as Hwf.
  pose proof (zw_map _ Hwf) as Hmap. pose proof (mw_sps _ _ _ _ Hmap) as Hsps.
  pose proof (mw_wbd _ _ _ _ Hmap) as Hw.
  pose proof gc_commit_appended as Happ.
  destruct (newPhys_decode newZone data _ (z_wbd s) _ zi Hw Hid Hni Hno Hzi Hsps Hlow Hfit Happ _ _ seg Hmap Hseg)
    as [Hz _]. fold wp newPhys in Hz.
  assert (Hget : ∀ seg', 0 ≤ seg' → L2PTable_Get seg' (z_l2p s') =
    if decide (seg' = seg) then newPhys else L2PTable_Get seg' (z_l2p s))
    by (intros; apply L2PTable_Get_store; [apply Hmap|done|done]).
  assert (Hzm : z_zm s' = zm_alter_zone newZone (zi_set_wp (wp + z_sectorsPerSeg s)) (z_zm s))
    by exact (ap_zm _ _ _ _ _ _ Happ).
  split; [|split; [rw Hget; [lia|]; by rw decide_True|by rw Hz]].
  destruct Hs as [_ Hbuf Hsp Hsize Hc Hlen Hf Hl Hvw]. split; try done.
  - split; [exact Hm| |apply Hwf|apply Hwf|apply Hwf]. intros Ho. rw Hzm.
    destruct (zw_current _ Hwf Ho) as (z & Hz' & H0' & Hn & Hr). 
    change (z_currentWriteZone s') with (z_currentWriteZone s).
    destruct (decide (z_currentWriteZone s = newZone)) as [Heq|Hne].
    + exists (zi_set_wp (wp + z_sectorsPerSeg s) zi). rw Heq. simpl.
      rw list_lookup_alter_eq Hzi. unfold wp. split_and!; [done|done|done|lia|lia].
    + exists z. simpl. rw list_lookup_alter_ne; [lia|]. done.
  - by rw Hzm /= /len length_alter.
  - intros z. rw Hzm. apply Hf.
  - intros seg' Hs'. rw Hget; [lia|]. case_decide; [by intros _ Hx; rw Hz in Hx|]. by apply Hl.
  - intros lba Hk Hlba. assert (Hk' : zone0_kept s0 s) by (unfold zone0_kept in *; by rw Hzm in Hk).
    rw Hview; [done|unfold ztl_size in *; by rw Hsize Hsp| |by apply Hvw].
    apply (newPhys_nonzero s newZone zi); [done|done|by apply Hzero|lia].
Qed.
End commit.

(** ** The collector's calls; [amb] holds what the engine does not own *)
Section calls.
Context (v : Z) (amb : ZTL D J).
Let st g : ZTL D J := z_set_gc g amb.

Ltac gc_steps := unfold on_zm, on_l2p, on_device, p2l_modify, stats_modify, zm_modify; wp_steps.

Lemma gc_md_wf g : ztl_wf (st g) → md_wf (gc_md g).
Proof. intros Hwf. apply (wbd_md _ (mw_wbd _ _ _ _ (zw_map _ Hwf))). Qed.

Lemma wp_gc_read lba c (Q : GCEngine D J → outcome (list byte) → Prop) g :
  ztl_wf (st g) → 0 ≤ lba → 0 < c < 2^32 → lba + c ≤ Device_Capacity (md_dev (gc_md g)) →
  (∀ g' o, returns o → gc_step v (st g) (st g') → gc_l2p g' = gc_l2p g →
    (∀ data, o = Ok data → len data = sectorSize * c ∧
      ∀ i, 0 ≤ i < c → sec data i = dev_sector (md_dev (gc_md g)) (lba + i)) → Q g' o) →
  wp (on_zm (on_device (ReadSectors lba c))) Q g.
Proof.
  intros Hwf Hlba Hc Hcap HQ. pose proof (gc_md_wf g Hwf) as Hmd. gc_steps.
  eapply wp_mono; [by apply dev_read; [apply (md_dev_wf _ Hmd)|..]|].
  intros d' o (Hret & Hd & Hdata). apply HQ; [done| |done|done].
  apply (gc_step_md v (st g)); [done|by apply (md_same_dev (gc_md g))|done].
Qed.

Lemma wp_gc_alloc (Q : GCEngine D J → outcome Z → Prop) g :
  ztl_wf (st g) →
  (∀ g' o, returns o → gc_step v (st g) (st g') → gc_l2p g' = gc_l2p g →
    match o with
    | Ok z => 0 ≤ z ∧ z ∈ zm_freeList (the_zm g) ∧ z ∉ zm_freeList (the_zm g') ∧
        (zone0_kept (st g) (st g') → z ≠ 0) ∧
        ∃ zi, zm_zones (the_zm g') !! Z.to_nat z = Some zi ∧ zi_WritePointer zi = zi_StartLBA zi ∧
              zi_StartLBA zi + z_sectorsPerSeg amb ≤ zi_StartLBA zi + zi_SizeSectors zi
    | _ => True
    end → Q g' o) →
  wp (on_zm AllocateFree) Q g.
Proof.
  intros Hwf HQ. gc_steps. apply wp_AllocateFree; [by apply gc_md_wf|]. intros md o Hmd Hret Halloc.
  assert (Hsub : ∀ z, z ∈ zm_freeList (md_zm md) → z ∈ zm_freeList (the_zm g)).
  { intros z. unfold the_zm. destruct o as [zid|]; simpl in Halloc; [|by rw Halloc].
    destruct Halloc as [-> _]. set_solver. }
  apply HQ; [done|by apply (gc_step_md v (st g))|done|].
  destruct o as [z|]; [|done]. destruct Halloc as [Hfl _].
  destruct (allocated_zone (st g) md z Hwf Hmd Hfl) as ((z1 & Hz1 & Hid & Hni & Hr) & _ & Hr0 & z2 & Hz2 & Hroom).
  assert (z2 = z1) as -> by congruence.
  split; [done|]. split; [unfold the_zm; rw Hfl; set_solver|]. split; [done|]. split; [exact Hr0|].
  exists z1. split; [done|].
  destruct Hmd as (_ & [Hg _] & _). destruct (md_geom_lookup _ _ _ _ Hg Hz1) as (z0 & Hz0 & [= _ Hw Hst Hsz]).
  assert (zi_WritePointer z0 = zi_StartLBA z0).
  { apply (md_free_wp _ (gc_md_wf g Hwf) (Z.to_nat z)); [done|]. rw Z2Nat.id //. rw Hfl. set_solver. }
  change (z_sectorsPerSeg (st g)) with (z_sectorsPerSeg amb) in Hroom. split; [congruence|lia].
Qed.

Lemma wp_gc_journal {A} (m : M J A) (Q : GCEngine D J → outcome unit → Prop) g :
  ztl_wf (st g) → (∀ j, jr_wf j → wp m (λ j' o, jr_wf j' ∧ returns o) j) →
  (∀ oj o, returns o → gc_step v (st g) (st (gc_set_journal oj g)) → Q (gc_set_journal oj g) o) →
  wp (with_journal m) Q g.
Proof.
  intros Hwf Hm HQ. apply wp_with_journal; [apply Hwf|done|]. intros oj o Hoj Hret.
  apply HQ; [done|]. by apply gc_step_same.
Qed.

(** Changes of the device confined to a zone in which no segment lives. *)
Lemma gc_step_dev z zi d g :
  ztl_wf (st g) → 0 ≤ z → zm_zones (the_zm g) !! Z.to_nat z = Some zi →
  (∀ seg, 0 ≤ seg < l2p_size (gc_l2p g) → L2PTable_Get seg (gc_l2p g) ≠ 0 →
    PhysAddr_ZoneID (L2PTable_Get seg (gc_l2p g)) ≠ z) →
  dev_wf d → Device_Capacity d = Device_Capacity (md_dev (gc_md g)) → ZoneSize d = ZoneSize (md_dev (gc_md g)) →
  (∀ l, 0 ≤ l < Device_Capacity (md_dev (gc_md g)) →
    l / ZoneSize (md_dev (gc_md g)) ≠ zi_StartLBA zi / ZoneSize (md_dev (gc_md g)) →
    dev_sector d l = dev_sector (md_dev (gc_md g)) l) →
  gc_step v (st g) (st (gc_set_md (mkZMD (the_zm g) d) g)).
Proof.
  intros Hwf Hz Hzi Hev Hd Hcap Hzs Hsec. pose proof (zw_map _ Hwf) as Hmap.
  pose proof (wbd_dev_frame z (z_wbd (st g)) d zi (mw_wbd _ _ _ _ Hmap) Hz Hzi Hd Hcap Hzs Hsec) as Hf.
  pose proof (ztl_wf_wbd _ (st g) _ Hwf Hf ltac:(done)) as Hwf'.
  split; try done. intros lba _ Hlba.
  assert (Hseg : 0 ≤ lba / z_sectorsPerSeg amb < l2p_size (gc_l2p g)).
  { pose proof (mw_sps _ _ _ _ Hmap). unfold ztl_size in Hlba. simpl in *.
    change (z_l2p (st g)) with (gc_l2p g) in Hlba. split; [apply Z.div_pos; lia|apply Z.div_lt_upper_bound; lia]. }
  destruct (decide (L2PTable_Get (lba / z_sectorsPerSeg amb) (gc_l2p g) = 0)) as [H0'|Hne].
  - unfold ztl_sector, map_view. cbv zeta. change (z_sectorsPerSeg (st _)) with (z_sectorsPerSeg amb).
    change (z_l2p (st _)) with (gc_l2p g). by rw H0'.
  - apply (map_view_frame (λ z', z' ≠ z) _ (z_p2l (st g)) (z_wbd (st g))); [exact Hmap|exact Hf|done|done|].
    by apply Hev.
Qed.

(** A write that failed left anything in the sectors it was for; a successful one
    put [data] there. *)
Lemma wp_gc_write lba data n (Q : GCEngine D J → outcome unit → Prop) g :
  ztl_wf (st g) → 0 ≤ lba < 2^64 → 0 ≤ n < 2^32 → len data = sectorSize * n →
  (∀ d e, dev_wf d → Device_Capacity d = Device_Capacity (md_dev (gc_md g)) →
    ZoneSize d = ZoneSize (md_dev (gc_md g)) →
    (∀ l, 0 ≤ l < Device_Capacity (md_dev (gc_md g)) → ¬ (lba ≤ l < lba + n) →
      dev_sector d l = dev_sector (md_dev (gc_md g)) l) →
    Q (gc_set_md (mkZMD (the_zm g) d) g) (Fail e)) →
  (∀ d, dev_wf d → Device_Capacity d = Device_Capacity (md_dev (gc_md g)) →
    ZoneSize d = ZoneSize (md_dev (gc_md g)) →
    (∀ l, 0 ≤ l < Device_Capacity (md_dev (gc_md g)) →
      dev_sector d l = if bool_decide (lba ≤ l < lba + n) then sec data (l - lba)
                       else dev_sector (md_dev (gc_md g)) l) →
    Q (gc_set_md (mkZMD (the_zm g) d) g) (Ok tt)) →
  wp (on_zm (on_device (WriteSectors lba data))) Q g.
Proof.
  intros Hwf Hlba Hn Hlen Hfail Hok. pose proof (gc_md_wf g Hwf) as Hmd. gc_steps.
  eapply wp_mono; [by apply (dev_write _ lba data n); [apply (md_dev_wf _ Hmd)|..]|].
  intros d o (Hret & Hd & Hcap & Hzs & _ & Hsec). destruct o as [[]|[e| |]]; try done; simpl in Hsec.
  - apply Hok; [done..|]. intros l Hl. by apply Hsec; [|left].
  - apply Hfail; [done..|]. intros l Hl Hout. rw Hsec; [done|by right|]. by rw bool_decide_false.
Qed.

Lemma gc_step_counted g zm :
  ztl_wf (st g) → md_same (gc_md g) (mkZMD zm (md_dev (gc_md g))) → zm_freeList zm = zm_freeList (the_zm g) →
  gc_step v (st g) (st (gc_set_md (mkZMD zm (md_dev (gc_md g))) g)).
Proof. intros. by apply (gc_step_counts v (st g)). Qed.

Lemma live_phys g seg off :
  ztl_wf (st g) → 0 ≤ seg < l2p_size (gc_l2p g) →
  L2PTable_Get seg (gc_l2p g) ≠ 0 → p2l_key (L2PTable_Get seg (gc_l2p g)) = (v, off) →
  wb_buffers (z_buf amb) !! v = None →
  ∃ zi, ZoneManager_ZoneInfo v (the_zm g) = Some zi ∧
    0 ≤ zi_StartLBA zi + off ∧ zi_StartLBA zi + off + z_sectorsPerSeg amb < 2^54 ∧
    zi_StartLBA zi + off + z_sectorsPerSeg amb ≤ Device_Capacity (md_dev (gc_md g)) ∧
    ∀ lba, 0 ≤ lba < ztl_size (st g) → lba / z_sectorsPerSeg amb = seg →
      ztl_sector (st g) lba = dev_sector (md_dev (gc_md g)) (zi_StartLBA zi + off + lba `mod` z_sectorsPerSeg amb).
Proof.
  intros Hwf Hseg Hne [= Hz Ho] Hb. set (p := L2PTable_Get seg (gc_l2p g)) in *.
  pose proof (mw_placed _ _ _ _ (zw_map _ Hwf) seg Hseg Hne) as Hpl. fold p in Hpl.
  destruct (placed_bounds (st g) p Hwf Hpl) as (zi & Hzi & Heq & H0' & Hc & Hlt).
  rw Hz Ho in Hzi Heq. rw Heq in H0' Hc Hlt.
  pose proof (PhysAddr_ZoneID_range p) as Hr. rw Hz in Hr.
  exists zi. split; [by apply ZoneInfo_Some; [lia|]|]. split; [done|]. split; [done|]. split; [done|].
  intros lba Hlba Hq. unfold ztl_sector, map_view. cbv zeta.
  change (z_sectorsPerSeg (st g)) with (z_sectorsPerSeg amb).
  change (z_l2p (st g)) with (gc_l2p g). rw Hq. fold p.
  unfold PhysAddr_IsUnmapped. destruct (Z.eqb_spec p 0); [done|].
  rw Heq Hz. unfold phys_sector. change (wd_buf (z_wbd (st g))) with (z_buf amb). by rw Hb.
Qed.

(** The counters at the end of a migration. *)
Definition gc_counted (z n : Z) g : GCEngine D J :=
  let g1 := gc_set_md (mkZMD (DecrementValidSegs v (the_zm g)) (md_dev (gc_md g))) g in
  let g2 := gc_set_md (mkZMD (IncrementValidSegs z (the_zm g1)) (md_dev (gc_md g1))) g1 in
  gc_set_stats (stats_migrated n (gc_stats g2)) g2.

Lemma gc_counted_step z n g : ztl_wf (st g) → gc_step v (st g) (st (gc_counted z n g)).
Proof.
  intros Hwf. unfold gc_counted. cbv zeta.
  set (g1 := gc_set_md (mkZMD (DecrementValidSegs v (the_zm g)) (md_dev (gc_md g))) g).
  assert (Hs1 : gc_step v (st g) (st g1)).
  { apply gc_step_counted; [done|by apply DecrementValidSegs_same, gc_md_wf|].
    unfold DecrementValidSegs. by case_match. }
  set (g2 := gc_set_md (mkZMD (IncrementValidSegs z (the_zm g1)) (md_dev (gc_md g1))) g1).
  assert (Hs2 : gc_step v (st g1) (st g2)).
  { apply gc_step_counted; [apply Hs1|apply IncrementValidSegs_same, gc_md_wf, Hs1|].
    unfold IncrementValidSegs. by case_match. }
  eapply gc_step_trans; [exact Hs1|]. eapply gc_step_trans; [exact Hs2|].
  by apply gc_step_same; try done; apply Hs2.
Qed.

(** A failed write to a zone that was just allocated. *)
Lemma fresh_zone_step z zi d g :
  ztl_wf (st g) → 0 ≤ z → ¬ old_zone z → zm_zones (the_zm g) !! Z.to_nat z = Some zi → zi_WritePointer zi = zi_StartLBA zi →
  zi_StartLBA zi + z_sectorsPerSeg amb ≤ zi_StartLBA zi + zi_SizeSectors zi →
  dev_wf d → Device_Capacity d = Device_Capacity (md_dev (gc_md g)) → ZoneSize d = ZoneSize (md_dev (gc_md g)) →
  (∀ l, 0 ≤ l < Device_Capacity (md_dev (gc_md g)) →
    ¬ (zi_WritePointer zi ≤ l < zi_WritePointer zi + z_sectorsPerSeg amb) →
    dev_sector d l = dev_sector (md_dev (gc_md g)) l) →
  gc_step v (st g) (st (gc_set_md (mkZMD (the_zm g) d) g)).
Proof.
  intros Hwf Hz Hno Hzi Hwp Hroom Hd Hcap Hzs Hsec. pose proof (gc_md_wf g Hwf) as Hmd.
  apply (gc_step_dev z zi); try done.
  - intros seg Hs Hne Heq. destruct (mw_placed _ _ _ _ (zw_map _ Hwf) seg Hs Hne) as (_ & zi' & Hzi' & _ & Ha & Hw & _).
    change (z_l2p (st g)) with (gc_l2p g) in *. rw Heq in Hzi'. change (zm_zones (the_zm g) !! Z.to_nat z = Some zi') in Hzi'.
    pose proof (mw_sps _ _ _ _ (zw_map _ Hwf)). pose proof (PhysAddr_OffsetSectors_range (L2PTable_Get seg (gc_l2p g))).
    assert (zi' = zi) as -> by congruence. rw Heq in Ha. specialize (Ha Hno). lia.
  - intros l Hl Hq. apply Hsec; [done|]. intros Hin. apply Hq.
    destruct (md_zone _ Hmd _ _ Hzi) as (Hst & Hsz & _). destruct (dev_geometry _ (md_dev_wf _ Hmd)) as [Hz0 _].
    rw Z2Nat.id // in Hst. rw Hst Z.mul_comm Z.div_mul; [lia|]. symmetry. apply (Z.div_unique _ _ _ (l - zi_StartLBA zi)); lia.
Qed.

(** A segment copied to a fresh zone. *)
Lemma wp_migrate_place seg z zi data (Q : GCEngine D J → outcome unit → Prop) g0 g :
  gc_step v (st g0) (st g) → 0 ≤ seg < l2p_size (gc_l2p g) → L2PTable_Get seg (gc_l2p g) ≠ 0 →
  0 ≤ z → z ∉ zm_freeList (the_zm g) → ¬ old_zone z → z ≠ v → wb_buffers (z_buf amb) !! z = None →
  (zone0_kept (st g0) (st g) → z ≠ 0) →
  zm_zones (the_zm g) !! Z.to_nat z = Some zi → zi_WritePointer zi = zi_StartLBA zi →
  zi_StartLBA zi + z_sectorsPerSeg amb ≤ zi_StartLBA zi + zi_SizeSectors zi →
  len data = sectorSize * z_sectorsPerSeg amb →
  (zone0_kept (st g0) (st g) → ∀ lba, 0 ≤ lba < ztl_size (st g) → lba / z_sectorsPerSeg amb = seg →
    sec data (lba `mod` z_sectorsPerSeg amb) = ztl_sector (st g) lba) →
  (∀ g' o, returns o → gc_step v (st g0) (st g') →
    (is_ok o → PhysAddr_ZoneID (L2PTable_Get seg (gc_l2p g')) ≠ v) → Q g' o) →
  wp (migrate_place v seg (L2PTable_Get seg (gc_l2p g)) z data) Q g.
Proof.
  intros Hs Hseg Hne Hid Hni Hno Hv Hb Hnz Hzi Hwp Hroom Hlen Hdata HQ.
  pose proof (gs_wf _ _ _ Hs) as Hwf. pose proof (mw_sps _ _ _ _ (zw_map _ Hwf)) as Hsps.
  change (z_sectorsPerSeg (st g)) with (z_sectorsPerSeg amb) in Hsps.
  destruct (zone_bounds (st g) _ zi Hwf Hzi) as (Hst & _ & Hbound).
  assert (HsZ : ZoneManager_ZoneStartLBA z (the_zm g) = zi_StartLBA zi).
  { unfold ZoneManager_ZoneStartLBA, zone_out_of_range. pose proof (lookup_lt_Some _ _ _ Hzi). rw Hzi.
    destruct (Z.leb_spec (len (zm_zones (the_zm g))) z); [unfold len in *; lia|done]. }
  unfold migrate_place. wp_steps. rw HsZ (WritePointer_eq _ _ _ Hid Hzi) (zw_gc_sps _ Hwf : gc_sectorsPerSeg g = z_sectorsPerSeg amb).
  rw (u64_small (zi_WritePointer zi - zi_StartLBA zi)); [lia|].
  rw (u64_small (zi_WritePointer zi + z_sectorsPerSeg amb)); [lia|].
  set (p := L2PTable_Get seg (gc_l2p g)) in *. set (newPhys := EncodePhysAddr z _).
  apply wp_gc_journal; [done|intros; by apply jr_LogL2PUpdate|]. intros oj o Hret Hs1.
  pose proof (gc_step_trans _ _ _ _ Hs Hs1) as Hs01. set (g1 := gc_set_journal oj g) in *.
  destruct o as [[]|[e| |]]; try done; cbn beta iota; [|by apply HQ].
  wp_steps. apply (wp_gc_write _ data (z_sectorsPerSeg amb)); [apply Hs1|lia|lia|done| |].
  { intros d e Hd Hcap Hzs Hsec. apply HQ; [done|eapply gc_step_trans; [exact Hs01|]|done].
    apply (fresh_zone_step z zi); try done; apply Hs1. }
  intros d Hd Hcap Hzs Hsec. cbn beta iota. gc_steps.
  unfold wp at 1. rw L2PTable_CAS_eq; [lia|].
  change (gc_l2p (gc_set_md _ _)) with (gc_l2p g). fold p. rw Z.eqb_refl.
  destruct (Z.ltb_spec seg (l2p_size (gc_l2p g))); [|lia]. cbn [andb fst snd negb]. gc_steps.
  destruct (gc_commit_step v seg z zi d data (st g0) (st g1)) as (Hs3 & Hget & Hzv);
    try done; [rw Hwp; done|by rw Hwp|].
  set (sc := gc_commit _ _ _ _ _ _) in Hs3, Hget.
  change (Q (gc_counted z (len data) (z_gc sc)) (Ok tt)).
  apply HQ; [done|eapply gc_step_trans; [exact Hs3|]; apply gc_counted_step, Hs3|].
  intros _. change (gc_l2p (gc_counted z (len data) (z_gc sc))) with (z_l2p sc). by rw Hget.
Qed.

Lemma wp_migrate seg off (Q : GCEngine D J → outcome unit → Prop) g :
  gc_pre v (st g) → 0 ≤ seg < l2p_size (gc_l2p g) →
  (∀ g' o, returns o → gc_step v (st g) (st g') → (is_ok o → ¬ lives_at v off seg (st g')) → Q g' o) →
  wp (migrateSegment v seg off) Q g.
Proof.
  intros Hpre Hseg HQ. pose proof (gp_wf _ _ Hpre) as Hwf. pose proof (gp_buf _ _ Hpre) as Hbuf.
  pose proof (mw_sps _ _ _ _ (zw_map _ Hwf)) as Hsps. change (z_sectorsPerSeg (st g)) with (z_sectorsPerSeg amb) in Hsps.
  unfold migrateSegment. wp_steps. set (p := L2PTable_Get seg (gc_l2p g)).
  unfold PhysAddr_IsUnmapped. destruct (Z.eqb_spec p 0) as [Hp|Hp].
  { gc_steps. rw Hp. apply HQ; [done|by apply (gc_step_p2l0 v (st g))|]. intros _ [Hne _]. by apply Hne. }
  case_match eqn:Hkey.
  { wp_steps. apply HQ; [done|by apply gc_step_refl|]. intros _ [_ [= Hz Ho]].
    change (z_l2p (st g)) with (gc_l2p g) in Hz, Ho. fold p in Hz, Ho. lia. }
  assert (Hk : p2l_key p = (v, off)) by (unfold p2l_key; f_equal; lia).
  destruct (live_phys g seg off Hwf Hseg Hp Hk Hbuf) as (zi & Hzi & H0' & Hlt & Hcap & Hview).
  wp_steps. rw Hzi. wp_steps. rw u64_small; [lia|]. rw u32_small.
  { rw (zw_gc_sps _ Hwf). change (z_sectorsPerSeg (st g)) with (z_sectorsPerSeg amb). lia. }
  rw (zw_gc_sps _ Hwf : gc_sectorsPerSeg g = z_sectorsPerSeg amb).
  apply wp_gc_read; [done|lia|done|lia|]. intros g1 o Hret Hs1 Ht1 Hdata.
  destruct o as [data|[e| |]]; try done; cbn beta iota; [|by apply HQ]. destruct (Hdata data eq_refl) as [Hlen Hsec].
  wp_steps. apply wp_gc_alloc; [apply Hs1|]. intros g2 o Hret2 Hs2 Ht2 Hz2.
  pose proof (gc_step_trans _ _ _ _ Hs1 Hs2) as Hs12.
  destruct o as [z|[e| |]]; try done; cbn beta iota; [|by apply HQ].
  destruct Hz2 as (Hid & Hin1 & Hni & Hnz & zn & Hzn & Hwp & Hroom).
  assert (Hpg : p = L2PTable_Get seg (gc_l2p g2)) by (unfold p; by rw Ht2 Ht1). rw Hpg.
  assert (Hin : z ∈ zm_freeList (the_zm g)) by (by apply (gs_free _ _ _ Hs1)).
  apply (wp_migrate_place seg z zn data _ g); try done.
  - by rw Ht2 Ht1.
  - by rw -Hpg.
  - intros Ho. by destruct (mw_old _ _ _ _ (zw_map _ Hwf) _ Ho) as [[] _].
  - intros ->. by apply (gp_used _ _ Hpre).
  - destruct (wb_buffers (z_buf amb) !! z) as [b|] eqn:Hzb; [|done].
    by destruct (wbd_buf _ (mw_wbd _ _ _ _ (zw_map _ Hwf)) z b Hzb) as (_ & _ & Hnf & _).
  - intros Hkp. apply Hnz. destruct Hkp as [Hkp|Hkp]; [left|by right].
    intros Hx. apply Hkp. by apply (gs_free _ _ _ Hs1).
  - intros Hkp lba Hlba Hq. pose proof (gs_size _ _ _ Hs12) as Hsz.
    assert (Hlba' : 0 ≤ lba < ztl_size (st g)) by (unfold ztl_size in *; by rw Hsz in Hlba).
    rw (gs_view _ _ _ Hs12) // Hview // Hsec //. apply Z.mod_pos_bound. lia.
  - intros g' o Hret3 Hs3 Hzv. apply HQ; [done|done|]. intros Ho [_ [= Hx _]]. by apply Hzv.
Qed.

(** ** One collection *)
Lemma gc_step_frozen g fs :
  ztl_wf (st g) →
  gc_step v (st g) (st (gc_set_md (mkZMD (zm_set_frozen fs (the_zm g)) (md_dev (gc_md g))) g)).
Proof. intros Hwf. by apply gc_step_counted; [|apply md_same_frozen, gc_md_wf|]. Qed.

Lemma l2p_value_range g seg :
  ztl_wf (st g) → 0 ≤ L2PTable_Get seg (gc_l2p g) < 2^64.
Proof.
  intros Hwf. pose proof (zw_map _ Hwf) as Hmap.
  assert (Hval : ∀ seg', 0 ≤ seg' → 0 ≤ L2PTable_Get seg' (gc_l2p g) < 2^64).
  { intros seg' Hs. destruct (decide (L2PTable_Get seg' (gc_l2p g) = 0)) as [->|Hne]; [done|].
    destruct (decide (seg' < l2p_size (gc_l2p g))) as [Hlt|Hge].
    - destruct (mw_placed _ _ _ _ Hmap seg') as [Hr _]; done.
    - unfold L2PTable_Get in *. by destruct (Z.leb_spec (l2p_size (gc_l2p g)) seg'); [|lia]. }
  destruct (decide (0 ≤ seg)); [by apply Hval|]. specialize (Hval 0 ltac:(lia)).
  destruct (mw_l2p _ _ _ _ Hmap) as (_ & Hsz & _). change (z_l2p (st g)) with (gc_l2p g) in Hsz.
  unfold L2PTable_Get in *. replace (Z.to_nat seg) with 0%nat by lia. change (Z.to_nat 0) with 0%nat in Hval.
  destruct (Z.leb_spec (l2p_size (gc_l2p g)) seg); [lia|].
  destruct (Z.leb_spec (l2p_size (gc_l2p g)) 0); [|done].
  pose proof (proj1 (mw_l2p _ _ _ _ Hmap)) as Hl. unfold l2p_wf in Hl. change (z_l2p (st g)) with (gc_l2p g) in Hl.
  destruct (l2p_entries (gc_l2p g)); [done|]. unfold len in Hl. simpl in Hl. lia.
Qed.

(** The live segments of the victim are exactly the segments mapped into it. *)
Lemma live_segments_spec order g off seg :
  ztl_wf (st g) → ¬ old_zone v → (∀ l, order l ≡ₚ l) →
  (off, seg) ∈ live_segments order v g ↔ 0 ≤ seg < l2p_size (gc_l2p g) ∧ lives_at v off seg (st g).
Proof.
  intros Hwf Hno Horder. unfold live_segments, lives_at. rw list_elem_of_filter elem_of_IterateZone //. simpl.
  change (z_l2p (st g)) with (gc_l2p g). set (p := L2PTable_Get seg (gc_l2p g)).
  pose proof (mw_p2l _ _ _ _ (zw_map _ Hwf) (v, off) seg Hno) as Hp2l.
  change (z_p2l (st g)) with (gc_p2l g) in Hp2l. change (z_l2p (st g)) with (gc_l2p g) in Hp2l. fold p in Hp2l.
  unfold PhysAddr_IsUnmapped. rw Z.eqb_neq. split.
  - intros ((Hne & Hz & Ho) & Hm). assert (Hk : p2l_key p = (v, off)) by (unfold p2l_key; congruence).
    assert (Hk0 : (v, off) ≠ (0, 0)).
    { intros H0'. apply Hne. apply (p2l_key_inj p 0); [by apply l2p_value_range|lia|]. by rw Hk H0'. }
    split; [|done]. by apply Hp2l.
  - intros (Hs & Hne & Hk). destruct (proj2 Hp2l) as [_ Hm]; [done|].
    injection Hk as Hz Ho. done.
Qed.

(** The victim holds no mapped segment. *)
Definition evacuated s : Prop := ∀ seg, 0 ≤ seg < l2p_size (z_l2p s) → L2PTable_Get seg (z_l2p s) ≠ 0 →
  PhysAddr_ZoneID (L2PTable_Get seg (z_l2p s)) ≠ v.

Lemma evacuated_step s s' : evacuated s → gc_step v s s' → evacuated s'.
Proof.
  intros He Hs seg Hseg Hne Hz. rw (gs_size _ _ _ Hs) in Hseg.
  pose proof (gs_live _ _ _ Hs seg Hseg Hne Hz) as Heq. rw Heq in Hne Hz. by apply (He seg).
Qed.

Lemma wp_migrate_all order (Q : GCEngine D J → outcome unit → Prop) g :
  gc_pre v (st g) → (∀ l, order l ≡ₚ l) →
  (∀ g' o, returns o → gc_step v (st g) (st g') → (is_ok o → evacuated (st g')) → Q g' o) →
  wp (for_each (λ (_ : unit) (seg : Z * Z),
        wrap "migrating segment %d: %w" (migrateSegment v seg.2 seg.1)) tt (live_segments order v g)) Q g.
Proof.
  intros Hpre Horder HQ. pose proof (gp_wf _ _ Hpre) as Hwf. pose proof (gp_new _ _ Hpre) as Hno.
  apply wp_for_each with (I := λ done g' (_ : unit), gc_step v (st g) (st g') ∧
    ∀ off seg, (off, seg) ∈ done → ¬ lives_at v off seg (st g')).
  - split; [by apply gc_step_refl|]. intros off seg Hin. by apply not_elem_of_nil in Hin.
  - intros done [off seg] todo g1 [] Hsplit [Hs Hgone].
    assert (Hin : (off, seg) ∈ live_segments order v g) by (rw Hsplit; set_solver).
    apply live_segments_spec in Hin as [Hseg _]; [|done..].
    wp_steps. apply wp_migrate; [by eapply gc_pre_step|by rw (gs_size _ _ _ Hs : l2p_size (gc_l2p g1) = _)|].
    intros g2 o Hret Hs2 Hlive. pose proof (gc_step_trans _ _ _ _ Hs Hs2) as Hs12. 
    destruct o as [[]|[e| |]]; try done; [|by apply HQ].
    split; [done|]. intros off' seg'. rw elem_of_app list_elem_of_singleton. intros [Hin|[= -> ->]]; [|by apply Hlive].
    assert (Hin' : (off', seg') ∈ live_segments order v g) by (rw Hsplit; set_solver).
    apply live_segments_spec in Hin' as [Hseg' _]; [|done..].
    intros [Hne Hk]. apply (Hgone _ _ Hin). change (l2p_size (gc_l2p g)) with (l2p_size (z_l2p (st g))) in Hseg'.
    rw -(gs_size _ _ _ Hs) in Hseg'.
    unfold lives_at. injection Hk as Hz Ho. pose proof (gs_live _ _ _ Hs2 seg' Hseg' Hne Hz) as Heq.
    rw -Heq. split; [done|]. unfold p2l_key. by rw Hz Ho.
  - intros g1 [] [Hs Hgone]. apply HQ; [done|done|]. intros _ seg Hseg Hne Hz.
    rw (gs_size _ _ _ Hs) in Hseg. pose proof (gs_live _ _ _ Hs seg Hseg Hne Hz) as Heq.
    apply (Hgone (PhysAddr_OffsetSectors (L2PTable_Get seg (z_l2p (st g)))) seg).
    + apply live_segments_spec; [done..|]. split; [done|]. unfold lives_at. rw Heq in Hne Hz.
      split; [done|]. unfold p2l_key. by rw Hz.
    + split; [done|]. unfold p2l_key. by rw Hz Heq.
Qed.

(** Resetting the device zone of an evacuated victim, whatever the device answers. *)
Lemma wp_gc_reset zi (Q : GCEngine D J → outcome unit → Prop) g :
  gc_pre v (st g) → evacuated (st g) → ZoneManager_ZoneInfo v (the_zm g) = Some zi →
  (∀ d o, returns o → gc_step v (st g) (st (gc_set_md (mkZMD (the_zm g) d) g)) →
    Q (gc_set_md (mkZMD (the_zm g) d) g) o) →
  wp (on_zm (on_device (ResetZone (zi_StartLBA zi)))) Q g.
Proof.
  intros Hpre Hev Hzi HQ. pose proof (gp_wf _ _ Hpre) as Hwf. pose proof (gc_md_wf g Hwf) as Hmd.
  destruct (gp_range _ _ Hpre) as [Hv Hlen].
  apply (ZoneInfo_Some _ _ zi Hv) in Hzi. destruct (zone_bounds (st g) _ zi Hwf Hzi) as (Hs0 & Hsz & Hs1).
  gc_steps. eapply wp_mono; [apply dev_reset; [apply (md_dev_wf _ Hmd)|lia]|].
  intros d o (Hret & Hd & Hcap & Hzs & Hsec). apply HQ; [done|]. by apply (gc_step_dev v zi).
Qed.

(** What a finished collection leaves: the victim is the last free zone, empty. *)
Record gc_done_via gd_mid s s' : Prop := {
  gd_step : gc_step v s gd_mid;
  gd_wf : ztl_wf s';
  gd_buf : z_buf s' = z_buf gd_mid;
  gd_l2p : z_l2p s' = z_l2p gd_mid;
  gd_sps : z_sectorsPerSeg s' = z_sectorsPerSeg gd_mid;
  gd_free : zm_freeList (z_zm s') = zm_freeList (z_zm gd_mid) ++ [v];
  gd_view lba : 0 ≤ lba < ztl_size gd_mid → ztl_sector s' lba = ztl_sector gd_mid lba;
}.

Definition gc_done s s' : Prop := ∃ mid, gc_done_via mid s s'.

Lemma gc_empty_done s0 g :
  gc_step v s0 (st g) → gc_pre v (st g) → evacuated (st g) →
  gc_done s0 (st (gc_set_md (mkZMD (zm_empty v (the_zm g)) (md_dev (gc_md g))) g)).
Proof.
  intros Hs Hpre Hev. pose proof (gp_wf _ _ Hpre) as Hwf.
  destruct (map_wf_empty _ _ _ _ v (zw_map _ Hwf) (gp_range _ _ Hpre) (gp_used _ _ Hpre) (gp_new _ _ Hpre) (gp_buf _ _ Hpre) Hev)
    as [Hmap Hview].
  assert (Hfree : zm_freeList (zm_empty v (the_zm g)) = zm_freeList (the_zm g) ++ [v]).
  { simpl. by destruct (zm_drop_open_zones (zm_alter_zone v (λ z,
      zi_set_segs 0 0 (zi_set_wp (zi_StartLBA z) (zi_set_state ZoneStateEmpty z))) (the_zm g)) v) as (_ & -> & _). }
  exists (st g). split; [done| |done|done|done|exact Hfree|exact Hview].
  split; [exact Hmap| |apply Hwf|apply Hwf|apply Hwf]. intros Ho.
  destruct (zw_current _ Hwf Ho) as (z & Hz & H0' & Hn & Hr). pose proof (gp_cur _ _ Hpre Ho) as Hne.
  destruct (gp_range _ _ Hpre). change (z_currentWriteZone (st g)) with (z_currentWriteZone amb) in *.
  exists z. change (z_zm (st (gc_set_md _ g))) with (zm_empty v (the_zm g)).
  split; [|split; [done|split; [rw Hfree; set_solver|done]]].
  unfold zm_empty. simpl. set (zm1 := zm_alter_zone _ _ _).
  destruct (zm_drop_open_zones zm1 v) as (-> & _). subst zm1. simpl. rw list_lookup_alter_ne //. lia.
Qed.

Lemma gc_done_same s0 s g' :
  gc_done s0 s → gc_step v s (st g') → zm_freeList (the_zm g') = zm_freeList (z_zm s) →
  z_l2p (st g') = z_l2p s → gc_done s0 (st g').
Proof.
  intros (mid & [Hs Hwf Hb Ht Hsp Hf Hv]) Hg Hfr Ht'. exists mid. split; [done|apply Hg| | | | |].
  - by rw (gs_buf _ _ _ Hg).
  - by rw Ht'.
  - by rw (gs_sps _ _ _ Hg).
  - unfold z_zm. by rw -Hf -Hfr.
  - intros lba Hlba. rw (gs_view _ _ _ Hg); [|unfold ztl_size in *; by rw Ht Hsp|by apply Hv].
    unfold zone0_kept. unfold z_zm at 2. simpl. unfold the_zm in Hfr. rw Hfr. 
    destruct (decide (0 ∈ zm_freeList (z_zm s))); auto.
Qed.

Lemma wp_deferred {A} (f : GCEngine D J → GCEngine D J) (m : M (GCEngine D J) A)
    (Q : GCEngine D J → outcome A → Prop) g :
  wp m (λ g' o, Q (f g') o) g → wp (deferred f m) Q g.
Proof. unfold wp, deferred. by destruct (m g). Qed.

(** From an evacuated victim to its return to the free list. *)
Lemma wp_collect_reset (Q : GCEngine D J → outcome unit → Prop) g0 g :
  gc_step v (st g0) (st g) → gc_pre v (st g) → evacuated (st g) →
  (∀ g' o, returns o → match o with
                       | Ok _ => gc_done (st g0) (st g')
                       | _ => gc_step v (st g0) (st g')
                       end → Q g' o) →
  wp (info ← gets (λ g, ZoneManager_ZoneInfo v (the_zm g));
      match info with
      | None => throw (Errorf "victim zone %d not found")
      | Some victimInfo =>
          wrap "resetting victim zone %d: %w"
            (on_zm (on_device (ResetZone (zi_StartLBA victimInfo)))) ;;
          wrap "marking victim zone %d empty: %w" (on_zm (MarkEmpty v)) ;;
          stats_modify stats_reclaimed
      end) Q g.
Proof.
  intros Hs Hpre Hev HQ. wp_steps.
  destruct (ZoneManager_ZoneInfo v (the_zm g)) as [zi|] eqn:Hzi; [|by wp_steps; apply HQ].
  wp_steps. apply wp_gc_reset; [done|done|done|]. intros d o Hret Hs2.
  set (g2 := gc_set_md (mkZMD (the_zm g) d) g) in *.
  pose proof (gc_step_trans _ _ _ _ Hs Hs2) as Hs12.
  pose proof (gc_pre_step _ _ _ Hpre Hs2) as Hpre2. pose proof (evacuated_step _ _ Hev Hs2) as Hev2.
  destruct o as [[]|[e| |]]; try done; cbn beta iota; [|by apply HQ].
  wp_steps. unfold on_zm. wp_step. unfold wp at 1. rw MarkEmpty_eq; [apply (gp_range _ _ Hpre2)|].
  cbn [fst snd]. pose proof (gc_empty_done _ g2 Hs12 Hpre2 Hev2) as Hdone.
  set (g3 := gc_set_md _ g2) in Hdone. change (gc_set_md _ g2) with g3. gc_steps.
  apply HQ; [done|]. eapply gc_done_same; [exact Hdone| |done|done].
  destruct Hdone as (mid & Hd). by apply gc_step_same; try done; apply Hd.
Qed.

Lemma wp_collect order (Q : GCEngine D J → outcome unit → Prop) g :
  gc_pre v (st g) → (∀ l, order l ≡ₚ l) →
  (∀ g' o, returns o → match o with
                       | Ok _ => gc_done (st g) (st g')
                       | _ => gc_step v (st g) (st g')
                       end → Q g' o) →
  wp (collectZone order v) Q g.
Proof.
  intros Hpre Horder HQ. pose proof (gp_wf _ _ Hpre) as Hwf. unfold collectZone. gc_steps.
  set (g1 := gc_set_md _ g). assert (Hs1 : gc_step v (st g) (st g1)) by by apply gc_step_frozen.
  pose proof (gc_pre_step _ _ _ Hpre Hs1) as Hpre1.
  assert (HQ' : ∀ g' o, returns o → match o with
                       | Ok _ => gc_done (st g) (st g')
                       | _ => gc_step v (st g) (st g')
                       end → Q (gc_set_md (mkZMD (Unfreeze v (the_zm g')) (md_dev (gc_md g'))) g') o).
  { intros g' o Hret Hg'. apply HQ; [done|]. destruct o as [[]|[e| |]]; try done.
    - eapply gc_done_same; [exact Hg'| |done|done]. destruct Hg' as (mid & Hd). apply gc_step_frozen, Hd.
    - eapply gc_step_trans; [exact Hg'|]. apply gc_step_frozen, Hg'. }
  apply wp_deferred. wp_steps. apply (wp_migrate_all order _ g1 Hpre1 Horder).
  intros g2 o Hret Hs2 Hev. pose proof (gc_step_trans _ _ _ _ Hs1 Hs2) as Hs12.
  pose proof (gc_pre_step _ _ _ Hpre1 Hs2) as Hpre2.
  destruct o as [[]|[e| |]]; try done; cbn beta iota; [|by apply HQ']. specialize (Hev I).
  wp_steps. apply wp_gc_journal; [apply Hs2|intros; by apply jr_LogZoneReset|]. intros oj o Hretj Hs3.
  pose proof (gc_step_trans _ _ _ _ Hs12 Hs3) as Hs13.
  destruct o as [[]|[e| |]]; try done; cbn beta iota; [|by apply HQ'].
  wp_steps. apply wp_gc_journal; [apply Hs3|intros; by apply jr_GroupCommit|]. intros oj' o Hretj' Hs4.
  pose proof (gc_step_trans _ _ _ _ Hs13 Hs4) as Hs14.
  destruct o as [[]|[e| |]]; try done; cbn beta iota; [|by apply HQ'].
  apply (wp_collect_reset _ g); [done| |by eapply evacuated_step, Hs4; eapply evacuated_step, Hs3|done].
  eapply gc_pre_step, Hs4. by eapply gc_pre_step, Hs3.
Qed.
End calls.
End gc.
