(* ===== verification/ZtlTheorems.v ===== *)
(** * Properties of the translation layer

    Reads, aligned writes, flushes and unmaps against the flat store, a trace
    refinement for any sequence of them, and the cases where the code departs
    from what its callers expect. *)

From S2P Require Import Bytes Float64 Config Zbc Backend Segment Emulator ZoneManager WriteBuffer Gc Ztl ZtlInv ZtlSpec.

(** ** The abstract store *)
Definition store : Type := Z → list byte.

(** The bytes of [count] sectors from [lba]. *)
Definition store_read (st : store) (lba count : Z) : list byte := mjoin (st <$> seqZ lba count).
Definition store_write (sps a : Z) (data : list byte) (st : store) : store := λ l,
  if decide (a ≤ l / sps < a + len data / (sectorSize * sps)) then sec data (l - sps * a) else st l.
(** Unmapping discards every segment the range touches. *)
Definition store_unmap (sps lba count : Z) (st : store) : store := λ l,
  if decide (lba / sps ≤ l / sps ≤ (lba + count - 1) / sps) then zero_sector else st l.

Lemma mjoin_sectors (st : store) lba n :
  (∀ i, 0 ≤ i < Z.of_nat n → len (st (lba + i)) = sectorSize) →
  len (mjoin (st <$> seqZ lba (Z.of_nat n))) = sectorSize * Z.of_nat n ∧
  ∀ i, 0 ≤ i < Z.of_nat n → sec (mjoin (st <$> seqZ lba (Z.of_nat n))) i = st (lba + i).
Proof.
  revert lba. induction n as [|n IH]; intros lba Hst; [split; [done|lia]|].
  rw seqZ_cons; [lia|]. replace (Z.pred (Z.of_nat (S n))) with (Z.of_nat n) by lia. simpl.
  assert (H0 : len (st lba) = sectorSize) by (rw -(Hst 0); [lia|]; f_equal; f_equal; lia).
  destruct (IH (Z.succ lba)) as [Hlen Hsec].
  { intros i Hi. replace (Z.succ lba + i) with (lba + (i + 1)) by lia. apply Hst. lia. }
  rw len_app Hlen H0. split; [lia|]. intros i Hi. destruct (decide (i = 0)) as [->|].
  - rw sec_app_l; [lia|unfold sectorSize in *; lia|]. unfold sec, sectorSize in *.
    replace (512 * (0 + 1)) with (len (st lba)) by lia. rw slice_all. f_equal. lia.
  - rw (sec_app_r _ _ 1); [lia|lia|]. rw Hsec; [lia|]. f_equal. lia.
Qed.

Lemma write_segments (sps k : Z) : 0 < sps → sectorSize * (sps * k) / (sectorSize * sps) = k.
Proof.
  intros. replace (sectorSize * (sps * k)) with (k * (sectorSize * sps)) by lia.
  rw Z.div_mul //. unfold sectorSize. lia.
Qed.

Section theorems.
Context {D J : Type} `{ZonedDeviceSpec D} `{JournalSpec J} {Old : OldZones}.
Implicit Types s : ZTL D J.

Lemma ztl_sector_len s lba :
  ztl_wf s → 0 ≤ lba < ztl_size s → len (ztl_sector s lba) = sectorSize.
Proof.
  intros Hwf Hlba. pose proof (mw_sps _ _ _ _ (zw_map _ Hwf)) as Hsps.
  unfold ztl_sector, map_view, ztl_size in *. cbv zeta.
  set (p := L2PTable_Get (lba / z_sectorsPerSeg s) (z_l2p s)).
  destruct (PhysAddr_IsUnmapped p) eqn:Hu; [by rw len_make_bytes|].
  assert (Hpl : placed (z_wbd s) (z_sectorsPerSeg s) p).
  { apply (mw_placed _ _ _ _ (zw_map _ Hwf)).
    - split; [apply Z.div_pos; lia|apply Z.div_lt_upper_bound; lia].
    - fold p. unfold PhysAddr_IsUnmapped in Hu. lia. }
  pose proof (mw_wbd _ _ _ _ (zw_map _ Hwf)) as Hw.
  assert (Hin : in_zone (md_zm (wd_md (z_wbd s))) (PhysAddr_ZoneID p)
                  (phys_start (z_wbd s) p + lba `mod` z_sectorsPerSeg s)).
  { eapply placed_in_zone; [|exact Hpl]. apply Z.mod_pos_bound. lia. }
  pose proof (in_zone_cap _ _ _ (wbd_md _ Hw) Hin) as Hcap.
  unfold phys_sector. destruct (wb_buffers _ !! _) as [b|] eqn:Hb;
    [case_bool_decide as Hbuf|]; try (apply dev_sector_len; [apply (md_dev_wf _ (wbd_md _ Hw))|done]).
  destruct (wbd_buf _ Hw _ _ Hb) as ((_ & Hw0 & n & Hn & Hlen & _) & _).
  rw (zb_end_eq b n Hlen) in Hbuf. apply len_sec; unfold sectorSize in *; lia.
Qed.

Lemma ztl_read_store s (st : store) lba count data :
  ztl_wf s → 0 ≤ lba → 0 < count → lba + count ≤ ztl_size s →
  (∀ l, 0 ≤ l < ztl_size s → ztl_sector s l = st l) →
  len data = sectorSize * count → (∀ i, 0 ≤ i < count → sec data i = ztl_sector s (lba + i)) →
  data = store_read st lba count.
Proof.
  intros Hwf Hlba Hcount Hsize Hst Hlen Hsec. unfold store_read.
  destruct (mjoin_sectors st lba (Z.to_nat count)) as [Hl Hs].
  { intros i Hi. rw -Hst; [lia|]. apply ztl_sector_len; [done|lia]. }
  assert (Hn : Z.of_nat (Z.to_nat count) = count) by lia. rw Hn in Hl Hs.
  apply (sec_ext _ _ count); [done|done|]. intros i Hi. rw Hsec // Hs // Hst //. lia.
Qed.

(** ** Traces *)
Inductive io :=
| IORead (lba count : Z)
| IOWrite (a : Z) (data : list byte)   (* from the start of segment [a] *)
| IOFlush
| IOUnmap (lba count : Z).

(** The flat store: what it answers and becomes. *)
Definition spec_out (st : store) (c : io) : list (list byte) :=
  match c with IORead lba count => [store_read st lba count] | _ => [] end.
Definition spec_next (sps : Z) (st : store) (c : io) : store :=
  match c with
  | IOWrite a data => store_write sps a data st
  | IOUnmap lba count => store_unmap sps lba count st
  | _ => st
  end.
Fixpoint spec_run (sps : Z) (st : store) (cs : list io) : list (list byte) * store :=
  match cs with
  | [] => ([], st)
  | c :: cs => let '(outs, st') := spec_run sps (spec_next sps st c) cs in (spec_out st c ++ outs, st')
  end.

(** A command inside the store; writes are whole segments. *)
Definition io_ok (size sps : Z) (c : io) : Prop :=
  match c with
  | IORead lba count => 0 ≤ lba ∧ 0 < count < 2^32 ∧ lba + count ≤ size
  | IOWrite a data => 0 ≤ a ∧ ∃ k, 0 < k ∧ len data = sectorSize * (sps * k) ∧ sps * (a + k) ≤ size
  | IOFlush => True
  | IOUnmap lba count => 0 ≤ lba ∧ 0 < count ∧ lba + count ≤ size
  end.

(** One successful command of the layer. *)
Inductive ztl_step : ZTL D J → io → list (list byte) → ZTL D J → Prop :=
| step_read s lba count data s' :
    ZTL_Read lba count s = (s', Ok data) → ztl_step s (IORead lba count) [data] s'
| step_write s order fuel now a data s' :
    z_emergencyFreeZones s ≤ FreeZoneCount (z_zm s) →
    ZTL_Write order fuel now (z_sectorsPerSeg s * a) data s = (s', Ok tt) →
    ztl_step s (IOWrite a data) [] s'
| step_flush s order s' :
    (∀ l, order l ≡ₚ l) → ZTL_Flush order s = (s', Ok tt) → ztl_step s IOFlush [] s'
| step_unmap s lba count s' :
    ZTL_Unmap lba count s = (s', Ok tt) → ztl_step s (IOUnmap lba count) [] s'.

Inductive ztl_run : ZTL D J → list io → list (list byte) → ZTL D J → Prop :=
| run_nil s : ztl_run s [] [] s
| run_cons s c out s1 cs outs s2 :
    io_ok (ztl_size s) (z_sectorsPerSeg s) c →
    ztl_step s c out s1 → ztl_run s1 cs outs s2 → ztl_run s (c :: cs) (out ++ outs) s2.

(** The simulation: a step of the layer is the step of the flat store. *)
Lemma ztl_step_spec s (st : store) c out s' :
  ztl_wf s → (∀ l, 0 ≤ l < ztl_size s → ztl_sector s l = st l) →
  io_ok (ztl_size s) (z_sectorsPerSeg s) c → ztl_step s c out s' →
  ztl_next s s' ∧
  (zone0_unused s → zone0_kept s s' →
   out = spec_out st c ∧
   ∀ l, 0 ≤ l < ztl_size s → ztl_sector s' l = spec_next (z_sectorsPerSeg s) st c l).
Proof.
  intros Hwf Hst Hok Hstep. pose proof (mw_sps _ _ _ _ (zw_map _ Hwf)) as Hsps.
  destruct Hstep as [s lba count data s' Heq|s order fuel now a data s' Hfree Heq
                    |s order s' Horder Heq|s lba count s' Heq]; simpl in Hok.
  - destruct Hok as (Hlba & Hcount & Hsize).
    pose proof (wp_ZTL_Read lba count _ s Hwf Hlba Hcount Hsize
      (λ s' o H1' H2' H3' _, conj H2' H3')) as Hw. unfold wp in Hw. rw Heq in Hw.
    destruct Hw as [Hs Hdata]. destruct (Hdata data eq_refl) as [Hlen Hsec].
    split; [by apply ztl_same_next|]. intros _ _. split.
    + simpl. f_equal. eapply ztl_read_store; try done. lia.
    + intros l Hl. destruct Hs as (_ & _ & _ & _ & Hv). by rw Hv // Hst.
  - destruct Hok as (Ha & k & Hk & Hlen & Hsize).
    assert (Hseg : a + k ≤ l2p_size (z_l2p s)) by (unfold ztl_size in Hsize; nia).
    pose proof (wp_ZTL_Write order fuel now data a k _ s Hwf Hfree Ha Hk Hseg Hlen
      (λ s' o H1' H2' H3', conj H2' H3')) as Hw. unfold wp in Hw. rw Heq in Hw.
    destruct Hw as [Hn Hw]. split; [done|]. intros Hu Hkept. split; [done|]. intros l Hl.
    destruct (Hw I) as [Hwr Hz]. rw Hwr //. simpl. unfold store_write.
    rw Hlen write_segments; [lia|].
    case_decide as Hd; [|by apply Hst]. specialize (Hz Hu Hkept _ Hd).
    unfold PhysAddr_IsUnmapped. by destruct (Z.eqb_spec (L2PTable_Get (l / z_sectorsPerSeg s) (z_l2p s')) 0).
  - pose proof (wp_ZTL_Flush order _ s Hwf Horder (λ s' o H1' H2' H3' H4', H4')) as Hw.
    unfold wp in Hw. rw Heq in Hw. specialize (Hw I).
    split; [by apply ztl_same_next|]. intros _ _. split; [done|]. intros l Hl.
    destruct Hw as (_ & _ & _ & _ & Hv). by rw Hv // Hst.
  - destruct Hok as (Hlba & Hcount & Hsize).
    pose proof (wp_ZTL_Unmap lba count _ s Hwf Hlba Hcount Hsize (λ s' o H1' H2' H3', conj H2' H3')) as Hw.
    unfold wp in Hw. rw Heq in Hw. destruct Hw as [Hn Hw]. split; [done|]. intros _ _.
    split; [done|]. intros l Hl. rw (Hw I l Hl). simpl. unfold store_unmap.
    repeat case_decide; try done; try lia. by apply Hst.
Qed.

Lemma ztl_run_next s cs outs s' : ztl_wf s → ztl_run s cs outs s' → ztl_next s s'.
Proof.
  intros Hwf Hrun. induction Hrun as [s|s c out s1 cs outs s2 Hok Hstep Hrun IH].
  - by apply ztl_same_next, ztl_same_refl.
  - destruct (ztl_step_spec s (ztl_sector s) c out s1) as [Hn _]; [done..|].
    eapply ztl_next_trans; [done|]. apply IH, Hn.
Qed.
End theorems.

(** ** A small layer without a journal: three zones of four sectors, segments
    of two sectors. *)
#[export] Instance NoJournal : JournalOps Empty_set := {|
  LogL2PUpdate _ _ _ := λ j : Empty_set, match j with end;
  LogZoneOpen _ := λ j : Empty_set, match j with end;
  LogZoneClose _ := λ j : Empty_set, match j with end;
  LogZoneReset _ := λ j : Empty_set, match j with end;
  GroupCommit := λ j : Empty_set, match j with end;
|}.
#[export] Program Instance NoJournalSpec : JournalSpec Empty_set := {| jr_wf _ := True |}.
Solve All Obligations with by intros [].

Definition small_cfg : Config := {|
  cfg_Target := cfg_Target DefaultConfig; cfg_Device := cfg_Device DefaultConfig;
  cfg_ZTL := {| zc_SegmentSizeKB := 1; zc_BufferSizeMB := 1; zc_BufferFlushAgeSec := 5;
    zc_GCTriggerFreeRatio := float64_of_Z 0; zc_GCEmergencyFreeZones := 1 |};
  cfg_Journal := cfg_Journal DefaultConfig;
  cfg_API_Listen := ""; cfg_Log_Level := ""; cfg_Log_Format := "" |}.

Definition small_device : Emulator := fresh_emulator 3 4 2.
Definition small_new : outcome (ZTL Emulator Empty_set) := ZTL_New small_cfg small_device None.
(** [small_new], with a default that is not used. *)
Definition small_ztl : ZTL Emulator Empty_set :=
  match small_new with
  | Ok s => s
  | _ => {| z_gc := NewGCEngine (NewL2PTable 0) ∅ (mkZMD (NewZoneManager 0) small_device) None
                      GCStats_zero {| gcc_FreeTriggerRatio := float64_of_Z 0;
                        gcc_EmergencyFreeZones := 0; gcc_SectorsPerSegment := 0 |};
            z_buf := NewWriteBuffer 0 0; z_sectorsPerSeg := 0; z_zoneSectors := 0;
            z_emergencyFreeZones := 0; z_currentWriteZone := 0; z_currentZoneOpen := false |}
  end.

Lemma small_ztl_new : ZTL_New small_cfg small_device None = Ok small_ztl.
Proof. vm_compute. reflexivity. Qed.

Lemma small_ztl_zones i z :
  zm_zones (z_zm small_ztl) !! i = Some z → SectorsPerSegment small_cfg ≤ zi_SizeSectors z.
Proof. revert i z. apply Forall_lookup. vm_compute. repeat constructor; done. Qed.

Lemma small_ztl_wf : ztl_wf small_ztl ∧ zone0_unused small_ztl.
Proof.
  pose proof small_ztl_zones.
  destruct (ZTL_New_wf small_cfg small_device None small_ztl) as (Hwf & Hu & _); try done.
  by apply fresh_emulator_wf.
Qed.

Definition two_sectors : list byte := pattern_sector 7 ++ pattern_sector 9.
Definition small_written : ZTL Emulator Empty_set := (ZTL_Write id 0 0 2 two_sectors small_ztl).1.
Definition small_flushed : ZTL Emulator Empty_set := (ZTL_Flush id small_written).1.

(** Whole-segment writes keep the layer consistent, on every outcome. *)
Lemma ZTL_Write_wf {D J} `{ZonedDeviceSpec D} `{JournalSpec J} {Old : OldZones} (s : ZTL D J) order fuel now data a k s' o :
  ztl_wf s → z_emergencyFreeZones s ≤ FreeZoneCount (z_zm s) → 0 ≤ a → 0 < k →
  a + k ≤ l2p_size (z_l2p s) → len data = sectorSize * (z_sectorsPerSeg s * k) →
  ZTL_Write order fuel now (z_sectorsPerSeg s * a) data s = (s', o) → ztl_wf s'.
Proof.
  intros Hwf Hfree Ha Hk Hseg Hlen Heq.
  assert (Hw : wp (ZTL_Write order fuel now (z_sectorsPerSeg s * a) data) (λ s' _, ztl_wf s') s)
    by (apply (wp_ZTL_Write order fuel now data a k); [done..|]; intros s1 o1 _ Hn _; apply Hn).
  exact (wp_elim _ _ _ _ _ Heq Hw).
Qed.

Lemma small_written_wf : ztl_wf small_written.
Proof.
  apply (ZTL_Write_wf small_ztl id 0 0 two_sectors 1 1 small_written (Ok tt)).
  - apply small_ztl_wf.
  - vm_compute. discriminate.
  - lia.
  - lia.
  - vm_compute. discriminate.
  - reflexivity.
  - apply injective_projections; vm_compute; reflexivity.
Qed.

(** Any array that agrees with the store answers as the layer does. *)
Lemma ztl_run_from {D J} `{ZonedDeviceSpec D} `{JournalSpec J} {Old : OldZones} (s : ZTL D J) cs outs s' (st : store) :
  (∀ l, 0 ≤ l < ztl_size s → ztl_sector s l = st l) →
  ztl_wf s → zone0_unused s → zone0_kept s s' → ztl_run s cs outs s' →
  outs = (spec_run (z_sectorsPerSeg s) st cs).1 ∧
  ∀ l, 0 ≤ l < ztl_size s → ztl_sector s' l = (spec_run (z_sectorsPerSeg s) st cs).2 l.
Proof.
  intros Hst Hwf Hu Hk Hrun. revert st Hst Hwf Hu Hk.
  induction Hrun as [s|s c out s1 cs outs s2 Hok Hstep Hrun IH]; intros st Hst Hwf Hu Hk; [done|].
  destruct (ztl_step_spec s st c out s1 Hwf Hst Hok Hstep) as [Hn Hspec].
  pose proof Hn as (Hwf1 & Hsz & Hsps & Hfree).
  pose proof (ztl_run_next _ _ _ _ Hwf1 Hrun) as (_ & _ & _ & Hfree2).
  destruct (zone0_kept_split _ _ _ Hfree Hfree2 Hk) as [Hk1 Hk2].
  destruct (Hspec Hu Hk1) as [-> Hst1].
  assert (Hsize : ztl_size s1 = ztl_size s) by (unfold ztl_size; by rw Hsz Hsps).
  rw -Hsize in Hst1. destruct (IH _ Hst1 Hwf1) as [Houts Hs2]; [by apply Hfree|done|].
  rw Hsize Hsps in Houts Hs2. simpl.
  destruct (spec_run (z_sectorsPerSeg s) (spec_next (z_sectorsPerSeg s) st c) cs) as [os st'].
  simpl in *. by rw Houts.
Qed.

Lemma ztl_run_refines {D J} `{ZonedDeviceSpec D} `{JournalSpec J} {Old : OldZones} (s : ZTL D J) cs outs s' :
  ztl_wf s → zone0_unused s → zone0_kept s s' → ztl_run s cs outs s' →
  outs = (spec_run (z_sectorsPerSeg s) (ztl_sector s) cs).1 ∧
  ∀ l, 0 ≤ l < ztl_size s →
    ztl_sector s' l = (spec_run (z_sectorsPerSeg s) (ztl_sector s) cs).2 l.
Proof. by apply ztl_run_from. Qed.

(** C5: refinement. From a consistent state, any sequence of reads, whole-segment
    writes, flushes and unmaps, inside the store, that the layer completes without
    an error and without starting emergency collection answers exactly what a flat
    array of sectors answers - in which an unmap discards every segment it touches -
    and leaves the contents that array has, for every device that meets the
    backend's contract and with or without a journal, as long as zone 0 is not taken
    into use. *)
Theorem ztl_refines_store {D J} `{ZonedDeviceSpec D} `{JournalSpec J} {Old : OldZones} (s : ZTL D J) cs outs s' :
  ztl_wf s → zone0_unused s → zone0_kept s s' → ztl_run s cs outs s' →
  outs = (spec_run (z_sectorsPerSeg s) (ztl_sector s) cs).1 ∧
  ∀ l, 0 ≤ l < ztl_size s →
    ztl_sector s' l = (spec_run (z_sectorsPerSeg s) (ztl_sector s) cs).2 l.
Proof. apply ztl_run_refines. Qed.

Lemma ztl_refines_store_witness :
  (ZTL_Read 1 3 small_flushed).2 = Ok (zero_sector ++ two_sectors).
Proof.
  assert (Hread : ∃ data, (ZTL_Read 1 3 small_flushed).2 = Ok data) by (vm_compute; by eexists).
  destruct Hread as [data Hread].
  assert (Hrun : ztl_run small_ztl [IOWrite 1 two_sectors; IOFlush; IORead 1 3] [data]
                   (ZTL_Read 1 3 small_flushed).1).
  { apply (run_cons _ _ [] small_written _ [data]).
    - split; [lia|]. exists 1. split; [lia|]. split; [reflexivity|]. vm_compute. discriminate.
    - apply (step_write _ id 0%nat 0); [by vm_compute|]. apply injective_projections; vm_compute; reflexivity.
    - apply (run_cons _ _ [] small_flushed _ [data]); [exact I| |].
      + apply (step_flush _ id); [intros l; reflexivity|]. apply injective_projections; vm_compute; reflexivity.
      + apply (run_cons _ _ [data] (ZTL_Read 1 3 small_flushed).1 _ []); [| |apply run_nil].
        { split; [lia|]. split; [lia|]. vm_compute. discriminate. }
        apply step_read. rw -Hread. apply surjective_pairing. }
  destruct small_ztl_wf as [Hwf Hu]. rw Hread.
  assert (Hkept : zone0_kept small_ztl (ZTL_Read 1 3 small_flushed).1) by (right; vm_compute; left).
  destruct (ztl_refines_store _ _ _ _ Hwf Hu Hkept Hrun) as [Hout _].
  injection Hout as ->. vm_compute. reflexivity.
Defined.

(** C22: reading.  From a consistent state, a read inside the store leaves it as
    it was, on every outcome; when it succeeds it returns the bytes of the store
    at every position - unaligned and across segments, from the buffer or the
    device - and on a device without medium errors it does succeed. *)
Theorem ztl_read_spec {D J} `{ZonedDeviceSpec D} `{JournalSpec J} {Old : OldZones} (s : ZTL D J) lba count s' o :
  ztl_wf s → 0 ≤ lba → 0 < count < 2^32 → lba + count ≤ ztl_size s →
  ZTL_Read lba count s = (s', o) →
  returns o ∧ ztl_same s s' ∧
  (∀ data, o = Ok data → data = store_read (ztl_sector s) lba count) ∧
  (ReliableDevice D → is_ok o).
Proof.
  intros Hwf Hlba Hcount Hsize Heq.
  pose proof (wp_ZTL_Read lba count _ s Hwf Hlba Hcount Hsize
    (λ s' o a b c d, conj a (conj b (conj c d)))) as Hw. unfold wp in Hw. rw Heq in Hw.
  destruct Hw as (Hret & Hs & Hdata & Hrel). split; [done|]. split; [done|]. split; [|done].
  intros data Ho. destruct (Hdata data Ho) as [Hlen Hsec].
  by eapply ztl_read_store; try done; lia.
Qed.

Lemma ztl_read_spec_witness :
  (ZTL_Read 1 3 small_written).2 = Ok (store_read (ztl_sector small_written) 1 3).
Proof.
  destruct (ZTL_Read 1 3 small_written) as [s' o] eqn:Heq.
  destruct (ztl_read_spec small_written 1 3 s' o) as (_ & _ & Hdata & Hok); [..|exact Heq|].
  - exact small_written_wf.
  - lia.
  - lia.
  - vm_compute. discriminate.
  - specialize (Hok Emulator_reliable). destruct o as [data|r]; [|destruct Hok].
    exact (f_equal Ok (Hdata data eq_refl)).
Defined.

(** C23: writing whole segments inside the store, when no emergency collection is
    due ([emergencyFreeZones] <= [FreeZoneCount]). On every outcome the layer stays
    consistent and keeps its size; when the write succeeds, exactly the written
    sectors change, and they hold the data - unless zone 0 is taken into use, whose
    first segment reads as zeros. *)
Theorem ztl_write_spec {D J} `{ZonedDeviceSpec D} `{JournalSpec J} {Old : OldZones} (s : ZTL D J) order fuel now data a k s' o :
  ztl_wf s → z_emergencyFreeZones s ≤ FreeZoneCount (z_zm s) →
  0 ≤ a → 0 < k → a + k ≤ l2p_size (z_l2p s) →
  len data = sectorSize * (z_sectorsPerSeg s * k) →
  ZTL_Write order fuel now (z_sectorsPerSeg s * a) data s = (s', o) →
  returns o ∧ ztl_wf s' ∧ ztl_size s' = ztl_size s ∧
  (o = Ok tt → ∀ lba, 0 ≤ lba < ztl_size s →
     ztl_sector s' lba = store_write (z_sectorsPerSeg s) a data (ztl_sector s) lba ∨
     ¬ (zone0_unused s ∧ zone0_kept s s') ∧
     a ≤ lba / z_sectorsPerSeg s < a + k ∧ ztl_sector s' lba = zero_sector).
Proof.
  intros Hwf Hfree Ha Hk Hseg Hlen Heq. pose proof (mw_sps _ _ _ _ (zw_map _ Hwf)) as Hsps.
  pose proof (wp_ZTL_Write order fuel now data a k _ s Hwf Hfree Ha Hk Hseg Hlen
    (λ s' o x y z, conj x (conj y z))) as Hw. unfold wp in Hw. rw Heq in Hw.
  destruct Hw as (Hret & (Hwf' & Hsz & Hsp & _) & Hwr). split; [done|]. split; [done|].
  split; [unfold ztl_size; by rw Hsz Hsp|]. intros -> lba Hlba.
  destruct (Hwr I) as [Hwritten Hz]. rw (Hwritten lba Hlba). unfold store_write.
  rw Hlen write_segments; [lia|]. case_decide as Hd; [|by left].
  destruct (PhysAddr_IsUnmapped _) eqn:Hu; [right|by left]. split; [|done].
  intros [Hun Hkept]. apply (Hz Hun Hkept _ Hd). unfold PhysAddr_IsUnmapped in Hu. lia.
Qed.

Lemma ztl_write_spec_witness :
  ztl_wf small_written ∧ ztl_sector small_written 3 = pattern_sector 9.
Proof.
  destruct small_ztl_wf as [Hwf Hu].
  destruct (ztl_write_spec small_ztl id 0 0 two_sectors 1 1 small_written (Ok tt)) as (_ & Hwf' & _ & Hs).
  - exact Hwf.
  - vm_compute. discriminate.
  - lia.
  - lia.
  - vm_compute. discriminate.
  - reflexivity.
  - apply injective_projections; vm_compute; reflexivity.
  - split; [exact Hwf'|]. destruct (Hs eq_refl 3) as [->|[Hn _]].
    + split; [lia|]. vm_compute. reflexivity.
    + vm_compute. reflexivity.
    + destruct Hn. split; [exact Hu|]. right. vm_compute. left.
Defined.

(** What is left when the process dies: the write buffer is lost. *)
Definition ztl_crash {D J} (s : ZTL D J) : ZTL D J := z_set_buf (wb_set_buffers ∅ (z_buf s)) s.

Lemma ztl_crash_id {D J} (s : ZTL D J) : wb_buffers (z_buf s) = ∅ → ztl_crash s = s.
Proof.
  unfold ztl_crash, z_set_buf, wb_set_buffers. destruct s as [g [bufs ? ? ?] ? ? ? ? ?]. simpl. by intros ->.
Qed.

(** C13: durability of a flush.  A flush empties the write buffer whether or not
    it succeeds; after a successful one the store is as before and no longer
    depends on the buffer: every sector reads the same after it is lost. *)
Theorem ztl_flush_durable {D J} `{ZonedDeviceSpec D} `{JournalSpec J} {Old : OldZones} (s : ZTL D J) order s' o :
  ztl_wf s → (∀ l, order l ≡ₚ l) → ZTL_Flush order s = (s', o) →
  returns o ∧ ztl_wf s' ∧ wb_buffers (z_buf s') = ∅ ∧
  (o = Ok tt → ∀ lba, 0 ≤ lba < ztl_size s →
     ztl_sector s' lba = ztl_sector s lba ∧ ztl_sector (ztl_crash s') lba = ztl_sector s lba).
Proof.
  intros Hwf Horder Heq.
  pose proof (wp_ZTL_Flush order _ s Hwf Horder (λ s' o a b c d, conj a (conj b (conj c d)))) as Hw.
  unfold wp in Hw. rw Heq in Hw. destruct Hw as (Hret & Hnext & Hempty & Hsame).
  split; [done|]. split; [apply Hnext|]. split; [done|]. intros -> lba Hlba.
  destruct (Hsame I) as (_ & _ & _ & _ & Hv). split; [by apply Hv|]. rw -Hv //.
  by rw ztl_crash_id.
Qed.

Lemma ztl_flush_durable_witness :
  ztl_sector (ztl_crash small_flushed) 3 = ztl_sector small_written 3.
Proof.
  destruct (ztl_flush_durable small_written id small_flushed (Ok tt)) as (_ & _ & _ & Hs).
  - exact small_written_wf.
  - intros l. reflexivity.
  - apply injective_projections; vm_compute; reflexivity.
  - apply Hs; [reflexivity|]. split; [lia|]. vm_compute. reflexivity.
Defined.

(** C24: unmapping.  When it succeeds, every sector of every segment the range
    touches reads as zeros - also the sectors of those segments that lie outside
    the range - and no other sector changes; it stays consistent on every
    outcome. *)
Theorem ztl_unmap_spec {D J} `{ZonedDeviceSpec D} `{JournalSpec J} {Old : OldZones} (s : ZTL D J) lba count s' o :
  ztl_wf s → 0 ≤ lba → 0 < count → lba + count ≤ ztl_size s →
  ZTL_Unmap lba count s = (s', o) →
  returns o ∧ ztl_wf s' ∧ ztl_size s' = ztl_size s ∧
  (o = Ok tt → ∀ l, 0 ≤ l < ztl_size s →
     ztl_sector s' l = store_unmap (z_sectorsPerSeg s) lba count (ztl_sector s) l).
Proof.
  intros Hwf Hlba Hcount Hsize Heq.
  pose proof (wp_ZTL_Unmap lba count _ s Hwf Hlba Hcount Hsize (λ s' o a b c, conj a (conj b c))) as Hw.
  unfold wp in Hw. rw Heq in Hw. destruct Hw as (Hret & (Hwf' & Hsz & Hsp & _) & Hun).
  split; [done|]. split; [done|]. split; [unfold ztl_size; by rw Hsz Hsp|]. intros -> l Hl.
  rw (Hun I l Hl). unfold store_unmap. repeat case_decide; try done; lia.
Qed.

Lemma ztl_unmap_spec_witness :
  ztl_sector (ZTL_Unmap 3 1 small_written).1 2 = zero_sector.
Proof.
  destruct (ztl_unmap_spec small_written 3 1 (ZTL_Unmap 3 1 small_written).1 (Ok tt)) as (_ & _ & _ & Hs).
  - exact small_written_wf.
  - lia.
  - lia.
  - vm_compute. discriminate.
  - apply injective_projections; vm_compute; reflexivity.
  - rw Hs; [reflexivity| |].
    + split; [lia|]. vm_compute. reflexivity.
    + vm_compute. reflexivity.
Defined.

(** Start-up.  On a device with zones of at least a segment, [New] builds a
    consistent layer whose capacity is the whole segments of the device and
    whose store reads as zeros. *)
Theorem ztl_new_empty {D J} `{ZonedDeviceSpec D} `{JournalSpec J} cfg (d : D) (jo : option J) s :
  dev_wf d → ZoneSize d < 2^32 → Device_Capacity d ≤ 2^24 * ZoneSize d → 0 < MaxOpenZones d →
  SectorsPerSegment cfg < 2^32 → journal_ok jo →
  ZTL_New cfg d jo = Ok s →
  (∀ i z, zm_zones (z_zm s) !! i = Some z → SectorsPerSegment cfg ≤ zi_SizeSectors z) →
  ztl_wf s ∧
  ztl_size s = Device_Capacity d / SectorsPerSegment cfg * SectorsPerSegment cfg ∧
  ∀ lba, 0 ≤ lba < ztl_size s → ztl_sector s lba = zero_sector.
Proof.
  intros Hd Hzs Hcap Hmax Hsps Hj Hnew Hzones.
  destruct (ZTL_New_wf cfg d jo s) as (Hwf & _ & _ & Hsize & _ & Hz); done.
Qed.

Lemma ztl_new_empty_witness : ztl_size small_ztl = 12 ∧ ztl_sector small_ztl 7 = zero_sector.
Proof.
  destruct (ztl_new_empty small_cfg small_device None small_ztl) as (_ & Hsize & Hz).
  - by apply fresh_emulator_wf.
  - reflexivity.
  - vm_compute. discriminate.
  - reflexivity.
  - reflexivity.
  - exact I.
  - exact small_ztl_new.
  - exact small_ztl_zones.
  - split; [rw Hsize; reflexivity|]. apply Hz. rw Hsize. split; [lia|reflexivity].
Defined.
