(* ===== verification/Pdu.v ===== *)
(** * [internal/iscsi/pdu.go]: iSCSI protocol data units

    A PDU is a 48-byte header, an additional header and a data segment padded to
    four bytes on the wire.  A connection is what the peer sends, what has been
    sent to it, and a script of the writes that fail. *)

From S2P Require Import Bytes.
#[global] Arguments be_put : simpl never.

(** ** [net.Conn] *)
Record Conn := {
  cn_in : list byte;               (* what the peer sends before it closes *)
  cn_out : list byte;
  cn_writes : list (option Z);     (* per write: all of it, or an error after some bytes *)
}.
Definition cn_set_in (l : list byte) (c : Conn) : Conn :=
  {| cn_in := l; cn_out := cn_out c; cn_writes := cn_writes c |}.

Definition io_EOF : error := ErrorNew "io.EOF".
Definition io_ErrUnexpectedEOF : error := ErrorNew "io.ErrUnexpectedEOF".

(** [io.ReadFull] of [n] bytes. *)
Definition ReadFull (n : Z) : M Conn (list byte) :=
  c ← gets id;
  if n <=? len (cn_in c) then
    modify (cn_set_in (slice n (len (cn_in c)) (cn_in c))) ;; mret (slice 0 n (cn_in c))
  else
    modify (cn_set_in []) ;;
    throw (if len (cn_in c) =? 0 then io_EOF else io_ErrUnexpectedEOF).

Definition Conn_Write (p : list byte) : M Conn unit := λ c,
  match cn_writes c with
  | Some k :: rest =>
      ({| cn_in := cn_in c; cn_out := cn_out c ++ slice 0 (Z.max 0 (Z.min k (len p))) p; cn_writes := rest |},
       Fail (ErrorNew "net.Conn.Write"))
  | _ => ({| cn_in := cn_in c; cn_out := cn_out c ++ p; cn_writes := tail (cn_writes c) |}, Ok tt)
  end.

(** ** Opcodes *)
Definition OpcodeNopOut : Z := 0x00.
Definition OpcodeSCSICmd : Z := 0x01.
Definition OpcodeTMFReq : Z := 0x02.
Definition OpcodeLoginReq : Z := 0x03.
Definition OpcodeTextReq : Z := 0x04.
Definition OpcodeDataOut : Z := 0x05.
Definition OpcodeLogoutReq : Z := 0x06.
Definition OpcodeNopIn : Z := 0x20.
Definition OpcodeSCSIRsp : Z := 0x21.
Definition OpcodeTMFRsp : Z := 0x22.
Definition OpcodeLoginRsp : Z := 0x23.
Definition OpcodeTextRsp : Z := 0x24.
Definition OpcodeDataIn : Z := 0x25.
Definition OpcodeLogoutRsp : Z := 0x26.
Definition OpcodeR2T : Z := 0x31.

Definition BHSSize : Z := 48.

(** ** PDUs and their header fields *)
Record PDU := { p_BHS : list byte; p_AHS : list byte; p_DataSegment : list byte }.
Definition PDU_zero : PDU := {| p_BHS := make_bytes BHSSize; p_AHS := []; p_DataSegment := [] |}.

(** [copy(p.BHS[off:], bs)] and [p.BHS[i]]. *)
Definition bhs_put (off : Z) (bs : list byte) (p : PDU) : PDU :=
  {| p_BHS := copy_at off bs (p_BHS p); p_AHS := p_AHS p; p_DataSegment := p_DataSegment p |}.
Definition bhs_at (i : Z) (p : PDU) : Z := default 0 (Z_of_byte <$> index (p_BHS p) i).
Definition bhs_u32 (off : Z) (p : PDU) : Z := be_get (slice off (off + 4) (p_BHS p)).
Definition bhs_put_u32 (off v : Z) (p : PDU) : PDU := bhs_put off (be_put 4 v) p.
Definition bhs_put_byte (i v : Z) (p : PDU) : PDU := bhs_put i [byte_of_Z v] p.
Definition set_data (d : list byte) (p : PDU) : PDU :=
  {| p_BHS := p_BHS p; p_AHS := p_AHS p; p_DataSegment := d |}.

Definition PDU_Opcode (p : PDU) : Z := Z.land (bhs_at 0 p) 0x3F.
Definition PDU_SetOpcode (opcode : Z) (p : PDU) : PDU :=
  bhs_put_byte 0 (Z.lor (Z.land (bhs_at 0 p) 0xC0) (Z.land opcode 0x3F)) p.
Definition PDU_Flags (p : PDU) : Z := bhs_at 1 p.
Definition PDU_SetFlags (flags : Z) (p : PDU) : PDU := bhs_put_byte 1 flags p.
Definition PDU_TotalAHSLength (p : PDU) : Z := bhs_at 4 p.
Definition PDU_DataSegmentLength (p : PDU) : Z :=
  Z.lor (Z.lor (Z.shiftl (bhs_at 5 p) 16) (Z.shiftl (bhs_at 6 p) 8)) (bhs_at 7 p).
Definition PDU_SetDataSegmentLength (n : Z) (p : PDU) : PDU :=
  bhs_put 5 [byte_of_Z (Z.shiftr n 16); byte_of_Z (Z.shiftr n 8); byte_of_Z n] p.
Definition PDU_LUN (p : PDU) : Z := be_get (slice 8 16 (p_BHS p)).
Definition PDU_SetLUN (lun : Z) (p : PDU) : PDU := bhs_put 8 (be_put 8 lun) p.
Definition PDU_InitiatorTaskTag (p : PDU) : Z := bhs_u32 16 p.
Definition PDU_SetInitiatorTaskTag (itt : Z) : PDU → PDU := bhs_put_u32 16 itt.
Definition PDU_CmdSN (p : PDU) : Z := bhs_u32 24 p.
Definition PDU_SetCmdSN (sn : Z) : PDU → PDU := bhs_put_u32 24 sn.
Definition PDU_StatSN (p : PDU) : Z := bhs_u32 24 p.
Definition PDU_SetStatSN (sn : Z) : PDU → PDU := bhs_put_u32 24 sn.
Definition PDU_ExpStatSN (p : PDU) : Z := bhs_u32 28 p.
Definition PDU_SetExpStatSN (sn : Z) : PDU → PDU := bhs_put_u32 28 sn.
Definition PDU_ExpCmdSN (p : PDU) : Z := bhs_u32 28 p.
Definition PDU_SetExpCmdSN (sn : Z) : PDU → PDU := bhs_put_u32 28 sn.
Definition PDU_MaxCmdSN (p : PDU) : Z := bhs_u32 32 p.
Definition PDU_SetMaxCmdSN (sn : Z) : PDU → PDU := bhs_put_u32 32 sn.

(** ** On the wire *)

(** [(dsLen + 3) & ^uint32(3)] *)
Definition padded (n : Z) : Z := Z.land (n + 3) (Z.lnot 3).

Definition ReadPDU : M Conn PDU :=
  bhs ← wrap "reading BHS: %w" (ReadFull BHSSize);
  let pdu := {| p_BHS := bhs; p_AHS := []; p_DataSegment := [] |} in
  let ahsLen := bhs_at 4 pdu * 4 in
  ahs ← (if 0 <? ahsLen then wrap "reading AHS: %w" (ReadFull ahsLen) else mret []);
  let dsLen := PDU_DataSegmentLength pdu in
  data ← (if 0 <? dsLen then
            buf ← wrap "reading DataSegment: %w" (ReadFull (padded dsLen)); mret (slice 0 dsLen buf)
          else mret []);
  mret {| p_BHS := bhs; p_AHS := ahs; p_DataSegment := data |}.

(** The PDU is sent with its length field set; the caller's copy is not used again. *)
Definition WritePDU (pdu : PDU) : M Conn unit :=
  let dsLen := u32 (len (p_DataSegment pdu)) in
  let pdu := PDU_SetDataSegmentLength dsLen pdu in
  wrap "writing BHS: %w" (Conn_Write (p_BHS pdu)) ;;
  when_ (0 <? len (p_AHS pdu)) (wrap "writing AHS: %w" (Conn_Write (p_AHS pdu))) ;;
  when_ (0 <? dsLen)
    (wrap "writing DataSegment: %w" (Conn_Write (p_DataSegment pdu)) ;;
     let padBytes := (4 - dsLen `mod` 4) `mod` 4 in
     when_ (0 <? padBytes) (wrap "writing DataSegment padding: %w" (Conn_Write (make_bytes padBytes)))).

(** ** Laws *)
Record pdu_ok (p : PDU) : Prop := {
  pk_bhs : len (p_BHS p) = BHSSize;
  pk_ahs : len (p_AHS p) = 4 * PDU_TotalAHSLength p;
  pk_data : len (p_DataSegment p) < 2^24;
}.

Lemma bhs_put_len off bs p : len (p_BHS p) = BHSSize → 0 ≤ off ≤ BHSSize → len (p_BHS (bhs_put off bs p)) = BHSSize.
Proof. intros Hp Hoff. cbn. rw len_copy_at; [lia|done]. Qed.

(** A field is read back after it is written, and the others are as before. *)
Lemma slice_copy_at {A} off (bs l : list A) :
  0 ≤ off → off + len bs ≤ len l → slice off (off + len bs) (copy_at off bs l) = bs.
Proof.
  intros Hoff Hfit. unfold slice, copy_at, len in *.
  rw drop_app_length'; [rw length_take; lia|]. rw (take_ge bs); [lia|]. rw take_app_length' //. lia.
Qed.
Lemma slice_copy_at_ne {A} i j off (bs l : list A) :
  0 ≤ i ≤ j → 0 ≤ off → off + len bs ≤ len l → j ≤ off ∨ off + len bs ≤ i → j ≤ len l →
  slice i j (copy_at off bs l) = slice i j l.
Proof.
  intros Hij Hoff Hfit Hdis Hj. apply list_eq. intros k. rw !lookup_slice. 
  destruct (decide (k < Z.to_nat (j - i))%nat); [|done].
  rw lookup_copy_at; [lia|done|]. unfold len in *. case_decide; [lia|done].
Qed.

Lemma DataSegmentLength_eq p : 8 ≤ len (p_BHS p) → PDU_DataSegmentLength p = be_get (slice 5 8 (p_BHS p)).
Proof.
  unfold PDU_DataSegmentLength, bhs_at, len. destruct p as [bhs ahs data]. cbn [p_BHS].
  destruct bhs as [|b0 [|b1 [|b2 [|b3 [|b4 [|b5 [|b6 [|b7 bhs]]]]]]]]; simpl length; intros; try lia.
  change (index _ 5) with (Some b5). change (index _ 6) with (Some b6). change (index _ 7) with (Some b7).
  change (slice 5 8 _) with [b5; b6; b7]. cbn [fmap option_fmap option_map default]. unfold id.
  pose proof (Z_of_byte_range b5). pose proof (Z_of_byte_range b6). pose proof (Z_of_byte_range b7).
  rw -Z.lor_assoc (lor_shiftl_low (Z_of_byte b6)); [lia|lia|]. rw lor_shiftl_low; [lia|lia|].
  unfold be_get. cbn [foldl]. lia.
Qed.

(** The three bytes of a length are its big-endian form. *)
Definition be_put_shr (n : Z) : list byte := [byte_of_Z (Z.shiftr n 16); byte_of_Z (Z.shiftr n 8); byte_of_Z n].
Lemma be_put_shr_eq n : 0 ≤ n → be_put_shr n = be_put 3 n.
Proof. intros Hn. unfold be_put_shr, be_put. rw !Z.shiftr_div_pow2 //. rw Z.div_div //. Qed.

Lemma SetDataSegmentLength_eq n p : 0 ≤ n → PDU_SetDataSegmentLength n p = bhs_put 5 (be_put 3 n) p.
Proof. intros Hn. rw -be_put_shr_eq //. Qed.

Lemma DataSegmentLength_set n p :
  len (p_BHS p) = BHSSize → 0 ≤ n < 2^24 → PDU_DataSegmentLength (PDU_SetDataSegmentLength n p) = n.
Proof.
  intros Hp Hn. rw SetDataSegmentLength_eq; [lia|]. rw DataSegmentLength_eq.
  { rw bhs_put_len //. }
  cbn [bhs_put p_BHS]. pose proof (slice_copy_at 5 (be_put 3 n) (p_BHS p)) as Hs. 
  change (5 + len (be_put 3 n)) with 8 in Hs. rw Hs; [lia|unfold BHSSize in Hp; lia|].
  apply be_get_put_small. lia.
Qed.

(** The padded length is the next multiple of four. *)
Lemma padded_eq n : 0 ≤ n → padded n = n + (4 - n `mod` 4) `mod` 4.
Proof.
  intros Hn. unfold padded. change 3 with (Z.ones 2) at 2. rw -Z.ldiff_land Z.ldiff_ones_r //.
  rw Z.shiftl_mul_pow2 // Z.shiftr_div_pow2 //. change (2^2) with 4.
  pose proof (Z.div_mod n 4). pose proof (Z.mod_pos_bound n 4). pose proof (Z.div_mod (n + 3) 4).
  pose proof (Z.mod_pos_bound (n + 3) 4).
  destruct (decide (n `mod` 4 = 0)) as [Hz|Hz].
  - rw Hz. change ((4 - 0) `mod` 4) with 0. lia.
  - rw (Z.mod_small (4 - n `mod` 4)); [lia|]. lia.
Qed.

(** What a PDU is on the wire. *)
Definition wire (p : PDU) : list byte :=
  let n := len (p_DataSegment p) in
  p_BHS (PDU_SetDataSegmentLength n p) ++ p_AHS p ++ p_DataSegment p ++ make_bytes ((4 - n `mod` 4) `mod` 4).

(** [m] sends [l]: all of it, or a part of it and an error; it reads nothing, and
    it succeeds when no write fails. *)
Definition sends (l : list byte) (m : M Conn unit) : Prop := ∀ c,
  cn_in (m c).1 = cn_in c ∧ returns (m c).2 ∧
  (∃ q, q `prefix_of` l ∧ cn_out (m c).1 = cn_out c ++ q ∧ (is_ok (m c).2 → q = l)) ∧
  (cn_writes c = [] → is_ok (m c).2 ∧ cn_writes (m c).1 = []).

Lemma sends_ret : sends [] (mret tt).
Proof. intros c. split_and!; try done. exists []. by rw app_nil_r. Qed.

Lemma sends_Write l : sends l (Conn_Write l).
Proof.
  intros c. unfold Conn_Write. destruct (cn_writes c) as [|[k|] rest] eqn:Hw; cbn;
    (split_and!; [done|done| |try done]).
  - by exists l.
  - eexists. split; [|split; [done|done]]. unfold slice. rw drop_0. apply prefix_take.
  - by exists l.
Qed.

Lemma sends_wrap f l m : sends l m → sends l (wrap f m).
Proof. intros Hm c. specialize (Hm c). unfold wrap. by destruct (m c) as [c' [[]|[e| |]]]. Qed.

Lemma sends_seq l1 l2 m1 m2 : sends l1 m1 → sends l2 m2 → sends (l1 ++ l2) (m1 ;; m2).
Proof.
  intros H1 H2 c. specialize (H1 c). unfold mbind, M_bind.
  destruct (m1 c) as [c1 [[]|r]]; cbn [fst snd] in *; destruct H1 as (Hin & Hret & (q & Hq & Hout & Hall) & Hok).
  - specialize (H2 c1). destruct H2 as (Hin2 & Hret2 & (q2 & Hq2 & Hout2 & Hall2) & Hok2).
    rw Hall // in Hout. split_and!; [by rw Hin2|done| |].
    + exists (l1 ++ q2). split_and!; [by apply prefix_app|by rw Hout2 Hout app_assoc|].
      intros Hs. by rw Hall2.
    + intros Hw. by apply Hok2, Hok.
  - split_and!; [done|done| |].
    + exists q. split_and!; [by apply prefix_app_r|done|done].
    + intros Hw. by destruct (Hok Hw).
Qed.

Lemma sends_when (b : bool) l m : (b = false → l = []) → sends l m → sends l (when_ b m).
Proof. intros Hb Hm. destruct b; [done|]. rw Hb //. apply sends_ret. Qed.

Lemma sends_WritePDU p : len (p_DataSegment p) < 2^32 → sends (wire p) (WritePDU p).
Proof.
  intros Hdata. pose proof (len_nonneg (p_DataSegment p)). unfold WritePDU, wire. rw u32_small; [lia|].
  set (n := len (p_DataSegment p)). apply sends_seq; [apply sends_wrap, sends_Write|].
  apply sends_seq; [apply sends_when; [apply nil_of_len|apply sends_wrap, sends_Write]|].
  apply sends_when.
  { intros Hn. assert (Hz : n = 0) by lia. rw Hz. rw (nil_of_len (p_DataSegment p)) //. }
  apply sends_seq; [apply sends_wrap, sends_Write|].
  apply sends_when; [|apply sends_wrap, sends_Write].
  intros Hp. pose proof (Z.mod_pos_bound (4 - n `mod` 4) 4). by replace ((4 - n `mod` 4) `mod` 4) with 0 by lia.
Qed.

(** ** Reading *)
Lemma ReadFull_app n l rest c :
  len l = n → cn_in c = l ++ rest → ReadFull n c = (cn_set_in rest c, Ok l).
Proof.
  intros <- Hin. unfold ReadFull. M_unfold. rw Hin len_app. pose proof (len_nonneg rest).
  destruct (Z.leb_spec (len l) (len l + len rest)); [|lia].
  assert (Hs1 : slice (len l) (len l + len rest) (l ++ rest) = rest).
  { unfold slice, len. rw drop_app_length'; [lia|]. rw take_ge //. lia. }
  assert (Hs2 : slice 0 (len l) (l ++ rest) = l).
  { unfold slice, len. rw drop_0 take_app_length' //. lia. }
  by rw Hs1 Hs2.
Qed.

Lemma opt_read (b : bool) f n l rest c :
  (b = true → len l = n) → (b = false → l = []) → cn_in c = l ++ rest →
  (if b then wrap f (ReadFull n) else mret []) c = (cn_set_in rest c, Ok l).
Proof.
  intros Hb Hn Hin. destruct b.
  - by apply wrap_ok, ReadFull_app; [apply Hb|].
  - rw Hn // in Hin |- *. destruct c. cbn in Hin. by subst.
Qed.

Lemma ReadPDU_wire p rest c :
  pdu_ok p → cn_in c = wire p ++ rest →
  ReadPDU c = (cn_set_in rest c, Ok (PDU_SetDataSegmentLength (len (p_DataSegment p)) p)).
Proof.
  intros [Hbhs Hahs Hdata] Hin. pose proof (len_nonneg (p_DataSegment p)) as H0.
  set (n := len (p_DataSegment p)) in *. set (p' := PDU_SetDataSegmentLength n p).
  set (pad := make_bytes ((4 - n `mod` 4) `mod` 4)).
  assert (Hbhs' : len (p_BHS p') = BHSSize) by by apply bhs_put_len.
  assert (Hn : PDU_DataSegmentLength {| p_BHS := p_BHS p'; p_AHS := []; p_DataSegment := [] |} = n).
  { etrans; [|by apply (DataSegmentLength_set n p)]. done. }
  assert (H4 : bhs_at 4 {| p_BHS := p_BHS p'; p_AHS := []; p_DataSegment := [] |} = PDU_TotalAHSLength p).
  { unfold PDU_TotalAHSLength, bhs_at, index. cbn [p_BHS p' PDU_SetDataSegmentLength bhs_put].
    rw bool_decide_true; [lia|]. rw lookup_copy_at; [lia|unfold BHSSize in Hbhs; change (len [_; _; _]) with 3; lia|].
    case_decide as Hd; [exfalso; clear -Hd; simpl in Hd; lia|done]. }
  assert (Hwire : cn_in c = p_BHS p' ++ (p_AHS p ++ (p_DataSegment p ++ pad) ++ rest)) by (rw Hin /wire -!app_assoc //).
  unfold ReadPDU.
  rw (bind_ok _ _ c _ _ (wrap_ok _ _ _ _ _ (ReadFull_app _ (p_BHS p') _ c Hbhs' Hwire))). cbv zeta. rw H4 Hn.
  rw (bind_ok _ _ _ _ _ (opt_read _ _ _ (p_AHS p) ((p_DataSegment p ++ pad) ++ rest) _ _ _ _)).
  { intros _. lia. }
  { intros Hz. apply nil_of_len. lia. }
  { done. }
  destruct (Z.ltb_spec 0 n).
  - rw (bind_ok (M_bind _ _ _ _ _) _ _ _ _ (bind_ok _ _ _ _ _ (wrap_ok _ _ _ _ _ (ReadFull_app _ (p_DataSegment p ++ pad) rest _ _ _)))).
    { rw len_app padded_eq; [lia|]. fold n. f_equal. unfold pad. apply len_make_bytes.
      pose proof (Z.mod_pos_bound (4 - n `mod` 4) 4). lia. }
    { done. }
    cbn. rw slice_app_low; [lia|fold n; lia|]. unfold n. rw slice_all. done.
  - assert (Hnil : p_DataSegment p = []) by (apply nil_of_len; fold n; lia).
    assert (Hpad : pad = []) by (unfold pad, n; rw Hnil; reflexivity).
    rw Hpad Hnil. unfold p', PDU_SetDataSegmentLength, bhs_put. rw Hnil. reflexivity.
Qed.

Lemma wire_len p : len (p_BHS p) = BHSSize → len (wire p) = BHSSize + len (p_AHS p) + padded (len (p_DataSegment p)).
Proof.
  intros Hp. pose proof (len_nonneg (p_DataSegment p)).
  assert (Hb : len (p_BHS (PDU_SetDataSegmentLength (len (p_DataSegment p)) p)) = BHSSize) by (by apply bhs_put_len).
  unfold wire. revert Hb. generalize (p_BHS (PDU_SetDataSegmentLength (len (p_DataSegment p)) p)) as bhs. intros bhs Hb.
  rw !len_app padded_eq // Hb len_make_bytes; [apply Z.mod_pos_bound; lia|]. lia.
Qed.

(** C37: a PDU that is sent is received as it was, with its length field set, and
    nothing of what follows it is consumed; a whole number of four-byte words
    goes over the wire.  A sender whose connection fails has sent a part of it. *)
Theorem pdu_roundtrip p c d rest :
  pdu_ok p → len (p_AHS p) `mod` 4 = 0 → cn_in d = wire p ++ rest →
  (∃ q c' o, WritePDU p c = (c', o) ∧ returns o ∧ q `prefix_of` wire p ∧ cn_out c' = cn_out c ++ q ∧
     (is_ok o → q = wire p) ∧ (cn_writes c = [] → is_ok o)) ∧
  len (wire p) `mod` 4 = 0 ∧
  ∃ d' p', ReadPDU d = (d', Ok p') ∧ cn_in d' = rest ∧
    p_AHS p' = p_AHS p ∧ p_DataSegment p' = p_DataSegment p ∧
    PDU_DataSegmentLength p' = len (p_DataSegment p) ∧
    ∀ i, ¬ (5 ≤ i < 8)%nat → p_BHS p' !! i = p_BHS p !! i.
Proof.
  intros Hp Hahs Hin. pose proof Hp as [Hbhs _ Hdata]. pose proof (len_nonneg (p_DataSegment p)).
  split; [|split].
  - destruct (sends_WritePDU p ltac:(lia) c) as (_ & Hret & (q & Hq & Hout & Hall) & Hok).
    destruct (WritePDU p c) as [c' o]. exists q, c', o. split_and!; try done. intros Hw. by apply Hok.
  - rw wire_len // padded_eq //. unfold BHSSize. apply Z.mod_divide; [lia|]. apply Z.mod_divide in Hahs; [|lia].
    apply Z.divide_add_r; [apply Z.divide_add_r; [by exists 12|done]|].
    exists ((len (p_DataSegment p) + 3) / 4).
    pose proof (Z.div_mod (len (p_DataSegment p)) 4). pose proof (Z.mod_pos_bound (len (p_DataSegment p)) 4).
    destruct (decide (len (p_DataSegment p) `mod` 4 = 0)) as [Hz|Hz].
    + rw Hz. change ((4 - 0) `mod` 4) with 0.
      pose proof (Z.div_mod (len (p_DataSegment p) + 3) 4). pose proof (Z.mod_pos_bound (len (p_DataSegment p) + 3) 4). lia.
    + rw (Z.mod_small (4 - _)); [lia|].
      pose proof (Z.div_mod (len (p_DataSegment p) + 3) 4). pose proof (Z.mod_pos_bound (len (p_DataSegment p) + 3) 4). lia.
  - do 2 eexists. split; [by apply (ReadPDU_wire p rest)|]. cbn [cn_in cn_set_in]. split_and!; try done.
    + by apply DataSegmentLength_set; [|lia].
    + intros i Hi. cbn [p_BHS PDU_SetDataSegmentLength bhs_put]. 
      rw lookup_copy_at; [lia|unfold BHSSize in Hbhs; change (len [_; _; _]) with 3; lia|].
      case_decide as Hd; [exfalso; clear -Hd Hi; simpl in Hd; lia|done].
Qed.

Definition small_pdu : PDU :=
  set_data (String.list_byte_of_string "InitiatorName=a") (PDU_SetInitiatorTaskTag 7 (PDU_SetOpcode OpcodeLoginReq PDU_zero)).
Definition quiet (l : list byte) : Conn := {| cn_in := l; cn_out := []; cn_writes := [] |}.

Lemma pdu_roundtrip_witness :
  ∃ d' p', ReadPDU (quiet (wire small_pdu ++ [zero_byte])) = (d', Ok p') ∧ cn_in d' = [zero_byte] ∧
    p_DataSegment p' = String.list_byte_of_string "InitiatorName=a".
Proof.
  destruct (pdu_roundtrip small_pdu (quiet []) (quiet (wire small_pdu ++ [zero_byte])) [zero_byte])
    as (_ & _ & d' & p' & Hread & Hin & _ & Hdata & _).
  - split; reflexivity.
  - reflexivity.
  - reflexivity.
  - exists d', p'. split; [exact Hread|]. split; [exact Hin|exact Hdata].
Defined.

Lemma opcode_bits b opcode :
  0 ≤ opcode < 64 → Z.land (u8 (Z.lor (Z.land b 0xC0) (Z.land opcode 0x3F))) 0x3F = opcode.
Proof.
  intros Hop. unfold u8. rw -(Z.land_ones _ 8) // -Z.land_assoc. change (Z.land (Z.ones 8) 0x3F) with 0x3F.
  rw Z.land_lor_distr_l -!Z.land_assoc. change (Z.land 0xC0 0x3F) with 0. change (Z.land 0x3F 0x3F) with (Z.ones 6).
  rw Z.land_0_r Z.lor_0_l Z.land_ones //. by apply Z.mod_small.
Qed.

(** The header fields hold what is stored in them, and storing one leaves the
    others (and the payload) alone: opcode and flags, data segment length, LUN,
    task tag and the three sequence numbers of a response. *)
Theorem pdu_fields p opcode flags n lun itt statSN expCmdSN maxCmdSN :
  len (p_BHS p) = BHSSize →
  0 ≤ opcode < 64 → 0 ≤ flags < 256 → 0 ≤ n < 2^24 → 0 ≤ lun < 2^64 → 0 ≤ itt < 2^32 →
  0 ≤ statSN < 2^32 → 0 ≤ expCmdSN < 2^32 → 0 ≤ maxCmdSN < 2^32 →
  let q := PDU_SetMaxCmdSN maxCmdSN (PDU_SetExpCmdSN expCmdSN (PDU_SetStatSN statSN
    (PDU_SetInitiatorTaskTag itt (PDU_SetLUN lun (PDU_SetDataSegmentLength n
    (PDU_SetFlags flags (PDU_SetOpcode opcode p))))))) in
  len (p_BHS q) = BHSSize ∧ PDU_Opcode q = opcode ∧ PDU_Flags q = flags ∧ PDU_DataSegmentLength q = n ∧
  PDU_LUN q = lun ∧ PDU_InitiatorTaskTag q = itt ∧ PDU_StatSN q = statSN ∧ PDU_ExpCmdSN q = expCmdSN ∧
  PDU_MaxCmdSN q = maxCmdSN ∧ PDU_TotalAHSLength q = PDU_TotalAHSLength p ∧
  p_AHS q = p_AHS p ∧ p_DataSegment q = p_DataSegment p.
Proof.
  intros Hp. destruct p as [bhs ahs data]. cbn [p_BHS] in Hp. unfold BHSSize, len in Hp.
  do 48 (destruct bhs as [|? bhs]; [exfalso; simpl in Hp; lia|]). destruct bhs; [clear Hp|exfalso; simpl in Hp; lia].
  intros Hopc Hflg Hnn Hln Hit Hst Hec Hmc q.
  assert (Hlun : slice 8 16 (p_BHS q) = be_put 8 lun) by reflexivity.
  assert (Hitt : slice 16 20 (p_BHS q) = be_put 4 itt) by reflexivity.
  assert (Hstat : slice 24 28 (p_BHS q) = be_put 4 statSN) by reflexivity.
  assert (Hexp : slice 28 32 (p_BHS q) = be_put 4 expCmdSN) by reflexivity.
  assert (Hmax : slice 32 36 (p_BHS q) = be_put 4 maxCmdSN) by reflexivity.
  assert (Hop : bhs_at 0 q = u8 (Z.lor (Z.land (Z_of_byte b) 0xC0) (Z.land opcode 0x3F)))
    by (rw -Z_of_byte_of_Z; reflexivity).
  assert (Hfl : bhs_at 1 q = u8 flags) by (rw -Z_of_byte_of_Z; reflexivity).
  assert (Hlen : len (p_BHS q) = BHSSize) by reflexivity.
  assert (Hds : slice 5 8 (p_BHS q) = [byte_of_Z (Z.shiftr n 16); byte_of_Z (Z.shiftr n 8); byte_of_Z n]) by reflexivity.
  split_and!; try reflexivity.
  - unfold PDU_Opcode. by rw Hop opcode_bits.
  - unfold PDU_Flags. rw Hfl. by apply Z.mod_small.
  - rw DataSegmentLength_eq; [by rw Hlen|]. rw Hds.
    change [byte_of_Z (Z.shiftr n 16); byte_of_Z (Z.shiftr n 8); byte_of_Z n] with (be_put_shr n).
    rw be_put_shr_eq; [lia|]. apply be_get_put_small. lia.
  - unfold PDU_LUN. rw Hlun. apply be_get_put_small. lia.
  - unfold PDU_InitiatorTaskTag, bhs_u32. rw Hitt. apply be_get_put_small. lia.
  - unfold PDU_StatSN, bhs_u32. rw Hstat. apply be_get_put_small. lia.
  - unfold PDU_ExpCmdSN, bhs_u32. rw Hexp. apply be_get_put_small. lia.
  - unfold PDU_MaxCmdSN, bhs_u32. rw Hmax. apply be_get_put_small. lia.
Qed.

Lemma pdu_fields_witness :
  PDU_InitiatorTaskTag small_pdu = 7 ∧
  PDU_MaxCmdSN (PDU_SetMaxCmdSN 9 (PDU_SetExpCmdSN 2 (PDU_SetStatSN 3 (PDU_SetInitiatorTaskTag 7 (PDU_SetLUN 0
    (PDU_SetDataSegmentLength 5 (PDU_SetFlags 0x80 (PDU_SetOpcode OpcodeNopIn small_pdu)))))))) = 9.
Proof.
  split; [reflexivity|]. 
  apply (pdu_fields small_pdu OpcodeNopIn 0x80 5 0 7 3 2 9); [reflexivity|unfold OpcodeNopIn; lia|lia..].
Defined.
