(* ===== verification/Network.v ===== *)
(** * Operations on the network that return, and what they read

    Shared by the login phase and the full-feature phase: which operations always
    return, that reading depends on the input alone and uses it up, and that
    writing leaves the input alone; and what is sent on a connection that works. *)

From S2P Require Import Bytes Pdu.

(** ** Operations that return *)
Definition total {S A} (m : M S A) : Prop := ∀ s, returns (m s).2.

Create HintDb total.
Section total.
Context {S : Type}.
Lemma total_ret {A} (a : A) : total (mret a : M S A).
Proof. done. Qed.
Lemma total_throw {A} e : total (throw e : M S A).
Proof. done. Qed.
Lemma total_gets {A} (f : S → A) : total (gets f).
Proof. done. Qed.
Lemma total_modify (f : S → S) : total (modify f).
Proof. done. Qed.
Lemma total_bind {A B} (m : M S A) (k : A → M S B) : total m → (∀ a, total (k a)) → total (m ≫= k).
Proof.
  intros Hm Hk s. specialize (Hm s). unfold mbind, M_bind. destruct (m s) as [s' [a|r]]; [apply Hk|done].
Qed.
Lemma total_wrap {A} f (m : M S A) : total m → total (wrap f m).
Proof. intros Hm s. specialize (Hm s). unfold wrap. by destruct (m s) as [s' [a|[e| |]]]. Qed.
Lemma total_attempt {A} (m : M S A) : total m → total (attempt m).
Proof. intros Hm s. specialize (Hm s). unfold attempt. by destruct (m s) as [s' [a|[e| |]]]. Qed.
Lemma total_when b (m : M S unit) : total m → total (when_ b m).
Proof. by destruct b. Qed.
Lemma total_zoom {T A} (get : S → T) put (m : M T A) : total m → total (zoom get put m).
Proof. intros Hm s. specialize (Hm (get s)). unfold zoom. by destruct (m (get s)). Qed.
End total.

Ltac total :=
  repeat lazymatch goal with
  | |- total (mret _) => apply total_ret
  | |- total (throw _) => apply total_throw
  | |- total (gets _) => apply total_gets
  | |- total (modify _) => apply total_modify
  | |- total (mbind _ _) => apply total_bind; [|intros ?]
  | |- total (wrap _ _) => apply total_wrap
  | |- total (attempt _) => apply total_attempt
  | |- total (when_ _ _) => apply total_when
  | |- total (zoom _ _ _) => apply total_zoom
  | |- total (if _ then _ else _) => case_match
  | |- total (match _ with _ => _ end) => case_match
  | |- total _ => solve [auto with total]
  end.

(** ** Sending and reading *)
Lemma total_Conn_Write p : total (Conn_Write p).
Proof. intros c. unfold Conn_Write. by destruct (cn_writes c) as [|[]]. Qed.
#[export] Hint Resolve total_Conn_Write : total.
Lemma total_WritePDU p : total (WritePDU p).
Proof. unfold WritePDU. total. Qed.
#[export] Hint Resolve total_WritePDU : total.
Lemma total_ReadFull n : total (ReadFull n).
Proof. unfold ReadFull. total. Qed.
#[export] Hint Resolve total_ReadFull : total.
Lemma total_ReadPDU : total ReadPDU.
Proof. unfold ReadPDU. cbv zeta. total. Qed.
#[export] Hint Resolve total_ReadPDU : total.

(** ** Reading: what comes next depends on the input alone and uses it up *)
Definition reads {A} (m : M Conn A) : Prop := ∀ c,
  m c = (cn_set_in (cn_in (m (quiet (cn_in c))).1) c, (m (quiet (cn_in c))).2).

Lemma reads_ret {A} (a : A) : reads (mret a).
Proof. intros c. by destruct c. Qed.
Lemma reads_ReadFull n : reads (ReadFull n).
Proof. intros c. unfold ReadFull. M_unfold. by destruct (n <=? len (cn_in c)). Qed.
Lemma reads_bind {A B} (m : M Conn A) (k : A → M Conn B) : reads m → (∀ a, reads (k a)) → reads (m ≫= k).
Proof.
  intros Hm Hk c. unfold mbind, M_bind. rw Hm. pose proof (Hm (quiet (cn_in c))) as Hq.
  destruct (m (quiet (cn_in c))) as [c1 [a|r]]; [|done]. injection Hq as Hq _. cbn [fst snd].
  rw (Hk a (cn_set_in _ c)) (Hk a c1). done.
Qed.
Lemma reads_wrap {A} f (m : M Conn A) : reads m → reads (wrap f m).
Proof.
  intros Hm c. unfold wrap. rw Hm. by destruct (m (quiet (cn_in c))) as [c' [a|[e| |]]].
Qed.
Lemma reads_ReadPDU : reads ReadPDU.
Proof.
  unfold ReadPDU. cbv zeta. apply reads_bind; [apply reads_wrap, reads_ReadFull|intros bhs].
  apply reads_bind; [case_match; [apply reads_wrap, reads_ReadFull|apply reads_ret]|intros ahs].
  apply reads_bind; [|intros data; apply reads_ret].
  case_match; [|apply reads_ret]. apply reads_bind; [apply reads_wrap, reads_ReadFull|intros buf; apply reads_ret].
Qed.

Lemma ReadFull_ok n c c' l :
  0 ≤ n → ReadFull n c = (c', Ok l) → len l = n ∧ len (cn_in c') = len (cn_in c) - n.
Proof.
  intros Hn. unfold ReadFull. M_unfold. destruct (Z.leb_spec n (len (cn_in c))); [|done].
  intros [= <- <-]. cbn. rw !len_slice; lia.
Qed.
Lemma ReadFull_le n c : 0 ≤ n → len (cn_in (ReadFull n c).1) ≤ len (cn_in c).
Proof.
  intros Hn. unfold ReadFull. M_unfold. pose proof (len_nonneg (cn_in c)).
  destruct (Z.leb_spec n (len (cn_in c))); cbn; [rw len_slice; lia|unfold len at 1; simpl; lia].
Qed.

Lemma DataSegmentLength_range bhs :
  len bhs = BHSSize → 0 ≤ PDU_DataSegmentLength {| p_BHS := bhs; p_AHS := []; p_DataSegment := [] |} < 2^24.
Proof.
  intros Hb. unfold BHSSize in Hb. rw DataSegmentLength_eq; [cbn; lia|]. cbn [p_BHS].
  pose proof (be_get_range (slice 5 8 bhs)) as Hr. rw len_slice in Hr; [lia|lia|exact Hr].
Qed.

Lemma ReadPDU_ok c c' p :
  ReadPDU c = (c', Ok p) →
  len (p_BHS p) = BHSSize ∧ len (p_DataSegment p) < 2^32 ∧ len (cn_in c') ≤ len (cn_in c) - BHSSize.
Proof.
  unfold ReadPDU. cbv zeta. intros (c1 & bhs & Hbhs%wrap_inv & Hk)%bind_inv.
  apply bind_inv in Hk as (c2 & ahs & Hahs & Hk). apply bind_inv in Hk as (c3 & data & Hdata & [= <- <-]).
  apply ReadFull_ok in Hbhs as [Hbhs Hin1]; [|done]. cbn [p_BHS p_DataSegment]. 
  assert (Hin2 : len (cn_in c2) ≤ len (cn_in c1)).
  { destruct (Z.ltb_spec 0 (bhs_at 4 {| p_BHS := bhs; p_AHS := []; p_DataSegment := [] |} * 4));
      [|by injection Hahs as ->]. apply wrap_inv, ReadFull_ok in Hahs; lia. }
  pose proof (DataSegmentLength_range bhs Hbhs) as Hds. set (ds := PDU_DataSegmentLength _) in *.
  pose proof (padded_eq ds ltac:(lia)). pose proof (Z.mod_pos_bound (4 - ds `mod` 4) 4).
  assert (Hin3 : len (cn_in c3) ≤ len (cn_in c2) ∧ len data < 2^32).
  { destruct (Z.ltb_spec 0 ds); [|injection Hdata as -> <-; split; [lia|done]].
    apply bind_inv in Hdata as (c4 & buf & Hr%wrap_inv & [= <- <-]). apply ReadFull_ok in Hr as [Hbuf Hin4]; [|lia].
    split; [lia|]. rw len_slice; lia. }
  split_and!; [done|apply Hin3|lia].
Qed.

(** What is left is the end of what there was. *)
Definition leaves_suffix : relation Conn := on cn_in (flip suffix).
#[export] Instance leaves_suffix_preorder : PreOrder leaves_suffix.
Proof. unfold leaves_suffix. apply _. Qed.
Lemma leaves_suffix_ReadFull n : always leaves_suffix (ReadFull n).
Proof.
  intros c. unfold ReadFull, leaves_suffix, on. M_unfold. destruct (Z.leb_spec n (len (cn_in c))); cbn; [|apply suffix_nil].
  unfold slice, len. rw take_ge; [rw length_drop; lia|]. apply suffix_drop.
Qed.
#[export] Hint Resolve leaves_suffix_ReadFull : always.
Lemma leaves_suffix_ReadPDU : always leaves_suffix ReadPDU.
Proof. unfold ReadPDU. cbv zeta. always. Qed.

(** ** Writing leaves the input alone *)
Lemma input_Conn_Write p : always (on cn_in (=)) (Conn_Write p).
Proof. intros c. unfold on, Conn_Write. by destruct (cn_writes c) as [|[]]. Qed.
#[export] Hint Resolve input_Conn_Write : always.
Lemma input_WritePDU p : always (on cn_in (=)) (WritePDU p).
Proof. unfold WritePDU. cbv zeta. always. Qed.
#[export] Hint Resolve input_WritePDU : always.
(** The PDUs in an input. *)
Inductive pdu_in : list byte → PDU → Prop :=
| pdu_in_here l n p : ReadPDU (quiet l) = (n, Ok p) → pdu_in l p
| pdu_in_next l n q p : ReadPDU (quiet l) = (n, Ok q) → pdu_in (cn_in n) p → pdu_in l p.

(** ** Sending on a connection that works *)
Definition cn_append (l : list byte) (c : Conn) : Conn :=
  {| cn_in := cn_in c; cn_out := cn_out c ++ l; cn_writes := [] |}.
Lemma sends_run l m c : sends l m → cn_writes c = [] → m c = (cn_append l c, Ok tt).
Proof.
  intros Hs Hw. destruct (Hs c) as (Hin & _ & (q & _ & Hout & Hall) & Hok).
  destruct (Hok Hw) as [Hisok Hw']. destruct (m c) as [c' [[]|r]]; [|done]. cbn in *.
  rw Hall // in Hout. destruct c' as [i o w]. cbn in *. by subst.
Qed.

Lemma WritePDU_run p c : len (p_DataSegment p) < 2^32 → cn_writes c = [] → WritePDU p c = (cn_append (wire p) c, Ok tt).
Proof. intros Hp. apply sends_run. by apply sends_WritePDU. Qed.

Lemma WritePDU_ok p c : cn_writes c = [] → ∃ out, WritePDU p c = (cn_append out c, Ok tt).
Proof.
  intros Hw. assert (H1 : ∀ l c, cn_writes c = [] → Conn_Write l c = (cn_append l c, Ok tt)).
  { intros l c0 Hc0. unfold Conn_Write, cn_append. by rw Hc0. }
  assert (H2 : ∀ b f (m : M Conn unit) c, (∃ out, m c = (cn_append out c, Ok tt)) → cn_writes c = [] →
    ∃ out, when_ b (wrap f m) c = (cn_append out c, Ok tt)).
  { intros b f m c0 [out Hm] Hc0. destruct b; [exists out; by apply wrap_ok|]. exists []. unfold cn_append.
    cbn. rw app_nil_r -Hc0. by destruct c0. }
  assert (Happ : ∀ l1 l2 c, cn_append l2 (cn_append l1 c) = cn_append (l1 ++ l2) c).
  { intros l1 l2 c0. unfold cn_append. cbn. by rw app_assoc. }
  unfold WritePDU. cbv zeta. rw (bind_ok _ _ _ _ _ (wrap_ok _ _ _ _ _ (H1 _ c Hw))).
  set (p' := PDU_SetDataSegmentLength _ p). set (c1 := cn_append _ c).
  destruct (H2 (0 <? len (p_AHS p')) "writing AHS: %w" (Conn_Write (p_AHS p')) c1) as [o1 Ho1]; [eexists; by apply H1|done|].
  rw (bind_ok _ _ _ _ _ Ho1). unfold when_ at 1. case_match; [|eexists; unfold c1; by rw Happ].
  rw (bind_ok _ _ _ _ _ (wrap_ok _ _ _ _ _ (H1 _ (cn_append o1 c1) eq_refl))).
  match goal with |- ∃ _, when_ ?b (wrap ?f ?m) ?c2 = _ => destruct (H2 b f m c2) as [o2 ->]; [eexists; by apply H1|done|] end.
  unfold c1. rw !Happ. by eexists.
Qed.

(** ** The length field leaves the others alone *)
Lemma bhs_at_length i n p : len (p_BHS p) = BHSSize → 0 ≤ i < 5 → bhs_at i (PDU_SetDataSegmentLength n p) = bhs_at i p.
Proof.
  intros Hp Hi. unfold bhs_at, index, PDU_SetDataSegmentLength, bhs_put. cbn [p_BHS]. unfold BHSSize in Hp.
  rw bool_decide_true; [lia|]. rw lookup_copy_at; [lia|change (len [_; _; _]) with 3; lia|].
  case_decide as Hd; [exfalso; simpl in Hd; lia|done].
Qed.
Lemma bhs_u32_length off n p :
  len (p_BHS p) = BHSSize → 8 ≤ off ≤ 44 → bhs_u32 off (PDU_SetDataSegmentLength n p) = bhs_u32 off p.
Proof.
  intros Hp Hoff. unfold bhs_u32, PDU_SetDataSegmentLength, bhs_put. cbn [p_BHS]. unfold BHSSize in Hp.
  f_equal. apply slice_copy_at_ne; change (len [_; _; _]) with 3; lia.
Qed.

