(* ===== verification/Params.v ===== *)
(** * [internal/iscsi/params.go], [text.go]: text keys and their negotiation

    Go's strings are Rocq's [string]s; on the wire they are bytes.  A map is
    iterated in an order the run time chooses, a parameter here. *)

From S2P Require Import Bytes.
From stdpp Require Import pretty.
#[local] Open Scope Z_scope.

Definition str (l : list byte) : string := String.string_of_list_byte l.
Definition unstr (s : string) : list byte := String.list_byte_of_string s.

Definition DefaultMaxRecvDataSegmentLength : Z := 65536.
Definition DefaultMaxBurstLength : Z := 262144.
Definition DefaultFirstBurstLength : Z := 65536.
Definition DefaultMaxOutstandingR2T : Z := 1.
Definition DefaultDefaultTime2Wait : Z := 2.
Definition DefaultDefaultTime2Retain : Z := 20.
Definition DefaultMaxConnections : Z := 1.

Record Params := mkParams {
  pa_MaxRecvDataSegmentLength : Z;
  pa_MaxBurstLength : Z;
  pa_FirstBurstLength : Z;
  pa_MaxOutstandingR2T : Z;
  pa_DefaultTime2Wait : Z;
  pa_DefaultTime2Retain : Z;
  pa_MaxConnections : Z;
  pa_InitialR2T : bool;
  pa_ImmediateData : bool;
  pa_DataPDUInOrder : bool;
  pa_DataSequenceInOrder : bool;
  pa_HeaderDigest : string;
  pa_DataDigest : string;
  pa_InitiatorName : string;
  pa_TargetName : string;
  pa_SessionType : string;
}.

Definition DefaultTargetParams : Params := {|
  pa_MaxRecvDataSegmentLength := DefaultMaxRecvDataSegmentLength;
  pa_MaxBurstLength := DefaultMaxBurstLength;
  pa_FirstBurstLength := DefaultFirstBurstLength;
  pa_MaxOutstandingR2T := DefaultMaxOutstandingR2T;
  pa_DefaultTime2Wait := DefaultDefaultTime2Wait;
  pa_DefaultTime2Retain := DefaultDefaultTime2Retain;
  pa_MaxConnections := DefaultMaxConnections;
  pa_InitialR2T := true;
  pa_ImmediateData := true;
  pa_DataPDUInOrder := true;
  pa_DataSequenceInOrder := true;
  pa_HeaderDigest := "None";
  pa_DataDigest := "None";
  pa_InitiatorName := EmptyString;
  pa_TargetName := EmptyString;
  pa_SessionType := EmptyString;
|}.

(** Assignments to one field. *)
Section setters.
Variable p : Params.
Definition set_MaxRecvDataSegmentLength (v : Z) : Params := mkParams v (pa_MaxBurstLength p)
  (pa_FirstBurstLength p) (pa_MaxOutstandingR2T p) (pa_DefaultTime2Wait p) (pa_DefaultTime2Retain p)
  (pa_MaxConnections p) (pa_InitialR2T p) (pa_ImmediateData p) (pa_DataPDUInOrder p) (pa_DataSequenceInOrder
  p) (pa_HeaderDigest p) (pa_DataDigest p) (pa_InitiatorName p) (pa_TargetName p) (pa_SessionType p).
Definition set_MaxBurstLength (v : Z) : Params := mkParams (pa_MaxRecvDataSegmentLength p) v
  (pa_FirstBurstLength p) (pa_MaxOutstandingR2T p) (pa_DefaultTime2Wait p) (pa_DefaultTime2Retain p)
  (pa_MaxConnections p) (pa_InitialR2T p) (pa_ImmediateData p) (pa_DataPDUInOrder p) (pa_DataSequenceInOrder
  p) (pa_HeaderDigest p) (pa_DataDigest p) (pa_InitiatorName p) (pa_TargetName p) (pa_SessionType p).
Definition set_FirstBurstLength (v : Z) : Params := mkParams (pa_MaxRecvDataSegmentLength p)
  (pa_MaxBurstLength p) v (pa_MaxOutstandingR2T p) (pa_DefaultTime2Wait p) (pa_DefaultTime2Retain p)
  (pa_MaxConnections p) (pa_InitialR2T p) (pa_ImmediateData p) (pa_DataPDUInOrder p) (pa_DataSequenceInOrder
  p) (pa_HeaderDigest p) (pa_DataDigest p) (pa_InitiatorName p) (pa_TargetName p) (pa_SessionType p).
Definition set_MaxOutstandingR2T (v : Z) : Params := mkParams (pa_MaxRecvDataSegmentLength p)
  (pa_MaxBurstLength p) (pa_FirstBurstLength p) v (pa_DefaultTime2Wait p) (pa_DefaultTime2Retain p)
  (pa_MaxConnections p) (pa_InitialR2T p) (pa_ImmediateData p) (pa_DataPDUInOrder p) (pa_DataSequenceInOrder
  p) (pa_HeaderDigest p) (pa_DataDigest p) (pa_InitiatorName p) (pa_TargetName p) (pa_SessionType p).
Definition set_DefaultTime2Wait (v : Z) : Params := mkParams (pa_MaxRecvDataSegmentLength p)
  (pa_MaxBurstLength p) (pa_FirstBurstLength p) (pa_MaxOutstandingR2T p) v (pa_DefaultTime2Retain p)
  (pa_MaxConnections p) (pa_InitialR2T p) (pa_ImmediateData p) (pa_DataPDUInOrder p) (pa_DataSequenceInOrder
  p) (pa_HeaderDigest p) (pa_DataDigest p) (pa_InitiatorName p) (pa_TargetName p) (pa_SessionType p).
Definition set_DefaultTime2Retain (v : Z) : Params := mkParams (pa_MaxRecvDataSegmentLength p)
  (pa_MaxBurstLength p) (pa_FirstBurstLength p) (pa_MaxOutstandingR2T p) (pa_DefaultTime2Wait p) v
  (pa_MaxConnections p) (pa_InitialR2T p) (pa_ImmediateData p) (pa_DataPDUInOrder p) (pa_DataSequenceInOrder
  p) (pa_HeaderDigest p) (pa_DataDigest p) (pa_InitiatorName p) (pa_TargetName p) (pa_SessionType p).
Definition set_MaxConnections (v : Z) : Params := mkParams (pa_MaxRecvDataSegmentLength p) (pa_MaxBurstLength
  p) (pa_FirstBurstLength p) (pa_MaxOutstandingR2T p) (pa_DefaultTime2Wait p) (pa_DefaultTime2Retain p) v
  (pa_InitialR2T p) (pa_ImmediateData p) (pa_DataPDUInOrder p) (pa_DataSequenceInOrder p) (pa_HeaderDigest p)
  (pa_DataDigest p) (pa_InitiatorName p) (pa_TargetName p) (pa_SessionType p).
Definition set_InitialR2T (v : bool) : Params := mkParams (pa_MaxRecvDataSegmentLength p) (pa_MaxBurstLength
  p) (pa_FirstBurstLength p) (pa_MaxOutstandingR2T p) (pa_DefaultTime2Wait p) (pa_DefaultTime2Retain p)
  (pa_MaxConnections p) v (pa_ImmediateData p) (pa_DataPDUInOrder p) (pa_DataSequenceInOrder p)
  (pa_HeaderDigest p) (pa_DataDigest p) (pa_InitiatorName p) (pa_TargetName p) (pa_SessionType p).
Definition set_ImmediateData (v : bool) : Params := mkParams (pa_MaxRecvDataSegmentLength p)
  (pa_MaxBurstLength p) (pa_FirstBurstLength p) (pa_MaxOutstandingR2T p) (pa_DefaultTime2Wait p)
  (pa_DefaultTime2Retain p) (pa_MaxConnections p) (pa_InitialR2T p) v (pa_DataPDUInOrder p)
  (pa_DataSequenceInOrder p) (pa_HeaderDigest p) (pa_DataDigest p) (pa_InitiatorName p) (pa_TargetName p)
  (pa_SessionType p).
Definition set_DataPDUInOrder (v : bool) : Params := mkParams (pa_MaxRecvDataSegmentLength p)
  (pa_MaxBurstLength p) (pa_FirstBurstLength p) (pa_MaxOutstandingR2T p) (pa_DefaultTime2Wait p)
  (pa_DefaultTime2Retain p) (pa_MaxConnections p) (pa_InitialR2T p) (pa_ImmediateData p) v
  (pa_DataSequenceInOrder p) (pa_HeaderDigest p) (pa_DataDigest p) (pa_InitiatorName p) (pa_TargetName p)
  (pa_SessionType p).
Definition set_DataSequenceInOrder (v : bool) : Params := mkParams (pa_MaxRecvDataSegmentLength p)
  (pa_MaxBurstLength p) (pa_FirstBurstLength p) (pa_MaxOutstandingR2T p) (pa_DefaultTime2Wait p)
  (pa_DefaultTime2Retain p) (pa_MaxConnections p) (pa_InitialR2T p) (pa_ImmediateData p) (pa_DataPDUInOrder p)
  v (pa_HeaderDigest p) (pa_DataDigest p) (pa_InitiatorName p) (pa_TargetName p) (pa_SessionType p).
Definition set_HeaderDigest (v : string) : Params := mkParams (pa_MaxRecvDataSegmentLength p)
  (pa_MaxBurstLength p) (pa_FirstBurstLength p) (pa_MaxOutstandingR2T p) (pa_DefaultTime2Wait p)
  (pa_DefaultTime2Retain p) (pa_MaxConnections p) (pa_InitialR2T p) (pa_ImmediateData p) (pa_DataPDUInOrder p)
  (pa_DataSequenceInOrder p) v (pa_DataDigest p) (pa_InitiatorName p) (pa_TargetName p) (pa_SessionType p).
Definition set_DataDigest (v : string) : Params := mkParams (pa_MaxRecvDataSegmentLength p) (pa_MaxBurstLength
  p) (pa_FirstBurstLength p) (pa_MaxOutstandingR2T p) (pa_DefaultTime2Wait p) (pa_DefaultTime2Retain p)
  (pa_MaxConnections p) (pa_InitialR2T p) (pa_ImmediateData p) (pa_DataPDUInOrder p) (pa_DataSequenceInOrder
  p) (pa_HeaderDigest p) v (pa_InitiatorName p) (pa_TargetName p) (pa_SessionType p).
Definition set_InitiatorName (v : string) : Params := mkParams (pa_MaxRecvDataSegmentLength p)
  (pa_MaxBurstLength p) (pa_FirstBurstLength p) (pa_MaxOutstandingR2T p) (pa_DefaultTime2Wait p)
  (pa_DefaultTime2Retain p) (pa_MaxConnections p) (pa_InitialR2T p) (pa_ImmediateData p) (pa_DataPDUInOrder p)
  (pa_DataSequenceInOrder p) (pa_HeaderDigest p) (pa_DataDigest p) v (pa_TargetName p) (pa_SessionType p).
Definition set_TargetName (v : string) : Params := mkParams (pa_MaxRecvDataSegmentLength p) (pa_MaxBurstLength
  p) (pa_FirstBurstLength p) (pa_MaxOutstandingR2T p) (pa_DefaultTime2Wait p) (pa_DefaultTime2Retain p)
  (pa_MaxConnections p) (pa_InitialR2T p) (pa_ImmediateData p) (pa_DataPDUInOrder p) (pa_DataSequenceInOrder
  p) (pa_HeaderDigest p) (pa_DataDigest p) (pa_InitiatorName p) v (pa_SessionType p).
Definition set_SessionType (v : string) : Params := mkParams (pa_MaxRecvDataSegmentLength p)
  (pa_MaxBurstLength p) (pa_FirstBurstLength p) (pa_MaxOutstandingR2T p) (pa_DefaultTime2Wait p)
  (pa_DefaultTime2Retain p) (pa_MaxConnections p) (pa_InitialR2T p) (pa_ImmediateData p) (pa_DataPDUInOrder p)
  (pa_DataSequenceInOrder p) (pa_HeaderDigest p) (pa_DataDigest p) (pa_InitiatorName p) (pa_TargetName p) v.
End setters.

(** ** Text keys on the wire *)

(** [bytes.Split(data, []byte{0})]: always at least one part. *)
Fixpoint split_nul (l : list byte) : list (list byte) :=
  match l with
  | [] => [[]]
  | b :: l =>
      if decide (b = zero_byte) then [] :: split_nul l
      else match split_nul l with part :: parts => (b :: part) :: parts | [] => [[b]] end
  end.

Definition byte_eq : byte := byte_of_Z 61.   (* the equals sign *)
(** What is before and after the first equals sign. *)
Fixpoint cut_eq (l : list byte) : option (list byte * list byte) :=
  match l with
  | [] => None
  | b :: l =>
      if decide (b = byte_eq) then Some ([], l)
      else match cut_eq l with Some (k, v) => Some (b :: k, v) | None => None end
  end.

Definition parse_pair (result : gmap string string) (part : list byte) : gmap string string :=
  match part with
  | [] => result
  | _ => match cut_eq part with Some (k, v) => <[str k := str v]> result | None => result end
  end.
Definition ParseKeyValuePairs (data : list byte) : gmap string string :=
  foldl parse_pair ∅ (split_nul data).

Definition pair_bytes (kv : string * string) : list byte := unstr kv.1 ++ [byte_eq] ++ unstr kv.2 ++ [zero_byte].
Definition SerializeKeyValuePairs (order : list (string * string) → list (string * string))
    (kv : gmap string string) : list byte := order (map_to_list kv) ≫= pair_bytes.
Definition SerializeKeyValueList (pairs : list string) : list byte := pairs ≫= λ kv, unstr kv ++ [zero_byte].

(** ** Values *)

(** [strconv.Atoi]: a sign and decimal digits within 64 bits. *)
Fixpoint atoi_digits (acc : Z) (l : list byte) : option Z :=
  match l with
  | [] => Some acc
  | b :: l => let d := Z_of_byte b - 48 in
              if (0 <=? d) && (d <=? 9) then atoi_digits (acc * 10 + d) l else None
  end.
Definition Atoi (s : string) : option Z :=
  let l := unstr s in
  let '(sign, digits) := match l with
                         | b :: l' => if Z_of_byte b =? 45 then (-1, l') else if Z_of_byte b =? 43 then (1, l') else (1, l)
                         | [] => (1, l)
                         end in
  match digits with
  | [] => None
  | _ => match atoi_digits 0 digits with
         | Some v => if (-2^63 <=? sign * v) && (sign * v <? 2^63) then Some (sign * v) else None
         | None => None
         end
  end.
Definition Itoa (n : Z) : string := pretty n.

Definition parseIntParam (s : string) (defaultVal : Z) : Z :=
  match Atoi s with Some v => if v <? 0 then defaultVal else v | None => defaultVal end.

(** [strings.EqualFold(s, "Yes")]: U+017F, two bytes, also folds to an s. *)
Definition parseBoolParam (s : string) : bool :=
  match Z_of_byte <$> unstr s with
  | y :: e :: rest =>
      bool_decide (y = 89 ∨ y = 121) && bool_decide (e = 69 ∨ e = 101) &&
      bool_decide (rest = [83] ∨ rest = [115] ∨ rest = [197; 191])
  | _ => false
  end.
Definition boolToYesNo (b : bool) : string := if b then "Yes" else "No".

(** ** Negotiation *)

(** One iteration of the loop of [NegotiateParams]: the answers so far and the
    parameters so far. *)
Definition negotiate_key (target : Params) (acc : gmap string string * Params) (kv : string * string)
    : gmap string string * Params :=
  let '(result, p) := acc in
  let '(key, initVal) := kv in
  let answer v := <[key := v]> result in
  if decide (key = "InitiatorName") then (result, set_InitiatorName p initVal)
  else if decide (key = "TargetName") then (result, set_TargetName p initVal)
  else if decide (key = "SessionType") then (result, set_SessionType p initVal)
  else if decide (key = "InitiatorAlias") then (result, p)
  else if decide (key = "MaxRecvDataSegmentLength") then
    let negVal := Z.min (parseIntParam initVal DefaultMaxRecvDataSegmentLength) (pa_MaxRecvDataSegmentLength target) in
    (answer (Itoa negVal), set_MaxRecvDataSegmentLength p negVal)
  else if decide (key = "MaxBurstLength") then
    let negVal := Z.min (parseIntParam initVal DefaultMaxBurstLength) (pa_MaxBurstLength target) in
    (answer (Itoa negVal), set_MaxBurstLength p negVal)
  else if decide (key = "FirstBurstLength") then
    let negVal := Z.min (parseIntParam initVal DefaultFirstBurstLength) (pa_FirstBurstLength target) in
    (answer (Itoa negVal), set_FirstBurstLength p negVal)
  else if decide (key = "MaxOutstandingR2T") then
    let negVal := Z.min (parseIntParam initVal DefaultMaxOutstandingR2T) (pa_MaxOutstandingR2T target) in
    (answer (Itoa negVal), set_MaxOutstandingR2T p negVal)
  else if decide (key = "DefaultTime2Wait") then
    let negVal := Z.max (parseIntParam initVal DefaultDefaultTime2Wait) (pa_DefaultTime2Wait target) in
    (answer (Itoa negVal), set_DefaultTime2Wait p negVal)
  else if decide (key = "DefaultTime2Retain") then
    let negVal := Z.min (parseIntParam initVal DefaultDefaultTime2Retain) (pa_DefaultTime2Retain target) in
    (answer (Itoa negVal), set_DefaultTime2Retain p negVal)
  else if decide (key = "MaxConnections") then
    let negVal := Z.min (parseIntParam initVal 1) (pa_MaxConnections target) in
    (answer (Itoa negVal), set_MaxConnections p negVal)
  else if decide (key = "InitialR2T") then
    let negVal := parseBoolParam initVal || pa_InitialR2T target in
    (answer (boolToYesNo negVal), set_InitialR2T p negVal)
  else if decide (key = "ImmediateData") then
    let negVal := parseBoolParam initVal && pa_ImmediateData target in
    (answer (boolToYesNo negVal), set_ImmediateData p negVal)
  else if decide (key = "DataPDUInOrder") then
    let negVal := parseBoolParam initVal || pa_DataPDUInOrder target in
    (answer (boolToYesNo negVal), set_DataPDUInOrder p negVal)
  else if decide (key = "DataSequenceInOrder") then
    let negVal := parseBoolParam initVal || pa_DataSequenceInOrder target in
    (answer (boolToYesNo negVal), set_DataSequenceInOrder p negVal)
  else if decide (key = "HeaderDigest") then (answer "None", set_HeaderDigest p "None")
  else if decide (key = "DataDigest") then (answer "None", set_DataDigest p "None")
  else if decide (key = "AuthMethod") then (result, p)
  else if decide (key ∈ ["CHAP_A"; "CHAP_C"; "CHAP_I"; "CHAP_N"; "CHAP_R"]) then (result, p)
  else (answer "NotUnderstood", p).

Definition NegotiateParams (order : list (string * string) → list (string * string))
    (initiatorKV : gmap string string) (target : Params) : gmap string string * Params :=
  foldl (negotiate_key target) (∅, target) (order (map_to_list initiatorKV)).

(** ** The reference: every parameter on its own, in no order *)
Definition num_min (kv : gmap string string) (key : string) (dflt target : Z) : Z :=
  match kv !! key with Some v => Z.min (parseIntParam v dflt) target | None => target end.
Definition num_max (kv : gmap string string) (key : string) (dflt target : Z) : Z :=
  match kv !! key with Some v => Z.max (parseIntParam v dflt) target | None => target end.
Definition bool_or (kv : gmap string string) (key : string) (target : bool) : bool :=
  match kv !! key with Some v => parseBoolParam v || target | None => target end.
Definition bool_and (kv : gmap string string) (key : string) (target : bool) : bool :=
  match kv !! key with Some v => parseBoolParam v && target | None => target end.
Definition declared (kv : gmap string string) (key target : string) : string := default target (kv !! key).
Definition none_if_asked (kv : gmap string string) (key target : string) : string :=
  match kv !! key with Some _ => "None" | None => target end.

Definition negotiated (kv : gmap string string) (t : Params) : Params := {|
  pa_MaxRecvDataSegmentLength := num_min kv "MaxRecvDataSegmentLength" DefaultMaxRecvDataSegmentLength (pa_MaxRecvDataSegmentLength t);
  pa_MaxBurstLength := num_min kv "MaxBurstLength" DefaultMaxBurstLength (pa_MaxBurstLength t);
  pa_FirstBurstLength := num_min kv "FirstBurstLength" DefaultFirstBurstLength (pa_FirstBurstLength t);
  pa_MaxOutstandingR2T := num_min kv "MaxOutstandingR2T" DefaultMaxOutstandingR2T (pa_MaxOutstandingR2T t);
  pa_DefaultTime2Wait := num_max kv "DefaultTime2Wait" DefaultDefaultTime2Wait (pa_DefaultTime2Wait t);
  pa_DefaultTime2Retain := num_min kv "DefaultTime2Retain" DefaultDefaultTime2Retain (pa_DefaultTime2Retain t);
  pa_MaxConnections := num_min kv "MaxConnections" 1 (pa_MaxConnections t);
  pa_InitialR2T := bool_or kv "InitialR2T" (pa_InitialR2T t);
  pa_ImmediateData := bool_and kv "ImmediateData" (pa_ImmediateData t);
  pa_DataPDUInOrder := bool_or kv "DataPDUInOrder" (pa_DataPDUInOrder t);
  pa_DataSequenceInOrder := bool_or kv "DataSequenceInOrder" (pa_DataSequenceInOrder t);
  pa_HeaderDigest := none_if_asked kv "HeaderDigest" (pa_HeaderDigest t);
  pa_DataDigest := none_if_asked kv "DataDigest" (pa_DataDigest t);
  pa_InitiatorName := declared kv "InitiatorName" (pa_InitiatorName t);
  pa_TargetName := declared kv "TargetName" (pa_TargetName t);
  pa_SessionType := declared kv "SessionType" (pa_SessionType t);
|}.

(** The keys that are taken note of without an answer. *)
Definition silent_keys : list string :=
  ["InitiatorName"; "TargetName"; "SessionType"; "InitiatorAlias"; "AuthMethod";
   "CHAP_A"; "CHAP_C"; "CHAP_I"; "CHAP_N"; "CHAP_R"].
(** The answer to a key: the value the parameter gets. *)
Definition answer (t : Params) (key v : string) : option string :=
  let q := negotiated {[key := v]} t in
  if decide (key ∈ silent_keys) then None
  else Some (
    if decide (key = "MaxRecvDataSegmentLength") then Itoa (pa_MaxRecvDataSegmentLength q)
    else if decide (key = "MaxBurstLength") then Itoa (pa_MaxBurstLength q)
    else if decide (key = "FirstBurstLength") then Itoa (pa_FirstBurstLength q)
    else if decide (key = "MaxOutstandingR2T") then Itoa (pa_MaxOutstandingR2T q)
    else if decide (key = "DefaultTime2Wait") then Itoa (pa_DefaultTime2Wait q)
    else if decide (key = "DefaultTime2Retain") then Itoa (pa_DefaultTime2Retain q)
    else if decide (key = "MaxConnections") then Itoa (pa_MaxConnections q)
    else if decide (key = "InitialR2T") then boolToYesNo (pa_InitialR2T q)
    else if decide (key = "ImmediateData") then boolToYesNo (pa_ImmediateData q)
    else if decide (key = "DataPDUInOrder") then boolToYesNo (pa_DataPDUInOrder q)
    else if decide (key = "DataSequenceInOrder") then boolToYesNo (pa_DataSequenceInOrder q)
    else if decide (key = "HeaderDigest") then pa_HeaderDigest q
    else if decide (key = "DataDigest") then pa_DataDigest q
    else "NotUnderstood").

Lemma insert_other {A} (m : gmap string A) k k' v : k ≠ k' → <[k:=v]> m !! k' = m !! k'.
Proof. apply lookup_insert_ne. Qed.

(** One key: the reference of one map more. *)
Lemma negotiate_params_step t r m k v :
  (negotiate_key t (r, negotiated m t) (k, v)).2 = negotiated (<[k:=v]> m) t.
Proof.
  unfold negotiate_key.
  repeat (case_decide; [subst k; cbn; unfold negotiated, num_min, num_max, bool_or, bool_and, declared, none_if_asked;
    rw ?lookup_insert_eq; repeat (rw insert_other; [done|]); reflexivity|]).
  unfold negotiated, num_min, num_max, bool_or, bool_and, declared, none_if_asked.
  case_decide; cbn; repeat (rw insert_other; [done|]); reflexivity.
Qed.

Lemma negotiate_answer_step t p r k v :
  (negotiate_key t (r, p) (k, v)).1 = match answer t k v with Some s => <[k:=s]> r | None => r end.
Proof.
  unfold negotiate_key, answer.
  repeat (case_decide; [subst k; rw ?decide_False // ?decide_True //|]).
  assert (Hs : k ∈ silent_keys ↔ k ∈ ["CHAP_A"; "CHAP_C"; "CHAP_I"; "CHAP_N"; "CHAP_R"]).
  { unfold silent_keys. split; [|intros; by do 5 apply list_elem_of_further].
    do 5 (intros [?|Hin]%elem_of_cons; [done|revert Hin]). done. }
  case_decide; [by rw decide_True; [apply Hs|]|by rw decide_False; [rw Hs|]].
Qed.

(** Any order of the keys gives the reference. *)
Lemma negotiate_fold t l :
  NoDup l.*1 →
  foldl (negotiate_key t) (∅, t) l =
  (map_imap (answer t) (list_to_map l : gmap string string), negotiated (list_to_map l) t).
Proof.
  induction l as [|[k v] l IH] using rev_ind; intros Hnd.
  { cbn. f_equal. by destruct t. }
  rw fmap_app in Hnd. apply NoDup_app in Hnd as (Hl & Hdis & _).
  assert (Hk : k ∉ l.*1) by (intros Hin; apply (Hdis k Hin); cbn; by left).
  rw foldl_app (IH Hl). cbn [foldl].
  assert (Hmap : list_to_map (l ++ [(k, v)]) = <[k:=v]> (list_to_map l : gmap string string)).
  { rw list_to_map_snoc //. }
  rw Hmap. apply injective_projections.
  - rw negotiate_answer_step. cbn [fst].
    rw map_imap_insert. destruct (answer t k v); [done|]. rw delete_id //.
    rw map_lookup_imap. by rw (not_elem_of_list_to_map_1 _ _ Hk).
  - by rw negotiate_params_step.
Qed.

Lemma NegotiateParams_eq order kv target :
  (∀ l, order l ≡ₚ l) →
  NegotiateParams order kv target = (map_imap (answer target) kv, negotiated kv target).
Proof.
  intros Horder. unfold NegotiateParams.
  assert (Hnd : NoDup (order (map_to_list kv)).*1) by (rw Horder; apply NoDup_fst_map_to_list).
  rw negotiate_fold //.
  assert (Hmap : list_to_map (order (map_to_list kv)) = kv).
  { rw (list_to_map_proper _ (map_to_list kv)) //. apply list_to_map_to_list. }
  by rw Hmap.
Qed.

(** C35: parameter negotiation.  Whatever order the keys are processed in, each
    parameter comes out as the reference computes it from its own key alone -
    the smaller value, the larger waiting time, the disjunction or conjunction -
    and the answer to each key says so; unknown keys are NotUnderstood. *)
Theorem negotiation_spec order kv target :
  (∀ l, order l ≡ₚ l) →
  NegotiateParams order kv target = (map_imap (answer target) kv, negotiated kv target).
Proof. apply NegotiateParams_eq. Qed.

Definition small_kv : gmap string string :=
  {["MaxBurstLength" := "4096"; "InitialR2T" := "No"; "X-Foo" := "1"]}.
Lemma negotiation_spec_witness :
  pa_MaxBurstLength (NegotiateParams (@reverse _) small_kv DefaultTargetParams).2 = 4096 ∧
  (NegotiateParams (@reverse _) small_kv DefaultTargetParams).1 !! "X-Foo" = Some "NotUnderstood".
Proof.
  rw (negotiation_spec (@reverse _) small_kv DefaultTargetParams); [apply reverse_Permutation|].
  split; reflexivity.
Defined.

(** C36: what is negotiated stays within what a target offers whose own values are
    not negative, for every parameter and whatever the initiator sends: no length,
    number of R2Ts or connections and no retain time is negative or above the
    target's, the wait time is not below it; what the target requires of R2T and of
    the order of data PDUs and sequences is not given up; immediate data are not
    allowed unless the target allows them; and a target without digests gets none. *)
Theorem negotiation_bounds order kv (t : Params) :
  0 ≤ pa_MaxRecvDataSegmentLength t → 0 ≤ pa_MaxBurstLength t → 0 ≤ pa_FirstBurstLength t →
  0 ≤ pa_MaxOutstandingR2T t → 0 ≤ pa_MaxConnections t → 0 ≤ pa_DefaultTime2Retain t → (∀ l, order l ≡ₚ l) →
  let p := (NegotiateParams order kv t).2 in
  (0 ≤ pa_MaxRecvDataSegmentLength p ≤ pa_MaxRecvDataSegmentLength t ∧
   0 ≤ pa_MaxBurstLength p ≤ pa_MaxBurstLength t ∧
   0 ≤ pa_FirstBurstLength p ≤ pa_FirstBurstLength t ∧
   0 ≤ pa_MaxOutstandingR2T p ≤ pa_MaxOutstandingR2T t ∧
   0 ≤ pa_MaxConnections p ≤ pa_MaxConnections t ∧
   0 ≤ pa_DefaultTime2Retain p ≤ pa_DefaultTime2Retain t ∧
   pa_DefaultTime2Wait t ≤ pa_DefaultTime2Wait p) ∧
  ((pa_InitialR2T t → pa_InitialR2T p) ∧ (pa_DataPDUInOrder t → pa_DataPDUInOrder p) ∧
   (pa_DataSequenceInOrder t → pa_DataSequenceInOrder p) ∧ (pa_ImmediateData p → pa_ImmediateData t)) ∧
  (pa_HeaderDigest t = "None" → pa_HeaderDigest p = "None") ∧ (pa_DataDigest t = "None" → pa_DataDigest p = "None").
Proof.
  intros H1 H2 H3 H4 H5 H6 Horder. cbv zeta. rw NegotiateParams_eq // /negotiated. cbn.
  assert (Hnat : ∀ s d, 0 ≤ d → 0 ≤ parseIntParam s d).
  { intros s d Hd. unfold parseIntParam. destruct (Atoi s) as [v|]; [|done]. destruct (Z.ltb_spec v 0); lia. }
  assert (Hmin : ∀ key d u, 0 ≤ d → 0 ≤ u → 0 ≤ num_min kv key d u ≤ u).
  { intros key d u Hd Hu. unfold num_min. destruct (kv !! key) as [v|]; [|lia]. specialize (Hnat v d Hd). lia. }
  assert (Hor : ∀ key (u : bool), u → bool_or kv key u).
  { intros key u Hu. unfold bool_or. case_match; [|done]. rw Is_true_true in Hu. by rw Hu orb_true_r. }
  assert (Hnone : ∀ key u, u = "None" → none_if_asked kv key u = "None") by (intros key u Hu; unfold none_if_asked; by case_match).
  split_and!; try (apply Hmin; done); try apply Hor; try apply Hnone.
  - unfold num_max. case_match; lia.
  - unfold bool_and. case_match; [|done]. by intros [_ Ht]%andb_prop_elim.
Qed.

Lemma negotiation_bounds_witness :
  0 ≤ pa_MaxRecvDataSegmentLength (NegotiateParams id small_kv DefaultTargetParams).2
    ≤ pa_MaxRecvDataSegmentLength DefaultTargetParams ∧
  pa_DataDigest (NegotiateParams id small_kv DefaultTargetParams).2 = "None".
Proof.
  destruct (negotiation_bounds id small_kv DefaultTargetParams) as ([H _] & _ & _ & Hd);
    [discriminate..|intros l; reflexivity|split; [exact H|apply Hd; reflexivity]].
Defined.

(** ** Text keys round trip *)
Lemma split_nul_app part l : zero_byte ∉ part → split_nul (part ++ zero_byte :: l) = part :: split_nul l.
Proof.
  induction part as [|b part IH]; intros Hni; cbn [app split_nul]; case_decide; [done|done| |].
  { apply not_elem_of_cons in Hni as [Hb _]. congruence. }
  apply not_elem_of_cons in Hni as [_ Hni]. by rw IH.
Qed.

Lemma cut_eq_app k v : byte_eq ∉ k → cut_eq (k ++ byte_eq :: v) = Some (k, v).
Proof.
  induction k as [|b k IH]; intros Hni; cbn [app cut_eq]; case_decide; [done|done| |].
  { apply not_elem_of_cons in Hni as [Hb _]. congruence. }
  apply not_elem_of_cons in Hni as [_ Hni]. by rw IH.
Qed.

(** A key without an equals sign or NUL, a value without NUL. *)
Definition pair_ok (kv : string * string) : Prop :=
  byte_eq ∉ unstr kv.1 ∧ zero_byte ∉ unstr kv.1 ∧ zero_byte ∉ unstr kv.2.

Lemma str_unstr s : str (unstr s) = s.
Proof. apply String.string_of_list_byte_of_string. Qed.

Lemma parse_pairs m l :
  Forall pair_ok l →
  foldl parse_pair m (split_nul (l ≫= pair_bytes)) = foldl (λ m kv, <[kv.1 := kv.2]> m) m l.
Proof.
  intros Hl. revert m. induction Hl as [|[k v] l (Hk & Hk0 & Hv0) Hl IH]; intros m; [done|].
  rw bind_cons. unfold pair_bytes at 1. cbn [fst snd] in *.
  assert (Heq : (unstr k ++ [byte_eq] ++ unstr v ++ [zero_byte]) ++ (l ≫= pair_bytes) =
    (unstr k ++ byte_eq :: unstr v) ++ zero_byte :: (l ≫= pair_bytes)) by (rw -!app_assoc; done).
  rw Heq split_nul_app.
  { rw not_elem_of_app not_elem_of_cons. by split_and!. }
  cbn [foldl]. rw IH. f_equal. unfold parse_pair.
  assert (Hcut : cut_eq (unstr k ++ byte_eq :: unstr v) = Some (unstr k, unstr v)) by by apply cut_eq_app.
  rw Hcut !str_unstr. by destruct (unstr k).
Qed.

Lemma foldl_insert (l : list (string * string)) :
  NoDup l.*1 → foldl (λ (m : gmap string string) kv, <[kv.1 := kv.2]> m) ∅ l = list_to_map l.
Proof.
  induction l as [|[k v] l IH] using rev_ind; intros Hnd; [done|].
  rw fmap_app in Hnd. pose proof Hnd as (Hl & Hdis & _)%NoDup_app.
  rw foldl_app (IH Hl) list_to_map_snoc //. intros Hin. apply (Hdis k Hin). cbn. by left.
Qed.

(** C38: text keys survive the wire: serializing a map in any order and parsing
    the bytes gives the map back, if no key has an equals sign or a NUL and no
    value a NUL. *)
Theorem text_roundtrip order kv :
  (∀ l, order l ≡ₚ l) → (∀ k v, kv !! k = Some v → pair_ok (k, v)) →
  ParseKeyValuePairs (SerializeKeyValuePairs order kv) = kv.
Proof.
  intros Horder Hok. unfold ParseKeyValuePairs, SerializeKeyValuePairs. rw parse_pairs.
  { rw Horder. apply Forall_forall. intros [k v] Hin%elem_of_map_to_list. by apply Hok. }
  rw foldl_insert; [rw Horder; apply NoDup_fst_map_to_list|].
  rw (list_to_map_proper _ (map_to_list kv)); [rw Horder; apply NoDup_fst_map_to_list|done|].
  apply list_to_map_to_list.
Qed.

Lemma text_roundtrip_witness :
  ParseKeyValuePairs (SerializeKeyValuePairs (@reverse _) small_kv) = small_kv.
Proof.
  apply (text_roundtrip (@reverse _) small_kv); [apply reverse_Permutation|].
  intros k v Hk. assert (Hin : (k, v) ∈ map_to_list small_kv) by by apply elem_of_map_to_list.
  revert Hin. apply (Forall_forall pair_ok). refine (bool_decide_unpack _ _). vm_compute. exact I.
Defined.

(** ** target.go, text.go *)
Record LUNInfo := { lun_ID : Z; lun_BlockSize : Z; lun_NumBlocks : Z }.
Record Target := { t_IQN : string; t_Portal : string; t_LUNs : list LUNInfo }.
Definition NewTarget (iqn portal : string) : Target := {| t_IQN := iqn; t_Portal := portal; t_LUNs := [] |}.
Definition AddLUN (id blockSize numBlocks : Z) (t : Target) : Target :=
  {| t_IQN := t_IQN t; t_Portal := t_Portal t;
     t_LUNs := t_LUNs t ++ [{| lun_ID := id; lun_BlockSize := blockSize; lun_NumBlocks := numBlocks |}] |}.

(** [localAddr] is [nil] or prints as a string. *)
Definition handleSendTargets (data : list byte) (targets : list Target) (localAddr : option string)
    : option (list byte) :=
  match ParseKeyValuePairs data !! "SendTargets" with
  | None => None
  | Some sendTargets =>
      let responseKV := targets ≫= λ t,
        if decide (sendTargets = "All" ∨ sendTargets = t_IQN t) then
          let portal := if decide (t_Portal t = EmptyString) then default EmptyString localAddr else t_Portal t in
          ("TargetName=" +:+ t_IQN t) ::
          (if decide (portal = EmptyString) then [] else ["TargetAddress=" +:+ portal +:+ ",1"])
        else [] in
      if decide (responseKV = []) then None else Some (SerializeKeyValueList responseKV)
  end.
