(* ===== verification/DataTransfer.v ===== *)
(** * [internal/iscsi/data_in.go], [data_out.go]: moving a command's data

    Read data is cut into Data-In PDUs; the Data-Out PDUs of a write are put
    together again in a buffer per task. *)

From S2P Require Import Bytes Pdu Params.

(** ** Data-In *)
Definition data_in_pdu (itt lun statSN expCmdSN maxCmdSN dataSN offset : Z) (isFinal : bool) (chunk : list byte) : PDU :=
  let pdu := PDU_SetOpcode OpcodeDataIn PDU_zero in
  let pdu := PDU_SetFlags (if isFinal then 0x80 else 0) pdu in
  let pdu := PDU_SetInitiatorTaskTag itt (PDU_SetLUN lun pdu) in
  let pdu := bhs_put_u32 20 0xFFFFFFFF pdu in
  let pdu := PDU_SetMaxCmdSN maxCmdSN (PDU_SetExpCmdSN expCmdSN (PDU_SetStatSN statSN pdu)) in
  let pdu := bhs_put_u32 44 0 (bhs_put_u32 40 (u32 offset) (bhs_put_u32 36 dataSN pdu)) in
  set_data chunk pdu.

Section data_in.
Variables (itt lun : Z) (data : list byte) (statSN expCmdSN maxCmdSN maxRecvLen : Z).

(** [fuel] bounds the number of PDUs. *)
Fixpoint sendDataIn_loop (fuel : nat) (offset dataSN : Z) : M Conn unit :=
  if (offset <? len data) || (len data =? 0) then
    match fuel with
    | O => stop_with Diverged
    | S fuel =>
        let end_ := Z.min (offset + maxRecvLen) (len data) in
        let chunk := slice offset end_ data in
        WritePDU (data_in_pdu itt lun statSN expCmdSN maxCmdSN dataSN offset (end_ =? len data) chunk) ;;
        if len data =? 0 then mret tt else sendDataIn_loop fuel end_ (u32 (dataSN + 1))
    end
  else mret tt.
End data_in.

Definition sendDataIn (itt lun : Z) (data : list byte) (statSN expCmdSN maxCmdSN maxRecvLen : Z) : M Conn unit :=
  let maxRecvLen := if maxRecvLen <=? 0 then DefaultMaxRecvDataSegmentLength else maxRecvLen in
  sendDataIn_loop itt lun data statSN expCmdSN maxCmdSN maxRecvLen (S (length data)) 0 0.

(** ** Data-Out: one buffer

    [db_data] is the slice and [db_cap] its capacity; the array behind it is zero
    past the length of the slice. *)
Record dataOutBuffer := {
  db_itt : Z;
  db_expectedLen : Z;
  db_data : list byte;
  db_cap : Z;
  db_nextDataSN : Z;
}.
Definition newDataOutBuffer (itt expectedLen : Z) : dataOutBuffer :=
  {| db_itt := itt; db_expectedLen := expectedLen; db_data := []; db_cap := expectedLen; db_nextDataSN := 0 |}.

Definition extend_to (n : Z) (data : list byte) : list byte := data ++ make_bytes (n - len data).

Definition dataOutBuffer_add (pdu : PDU) (b : dataOutBuffer) : outcome (dataOutBuffer * bool) :=
  let finalBit := negb (Z.land (bhs_at 1 pdu) 0x80 =? 0) in
  let dataSN := bhs_u32 36 pdu in
  let bufferOffset := bhs_u32 40 pdu in
  let needed := u32 (bufferOffset + u32 (len (p_DataSegment pdu))) in
  let '(data, cap) :=
    if u32 (db_cap b) <? needed then (extend_to (Z.max needed (len (db_data b))) (db_data b), Z.max needed (db_cap b * 2))
    else if u32 (len (db_data b)) <? needed then (extend_to needed (db_data b), db_cap b)
    else (db_data b, db_cap b) in
  if len data <? bufferOffset then Panic     (* [b.data[bufferOffset:]] *)
  else Ok ({| db_itt := db_itt b; db_expectedLen := db_expectedLen b;
              db_data := copy_at bufferOffset (p_DataSegment pdu) data; db_cap := cap;
              db_nextDataSN := u32 (dataSN + 1) |}, finalBit).

(** ** The buffers by task tag *)
Abbreviation ReassemblyMap := (gmap Z dataOutBuffer).

Definition initBuffer (itt expectedLen : Z) (m : ReassemblyMap) : ReassemblyMap :=
  <[itt := newDataOutBuffer itt expectedLen]> m.
Definition clearBuffer (itt : Z) (m : ReassemblyMap) : ReassemblyMap := delete itt m.

(** The assembled data when the final PDU has come. *)
Definition addDataOut (pdu : PDU) : M ReassemblyMap (option (list byte)) :=
  let itt := PDU_InitiatorTaskTag pdu in
  m ← gets id;
  match m !! itt with
  | None => throw (Errorf "no reassembly buffer for ITT 0x%08X")
  | Some buf =>
      match dataOutBuffer_add pdu buf with
      | Ok (buf, final) =>
          if final : bool then modify (delete itt) ;; mret (Some (db_data buf))
          else modify (insert itt buf) ;; mret None
      | Stop r => stop_with r
      end
  end.

(** ** Data-In: what is sent *)
Definition chunk_at (data : list byte) (m : Z) (i : nat) : list byte :=
  slice (m * Z.of_nat i) (Z.min (m * Z.of_nat i + m) (len data)) data.

Section data_in_spec.
Variables (itt lun : Z) (data : list byte) (statSN expCmdSN maxCmdSN m : Z).
Hypothesis Hm : 0 < m < 2^24.
Hypothesis Hlen : len data < 2^32.

Definition pdu_at (n i : nat) : PDU :=
  data_in_pdu itt lun statSN expCmdSN maxCmdSN (Z.of_nat i) (m * Z.of_nat i) (bool_decide (S i = n)) (chunk_at data m i).

(** One round: the [i]-th PDU goes out, the rest follows. *)
Lemma loop_round i fuel n (last : bool) :
  m * Z.of_nat i < len data → last = (len data <=? m * Z.of_nat (S i)) → bool_decide (S i = n) = last →
  sendDataIn_loop itt lun data statSN expCmdSN maxCmdSN m (S fuel) (m * Z.of_nat i) (Z.of_nat i) =
  (WritePDU (pdu_at n i) ;;
   sendDataIn_loop itt lun data statSN expCmdSN maxCmdSN m fuel (if last then len data else m * Z.of_nat (S i)) (Z.of_nat (S i))).
Proof using Hm Hlen.
  intros Hi Hlast Hn. cbn [sendDataIn_loop].
  destruct (Z.ltb_spec (m * Z.of_nat i) (len data)); [|lia].
  destruct (Z.eqb_spec (len data) 0); [lia|]. cbn [orb].
  assert (Hend : Z.min (m * Z.of_nat i + m) (len data) = if last then len data else m * Z.of_nat (S i)).
  { subst last. destruct (Z.leb_spec (len data) (m * Z.of_nat (S i))); lia. }
  assert (Hfin : (Z.min (m * Z.of_nat i + m) (len data) =? len data) = last).
  { subst last. destruct (Z.leb_spec (len data) (m * Z.of_nat (S i))); destruct (Z.eqb_spec (Z.min (m * Z.of_nat i + m) (len data)) (len data)); lia. }
  assert (Hsn : u32 (Z.of_nat i + 1) = Z.of_nat (S i)) by (rw u32_small; nia).
  rw Hsn Hfin. unfold pdu_at, chunk_at. rw Hn. by rw Hend.
Qed.

(** The PDUs from the [i]-th on. *)
Lemma sends_loop k i fuel :
  m * Z.of_nat (i + k) < len data ≤ m * Z.of_nat (S (i + k)) → (k < fuel)%nat →
  sends ((pdu_at (S (i + k)) <$> seq i (S k)) ≫= wire)
    (sendDataIn_loop itt lun data statSN expCmdSN maxCmdSN m fuel (m * Z.of_nat i) (Z.of_nat i)).
Proof using Hm Hlen.
  assert (Hchunk : ∀ n i, len (p_DataSegment (pdu_at n i)) < 2^32).
  { intros n j. cbn. unfold chunk_at, slice, len in *. rw length_take length_drop. lia. }
  revert i fuel. induction k as [|k IH]; intros i [|fuel] Hk Hfuel; try lia.
  - rw Nat.add_0_r in Hk |- *. rw (loop_round i fuel (S i) true); [lia|symmetry; apply Z.leb_le; lia|by apply bool_decide_true|].
    cbn [seq fmap list_fmap list_bind mbind]. rw app_nil_r -(app_nil_r (wire _)).
    apply sends_seq; [by apply sends_WritePDU|].
    pose proof (len_nonneg data). assert (len data ≠ 0) by nia.
    destruct fuel; cbn [sendDataIn_loop]; rw Z.ltb_irrefl; (destruct (Z.eqb_spec (len data) 0); [lia|]); apply sends_ret.
  - rw (loop_round i fuel (S (i + S k)) false); [nia|symmetry; apply Z.leb_gt; nia|apply bool_decide_false; lia|].
    replace (i + S k)%nat with (S i + k)%nat in * by lia. change (seq i (S (S k))) with (i :: seq (S i) (S k)).
    rw fmap_cons bind_cons. apply sends_seq; [by apply sends_WritePDU|].
    specialize (IH (S i) fuel ltac:(lia) ltac:(lia)). exact IH.
Qed.
End data_in_spec.

Lemma len_chunk data m i : 0 < m → m * Z.of_nat i ≤ len data → len (chunk_at data m i) ≤ m.
Proof. intros Hm Hi. unfold chunk_at. pose proof (len_nonneg data). rw len_slice; lia. Qed.

(** The chunks make up the data. *)
Lemma chunks_join data m n :
  0 < m → (n = 0%nat ∨ m * (Z.of_nat n - 1) ≤ len data) →
  mjoin (chunk_at data m <$> seq 0 n) = slice 0 (Z.min (m * Z.of_nat n) (len data)) data.
Proof.
  intros Hm. pose proof (len_nonneg data). induction n as [|n IH]; intros Hn.
  - rw Z.mul_0_r Z.min_l //.
  - rw seq_S fmap_app join_app IH; [right; nia|]. cbn [fmap list_fmap mjoin list_join]. rw app_nil_r.
    unfold chunk_at. change (0 + n)%nat with n. rw (Z.min_l (m * Z.of_nat n)); [lia|].
    replace (m * Z.of_nat n + m) with (m * Z.of_nat (S n)) by lia. apply slice_split; nia.
Qed.

Lemma data_in_header itt lun statSN expCmdSN maxCmdSN dataSN offset f chunk :
  0 ≤ itt < 2^32 → 0 ≤ lun < 2^64 → 0 ≤ statSN < 2^32 → 0 ≤ expCmdSN < 2^32 → 0 ≤ maxCmdSN < 2^32 →
  0 ≤ dataSN < 2^32 → 0 ≤ offset < 2^32 →
  let p := data_in_pdu itt lun statSN expCmdSN maxCmdSN dataSN offset f chunk in
  len (p_BHS p) = BHSSize ∧ PDU_TotalAHSLength p = 0 ∧ p_AHS p = [] ∧ p_DataSegment p = chunk ∧
  PDU_Opcode p = OpcodeDataIn ∧ PDU_Flags p = (if f then 0x80 else 0) ∧
  PDU_InitiatorTaskTag p = itt ∧ PDU_LUN p = lun ∧
  PDU_StatSN p = statSN ∧ PDU_ExpCmdSN p = expCmdSN ∧ PDU_MaxCmdSN p = maxCmdSN ∧
  bhs_u32 36 p = dataSN ∧ bhs_u32 40 p = offset.
Proof.
  intros Hitt Hlun Hst Hec Hmc Hsn Hoff p. assert (Hu : u32 offset = offset) by by apply u32_small.
  assert (H1 : slice 16 20 (p_BHS p) = be_put 4 itt) by reflexivity.
  assert (H2 : slice 8 16 (p_BHS p) = be_put 8 lun) by reflexivity.
  assert (H3 : slice 24 28 (p_BHS p) = be_put 4 statSN) by reflexivity.
  assert (H4 : slice 28 32 (p_BHS p) = be_put 4 expCmdSN) by reflexivity.
  assert (H5 : slice 32 36 (p_BHS p) = be_put 4 maxCmdSN) by reflexivity.
  assert (H6 : slice 36 40 (p_BHS p) = be_put 4 dataSN) by reflexivity.
  assert (H7 : slice 40 44 (p_BHS p) = be_put 4 (u32 offset)) by reflexivity.
  split; [reflexivity|]. split; [reflexivity|]. split; [reflexivity|]. split; [reflexivity|]. split; [reflexivity|].
  split; [by destruct f|]. split_and!.
  - unfold PDU_InitiatorTaskTag, bhs_u32. change (16 + 4) with 20. rw H1 be_get_put_small //.
  - unfold PDU_LUN. rw H2 be_get_put_small //.
  - unfold PDU_StatSN, bhs_u32. change (24 + 4) with 28. rw H3 be_get_put_small //.
  - unfold PDU_ExpCmdSN, bhs_u32. change (28 + 4) with 32. rw H4 be_get_put_small //.
  - unfold PDU_MaxCmdSN, bhs_u32. change (32 + 4) with 36. rw H5 be_get_put_small //.
  - unfold bhs_u32. change (36 + 4) with 40. rw H6 be_get_put_small //.
  - unfold bhs_u32. change (40 + 4) with 44. rw H7 Hu be_get_put_small //.
Qed.

Lemma sendDataIn_pdus itt lun data statSN expCmdSN maxCmdSN maxRecvLen :
  let m := if maxRecvLen <=? 0 then DefaultMaxRecvDataSegmentLength else maxRecvLen in
  m < 2^24 → len data < 2^32 → 0 ≤ itt < 2^32 → 0 ≤ lun < 2^64 →
  0 ≤ statSN < 2^32 → 0 ≤ expCmdSN < 2^32 → 0 ≤ maxCmdSN < 2^32 →
  ∃ pdus : list PDU,
    sends (pdus ≫= wire) (sendDataIn itt lun data statSN expCmdSN maxCmdSN maxRecvLen) ∧
    len pdus = Z.max 1 ((len data + m - 1) / m) ∧
    mjoin (p_DataSegment <$> pdus) = data ∧
    ∀ i p, pdus !! i = Some p →
      pdu_ok p ∧ PDU_Opcode p = OpcodeDataIn ∧ PDU_InitiatorTaskTag p = itt ∧ PDU_LUN p = lun ∧
      PDU_StatSN p = statSN ∧ PDU_ExpCmdSN p = expCmdSN ∧ PDU_MaxCmdSN p = maxCmdSN ∧
      len (p_DataSegment p) ≤ m ∧ p_DataSegment p = chunk_at data m i ∧ bhs_u32 36 p = Z.of_nat i ∧ bhs_u32 40 p = m * Z.of_nat i ∧
      PDU_Flags p = if bool_decide (S i = length pdus) then 0x80 else 0.
Proof.
  intros m Hm Hdata Hitt Hlun Hst Hec Hmc. pose proof (len_nonneg data).
  assert (Hm0 : 0 < m) by (unfold m; destruct (Z.leb_spec maxRecvLen 0); unfold DefaultMaxRecvDataSegmentLength; lia).
  set (k := Z.to_nat ((len data - 1) / m)).
  pose proof (Z.div_mod (len data - 1) m ltac:(lia)). pose proof (Z.mod_pos_bound (len data - 1) m Hm0).
  assert (Hk : len data = 0 ∨ m * Z.of_nat k < len data ≤ m * Z.of_nat (S k)).
  { destruct (decide (len data = 0)); [by left|right]. pose proof (Z.div_pos (len data - 1) m). unfold k. nia. }
  assert (Hk0 : len data = 0 → k = 0%nat).
  { intros Hz. assert (Hlt : (len data - 1) / m < 0) by (apply Z.div_lt_upper_bound; lia). unfold k. lia. }
  exists (pdu_at itt lun data statSN expCmdSN maxCmdSN m (S k) <$> seq 0 (S k)).
  split; [|split; [|split]].
  - unfold sendDataIn. fold m. destruct (decide (len data = 0)) as [Hz|Hz].
    + rw (Hk0 Hz). destruct data; [|exfalso; unfold len in Hz; simpl in Hz; lia].
      cbn -[wire data_in_pdu WritePDU Z.min]. rw !app_nil_r. unfold pdu_at, chunk_at.
      rw -(app_nil_r (wire _)). change (Z.of_nat 0) with 0. rw Z.mul_0_r. apply (sends_seq _ []); [|apply sends_ret].
      rw (_ : (Z.min (0 + m) (len []) =? 0) = true) //; [unfold len; simpl; apply Z.eqb_eq; lia|].
      rw bool_decide_true //. apply sends_WritePDU. cbn. unfold slice, len. rw length_take length_drop. simpl. lia.
    + destruct Hk as [|Hk]; [done|]. pose proof (sends_loop itt lun data statSN expCmdSN maxCmdSN m ltac:(lia) Hdata k 0 (S (length data))) as Hs.
      rw Z.mul_0_r in Hs. apply Hs; [done|]. unfold len in Hk. nia.
  - unfold len at 1. rw length_fmap length_seq.
    destruct (decide (len data = 0)) as [Hz|Hz].
    + rw Hk0 // Hz Z.add_0_l Z.div_small; lia.
    + destruct Hk as [|Hk]; [done|]. pose proof (Z.div_pos (len data - 1) m). 
      replace (len data + m - 1) with (len data - 1 + 1 * m) by lia. rw Z.div_add; lia.
  - rw -list_fmap_compose. change (p_DataSegment ∘ _) with (chunk_at data m).
    rw chunks_join //; [right; lia|]. rw Z.min_r; [lia|]. apply slice_all.
  - intros i p Hp. apply list_lookup_fmap_Some in Hp as (j & -> & Hj). apply lookup_seq in Hj as [-> Hi].
    assert (Hpos : m * Z.of_nat i ≤ len data) by nia. assert (Z.of_nat i < 2^32) by nia.
    destruct (data_in_header itt lun statSN expCmdSN maxCmdSN (Z.of_nat i) (m * Z.of_nat i) (bool_decide (S i = S k)) (chunk_at data m i))
      as (Hb & Ha & Hah & Hd & Hfields); [lia..|].
    pose proof (len_chunk data m i Hm0 Hpos). rw length_fmap length_seq.
    destruct Hfields as (Hop & Hfl & Hi' & Hl' & Hs' & He' & Hm' & H36 & H40). unfold pdu_at. cbn [Nat.add].
    split; [split; [exact Hb|by rw Ha Hah|rw Hd; lia]|]. rw Hd.
    exact (conj Hop (conj Hi' (conj Hl' (conj Hs' (conj He' (conj Hm' (conj ltac:(done) (conj eq_refl (conj H36 (conj H40 Hfl)))))))))).
Qed.

(** C19: read data leaves as a sequence of Data-In PDUs of the task that the
    initiator can put together: at most the negotiated length each, numbered from
    0, at consecutive offsets, the final bit on the last one only, and the
    segments joined are the data; an empty read is one empty final PDU. *)
Theorem data_in_spec itt lun data statSN expCmdSN maxCmdSN maxRecvLen :
  let m := if maxRecvLen <=? 0 then DefaultMaxRecvDataSegmentLength else maxRecvLen in
  m < 2^24 → len data < 2^32 → 0 ≤ itt < 2^32 → 0 ≤ lun < 2^64 →
  0 ≤ statSN < 2^32 → 0 ≤ expCmdSN < 2^32 → 0 ≤ maxCmdSN < 2^32 →
  ∃ pdus : list PDU,
    sends (pdus ≫= wire) (sendDataIn itt lun data statSN expCmdSN maxCmdSN maxRecvLen) ∧
    len pdus = Z.max 1 ((len data + m - 1) / m) ∧
    mjoin (p_DataSegment <$> pdus) = data ∧
    ∀ i p, pdus !! i = Some p →
      pdu_ok p ∧ PDU_Opcode p = OpcodeDataIn ∧ PDU_InitiatorTaskTag p = itt ∧ PDU_LUN p = lun ∧
      PDU_StatSN p = statSN ∧ PDU_ExpCmdSN p = expCmdSN ∧ PDU_MaxCmdSN p = maxCmdSN ∧
      len (p_DataSegment p) ≤ m ∧ p_DataSegment p = chunk_at data m i ∧ bhs_u32 36 p = Z.of_nat i ∧ bhs_u32 40 p = m * Z.of_nat i ∧
      PDU_Flags p = if bool_decide (S i = length pdus) then 0x80 else 0.
Proof. apply sendDataIn_pdus. Qed.

Lemma data_in_spec_witness :
  ∃ pdus : list PDU,
    sends (pdus ≫= wire) (sendDataIn 7 0 (String.list_byte_of_string "abcdef") 1 2 3 4) ∧
    mjoin (p_DataSegment <$> pdus) = String.list_byte_of_string "abcdef" ∧ len pdus = 2.
Proof.
  destruct (data_in_spec 7 0 (String.list_byte_of_string "abcdef") 1 2 3 4) as (pdus & Hs & Hn & Hd & _);
    [reflexivity|reflexivity|lia..|].
  exists pdus. split; [exact Hs|]. split; [exact Hd|exact Hn].
Defined.

(** ** Data-Out: what is assembled *)
Definition dout_offset (p : PDU) : Z := bhs_u32 40 p.
Definition dout_end (p : PDU) : Z := dout_offset p + len (p_DataSegment p).
Definition dout_final (p : PDU) : bool := negb (Z.land (bhs_at 1 p) 0x80 =? 0).

(** [p] carries the bytes of [D] from its offset on. *)
Definition carries (D : list byte) (p : PDU) : Prop :=
  dout_end p ≤ len D ∧ p_DataSegment p = slice (dout_offset p) (dout_end p) D.
Definition covers (ps : list PDU) (i : nat) : Prop :=
  ∃ p, p ∈ ps ∧ dout_offset p ≤ Z.of_nat i < dout_end p.

Section reassembly.
Variables (D : list byte).
Hypothesis HD : len D < 2^32.

(** The buffer after the PDUs [ps]. *)
Record holds (ps : list PDU) (b : dataOutBuffer) : Prop := {
  ho_len : len (db_data b) ≤ len D;
  ho_end p : p ∈ ps → dout_end p ≤ len (db_data b);
  ho_data i : covers ps i → db_data b !! i = D !! i;
}.

Lemma dout_offset_range p : len (p_BHS p) = BHSSize → 0 ≤ dout_offset p < 2^32.
Proof.
  intros Hp. unfold dout_offset, bhs_u32. change (40 + 4) with 44. pose proof (be_get_range (slice 40 44 (p_BHS p))) as Hr.
  unfold BHSSize in Hp. rw len_slice in Hr; [lia|lia|]. exact Hr.
Qed.

Lemma len_extend_to n l : len (extend_to n l) = Z.max n (len l).
Proof using.
  unfold extend_to. rw len_app. unfold make_bytes, len. rw length_replicate. lia.
Qed.
Lemma lookup_extend_to n l i : (i < length l)%nat → extend_to n l !! i = l !! i.
Proof using. intros Hi. unfold extend_to. by rw lookup_app_l. Qed.

(** Adding a PDU that fits first makes the buffer long enough for it. *)
Lemma add_eq p b :
  len (p_BHS p) = BHSSize → dout_end p ≤ len D → len (db_data b) ≤ len D →
  ∃ data cap, (∀ i, (i < length (db_data b))%nat → data !! i = db_data b !! i) ∧
    len data = Z.max (dout_end p) (len (db_data b)) ∧
    dataOutBuffer_add p b =
      Ok ({| db_itt := db_itt b; db_expectedLen := db_expectedLen b;
             db_data := copy_at (dout_offset p) (p_DataSegment p) data; db_cap := cap;
             db_nextDataSN := u32 (bhs_u32 36 p + 1) |}, dout_final p).
Proof using HD.
  intros Hp Hend Hb. pose proof (dout_offset_range p Hp). pose proof (len_nonneg (p_DataSegment p)).
  pose proof (len_nonneg (db_data b)). unfold dout_end in *. unfold dataOutBuffer_add. cbv zeta. fold (dout_offset p).
  rw (u32_small (len (p_DataSegment p))); [lia|]. rw (u32_small (dout_offset p + _)); [lia|].
  rw (u32_small (len (db_data b))); [lia|]. set (n := dout_offset p + len (p_DataSegment p)) in *.
  destruct (Z.ltb_spec (u32 (db_cap b)) n); [|destruct (Z.ltb_spec (len (db_data b)) n)].
  - rw (proj2 (Z.ltb_ge (len (extend_to _ _)) (dout_offset p))); [rw len_extend_to; lia|].
    do 2 eexists. split; [|split; [|reflexivity]]; [by apply lookup_extend_to|rw len_extend_to; lia].
  - rw (proj2 (Z.ltb_ge (len (extend_to _ _)) (dout_offset p))); [rw len_extend_to; lia|].
    do 2 eexists. split; [|split; [|reflexivity]]; [by apply lookup_extend_to|rw len_extend_to; lia].
  - rw (proj2 (Z.ltb_ge (len (db_data b)) (dout_offset p))); [lia|].
    do 2 eexists. split; [|split; [|reflexivity]]; [done|lia].
Qed.

Lemma holds_new itt expectedLen : holds [] (newDataOutBuffer itt expectedLen).
Proof using.
  pose proof (len_nonneg D). split; cbn; [unfold len at 1; simpl; lia|by intros p Hp%elem_of_nil|].
  intros i (p & Hp%elem_of_nil & _). done.
Qed.

Lemma holds_add ps p b :
  len (p_BHS p) = BHSSize → carries D p → holds ps b →
  ∃ b', dataOutBuffer_add p b = Ok (b', dout_final p) ∧ holds (ps ++ [p]) b'.
Proof using HD.
  intros Hp [Hend Hseg] [Hl He Hd]. pose proof (dout_offset_range p Hp) as Hoff.
  destruct (add_eq p b Hp Hend Hl) as (data & cap & Hold & Hlen & Hadd). eexists. split; [exact Hadd|].
  pose proof (len_nonneg (p_DataSegment p)).
  assert (Hfit : dout_offset p + len (p_DataSegment p) ≤ len data) by (unfold dout_end in Hlen; lia).
  assert (Hlen' : len (copy_at (dout_offset p) (p_DataSegment p) data) = len data) by (apply len_copy_at; lia).
  split; cbn [db_data].
  - lia.
  - intros q [Hq| ->%list_elem_of_singleton]%elem_of_app; [specialize (He q Hq)|]; lia.
  - intros i Hcov. rw lookup_copy_at; [lia|done|]. case_decide as Hi.
    + rw Hseg lookup_slice decide_True; [unfold dout_end, len in *; lia|]. f_equal. lia.
    + destruct Hcov as (q & [Hq| ->%list_elem_of_singleton]%elem_of_app & Hqi).
      * rw Hold; [specialize (He q Hq); unfold len in *; lia|]. apply Hd. by exists q.
      * exfalso. apply Hi. unfold dout_end, len in *. lia.
Qed.

Lemma holds_all ps b : holds ps b → (∀ i, (i < length D)%nat → covers ps i) → db_data b = D.
Proof using.
  intros [Hl He Hd] Hcov. apply list_eq. intros i. destruct (decide (i < length D)%nat) as [Hi|Hi]; [by apply Hd, Hcov|].
  rw !lookup_ge_None_2 //; unfold len in *; lia.
Qed.
End reassembly.

Lemma addDataOut_found D p ps b m :
  len D < 2^32 → len (p_BHS p) = BHSSize → carries D p → m !! PDU_InitiatorTaskTag p = Some b → holds D ps b →
  ∃ b', holds D (ps ++ [p]) b' ∧
    addDataOut p m = if dout_final p then (clearBuffer (PDU_InitiatorTaskTag p) m, Ok (Some (db_data b')))
                     else (<[PDU_InitiatorTaskTag p := b']> m, Ok None).
Proof.
  intros HD Hp Hc Hm Hb. destruct (holds_add D HD ps p b Hp Hc Hb) as (b' & Hadd & Hb').
  exists b'. split; [done|]. unfold addDataOut. M_unfold. rw Hm Hadd. by destruct (dout_final p).
Qed.

(** C18: the data of a write command arrives as it was sent: when the PDUs of its
    task carry pieces of [D] that together cover it, in any order and with
    overlaps, and the last of them is the final one, the result of the last is
    [D] and nothing is assembled before it; the buffer of the task is gone and
    those of the other tasks are as they were. *)
Theorem data_out_reassembles D itt expectedLen ps last m :
  len D < 2^32 →
  (∀ p, p ∈ ps ++ [last] → len (p_BHS p) = BHSSize ∧ PDU_InitiatorTaskTag p = itt ∧ carries D p) →
  (∀ p, p ∈ ps → dout_final p = false) → dout_final last = true →
  (∀ i, (i < length D)%nat → covers (ps ++ [last]) i) →
  ∃ m',
    for_each (λ r p, o ← addDataOut p; mret (r ++ [o])) [] ps (initBuffer itt expectedLen m) = (m', Ok (replicate (length ps) None)) ∧
    addDataOut last m' = (clearBuffer itt m, Ok (Some D)).
Proof.
  intros HD Hps Hnf Hf Hcov.
  assert (Hloop : ∀ todo done b m0, ps = done ++ todo → holds D done b →
    ∃ b', holds D ps b' ∧ 
      for_each (λ r p, o ← addDataOut p; mret (r ++ [o])) (replicate (length done) None) todo (<[itt := b]> m0)
      = (<[itt := b']> m0, Ok (replicate (length ps) None))).
  { induction todo as [|p todo IH]; intros done b m0 Hsplit Hb.
    - rw app_nil_r in Hsplit. subst done. by exists b.
    - destruct (Hps p) as (Hp & Hitt & Hc); [rw Hsplit; set_solver|].
      destruct (addDataOut_found D p done b (<[itt := b]> m0) HD Hp Hc) as (b1 & Hb1 & Hadd); [by rw Hitt lookup_insert_eq|done|].
      rw Hnf in Hadd; [rw Hsplit; set_solver|]. rw Hitt insert_insert_eq in Hadd.
      destruct (IH (done ++ [p]) b1 m0) as (b' & Hb' & Hrest); [by rw -app_assoc|done|].
      exists b'. split; [done|]. cbn [for_each]. rw (bind_ok _ _ _ _ _ (bind_ok _ _ _ _ _ Hadd)).
      rw -Hrest length_app replicate_add. done. }
  destruct (Hloop ps [] (newDataOutBuffer itt expectedLen) m) as (b & Hb & Hrun); [done|apply holds_new|].
  exists (<[itt := b]> m). split; [exact Hrun|].
  destruct (Hps last) as (Hp & Hitt & Hc); [set_solver|].
  destruct (addDataOut_found D last ps b (<[itt := b]> m) HD Hp Hc) as (b' & Hb' & ->); [by rw Hitt lookup_insert_eq|done|].
  rw Hf Hitt (holds_all D _ _ Hb' Hcov). unfold clearBuffer. by rw delete_insert_eq.
Qed.

(** A Data-Out PDU of the task [itt]. *)
Definition data_out_pdu (itt dataSN offset : Z) (final : bool) (chunk : list byte) : PDU :=
  set_data chunk (bhs_put_u32 40 offset (bhs_put_u32 36 dataSN (PDU_SetInitiatorTaskTag itt
    (PDU_SetFlags (if final then 0x80 else 0) (PDU_SetOpcode OpcodeDataOut PDU_zero))))).

Lemma data_out_reassembles_witness :
  ∃ m', addDataOut (data_out_pdu 5 1 0 true (String.list_byte_of_string "abcd")) m'
        = (clearBuffer 5 ∅, Ok (Some (String.list_byte_of_string "abcdef"))).
Proof.
  destruct (data_out_reassembles (String.list_byte_of_string "abcdef") 5 512
    [data_out_pdu 5 0 3 false (String.list_byte_of_string "def")]
    (data_out_pdu 5 1 0 true (String.list_byte_of_string "abcd")) ∅) as (m' & _ & Hlast).
  - reflexivity.
  - intros p [->%list_elem_of_singleton| ->%list_elem_of_singleton]%elem_of_app; (split; [reflexivity|split; [reflexivity|split; [|reflexivity]]]);
      apply Z.leb_le; reflexivity.
  - by intros p ->%list_elem_of_singleton.
  - reflexivity.
  - intros i Hi. change (i < 6)%nat in Hi. destruct (decide (i < 3)%nat).
    + exists (data_out_pdu 5 1 0 true (String.list_byte_of_string "abcd")). split; [set_solver|].
      change (0 ≤ Z.of_nat i < 4). lia.
    + exists (data_out_pdu 5 0 3 false (String.list_byte_of_string "def")). split; [set_solver|].
      change (3 ≤ Z.of_nat i < 6). lia.
  - exists m'. exact Hlast.
Defined.

(** The offset and the length of a Data-Out PDU are added in 32 bits: the one at
    the last offset with two bytes makes the slice expression panic. *)
Lemma data_out_overflow_panics :
  (addDataOut (data_out_pdu 5 0 0xFFFFFFFF false [zero_byte; zero_byte]) (initBuffer 5 512 ∅)).2 = Panic.
Proof. vm_compute. reflexivity. Qed.
