(* ===== verification/Login.v ===== *)
(** * [internal/iscsi/login.go], [chap.go]: the login phase

    A state machine over Login Requests: security negotiation, with CHAP when it is
    configured, operational negotiation, full-feature phase.  MD5 and what the
    system's random source returns to this login are parameters. *)

From S2P Require Import Bytes Pdu Params.

(** ** [encoding/hex] *)
Definition hex_digit (n : Z) : byte := byte_of_Z (if n <? 10 then 48 + n else 87 + n).
Definition hex_Encode (l : list byte) : list byte :=
  l ≫= λ b, [hex_digit (Z_of_byte b / 16); hex_digit (Z_of_byte b `mod` 16)].
Definition hex_value (b : byte) : option Z :=
  let c := Z_of_byte b in
  if (48 <=? c) && (c <=? 57) then Some (c - 48)
  else if (97 <=? c) && (c <=? 102) then Some (c - 87)
  else if (65 <=? c) && (c <=? 70) then Some (c - 55)
  else None.
Fixpoint hex_Decode (l : list byte) : option (list byte) :=
  match l with
  | [] => Some []
  | [_] => None
  | a :: b :: l =>
      match hex_value a, hex_value b, hex_Decode l with
      | Some x, Some y, Some r => Some (byte_of_Z (x * 16 + y) :: r)
      | _, _, _ => None
      end
  end.

(** ** chap.go *)
Record CHAPChallenge := { ch_ID : byte; ch_Challenge : list byte }.

Section chap.
Variable md5 : list byte → list byte.

Definition NewCHAPChallenge (rand_id : option byte) (rand_challenge : option (list byte)) : outcome CHAPChallenge :=
  match rand_id, rand_challenge with
  | None, _ => Fail (Wrapf "generating CHAP ID: %w" (ErrorNew "crypto/rand"))
  | _, None => Fail (Wrapf "generating CHAP challenge: %w" (ErrorNew "crypto/rand"))
  | Some id, Some challenge => Ok {| ch_ID := id; ch_Challenge := challenge |}
  end.

Definition hex_prefix : list byte := unstr "0x".
Definition ChallengeHex (c : CHAPChallenge) : string := str (hex_prefix ++ hex_Encode (ch_Challenge c)).

Definition computeCHAPResponse (id : byte) (secret : string) (challenge : list byte) : list byte :=
  hex_Encode (md5 (id :: unstr secret ++ challenge)).
Definition ComputeCHAPResponse (id : byte) (secret : string) (challenge : list byte) : string :=
  str (hex_prefix ++ computeCHAPResponse id secret challenge).

(** [len(resp) > 2 && (resp[:2] == "0x" || resp[:2] == "0X")] *)
Definition strip_prefix (resp : list byte) : list byte :=
  if (2 <? len resp) && bool_decide (slice 0 2 resp = unstr "0x" ∨ slice 0 2 resp = unstr "0X")
  then slice 2 (len resp) resp else resp.
Definition VerifyResponse (secret response : string) (c : CHAPChallenge) : bool :=
  let expected := computeCHAPResponse (ch_ID c) secret (ch_Challenge c) in
  match hex_Decode (strip_prefix (unstr response)) with
  | None => false
  | Some respBytes => bool_decide (hex_Encode respBytes = expected)
  end.
End chap.

Record CHAPParams := { cp_Algorithm : string; cp_Identifier : string; cp_Name : string; cp_Response : string }.
(** A missing key is the empty string. *)
Definition ParseCHAPParams (kv : gmap string string) : CHAPParams :=
  let get k := default EmptyString (kv !! k) in
  {| cp_Algorithm := get "CHAP_A"; cp_Identifier := get "CHAP_I"; cp_Name := get "CHAP_N"; cp_Response := get "CHAP_R" |}.

(** ** login.go *)
Definition StageSecurityNegotiation : Z := 0.
Definition StageOperationalNegotiation : Z := 1.
Definition StageFullFeaturePhase : Z := 3.

Definition LoginStatusSuccess : Z := 0x00.
Definition LoginStatusInitiatorError : Z := 0x02.
Definition LoginDetailSuccess : Z := 0x00.
Definition LoginDetailAuthFailure : Z := 0x01.
Definition LoginDetailInvalidDuringLogin : Z := 0x0F.

Record AuthConfig := { au_Enabled : bool; au_CHAPUser : string; au_CHAPSecret : string }.

Record loginHandler := mkLogin {
  lh_conn : Conn;
  lh_currentStage : Z;
  lh_negotiated : Params;
  lh_chapChallenge : option CHAPChallenge;
  lh_isid : list byte;
  lh_cmdSN : Z;
  lh_statSN : Z;
}.
Section setters.
Implicit Types s : loginHandler.
Definition lh_set_conn (n : Conn) s :=
  mkLogin n (lh_currentStage s) (lh_negotiated s) (lh_chapChallenge s) (lh_isid s) (lh_cmdSN s) (lh_statSN s).
Definition lh_set_stage (st : Z) s :=
  mkLogin (lh_conn s) st (lh_negotiated s) (lh_chapChallenge s) (lh_isid s) (lh_cmdSN s) (lh_statSN s).
Definition lh_set_negotiated (p : Params) s :=
  mkLogin (lh_conn s) (lh_currentStage s) p (lh_chapChallenge s) (lh_isid s) (lh_cmdSN s) (lh_statSN s).
Definition lh_set_challenge (c : CHAPChallenge) s :=
  mkLogin (lh_conn s) (lh_currentStage s) (lh_negotiated s) (Some c) (lh_isid s) (lh_cmdSN s) (lh_statSN s).
Definition lh_set_request (isid : list byte) (cmdSN : Z) s :=
  mkLogin (lh_conn s) (lh_currentStage s) (lh_negotiated s) (lh_chapChallenge s) isid cmdSN (lh_statSN s).
Definition lh_set_statSN (sn : Z) s :=
  mkLogin (lh_conn s) (lh_currentStage s) (lh_negotiated s) (lh_chapChallenge s) (lh_isid s) (lh_cmdSN s) sn.
End setters.

Definition newLoginHandler (conn : Conn) (statSN : Z) : loginHandler :=
  {| lh_conn := conn; lh_currentStage := StageSecurityNegotiation; lh_negotiated := DefaultTargetParams;
     lh_chapChallenge := None; lh_isid := make_bytes 6; lh_cmdSN := 0; lh_statSN := statSN |}.

(** The fields of a Login Request. *)
Definition login_transit (req : PDU) : bool := negb (Z.land (bhs_at 1 req) 0x80 =? 0).
Definition login_csg (req : PDU) : Z := Z.land (Z.shiftr (bhs_at 1 req) 2) 0x03.
Definition login_nsg (req : PDU) : Z := Z.land (bhs_at 1 req) 0x03.
Definition login_kv (req : PDU) : gmap string string :=
  if 0 <? len (p_DataSegment req) then ParseKeyValuePairs (p_DataSegment req) else ∅.

Section login.
Variables (md5 : list byte → list byte) (rand_id : option byte) (rand_challenge : option (list byte)).
Variable (order : list (string * string) → list (string * string)).
Variables (authConfig : AuthConfig) (targetName : string).

Definition login_flags (csg nsg : Z) (transitBit : bool) : Z :=
  let flags := Z.lor (Z.shiftl csg 2) nsg in if transitBit then Z.lor flags 0x80 else flags.
Definition login_rsp_pdu (req : PDU) (statusClass statusDetail flags statSN cmdSN : Z) (kvOut : gmap string string) : PDU :=
  let rsp := bhs_put_byte 1 flags (bhs_put_byte 0 OpcodeLoginRsp PDU_zero) in
  let rsp := bhs_put_byte 3 0 (bhs_put_byte 2 0 rsp) in
  let rsp := bhs_put 14 (slice 14 16 (p_BHS req)) (bhs_put 8 (slice 8 14 (p_BHS req)) rsp) in
  let rsp := bhs_put_byte 15 1 (bhs_put_byte 14 0 rsp) in
  let rsp := bhs_put 16 (slice 16 20 (p_BHS req)) rsp in
  let rsp := PDU_SetMaxCmdSN (u32 (cmdSN + 32)) (PDU_SetExpCmdSN (u32 (cmdSN + 1)) (PDU_SetStatSN statSN rsp)) in
  let rsp := bhs_put_byte 37 statusDetail (bhs_put_byte 36 statusClass rsp) in
  set_data (SerializeKeyValuePairs order kvOut) rsp.

Definition sendLoginResponse (req : PDU) (statusClass statusDetail csg nsg : Z) (transitBit : bool)
    (kvOut : gmap string string) : M loginHandler unit :=
  when_ (transitBit && ((nsg =? StageFullFeaturePhase) ||
           ((csg =? StageSecurityNegotiation) && (nsg =? StageOperationalNegotiation))))
    (modify (lh_set_stage nsg)) ;;
  modify (λ s, lh_set_statSN (u32 (lh_statSN s + 1)) s) ;;
  s ← gets id;
  zoom lh_conn lh_set_conn
    (WritePDU (login_rsp_pdu req statusClass statusDetail (login_flags csg nsg transitBit) (lh_statSN s) (lh_cmdSN s) kvOut)).

Definition sendLoginError (req : PDU) (statusClass statusDetail : Z) : M loginHandler unit :=
  s ← gets id;
  sendLoginResponse req statusClass statusDetail (lh_currentStage s) (lh_currentStage s) false ∅.

(** [if initName, ok := kvIn["InitiatorName"]; ok { ... }] *)
Definition note_initiator (kvIn : gmap string string) : M loginHandler unit :=
  match kvIn !! "InitiatorName" with
  | Some initName => modify (λ s, lh_set_negotiated (set_InitiatorName (lh_negotiated s) initName) s)
  | None => mret tt
  end.

Definition handleSecurityStage (req : PDU) (kvIn : gmap string string) (transitBit : bool) (nsg : Z) : M loginHandler unit :=
  if negb (au_Enabled authConfig) then
    note_initiator kvIn ;;
    let kvOut := <["TargetName" := targetName]> (∅ : gmap string string) in
    let kvOut := match kvIn !! "AuthMethod" with Some _ => <["AuthMethod" := "None"]> kvOut | None => kvOut end in
    let nextStage := if transitBit && (nsg =? StageFullFeaturePhase) then StageFullFeaturePhase else StageOperationalNegotiation in
    sendLoginResponse req LoginStatusSuccess LoginDetailSuccess StageSecurityNegotiation nextStage transitBit kvOut
  else
    s ← gets id;
    match lh_chapChallenge s with
    | None =>
        chap ← wrap "generating CHAP challenge: %w" (λ s, (s, NewCHAPChallenge rand_id rand_challenge));
        modify (lh_set_challenge chap) ;;
        note_initiator kvIn ;;
        sendLoginResponse req LoginStatusSuccess LoginDetailSuccess StageSecurityNegotiation StageSecurityNegotiation false
          (<["AuthMethod" := "CHAP"]> (<["CHAP_A" := "5"]> (<["CHAP_I" := Itoa (Z_of_byte (ch_ID chap))]>
           (<["CHAP_C" := ChallengeHex chap]> ∅))))
    | Some chap =>
        if negb (VerifyResponse md5 (au_CHAPSecret authConfig) (cp_Response (ParseCHAPParams kvIn)) chap)
        then sendLoginError req LoginStatusInitiatorError LoginDetailAuthFailure
        else sendLoginResponse req LoginStatusSuccess LoginDetailSuccess StageSecurityNegotiation StageOperationalNegotiation
               true (<["TargetName" := targetName]> ∅)
    end.

Definition handleOperationalStage (req : PDU) (kvIn : gmap string string) (transitBit : bool) (nsg : Z) : M loginHandler unit :=
  s ← gets id;
  let '(rspKV, negotiated) := NegotiateParams order kvIn (lh_negotiated s) in
  modify (lh_set_negotiated negotiated) ;;
  let rspKV := <["TargetName" := targetName]> rspKV in
  let nextStage := if transitBit : bool then nsg else StageOperationalNegotiation in
  when_ (transitBit && (nextStage =? StageFullFeaturePhase)) (modify (lh_set_stage StageFullFeaturePhase)) ;;
  sendLoginResponse req LoginStatusSuccess LoginDetailSuccess StageOperationalNegotiation nextStage transitBit rspKV.

Definition handleLoginPDU (req : PDU) : M loginHandler unit :=
  let transitBit := login_transit req in
  let csg := login_csg req in
  let nsg := login_nsg req in
  let kvIn := login_kv req in
  modify (lh_set_request (slice 8 14 (p_BHS req)) (PDU_CmdSN req)) ;;
  if csg =? StageSecurityNegotiation then handleSecurityStage req kvIn transitBit nsg
  else if csg =? StageOperationalNegotiation then handleOperationalStage req kvIn transitBit nsg
  else sendLoginError req LoginStatusInitiatorError LoginDetailInvalidDuringLogin.

(** [fuel] bounds the requests read. *)
Fixpoint login_Run (fuel : nat) : M loginHandler (Params * Z) :=
  s ← gets id;
  if lh_currentStage s =? StageFullFeaturePhase then mret (lh_negotiated s, lh_cmdSN s) else
  match fuel with
  | O => stop_with Diverged
  | S fuel =>
      pdu ← wrap "reading login PDU: %w" (zoom lh_conn lh_set_conn ReadPDU);
      if negb (PDU_Opcode pdu =? OpcodeLoginReq) then throw (Errorf "expected Login Request, got opcode 0x%02X")
      else handleLoginPDU pdu ;; login_Run fuel
  end.
End login.
