(* ===== verification/LoginTheorems.v ===== *)
(** * What the login phase does

    CHAP responses are checked against the digest; with CHAP configured, security
    negotiation is left only by a valid response; the usual logins complete; and
    the phase ends with its input. *)

From S2P Require Import Bytes Pdu Network Params Login.

(** ** Hexadecimal *)
Lemma hex_value_digit n : 0 ≤ n < 16 → hex_value (hex_digit n) = Some n.
Proof.
  intros Hn. assert (Hin : n ∈ seqZ 0 16) by (apply elem_of_seqZ; lia). revert Hin.
  apply (Forall_forall (λ n, hex_value (hex_digit n) = Some n)). refine (bool_decide_unpack _ _). vm_compute. exact I.
Qed.

Lemma hex_Decode_Encode l : hex_Decode (hex_Encode l) = Some l.
Proof.
  induction l as [|b l IH]; [done|]. unfold hex_Encode in *. rw bind_cons. cbn [app hex_Decode].
  pose proof (Z_of_byte_range b). pose proof (Z.div_mod (Z_of_byte b) 16). pose proof (Z.mod_pos_bound (Z_of_byte b) 16).
  rw hex_value_digit; [split; [apply Z.div_pos|apply Z.div_lt_upper_bound]; lia|]. rw hex_value_digit; [lia|]. rw IH.
  do 2 f_equal. rw -{3}(byte_of_Z_of_byte b). f_equal. lia.
Qed.
#[export] Instance hex_Encode_inj : Inj (=) (=) hex_Encode.
Proof. intros a b Heq. apply (f_equal hex_Decode) in Heq. rw !hex_Decode_Encode in Heq. by injection Heq. Qed.

Lemma len_hex_Encode l : len (hex_Encode l) = 2 * len l.
Proof. unfold len, hex_Encode. induction l as [|b l IH]; [done|]. rw bind_cons length_app. simpl length in *. lia. Qed.

Lemma hex_digit_not_x n : 0 ≤ n < 16 → hex_digit n ≠ byte_of_Z 120 ∧ hex_digit n ≠ byte_of_Z 88.
Proof.
  intros Hn. assert (Hin : n ∈ seqZ 0 16) by (apply elem_of_seqZ; lia). revert Hin.
  apply (Forall_forall (λ n, hex_digit n ≠ byte_of_Z 120 ∧ hex_digit n ≠ byte_of_Z 88)). refine (bool_decide_unpack _ _). vm_compute. exact I.
Qed.

Lemma strip_prefix_hex l : strip_prefix (hex_Encode l) = hex_Encode l.
Proof.
  unfold strip_prefix. destruct l as [|b l]; [done|]. rw bool_decide_false; [|by rw andb_false_r].
  unfold hex_Encode. rw bind_cons. change (slice 0 2 _) with [hex_digit (Z_of_byte b / 16); hex_digit (Z_of_byte b `mod` 16)].
  destruct (hex_digit_not_x (Z_of_byte b `mod` 16)) as [H1 H2]; [by apply Z.mod_pos_bound|].
  change (unstr "0x") with [byte_of_Z 48; byte_of_Z 120]. change (unstr "0X") with [byte_of_Z 48; byte_of_Z 88].
  intros [[= _ Heq]|[= _ Heq]]; [by apply H1|by apply H2].
Qed.

Lemma strip_prefix_0x l : 0 < len l → strip_prefix (hex_prefix ++ l) = l.
Proof.
  intros Hl. unfold strip_prefix. rw len_app. change (len hex_prefix) with 2.
  rw (proj2 (Z.ltb_lt _ _)); [lia|]. rw bool_decide_true; [by left|]. cbn [andb].
  unfold slice. change (drop (Z.to_nat 2) (hex_prefix ++ l)) with l. rw take_ge //. unfold len. lia.
Qed.

(** ** CHAP *)
Section chap.
Variable md5 : list byte → list byte.
Hypothesis md5_len : ∀ l, len (md5 l) = 16.

Definition chap_digest (secret : string) (ch : CHAPChallenge) : list byte := md5 (ch_ID ch :: unstr secret ++ ch_Challenge ch).

Lemma VerifyResponse_digest secret response ch :
  VerifyResponse md5 secret response ch = true ↔ hex_Decode (strip_prefix (unstr response)) = Some (chap_digest secret ch).
Proof using.
  unfold VerifyResponse, computeCHAPResponse. fold (chap_digest secret ch). destruct (hex_Decode _) as [r|]; [|done].
  rw bool_decide_eq_true. split; [by intros ->%(inj hex_Encode)|by intros [= ->]].
Qed.

Lemma unstr_str l : unstr (str l) = l.
Proof using. apply String.list_byte_of_string_of_list_byte. Qed.

Lemma VerifyResponse_accepts secret ch :
  VerifyResponse md5 secret (ComputeCHAPResponse md5 (ch_ID ch) secret (ch_Challenge ch)) ch = true.
Proof using md5_len.
  apply VerifyResponse_digest. unfold ComputeCHAPResponse, computeCHAPResponse. fold (chap_digest secret ch).
  rw unstr_str strip_prefix_0x; [|apply hex_Decode_Encode].
  rw len_hex_Encode. unfold chap_digest. rw md5_len. lia.
Qed.
End chap.

(** A CHAP response is accepted exactly when it is, in hexadecimal of either
    case and with or without a 0x in front, the digest of the identifier, the
    secret and the challenge; the response computed by the code is. *)
Theorem chap_verify md5 secret response ch :
  (∀ l, len (md5 l) = 16) →
  (VerifyResponse md5 secret response ch = true ↔
   hex_Decode (strip_prefix (unstr response)) = Some (md5 (ch_ID ch :: unstr secret ++ ch_Challenge ch))) ∧
  VerifyResponse md5 secret (ComputeCHAPResponse md5 (ch_ID ch) secret (ch_Challenge ch)) ch = true ∧
  VerifyResponse md5 secret (str (computeCHAPResponse md5 (ch_ID ch) secret (ch_Challenge ch))) ch = true.
Proof.
  intros Hlen. split; [apply VerifyResponse_digest|]. split; [by apply VerifyResponse_accepts|].
  apply VerifyResponse_digest. by rw unstr_str strip_prefix_hex hex_Decode_Encode.
Qed.

(** A stand-in for the digest: sixteen bytes that depend on the input. *)
Definition sum_digest (l : list byte) : list byte := replicate 16 (byte_of_Z (be_get l)).
Definition small_challenge : CHAPChallenge := {| ch_ID := byte_of_Z 7; ch_Challenge := replicate 16 (byte_of_Z 0xAB) |}.
Lemma chap_verify_witness :
  VerifyResponse sum_digest "secret" (ComputeCHAPResponse sum_digest (byte_of_Z 7) "secret" (replicate 16 (byte_of_Z 0xAB))) small_challenge = true.
Proof. destruct (chap_verify sum_digest "secret" EmptyString small_challenge) as (_ & H & _); [intros l; reflexivity|exact H]. Defined.

(** ** The login automaton

    What a Login Request does to the stage, the parameters and the challenge of a
    login, when the random source works. *)
Record login_state := { ls_stage : Z; ls_params : Params; ls_challenge : option CHAPChallenge }.
Definition login_start : login_state :=
  {| ls_stage := StageSecurityNegotiation; ls_params := DefaultTargetParams; ls_challenge := None |}.
Definition login_view (s : loginHandler) : login_state :=
  {| ls_stage := lh_currentStage s; ls_params := lh_negotiated s; ls_challenge := lh_chapChallenge s |}.

Definition with_initiator (kv : gmap string string) (p : Params) : Params :=
  match kv !! "InitiatorName" with Some n => set_InitiatorName p n | None => p end.
(** The request's CHAP response to the challenge is valid. *)
Definition responds (md5 : list byte → list byte) (secret : string) (ch : CHAPChallenge) (kv : gmap string string) : bool :=
  VerifyResponse md5 secret (default EmptyString (kv !! "CHAP_R")) ch.

Definition login_next (md5 : list byte → list byte) (auth : AuthConfig) (fresh : CHAPChallenge)
    (st : login_state) (req : PDU) : login_state :=
  let kv := login_kv req in
  if login_csg req =? StageSecurityNegotiation then
    if negb (au_Enabled auth) then
      {| ls_stage := if login_transit req
                     then (if login_nsg req =? StageFullFeaturePhase then StageFullFeaturePhase else StageOperationalNegotiation)
                     else ls_stage st;
         ls_params := with_initiator kv (ls_params st); ls_challenge := ls_challenge st |}
    else match ls_challenge st with
         | None => {| ls_stage := ls_stage st; ls_params := with_initiator kv (ls_params st); ls_challenge := Some fresh |}
         | Some ch => if responds md5 (au_CHAPSecret auth) ch kv
                      then {| ls_stage := StageOperationalNegotiation; ls_params := ls_params st; ls_challenge := Some ch |}
                      else st
         end
  else if login_csg req =? StageOperationalNegotiation then
    {| ls_stage := if login_transit req && (login_nsg req =? StageFullFeaturePhase) then StageFullFeaturePhase else ls_stage st;
       ls_params := negotiated kv (ls_params st); ls_challenge := ls_challenge st |}
  else st.

Section login.
Variables (md5 : list byte → list byte) (rid : byte) (challenge : list byte).
Variable (order : list (string * string) → list (string * string)).
Hypothesis Horder : ∀ l, order l ≡ₚ l.
Variables (auth : AuthConfig) (targetName : string).
Definition fresh : CHAPChallenge := {| ch_ID := rid; ch_Challenge := challenge |}.
Implicit Types s : loginHandler.

(** A response changes the stage, the status number and what has been sent. *)
Lemma sendLoginResponse_run req cl det csg nsg t kv s :
  cn_writes (lh_conn s) = [] →
  ∃ out sn, sendLoginResponse order req cl det csg nsg t kv s =
    (lh_set_conn (cn_append out (lh_conn s)) (lh_set_statSN sn
      (if t && ((nsg =? StageFullFeaturePhase) || ((csg =? StageSecurityNegotiation) && (nsg =? StageOperationalNegotiation)))
       then lh_set_stage nsg s else s)), Ok tt).
Proof using.
  intros Hw. unfold sendLoginResponse.
  set (b := t && _). set (s1 := if b then lh_set_stage nsg s else s).
  assert (H1 : when_ b (modify (lh_set_stage nsg)) s = (s1, Ok tt)) by (unfold s1; by destruct b).
  rw (bind_ok _ _ _ _ _ H1). set (sn := u32 (lh_statSN s1 + 1)).
  rw (bind_ok _ _ s1 (lh_set_statSN sn s1) tt) //. rw (bind_ok _ _ (lh_set_statSN sn s1) (lh_set_statSN sn s1) (lh_set_statSN sn s1)) //.
  assert (Hconn : lh_conn s1 = lh_conn s) by (unfold s1; by destruct b).
  match goal with |- context [WritePDU ?p] => destruct (WritePDU_ok p (lh_conn (lh_set_statSN sn s1))) as [out Hout]; [by rewrite /= Hconn|] end.
  exists out, sn. rw (zoom_ok _ _ _ _ _ _ Hout). cbn [lh_conn lh_set_statSN]. by rw Hconn.
Qed.

(** One request on a connection that works is one step of the automaton. *)
Lemma handleLoginPDU_run req s :
  cn_writes (lh_conn s) = [] →
  ∃ out s', handleLoginPDU md5 (Some rid) (Some challenge) order auth targetName req s = (s', Ok tt) ∧
    lh_conn s' = cn_append out (lh_conn s) ∧ lh_cmdSN s' = PDU_CmdSN req ∧
    lh_isid s' = slice 8 14 (p_BHS req) ∧
    login_view s' = login_next md5 auth fresh (login_view s) req.
Proof using Horder.
  intros Hw. unfold handleLoginPDU. cbv zeta. set (s0 := lh_set_request (slice 8 14 (p_BHS req)) (PDU_CmdSN req) s).
  rw (bind_ok _ _ s s0 tt) //. unfold login_next.
  assert (Hw0 : cn_writes (lh_conn s0) = []) by done.
  assert (Hsend : ∀ s1 cl det csg nsg t kv, lh_conn s1 = lh_conn s → lh_cmdSN s1 = lh_cmdSN s0 → lh_isid s1 = lh_isid s0 →
    ∃ out s', sendLoginResponse order req cl det csg nsg t kv s1 = (s', Ok tt) ∧
      lh_conn s' = cn_append out (lh_conn s) ∧ lh_cmdSN s' = PDU_CmdSN req ∧ lh_isid s' = slice 8 14 (p_BHS req) ∧
      login_view s' = {| ls_stage := if t && ((nsg =? StageFullFeaturePhase) || ((csg =? StageSecurityNegotiation) && (nsg =? StageOperationalNegotiation)))
                                     then nsg else lh_currentStage s1;
                         ls_params := lh_negotiated s1; ls_challenge := lh_chapChallenge s1 |}).
  { intros s1 cl det csg nsg t kv Hc Hsn Hi.
    destruct (sendLoginResponse_run req cl det csg nsg t kv s1) as (out & sn & ->); [by rw Hc|].
    do 2 eexists. split; [done|]. set (b := t && _).
    split; [by rewrite /= Hc|]. destruct b; (split; [exact Hsn|split; [exact Hi|done]]). }
  assert (Herr : ∀ s1 cl det, lh_conn s1 = lh_conn s → lh_cmdSN s1 = lh_cmdSN s0 → lh_isid s1 = lh_isid s0 → login_view s1 = login_view s →
    ∃ out s', sendLoginError order req cl det s1 = (s', Ok tt) ∧
      lh_conn s' = cn_append out (lh_conn s) ∧ lh_cmdSN s' = PDU_CmdSN req ∧ lh_isid s' = slice 8 14 (p_BHS req) ∧ login_view s' = login_view s).
  { intros s1 cl det Hc Hsn Hi Hv. unfold sendLoginError. rw (bind_ok _ _ s1 s1 s1) //.
    destruct (Hsend s1 cl det (lh_currentStage s1) (lh_currentStage s1) false ∅ Hc Hsn Hi) as (out & s' & Hrun & H1 & H2 & H3 & H4).
    exists out, s'. split_and!; [exact Hrun|exact H1|exact H2|exact H3|]. rw H4 -Hv. done. }
  destruct (login_csg req =? StageSecurityNegotiation); [|destruct (login_csg req =? StageOperationalNegotiation)].
  - unfold handleSecurityStage. destruct (au_Enabled auth) eqn:Hen; cbn [negb].
    + rw (bind_ok _ _ s0 s0 s0) //. change (ls_challenge (login_view s)) with (lh_chapChallenge s0).
      destruct (lh_chapChallenge s0) as [ch|] eqn:Hch.
      * change (cp_Response (ParseCHAPParams (login_kv req))) with (default EmptyString (login_kv req !! "CHAP_R")).
        fold (responds md5 (au_CHAPSecret auth) ch (login_kv req)).
        destruct (responds md5 (au_CHAPSecret auth) ch (login_kv req)); cbn [negb]; [|by apply Herr].
        destruct (Hsend s0 LoginStatusSuccess LoginDetailSuccess StageSecurityNegotiation StageOperationalNegotiation true
          (<["TargetName" := targetName]> ∅)) as (out & s' & Hrun & H1 & H2 & H3 & H4); [done..|].
        exists out, s'. split_and!; [exact Hrun|done..|]. rw H4 Hch. done.
      * rw (bind_ok _ _ s0 s0 fresh) //. rw (bind_ok _ _ s0 (lh_set_challenge fresh s0) tt) //.
        set (s1 := lh_set_challenge fresh s0).
        assert (Hnote : note_initiator (login_kv req) s1 = (lh_set_negotiated (with_initiator (login_kv req) (lh_negotiated s)) s1, Ok tt)).
        { unfold note_initiator, with_initiator. by destruct (login_kv req !! "InitiatorName"). }
        rw (bind_ok _ _ _ _ _ Hnote).
        match goal with |- context [sendLoginResponse order req ?cl ?det ?csg ?nsg ?t ?kv ?s2] =>
          destruct (Hsend s2 cl det csg nsg t kv) as (out & s' & Hrun & H1 & H2 & H3 & H4); [done..|] end.
        exists out, s'. split_and!; [exact Hrun|done..|]. rw H4. done.
    + assert (Hnote : note_initiator (login_kv req) s0 = (lh_set_negotiated (with_initiator (login_kv req) (lh_negotiated s)) s0, Ok tt)).
      { unfold note_initiator, with_initiator. by destruct (login_kv req !! "InitiatorName"). }
      rw (bind_ok _ _ _ _ _ Hnote). cbv zeta.
      match goal with |- context [sendLoginResponse order req ?cl ?det ?csg ?nsg ?t ?kv ?s2] =>
        destruct (Hsend s2 cl det csg nsg t kv) as (out & s' & Hrun & H1 & H2 & H3 & H4); [done..|] end.
      exists out, s'. split_and!; [exact Hrun|done..|]. rw H4. cbn [lh_currentStage lh_set_negotiated lh_negotiated lh_chapChallenge s0 lh_set_request login_view ls_stage ls_params ls_challenge].
      f_equal. destruct (login_transit req), (login_nsg req =? StageFullFeaturePhase); done.
  - unfold handleOperationalStage. rw (bind_ok _ _ s0 s0 s0) //. rw NegotiateParams_eq //.
    set (s1 := lh_set_negotiated (negotiated (login_kv req) (lh_negotiated s0)) s0). rw (bind_ok _ _ s0 s1 tt) //. cbv zeta.
    set (nx := if login_transit req then login_nsg req else StageOperationalNegotiation).
    set (s2 := if login_transit req && (nx =? StageFullFeaturePhase) then lh_set_stage StageFullFeaturePhase s1 else s1).
    rw (bind_ok _ _ s1 s2 tt); [by unfold s2; destruct (login_transit req && (nx =? StageFullFeaturePhase))|].
    match goal with |- context [sendLoginResponse order req ?cl ?det ?csg ?nsg ?t ?kv s2] =>
      destruct (Hsend s2 cl det csg nsg t kv) as (out & s' & Hrun & H1 & H2 & H3 & H4) end;
      [by unfold s2; case_match..|].
    exists out, s'. split_and!; [exact Hrun|done..|]. rw H4. unfold s2, nx.
    destruct (login_transit req); cbn [andb]; [|done].
    change (StageOperationalNegotiation =? StageSecurityNegotiation) with false. cbn [andb]. rw orb_false_r.
    destruct (Z.eqb_spec (login_nsg req) StageFullFeaturePhase) as [->|]; done.
  - by apply Herr.
Qed.

Lemma login_next_length n st req :
  len (p_BHS req) = BHSSize →
  login_next md5 auth fresh st (PDU_SetDataSegmentLength n req) = login_next md5 auth fresh st req.
Proof using.
  intros Hb. unfold login_next, login_csg, login_nsg, login_transit. by rw bhs_at_length.
Qed.

(** The login follows the automaton through the requests and stops where it
    reaches the full-feature phase. *)
Lemma login_Run_follows reqs : ∀ fuel s rest,
  Forall (λ p, pdu_ok p ∧ PDU_Opcode p = OpcodeLoginReq) reqs →
  cn_in (lh_conn s) = (reqs ≫= wire) ++ rest → cn_writes (lh_conn s) = [] →
  (∀ k, (k < length reqs)%nat → ls_stage (foldl (login_next md5 auth fresh) (login_view s) (take k reqs)) ≠ StageFullFeaturePhase) →
  let final := foldl (login_next md5 auth fresh) (login_view s) reqs in
  ls_stage final = StageFullFeaturePhase → (length reqs ≤ fuel)%nat →
  ∃ s', login_Run md5 (Some rid) (Some challenge) order auth targetName fuel s =
      (s', Ok (ls_params final, default (lh_cmdSN s) (PDU_CmdSN <$> last reqs))) ∧
    cn_in (lh_conn s') = rest ∧ login_view s' = final.
Proof using Horder.
  induction reqs as [|req reqs IH]; intros fuel s rest Hreqs Hin Hw Hnot final Hfin Hfuel.
  { exists s. split; [|done]. assert (Hst : lh_currentStage s = StageFullFeaturePhase) by exact Hfin.
    destruct fuel; cbn [login_Run]; rw (bind_ok _ _ s s s) // Hst; done. }
  apply Forall_cons in Hreqs as [[Hok Hop] Hreqs]. destruct fuel as [|fuel]; [simpl in Hfuel; lia|].
  assert (Hst : lh_currentStage s ≠ StageFullFeaturePhase) by exact (Hnot 0%nat ltac:(simpl; lia)).
  rw bind_cons -app_assoc in Hin. cbn [login_Run]. rw (bind_ok _ _ s s s) //.
  rw (proj2 (Z.eqb_neq _ _) Hst).
  pose proof (ReadPDU_wire req ((reqs ≫= wire) ++ rest) (lh_conn s) Hok Hin) as Hread. pose proof (pk_bhs _ Hok) as Hb.
  rw (bind_ok _ _ _ _ _ (wrap_ok _ _ _ _ _ (zoom_ok _ lh_set_conn _ s _ _ Hread))).
  set (req' := PDU_SetDataSegmentLength _ req).
  assert (Hop' : PDU_Opcode req' = OpcodeLoginReq) by (unfold PDU_Opcode; rw bhs_at_length //).
  rw Hop'. change (negb (OpcodeLoginReq =? OpcodeLoginReq)) with false. cbn iota.
  destruct (handleLoginPDU_run req' (lh_set_conn (cn_set_in ((reqs ≫= wire) ++ rest) (lh_conn s)) s))
    as (out & s1 & Hrun & Hc1 & Hsn1 & _ & Hv1); [done|].
  rw (bind_ok _ _ _ _ _ Hrun). unfold req' in Hv1. rw login_next_length // in Hv1.
  assert (Hv1' : login_view s1 = login_next md5 auth fresh (login_view s) req) by exact Hv1.
  destruct (IH fuel s1 rest Hreqs) as (s' & Hrest & Hin' & Hview).
  - by rw Hc1.
  - by rw Hc1.
  - intros k Hk. rw Hv1'. exact (Hnot (S k) ltac:(simpl; lia)).
  - rw Hv1'. exact Hfin.
  - simpl in Hfuel. lia.
  - exists s'. rw Hrest Hv1'. split; [|split; [done|by rw Hview Hv1']]. do 3 f_equal. rw Hsn1.
    assert (HsnR : PDU_CmdSN req' = PDU_CmdSN req) by by apply bhs_u32_length. rw HsnR.
    destruct reqs as [|r2 reqs]; [done|]. cbn [last]. by destruct (last (r2 :: reqs)) as [z|] eqn:Hl; [|apply last_None in Hl].
Qed.
End login.

(** C17: the login phase follows its automaton.  On a connection that works, the
    requests are taken one by one, each with the automaton's step, until the
    automaton is in the full-feature phase; the login then returns the automaton's
    parameters and the last command number, and leaves the rest of the input. *)
Theorem login_follows_automaton md5 rid challenge order auth targetName reqs last_req rest (c : Conn) sn fuel :
  (∀ l, order l ≡ₚ l) →
  Forall (λ p, pdu_ok p ∧ PDU_Opcode p = OpcodeLoginReq) reqs → last reqs = Some last_req →
  cn_in c = (reqs ≫= wire) ++ rest → cn_writes c = [] →
  let step := login_next md5 auth (fresh rid challenge) in
  (∀ k, (k < length reqs)%nat → ls_stage (foldl step login_start (take k reqs)) ≠ StageFullFeaturePhase) →
  ls_stage (foldl step login_start reqs) = StageFullFeaturePhase → (length reqs ≤ fuel)%nat →
  ∃ s', login_Run md5 (Some rid) (Some challenge) order auth targetName fuel (newLoginHandler c sn) =
      (s', Ok (ls_params (foldl step login_start reqs), PDU_CmdSN last_req)) ∧
    cn_in (lh_conn s') = rest.
Proof.
  intros Horder Hreqs Hlast Hin Hw step Hnot Hfin Hfuel.
  destruct (login_Run_follows md5 rid challenge order Horder auth targetName reqs fuel (newLoginHandler c sn) rest)
    as (s' & Hrun & Hin' & _); [done..|].
  exists s'. rw Hlast in Hrun. by split.
Qed.

(** C30: liveness of the usual logins.  Without authentication, security negotiation
    and then operational negotiation, each asking for the next stage, complete the
    login with the negotiated parameters; with CHAP, so do three requests of which
    the second carries the response the code computes for the challenge. *)
Theorem login_completes md5 rid challenge order auth targetName (p1 p2 p3 : PDU) rest (c : Conn) sn fuel :
  (∀ l, order l ≡ₚ l) → (∀ l, len (md5 l) = 16) →
  Forall (λ p, pdu_ok p ∧ PDU_Opcode p = OpcodeLoginReq) [p1; p2; p3] → cn_writes c = [] →
  login_csg p1 = StageSecurityNegotiation → login_transit p1 = true → login_nsg p1 = StageOperationalNegotiation →
  login_csg p2 = StageSecurityNegotiation →
  login_kv p2 !! "CHAP_R" = Some (ComputeCHAPResponse md5 rid (au_CHAPSecret auth) challenge) →
  login_csg p3 = StageOperationalNegotiation → login_transit p3 = true → login_nsg p3 = StageFullFeaturePhase →
  cn_in c = ((if au_Enabled auth then [p1; p2; p3] else [p1; p3]) ≫= wire) ++ rest → (3 ≤ fuel)%nat →
  ∃ s', login_Run md5 (Some rid) (Some challenge) order auth targetName fuel (newLoginHandler c sn) =
      (s', Ok (negotiated (login_kv p3) (with_initiator (login_kv p1) DefaultTargetParams), PDU_CmdSN p3)) ∧
    cn_in (lh_conn s') = rest.
Proof.
  intros Horder Hmd5 Hreqs Hw C1 T1 N1 C2 HR C3 T3 N3 Hin Hfuel.
  set (step := login_next md5 auth (fresh rid challenge)). set (q := with_initiator (login_kv p1) DefaultTargetParams).
  assert (Hresp : responds md5 (au_CHAPSecret auth) (fresh rid challenge) (login_kv p2) = true).
  { unfold responds. rw HR. cbn [default]. by apply (VerifyResponse_accepts md5 Hmd5 _ (fresh rid challenge)). }
  assert (S1 : step login_start p1 = {| ls_stage := if au_Enabled auth then 0 else 1; ls_params := q;
                                        ls_challenge := if au_Enabled auth then Some (fresh rid challenge) else None |}).
  { unfold step, login_next. rw C1 T1 N1. by destruct (au_Enabled auth). }
  assert (S2 : au_Enabled auth = true → step (step login_start p1) p2 =
    {| ls_stage := 1; ls_params := q; ls_challenge := Some (fresh rid challenge) |}).
  { intros Hen. rw S1 Hen. unfold step, login_next. rw C2 Hen. cbn. by rw Hresp. }
  assert (S3 : ∀ st, ls_params st = q → ls_stage (step st p3) = 3 ∧ ls_params (step st p3) = negotiated (login_kv p3) q).
  { intros st Hst. unfold step, login_next. rw C3 T3 N3. by rewrite /= Hst. }
  pose proof Hreqs as [Hp1 [Hp2 [Hp3 _]%Forall_cons]%Forall_cons]%Forall_cons.
  destruct (au_Enabled auth) eqn:Hen.
  - specialize (S2 eq_refl). destruct (S3 (step (step login_start p1) p2)) as [Hst Hpa]; [by rw S2|].
    destruct (login_Run_follows md5 rid challenge order Horder auth targetName [p1; p2; p3] fuel (newLoginHandler c sn) rest)
      as (s' & Hrun & Hin' & _); [done|done|done| |exact Hst|done|].
    + intros [|[|[|k]]] Hk; [done| | |simpl in Hk; lia].
      * change (ls_stage (step login_start p1) ≠ 3). by rw S1.
      * change (ls_stage (step (step login_start p1) p2) ≠ 3). by rw S2.
    + exists s'. split; [|done]. etrans; [exact Hrun|]. do 3 f_equal. exact Hpa.
  - destruct (S3 (step login_start p1)) as [Hst Hpa]; [by rw S1|].
    destruct (login_Run_follows md5 rid challenge order Horder auth targetName [p1; p3] fuel (newLoginHandler c sn) rest)
      as (s' & Hrun & Hin' & _); [constructor; [exact Hp1|constructor; [exact Hp3|constructor]]|done|done| |exact Hst|simpl; lia|].
    + intros [|[|k]] Hk; [done| |simpl in Hk; lia]. change (ls_stage (step login_start p1) ≠ 3). by rw S1.
    + exists s'. split; [|done]. etrans; [exact Hrun|]. do 3 f_equal. exact Hpa.
Qed.

(** In the automaton with CHAP, requests that name the stage it is in leave security
    negotiation by a valid response only. *)
Lemma automaton_authenticates md5 auth ch reqs :
  au_Enabled auth = true →
  let step := login_next md5 auth ch in
  (∀ k req, reqs !! k = Some req → login_csg req = ls_stage (foldl step login_start (take k reqs))) →
  ls_stage (foldl step login_start reqs) = StageFullFeaturePhase →
  ∃ req, req ∈ reqs ∧ login_csg req = StageSecurityNegotiation ∧ responds md5 (au_CHAPSecret auth) ch (login_kv req) = true.
Proof.
  intros Hen step Hconf Hfin.
  assert (Hinv : let st := foldl step login_start reqs in
    (ls_challenge st = None ∨ ls_challenge st = Some ch) ∧
    (ls_stage st = StageSecurityNegotiation ∨
     ∃ req, req ∈ reqs ∧ login_csg req = StageSecurityNegotiation ∧ responds md5 (au_CHAPSecret auth) ch (login_kv req) = true)).
  { clear Hfin. induction reqs as [|req reqs IH] using rev_ind; [split; by left|].
    destruct IH as [Hch Hst].
    { intros k r Hk. rw (Hconf k r); [by apply lookup_app_l_Some|]. rw take_app_le //. apply lookup_lt_Some in Hk. lia. }
    assert (Hcsg : login_csg req = ls_stage (foldl step login_start reqs)).
    { rw (Hconf (length reqs) req); [by rw lookup_app_r // Nat.sub_diag|]. by rw take_app_length. }
    cbv zeta. rw foldl_app. cbn [foldl]. set (st := foldl step login_start reqs) in *. unfold step, login_next. rw Hen. cbn [negb].
    destruct (Z.eqb_spec (login_csg req) StageSecurityNegotiation) as [H0|H0].
    - destruct Hch as [Hch|Hch]; rw Hch; cbn.
      + split; [by right|]. rw -Hcsg. by left.
      + destruct (responds md5 (au_CHAPSecret auth) ch (login_kv req)) eqn:Hr; cbn.
        * split; [by right|]. right. exists req. split; [set_solver|done].
        * split; [by right|]. rw -Hcsg. by left.
    - assert (Hex : ∃ r, r ∈ reqs ++ [req] ∧ login_csg r = StageSecurityNegotiation ∧ responds md5 (au_CHAPSecret auth) ch (login_kv r) = true).
      { destruct Hst as [Hst|(r & Hr & Hrest)]; [by rw Hst in Hcsg|]. exists r. split; [set_solver|done]. }
      destruct (login_csg req =? StageOperationalNegotiation); cbn; (split; [done|by right]). }
  destruct Hinv as [_ [Hst|Hex]]; [by rw Hst in Hfin|done].
Qed.

Section gate.
Variables (md5 : list byte → list byte) (rid : byte) (challenge : list byte).
Variable (order : list (string * string) → list (string * string)).
Hypothesis Horder : ∀ l, order l ≡ₚ l.
Variables (auth : AuthConfig) (targetName : string).
Abbreviation step := (login_next md5 auth (fresh rid challenge)).
Abbreviation handle := (handleLoginPDU md5 (Some rid) (Some challenge) order auth targetName).

(** The stage the target is in after handling requests. *)
Definition stage_after (reqs : list PDU) (s : loginHandler) : Z :=
  lh_currentStage (for_each (λ _ req, handle req) tt reqs s).1.

Lemma stage_after_follows reqs s : cn_writes (lh_conn s) = [] → stage_after reqs s = ls_stage (foldl step (login_view s) reqs).
Proof using Horder.
  unfold stage_after. induction reqs as [|req reqs IH] in s |- *; intros Hw; [done|].
  destruct (handleLoginPDU_run md5 rid challenge order Horder auth targetName req s Hw) as (out & s1 & Hrun & Hc & _ & _ & Hv).
  cbn [for_each foldl]. rw (bind_ok _ _ _ _ _ Hrun) -Hv. apply IH. by rw Hc.
Qed.

(** A login that succeeds on an input of requests has put the automaton into the
    full-feature phase. *)
Lemma login_Run_reaches reqs : ∀ fuel s s' r,
  Forall (λ p, pdu_ok p ∧ PDU_Opcode p = OpcodeLoginReq) reqs →
  cn_in (lh_conn s) = reqs ≫= wire → cn_writes (lh_conn s) = [] →
  login_Run md5 (Some rid) (Some challenge) order auth targetName fuel s = (s', Ok r) →
  ∃ k, ls_stage (foldl step (login_view s) (take k reqs)) = StageFullFeaturePhase.
Proof using Horder.
  induction reqs as [|req reqs IH]; intros fuel s s' r Hreqs Hin Hw Hrun;
    (destruct (Z.eqb_spec (lh_currentStage s) StageFullFeaturePhase) as [Hst|Hst]; [by exists 0%nat|]);
    (destruct fuel as [|fuel]; cbn [login_Run] in Hrun; rw (bind_ok _ _ s s s) // in Hrun; rw (proj2 (Z.eqb_neq _ _) Hst) in Hrun; [done|]).
  { apply bind_inv in Hrun as (s1 & p & Hread & _). apply wrap_inv in Hread. apply zoom_inv in Hread as (n & Hread & _).
    destruct (ReadPDU_ok _ _ _ Hread) as (_ & _ & Hlen). rw Hin in Hlen. pose proof (len_nonneg (cn_in n)). change (len ([] ≫= wire)) with 0 in Hlen. unfold BHSSize in Hlen. lia. }
  apply Forall_cons in Hreqs as [[Hok Hop] Hreqs]. rw bind_cons in Hin.
  pose proof (ReadPDU_wire req (reqs ≫= wire) (lh_conn s) Hok Hin) as Hread. pose proof (pk_bhs _ Hok) as Hb.
  rw (bind_ok _ _ _ _ _ (wrap_ok _ _ _ _ _ (zoom_ok _ lh_set_conn _ s _ _ Hread))) in Hrun.
  set (req' := PDU_SetDataSegmentLength _ req) in Hrun.
  assert (Hop' : PDU_Opcode req' = OpcodeLoginReq) by (unfold PDU_Opcode; rw bhs_at_length //).
  rw Hop' in Hrun. change (negb (OpcodeLoginReq =? OpcodeLoginReq)) with false in Hrun. cbn iota in Hrun.
  destruct (handleLoginPDU_run md5 rid challenge order Horder auth targetName req' (lh_set_conn (cn_set_in (reqs ≫= wire) (lh_conn s)) s))
    as (out & s1 & Hh & Hc1 & _ & _ & Hv1); [done|].
  rw (bind_ok _ _ _ _ _ Hh) in Hrun. unfold req' in Hv1. rw login_next_length // in Hv1.
  assert (Hv1' : login_view s1 = step (login_view s) req) by exact Hv1.
  destruct (IH fuel s1 s' r Hreqs) as [k Hk]; [by rw Hc1|by rw Hc1|exact Hrun|].
  exists (S k). cbn [take foldl]. by rw -Hv1'.
Qed.
End gate.

(** C29: with CHAP configured, and on a connection that works whose input consists of
    Login Requests, the login phase of an initiator that names in each request the
    stage the target is in, as the protocol wants, succeeds only if one of the
    requests - in security negotiation - carried a response that verifies against the
    challenge of this login and the configured secret.  (The code does not compare
    the stage a request names with its own; an initiator that names another one is
    not asked for a response, [login_bypasses_chap].) *)
Theorem conforming_login_authenticates md5 rid challenge order auth targetName reqs (c : Conn) sn fuel s' r :
  (∀ l, order l ≡ₚ l) → au_Enabled auth = true →
  Forall (λ p, pdu_ok p ∧ PDU_Opcode p = OpcodeLoginReq) reqs → cn_in c = reqs ≫= wire → cn_writes c = [] →
  (∀ k req, reqs !! k = Some req →
    login_csg req = stage_after md5 rid challenge order auth targetName (take k reqs) (newLoginHandler c sn)) →
  login_Run md5 (Some rid) (Some challenge) order auth targetName fuel (newLoginHandler c sn) = (s', Ok r) →
  ∃ req, req ∈ reqs ∧ login_csg req = StageSecurityNegotiation ∧
    VerifyResponse md5 (au_CHAPSecret auth) (cp_Response (ParseCHAPParams (login_kv req)))
      {| ch_ID := rid; ch_Challenge := challenge |} = true.
Proof.
  intros Horder Hen Hreqs Hin Hw Hconf Hrun.
  destruct (login_Run_reaches md5 rid challenge order Horder auth targetName reqs fuel (newLoginHandler c sn) s' r Hreqs Hin Hw Hrun)
    as [k Hk].
  destruct (automaton_authenticates md5 auth (fresh rid challenge) (take k reqs) Hen) as (req & Hreq & Hcsg & Hresp); [|exact Hk|].
  - intros i req [Hi Hik]%lookup_take_Some. rw (Hconf i req Hi) stage_after_follows // take_take. by rw Nat.min_l; [lia|].
  - exists req. split; [|by split]. apply list_elem_of_lookup in Hreq as [i Hi]. apply lookup_take_Some in Hi as [Hi _].
    by eapply list_elem_of_lookup_2.
Qed.

(** ** Small logins *)
Definition login_pdu (flags cmdSN : Z) (text : list (string * string)) : PDU :=
  set_data (text ≫= pair_bytes) (PDU_SetCmdSN cmdSN (PDU_SetFlags flags (PDU_SetOpcode OpcodeLoginReq PDU_zero))).
Definition chap_auth : AuthConfig := {| au_Enabled := true; au_CHAPUser := "user"; au_CHAPSecret := "secret" |}.
Definition small_id : byte := byte_of_Z 7.
Definition small_bytes : list byte := replicate 16 (byte_of_Z 0xAB).
Definition login_p1 : PDU := login_pdu 0x81 0 [("InitiatorName", "iqn.a")].
Definition login_p2 : PDU := login_pdu 0x81 1 [("CHAP_N", "user"); ("CHAP_R", ComputeCHAPResponse sum_digest small_id "secret" small_bytes)].
Definition login_p3 : PDU := login_pdu 0x87 2 [("MaxRecvDataSegmentLength", "8192")].

Lemma small_logins_ok : Forall (λ p, pdu_ok p ∧ PDU_Opcode p = OpcodeLoginReq) [login_p1; login_p2; login_p3].
Proof. repeat constructor. Qed.

Lemma login_completes_witness :
  ∃ s' p, login_Run sum_digest (Some small_id) (Some small_bytes) (λ l, l) chap_auth "iqn.t" 3
      (newLoginHandler (quiet ([login_p1; login_p2; login_p3] ≫= wire)) 0) = (s', Ok (p, 2)) ∧
    pa_MaxRecvDataSegmentLength p = 8192 ∧ pa_InitiatorName p = "iqn.a".
Proof.
  destruct (login_completes sum_digest small_id small_bytes (λ l, l) chap_auth "iqn.t" login_p1 login_p2 login_p3 []
    (quiet ([login_p1; login_p2; login_p3] ≫= wire)) 0 3) as (s' & Hrun & _).
  - intros l. reflexivity.
  - intros l. reflexivity.
  - exact small_logins_ok.
  - reflexivity.
  - reflexivity.
  - reflexivity.
  - reflexivity.
  - reflexivity.
  - vm_compute. reflexivity.
  - reflexivity.
  - reflexivity.
  - reflexivity.
  - cbn [au_Enabled chap_auth cn_in quiet]. symmetry. apply app_nil_r.
  - lia.
  - exists s', (negotiated (login_kv login_p3) (with_initiator (login_kv login_p1) DefaultTargetParams)).
    split; [exact Hrun|]. split; vm_compute; reflexivity.
Defined.

Definition no_auth : AuthConfig := {| au_Enabled := false; au_CHAPUser := EmptyString; au_CHAPSecret := EmptyString |}.
Definition small_step : login_state → PDU → login_state := login_next sum_digest no_auth (fresh small_id small_bytes).

Lemma login_follows_automaton_witness :
  ∃ s', login_Run sum_digest (Some small_id) (Some small_bytes) (@reverse _) no_auth "iqn.t" 2
      (newLoginHandler (quiet (([login_p1; login_p3] ≫= wire) ++ [zero_byte])) 0) =
      (s', Ok (ls_params (foldl small_step login_start [login_p1; login_p3]), 2)) ∧ cn_in (lh_conn s') = [zero_byte].
Proof.
  destruct (login_follows_automaton sum_digest small_id small_bytes (@reverse _) no_auth "iqn.t" [login_p1; login_p3] login_p3 [zero_byte]
    (quiet (([login_p1; login_p3] ≫= wire) ++ [zero_byte])) 0 2) as (s' & Hrun & Hin).
  - apply reverse_Permutation.
  - repeat constructor.
  - reflexivity.
  - reflexivity.
  - reflexivity.
  - intros [|[|k]] Hk; [vm_compute; discriminate|vm_compute; discriminate|simpl in Hk; lia].
  - vm_compute. reflexivity.
  - reflexivity.
  - exists s'. split; [exact Hrun|exact Hin].
Defined.

Definition chap_login : loginHandler * outcome (Params * Z) :=
  login_Run sum_digest (Some small_id) (Some small_bytes) (λ l, l) chap_auth "iqn.t" 3
    (newLoginHandler (quiet ([login_p1; login_p2; login_p3] ≫= wire)) 0).
Lemma chap_login_ok : ∃ r, chap_login.2 = Ok r.
Proof. vm_compute. by eexists. Qed.

Lemma conforming_login_authenticates_witness :
  ∃ req, req ∈ [login_p1; login_p2; login_p3] ∧ login_csg req = StageSecurityNegotiation ∧
    VerifyResponse sum_digest "secret" (cp_Response (ParseCHAPParams (login_kv req)))
      {| ch_ID := small_id; ch_Challenge := small_bytes |} = true.
Proof.
  destruct chap_login_ok as [r Hr].
  apply (conforming_login_authenticates sum_digest small_id small_bytes (λ l, l) chap_auth "iqn.t" [login_p1; login_p2; login_p3]
    (quiet ([login_p1; login_p2; login_p3] ≫= wire)) 0 3 chap_login.1 r).
  - intros l. reflexivity.
  - reflexivity.
  - exact small_logins_ok.
  - reflexivity.
  - reflexivity.
  - intros [|[|[|k]]] req Hreq; [injection Hreq as <-; vm_compute; reflexivity..|discriminate Hreq].
  - rewrite -Hr. apply surjective_pairing.
Defined.

(** An initiator that begins with operational negotiation is never asked for a
    CHAP response: the stage it names is not compared with the target's. *)
Lemma login_bypasses_chap :
  let '(s, o) := login_Run sum_digest (Some small_id) (Some small_bytes) (λ l, l) chap_auth "iqn.t" 1
    (newLoginHandler (quiet (wire login_p3)) 0) in
  is_ok o = true ∧ lh_currentStage s = StageFullFeaturePhase ∧ lh_chapChallenge s = None.
Proof. vm_compute. repeat split. Qed.

(** ** The login phase ends *)
Definition login_input : relation loginHandler := on lh_conn (on cn_in (=)).
#[export] Instance login_input_preorder : PreOrder login_input.
Proof. unfold login_input. apply _. Qed.

Section ends.
Variables (md5 : list byte → list byte) (rand_id : option byte) (rand_challenge : option (list byte)).
Variables (order : list (string * string) → list (string * string)) (auth : AuthConfig) (targetName : string).

Lemma total_NewCHAPChallenge : total (λ s : loginHandler, (s, NewCHAPChallenge rand_id rand_challenge)).
Proof using. intros s. unfold NewCHAPChallenge. by destruct rand_id, rand_challenge. Qed.
#[local] Hint Resolve total_NewCHAPChallenge : total.
Lemma total_handleLoginPDU req : total (handleLoginPDU md5 rand_id rand_challenge order auth targetName req).
Proof using.
  unfold handleLoginPDU, handleSecurityStage, handleOperationalStage, sendLoginError, sendLoginResponse, note_initiator.
  cbv zeta. total.
Qed.

Lemma input_WritePDU_login p : always login_input (zoom lh_conn lh_set_conn (WritePDU p)).
Proof using. apply always_zoom; [done|apply input_WritePDU]. Qed.
Lemma input_NewCHAPChallenge : always login_input (λ s : loginHandler, (s, NewCHAPChallenge rand_id rand_challenge)).
Proof using. intros s. done. Qed.
#[local] Hint Resolve input_WritePDU_login input_NewCHAPChallenge : always.
Lemma input_handleLoginPDU req : always login_input (handleLoginPDU md5 rand_id rand_challenge order auth targetName req).
Proof using.
  unfold handleLoginPDU, handleSecurityStage, handleOperationalStage, sendLoginError, sendLoginResponse, note_initiator.
  cbv zeta. always.
Qed.
End ends.

Lemma login_Run_ends md5 rand_id rand_challenge order auth targetName fuel s :
  len (cn_in (lh_conn s)) / BHSSize < Z.of_nat fuel →
  returns (login_Run md5 rand_id rand_challenge order auth targetName fuel s).2.
Proof.
  revert s. induction fuel as [|fuel IH]; intros s Hfuel.
  { pose proof (Z.div_pos (len (cn_in (lh_conn s))) BHSSize (len_nonneg _) ltac:(done)). lia. }
  cbn [login_Run]. rw (bind_ok _ _ s s s) //. destruct (lh_currentStage s =? StageFullFeaturePhase); [done|].
  unfold mbind at 1, M_bind at 1, wrap, zoom. pose proof (total_ReadPDU (lh_conn s)) as Htot.
  destruct (ReadPDU (lh_conn s)) as [n [p|[e| |]]] eqn:Hread; [|done..].
  destruct (negb (PDU_Opcode p =? OpcodeLoginReq)); [done|].
  destruct (ReadPDU_ok _ _ _ Hread) as (_ & _ & Hin). set (s1 := lh_set_conn n s).
  pose proof (total_handleLoginPDU md5 rand_id rand_challenge order auth targetName p s1) as Hdt.
  pose proof (input_handleLoginPDU md5 rand_id rand_challenge order auth targetName p s1) as Hdi.
  unfold mbind, M_bind. destruct (handleLoginPDU md5 rand_id rand_challenge order auth targetName p s1) as [s2 [[]|r]]; [|done].
  apply IH. assert (Hin2 : cn_in (lh_conn s2) = cn_in n) by (symmetry; exact Hdi). rw Hin2.
  assert (Hdiv : len (cn_in n) / BHSSize ≤ (len (cn_in (lh_conn s)) + -1 * BHSSize) / BHSSize)
    by (apply Z.div_le_mono; [done|unfold BHSSize in *; lia]).
  rw Z.div_add in Hdiv; [done|]. lia.
Qed.

(** What the login leaves of the input. *)
Lemma login_Run_input md5 rand_id rand_challenge order auth targetName fuel s :
  cn_in (lh_conn (login_Run md5 rand_id rand_challenge order auth targetName fuel s).1) `suffix_of` cn_in (lh_conn s).
Proof.
  revert s. induction fuel as [|fuel IH]; intros s; cbn [login_Run]; rw (bind_ok _ _ s s s) //;
    (destruct (lh_currentStage s =? StageFullFeaturePhase); [done|]); [done|].
  unfold mbind at 1, M_bind at 1, wrap, zoom. pose proof (leaves_suffix_ReadPDU (lh_conn s)) as Hsuf.
  destruct (ReadPDU (lh_conn s)) as [n [p|[e| |]]]; try exact Hsuf.
  destruct (negb (PDU_Opcode p =? OpcodeLoginReq)); [exact Hsuf|].
  pose proof (input_handleLoginPDU md5 rand_id rand_challenge order auth targetName p (lh_set_conn n s)) as Hdi.
  unfold mbind, M_bind. destruct (handleLoginPDU md5 rand_id rand_challenge order auth targetName p (lh_set_conn n s)) as [s2 [[]|r]];
    (assert (Hin2 : cn_in (lh_conn s2) = cn_in n) by (symmetry; exact Hdi)).
  - etrans; [apply IH|]. rw Hin2. exact Hsuf.
  - cbn. rw Hin2. exact Hsuf.
Qed.

(** The login phase ends: whatever the peer sends, whichever writes fail and
    whatever the random source does, it returns - the parameters or an error -
    after at most one request per 48 bytes of input. *)
Theorem login_ends md5 rand_id rand_challenge order auth targetName fuel s :
  len (cn_in (lh_conn s)) / BHSSize < Z.of_nat fuel →
  returns (login_Run md5 rand_id rand_challenge order auth targetName fuel s).2.
Proof. apply login_Run_ends. Qed.

Lemma login_ends_witness :
  returns (login_Run sum_digest None None (λ l, l) chap_auth "iqn.t" 2 (newLoginHandler (quiet (wire login_p1)) 0)).2.
Proof. apply (login_ends sum_digest None None (λ l, l) chap_auth "iqn.t" 2). vm_compute. reflexivity. Defined.
