(* ===== verification/Scsi.v ===== *)
(** * [internal/scsi]: the SCSI command dispatcher

    [Execute] decodes a command descriptor block and runs it on a block device;
    errors of the device become sense data.  Bytes of a block are read with
    [cdb_at], which the code does only behind a length check. *)

From S2P Require Import Bytes.

(** ** sense.go *)
Definition StatusGood : Z := 0x00.
Definition StatusCheckCondition : Z := 0x02.
Definition StatusBusy : Z := 0x08.
Definition StatusReservation : Z := 0x18.

Definition SenseKeyNoSense : Z := 0x00.
Definition SenseKeyNotReady : Z := 0x02.
Definition SenseKeyMediumError : Z := 0x03.
Definition SenseKeyIllegalRequest : Z := 0x05.

Definition ASCInvalidCommandOpCode : Z := 0x20.
Definition ASCInvalidFieldInCDB : Z := 0x24.
Definition ASCLogicalUnitNotReady : Z := 0x04.
Definition ASCNoAdditionalSenseInfo : Z := 0x00.
Definition ASCUnrecoveredReadError : Z := 0x11.

Definition BuildSense (key asc ascq : Z) : list byte :=
  byte_of_Z <$> [0x70; 0; Z.land key 0x0F; 0; 0; 0; 0; 0x0A; 0; 0; 0; 0; asc; ascq; 0; 0; 0; 0].

Definition SenseNoSense := BuildSense SenseKeyNoSense ASCNoAdditionalSenseInfo 0.
Definition SenseIllegalRequest := BuildSense SenseKeyIllegalRequest ASCInvalidCommandOpCode 0.
Definition SenseIllegalRequestInvalidField := BuildSense SenseKeyIllegalRequest ASCInvalidFieldInCDB 0.
Definition SenseMediumError := BuildSense SenseKeyMediumError ASCUnrecoveredReadError 0.
Definition SenseNotReady := BuildSense SenseKeyNotReady ASCLogicalUnitNotReady 0.

(** ** block_device.go *)
Class BlockDevice (B : Type) := {
  bd_Read : Z → Z → M B (list byte);
  bd_Write : Z → list byte → M B unit;
  bd_Flush : M B unit;
  bd_Unmap : Z → Z → M B unit;
  bd_BlockSize : B → Z;
  bd_Capacity : B → Z;
}.

(** ** Opcodes *)
Definition OpcodeTestUnitReady : Z := 0x00.
Definition OpcodeRequestSense : Z := 0x03.
Definition OpcodeRead6 : Z := 0x08.
Definition OpcodeWrite6 : Z := 0x0A.
Definition OpcodeInquiry : Z := 0x12.
Definition OpcodeModeSense6 : Z := 0x1A.
Definition OpcodeStartStopUnit : Z := 0x1B.
Definition OpcodeReadCapacity10 : Z := 0x25.
Definition OpcodeRead10 : Z := 0x28.
Definition OpcodeWrite10 : Z := 0x2A.
Definition OpcodeSyncCache10 : Z := 0x35.
Definition OpcodeUnmap : Z := 0x42.
Definition OpcodeModeSense10 : Z := 0x5A.
Definition OpcodePersistentReserveIn : Z := 0x5E.
Definition OpcodePersistentReserveOut : Z := 0x5F.
Definition OpcodeRead16 : Z := 0x88.
Definition OpcodeWrite16 : Z := 0x8A.
Definition OpcodeSyncCache16 : Z := 0x91.
Definition OpcodeReadCapacity16 : Z := 0x9E.
Definition OpcodeReportLUNs : Z := 0xA0.
Definition ServiceActionReadCap16 : Z := 0x10.

Definition VPDPageSupportedPages : Z := 0x00.
Definition VPDPageUnitSerialNumber : Z := 0x80.
Definition VPDPageDeviceIdentifiers : Z := 0x83.

(** [cdb[i]] as a number. *)
Definition cdb_at (cdb : list byte) (i : Z) : Z := default 0 (Z_of_byte <$> index cdb i).

(** ** inquiry.go *)
Definition bytes_of_string (s : string) : list byte := String.list_byte_of_string s.

Definition buildStandardInquiry : list byte :=
  (byte_of_Z <$> [0x00; 0x00; 0x05; 0x12; 0x1F; 0x00; 0x00; 0x00])
  ++ bytes_of_string "ZNS     " ++ bytes_of_string "iSCSI ZNS Target" ++ bytes_of_string "1.00".

Definition buildVPDPage00 : list byte :=
  let supported := byte_of_Z <$> [VPDPageSupportedPages; VPDPageUnitSerialNumber; VPDPageDeviceIdentifiers] in
  (byte_of_Z <$> [0x00; VPDPageSupportedPages; 0x00; len supported]) ++ supported.

Definition buildVPDPage80 (serialNumber : list byte) : list byte :=
  (byte_of_Z <$> [0x00; VPDPageUnitSerialNumber; 0x00; len serialNumber]) ++ serialNumber.

(** The shifted nibbles the loop writes are overwritten by the [copy] of [devID];
    then the high nibble of its first byte becomes the NAA type. *)
Definition buildVPDPage83 (devID : list byte) : list byte :=
  let naa := Z.lor (Z.land (cdb_at devID 0) 0x0F) 0x60 in
  let descriptor := (byte_of_Z <$> [0x01; 0x03; 0x00; 16; naa]) ++ slice 1 16 devID in
  byte_of_Z 0x00 :: byte_of_Z VPDPageDeviceIdentifiers :: be_put 2 (len descriptor) ++ descriptor.

Definition buildVPDPage (pageCode : Z) (serialNumber devID : list byte) : option (list byte) :=
  if pageCode =? VPDPageSupportedPages then Some buildVPDPage00
  else if pageCode =? VPDPageUnitSerialNumber then Some (buildVPDPage80 serialNumber)
  else if pageCode =? VPDPageDeviceIdentifiers then Some (buildVPDPage83 devID)
  else None.

Definition handleInquiry (cdb serialNumber devID : list byte) : option (list byte) :=
  if len cdb <? 6 then None
  else if negb (Z.land (cdb_at cdb 1) 0x01 =? 0)
  then buildVPDPage (cdb_at cdb 2) serialNumber devID
  else Some buildStandardInquiry.

(** ** readcap.go *)
Definition handleReadCapacity10 (capacity blockSize : Z) : list byte :=
  let lastLBA := u64 (capacity - 1) in
  let lastLBA := if 0xFFFFFFFF <? lastLBA then 0xFFFFFFFF else lastLBA in
  be_put 4 lastLBA ++ be_put 4 blockSize.
Definition handleReadCapacity16 (capacity blockSize : Z) : list byte :=
  be_put 8 (u64 (capacity - 1)) ++ be_put 4 blockSize ++ make_bytes 20.

(** ** stubs.go *)
Definition handleReportLUNs : list byte := be_put 4 8 ++ make_bytes 12.
Definition handleModeSense10 : list byte := be_put 2 6 ++ make_bytes 6.
Definition handleModeSense6 : list byte := byte_of_Z 3 :: make_bytes 3.
Definition handleRequestSense : list byte := BuildSense SenseKeyNoSense ASCNoAdditionalSenseInfo 0.

(** ** A command's answer *)
Record Response := { rsp_data : list byte; rsp_status : Z; rsp_sense : option (list byte) }.
Definition good (data : list byte) : Response :=
  {| rsp_data := data; rsp_status := StatusGood; rsp_sense := None |}.
Definition check_condition (sense : list byte) : Response :=
  {| rsp_data := []; rsp_status := StatusCheckCondition; rsp_sense := Some sense |}.

Definition handleTestUnitReady : Response := good [].
Definition handleStartStopUnit : Response := good [].
Definition handlePersistentReserveIn : Response := check_condition SenseIllegalRequest.
Definition handlePersistentReserveOut : Response := check_condition SenseIllegalRequest.
Definition buildSenseFromError (_ : error) : list byte :=
  BuildSense SenseKeyMediumError ASCUnrecoveredReadError 0.

(** ** read.go, write.go: address and length of the three forms *)
Definition lba21 (cdb : list byte) : Z :=
  Z.lor (Z.lor (Z.shiftl (Z.land (cdb_at cdb 1) 0x1F) 16) (Z.shiftl (cdb_at cdb 2) 8)) (cdb_at cdb 3).

Section handlers.
Context {B : Type} `{BlockDevice B}.

Definition handleRead6 (cdb : list byte) : M B (list byte) :=
  if len cdb <? 6 then throw (Errorf "READ(6) CDB too short: %d bytes") else
  let count := cdb_at cdb 4 in
  bd_Read (lba21 cdb) (if count =? 0 then 256 else count).
Definition handleRead10 (cdb : list byte) : M B (list byte) :=
  if len cdb <? 10 then throw (Errorf "READ(10) CDB too short: %d bytes") else
  let count := be_get (slice 7 9 cdb) in
  if count =? 0 then mret [] else bd_Read (be_get (slice 2 6 cdb)) count.
Definition handleRead16 (cdb : list byte) : M B (list byte) :=
  if len cdb <? 16 then throw (Errorf "READ(16) CDB too short: %d bytes") else
  let count := be_get (slice 10 14 cdb) in
  if count =? 0 then mret [] else bd_Read (be_get (slice 2 10 cdb)) count.

(** [data[:expectedLen]] behind its length check. *)
Definition write_sectors (short : string) (lba count : Z) (data : list byte) : M B unit :=
  let expectedLen := count * 512 in
  if len data <? expectedLen then throw (Errorf short) else bd_Write lba (slice 0 expectedLen data).

Definition handleWrite6 (cdb data : list byte) : M B unit :=
  if len cdb <? 6 then throw (Errorf "WRITE(6) CDB too short: %d bytes") else
  let count := cdb_at cdb 4 in
  write_sectors "WRITE(6) data too short: got %d, want %d" (lba21 cdb) (if count =? 0 then 256 else count) data.
Definition handleWrite10 (cdb data : list byte) : M B unit :=
  if len cdb <? 10 then throw (Errorf "WRITE(10) CDB too short: %d bytes") else
  let count := be_get (slice 7 9 cdb) in
  if count =? 0 then mret tt else
  write_sectors "WRITE(10) data too short: got %d, want %d" (be_get (slice 2 6 cdb)) count data.
Definition handleWrite16 (cdb data : list byte) : M B unit :=
  if len cdb <? 16 then throw (Errorf "WRITE(16) CDB too short: %d bytes") else
  let count := be_get (slice 10 14 cdb) in
  if count =? 0 then mret tt else
  write_sectors "WRITE(16) data too short: got %d, want %d" (be_get (slice 2 10 cdb)) count data.

(** ** sync.go *)
Definition handleSyncCache10 (cdb : list byte) : M B unit :=
  if len cdb <? 10 then throw (Errorf "SYNCHRONIZE CACHE(10) CDB too short: %d bytes") else bd_Flush.
Definition handleSyncCache16 (cdb : list byte) : M B unit :=
  if len cdb <? 16 then throw (Errorf "SYNCHRONIZE CACHE(16) CDB too short: %d bytes") else bd_Flush.

(** ** UNMAP: the loop over the block descriptors *)
Fixpoint unmap_descs (fuel : nat) (descs : list byte) : M B unit :=
  if len descs <? 16 then mret tt else
  match fuel with
  | O => stop_with Diverged
  | S fuel =>
      let lba := be_get (slice 0 8 descs) in
      let count := be_get (slice 8 12 descs) in
      when_ (0 <? count) (bd_Unmap lba count) ;;
      unmap_descs fuel (slice 16 (len descs) descs)
  end.
Definition handleUnmap (dataOut : list byte) : M B unit :=
  if len dataOut <? 8 then mret tt else
  let descDataLen := be_get (slice 2 4 dataOut) in
  if descDataLen =? 0 then mret tt else
  unmap_descs (length dataOut) (slice 8 (len dataOut) dataOut).

(** ** handler.go *)
Record Handler := { h_serialNumber : list byte; h_devID : list byte }.
Definition NewHandler (serialNumber devID : list byte) : Handler :=
  {| h_serialNumber := serialNumber; h_devID := devID |}.

(** [if e != nil { return nil, StatusCheckCondition, buildSenseFromError(e), nil }] *)
Definition respond {A} (m : M B A) (data : A → list byte) : M B Response :=
  r ← attempt m;
  match r with
  | inl a => mret (good (data a))
  | inr e => mret (check_condition (buildSenseFromError e))
  end.

Definition Execute (h : Handler) (cdb dataOut : list byte) : M B Response :=
  match index cdb 0 with
  | None => mret (check_condition SenseIllegalRequest)
  | Some op =>
      let opcode := Z_of_byte op in
      dev ← gets id;
      if opcode =? OpcodeTestUnitReady then mret handleTestUnitReady
      else if opcode =? OpcodeInquiry then
        mret (match handleInquiry cdb (h_serialNumber h) (h_devID h) with
              | Some data => good data
              | None => check_condition SenseIllegalRequestInvalidField
              end)
      else if opcode =? OpcodeRequestSense then mret (good handleRequestSense)
      else if opcode =? OpcodeStartStopUnit then mret handleStartStopUnit
      else if opcode =? OpcodeReadCapacity10 then
        mret (good (handleReadCapacity10 (bd_Capacity dev) (bd_BlockSize dev)))
      else if opcode =? OpcodeReadCapacity16 then
        if (len cdb <? 2) || negb (Z.land (cdb_at cdb 1) 0x1F =? ServiceActionReadCap16)
        then mret (check_condition SenseIllegalRequest)
        else mret (good (handleReadCapacity16 (bd_Capacity dev) (bd_BlockSize dev)))
      else if opcode =? OpcodeRead6 then respond (handleRead6 cdb) id
      else if opcode =? OpcodeRead10 then respond (handleRead10 cdb) id
      else if opcode =? OpcodeRead16 then respond (handleRead16 cdb) id
      else if opcode =? OpcodeWrite6 then respond (handleWrite6 cdb dataOut) (λ _, [])
      else if opcode =? OpcodeWrite10 then respond (handleWrite10 cdb dataOut) (λ _, [])
      else if opcode =? OpcodeWrite16 then respond (handleWrite16 cdb dataOut) (λ _, [])
      else if opcode =? OpcodeSyncCache10 then respond (handleSyncCache10 cdb) (λ _, [])
      else if opcode =? OpcodeSyncCache16 then respond (handleSyncCache16 cdb) (λ _, [])
      else if opcode =? OpcodeReportLUNs then mret (good handleReportLUNs)
      else if opcode =? OpcodeModeSense10 then mret (good handleModeSense10)
      else if opcode =? OpcodeModeSense6 then mret (good handleModeSense6)
      else if opcode =? OpcodePersistentReserveIn then mret handlePersistentReserveIn
      else if opcode =? OpcodePersistentReserveOut then mret handlePersistentReserveOut
      else if opcode =? OpcodeUnmap then respond (handleUnmap dataOut) (λ _, [])
      else mret (check_condition (BuildSense SenseKeyIllegalRequest ASCInvalidCommandOpCode 0))
  end.
End handlers.
