(* ===== verification/Connection.v ===== *)
(** * [internal/iscsi]: the full-feature phase of a connection

    [connection.go] reads PDUs and dispatches them; [scsi_cmd.go] runs SCSI commands,
    with their data moved by [data_in.go] and [data_out.go]; [nop.go], [tmf.go] and
    [logout.go] answer the other requests.  The state is the connection, the
    network, and the block device behind the handler.  A request is handled without
    interruption; [Listener.v] and [Initiators.v] interleave connections. *)

From S2P Require Import Bytes Pdu Params DataTransfer Scsi.

Definition SCSICmdFlagFinal : Z := 0x80.
Definition SCSICmdFlagRead : Z := 0x40.
Definition SCSICmdFlagWrite : Z := 0x20.

Record Connection (B : Type) := {
  c_conn : Conn;
  c_session : bool;                         (* [c.session != nil] *)
  c_params : Params;
  c_device : B;                             (* behind [c.scsiHandler] *)
  c_reassembly : ReassemblyMap;
  c_statSN : Z;
  c_expCmdSN : Z;
  c_maxCmdSN : Z;
  c_pendingCDB : gmap Z (list byte);
  c_pendingReq : gmap Z PDU;
  c_closed : bool;
}.
Arguments c_conn {B}.
Arguments c_session {B}.
Arguments c_params {B}.
Arguments c_device {B}.
Arguments c_reassembly {B}.
Arguments c_statSN {B}.
Arguments c_expCmdSN {B}.
Arguments c_maxCmdSN {B}.
Arguments c_pendingCDB {B}.
Arguments c_pendingReq {B}.
Arguments c_closed {B}.
Arguments Build_Connection {B}.

Section setters.
Context {B : Type}.
Implicit Types c : Connection B.
Definition c_set_conn (n : Conn) c : Connection B :=
  Build_Connection n (c_session c) (c_params c) (c_device c) (c_reassembly c) (c_statSN c) (c_expCmdSN c)
    (c_maxCmdSN c) (c_pendingCDB c) (c_pendingReq c) (c_closed c).
Definition c_set_device (b : B) c : Connection B :=
  Build_Connection (c_conn c) (c_session c) (c_params c) b (c_reassembly c) (c_statSN c) (c_expCmdSN c)
    (c_maxCmdSN c) (c_pendingCDB c) (c_pendingReq c) (c_closed c).
Definition c_set_reassembly (m : ReassemblyMap) c : Connection B :=
  Build_Connection (c_conn c) (c_session c) (c_params c) (c_device c) m (c_statSN c) (c_expCmdSN c)
    (c_maxCmdSN c) (c_pendingCDB c) (c_pendingReq c) (c_closed c).
Definition c_set_sns (stat exp max : Z) c : Connection B :=
  Build_Connection (c_conn c) (c_session c) (c_params c) (c_device c) (c_reassembly c) stat exp
    max (c_pendingCDB c) (c_pendingReq c) (c_closed c).
Definition c_set_pending (cdbs : gmap Z (list byte)) (reqs : gmap Z PDU) c : Connection B :=
  Build_Connection (c_conn c) (c_session c) (c_params c) (c_device c) (c_reassembly c) (c_statSN c) (c_expCmdSN c)
    (c_maxCmdSN c) cdbs reqs (c_closed c).
Definition c_set_closed (b : bool) c : Connection B :=
  Build_Connection (c_conn c) (c_session c) (c_params c) (c_device c) (c_reassembly c) (c_statSN c) (c_expCmdSN c)
    (c_maxCmdSN c) (c_pendingCDB c) (c_pendingReq c) b.

Definition newConnection (conn : Conn) (session : bool) (params : Params) (device : B) : Connection B :=
  {| c_conn := conn; c_session := session; c_params := params; c_device := device; c_reassembly := ∅;
     c_statSN := 0; c_expCmdSN := 0; c_maxCmdSN := 32; c_pendingCDB := ∅; c_pendingReq := ∅; c_closed := false |}.

Definition on_conn {A} (m : M Conn A) : M (Connection B) A := zoom c_conn c_set_conn m.
Definition on_device {A} (m : M B A) : M (Connection B) A := zoom c_device c_set_device m.
Definition on_reassembly {A} (m : M ReassemblyMap A) : M (Connection B) A := zoom c_reassembly c_set_reassembly m.

(** [c.statSN++], and its value. *)
Definition nextStatSN : M (Connection B) Z :=
  modify (λ c, c_set_sns (u32 (c_statSN c + 1)) (c_expCmdSN c) (c_maxCmdSN c) c) ;; gets c_statSN.
End setters.

(** [copy(rsp.BHS[i:j], req.BHS[i:j])] *)
Definition bhs_copy (i j : Z) (req rsp : PDU) : PDU := bhs_put i (slice i j (p_BHS req)) rsp.
Definition set_sns (statSN expCmdSN maxCmdSN : Z) (p : PDU) : PDU :=
  PDU_SetMaxCmdSN maxCmdSN (PDU_SetExpCmdSN expCmdSN (PDU_SetStatSN statSN p)).

(** ** The answers *)
Definition nop_in_pdu (req : PDU) (statSN expCmdSN maxCmdSN : Z) : PDU :=
  let rsp := bhs_put_byte 1 0x80 (bhs_put_byte 0 OpcodeNopIn PDU_zero) in
  let rsp := PDU_SetInitiatorTaskTag (PDU_InitiatorTaskTag req) (bhs_copy 8 16 req rsp) in
  set_data (p_DataSegment req) (set_sns statSN expCmdSN maxCmdSN (bhs_put_u32 20 0xFFFFFFFF rsp)).
Definition handleNopOut (req : PDU) (statSN expCmdSN maxCmdSN : Z) : M Conn unit :=
  WritePDU (nop_in_pdu req statSN expCmdSN maxCmdSN).

(** Functions 1 to 7 are claimed to be complete. *)
Definition TMFResponseFunctionComplete : Z := 0x00.
Definition TMFResponseUnsupported : Z := 0x05.
Definition tmf_response (function : Z) : Z :=
  if (1 <=? function) && (function <=? 7) then TMFResponseFunctionComplete else TMFResponseUnsupported.
Definition tmf_rsp_pdu (req : PDU) (statSN expCmdSN maxCmdSN : Z) : PDU :=
  let response := tmf_response (Z.land (bhs_at 1 req) 0x7F) in
  let rsp := bhs_put_byte 2 response (bhs_put_byte 1 0x80 (bhs_put_byte 0 OpcodeTMFRsp PDU_zero)) in
  let rsp := bhs_put_u32 20 0xFFFFFFFF (PDU_SetInitiatorTaskTag (PDU_InitiatorTaskTag req) rsp) in
  set_sns statSN expCmdSN maxCmdSN rsp.
Definition handleTMFRequest (req : PDU) (statSN expCmdSN maxCmdSN : Z) : M Conn unit :=
  WritePDU (tmf_rsp_pdu req statSN expCmdSN maxCmdSN).

Definition logout_rsp_pdu (req : PDU) (statSN expCmdSN maxCmdSN : Z) : PDU :=
  let rsp := bhs_put_byte 2 0 (bhs_put_byte 1 0x80 (bhs_put_byte 0 OpcodeLogoutRsp PDU_zero)) in
  let rsp := set_sns statSN expCmdSN maxCmdSN (PDU_SetInitiatorTaskTag (PDU_InitiatorTaskTag req) rsp) in
  bhs_put_byte 43 0 (bhs_put_byte 42 0 (bhs_put_byte 41 0 (bhs_put_byte 40 0 rsp))).
Definition handleLogout (req : PDU) (statSN expCmdSN maxCmdSN : Z) : M Conn unit :=
  WritePDU (logout_rsp_pdu req statSN expCmdSN maxCmdSN).

Definition r2t_pdu (req : PDU) (itt bufferOffset desiredLen statSN expCmdSN maxCmdSN : Z) : PDU :=
  let rsp := bhs_copy 8 16 req (bhs_put_byte 1 0x80 (bhs_put_byte 0 OpcodeR2T PDU_zero)) in
  let rsp := set_sns statSN expCmdSN maxCmdSN (bhs_put_u32 20 itt (PDU_SetInitiatorTaskTag itt rsp)) in
  bhs_put_u32 44 desiredLen (bhs_put_u32 40 bufferOffset (bhs_put_u32 36 0 rsp)).
Definition sendR2T (req : PDU) (itt bufferOffset desiredLen statSN expCmdSN maxCmdSN : Z) : M Conn unit :=
  WritePDU (r2t_pdu req itt bufferOffset desiredLen statSN expCmdSN maxCmdSN).

Definition scsi_rsp_pdu (req : PDU) (rsp : Response) (statSN expCmdSN maxCmdSN : Z) : PDU :=
  let sense := default [] (rsp_sense rsp) in
  let p := bhs_put_byte 2 0 (bhs_put_byte 1 0x80 (bhs_put_byte 0 OpcodeSCSIRsp PDU_zero)) in
  let p := PDU_SetInitiatorTaskTag (PDU_InitiatorTaskTag req) (bhs_put_byte 3 (rsp_status rsp) p) in
  let p := set_sns statSN expCmdSN maxCmdSN p in
  if (0 <? len sense) && (rsp_status rsp =? StatusCheckCondition)
  then set_data (be_put 2 (u16 (len sense)) ++ sense) p else p.
Definition sendSCSIResponse (req : PDU) (rsp : Response) (statSN expCmdSN maxCmdSN : Z) : M Conn unit :=
  WritePDU (scsi_rsp_pdu req rsp statSN expCmdSN maxCmdSN).

(** What a SCSI Command PDU asks for. *)
Definition req_cdb (req : PDU) : list byte := slice 32 48 (p_BHS req).
Definition req_flag (flag : Z) (req : PDU) : bool := negb (Z.land (bhs_at 1 req) flag =? 0).
Definition req_expectedLen (req : PDU) : Z := bhs_u32 20 req.

(** The PDU the immediate data is put into the buffer with. *)
Definition fake_pdu (itt : Z) (immediateData : list byte) : PDU :=
  set_data immediateData (PDU_SetInitiatorTaskTag itt
    (bhs_put_u32 40 0 (bhs_put_u32 36 0 (bhs_put_byte 1 0 PDU_zero)))).

Section connection.
Context {B : Type} `{BlockDevice B} (h : Handler).

(** *** [scsi_cmd.go] *)
Section scsi_cmd.
Variables (req : PDU) (statSN expCmdSN maxCmdSN : Z).

(** A buffer with the immediate data in it, and an R2T for the rest. *)
Definition start_transfer : M (Connection B) unit :=
  let itt := PDU_InitiatorTaskTag req in
  let immediateData := p_DataSegment req in
  on_reassembly (modify (initBuffer itt (req_expectedLen req))) ;;
  (if 0 <? len immediateData then r ← attempt (on_reassembly (addDataOut (fake_pdu itt immediateData))); mret tt
   else mret tt) ;;
  on_conn (sendR2T req itt (u32 (len immediateData)) (u32 (req_expectedLen req - u32 (len immediateData)))
    statSN expCmdSN maxCmdSN).

(** [Execute], Data-In and the response. *)
Definition execute_respond (writeData : list byte) : M (Connection B) unit :=
  rsp ← wrap "SCSI Execute: %w" (on_device (Execute h (req_cdb req) writeData));
  c ← gets id;
  when_ (req_flag SCSICmdFlagRead req && (0 <? len (rsp_data rsp)) && (rsp_status rsp =? StatusGood))
    (let maxRecv := pa_MaxRecvDataSegmentLength (c_params c) in
     let maxRecv := if maxRecv <=? 0 then DefaultMaxRecvDataSegmentLength else maxRecv in
     wrap "sending Data-In: %w" (on_conn
       (sendDataIn (PDU_InitiatorTaskTag req) (PDU_LUN req) (rsp_data rsp) statSN expCmdSN maxCmdSN maxRecv))) ;;
  on_conn (sendSCSIResponse req rsp statSN expCmdSN maxCmdSN).

Definition handleSCSICmd : M (Connection B) unit :=
  c ← gets id;
  let finalBit := req_flag SCSICmdFlagFinal req in
  if req_flag SCSICmdFlagWrite req then
    if finalBit || negb (pa_InitialR2T (c_params c)) then
      if negb finalBit && (u32 (len (p_DataSegment req)) <? req_expectedLen req) then start_transfer
      else execute_respond (p_DataSegment req)
    else start_transfer
  else execute_respond [].

Definition completeWriteCommand (cdb writeData : list byte) : M (Connection B) unit :=
  rsp ← wrap "SCSI Execute (write): %w" (on_device (Execute h cdb writeData));
  on_conn (sendSCSIResponse req rsp statSN expCmdSN maxCmdSN).
End scsi_cmd.

(** *** [connection.go] *)
Definition handleSCSICommand (pdu : PDU) (expCmdSN maxCmdSN : Z) : M (Connection B) unit :=
  let itt := PDU_InitiatorTaskTag pdu in
  when_ (req_flag SCSICmdFlagWrite pdu && (u32 (len (p_DataSegment pdu)) <? req_expectedLen pdu))
    (modify (λ c, c_set_pending (<[itt := req_cdb pdu]> (c_pendingCDB c)) (<[itt := pdu]> (c_pendingReq c)) c)) ;;
  newStatSN ← nextStatSN;
  handleSCSICmd pdu newStatSN expCmdSN maxCmdSN.

Definition handleDataOut (pdu : PDU) (expCmdSN maxCmdSN : Z) : M (Connection B) unit :=
  let itt := PDU_InitiatorTaskTag pdu in
  r ← attempt (on_reassembly (addDataOut pdu));
  match r with
  | inr _ => mret tt
  | inl None => mret tt
  | inl (Some assembled) =>
      c ← gets id;
      modify (λ c, c_set_pending (delete itt (c_pendingCDB c)) (delete itt (c_pendingReq c)) c) ;;
      newStatSN ← nextStatSN;
      match c_pendingCDB c !! itt, c_pendingReq c !! itt with
      | Some cdb, Some origReq => completeWriteCommand origReq newStatSN expCmdSN maxCmdSN cdb assembled
      | _, _ => mret tt
      end
  end.

(** [c.conn.LocalAddr().String()] *)
Context (localAddr : string).
Definition nul : string := str [zero_byte].
Definition text_rsp_pdu (pdu : PDU) (targetInfo : string) (statSN expCmdSN maxCmdSN : Z) : PDU :=
  let rsp := bhs_put_byte 1 0x80 (bhs_put_byte 0 OpcodeTextRsp PDU_zero) in
  let rsp := bhs_put_u32 20 0xFFFFFFFF (PDU_SetInitiatorTaskTag (PDU_InitiatorTaskTag pdu) rsp) in
  set_data (unstr targetInfo) (set_sns statSN expCmdSN maxCmdSN rsp).
Definition handleTextRequest (pdu : PDU) (expCmdSN maxCmdSN : Z) : M (Connection B) unit :=
  newStatSN ← nextStatSN;
  c ← gets id;
  let targetInfo := if c_session c then
    "TargetName=" +:+ pa_TargetName (c_params c) +:+ nul +:+ "TargetAddress=" +:+ localAddr +:+ ",1" +:+ nul
    else EmptyString in
  on_conn (WritePDU (text_rsp_pdu pdu targetInfo newStatSN expCmdSN maxCmdSN)).

Definition Connection_close : M (Connection B) unit := modify (c_set_closed true).

Definition dispatch (pdu : PDU) : M (Connection B) unit :=
  let opcode := PDU_Opcode pdu in
  when_ (negb (opcode =? OpcodeDataOut))
    (modify (λ c, c_set_sns (c_statSN c) (u32 (PDU_CmdSN pdu + 1)) (u32 (u32 (PDU_CmdSN pdu + 1) + 31)) c)) ;;
  c ← gets id;
  let expCmdSN := c_expCmdSN c in
  let maxCmdSN := c_maxCmdSN c in
  if opcode =? OpcodeSCSICmd then handleSCSICommand pdu expCmdSN maxCmdSN
  else if opcode =? OpcodeDataOut then handleDataOut pdu expCmdSN maxCmdSN
  else if opcode =? OpcodeNopOut then
    newStatSN ← nextStatSN; on_conn (handleNopOut pdu newStatSN expCmdSN maxCmdSN)
  else if opcode =? OpcodeTMFReq then
    newStatSN ← nextStatSN; on_conn (handleTMFRequest pdu newStatSN expCmdSN maxCmdSN)
  else if opcode =? OpcodeLogoutReq then
    newStatSN ← nextStatSN; on_conn (handleLogout pdu newStatSN expCmdSN maxCmdSN) ;;
    Connection_close ;; throw (Errorf "logout requested")
  else if opcode =? OpcodeTextReq then handleTextRequest pdu expCmdSN maxCmdSN
  else mret tt.

(** The read loop; [fuel] bounds the PDUs read.  Errors are logged and end it. *)
Fixpoint Connection_Run (fuel : nat) : M (Connection B) unit :=
  match fuel with
  | O => stop_with Diverged
  | S fuel =>
      r ← attempt (on_conn ReadPDU);
      match r with
      | inr _ => mret tt
      | inl pdu =>
          r ← attempt (dispatch pdu);
          match r with
          | inr _ => mret tt
          | inl _ => Connection_Run fuel
          end
      end
  end.
End connection.
