(* ===== verification/ScsiTheorems.v ===== *)
(** * What the command dispatcher answers

    Every command gets a well-formed answer; the 6-, 10- and 16-byte forms of a
    transfer mean the same; an UNMAP list is carried out range by range. *)

From S2P Require Import Bytes Scsi.

(** ** Well-formed answers *)
Definition sense_ok (s : list byte) : Prop := len s = 18 ∧ head s = Some (byte_of_Z 0x70).
Inductive response_ok : Response → Prop :=
| response_good data : response_ok (good data)
| response_check sense : sense_ok sense → response_ok (check_condition sense).

Lemma BuildSense_ok key asc ascq : sense_ok (BuildSense key asc ascq).
Proof. done. Qed.

(** A device whose operations return, with or without an error. *)
Class TotalBlockDevice (B : Type) `{BlockDevice B} : Prop := {
  tbd_Read b lba count : returns (bd_Read lba count b).2;
  tbd_Write b lba data : returns (bd_Write lba data b).2;
  tbd_Flush b : returns (bd_Flush b).2;
  tbd_Unmap b lba count : returns (bd_Unmap lba count b).2;
}.

(** On any device: an answer, when there is one, is well-formed. *)
Lemma Execute_ok {B} `{BlockDevice B} h cdb dataOut (b b' : B) r : Execute h cdb dataOut b = (b', Ok r) → response_ok r.
Proof.
  assert (Hresp : ∀ {A} (m : M B A) data b0, respond m data b0 = (b', Ok r) → response_ok r).
  { intros A m data b0. unfold respond, attempt, mbind, M_bind.
    destruct (m b0) as [b1 [a|[e| |]]]; intros [= _ <-]; constructor; apply BuildSense_ok. }
  unfold Execute. destruct (index cdb 0) as [op|]; [|by intros [= _ <-]; constructor].
  unfold mbind at 1, M_bind at 1, gets at 1.
  repeat match goal with
  | |- (if _ then _ else _) _ = _ → _ => case_match
  | |- respond _ _ _ = _ → _ => apply Hresp
  | |- mret (match _ with _ => _ end) _ = _ → _ => case_match
  | |- mret _ _ = _ → _ => intros [= _ <-]; constructor; apply BuildSense_ok
  | |- mret _ _ = _ → _ => intros [= _ <-]; constructor
  end.
Qed.

(** Commands that may touch the device. *)
Definition device_opcodes : list Z :=
  [OpcodeRead6; OpcodeRead10; OpcodeRead16; OpcodeWrite6; OpcodeWrite10; OpcodeWrite16;
   OpcodeSyncCache10; OpcodeSyncCache16; OpcodeUnmap].

Section responses.
Context {B : Type} `{TotalBlockDevice B}.
Implicit Types b : B.

Definition answers (b : B) (m : M B Response) : Prop := wp m (λ _ o, ∃ r, o = Ok r ∧ response_ok r) b.

Lemma answers_ret b r : response_ok r → answers b (mret r).
Proof. intros Hr. by exists r. Qed.

Lemma answers_gets b (k : B → M B Response) : answers b (k b) → answers b (gets id ≫= k).
Proof. done. Qed.

Lemma answers_respond {A} b (m : M B A) data : wp m (λ _ o, returns o) b → answers b (respond m data).
Proof.
  intros Hm. unfold answers, respond. wp_steps. eapply wp_mono; [exact Hm|].
  intros b' [a|[e| |]] Ho; try done; wp_steps; eexists; (split; [done|]); constructor. apply BuildSense_ok.
Qed.

Lemma unmap_descs_returns fuel descs b :
  (length descs ≤ fuel)%nat → wp (unmap_descs fuel descs) (λ _ o, returns o) b.
Proof.
  revert descs b. induction fuel as [|fuel IH]; intros descs b Hlen; simpl.
  { destruct descs; [|simpl in Hlen; lia]. by wp_steps. }
  destruct (Z.ltb_spec (len descs) 16); wp_steps; [done|].
  assert (Hrest : (length (slice 16 (len descs) descs) ≤ fuel)%nat).
  { unfold slice, len in *. rw length_take length_drop. lia. }
  destruct (0 <? be_get (slice 8 12 descs)); [|by apply IH].
  pose proof (tbd_Unmap b (be_get (slice 0 8 descs)) (be_get (slice 8 12 descs))) as Hun.
  unfold wp at 1. destruct (bd_Unmap _ _ b) as [b' [[]|[e| |]]]; try done. by apply IH.
Qed.

Lemma write_sectors_returns short lba count data b : wp (write_sectors short lba count data) (λ _ o, returns o) b.
Proof. unfold write_sectors. case_match; [by wp_steps|apply tbd_Write]. Qed.

Lemma Execute_answers h cdb dataOut b : answers b (Execute h cdb dataOut).
Proof.
  unfold Execute. destruct (index cdb 0) as [op|]; [|by apply answers_ret; constructor].
  apply answers_gets. cbv beta.
  repeat match goal with
  | |- answers _ (if _ =? _ then _ else _) => case_match
  | |- answers _ (if _ || _ then _ else _) => case_match
  | |- answers _ (mret (match _ with _ => _ end)) => case_match
  | |- answers _ (mret _) => apply answers_ret; constructor; apply BuildSense_ok
  | |- answers _ (mret _) => apply answers_ret; constructor
  | |- answers _ (respond _ _) => apply answers_respond
  end.
  all: unfold handleRead6, handleRead10, handleRead16, handleWrite6, handleWrite10, handleWrite16,
    handleSyncCache10, handleSyncCache16, handleUnmap.
  all: repeat case_match; wp_steps; try done.
  all: first [apply tbd_Read|apply write_sectors_returns|apply tbd_Flush|apply unmap_descs_returns].
  clear; unfold slice, len. rw length_take length_drop. lia.
Qed.
End responses.


(** ** A device in memory, as the tests use *)
Definition Ram : Type := list byte.
Definition ram_check {A} (lba n : Z) (b : Ram) (o : Ram * outcome A) : Ram * outcome A :=
  if sectorSize * (lba + n) <=? len b then o else (b, Fail (Errorf "out of range")).
#[export] Instance Ram_device : BlockDevice Ram := {|
  bd_Read lba n := λ b, ram_check lba n b (b, Ok (slice (sectorSize * lba) (sectorSize * (lba + n)) b));
  bd_Write lba data := λ b, ram_check lba (len data / sectorSize) b (copy_at (sectorSize * lba) data b, Ok tt);
  bd_Flush := mret tt;
  bd_Unmap lba n := λ b, ram_check lba n b (copy_at (sectorSize * lba) (make_bytes (sectorSize * n)) b, Ok tt);
  bd_BlockSize _ := sectorSize;
  bd_Capacity b := len b / sectorSize;
|}.
#[export] Instance Ram_total : TotalBlockDevice Ram.
Proof. split; intros; unfold bd_Read, bd_Write, bd_Unmap, Ram_device, ram_check; try done; by destruct (_ <=? _). Qed.

Definition ram_handler : Handler := NewHandler (bytes_of_string "ZNS0000000001") (make_bytes 16).


(** ** The forms of a transfer *)
Inductive form := Form6 | Form10 | Form16.

(** The block of a transfer of [count] sectors at [lba], control bytes zero. *)
Definition transfer_cdb (op6 op10 op16 : Z) (f : form) (lba count : Z) : list byte :=
  match f with
  | Form6 => byte_of_Z op6 :: be_put 3 lba ++ be_put 1 count ++ make_bytes 1
  | Form10 => byte_of_Z op10 :: make_bytes 1 ++ be_put 4 lba ++ make_bytes 1 ++ be_put 2 count ++ make_bytes 1
  | Form16 => byte_of_Z op16 :: make_bytes 1 ++ be_put 8 lba ++ be_put 4 count ++ make_bytes 2
  end.
Definition read_cdb : form → Z → Z → list byte := transfer_cdb OpcodeRead6 OpcodeRead10 OpcodeRead16.
Definition write_cdb : form → Z → Z → list byte := transfer_cdb OpcodeWrite6 OpcodeWrite10 OpcodeWrite16.

(** What a form can express; 256 sectors are a zero in the 6-byte one. *)
Definition fits (f : form) (lba count : Z) : Prop :=
  0 ≤ lba ∧ 0 < count ∧
  match f with
  | Form6 => lba < 2^21 ∧ count ≤ 256
  | Form10 => lba < 2^32 ∧ count < 2^16
  | Form16 => lba < 2^64 ∧ count < 2^32
  end.

Lemma lba21_transfer op lba count tl :
  0 ≤ lba < 2^21 → lba21 (byte_of_Z op :: be_put 3 lba ++ be_put 1 count ++ tl) = lba.
Proof.
  intros Hlba. set (l := byte_of_Z op :: _).
  assert (H1 : cdb_at l 1 = u8 (lba / 256 / 256)) by (unfold cdb_at; rw -Z_of_byte_of_Z; reflexivity).
  assert (H2 : cdb_at l 2 = u8 (lba / 256)) by (unfold cdb_at; rw -Z_of_byte_of_Z; reflexivity).
  assert (H3 : cdb_at l 3 = u8 lba) by (unfold cdb_at; rw -Z_of_byte_of_Z; reflexivity).
  unfold lba21. rw H1 H2 H3. change 0x1F with (Z.ones 5). rw Z.land_ones //.
  assert (0 ≤ u8 lba < 2^8) by by apply Z.mod_pos_bound.
  assert (0 ≤ u8 (lba / 256) < 2^8) by by apply Z.mod_pos_bound.
  rw -Z.lor_assoc (lor_shiftl_low (u8 (lba / 256))) //.
  rw lor_shiftl_low; [lia|lia|]. unfold u8 in *. 
  pose proof (Z.div_mod lba 256). pose proof (Z.div_mod (lba / 256) 256). 
  assert (0 ≤ lba / 256 / 256 < 32).
  { split; [apply Z.div_pos; [apply Z.div_pos; lia|lia]|]. do 2 (apply Z.div_lt_upper_bound; [lia|]). lia. }
  change (2^8) with 256 in *. change (2^5) with 32. rw (Z.mod_small (lba / 256 / 256)); [lia|].
  rw (Z.mod_small (lba / 256 / 256)); [lia|]. lia.
Qed.

(** What the handlers decode, also from a longer block. *)
Definition decodes (f : form) (cdb : list byte) (lba count : Z) : Prop :=
  match f with
  | Form6 => 6 ≤ len cdb ∧ lba21 cdb = lba ∧ (if cdb_at cdb 4 =? 0 then 256 else cdb_at cdb 4) = count
  | Form10 => 10 ≤ len cdb ∧ be_get (slice 2 6 cdb) = lba ∧ be_get (slice 7 9 cdb) = count
  | Form16 => 16 ≤ len cdb ∧ be_get (slice 2 10 cdb) = lba ∧ be_get (slice 10 14 cdb) = count
  end.

Lemma transfer_decodes_pad op6 op10 op16 f lba count pad :
  fits f lba count → decodes f (transfer_cdb op6 op10 op16 f lba count ++ pad) lba count.
Proof.
  intros (Hlba & Hcount & Hfit). pose proof (len_nonneg pad).
  assert (Hlen : ∀ g, len (transfer_cdb op6 op10 op16 g lba count) = match g with Form6 => 6 | Form10 => 10 | Form16 => 16 end)
    by (by intros []).
  specialize (Hlen f). destruct f; cbn [decodes]; (split; [rw len_app Hlen; lia|]); set (cdb := _ ++ pad).
  - split; [apply (lba21_transfer op6 lba count (make_bytes 1 ++ pad)); lia|].
    assert (Hc : cdb_at cdb 4 = u8 count) by (unfold cdb_at; rw -Z_of_byte_of_Z; reflexivity).
    rw Hc. unfold u8. destruct (decide (count = 256)) as [->|]; [done|]. rw Z.mod_small; [lia|].
    by destruct (Z.eqb_spec count 0); [lia|].
  - assert (H1 : slice 2 6 cdb = be_put 4 lba) by reflexivity.
    assert (H2 : slice 7 9 cdb = be_put 2 count) by reflexivity.
    rw H1 H2 !be_get_put_small; lia.
  - assert (H1 : slice 2 10 cdb = be_put 8 lba) by reflexivity.
    assert (H2 : slice 10 14 cdb = be_put 4 count) by reflexivity.
    rw H1 H2 !be_get_put_small; lia.
Qed.
Lemma transfer_decodes op6 op10 op16 f lba count :
  fits f lba count → decodes f (transfer_cdb op6 op10 op16 f lba count) lba count.
Proof. intros Hfit. rw -(app_nil_r (transfer_cdb _ _ _ _ _ _)). by apply transfer_decodes_pad. Qed.

Section forms.
Context {B : Type} `{BlockDevice B}.
Implicit Types (h : Handler) (b : B).

Definition handleRead (f : form) (cdb : list byte) : M B (list byte) :=
  match f with Form6 => handleRead6 cdb | Form10 => handleRead10 cdb | Form16 => handleRead16 cdb end.
Definition handleWrite (f : form) (cdb data : list byte) : M B unit :=
  match f with
  | Form6 => handleWrite6 cdb data | Form10 => handleWrite10 cdb data | Form16 => handleWrite16 cdb data
  end.

Lemma Execute_read h f lba count data b :
  Execute h (read_cdb f lba count) data b = respond (handleRead f (read_cdb f lba count)) id b.
Proof. by destruct f. Qed.
Lemma Execute_write h f lba count data b :
  Execute h (write_cdb f lba count) data b = respond (handleWrite f (write_cdb f lba count) data) (λ _, []) b.
Proof. by destruct f. Qed.
Lemma Execute_read_pad h f lba count pad data b :
  Execute h (read_cdb f lba count ++ pad) data b = respond (handleRead f (read_cdb f lba count ++ pad)) id b.
Proof. by destruct f. Qed.
Lemma Execute_write_pad h f lba count pad data b :
  Execute h (write_cdb f lba count ++ pad) data b = respond (handleWrite f (write_cdb f lba count ++ pad) data) (λ _, []) b.
Proof. by destruct f. Qed.

Lemma handleRead_decodes f cdb lba count :
  0 < count → decodes f cdb lba count → handleRead f cdb = bd_Read lba count.
Proof.
  intros Hc Hd. destruct f; destruct Hd as (Hlen & Hl & Hn); cbn [handleRead];
    unfold handleRead6, handleRead10, handleRead16; rw Hl Hn (proj2 (Z.ltb_ge _ _) Hlen); try done;
    by destruct (Z.eqb_spec count 0); [lia|].
Qed.
Lemma handleWrite_decodes f cdb lba count data :
  0 < count → decodes f cdb lba count →
  ∃ short, handleWrite f cdb data = write_sectors short lba count data.
Proof.
  intros Hc Hd. destruct f; destruct Hd as (Hlen & Hl & Hn); cbn [handleWrite];
    unfold handleWrite6, handleWrite10, handleWrite16; rw Hl Hn (proj2 (Z.ltb_ge _ _) Hlen);
    try (destruct (Z.eqb_spec count 0); [lia|]); by eexists.
Qed.
End forms.

(** C21: the 6-, 10- and 16-byte forms of a transfer agree: in any form that can
    express it, a READ is the device's read, and a WRITE with at least the data
    it announces is the device's write of exactly that much of it; with less
    data it is refused and the device untouched.  Errors become CHECK CONDITION. *)
Theorem scsi_forms_agree {B} `{BlockDevice B} h f lba count data (b : B) :
  fits f lba count →
  Execute h (read_cdb f lba count) data b = respond (bd_Read lba count) id b ∧
  (sectorSize * count ≤ len data →
   Execute h (write_cdb f lba count) data b =
     respond (bd_Write lba (slice 0 (sectorSize * count) data)) (λ _, []) b) ∧
  (len data < sectorSize * count →
   ∃ sense, Execute h (write_cdb f lba count) data b = (b, Ok (check_condition sense))).
Proof.
  intros Hfit. pose proof Hfit as (_ & Hcount & _).
  rw Execute_read Execute_write.
  rw (handleRead_decodes f _ lba count Hcount); [by apply transfer_decodes|].
  destruct (handleWrite_decodes f (write_cdb f lba count) lba count data Hcount) as [short ->];
    [by apply transfer_decodes|].
  unfold write_sectors, sectorSize. replace (count * 512) with (512 * count) by lia.
  split; [done|]. destruct (Z.ltb_spec (len data) (512 * count)); split; intros; try lia; [|done].
  by eexists.
Qed.

Lemma scsi_forms_agree_witness :
  Execute ram_handler (read_cdb Form6 1 1) [] (make_bytes 1024) =
  Execute ram_handler (read_cdb Form16 1 1) [] (make_bytes 1024).
Proof.
  destruct (scsi_forms_agree ram_handler Form6 1 1 [] (make_bytes 1024)) as [H6 _]; [split; [lia|]; split; lia|].
  destruct (scsi_forms_agree ram_handler Form16 1 1 [] (make_bytes 1024)) as [H16 _]; [split; [lia|]; split; lia|].
  exact (eq_trans H6 (eq_sym H16)).
Defined.

(** ** UNMAP parameter lists *)
Definition unmap_desc (r : Z * Z) : list byte := be_put 8 r.1 ++ be_put 4 r.2 ++ make_bytes 4.
Definition unmap_list (rs : list (Z * Z)) : list byte :=
  be_put 2 (6 + 16 * len rs) ++ be_put 2 (16 * len rs) ++ make_bytes 4 ++ (rs ≫= unmap_desc).
Definition unmap_cdb (rs : list (Z * Z)) : list byte :=
  byte_of_Z OpcodeUnmap :: make_bytes 6 ++ be_put 2 (8 + 16 * len rs) ++ make_bytes 1.
Definition range_ok (r : Z * Z) : Prop := 0 ≤ r.1 < 2^64 ∧ 0 ≤ r.2 < 2^32.

Section unmap.
Context {B : Type} `{BlockDevice B}.
Definition unmap_ranges (rs : list (Z * Z)) : M B unit :=
  for_each (λ (_ : unit) (r : Z * Z), when_ (0 <? r.2) (bd_Unmap r.1 r.2)) tt rs.

Lemma unmap_descs_ranges fuel rs b :
  Forall range_ok rs → (length (rs ≫= unmap_desc) ≤ fuel)%nat →
  unmap_descs fuel (rs ≫= unmap_desc) b = unmap_ranges rs b.
Proof.
  revert fuel b. induction rs as [|[lba count] rs IH]; intros fuel b Hrs Hfuel; [by destruct fuel|].
  apply Forall_cons in Hrs as [[Hlba Hcount] Hrs]. cbn [fst snd] in *.
  assert (Hcons : ((lba, count) :: rs) ≫= unmap_desc = unmap_desc (lba, count) ++ (rs ≫= unmap_desc)) by done.
  rw Hcons in Hfuel |- *. set (tl := rs ≫= unmap_desc) in *. rw length_app in Hfuel.
  change (length (unmap_desc (lba, count))) with 16%nat in Hfuel. destruct fuel as [|fuel]; [lia|].
  assert (H1 : slice 0 8 (unmap_desc (lba, count) ++ tl) = be_put 8 lba) by reflexivity.
  assert (H2 : slice 8 12 (unmap_desc (lba, count) ++ tl) = be_put 4 count) by reflexivity.
  assert (H3 : slice 16 (len (unmap_desc (lba, count) ++ tl)) (unmap_desc (lba, count) ++ tl) = tl).
  { unfold slice, len. rw drop_app_length' //. rw take_ge //. rw length_app. change (length (unmap_desc _)) with 16%nat. lia. }
  cbn [unmap_descs]. rw H1 H2 H3 !be_get_put_small; [lia|lia|].
  rw len_app. change (len (unmap_desc (lba, count))) with 16. pose proof (len_nonneg tl).
  destruct (Z.ltb_spec (16 + len tl) 16); [lia|]. unfold unmap_ranges. cbn [for_each fst snd].
  unfold mbind, M_bind. destruct (when_ (0 <? count) (bd_Unmap lba count) b) as [b' [[]|r]]; [|done].
  apply IH; [done|lia].
Qed.

Lemma Execute_unmap_pad h rs pad data b :
  Execute h (unmap_cdb rs ++ pad) data b = respond (handleUnmap data) (λ _, []) b.
Proof. done. Qed.

Lemma Execute_unmap h rs b :
  Forall range_ok rs → 0 < len rs < 2^12 →
  Execute h (unmap_cdb rs) (unmap_list rs) b = respond (unmap_ranges rs) (λ _, []) b.
Proof.
  intros Hrs Hlen.
  assert (Hex : Execute h (unmap_cdb rs) (unmap_list rs) b = respond (handleUnmap (unmap_list rs)) (λ _, []) b) by done.
  rw Hex. unfold handleUnmap. set (l := unmap_list rs).
  assert (Hl : len l = 8 + len (rs ≫= unmap_desc)).
  { change l with (take 8 l ++ (rs ≫= unmap_desc)). by rw len_app. }
  assert (H1 : slice 2 4 l = be_put 2 (16 * len rs)) by reflexivity.
  assert (H2 : slice 8 (len l) l = rs ≫= unmap_desc).
  { unfold slice. change (drop (Z.to_nat 8) l) with (rs ≫= unmap_desc). rw take_ge //. unfold len in *. lia. }
  rw H1 H2 be_get_put_small; [lia|]. pose proof (len_nonneg (rs ≫= unmap_desc)).
  destruct (Z.ltb_spec (len l) 8); [lia|]. destruct (Z.eqb_spec (16 * len rs) 0); [lia|].
  unfold respond, mbind, M_bind, attempt. rw unmap_descs_ranges //. unfold len in Hl. lia.
Qed.
End unmap.

(** An UNMAP with a well-formed parameter list unmaps its ranges in order,
    skipping the empty ones, and stops at the first error, which becomes CHECK
    CONDITION. *)
Theorem scsi_unmap_ranges {B} `{BlockDevice B} h rs (b : B) :
  Forall range_ok rs → 0 < len rs < 2^12 →
  Execute h (unmap_cdb rs) (unmap_list rs) b = respond (unmap_ranges rs) (λ _, []) b.
Proof. apply Execute_unmap. Qed.

Lemma scsi_unmap_ranges_witness :
  Execute ram_handler (unmap_cdb [(1, 1); (0, 0)]) (unmap_list [(1, 1); (0, 0)]) (replicate 1024 (byte_of_Z 5)) =
  (replicate 512 (byte_of_Z 5) ++ make_bytes 512, Ok (good [])).
Proof.
  eapply eq_trans; [apply (scsi_unmap_ranges ram_handler [(1, 1); (0, 0)])|].
  - repeat constructor; simpl; lia.
  - split; reflexivity.
  - vm_compute. reflexivity.
Defined.

(** ** READ CAPACITY *)
Definition readcap10_cdb : list byte := byte_of_Z OpcodeReadCapacity10 :: make_bytes 9.
Definition readcap16_cdb : list byte :=
  byte_of_Z OpcodeReadCapacity16 :: byte_of_Z ServiceActionReadCap16 :: make_bytes 14.

(** READ CAPACITY reports the last address and the block size of a device
    that has at least one block: exactly in the 16-byte form, and in the 10-byte
    form saturated at the largest 32-bit address, never wrapped. *)
Theorem read_capacity_reports {B} `{BlockDevice B} h dataOut (b : B) :
  0 < bd_Capacity b < 2^64 → 0 ≤ bd_BlockSize b < 2^32 →
  ∃ d10 d16, Execute h readcap10_cdb dataOut b = (b, Ok (good d10)) ∧
    Execute h readcap16_cdb dataOut b = (b, Ok (good d16)) ∧
    len d10 = 8 ∧ be_get (slice 0 4 d10) = Z.min (bd_Capacity b - 1) (2^32 - 1) ∧
    be_get (slice 4 8 d10) = bd_BlockSize b ∧
    len d16 = 32 ∧ be_get (slice 0 8 d16) = bd_Capacity b - 1 ∧ be_get (slice 8 12 d16) = bd_BlockSize b.
Proof.
  intros Hcap Hbs. exists (handleReadCapacity10 (bd_Capacity b) (bd_BlockSize b)),
    (handleReadCapacity16 (bd_Capacity b) (bd_BlockSize b)).
  split; [reflexivity|]. split; [reflexivity|].
  unfold handleReadCapacity10, handleReadCapacity16. cbv zeta. rw u64_small; [lia|].
  set (last := if 0xFFFFFFFF <? bd_Capacity b - 1 then 0xFFFFFFFF else bd_Capacity b - 1).
  assert (Hlast : last = Z.min (bd_Capacity b - 1) (2^32 - 1)).
  { unfold last. destruct (Z.ltb_spec 0xFFFFFFFF (bd_Capacity b - 1)); lia. }
  assert (H1 : slice 0 4 (be_put 4 last ++ be_put 4 (bd_BlockSize b)) = be_put 4 last) by reflexivity.
  assert (H2 : slice 4 8 (be_put 4 last ++ be_put 4 (bd_BlockSize b)) = be_put 4 (bd_BlockSize b)) by reflexivity.
  set (d16 := be_put 8 (bd_Capacity b - 1) ++ _).
  assert (H3 : slice 0 8 d16 = be_put 8 (bd_Capacity b - 1)) by reflexivity.
  assert (H4 : slice 8 12 d16 = be_put 4 (bd_BlockSize b)) by reflexivity.
  rw H1 H2 H3 H4 !be_get_put_small; [lia..|]. done.
Qed.

Lemma read_capacity_reports_witness :
  ∃ d10, Execute ram_handler readcap10_cdb [] (make_bytes 1024) = (make_bytes 1024, Ok (good d10)) ∧
    be_get (slice 0 4 d10) = 1.
Proof.
  destruct (read_capacity_reports ram_handler [] (make_bytes 1024)) as (d10 & d16 & H10 & _ & _ & Hlast & _).
  - split; reflexivity.
  - split; [discriminate|reflexivity].
  - exists d10. split; [exact H10|exact Hlast].
Defined.
