(* ===== verification/ConnectionTheorems.v ===== *)
(** * What a connection does with commands

    The initiator's side of an exchange - the PDUs of a command, and how its answer
    is read - and the theorem that an exchange is a call of the dispatcher with
    the command's block and data. *)

From S2P Require Import Bytes Pdu Network Params DataTransfer Scsi ScsiTheorems Connection.

(** ** The initiator's side *)

(** The answer to the task [itt]: the data, put together in sequence, and the
    status. *)
Fixpoint initiator_receive (fuel : nat) (itt : Z) (data : list byte) : M Conn (list byte * Z) :=
  match fuel with
  | O => stop_with Diverged
  | S fuel =>
      p ← ReadPDU;
      if negb (PDU_InitiatorTaskTag p =? itt) then throw (ErrorNew "task")
      else if PDU_Opcode p =? OpcodeR2T then initiator_receive fuel itt data
      else if PDU_Opcode p =? OpcodeDataIn then
        if bhs_u32 40 p =? len data then initiator_receive fuel itt (data ++ p_DataSegment p)
        else throw (ErrorNew "sequence")
      else if PDU_Opcode p =? OpcodeSCSIRsp then mret (data, bhs_at 3 p)
      else throw (ErrorNew "opcode")
  end.

(** A SCSI Command PDU of the task [itt] with the block [cdb]. *)
Record is_command (itt : Z) (cdb : list byte) (req : PDU) : Prop := {
  ic_bhs : len (p_BHS req) = BHSSize;
  ic_opcode : PDU_Opcode req = OpcodeSCSICmd;
  ic_itt : PDU_InitiatorTaskTag req = itt;
  ic_cdb : req_cdb req = cdb;
}.
(** A Data-Out PDU of the task. *)
Record is_data_out (itt : Z) (p : PDU) : Prop := {
  id_bhs : len (p_BHS p) = BHSSize;
  id_opcode : PDU_Opcode p = OpcodeDataOut;
  id_itt : PDU_InitiatorTaskTag p = itt;
}.

(** The PDUs that carry the command [cdb] with the data [D] to the target: one with
    everything, or a command without the final bit, perhaps with the beginning of
    the data, and pieces of the data in any order, the final bit on the last. *)
Inductive carries_command (itt : Z) (cdb D : list byte) (rd : bool) : list PDU → Prop :=
| carries_at_once req :
    is_command itt cdb req → req_flag SCSICmdFlagRead req = rd →
    (if req_flag SCSICmdFlagWrite req then req_flag SCSICmdFlagFinal req = true ∧ p_DataSegment req = D ∧
                                           req_expectedLen req ≤ len D < 2^32
     else D = []) →
    carries_command itt cdb D rd [req]
| carries_in_pieces req ps last :
    is_command itt cdb req → rd = false →
    req_flag SCSICmdFlagWrite req = true → req_flag SCSICmdFlagFinal req = false →
    req_expectedLen req = len D → len D < 2^32 → len (p_DataSegment req) < len D →
    p_DataSegment req = slice 0 (len (p_DataSegment req)) D →
    (∀ p, p ∈ ps ++ [last] → is_data_out itt p ∧ carries D p) →
    (∀ p, p ∈ ps → dout_final p = false) → dout_final last = true →
    (∀ i, (length (p_DataSegment req) ≤ i < length D)%nat → covers (ps ++ [last]) i) →
    carries_command itt cdb D rd (req :: ps ++ [last]).

(** ** The headers of the answers *)
Lemma u32_field_range off p : len (p_BHS p) = BHSSize → 0 ≤ off → off + 4 ≤ BHSSize → 0 ≤ bhs_u32 off p < 2^32.
Proof.
  intros Hp Hoff Hfit. unfold bhs_u32. pose proof (be_get_range (slice off (off + 4) (p_BHS p))) as Hr.
  rw len_slice in Hr; [lia|lia|]. replace (off + 4 - off) with 4 in Hr by lia. exact Hr.
Qed.
Lemma PDU_LUN_range p : len (p_BHS p) = BHSSize → 0 ≤ PDU_LUN p < 2^64.
Proof.
  intros Hp. unfold PDU_LUN. pose proof (be_get_range (slice 8 16 (p_BHS p))) as Hr.
  unfold BHSSize in Hp. rw len_slice in Hr; [lia|lia|exact Hr].
Qed.

(** What the initiator looks at in an answer. *)
Record answer_header (opcode itt : Z) (p : PDU) : Prop := {
  ah_bhs : len (p_BHS p) = BHSSize;
  ah_ahs : PDU_TotalAHSLength p = 0;
  ah_noahs : p_AHS p = [];
  ah_opcode : PDU_Opcode p = opcode;
  ah_itt : PDU_InitiatorTaskTag p = itt;
}.

Lemma r2t_header req itt off n sn exp mx :
  len (p_BHS req) = BHSSize → 0 ≤ itt < 2^32 → answer_header OpcodeR2T itt (r2t_pdu req itt off n sn exp mx).
Proof.
  intros Hreq Hitt. destruct req as [bhs ahs data]. cbn [p_BHS] in Hreq. unfold BHSSize, len in Hreq.
  do 48 (destruct bhs as [|? bhs]; [exfalso; simpl in Hreq; lia|]). destruct bhs; [|exfalso; simpl in Hreq; lia].
  split; [reflexivity..|]. unfold PDU_InitiatorTaskTag, bhs_u32.
  match goal with |- be_get ?l = _ => assert (Hl : l = be_put 4 itt) by reflexivity; rw Hl end.
  apply be_get_put_small. exact Hitt.
Qed.

Lemma scsi_rsp_header req rsp sn exp mx :
  0 ≤ PDU_InitiatorTaskTag req < 2^32 → 0 ≤ rsp_status rsp < 256 →
  let p := scsi_rsp_pdu req rsp sn exp mx in
  answer_header OpcodeSCSIRsp (PDU_InitiatorTaskTag req) p ∧ bhs_at 3 p = rsp_status rsp.
Proof.
  intros Hitt Hst p.
  assert (Hbhs : p_BHS p = p_BHS (scsi_rsp_pdu req {| rsp_data := []; rsp_status := rsp_status rsp; rsp_sense := None |} sn exp mx)).
  { unfold p, scsi_rsp_pdu. by case_match. }
  assert (Hahs : p_AHS p = []) by (unfold p, scsi_rsp_pdu; by case_match).
  set (q := scsi_rsp_pdu _ _ _ _ _) in Hbhs. clearbody p.
  split; [split|].
  - by rw Hbhs.
  - unfold PDU_TotalAHSLength, bhs_at. by rw Hbhs.
  - done.
  - unfold PDU_Opcode, bhs_at. by rw Hbhs.
  - unfold PDU_InitiatorTaskTag at 1, bhs_u32. rw Hbhs.
    match goal with |- be_get ?l = _ => assert (Hl : l = be_put 4 (PDU_InitiatorTaskTag req)) by reflexivity; rw Hl end.
    by apply be_get_put_small.
  - unfold bhs_at. rw Hbhs. assert (Hs : index (p_BHS q) 3 = Some (byte_of_Z (rsp_status rsp))) by reflexivity.
    rw Hs. cbn [fmap option_fmap option_map default]. unfold id. rw Z_of_byte_of_Z. by apply Z.mod_small.
Qed.

(** ** Reading the answer *)
(** A PDU of the answer to the task [itt]. *)
Definition answer_pdu (op itt : Z) (p : PDU) : Prop := pdu_ok p ∧ PDU_Opcode p = op ∧ PDU_InitiatorTaskTag p = itt.
Lemma answer_header_pdu op itt p : answer_header op itt p → len (p_DataSegment p) < 2^24 → answer_pdu op itt p.
Proof. intros [Hb Ha Hn Hop Hi] Hd. split; [|done]. split; [done| |done]. rw Ha Hn. done. Qed.

Section receive.
Variables (itt : Z) (p : PDU) (rest : list byte) (n : Conn) (fuel : nat) (data : list byte).
Hypothesis Hin : cn_in n = wire p ++ rest.

(** The next PDU is [p], with its length filled in. *)
Lemma receive_step op :
  answer_pdu op itt p →
  initiator_receive (S fuel) itt data n =
  if op =? OpcodeR2T then initiator_receive fuel itt data (cn_set_in rest n)
  else if op =? OpcodeDataIn then
    if bhs_u32 40 p =? len data then initiator_receive fuel itt (data ++ p_DataSegment p) (cn_set_in rest n)
    else (cn_set_in rest n, Fail (ErrorNew "sequence"))
  else if op =? OpcodeSCSIRsp then (cn_set_in rest n, Ok (data, bhs_at 3 p))
  else (cn_set_in rest n, Fail (ErrorNew "opcode")).
Proof using Hin.
  intros (Hok & Hop & Hi). pose proof (pk_bhs _ Hok) as Hb.
  cbn [initiator_receive]. rw (bind_ok _ _ _ _ _ (ReadPDU_wire p rest n Hok Hin)).
  unfold PDU_Opcode, PDU_InitiatorTaskTag. rw !bhs_at_length //. rw !bhs_u32_length //.
  change (bhs_u32 16 p) with (PDU_InitiatorTaskTag p). change (Z.land (bhs_at 0 p) 63) with (PDU_Opcode p).
  rw Hi Hop Z.eqb_refl. cbn [negb]. repeat case_match; done.
Qed.
End receive.

(** Data-In PDUs that are in sequence are put together. *)
Lemma receive_data_in itt pdus n fuel data rest :
  (∀ i p, pdus !! i = Some p → answer_pdu OpcodeDataIn itt p ∧
    bhs_u32 40 p = len (data ++ mjoin (p_DataSegment <$> take i pdus))) →
  cn_in n = (pdus ≫= wire) ++ rest →
  initiator_receive (length pdus + fuel) itt data n =
  initiator_receive fuel itt (data ++ mjoin (p_DataSegment <$> pdus)) (cn_set_in rest n).
Proof.
  revert n data. induction pdus as [|p pdus IH]; intros n data Hp Hin.
  - cbn in Hin |- *. rw app_nil_r -Hin. by destruct n.
  - rw bind_cons -app_assoc in Hin. destruct (Hp 0%nat p eq_refl) as (Hh & Hoff). cbn in Hoff. rw app_nil_r in Hoff.
    cbn [length Nat.add]. rw (receive_step itt p _ n _ _ Hin _ Hh). change (OpcodeDataIn =? OpcodeR2T) with false.
    change (OpcodeDataIn =? OpcodeDataIn) with true. cbn iota. rw (proj2 (Z.eqb_eq (bhs_u32 40 p) (len data))) //.
    rw (IH (cn_set_in _ n) (data ++ p_DataSegment p)).
    + intros i q Hq. destruct (Hp (S i) q Hq) as (Hh' & Hoff'). split; [done|].
      rw Hoff'. cbn. by rw app_assoc.
    + done.
    + cbn [fmap list_fmap mjoin list_join]. by rw app_assoc.
Qed.

(** The bytes [out] are a whole answer with this data and status. *)
Definition answered (itt : Z) (out data : list byte) (status : Z) : Prop :=
  ∃ fuel, ∀ n rest, cn_in n = out ++ rest →
    initiator_receive fuel itt [] n = (cn_set_in rest n, Ok (data, status)).

Lemma response_status rsp : response_ok rsp → 0 ≤ rsp_status rsp < 256 ∧ (rsp_status rsp = StatusGood ∨ rsp_data rsp = []).
Proof. intros [data|sense Hs]; cbn; unfold StatusGood, StatusCheckCondition; split; [lia|by left|lia|by right]. Qed.

Lemma scsi_rsp_data req rsp sn exp mx : response_ok rsp → len (p_DataSegment (scsi_rsp_pdu req rsp sn exp mx)) < 2^24.
Proof.
  intros Hr. unfold scsi_rsp_pdu. destruct Hr as [data|sense [Hs _]]; [done|]. cbn [rsp_sense rsp_status check_condition default].
  case_match; [|done]. cbn [p_DataSegment set_data]. rw len_app. unfold id. rw Hs. done.
Qed.

(** The answer with Data-In: the PDUs of the data, then the response. *)
Lemma answered_data req rsp sn exp mx pdus :
  len (p_BHS req) = BHSSize → response_ok rsp →
  (∀ i p, pdus !! i = Some p → answer_pdu OpcodeDataIn (PDU_InitiatorTaskTag req) p ∧
    bhs_u32 40 p = len (mjoin (p_DataSegment <$> take i pdus))) →
  answered (PDU_InitiatorTaskTag req) ((pdus ≫= wire) ++ wire (scsi_rsp_pdu req rsp sn exp mx))
    (mjoin (p_DataSegment <$> pdus)) (rsp_status rsp).
Proof.
  intros Hreq Hr Hp. exists (length pdus + 1)%nat. intros n rest Hin. rw -app_assoc in Hin.
  rw (receive_data_in (PDU_InitiatorTaskTag req) pdus n 1 [] _ Hp Hin).
  destruct (scsi_rsp_header req rsp sn exp mx) as [Hh Hs]; [by apply u32_field_range|by apply response_status|].
  rw (receive_step _ (scsi_rsp_pdu req rsp sn exp mx) rest (cn_set_in (wire (scsi_rsp_pdu req rsp sn exp mx) ++ rest) n) 0%nat _ _ OpcodeSCSIRsp); [done| |].
  { apply answer_header_pdu; [exact Hh|by apply scsi_rsp_data]. }
  change (OpcodeSCSIRsp =? OpcodeR2T) with false. change (OpcodeSCSIRsp =? OpcodeDataIn) with false.
  rw Z.eqb_refl Hs. done.
Qed.

Lemma answered_r2t itt req off k sn exp mx out data status :
  len (p_BHS req) = BHSSize → 0 ≤ itt < 2^32 → answered itt out data status →
  answered itt (wire (r2t_pdu req itt off k sn exp mx) ++ out) data status.
Proof.
  intros Hreq Hitt [fuel Hout]. exists (S fuel). intros n rest Hin. rw -app_assoc in Hin.
  rw (receive_step itt (r2t_pdu req itt off k sn exp mx) (out ++ rest) n fuel [] Hin OpcodeR2T).
  { apply answer_header_pdu; [by apply r2t_header|done]. }
  change (OpcodeR2T =? OpcodeR2T) with true. cbn iota. by rw (Hout (cn_set_in (out ++ rest) n) rest).
Qed.

(** What the segments sent before the [i]-th PDU come to. *)
Lemma segments_before data m pdus i :
  0 < m → len pdus = Z.max 1 ((len data + m - 1) / m) → (i < length pdus)%nat →
  (∀ i p, pdus !! i = Some p → p_DataSegment p = chunk_at data m i) →
  len (mjoin (p_DataSegment <$> take i pdus)) = m * Z.of_nat i.
Proof.
  intros Hm Hn Hi Hseg.
  assert (Hchunks : p_DataSegment <$> take i pdus = chunk_at data m <$> seq 0 i).
  { apply list_eq. intros j. rw !list_lookup_fmap. destruct (decide (j < i)%nat) as [Hj|Hj].
    - rw lookup_take_lt // lookup_seq_lt //. destruct (lookup_lt_is_Some_2 pdus j ltac:(lia)) as [p Hp].
      rw Hp. cbn. by rw (Hseg j p Hp).
    - rw lookup_take_ge; [lia|]. rw lookup_seq_ge; [lia|done]. }
  assert (Hle : m * Z.of_nat i ≤ len data).
  { pose proof (len_nonneg data). destruct (decide (i = 0%nat)) as [->|Hi0]; [lia|].
    pose proof (Z.mul_div_le (len data + m - 1) m Hm). unfold len at 1 in Hn.
    set (q := (len data + m - 1) / m) in *. assert (Z.of_nat i ≤ q - 1) by lia. nia. }
  rw Hchunks chunks_join; [done|right; lia|]. rw len_slice; lia.
Qed.

(** ** Running a command *)
Section run.
Context {B : Type} `{BlockDevice B} (h : Handler).
Implicit Types c : Connection B.

(** What sequence numbers and header fields have to be. *)
Definition sn_ok (sn exp mx : Z) : Prop := 0 ≤ sn < 2^32 ∧ 0 ≤ exp < 2^32 ∧ 0 ≤ mx < 2^32.

Lemma send_run p c :
  cn_writes (c_conn c) = [] → len (p_DataSegment p) < 2^24 →
  on_conn (WritePDU p) c = (c_set_conn (cn_append (wire p) (c_conn c)) c, Ok tt).
Proof. intros Hw Hp. apply zoom_ok. apply WritePDU_run; [lia|done]. Qed.

Lemma execute_respond_run req sn exp mx D b rsp c :
  cn_writes (c_conn c) = [] → len (p_BHS req) = BHSSize → sn_ok sn exp mx →
  pa_MaxRecvDataSegmentLength (c_params c) < 2^24 →
  Execute h (req_cdb req) D (c_device c) = (b, Ok rsp) → response_ok rsp → len (rsp_data rsp) < 2^32 →
  ∃ out, answered (PDU_InitiatorTaskTag req) out (if req_flag SCSICmdFlagRead req then rsp_data rsp else []) (rsp_status rsp) ∧
    execute_respond h req sn exp mx D c = (c_set_conn (cn_append out (c_conn c)) (c_set_device b c), Ok tt).
Proof.
  intros Hw Hreq (Hsn & Hexp & Hmx) Hmax Hex Hr Hlen. unfold execute_respond.
  rw (bind_ok _ _ _ _ _ (wrap_ok _ _ _ _ _ (zoom_ok _ _ _ c _ _ Hex))). unfold gets at 1. M_unfold.
  destruct (response_status rsp Hr) as [Hst Hnd].
  destruct (req_flag SCSICmdFlagRead req && (0 <? len (rsp_data rsp)) && (rsp_status rsp =? StatusGood)) eqn:Hcond.
  - apply andb_prop in Hcond as [[Hrd Hpos]%andb_prop Hgood]. rw Hrd. unfold when_.
    set (m := if pa_MaxRecvDataSegmentLength (c_params c) <=? 0 then _ else _).
    assert (Hm : 0 < m < 2^24) by (unfold m; destruct (Z.leb_spec (pa_MaxRecvDataSegmentLength (c_params c)) 0); unfold DefaultMaxRecvDataSegmentLength; lia).
    destruct (sendDataIn_pdus (PDU_InitiatorTaskTag req) (PDU_LUN req) (rsp_data rsp) sn exp mx m)
      as (pdus & Hsend & Hn & Hjoin & Hpdus); [case_match; lia|done|by apply u32_field_range|by apply PDU_LUN_range|done..|].
    rw (wrap_ok _ _ _ _ _ (zoom_ok _ _ _ (c_set_device b c) _ _ (sends_run _ _ _ Hsend Hw))).
    assert (Hmle : (m <=? 0) = false) by lia. rw Hmle in Hpdus, Hn.
    eexists. split; [|unfold sendSCSIResponse; rw send_run; [done|by apply scsi_rsp_data|]; unfold c_set_conn, cn_append; cbn; by rw -app_assoc].
    rw -Hjoin. apply answered_data; [done|done|]. intros i p Hp.
    destruct (Hpdus i p Hp) as (Hok & Hop & Hi & _ & _ & _ & _ & _ & _ & _ & Hoff & _).
    split; [done|]. rw Hoff (segments_before (rsp_data rsp) m) //; [lia|by eapply lookup_lt_Some|].
    intros j q Hq. by destruct (Hpdus j q Hq) as (_ & _ & _ & _ & _ & _ & _ & _ & Hseg & _).
  - unfold when_. cbn.
    eexists. split; [|unfold sendSCSIResponse; rw send_run; [done|by apply scsi_rsp_data|done]].
    assert (Hd : (if req_flag SCSICmdFlagRead req then rsp_data rsp else []) = []).
    { destruct (req_flag SCSICmdFlagRead req); [|done]. destruct Hnd as [Hg|]; [|done].
      rw Hg Z.eqb_refl andb_true_r in Hcond. by apply nil_of_len. }
    rw Hd. by apply (answered_data req rsp sn exp mx []).
Qed.

Lemma completeWriteCommand_run req sn exp mx cdb D b rsp c :
  cn_writes (c_conn c) = [] → len (p_BHS req) = BHSSize →
  Execute h cdb D (c_device c) = (b, Ok rsp) → response_ok rsp →
  ∃ out, answered (PDU_InitiatorTaskTag req) out [] (rsp_status rsp) ∧
    completeWriteCommand h req sn exp mx cdb D c = (c_set_conn (cn_append out (c_conn c)) (c_set_device b c), Ok tt).
Proof.
  intros Hw Hreq Hex Hr. exists (wire (scsi_rsp_pdu req rsp sn exp mx)).
  split; [by apply (answered_data req rsp sn exp mx [])|].
  unfold completeWriteCommand. rw (bind_ok _ _ _ _ _ (wrap_ok _ _ _ _ _ (zoom_ok _ _ _ c _ _ Hex))).
  unfold sendSCSIResponse. rw send_run; [done|by apply scsi_rsp_data|done].
Qed.

Context (localAddr : string).

(** The numbers a command sets. *)
Definition after_command (req : PDU) c : Connection B :=
  let exp := u32 (PDU_CmdSN req + 1) in c_set_sns (u32 (c_statSN c + 1)) exp (u32 (exp + 31)) c.

Lemma dispatch_command itt cdb req c :
  is_command itt cdb req →
  dispatch h localAddr req c =
  (let pend := req_flag SCSICmdFlagWrite req && (u32 (len (p_DataSegment req)) <? req_expectedLen req) in
   let c1 := after_command req c in
   handleSCSICmd h req (c_statSN c1) (c_expCmdSN c1) (c_maxCmdSN c1)
     (if pend then c_set_pending (<[itt := cdb]> (c_pendingCDB c)) (<[itt := req]> (c_pendingReq c)) c1 else c1)).
Proof using.
  intros [Hb Hop <- <-]. unfold dispatch. rw Hop. change (OpcodeSCSICmd =? OpcodeDataOut) with false.
  change (OpcodeSCSICmd =? OpcodeSCSICmd) with true. unfold handleSCSICommand.
  by destruct (req_flag SCSICmdFlagWrite req && (u32 (len (p_DataSegment req)) <? req_expectedLen req)).
Qed.

Lemma start_transfer_run req sn exp mx D c :
  cn_writes (c_conn c) = [] → len (p_BHS req) = BHSSize →
  req_expectedLen req = len D → len D < 2^32 → p_DataSegment req = slice 0 (len (p_DataSegment req)) D →
  len (p_DataSegment req) < len D →
  let itt := PDU_InitiatorTaskTag req in
  let k := len (p_DataSegment req) in
  ∃ b ps, holds D ps b ∧ (∀ i, (i < length (p_DataSegment req))%nat → covers ps i) ∧
    start_transfer req sn exp mx c =
    (c_set_conn (cn_append (wire (r2t_pdu req itt k (len D - k) sn exp mx)) (c_conn c))
       (c_set_reassembly (<[itt := b]> (c_reassembly c)) c), Ok tt).
Proof using.
  intros Hw Hreq Hexp HD Himm Hlt itt k. pose proof (len_nonneg (p_DataSegment req)).
  assert (Hk : u32 k = k) by (apply u32_small; unfold k; lia).
  assert (Hrest : u32 (len D - k) = len D - k) by (apply u32_small; unfold k; lia).
  unfold start_transfer. fold itt k. rw Hk Hexp Hrest.
  rw (bind_ok _ _ c (c_set_reassembly (initBuffer itt (len D) (c_reassembly c)) c) tt); [done|].
  destruct (Z.ltb_spec 0 k) as [Hpos|Hz].
  - assert (Hitt : 0 ≤ itt < 2^32) by by apply u32_field_range.
    set (f := fake_pdu itt (p_DataSegment req)).
    assert (Hf : dout_offset f = 0) by reflexivity.
    assert (Hfi : PDU_InitiatorTaskTag f = itt).
    { unfold PDU_InitiatorTaskTag, bhs_u32. assert (Hl : slice 16 (16 + 4) (p_BHS f) = be_put 4 itt) by reflexivity.
      rw Hl. by apply be_get_put_small. }
    destruct (addDataOut_found D f [] (newDataOutBuffer itt (len D)) (initBuffer itt (len D) (c_reassembly c)))
      as (b & Hb & Hadd); [done|done| |by rw Hfi; apply lookup_insert_eq|apply holds_new|].
    { split; unfold dout_end; rw Hf; cbn [f fake_pdu set_data p_DataSegment]; rw Z.add_0_l; [unfold k in *; lia|done]. }
    exists b, [f]. split; [done|]. split.
    { intros i Hi. exists f. split; [by left|]. unfold dout_end. rw Hf. cbn [f fake_pdu set_data p_DataSegment]. unfold len. lia. }
    change (dout_final f) with false in Hadd. cbn iota in Hadd. rw Hfi in Hadd. unfold initBuffer in Hadd. rw insert_insert_eq in Hadd.
    assert (Hatt : attempt (on_reassembly (addDataOut f)) (c_set_reassembly (initBuffer itt (len D) (c_reassembly c)) c) =
      (c_set_reassembly (<[itt := b]> (c_reassembly c)) c, Ok (inl None))).
    { unfold attempt, on_reassembly, zoom. cbn [c_reassembly c_set_reassembly]. unfold initBuffer. by rw Hadd. }
    rw (bind_ok _ _ _ _ _ (bind_ok _ _ _ _ _ Hatt)). unfold sendR2T. by rw send_run.
  - exists (newDataOutBuffer itt (len D)), []. split; [apply holds_new|]. split.
    { intros i Hi. unfold k, len in Hz. lia. }
    unfold mbind at 1, M_bind at 1. cbn [mret M_ret]. unfold sendR2T. by rw send_run.
Qed.

Lemma dispatch_data_out itt D ps b p c :
  len D < 2^32 → is_data_out itt p → carries D p → c_reassembly c !! itt = Some b → holds D ps b →
  ∃ b', holds D (ps ++ [p]) b' ∧
    dispatch h localAddr p c =
    if dout_final p then
      (let c1 := c_set_sns (u32 (c_statSN c + 1)) (c_expCmdSN c) (c_maxCmdSN c)
         (c_set_pending (delete itt (c_pendingCDB c)) (delete itt (c_pendingReq c))
           (c_set_reassembly (delete itt (c_reassembly c)) c)) in
       match c_pendingCDB c !! itt, c_pendingReq c !! itt with
       | Some cdb, Some req => completeWriteCommand h req (c_statSN c1) (c_expCmdSN c) (c_maxCmdSN c) cdb (db_data b') c1
       | _, _ => (c1, Ok tt)
       end)
    else (c_set_reassembly (<[itt := b']> (c_reassembly c)) c, Ok tt).
Proof using.
  intros HD [Hp Hop Hitt] Hc Hm Hb.
  destruct (addDataOut_found D p ps b (c_reassembly c) HD Hp Hc) as (b' & Hb' & Hadd); [by rw Hitt|done|].
  exists b'. split; [done|]. unfold dispatch. rw Hop. change (OpcodeDataOut =? OpcodeDataOut) with true.
  change (OpcodeDataOut =? OpcodeSCSICmd) with false. cbn [negb when_].
  rw (bind_ok _ _ _ c tt) //. rw (bind_ok _ _ _ c c) //. unfold handleDataOut.
  assert (Hatt : attempt (on_reassembly (addDataOut p)) c =
    if dout_final p then (c_set_reassembly (delete itt (c_reassembly c)) c, Ok (inl (Some (db_data b'))))
    else (c_set_reassembly (<[itt := b']> (c_reassembly c)) c, Ok (inl None))).
  { unfold attempt, on_reassembly, zoom. rw Hadd Hitt. by destruct (dout_final p). }
  destruct (dout_final p); rw (bind_ok _ _ _ _ _ Hatt); [|reflexivity]. rw Hitt.
  destruct (c_pendingCDB c !! itt) as [cdb|] eqn:Hcdb; [destruct (c_pendingReq c !! itt) as [req|] eqn:Hreq|];
    rw (bind_ok _ _ _ _ _ (eq_refl : gets id _ = (_, Ok _))); cbn; by rw Hcdb ?Hreq.
Qed.

Lemma dispatch_data_outs itt D c ps : ∀ pre b,
  len D < 2^32 → (∀ p, p ∈ ps → is_data_out itt p ∧ carries D p ∧ dout_final p = false) →
  c_reassembly c !! itt = Some b → holds D pre b →
  ∃ b', holds D (pre ++ ps) b' ∧
    for_each (λ _ p, dispatch h localAddr p) tt ps c = (c_set_reassembly (<[itt := b']> (c_reassembly c)) c, Ok tt).
Proof using.
  revert c. induction ps as [|p ps IH]; intros c pre b HD Hps Hm Hb.
  { exists b. rw app_nil_r insert_id //. split; [done|]. by destruct c. }
  destruct (Hps p) as (Hd & Hc & Hf); [by left|].
  destruct (dispatch_data_out itt D pre b p c HD Hd Hc Hm Hb) as (b1 & Hb1 & Hdisp). rw Hf in Hdisp.
  destruct (IH (c_set_reassembly (<[itt := b1]> (c_reassembly c)) c) (pre ++ [p]) b1) as (b' & Hb' & Hrest);
    [done|intros q Hq; apply Hps; by right|apply lookup_insert_eq|done|].
  exists b'. split; [by rw -app_assoc in Hb'|]. cbn [for_each]. rw (bind_ok _ _ _ _ _ Hdisp) Hrest.
  cbn [c_reassembly c_set_reassembly]. by rw insert_insert_eq.
Qed.
End run.

Lemma for_each_one {S X} (f : unit → X → M S unit) x s : for_each f tt [x] s = f tt x s.
Proof. cbn [for_each]. unfold mbind, M_bind. by destruct (f tt x s) as [s' [[]|r]]. Qed.

Lemma for_each_app {S A X} (f : A → X → M S A) a l1 l2 s s' a' :
  for_each f a l1 s = (s', Ok a') → for_each f a (l1 ++ l2) s = for_each f a' l2 s'.
Proof.
  revert a s. induction l1 as [|x l1 IH]; intros a s; [by intros [= -> ->]|]. cbn [for_each app].
  unfold mbind, M_bind. destruct (f a x s) as [s1 [a1|r]]; [apply IH|done].
Qed.

(** What an exchange leaves alone: everything of the connection but the device,
    the sequence numbers, the output, and what it keeps of the task [itt]. *)
Record others_kept {B} (itt : Z) (c c' : Connection B) : Prop := {
  ok_params : c_params c' = c_params c;
  ok_session : c_session c' = c_session c;
  ok_closed : c_closed c' = c_closed c;
  ok_reassembly t : t ≠ itt → c_reassembly c' !! t = c_reassembly c !! t;
  ok_pending t : t ≠ itt → c_pendingCDB c' !! t = c_pendingCDB c !! t ∧ c_pendingReq c' !! t = c_pendingReq c !! t;
}.

Section exchange.
Context {B : Type} `{BlockDevice B} (h : Handler) (localAddr : string).
Implicit Types c : Connection B.

(** The PDUs of a command lead to the execution of its block with its data; what
    has been sent by then is passed over by the initiator. *)
Lemma exchange_reach itt cdb D rd pdus c :
  cn_writes (c_conn c) = [] → carries_command itt cdb D rd pdus →
  ∃ req c2 pre (pieces : bool),
    (len (p_BHS req) = BHSSize ∧ PDU_InitiatorTaskTag req = itt ∧ req_cdb req = cdb ∧
     rd = (if pieces then false else req_flag SCSICmdFlagRead req)) ∧
    for_each (λ _ p, dispatch h localAddr p) tt pdus c =
      (if pieces then completeWriteCommand h req (c_statSN c2) (c_expCmdSN c2) (c_maxCmdSN c2) cdb D
       else execute_respond h req (c_statSN c2) (c_expCmdSN c2) (c_maxCmdSN c2) D) c2 ∧
    sn_ok (c_statSN c2) (c_expCmdSN c2) (c_maxCmdSN c2) ∧
    c_device c2 = c_device c ∧ c_conn c2 = cn_append pre (c_conn c) ∧
    c_statSN c2 = u32 (c_statSN c + Z.min 2 (len pdus)) ∧ others_kept itt c c2 ∧
    ∀ out data status, answered itt out data status → answered itt (pre ++ out) data status.
Proof using.
  intros Hw Hcmd. destruct Hcmd as [req Hreq Hrd Hdata|req ps last Hreq -> HW HF Hexp HD Hlt Himm Hps Hnf Hlast Hcov].
  - assert (Hpend : req_flag SCSICmdFlagWrite req && (u32 (len (p_DataSegment req)) <? req_expectedLen req) = false).
    { destruct (req_flag SCSICmdFlagWrite req); [|done]. destruct Hdata as (_ & -> & Hle). pose proof (len_nonneg D).
      apply Z.ltb_ge. rw u32_small; lia. }
    pose proof (dispatch_command h localAddr itt cdb req c Hreq) as Hdisp. cbv zeta in Hdisp. rw Hpend in Hdisp.
    destruct Hreq as [Hb Hop Hitt Hcdb]. set (c1 := after_command req c) in *.
    exists req, c1, [], false. split; [done|]. split.
    { rw for_each_one Hdisp. unfold handleSCSICmd. rw (bind_ok _ _ c1 c1 c1) //. cbv zeta.
      destruct (req_flag SCSICmdFlagWrite req); [|by rw Hdata].
      destruct Hdata as (HF & Hseg & _). rw HF. cbn [orb negb andb]. by rw Hseg. }
    split; [split_and!; apply u32_range|]. split; [done|].
    split; [unfold cn_append; rw app_nil_r -Hw; by destruct (c_conn c) eqn:Hcc; unfold c1; cbn; rw Hcc|].
    split; [done|]. split; [by split|done].
  - pose proof (dispatch_command h localAddr itt cdb req c Hreq) as Hdisp. cbv zeta in Hdisp.
    pose proof (len_nonneg (p_DataSegment req)).
    assert (Hpend : req_flag SCSICmdFlagWrite req && (u32 (len (p_DataSegment req)) <? req_expectedLen req) = true).
    { rw HW Hexp u32_small; [lia|]. cbn. apply Z.ltb_lt. lia. }
    rw Hpend in Hdisp. destruct Hreq as [Hb Hop Hitt Hcdb].
    set (c1 := c_set_pending _ _ _) in Hdisp.
    destruct (start_transfer_run req (c_statSN c1) (c_expCmdSN c1) (c_maxCmdSN c1) D c1)
      as (b1 & pre & Hb1 & Hpre & Hstart); [done..|]. cbv zeta in Hstart. rw Hitt in Hstart.
    assert (Hhandle : handleSCSICmd h req (c_statSN c1) (c_expCmdSN c1) (c_maxCmdSN c1) c1 =
      start_transfer req (c_statSN c1) (c_expCmdSN c1) (c_maxCmdSN c1) c1).
    { unfold handleSCSICmd. rw (bind_ok _ _ c1 c1 c1) //. cbv zeta. rw HW HF. cbn [orb negb andb].
      rw HW in Hpend. cbn [andb] in Hpend. rw Hpend. by destruct (negb _). }
    set (r2t := wire _) in Hstart. set (c2 := c_set_conn _ _) in Hstart.
    destruct (dispatch_data_outs h localAddr itt D c2 ps pre b1 HD) as (b2 & Hb2 & Hpieces).
    { intros p Hp. destruct (Hps p) as [? ?]; [set_solver|]. split_and!; [done|done|by apply Hnf]. }
    { apply lookup_insert_eq. }
    { done. }
    set (c3 := c_set_reassembly _ _) in Hpieces.
    destruct (Hps last) as [Hdl Hcl]; [set_solver|].
    destruct (dispatch_data_out h localAddr itt D (pre ++ ps) b2 last c3 HD Hdl Hcl) as (b3 & Hb3 & Hfin);
      [apply lookup_insert_eq|done|].
    rw Hlast in Hfin. cbv zeta in Hfin.
    assert (HpC : c_pendingCDB c3 !! itt = Some cdb) by apply lookup_insert_eq.
    assert (HpR : c_pendingReq c3 !! itt = Some req) by apply lookup_insert_eq.
    rw HpC HpR in Hfin. set (c4 := c_set_sns _ _ _ _) in Hfin.
    assert (Hall : db_data b3 = D).
    { apply (holds_all D _ _ Hb3). intros i Hi. destruct (decide (i < length (p_DataSegment req))%nat) as [Hi1|Hi1].
      - destruct (Hpre i Hi1) as (p & Hp & Hpi). exists p. split; [|done]. set_solver.
      - destruct (Hcov i) as (p & Hp & Hpi); [lia|]. exists p. split; [|done]. set_solver. }
    rw Hall in Hfin. exists req, c4, r2t, true. split; [done|]. split.
    { cbn [for_each]. rw (bind_ok _ _ _ _ _ (eq_trans Hdisp (eq_trans Hhandle Hstart))).
      rw (for_each_app _ _ _ _ _ _ _ Hpieces) for_each_one. exact Hfin. }
    split; [split_and!; apply u32_range|]. split; [done|]. split; [done|]. split.
    { cbn [c_statSN c4 c_set_sns]. change (c_statSN c3) with (u32 (c_statSN c + 1)).
      assert (Hlen2 : Z.min 2 (len (req :: ps ++ [last])) = 2).
      { unfold len. cbn [length]. rw length_app /=. lia. }
      rw Hlen2. unfold u32. rw Zplus_mod_idemp_l. f_equal. lia. }
    split.
    { split; [done|done|done| |]; intros t Ht; cbn; rw ?lookup_delete_ne // ?lookup_insert_ne //. }
    intros out data status Hans. apply answered_r2t; [done|rw -Hitt; by apply u32_field_range|done].
Qed.

Lemma others_kept_answer itt c c' n b : others_kept itt c c' → others_kept itt c (c_set_conn n (c_set_device b c')).
Proof using. by intros []. Qed.

Lemma exchange itt cdb D rd pdus c b rsp :
  cn_writes (c_conn c) = [] → pa_MaxRecvDataSegmentLength (c_params c) < 2^24 →
  carries_command itt cdb D rd pdus →
  Execute h cdb D (c_device c) = (b, Ok rsp) → response_ok rsp → len (rsp_data rsp) < 2^32 →
  ∃ c' out,
    for_each (λ _ p, dispatch h localAddr p) tt pdus c = (c', Ok tt) ∧
    c_device c' = b ∧ c_conn c' = cn_append out (c_conn c) ∧
    answered itt out (if rd then rsp_data rsp else []) (rsp_status rsp) ∧
    c_statSN c' = u32 (c_statSN c + Z.min 2 (len pdus)) ∧ others_kept itt c c'.
Proof using.
  intros Hw Hmax Hcmd Hex Hr Hlen.
  destruct (exchange_reach itt cdb D rd pdus c Hw Hcmd)
    as (req & c2 & pre & pieces & (Hb & Hitt & Hcdb & Hrd) & Hrun & Hsn & Hdev & Hconn & Hstat & Hkept & Hans).
  assert (Hw2 : cn_writes (c_conn c2) = []) by by rw Hconn.
  assert (Hout : ∃ out, answered itt out (if rd then rsp_data rsp else []) (rsp_status rsp) ∧
    for_each (λ _ p, dispatch h localAddr p) tt pdus c = (c_set_conn (cn_append out (c_conn c2)) (c_set_device b c2), Ok tt)).
  { rw -Hdev in Hex. destruct pieces; rw Hrun Hrd -Hitt.
    - by apply completeWriteCommand_run.
    - apply execute_respond_run; [done|done|done| |by rw Hcdb|done|done]. by rw (ok_params _ _ _ Hkept). }
  destruct Hout as (out & Hout & Hrun').
  exists (c_set_conn (cn_append out (c_conn c2)) (c_set_device b c2)), (pre ++ out).
  split; [done|]. split; [done|]. split; [cbn; rw Hconn; unfold cn_append; cbn; by rw -app_assoc|].
  split; [by apply Hans|]. split; [done|by apply others_kept_answer].
Qed.

(** An execution that does not end with an answer ends the connection. *)
Lemma exchange_stops itt cdb D rd pdus c b r c' :
  cn_writes (c_conn c) = [] → carries_command itt cdb D rd pdus →
  Execute h cdb D (c_device c) = (b, Stop r) →
  for_each (λ _ p, dispatch h localAddr p) tt pdus c ≠ (c', Ok tt).
Proof using.
  intros Hw Hcmd Hex.
  destruct (exchange_reach itt cdb D rd pdus c Hw Hcmd)
    as (req & c2 & pre & pieces & (Hb & Hitt & Hcdb & Hrd) & Hrun & Hsn & Hdev & _).
  rw Hrun. rw -Hdev in Hex.
  assert (Hstop : ∀ {A} f (k : Response → M (Connection B) A) cdb', cdb' = cdb →
    ∃ c3 r', (wrap f (on_device (Execute h cdb' D)) ≫= k) c2 = (c3, Stop r')).
  { intros A f k cdb' ->. unfold mbind, M_bind, wrap, on_device, zoom. rw Hex. destruct r; by do 2 eexists. }
  destruct pieces.
  - unfold completeWriteCommand. edestruct Hstop as (c3 & r' & ->); done.
  - unfold execute_respond. edestruct Hstop as (c3 & r' & ->); done.
Qed.
End exchange.

(** C10: SCSI over iSCSI. A command is carried by one command PDU - for a write with
    the F bit and all the data, as many bytes as it announces or more - or, for a
    write, by a command PDU without the F bit whose data are less than all of them,
    followed by Data-Out PDUs with pieces of the data that together cover the rest,
    in any order, the final bit on the last and on no other; data are less than 4
    GiB. Then a connection that works executes the block with exactly the data sent,
    once, and sends what the initiator reads back as the answer of the dispatcher
    (less than 4 GiB): the data of a read, put together from Data-In PDUs, and the
    status. Other tasks, and the connection's settings, are left alone. Not covered,
    because the target does not serve them: a write whose data follow a command PDU
    with the F bit ([solicited_write_refused]), and one with all its data but no F
    bit ([complete_write_stuck]). *)
Theorem iscsi_exchange {B} `{TotalBlockDevice B} h localAddr itt cdb D rd pdus (c : Connection B) :
  cn_writes (c_conn c) = [] → pa_MaxRecvDataSegmentLength (c_params c) < 2^24 →
  carries_command itt cdb D rd pdus →
  ∃ b rsp, Execute h cdb D (c_device c) = (b, Ok rsp) ∧
  (len (rsp_data rsp) < 2^32 →
   ∃ c' out,
     for_each (λ _ p, dispatch h localAddr p) tt pdus c = (c', Ok tt) ∧
     c_device c' = b ∧ c_conn c' = cn_append out (c_conn c) ∧
     answered itt out (if rd then rsp_data rsp else []) (rsp_status rsp) ∧
     c_statSN c' = u32 (c_statSN c + Z.min 2 (len pdus)) ∧ others_kept itt c c').
Proof.
  intros Hw Hmax Hcmd. destruct (Execute h cdb D (c_device c)) as [b o] eqn:Heq.
  destruct (wp_elim _ (λ _ o, ∃ r, o = Ok r ∧ response_ok r) _ _ _ Heq (Execute_answers h cdb D (c_device c)))
    as (rsp & -> & Hr). exists b, rsp. split; [done|]. intros Hlen. by apply (exchange h localAddr itt cdb D rd).
Qed.

(** A WRITE(10) of the second sector in three pieces: 100 bytes with the command, the
    end, then the middle. *)
Definition command_pdu (itt flags expectedLen : Z) (cdb data : list byte) : PDU :=
  set_data data (bhs_put 32 cdb (bhs_put_u32 20 expectedLen (PDU_SetInitiatorTaskTag itt
    (PDU_SetFlags flags (PDU_SetOpcode OpcodeSCSICmd PDU_zero))))).
Definition pad16 (cdb : list byte) : list byte := cdb ++ make_bytes (16 - len cdb).
Definition some_sector : list byte := byte_of_Z <$> seqZ 7 512.
Definition small_write : list PDU :=
  command_pdu 9 0x20 512 (pad16 (write_cdb Form10 1 1)) (slice 0 100 some_sector)
  :: [data_out_pdu 9 0 300 false (slice 300 512 some_sector)] ++ [data_out_pdu 9 1 100 true (slice 100 300 some_sector)].
Definition ram_connection : Connection Ram := newConnection (quiet []) true DefaultTargetParams (make_bytes 1024).

Lemma small_write_carries : carries_command 9 (pad16 (write_cdb Form10 1 1)) some_sector false small_write.
Proof.
  apply carries_in_pieces; [split; reflexivity|reflexivity|reflexivity|reflexivity|reflexivity|reflexivity|reflexivity|reflexivity| | | |].
  - intros p [->%list_elem_of_singleton| ->%list_elem_of_singleton]%elem_of_app;
      (split; [split; reflexivity|split; [|reflexivity]]); apply Z.leb_le; reflexivity.
  - intros p ->%list_elem_of_singleton. reflexivity.
  - reflexivity.
  - intros i Hi. change (100 ≤ i < 512)%nat in Hi. destruct (decide (i < 300)%nat).
    + exists (data_out_pdu 9 1 100 true (slice 100 300 some_sector)). split; [right; left|]. change (100 ≤ Z.of_nat i < 300). lia.
    + exists (data_out_pdu 9 0 300 false (slice 300 512 some_sector)). split; [left|]. change (300 ≤ Z.of_nat i < 512). lia.
Qed.

Lemma iscsi_exchange_witness :
  ∃ c' out, for_each (λ _ p, dispatch ram_handler "10.0.0.1:3260" p) tt small_write ram_connection = (c', Ok tt) ∧
    c_device c' = zero_sector ++ some_sector ∧ answered 9 out [] StatusGood.
Proof.
  destruct (iscsi_exchange ram_handler "10.0.0.1:3260" 9 (pad16 (write_cdb Form10 1 1)) some_sector false small_write ram_connection)
    as (b & rsp & Hex & Hrest); [reflexivity|reflexivity|exact small_write_carries|].
  assert (Hval : Execute ram_handler (pad16 (write_cdb Form10 1 1)) some_sector (c_device ram_connection) =
    (zero_sector ++ some_sector, Ok (good []))) by (vm_compute; reflexivity).
  rw Hval in Hex. injection Hex as <- <-.
  destruct Hrest as (c' & out & Hrun & Hdev & _ & Hans & _); [reflexivity|]. exists c', out. split; [exact Hrun|]. split; [exact Hdev|exact Hans].
Defined.

(** *** Reading is determined by the bytes *)
Lemma initiator_receive_more fuel fuel' itt data n n' r :
  (fuel ≤ fuel')%nat → initiator_receive fuel itt data n = (n', Ok r) → initiator_receive fuel' itt data n = (n', Ok r).
Proof.
  revert fuel' data n. induction fuel as [|fuel IH]; intros [|fuel'] data n Hle Hrun; try done; [lia|].
  cbn [initiator_receive] in *. unfold mbind, M_bind in *. destruct (ReadPDU n) as [n1 [p|]]; [|done].
  repeat case_match; try done; by (apply IH; [lia|]).
Qed.
Lemma answered_unique itt out d1 s1 d2 s2 : answered itt out d1 s1 → answered itt out d2 s2 → d1 = d2 ∧ s1 = s2.
Proof.
  intros [f1 H1] [f2 H2]. specialize (H1 (quiet (out ++ [])) [] eq_refl). specialize (H2 (quiet (out ++ [])) [] eq_refl).
  apply (initiator_receive_more _ (f1 + f2)) in H1; [|lia]. apply (initiator_receive_more _ (f1 + f2)) in H2; [|lia].
  rw H1 in H2. by injection H2.
Qed.
