(* ===== verification/ConnectionRun.v ===== *)
(** * The read loop of a connection ends

    Every PDU but a Data-Out whose offset and length overflow is handled, with or
    without an error, and the loop ends with its input. *)

From S2P Require Import Bytes Pdu Network Params DataTransfer Scsi ScsiTheorems Connection ConnectionTheorems.

(** ** Sending and executing *)
Ltac conn_total := unfold on_conn, on_device, on_reassembly; total.

Lemma total_sendDataIn itt lun data sn exp mx m : total (sendDataIn itt lun data sn exp mx m).
Proof.
  unfold sendDataIn. set (k := if m <=? 0 then _ else m).
  assert (Hk : 0 < k) by (unfold k; destruct (Z.leb_spec m 0); unfold DefaultMaxRecvDataSegmentLength; lia).
  clearbody k. assert (Hgen : ∀ fuel offset dataSN, len data - offset < Z.of_nat fuel → 0 ≤ offset ≤ len data →
    total (sendDataIn_loop itt lun data sn exp mx k fuel offset dataSN)).
  { induction fuel as [|fuel IH]; intros offset dataSN Hf Ho; [lia|]. cbn [sendDataIn_loop]. cbv zeta.
    case_match eqn:Hc; [|total]. apply total_bind; [total|intros _]. case_match eqn:Hz; [total|].
    rw orb_false_r in Hc. apply IH; lia. }
  apply Hgen; pose proof (len_nonneg data); unfold len in *; lia.
Qed.
#[export] Hint Resolve total_sendDataIn : total.

Lemma total_nextStatSN {B} : total (nextStatSN : M (Connection B) Z).
Proof. unfold nextStatSN. total. Qed.
#[export] Hint Resolve total_nextStatSN : total.

Lemma total_Execute {B} `{TotalBlockDevice B} h cdb D : total (Execute h cdb D : M B Response).
Proof.
  intros b. destruct (Execute h cdb D b) as [b' o] eqn:Heq.
  by destruct (wp_elim _ (λ _ o, ∃ r, o = Ok r ∧ response_ok r) _ _ _ Heq (Execute_answers h cdb D b)) as (rsp & -> & _).
Qed.
#[export] Hint Resolve total_Execute : total.

(** ** Data-Out *)
Definition dout_overflows (p : PDU) : Prop := 2^32 ≤ dout_end p.

Lemma dataOutBuffer_add_ok p b :
  len (p_BHS p) = BHSSize → ¬ dout_overflows p → ∃ r, dataOutBuffer_add p b = Ok r.
Proof.
  intros Hp Hov. pose proof (dout_offset_range p Hp). pose proof (len_nonneg (p_DataSegment p)). pose proof (len_nonneg (db_data b)).
  unfold dout_overflows, dout_end in Hov. unfold dataOutBuffer_add. cbv zeta. fold (dout_offset p).
  rw (u32_small (len (p_DataSegment p))); [lia|]. rw (u32_small (dout_offset p + _)); [lia|].
  set (n := dout_offset p + len (p_DataSegment p)) in *.
  destruct (Z.ltb_spec (u32 (db_cap b)) n); [|destruct (Z.ltb_spec (u32 (len (db_data b))) n)].
  - rw (proj2 (Z.ltb_ge (len (extend_to _ _)) (dout_offset p))); [rw len_extend_to; lia|by eexists].
  - rw (proj2 (Z.ltb_ge (len (extend_to _ _)) (dout_offset p))); [rw len_extend_to; lia|by eexists].
  - assert (u32 (len (db_data b)) ≤ len (db_data b)) by (unfold u32; apply Z.mod_le; lia).
    rw (proj2 (Z.ltb_ge (len (db_data b)) (dout_offset p))); [lia|by eexists].
Qed.

Lemma total_addDataOut p : len (p_BHS p) = BHSSize → ¬ dout_overflows p → total (addDataOut p).
Proof.
  intros Hp Hov m. unfold addDataOut. M_unfold. destruct (m !! _) as [b|]; [|done].
  destruct (dataOutBuffer_add_ok p b Hp Hov) as [[b' f] ->]. by destruct f.
Qed.

(** ** One PDU *)
Section dispatch.
Context {B : Type} `{TotalBlockDevice B} (h : Handler) (localAddr : string).

Lemma total_execute_respond req sn exp mx D : total (execute_respond h req sn exp mx D : M (Connection B) unit).
Proof. unfold execute_respond, sendSCSIResponse. cbv zeta. conn_total. Qed.
Lemma total_completeWriteCommand req sn exp mx cdb D : total (completeWriteCommand h req sn exp mx cdb D : M (Connection B) unit).
Proof. unfold completeWriteCommand, sendSCSIResponse. conn_total. Qed.

Lemma fake_pdu_fits itt data : len data < 2^32 → len (p_BHS (fake_pdu itt data)) = BHSSize ∧ ¬ dout_overflows (fake_pdu itt data).
Proof using. intros Hd. split; [done|]. unfold dout_overflows, dout_end. change (dout_offset (fake_pdu itt data)) with 0. cbn. lia. Qed.

Lemma total_start_transfer req sn exp mx :
  len (p_DataSegment req) < 2^32 → total (start_transfer req sn exp mx : M (Connection B) unit).
Proof.
  intros Hd. unfold start_transfer, sendR2T. cbv zeta. conn_total.
  destruct (fake_pdu_fits (PDU_InitiatorTaskTag req) (p_DataSegment req) Hd) as [Hb Hov]. by apply total_addDataOut.
Qed.

(** Whatever comes, except an overflowing Data-Out. *)
Lemma total_dispatch pdu :
  len (p_BHS pdu) = BHSSize → len (p_DataSegment pdu) < 2^32 → ¬ (PDU_Opcode pdu = OpcodeDataOut ∧ dout_overflows pdu) →
  total (dispatch h localAddr pdu : M (Connection B) unit).
Proof.
  intros Hb Hd Hov. unfold dispatch. cbv zeta.
  apply total_bind; [total|intros _]. apply total_bind; [total|intros c].
  case_match.
  { unfold handleSCSICommand, handleSCSICmd. cbv zeta. apply total_bind; [total|intros _]. apply total_bind; [total|intros sn].
    apply total_bind; [total|intros c2].
    repeat case_match; auto using total_start_transfer, total_execute_respond. }
  case_match eqn:Hop.
  { unfold handleDataOut. apply total_bind; [apply total_attempt, total_zoom, total_addDataOut; [done|]|].
    { intros Ho. apply Hov. split; [lia|done]. }
    intros r. conn_total; apply total_completeWriteCommand. }
  unfold handleNopOut, handleTMFRequest, handleLogout, handleTextRequest, Connection_close. cbv zeta. conn_total.
Qed.
End dispatch.

(** ** The input is only read *)
Definition same_input {B} : relation (Connection B) := on c_conn (on cn_in (=)).
#[export] Instance same_input_preorder {B} : PreOrder (same_input (B := B)).
Proof. unfold same_input. apply _. Qed.

Lemma input_sendDataIn itt lun data sn exp mx m : always (on cn_in (=)) (sendDataIn itt lun data sn exp mx m).
Proof.
  unfold sendDataIn. generalize (if m <=? 0 then DefaultMaxRecvDataSegmentLength else m) as k. intros k.
  generalize (S (length data)) as fuel. intros fuel. generalize 0 at 1 as off. generalize 0 as sn'.
  induction fuel as [|fuel IH]; intros sn' off; cbn [sendDataIn_loop]; cbv zeta; always; auto.
Qed.
#[export] Hint Resolve input_sendDataIn : always.

Section input.
Context {B : Type} `{BlockDevice B} (h : Handler) (localAddr : string).
Lemma input_on_conn {A} (m : M Conn A) : always (on cn_in (=)) m → always (same_input (B := B)) (on_conn m).
Proof using. intros Hm. by apply always_zoom. Qed.
Lemma input_on_device {A} (m : M B A) : always same_input (on_device m).
Proof using. by apply (always_zoom_other (on cn_in (=))). Qed.
Lemma input_on_reassembly {A} (m : M ReassemblyMap A) : always (same_input (B := B)) (on_reassembly m).
Proof using. by apply (always_zoom_other (on cn_in (=))). Qed.
Lemma input_nextStatSN : always (same_input (B := B)) nextStatSN.
Proof using. unfold nextStatSN. always. Qed.
#[local] Hint Resolve input_on_conn input_on_device input_on_reassembly input_nextStatSN : always.

Lemma input_dispatch p : always same_input (dispatch h localAddr p).
Proof using.
  unfold dispatch, handleSCSICommand, handleSCSICmd, handleDataOut, handleTextRequest, Connection_close, start_transfer,
    execute_respond, completeWriteCommand, sendSCSIResponse, sendR2T, handleNopOut, handleTMFRequest, handleLogout.
  cbv zeta. always.
Qed.
End input.

Lemma Connection_Run_ends {B} `{TotalBlockDevice B} h localAddr fuel (c : Connection B) :
  len (cn_in (c_conn c)) / BHSSize < Z.of_nat fuel →
  (∃ c', Connection_Run h localAddr fuel c = (c', Ok tt)) ∨
  (∃ p, pdu_in (cn_in (c_conn c)) p ∧ PDU_Opcode p = OpcodeDataOut ∧ dout_overflows p).
Proof.
  revert c. induction fuel as [|fuel IH]; intros c Hfuel.
  { pose proof (Z.div_pos (len (cn_in (c_conn c))) BHSSize (len_nonneg _) ltac:(done)). lia. }
  cbn [Connection_Run]. pose proof (total_ReadPDU (c_conn c)) as Htot. pose proof (reads_ReadPDU (c_conn c)) as Hreads.
  unfold mbind at 1, M_bind at 1, attempt at 1, on_conn, zoom.
  destruct (ReadPDU (c_conn c)) as [n o] eqn:Hread. destruct o as [p|[e| |]]; [|by left; eexists|done..].
  destruct (ReadPDU (quiet (cn_in (c_conn c)))) as [nq oq] eqn:Hq. injection Hreads as Hn <-.
  assert (Hinq : cn_in nq = cn_in n) by by rw Hn.
  destruct (ReadPDU_ok _ _ _ Hread) as (Hb & Hd & Hin).
  destruct (decide (PDU_Opcode p = OpcodeDataOut ∧ ¬ dout_end p < 2^32)) as [[Ho Hov]|Hov].
  { right. exists p. split; [by eapply pdu_in_here|]. unfold dout_overflows. split; [done|lia]. }
  set (c1 := c_set_conn n c).
  pose proof (total_dispatch h localAddr p Hb Hd ltac:(unfold dout_overflows; intros [? ?]; apply Hov; split; [done|lia]) c1) as Hdt.
  pose proof (input_dispatch h localAddr p c1) as Hdi.
  unfold mbind at 1, M_bind at 1, attempt.
  destruct (dispatch h localAddr p c1) as [c2 [[]|[e| |]]]; [|by left; eexists|done..].
  assert (Hin2 : cn_in (c_conn c2) = cn_in n) by (symmetry; exact Hdi).
  destruct (IH c2) as [[c' Hrun]|(q & Hqin & Hq')].
  - rw Hin2. assert (len (cn_in n) / BHSSize ≤ (len (cn_in (c_conn c)) + -1 * BHSSize) / BHSSize)
      by (apply Z.div_le_mono; [done|unfold BHSSize in *; lia]).
    rw Z.div_add in H1; [done|]. lia.
  - left. by exists c'.
  - right. exists q. split; [|done]. eapply pdu_in_next; [exact Hq|]. by rw Hinq -Hin2.
Qed.

(** The read loop of a connection ends: whatever the peer sends and whichever
    writes fail, it stops after at most one round per 48 bytes of input.  It does
    not panic unless a Data-Out among the PDUs read has an offset and a length
    that overflow 32 bits. *)
Theorem connection_run_ends {B} `{TotalBlockDevice B} h localAddr fuel (c : Connection B) :
  len (cn_in (c_conn c)) / BHSSize < Z.of_nat fuel →
  (∃ c', Connection_Run h localAddr fuel c = (c', Ok tt)) ∨
  (∃ p, pdu_in (cn_in (c_conn c)) p ∧ PDU_Opcode p = OpcodeDataOut ∧ dout_overflows p).
Proof. apply Connection_Run_ends. Qed.

Definition nop_out : PDU := set_data (String.list_byte_of_string "ping") (PDU_SetInitiatorTaskTag 3 (PDU_SetOpcode OpcodeNopOut PDU_zero)).
Lemma connection_run_ends_witness :
  let c := newConnection (quiet (wire nop_out ++ [zero_byte])) true DefaultTargetParams (make_bytes 1024 : Ram) in
  (∃ c', Connection_Run ram_handler "10.0.0.1:3260" 2 c = (c', Ok tt)) ∨
  (∃ p, pdu_in (wire nop_out ++ [zero_byte]) p ∧ PDU_Opcode p = OpcodeDataOut ∧ dout_overflows p).
Proof. apply (connection_run_ends ram_handler "10.0.0.1:3260" 2). reflexivity. Defined.

(** ** The other requests *)

(** The headers of the answers, field by field. *)
Lemma itt_of_slice p itt : 0 ≤ itt < 2^32 → slice 16 (16 + 4) (p_BHS p) = be_put 4 itt → PDU_InitiatorTaskTag p = itt.
Proof. intros Hi Hs. unfold PDU_InitiatorTaskTag, bhs_u32. rw Hs. by apply be_get_put_small. Qed.
Lemma nop_header req sn exp mx :
  len (p_BHS req) = BHSSize → answer_header OpcodeNopIn (PDU_InitiatorTaskTag req) (nop_in_pdu req sn exp mx).
Proof.
  intros Hreq. pose proof (u32_field_range 16 req Hreq ltac:(done) ltac:(done)) as Hitt. revert Hitt.
  change (bhs_u32 16 req) with (PDU_InitiatorTaskTag req). unfold nop_in_pdu.
  generalize (PDU_InitiatorTaskTag req) as itt. intros itt Hitt. destruct req as [bhs ahs data]. cbn [p_BHS] in Hreq. unfold BHSSize, len in Hreq.
  do 48 (destruct bhs as [|? bhs]; [exfalso; simpl in Hreq; lia|]). destruct bhs; [|exfalso; simpl in Hreq; lia].
  split; [reflexivity..|]. apply itt_of_slice; [done|reflexivity].
Qed.
Lemma logout_header req sn exp mx :
  len (p_BHS req) = BHSSize → answer_header OpcodeLogoutRsp (PDU_InitiatorTaskTag req) (logout_rsp_pdu req sn exp mx).
Proof.
  intros Hreq. pose proof (u32_field_range 16 req Hreq ltac:(done) ltac:(done)) as Hitt.
  split; [reflexivity..|]. apply itt_of_slice; [exact Hitt|reflexivity].
Qed.

(** Requests that are not commands, on a connection that works, touch neither
    the device nor the transfers in progress: a NOP-Out is answered with its own
    tag and data; a logout is answered, then the connection is marked closed and
    the loop ended; a request with an unknown opcode is dropped.  Each one sent an
    answer uses one status number, and the window is that of the request. *)
Theorem other_requests {B} `{BlockDevice B} h localAddr pdu (c : Connection B) :
  len (p_BHS pdu) = BHSSize → len (p_DataSegment pdu) < 2^24 → cn_writes (c_conn c) = [] →
  let exp := u32 (PDU_CmdSN pdu + 1) in
  let mx := u32 (exp + 31) in
  let sn := u32 (c_statSN c + 1) in
  (PDU_Opcode pdu = OpcodeNopOut →
   ∃ rsp, dispatch h localAddr pdu c = (c_set_conn (cn_append (wire rsp) (c_conn c)) (c_set_sns sn exp mx c), Ok tt) ∧
     answer_header OpcodeNopIn (PDU_InitiatorTaskTag pdu) rsp ∧ p_DataSegment rsp = p_DataSegment pdu) ∧
  (PDU_Opcode pdu = OpcodeLogoutReq →
   ∃ rsp, dispatch h localAddr pdu c =
       (c_set_closed true (c_set_conn (cn_append (wire rsp) (c_conn c)) (c_set_sns sn exp mx c)), Fail (Errorf "logout requested")) ∧
     answer_header OpcodeLogoutRsp (PDU_InitiatorTaskTag pdu) rsp) ∧
  (PDU_Opcode pdu ∉ [OpcodeSCSICmd; OpcodeDataOut; OpcodeNopOut; OpcodeTMFReq; OpcodeLogoutReq; OpcodeTextReq] →
   dispatch h localAddr pdu c = (c_set_sns (c_statSN c) exp mx c, Ok tt)).
Proof.
  intros Hb Hd Hw exp mx sn. pose proof (u32_field_range 16 pdu Hb ltac:(done) ltac:(done)) as Hitt.
  change (bhs_u32 16 pdu) with (PDU_InitiatorTaskTag pdu) in Hitt. split; [|split].
  - intros Hop. exists (nop_in_pdu pdu sn exp mx). split; [|split; [by apply nop_header|done]].
    unfold dispatch. rw Hop. cbn [Z.eqb OpcodeNopOut OpcodeDataOut OpcodeSCSICmd negb when_].
    etrans; [|exact (send_run (nop_in_pdu pdu sn exp mx) (c_set_sns sn exp mx c) Hw Hd)]. done.
  - intros Hop. exists (logout_rsp_pdu pdu sn exp mx). split; [|by apply logout_header].
    unfold dispatch. rw Hop. cbn [Z.eqb OpcodeNopOut OpcodeDataOut OpcodeSCSICmd OpcodeTMFReq OpcodeLogoutReq Pos.eqb negb when_].
    pose proof (send_run (logout_rsp_pdu pdu sn exp mx) (c_set_sns sn exp mx c) Hw ltac:(done)) as Hs.
    etrans; [exact (bind_ok _ _ (c_set_sns sn exp mx c) _ _ Hs)|done].
  - intros Hno. unfold dispatch.
    assert (Hne : ∀ op, op ∈ [OpcodeSCSICmd; OpcodeDataOut; OpcodeNopOut; OpcodeTMFReq; OpcodeLogoutReq; OpcodeTextReq] →
      (PDU_Opcode pdu =? op) = false) by (intros op Hop; apply Z.eqb_neq; by intros <-).
    rw !Hne //; repeat constructor.
Qed.

Lemma other_requests_witness :
  ∃ rsp, dispatch ram_handler "10.0.0.1:3260" nop_out ram_connection =
    (c_set_conn (cn_append (wire rsp) (quiet [])) (c_set_sns 1 1 32 ram_connection), Ok tt) ∧
    p_DataSegment rsp = String.list_byte_of_string "ping".
Proof.
  destruct (other_requests ram_handler "10.0.0.1:3260" nop_out ram_connection) as [Hnop _]; [reflexivity..|].
  destruct Hnop as (rsp & Hrun & _ & Hdata); [reflexivity|]. exists rsp. split; [exact Hrun|exact Hdata].
Defined.

(** ** Requests that are answered wrongly *)

(** A write whose data the initiator waits to be asked for: the final bit on the
    command says that no Data-Out follows unasked.  It is executed without its
    data and refused; no R2T is sent, and what was kept of the task stays. *)
Lemma solicited_write_refused :
  let req := command_pdu 9 0xA0 512 (pad16 (write_cdb Form10 1 1)) [] in
  let '(c, o) := dispatch ram_handler "10.0.0.1:3260" req ram_connection in
  o = Ok tt ∧ c_device c = make_bytes 1024 ∧
  cn_out (c_conn c) = wire (scsi_rsp_pdu req (check_condition SenseMediumError) 1 1 32) ∧
  c_pendingCDB c !! 9 = Some (pad16 (write_cdb Form10 1 1)).
Proof. vm_compute. repeat split. Qed.

(** A task management request to abort a write in progress is reported complete,
    and the write is carried out all the same when its data come. *)
Definition abort_pdu (itt : Z) : PDU := PDU_SetInitiatorTaskTag itt (PDU_SetFlags 0x81 (PDU_SetOpcode OpcodeTMFReq PDU_zero)).
Lemma aborted_write_executed :
  let '(c, o) := for_each (λ _ p, dispatch ram_handler "10.0.0.1:3260" p) tt
    (take 2 small_write ++ [abort_pdu 10] ++ drop 2 small_write) ram_connection in
  o = Ok tt ∧ c_device c = zero_sector ++ some_sector ∧ tmf_response 1 = TMFResponseFunctionComplete.
Proof. vm_compute. repeat split. Qed.

(** A write whose data all came with the command, but without the final bit, is
    asked for 0 more bytes, and never executed or answered: nothing is pending. *)
Lemma complete_write_stuck :
  let req := command_pdu 9 0x20 512 (pad16 (write_cdb Form10 1 1)) some_sector in
  let '(c, o) := for_each (λ _ p, dispatch ram_handler "10.0.0.1:3260" p) tt
    [req; data_out_pdu 9 0 512 true []] ram_connection in
  o = Ok tt ∧ c_device c = make_bytes 1024 ∧ cn_out (c_conn c) = wire (r2t_pdu req 9 512 0 1 1 32).
Proof. vm_compute. repeat split. Qed.
