(* ===== verification/Session.v ===== *)
(** * [internal/iscsi/session.go], [server.go]: sessions and connections

    Sessions are shared objects: the manager's map holds pointers to them, and a
    connection keeps the pointer of its own.  A connection is served by a login,
    the creation of a session, the read loop, and the removal of the session. *)

From S2P Require Import Bytes Pdu Network Params DataTransfer Scsi ScsiTheorems Connection Login.

(** ** session.go *)
Record Session := { se_ISID : list byte; se_TSIH : Z; se_Params : Params; se_connections : list Z }.
Definition se_set_connections (l : list Z) (s : Session) : Session :=
  {| se_ISID := se_ISID s; se_TSIH := se_TSIH s; se_Params := se_Params s; se_connections := l |}.

(** Connections are identified by number. *)
Definition AddConnection (c : Z) (s : Session) : Session := se_set_connections (se_connections s ++ [c]) s.
Fixpoint remove_first (c : Z) (l : list Z) : list Z :=
  match l with [] => [] | x :: l => if x =? c then l else x :: remove_first c l end.
Definition RemoveConnection (c : Z) (s : Session) : Session := se_set_connections (remove_first c (se_connections s)) s.
Definition ConnectionCount (s : Session) : Z := len (se_connections s).

(** [sm_heap] is where sessions are; [sm_sessions] maps a TSIH to a pointer. *)
Record SessionManager := mkManager {
  sm_heap : list Session;
  sm_sessions : gmap Z nat;
  sm_maxSessions : Z;
  sm_nextTSIH : Z;
}.
Definition NewSessionManager (maxSessions : Z) : SessionManager :=
  {| sm_heap := []; sm_sessions := ∅; sm_maxSessions := maxSessions; sm_nextTSIH := 0 |}.
Definition SessionCount (m : SessionManager) : Z := Z.of_nat (size (sm_sessions m)).

(** [nextTSIH.Add(1) & 0xFFFF], once more when that is 0. *)
Definition next_counter (n : Z) : Z :=
  let n1 := u32 (n + 1) in if Z.land n1 0xFFFF =? 0 then u32 (n1 + 1) else n1.

Definition CreateSession (isid : list byte) (params : Params) : M SessionManager nat :=
  m ← gets id;
  if sm_maxSessions m <=? SessionCount m then throw (Errorf "maximum sessions (%d) reached")
  else
    let counter := next_counter (sm_nextTSIH m) in
    let tsih := Z.land counter 0xFFFF in
    let s := {| se_ISID := isid; se_TSIH := tsih; se_Params := params; se_connections := [] |} in
    let p := length (sm_heap m) in
    modify (λ m, mkManager (sm_heap m ++ [s]) (<[tsih := p]> (sm_sessions m)) (sm_maxSessions m) counter) ;;
    mret p.

Definition GetSession (tsih : Z) (m : SessionManager) : option Session :=
  match sm_sessions m !! tsih with Some p => sm_heap m !! p | None => None end.
Definition RemoveSession (tsih : Z) : M SessionManager unit :=
  modify (λ m, mkManager (sm_heap m) (delete tsih (sm_sessions m)) (sm_maxSessions m) (sm_nextTSIH m)).

(** Changing the object behind a pointer. *)
Definition update_session (p : nat) (f : Session → Session) : M SessionManager unit :=
  modify (λ m, mkManager (alter f p (sm_heap m)) (sm_sessions m) (sm_maxSessions m) (sm_nextTSIH m)).

(** ** server.go *)
Record Server (B : Type) := { sv_device : B; sv_sessions : SessionManager; sv_nextConn : Z }.
Arguments sv_device {B}.
Arguments sv_sessions {B}.
Arguments sv_nextConn {B}.
Arguments Build_Server {B}.

Section server.
Context {B : Type} `{BlockDevice B}.
Variables (h : Handler) (md5 : list byte → list byte) (order : list (string * string) → list (string * string)).
Variables (auth : AuthConfig) (IQN : string).

Definition sv_set_device (b : B) (s : Server B) : Server B := Build_Server b (sv_sessions s) (sv_nextConn s).
Definition sv_set_sessions (m : SessionManager) (s : Server B) : Server B := Build_Server (sv_device s) m (sv_nextConn s).
Definition on_sessions {A} (m : M SessionManager A) : M (Server B) A := zoom sv_sessions sv_set_sessions m.

(** The read loop, and [cleanup]: what is left of the network and the device. *)
Definition serve (fuel : nat) (localAddr : string) (conn : Conn) (params : Params) (p : nat) (statSN cmdSN : Z)
    : M (Server B) Conn := λ s,
  let c := c_set_sns statSN (u32 (cmdSN + 1)) (u32 (cmdSN + 32)) (newConnection conn true params (sv_device s)) in
  let cid := sv_nextConn s in
  let s := Build_Server (sv_device s) (update_session p (AddConnection cid) (sv_sessions s)).1 (cid + 1) in
  let '(c', o) := Connection_Run h localAddr fuel c in
  let s := sv_set_device (c_device c') s in
  let s := sv_set_sessions (update_session p (RemoveConnection cid) (sv_sessions s)).1 s in
  (s, match o with Ok _ => Ok (c_conn c') | Stop r => Stop r end).

(** The session object behind a pointer. *)
Definition session_at (p : nat) (m : SessionManager) : option Session := sm_heap m !! p.

(** [defer s.sessionManager.RemoveSession(session.TSIH)]: also when the loop panics. *)
Definition serve_session (fuel : nat) (localAddr : string) (conn : Conn) (params : Params) (p : nat) (statSN cmdSN : Z)
    : M (Server B) Conn := λ s,
  let tsih := default 0 (se_TSIH <$> session_at p (sv_sessions s)) in
  let '(s', o) := serve fuel localAddr conn params p statSN cmdSN s in
  ((on_sessions (RemoveSession tsih) s').1, o).

(** What the network is left with; errors are logged. *)
Definition handleConnection (fuel : nat) (rand_id : option byte) (rand_challenge : option (list byte))
    (localAddr : string) (conn : Conn) : M (Server B) Conn :=
  let '(l, o) := login_Run md5 rand_id rand_challenge order auth IQN fuel (newLoginHandler conn 0) in
  match o with
  | Stop (Failed _) => mret (lh_conn l)
  | Stop r => stop_with r
  | Ok (params, cmdSN) =>
      let params := set_TargetName params IQN in
      r ← attempt (on_sessions (CreateSession (lh_isid l) params));
      match r with
      | inr _ => mret (lh_conn l)
      | inl p => serve_session fuel localAddr (lh_conn l) params p (lh_statSN l) cmdSN
      end
  end.
End server.
