(* ===== verification/SessionTheorems.v ===== *)
(** * Sessions: the limit, their numbers, and the life of a connection *)

From S2P Require Import Bytes Pdu Network Params DataTransfer Scsi ScsiTheorems Connection ConnectionTheorems ConnectionRun Login LoginTheorems Session.

(** ** Session numbers *)
Lemma land_FFFF n : Z.land n 0xFFFF = n `mod` 2^16.
Proof. apply (Z.land_ones n 16). done. Qed.
Lemma next_counter_range n : 0 ≤ next_counter n < 2^32.
Proof. unfold next_counter. cbv zeta. case_match; apply u32_range. Qed.

(** After 65535 comes 1, else the successor. *)
Lemma next_tsih n :
  0 ≤ n < 2^32 →
  Z.land (next_counter n) 0xFFFF = if Z.land n 0xFFFF =? 65535 then 1 else Z.land n 0xFFFF + 1.
Proof.
  intros Hn. rw !land_FFFF. unfold next_counter. cbv zeta. rw land_FFFF.
  assert (Hu : ∀ z, u32 z `mod` 2^16 = z `mod` 2^16).
  { intros z. unfold u32. symmetry. apply Znumtheory.Zmod_div_mod; [done|done|]. by exists (2^16). }
  assert (Hsucc : ∀ z, (z + 1) `mod` 2^16 = if z `mod` 2^16 =? 65535 then 0 else z `mod` 2^16 + 1).
  { intros z. rw -Zplus_mod_idemp_l. pose proof (Z.mod_pos_bound z (2^16) ltac:(done)).
    destruct (Z.eqb_spec (z `mod` 2^16) 65535) as [->|]; [done|]. apply Z.mod_small. lia. }
  rw Hu Hsucc. pose proof (Z.mod_pos_bound n (2^16) ltac:(done)).
  destruct (Z.eqb_spec (n `mod` 2^16) 65535) as [He|He]; cbn.
  - rw Hu Hsucc Hu Hsucc He. done.
  - destruct (Z.eqb_spec (n `mod` 2^16 + 1) 0); [lia|]. rw Hu Hsucc. by destruct (Z.eqb_spec (n `mod` 2^16) 65535).
Qed.

(** Session numbers: the k-th session created (from 0) has number
    1 + (k mod 65535), so they are between 1 and 65535 and any two sessions
    created less than 65535 creations apart have different ones. *)
Theorem tsih_sequence (k : nat) :
  Z.land (Nat.iter (S k) next_counter (sm_nextTSIH (NewSessionManager 1))) 0xFFFF = 1 + Z.of_nat k `mod` 65535.
Proof.
  assert (Hr : ∀ j, 0 ≤ Nat.iter j next_counter 0 < 2^32) by (intros [|j]; [done|apply next_counter_range]).
  cbn [NewSessionManager sm_nextTSIH]. induction k as [|k IH]; [done|].
  change (Nat.iter (S (S k)) next_counter 0) with (next_counter (Nat.iter (S k) next_counter 0)).
  rw next_tsih // IH. pose proof (Z.mod_pos_bound (Z.of_nat k) 65535 ltac:(done)).
  rw Nat2Z.inj_succ /Z.succ -Zplus_mod_idemp_l.
  destruct (Z.eqb_spec (1 + Z.of_nat k `mod` 65535) 65535) as [He|He].
  - replace (Z.of_nat k `mod` 65535) with 65534 by lia. done.
  - rw (Z.mod_small (_ + 1)); lia.
Qed.

(** ** The manager *)
Record sm_ok (m : SessionManager) : Prop := {
  so_next : 0 ≤ sm_nextTSIH m < 2^32;
  so_limit : 0 ≤ sm_maxSessions m → SessionCount m ≤ sm_maxSessions m;
  so_number t p : sm_sessions m !! t = Some p → 1 ≤ t ≤ 65535;
  so_session t p : sm_sessions m !! t = Some p → ∃ s, sm_heap m !! p = Some s ∧ se_TSIH s = t;
}.

Inductive sm_step : SessionManager → SessionManager → Prop :=
| sm_create isid params m : sm_step m (CreateSession isid params m).1
| sm_remove tsih m : sm_step m (RemoveSession tsih m).1
| sm_add p c m : sm_step m (update_session p (AddConnection c) m).1
| sm_del p c m : sm_step m (update_session p (RemoveConnection c) m).1.

Lemma tsih_range n : 0 ≤ n < 2^32 → 1 ≤ Z.land (next_counter n) 0xFFFF ≤ 65535.
Proof.
  intros Hn. rw next_tsih //. rw land_FFFF. pose proof (Z.mod_pos_bound n (2^16) ltac:(done)). case_match eqn:Hc; lia.
Qed.

Lemma CreateSession_cases isid params m :
  (sm_maxSessions m ≤ SessionCount m ∧ CreateSession isid params m = (m, Fail (Errorf "maximum sessions (%d) reached"))) ∨
  (SessionCount m < sm_maxSessions m ∧
   let counter := next_counter (sm_nextTSIH m) in
   let t := Z.land counter 0xFFFF in
   CreateSession isid params m =
     (mkManager (sm_heap m ++ [{| se_ISID := isid; se_TSIH := t; se_Params := params; se_connections := [] |}])
        (<[t := length (sm_heap m)]> (sm_sessions m)) (sm_maxSessions m) counter, Ok (length (sm_heap m)))).
Proof.
  unfold CreateSession. rw (bind_ok _ _ m m m) //. destruct (Z.leb_spec (sm_maxSessions m) (SessionCount m)); [by left|by right].
Qed.

Lemma sm_ok_step_alter p f m : sm_ok m → (∀ s, se_TSIH (f s) = se_TSIH s) → sm_ok (update_session p f m).1.
Proof.
  intros [Hn Hl Hk Hs] Hf. split; cbn; [done..|]. intros t q Hq. destruct (Hs t q Hq) as (s & Hsp & Ht).
  destruct (decide (p = q)) as [<-|Hpq].
  - exists (f s). by rw list_lookup_alter_eq Hsp Hf.
  - exists s. by rw list_lookup_alter_ne.
Qed.

Lemma sm_ok_step m m' : sm_ok m → sm_step m m' → sm_ok m'.
Proof.
  intros [Hn Hl Hk Hs] Hstep. destruct Hstep as [isid params m|tsih m|p c m|p c m].
  - destruct (CreateSession_cases isid params m) as [[_ ->]|[Hlt ->]]; [by split|]. cbn [fst].
    pose proof (tsih_range (sm_nextTSIH m) Hn) as Ht. set (t := Z.land _ _) in *.
    split; cbn [sm_nextTSIH sm_maxSessions sm_sessions sm_heap].
    + apply next_counter_range.
    + intros _. unfold SessionCount in *. cbn [sm_sessions]. rw map_size_insert. destruct (sm_sessions m !! t); cbn; lia.
    + intros t' p. destruct (decide (t = t')) as [<-|]; [done|]. rw lookup_insert_ne //. apply Hk.
    + intros t' p. destruct (decide (t = t')) as [<-|].
      * rw lookup_insert_eq. intros [= <-]. rw lookup_app_r // Nat.sub_diag. by eexists.
      * rw lookup_insert_ne //. intros Hp. destruct (Hs t' p Hp) as (s & Hsp & ?). exists s. split; [by apply lookup_app_l_Some|done].
  - split; cbn; [done| | |].
    + intros Hmax. specialize (Hl Hmax). unfold SessionCount in *. cbn [sm_sessions]. 
      rw map_size_delete. destruct (sm_sessions m !! tsih); cbn; lia.
    + intros t p [_ Hp]%lookup_delete_Some. by eapply Hk.
    + intros t p [_ Hp]%lookup_delete_Some. by apply Hs.
  - apply sm_ok_step_alter; [by split|done].
  - apply sm_ok_step_alter; [by split|done].
Qed.

(** C31: the session manager: in every state reached by creating and removing
    sessions and their connections there are at most as many sessions as allowed,
    their numbers are 1 to 65535, and a number leads to the session that has it;
    a session is refused exactly when the limit is reached, and then nothing has
    changed, and otherwise found under its number, with its ISID and parameters. *)
Theorem session_manager_invariant maxSessions m isid params :
  rtc sm_step (NewSessionManager maxSessions) m →
  sm_ok m ∧
  match CreateSession isid params m with
  | (m', Ok p) => SessionCount m < sm_maxSessions m ∧
      ∃ t s, GetSession t m' = Some s ∧ se_TSIH s = t ∧ se_ISID s = isid ∧ se_Params s = params ∧
        sm_sessions m' !! t = Some p ∧ ∀ t', t' ≠ t → sm_sessions m' !! t' = sm_sessions m !! t'
  | (m', Stop r) => sm_maxSessions m ≤ SessionCount m ∧ m' = m ∧ returns (Stop r : outcome nat)
  end.
Proof.
  intros Hreach. split.
  - assert (Hinit : sm_ok (NewSessionManager maxSessions)) by (split; by unfold SessionCount; cbn).
    revert Hinit. induction Hreach as [m|m1 m2 m3 Hstep _ IH]; [done|]. intros Hm. by apply IH, (sm_ok_step m1).
  - destruct (CreateSession_cases isid params m) as [[Hle ->]|[Hlt ->]]; [done|]. cbn zeta. split; [done|].
    set (t := Z.land _ _). exists t. eexists. split.
    { unfold GetSession. cbn [sm_sessions sm_heap]. rw lookup_insert_eq lookup_app_r // Nat.sub_diag. done. }
    split_and!; [done..|apply lookup_insert_eq|]. intros t' Ht. by apply lookup_insert_ne.
Qed.

Lemma session_manager_invariant_witness :
  sm_ok (CreateSession (make_bytes 6) DefaultTargetParams (NewSessionManager 1)).1.
Proof.
  destruct (session_manager_invariant 1 (CreateSession (make_bytes 6) DefaultTargetParams (NewSessionManager 1)).1 [] DefaultTargetParams)
    as [H _]; [|exact H].
  apply rtc_once. apply sm_create.
Defined.

(** A number that comes round while its session is still there: the new session
    takes the old one's place, the limit counts them as one, and the end of the
    old connection removes the new session. *)
Definition old_session : SessionManager :=
  mkManager [{| se_ISID := make_bytes 6; se_TSIH := 1; se_Params := DefaultTargetParams; se_connections := [0] |}]
    {[1 := 0%nat]} 2 65535.
Lemma reused_number_loses_session :
  let m1 := (CreateSession (make_bytes 6) DefaultTargetParams old_session).1 in
  SessionCount m1 = 1 ∧ sm_sessions m1 !! 1 = Some 1%nat ∧ SessionCount (RemoveSession 1 m1).1 = 0.
Proof. vm_compute. repeat split. Qed.

(** ** The life of a connection *)
Section life.
Context {B : Type} `{TotalBlockDevice B}.
Variables (h : Handler) (md5 : list byte → list byte) (order : list (string * string) → list (string * string)).
Variables (auth : AuthConfig) (IQN : string).
Implicit Types s : Server B.

(** Serving leaves the map of sessions alone. *)
Lemma serve_sessions fuel la conn params p st cmd s :
  let '(s', o) := serve h fuel la conn params p st cmd s in
  sm_sessions (sv_sessions s') = sm_sessions (sv_sessions s) ∧
  sm_maxSessions (sv_sessions s') = sm_maxSessions (sv_sessions s).
Proof using.
  unfold serve. cbv zeta. by destruct (Connection_Run _ _ _ _) as [c' o].
Qed.
Lemma serve_ends fuel la conn params p st cmd s :
  len (cn_in conn) / BHSSize < Z.of_nat fuel →
  is_ok (serve h fuel la conn params p st cmd s).2 ∨
  ∃ q, pdu_in (cn_in conn) q ∧ PDU_Opcode q = OpcodeDataOut ∧ dout_overflows q.
Proof using H0.
  intros Hfuel. unfold serve. cbv zeta.
  match goal with |- context [Connection_Run h la fuel ?c] => destruct (Connection_Run_ends h la fuel c Hfuel) as [[c' Hrun]|Hov] end;
    [rw Hrun; by left|by right].
Qed.

Lemma handleConnection_life fuel rid rch la conn s :
  len (cn_in conn) / BHSSize < Z.of_nat fuel →
  let '(s', o) := handleConnection h md5 order auth IQN fuel rid rch la conn s in
  (is_ok o ∨ ∃ rest q, rest `suffix_of` cn_in conn ∧ pdu_in rest q ∧ PDU_Opcode q = OpcodeDataOut ∧ dout_overflows q) ∧
  sm_maxSessions (sv_sessions s') = sm_maxSessions (sv_sessions s) ∧
  (sm_sessions (sv_sessions s) !! Z.land (next_counter (sm_nextTSIH (sv_sessions s))) 0xFFFF = None →
   sm_sessions (sv_sessions s') = sm_sessions (sv_sessions s)).
Proof using H0.
  intros Hfuel. unfold handleConnection.
  pose proof (login_Run_ends md5 rid rch order auth IQN fuel (newLoginHandler conn 0) Hfuel) as Hret.
  pose proof (login_Run_input md5 rid rch order auth IQN fuel (newLoginHandler conn 0)) as Hsuf.
  destruct (login_Run md5 rid rch order auth IQN fuel (newLoginHandler conn 0)) as [l [[params cmd]|[e| |]]];
    [|by split; [left|]|done..]. clear Hret. cbn [fst] in Hsuf. change (cn_in (lh_conn (newLoginHandler conn 0))) with (cn_in conn) in Hsuf.
  set (prm := set_TargetName params IQN).
  assert (Hcreate : attempt (on_sessions (CreateSession (lh_isid l) prm)) s =
    match CreateSession (lh_isid l) prm (sv_sessions s) with
    | (m', Ok p) => (sv_set_sessions m' s, Ok (inl p))
    | (m', Fail e) => (sv_set_sessions m' s, Ok (inr e))
    | (m', Stop r) => (sv_set_sessions m' s, Stop r)
    end).
  { unfold attempt, on_sessions, zoom. by destruct (CreateSession _ _ _) as [m' [p|[e| |]]]. }
  destruct (CreateSession_cases (lh_isid l) prm (sv_sessions s)) as [[_ Hc]|[_ Hc]]; rw Hc in Hcreate;
    rw (bind_ok _ _ _ _ _ Hcreate).
  { split; [by left|done]. }
  set (t := Z.land (next_counter _) _) in *. set (m1 := mkManager _ _ _ _) in *. set (p := length _) in *.
  set (s1 := sv_set_sessions m1 s). unfold serve_session.
  assert (Ht : default 0 (se_TSIH <$> session_at p (sv_sessions s1)) = t).
  { unfold session_at. cbn [sv_sessions s1 sv_set_sessions m1 sm_heap]. unfold p. by rw lookup_app_r // Nat.sub_diag. }
  rw Ht. pose proof (serve_sessions fuel la (lh_conn l) prm p (lh_statSN l) cmd s1) as Hsess.
  pose proof (serve_ends fuel la (lh_conn l) prm p (lh_statSN l) cmd s1) as Hend.
  destruct (serve h fuel la (lh_conn l) prm p (lh_statSN l) cmd s1) as [s2 o]. destruct Hsess as [Hsess Hmax]. cbn [snd] in Hend.
  split; [|split].
  - destruct Hend as [Ho|(q & Hq & Hrest)]; [|by left|right; by exists (cn_in (lh_conn l)), q].
    apply suffix_length in Hsuf. eapply Z.le_lt_trans; [|exact Hfuel]. apply Z.div_le_mono; [done|unfold len; lia].
  - exact Hmax.
  - intros Hfree. change (sm_sessions (sv_sessions (on_sessions (RemoveSession t) s2).1)) with (delete t (sm_sessions (sv_sessions s2))).
    rw Hsess. change (sm_sessions (sv_sessions s1)) with (<[t := p]> (sm_sessions (sv_sessions s))). rw delete_insert_eq. by apply delete_id.
Qed.
End life.

(** C14: the server survives its connections: over a device whose operations
    return, a connection is served to its end - login, session, commands - without
    a panic, whatever the peer sends, unless a Data-Out among the PDUs overflows;
    and its session is gone at the end: the map of sessions is what it was, if the
    number the session got was not in use. *)
Theorem connection_life {B} `{TotalBlockDevice B} h md5 order auth IQN fuel rid rch la conn (s : Server B) :
  len (cn_in conn) / BHSSize < Z.of_nat fuel →
  let '(s', o) := handleConnection h md5 order auth IQN fuel rid rch la conn s in
  (is_ok o ∨ ∃ rest q, rest `suffix_of` cn_in conn ∧ pdu_in rest q ∧ PDU_Opcode q = OpcodeDataOut ∧ dout_overflows q) ∧
  sm_maxSessions (sv_sessions s') = sm_maxSessions (sv_sessions s) ∧
  (sm_sessions (sv_sessions s) !! Z.land (next_counter (sm_nextTSIH (sv_sessions s))) 0xFFFF = None →
   sm_sessions (sv_sessions s') = sm_sessions (sv_sessions s)).
Proof. apply handleConnection_life. Qed.

(** A login and a NOP-Out. *)
Definition small_server : Server Ram := Build_Server (make_bytes 1024) (NewSessionManager 4) 0.
Definition small_input : list byte := ([login_p1; login_p3; nop_out] ≫= wire).
Lemma connection_life_witness :
  let '(s', o) := handleConnection ram_handler sum_digest (λ l, l) no_auth "iqn.t" 8 None None "10.0.0.1:3260" (quiet small_input) small_server in
  is_ok o = true ∧ sm_sessions (sv_sessions s') = ∅.
Proof.
  pose proof (connection_life ram_handler sum_digest (λ l, l) no_auth "iqn.t" 8 None None "10.0.0.1:3260" (quiet small_input) small_server) as Hlife.
  assert (Hlen : len (cn_in (quiet small_input)) / BHSSize < Z.of_nat 8) by (vm_compute; reflexivity). specialize (Hlife Hlen).
  assert (Hok : is_ok (handleConnection ram_handler sum_digest (λ l, l) no_auth "iqn.t" 8 None None "10.0.0.1:3260" (quiet small_input) small_server).2 = true)
    by (vm_compute; reflexivity).
  revert Hlife Hok. destruct (handleConnection _ _ _ _ _ _ _ _ _ _ small_server) as [s' o]. intros (_ & _ & Hsess) Hok.
  split; [exact Hok|]. apply Hsess. reflexivity.
Defined.
