(* ===== verification/Listener.v ===== *)
(** * [internal/iscsi/server.go]: the listener and its connections

    [Listen] accepts connections and starts a goroutine for each; [Shutdown]
    closes the listener and waits for them.  A goroutine runs
    [handleConnection], here cut into the steps between which others may run:
    the login, which touches nothing shared; each operation on the session
    manager, under its lock; and a turn of the read loop, a command on the device
    included.  The steps of all goroutines come in any order. *)

From S2P Require Import Bytes Pdu Network Params DataTransfer Scsi Connection Login Session.
Local Open Scope string_scope.
Local Open Scope list_scope.
Local Open Scope Z_scope.

Section run_once.
Context {B : Type} `{BlockDevice B} (h : Handler) (localAddr : string).

(** A turn of the loop of [Connection.Run]: whether there is another one. *)
Definition run_once : M (Connection B) bool :=
  r ← attempt (on_conn ReadPDU);
  match r with
  | inr _ => mret false
  | inl pdu =>
      r ← attempt (dispatch h localAddr pdu);
      match r with inr _ => mret false | inl _ => mret true end
  end.
End run_once.

(** ** One goroutine

    Where it is in [handleConnection].  The device of a connection is the shared
    one, put in when a turn begins. *)
Inductive task (B : Type) :=
| TkLogin (localAddr : string) (conn : Conn)
| TkCreate (localAddr : string) (l : loginHandler) (params : Params) (cmdSN : Z)
| TkAttach (localAddr : string) (l : loginHandler) (params : Params) (cmdSN : Z) (tsih : Z) (p : nat)
| TkServe (localAddr : string) (tsih : Z) (p : nat) (cid : Z) (c : Connection B)
| TkCleanup (tsih : Z) (p : nat) (cid : Z) (conn : Conn)
| TkRemove (tsih : Z) (p : nat) (conn : Conn)
| TkDone (conn : Conn).
Arguments TkLogin {B}. Arguments TkCreate {B}. Arguments TkAttach {B}. Arguments TkServe {B}.
Arguments TkCleanup {B}. Arguments TkRemove {B}. Arguments TkDone {B}.

Definition task_done {B} (t : task B) : bool := match t with TkDone _ => true | _ => false end.

(** Its session, between creation and removal: the number and the pointer. *)
Definition task_session {B} (t : task B) : option (Z * nat) :=
  match t with
  | TkAttach _ _ _ _ tsih p | TkServe _ tsih p _ _ | TkCleanup tsih p _ _ | TkRemove tsih p _ => Some (tsih, p)
  | _ => None
  end.
(** The connections its session then has. *)
Definition task_connections {B} (t : task B) : list Z :=
  match t with TkServe _ _ _ cid _ | TkCleanup _ _ cid _ => [cid] | _ => [] end.

Section task.
Context {B : Type} `{BlockDevice B}.
Variables (h : Handler) (md5 : list byte → list byte) (order : list (string * string) → list (string * string)).
Variables (auth : AuthConfig) (IQN : string).

(** [fuel] bounds the PDUs of a login; [rand_id] and [rand_challenge] are what its
    source of randomness returns. *)
Definition task_next (fuel : nat) (rand_id : option byte) (rand_challenge : option (list byte)) (t : task B)
    : M (Server B) (task B) :=
  match t with
  | TkLogin la conn =>
      let '(l, o) := login_Run md5 rand_id rand_challenge order auth IQN fuel (newLoginHandler conn 0) in
      match o with
      | Stop (Failed _) => mret (TkDone (lh_conn l))
      | Stop r => stop_with r
      | Ok (params, cmdSN) => mret (TkCreate la l (set_TargetName params IQN) cmdSN)
      end
  | TkCreate la l params cmdSN =>
      r ← attempt (on_sessions (CreateSession (lh_isid l) params));
      match r with
      | inr _ => mret (TkDone (lh_conn l))
      | inl p =>
          s ← gets id;
          mret (TkAttach la l params cmdSN (default 0 (se_TSIH <$> session_at p (sv_sessions s))) p)
      end
  | TkAttach la l params cmdSN tsih p =>
      s ← gets id;
      let cid := sv_nextConn s in
      let c := c_set_sns (lh_statSN l) (u32 (cmdSN + 1)) (u32 (cmdSN + 32))
        (newConnection (lh_conn l) true params (sv_device s)) in
      modify (λ s, Build_Server (sv_device s) (sv_sessions s) (cid + 1)) ;;
      on_sessions (update_session p (AddConnection cid)) ;;
      mret (TkServe la tsih p cid c)
  | TkServe la tsih p cid c => λ s,
      let '(c, o) := run_once h la (c_set_device (sv_device s) c) in
      (sv_set_device (c_device c) s,
       match o with
       | Ok true => Ok (TkServe la tsih p cid c)
       | Ok false => Ok (TkCleanup tsih p cid (c_conn c))
       | Stop r => Stop r
       end)
  | TkCleanup tsih p cid conn =>
      on_sessions (update_session p (RemoveConnection cid)) ;; mret (TkRemove tsih p conn)
  | TkRemove tsih p conn => on_sessions (RemoveSession tsih) ;; mret (TkDone conn)
  | TkDone conn => mret (TkDone conn)
  end.

Definition task_step (x y : Server B * task B) : Prop :=
  ∃ fuel rand_id rand_challenge, task_next fuel rand_id rand_challenge x.2 x.1 = (y.1, Ok y.2).
End task.

(** ** The server *)

(** Where [Listen] is: before it has its listener, in [Accept], between [Accept]
    and [wg.Add], returned. *)
Inductive listening :=
| LsStart
| LsAccept
| LsAccepted (localAddr : string) (conn : Conn)
| LsReturned (err : option error).
(** Where [Shutdown] is. *)
Inductive shutting := ShIdle | ShWaiting | ShReturned (err : option error).
#[export] Instance shutting_eq_dec : EqDecision shutting.
Proof. solve_decision. Defined.

Definition context_DeadlineExceeded : error := ErrorNew "context.DeadlineExceeded".

Record System (B : Type) := mkSystem {
  sy_server : Server B;
  sy_tasks : list (task B);           (* [wg] counts those that are not done *)
  sy_listen : listening;
  sy_listener : option bool;          (* [s.listener], once set, and whether it is closed *)
  sy_cancelled : bool;                (* the context of [Listen] *)
  sy_stopped : bool;
  sy_shutdown : shutting;
}.
Arguments mkSystem {B}. Arguments sy_server {B}. Arguments sy_tasks {B}. Arguments sy_listen {B}.
Arguments sy_listener {B}. Arguments sy_cancelled {B}. Arguments sy_stopped {B}. Arguments sy_shutdown {B}.

Definition NewSystem {B} (s : Server B) : System B :=
  mkSystem s [] LsStart None false false ShIdle.

Section system.
Context {B : Type} `{BlockDevice B}.
Variables (h : Handler) (md5 : list byte → list byte) (order : list (string * string) → list (string * string)).
Variables (auth : AuthConfig) (IQN : string).

(** A panic of a goroutine ends the program: there is no step after it. *)
Inductive system_step : System B → System B → Prop :=
| st_listen s ts ctx stop sh :
    system_step (mkSystem s ts LsStart None ctx stop sh) (mkSystem s ts LsAccept (Some false) ctx stop sh)
| st_listen_fails e s ts ln ctx stop sh :
    system_step (mkSystem s ts LsStart ln ctx stop sh)
      (mkSystem s ts (LsReturned (Some (Wrapf "listening on %s: %w" e))) ln ctx stop sh)
| st_accept la conn s ts ctx stop sh :
    system_step (mkSystem s ts LsAccept (Some false) ctx stop sh)
      (mkSystem s ts (LsAccepted la conn) (Some false) ctx stop sh)
| st_accept_fails e s ts ln ctx stop sh :
    system_step (mkSystem s ts LsAccept ln ctx stop sh)
      (mkSystem s ts (LsReturned (if stop then None else Some (Wrapf "accepting connection: %w" e))) ln ctx stop sh)
| st_spawn la conn s ts ln ctx stop sh :
    system_step (mkSystem s ts (LsAccepted la conn) ln ctx stop sh)
      (mkSystem s (ts ++ [TkLogin la conn]) LsAccept ln ctx stop sh)
| st_cancel s ts ls ln ctx stop sh :
    system_step (mkSystem s ts ls ln ctx stop sh) (mkSystem s ts ls ln true stop sh)
| st_context_done closed s ts ls stop sh :
    system_step (mkSystem s ts ls (Some closed) true stop sh) (mkSystem s ts ls (Some true) true stop sh)
| st_shutdown s ts ls ln ctx stop :
    system_step (mkSystem s ts ls ln ctx stop ShIdle) (mkSystem s ts ls ((λ _, true) <$> ln) ctx true ShWaiting)
| st_drained s ts ls ln ctx stop :
    forallb task_done ts = true →
    system_step (mkSystem s ts ls ln ctx stop ShWaiting) (mkSystem s ts ls ln ctx stop (ShReturned None))
| st_timeout s ts ls ln ctx stop :
    system_step (mkSystem s ts ls ln ctx stop ShWaiting)
      (mkSystem s ts ls ln ctx stop (ShReturned (Some context_DeadlineExceeded)))
| st_task i t t' s s' ts ls ln ctx stop sh :
    ts !! i = Some t → task_step h md5 order auth IQN (s, t) (s', t') →
    system_step (mkSystem s ts ls ln ctx stop sh) (mkSystem s' (<[i := t']> ts) ls ln ctx stop sh).
End system.
