(* ===== verification/ListenerTheorems.v ===== *)
(** * What the listener promises

    Sessions and goroutines go together, whatever the interleaving; a connection
    nobody interferes with is served as [handleConnection] says; and what
    [Shutdown] leaves behind. *)

From S2P Require Import Bytes Pdu Network Params DataTransfer Scsi ScsiTheorems Connection ConnectionTheorems Login LoginTheorems Session SessionTheorems Listener.

Section tasks.
Context {B : Type} `{BlockDevice B}.
Variables (h : Handler) (md5 : list byte → list byte) (order : list (string * string) → list (string * string)).
Variables (auth : AuthConfig) (IQN : string).
Implicit Types t : task B.
#[local] Abbreviation task_step := (task_step h md5 order auth IQN).
#[local] Abbreviation system_step := (system_step h md5 order auth IQN).

(** ** What a step of a goroutine does to the sessions *)
Inductive session_effect : SessionManager → task B → SessionManager → task B → Prop :=
| se_none m t t' :
    task_session t' = task_session t → task_connections t' = task_connections t → session_effect m t m t'
| se_create isid params m t t' :
    task_session t = None → SessionCount m < sm_maxSessions m →
    let n := Z.land (next_counter (sm_nextTSIH m)) 0xFFFF in
    task_session t' = Some (n, length (sm_heap m)) → task_connections t' = [] →
    session_effect m t (CreateSession isid params m).1 t'
| se_attach p n cid m t t' :
    task_session t = Some (n, p) → task_session t' = Some (n, p) →
    task_connections t = [] → task_connections t' = [cid] →
    session_effect m t (update_session p (AddConnection cid) m).1 t'
| se_cleanup p n cid m t t' :
    task_session t = Some (n, p) → task_session t' = Some (n, p) →
    task_connections t = [cid] → task_connections t' = [] →
    session_effect m t (update_session p (RemoveConnection cid) m).1 t'
| se_remove p n m t t' :
    task_session t = Some (n, p) → task_session t' = None → task_connections t' = [] →
    session_effect m t (RemoveSession n m).1 t'.

Lemma task_step_effect s t s' t' :
  task_step (s, t) (s', t') → session_effect (sv_sessions s) t (sv_sessions s') t'.
Proof using.
  intros (fuel & rid & rch & Hstep). cbn [fst snd] in Hstep.
  destruct t as [la conn|la l params cmd|la l params cmd n p|la n p cid c|n p cid conn|n p conn|conn]; cbn [task_next] in Hstep.
  - destruct (login_Run _ _ _ _ _ _ _ _) as [l [[params cmd]|[e| |]]]; try done; injection Hstep as <- <-; by apply se_none.
  - unfold mbind, M_bind, attempt, on_sessions, zoom in Hstep.
    destruct (CreateSession_cases (lh_isid l) params (sv_sessions s)) as [[_ Hc]|[Hlt Hc]]; rw Hc in Hstep.
    + injection Hstep as <- <-. by apply se_none.
    + injection Hstep as <- <-. cbn [sv_sessions sv_set_sessions]. pose proof (f_equal fst Hc) as Hc1. cbn [fst] in Hc1.
      rw -Hc1. apply se_create; [done|done| |done]. cbn [task_session]. unfold session_at. rw Hc1. cbn [sm_heap].
      by rw lookup_app_r // Nat.sub_diag.
  - injection Hstep as <- <-. by apply (se_attach p n (sv_nextConn s)).
  - destruct (run_once h la _) as [c' [[]|]]; try done; injection Hstep as <- <-; by apply se_none.
  - injection Hstep as <- <-. by apply (se_cleanup p n cid).
  - injection Hstep as <- <-. by apply (se_remove p n).
  - injection Hstep as <- <-. by apply se_none.
Qed.

(** ** The invariant *)
Record tasks_ok (m : SessionManager) (ts : list (task B)) : Prop := {
  to_manager : sm_ok m;
  to_owned n p : sm_sessions m !! n = Some p → ∃ i t, ts !! i = Some t ∧ task_session t = Some (n, p);
  to_object i t n p : ts !! i = Some t → task_session t = Some (n, p) →
    ∃ s, sm_heap m !! p = Some s ∧ se_TSIH s = n ∧ se_connections s = task_connections t;
  to_distinct i j t t' n n' p : ts !! i = Some t → ts !! j = Some t' →
    task_session t = Some (n, p) → task_session t' = Some (n', p) → i = j;
  to_numbers : len (sm_heap m) ≤ 65535 →
    sm_nextTSIH m = len (sm_heap m) ∧ (∀ p s, sm_heap m !! p = Some s → se_TSIH s = Z.of_nat p + 1) ∧
    ∀ i t n p, ts !! i = Some t → task_session t = Some (n, p) → sm_sessions m !! n = Some p;
}.

Lemma next_counter_succ n : 0 ≤ n < 65535 → next_counter n = n + 1 ∧ Z.land (n + 1) 0xFFFF = n + 1.
Proof using.
  intros Hn. unfold next_counter. cbv zeta. rw (u32_small (n + 1)); [lia|]. rw !land_FFFF.
  rw (Z.mod_small (n + 1)); [lia|]. split; [|done]. by destruct (Z.eqb_spec (n + 1) 0); [lia|].
Qed.

(** A goroutine whose session stays what it is. *)
Lemma insert_session (ts : list (task B)) i t t' j tj n p :
  ts !! i = Some t → task_session t' = task_session t →
  <[i := t']> ts !! j = Some tj → task_session tj = Some (n, p) →
  ∃ tj', ts !! j = Some tj' ∧ task_session tj' = Some (n, p) ∧ (j ≠ i → tj' = tj) ∧ (j = i → tj = t' ∧ tj' = t).
Proof using.
  intros Hi Hs Hj Hn. destruct (decide (j = i)) as [->|Hne].
  - rw list_lookup_insert_eq in Hj; [by apply lookup_lt_Some in Hi|]. injection Hj as <-. exists t. split_and!; try done. by rw -Hs.
  - rw list_lookup_insert_ne // in Hj. by exists tj.
Qed.

(** Steps that change at most the connections of the goroutine's own session. *)
Lemma tasks_ok_update m ts i t t' p f :
  tasks_ok m ts → ts !! i = Some t → task_session t' = task_session t →
  (∀ s, se_TSIH (f s) = se_TSIH s) →
  (∀ n q, task_session t = Some (n, q) → q = p ∧ ∀ s, se_connections s = task_connections t → se_connections (f s) = task_connections t') →
  (task_session t = None → length (sm_heap m) ≤ p)%nat →
  tasks_ok (update_session p f m).1 (<[i := t']> ts).
Proof using.
  intros [Hm Howned Hobj Hdist Hnum] Hi Hs Hf Hp Hnone.
  assert (Hback : ∀ q s', sm_heap (update_session p f m).1 !! q = Some s' →
    ∃ s, sm_heap m !! q = Some s ∧ s' = (if decide (p = q) then f s else s)).
  { intros q s'. cbn. destruct (decide (p = q)) as [<-|Hq].
    - rw list_lookup_alter_eq. intros (s & Hsq & ->)%fmap_Some. eauto.
    - rw list_lookup_alter_ne //. eauto. }
  split.
  - eapply sm_ok_step_alter; [exact Hm|exact Hf].
  - intros n q Hq. destruct (Howned n q Hq) as (j & tj & Hj & Htj).
    destruct (decide (j = i)) as [->|Hne].
    + rw Hi in Hj. injection Hj as <-. exists i, t'. rw list_lookup_insert_eq; [by apply lookup_lt_Some in Hi|]. by rw Hs.
    + exists j, tj. by rw list_lookup_insert_ne.
  - intros j tj n q Hj Htj. destruct (insert_session ts i t t' j tj n q Hi Hs Hj Htj) as (tj0 & Hj0 & Htj0 & Hne & Heq).
    destruct (Hobj j tj0 n q Hj0 Htj0) as (s & Hsq & Hn & Hc). cbn. destruct (decide (j = i)) as [->|Hji].
    + destruct (Heq eq_refl) as [-> ->]. destruct (Hp n q Htj0) as [-> Hfc]. exists (f s). rw list_lookup_alter_eq Hsq.
      split_and!; [done|by rw Hf|by apply Hfc].
    + rw (Hne Hji) in Hc. destruct (decide (p = q)) as [<-|Hpq].
      2: { exists s. by rw list_lookup_alter_ne // -(Hne Hji). }
      exfalso. destruct (task_session t) as [[n' p']|] eqn:Ht.
      * destruct (Hp n' p' eq_refl) as [-> _]. apply Hji. by apply (Hdist j i tj0 t n n' p).
      * specialize (Hnone eq_refl). apply lookup_lt_Some in Hsq. lia.
  - intros j j' tj tj' n n' q Hj Hj' Hn Hn'.
    destruct (insert_session ts i t t' j tj n q Hi Hs Hj Hn) as (a & Ha & Hna & _).
    destruct (insert_session ts i t t' j' tj' n' q Hi Hs Hj' Hn') as (b & Hb & Hnb & _). by apply (Hdist j j' a b n n' q).
  - cbn. unfold len. rw length_alter. intros Hlen. destruct (Hnum Hlen) as (Hnext & Hids & Hreg). split_and!; [done| |].
    + intros q s' Hq. destruct (Hback q s' Hq) as (s & Hsq & ->). rw -(Hids q s Hsq). by case_decide; rw ?Hf.
    + intros j tj n q Hj Hn. destruct (insert_session ts i t t' j tj n q Hi Hs Hj Hn) as (a & Ha & Hna & _). by apply (Hreg j a).
Qed.

Lemma tasks_ok_create m ts i t t' isid params :
  tasks_ok m ts → ts !! i = Some t → task_session t = None → SessionCount m < sm_maxSessions m →
  task_session t' = Some (Z.land (next_counter (sm_nextTSIH m)) 0xFFFF, length (sm_heap m)) →
  task_connections t' = [] →
  tasks_ok (CreateSession isid params m).1 (<[i := t']> ts).
Proof using.
  intros Hok Hi Ht Hlt Ht' Hc'. pose proof (sm_ok_step _ _ (to_manager _ _ Hok) (sm_create isid params m)) as Hm1.
  destruct Hok as [Hm Howned Hobj Hdist Hnum]. pose proof (lookup_lt_Some _ _ _ Hi) as Hil.
  destruct (CreateSession_cases isid params m) as [[Hge _]|[_ Hc]]; [lia|]. rw Hc in Hm1 |- *. cbn [fst] in *. clear Hc.
  set (n0 := Z.land _ _) in *. set (se := Build_Session _ _ _ _) in *.
  assert (Hold : ∀ j tj n q, <[i := t']> ts !! j = Some tj → task_session tj = Some (n, q) →
    (j = i ∧ tj = t' ∧ n = n0 ∧ q = length (sm_heap m)) ∨ (j ≠ i ∧ ts !! j = Some tj ∧ (q < length (sm_heap m))%nat)).
  { intros j tj n q Hj Hn. destruct (decide (j = i)) as [->|Hne].
    - left. rw list_lookup_insert_eq // in Hj. injection Hj as <-. rw Ht' in Hn. by injection Hn as <- <-.
    - right. rw list_lookup_insert_ne // in Hj. split_and!; [done|done|].
      destruct (Hobj j tj n q Hj Hn) as (s & Hs & _). by apply lookup_lt_Some in Hs. }
  split; [done| | | |]; cbn [sm_sessions sm_heap sm_nextTSIH].
  - intros n q. destruct (decide (n = n0)) as [->|Hne].
    + rw lookup_insert_eq. intros [= <-]. exists i, t'. by rw list_lookup_insert_eq.
    + rw lookup_insert_ne //. intros Hq. destruct (Howned n q Hq) as (j & tj & Hj & Htj).
      exists j, tj. rw list_lookup_insert_ne; [|done]. intros ->. rw Hi in Hj. injection Hj as <-. by rw Ht in Htj.
  - intros j tj n q Hj Hn. destruct (Hold j tj n q Hj Hn) as [(-> & -> & -> & ->)|(Hne & Hj' & Hq)].
    + exists se. rw lookup_app_r // Nat.sub_diag. by rw Hc'.
    + destruct (Hobj j tj n q Hj' Hn) as (s & Hs & Hrest). exists s. by rw lookup_app_l.
  - intros j j' tj tj' n n' q Hj Hj' Hn Hn'.
    destruct (Hold j tj n q Hj Hn) as [(-> & -> & -> & ->)|(Hne & Hj0 & Hq)],
      (Hold j' tj' n' _ Hj' Hn') as [(-> & -> & -> & Hq')|(Hne' & Hj0' & Hq')]; try done; try lia.
    by apply (Hdist j j' tj tj' n n' q).
  - rw len_app. change (len [se]) with 1. intros Hlen. destruct Hnum as (Hnext & Hids & Hreg); [lia|].
    pose proof (len_nonneg (sm_heap m)). destruct (next_counter_succ (sm_nextTSIH m)) as [Hnc Hland]; [lia|].
    assert (Hn0 : n0 = len (sm_heap m) + 1) by (unfold n0; rw Hnc Hland; lia). split_and!; [lia| |].
    + intros q s Hq. destruct (decide (q < length (sm_heap m))%nat).
      * rw lookup_app_l // in Hq. by apply Hids.
      * rw lookup_app_r in Hq; [lia|]. destruct (q - length (sm_heap m))%nat eqn:Hsub; [|done]. injection Hq as <-.
        cbn. unfold len in Hn0. lia.
    + intros j tj n q Hj Hn. destruct (Hold j tj n q Hj Hn) as [(-> & -> & -> & ->)|(Hne & Hj0 & Hq)]; [apply lookup_insert_eq|].
      destruct (Hobj j tj n q Hj0 Hn) as (s & Hs & Hsn & _). rw lookup_insert_ne; [|by apply (Hreg j tj)].
      rw -Hsn (Hids q s Hs) Hn0. unfold len. lia.
Qed.

Lemma tasks_ok_remove m ts i t t' n0 p0 :
  tasks_ok m ts → ts !! i = Some t → task_session t = Some (n0, p0) → task_session t' = None →
  tasks_ok (RemoveSession n0 m).1 (<[i := t']> ts).
Proof using.
  intros Hok Hi Ht Ht'. pose proof (sm_ok_step _ _ (to_manager _ _ Hok) (sm_remove n0 m)) as Hm1.
  destruct Hok as [Hm Howned Hobj Hdist Hnum]. pose proof (lookup_lt_Some _ _ _ Hi) as Hil.
  assert (Hold : ∀ j tj n q, <[i := t']> ts !! j = Some tj → task_session tj = Some (n, q) → j ≠ i ∧ ts !! j = Some tj).
  { intros j tj n q Hj Hn. destruct (decide (j = i)) as [->|Hne].
    - rw list_lookup_insert_eq // in Hj. injection Hj as <-. by rw Ht' in Hn.
    - by rw list_lookup_insert_ne // in Hj. }
  split; [done| | | |]; cbn [RemoveSession modify fst sm_sessions sm_heap sm_nextTSIH].
  - intros n q [Hn Hq]%lookup_delete_Some. destruct (Howned n q Hq) as (j & tj & Hj & Htj).
    exists j, tj. rw list_lookup_insert_ne; [|done]. intros ->. rw Hi in Hj. injection Hj as <-. rw Ht in Htj. by injection Htj.
  - intros j tj n q Hj Hn. destruct (Hold j tj n q Hj Hn) as [_ Hj']. by apply (Hobj j).
  - intros j j' tj tj' n n' q Hj Hj' Hn Hn'. destruct (Hold j tj n q Hj Hn) as [_ Ha], (Hold j' tj' n' q Hj' Hn') as [_ Hb].
    by apply (Hdist j j' tj tj' n n' q).
  - intros Hlen. destruct (Hnum Hlen) as (Hnext & Hids & Hreg). split_and!; [done|done|].
    intros j tj n q Hj Hn. destruct (Hold j tj n q Hj Hn) as [Hne Hj']. rw lookup_delete_ne; [|by apply (Hreg j tj)].
    intros <-. apply Hne. destruct (Hobj j tj n0 q Hj' Hn) as (s & Hs & Hsn & _), (Hobj i t n0 p0 Hi Ht) as (s' & Hs' & Hsn' & _).
    rw (Hids q s Hs) in Hsn. rw (Hids p0 s' Hs') in Hsn'. assert (q = p0) as -> by lia. by apply (Hdist j i tj t n0 n0 p0).
Qed.

Lemma alter_id_same {A} i (l : list A) : alter id i l = l.
Proof using. apply list_eq. intros j. destruct (decide (i = j)) as [<-|]; [rw list_lookup_alter_eq; by destruct (l !! i)|by rw list_lookup_alter_ne]. Qed.

Lemma tasks_ok_effect m ts i t t' m' :
  tasks_ok m ts → ts !! i = Some t → session_effect m t m' t' → tasks_ok m' (<[i := t']> ts).
Proof using.
  intros Hok Hi Heff.
  destruct Heff as [m t t' Hs Hc|isid params m t t' Hn Hlt n Ht' Hc'|p n cid m t t' Hn Hn' Hc Hc'|p n cid m t t' Hn Hn' Hc Hc'|p n m t t' Hn Hn' Hc'].
  - pose proof (λ p Hp Hnone, tasks_ok_update m ts i t t' p id Hok Hi Hs (λ s, eq_refl) Hp Hnone) as Hup.
    cbn in Hup. assert (Hm : ∀ p, mkManager (alter id p (sm_heap m)) (sm_sessions m) (sm_maxSessions m) (sm_nextTSIH m) = m)
      by (intros p; rw alter_id_same; by destruct m).
    destruct (task_session t) as [[n0 p0]|] eqn:Ht.
    + rw -(Hm p0). apply Hup; [|done]. intros n q [= <- <-]. split; [done|]. intros s Hs'. by rw Hs' Hc.
    + rw -(Hm (length (sm_heap m))). by apply Hup.
  - by eapply tasks_ok_create.
  - eapply tasks_ok_update; [done|done|by rw Hn|done| |by rw Hn]. rw Hn. intros n1 q [= <- <-]. split; [done|].
    intros s Hs. cbn. by rw Hs Hc Hc'.
  - eapply tasks_ok_update; [done|done|by rw Hn|done| |by rw Hn]. rw Hn. intros n1 q [= <- <-]. split; [done|].
    intros s Hs. cbn. rw Hs Hc Hc'. cbn. by rw Z.eqb_refl.
  - by eapply tasks_ok_remove.
Qed.

Definition system_ok (s : System B) : Prop := tasks_ok (sv_sessions (sy_server s)) (sy_tasks s).

Lemma tasks_ok_login m ts la conn : tasks_ok m ts → tasks_ok m (ts ++ [TkLogin la conn]).
Proof using.
  intros [Hm Howned Hobj Hdist Hnum].
  assert (Hold : ∀ i t n p, (ts ++ [TkLogin la conn]) !! i = Some t → task_session t = Some (n, p) → ts !! i = Some t).
  { intros i t n p [Ht|[_ Ht]]%lookup_app_Some; [done|]. intros Hs. apply list_lookup_singleton_Some in Ht as [_ <-]. done. }
  split; [done| | | |].
  - intros n p Hp. destruct (Howned n p Hp) as (i & t & Hi & Ht). exists i, t. split; [by apply lookup_app_l_Some|done].
  - intros i t n p Hi Ht. apply (Hobj i); [by eapply Hold|done].
  - intros i j t t' n n' p Hi Hj Ht Ht'. apply (Hdist i j t t' n n' p); [by eapply Hold|by eapply Hold|done|done].
  - intros Hlen. destruct (Hnum Hlen) as (Hnext & Hids & Hreg). split_and!; [done|done|].
    intros i t n p Hi Ht. apply (Hreg i t); [by eapply Hold|done].
Qed.

Lemma system_step_ok s s' : system_ok s → system_step s s' → system_ok s'.
Proof using.
  unfold system_ok. intros Hok Hstep. destruct Hstep; try exact Hok.
  - by apply tasks_ok_login.
  - cbn in *. eapply tasks_ok_effect; [done|done|by eapply task_step_effect].
Qed.

Lemma system_run_ok dev maxSessions s :
  rtc system_step (NewSystem (Build_Server dev (NewSessionManager maxSessions) 0)) s → system_ok s.
Proof using.
  intros Hrun. assert (Hinit : system_ok (NewSystem (B := B) (Build_Server dev (NewSessionManager maxSessions) 0))).
  { split; cbn; [split; by unfold SessionCount; cbn|done..|]. intros _. split_and!; [done..|]. intros ? ? ? ? [=]. }
  revert Hinit. induction Hrun as [|x y z Hstep _ IH]; [done|]. intros Hx. by apply IH, (system_step_ok x).
Qed.

Lemma done_lookup (ts : list (task B)) i t : forallb task_done ts = true → ts !! i = Some t → ∃ conn, t = TkDone conn.
Proof using.
  intros Hdone Hi. rw forallb_forall in Hdone. apply list_elem_of_lookup_2, list_elem_of_In in Hi.
  specialize (Hdone t Hi). destruct t; try done. by eexists.
Qed.

Lemma all_done_no_sessions m ts : tasks_ok m ts → forallb task_done ts = true → sm_sessions m = ∅.
Proof using.
  intros Hok Hdone. apply map_empty. intros n. destruct (sm_sessions m !! n) as [p|] eqn:Hp; [|done].
  destruct (to_owned _ _ Hok n p Hp) as (i & t & Hi & Ht). by destruct (done_lookup ts i t Hdone Hi) as [conn ->].
Qed.

(** ** A connection on its own *)
Lemma Connection_Run_once fuel la (c : Connection B) :
  Connection_Run h la (S fuel) c = (more ← run_once h la; if more : bool then Connection_Run h la fuel else mret tt) c.
Proof using.
  cbn [Connection_Run]. unfold run_once, mbind, M_bind. destruct (attempt (on_conn ReadPDU) c) as [c1 [[pdu|e]|r]]; [|done..].
  by destruct (attempt (dispatch h la pdu) c1) as [c2 [[[]|e]|r]].
Qed.

(** The turns of the loop. *)
Lemma serve_turns fuel la n p cid c c' (s : Server B) :
  Connection_Run h la fuel (c_set_device (sv_device s) c) = (c', Ok tt) →
  rtc task_step (s, TkServe la n p cid c) (sv_set_device (c_device c') s, TkCleanup n p cid (c_conn c')).
Proof using.
  revert c s. induction fuel as [|fuel IH]; intros c s; [done|]. rw Connection_Run_once. unfold mbind, M_bind.
  destruct (run_once h la (c_set_device (sv_device s) c)) as [c1 [more|r]] eqn:Hrun; [|done]. intros Hrest.
  eapply (rtc_l _ _ (sv_set_device (c_device c1) s, if more then TkServe la n p cid c1 else TkCleanup n p cid (c_conn c1))).
  { exists 0%nat, None, None. cbn [fst snd task_next]. rw Hrun. by destruct more. }
  destruct more; [|by injection Hrest as ->].
  apply (IH c1 (sv_set_device (c_device c1) s)). cbn [sv_device sv_set_device].
  by replace (c_set_device (c_device c1) c1) with c1 by by destruct c1.
Qed.

Lemma served_alone fuel rid rch la conn s s' n :
  handleConnection h md5 order auth IQN fuel rid rch la conn s = (s', Ok n) →
  rtc task_step (s, TkLogin la conn) (s', TkDone n).
Proof using.
  unfold handleConnection.
  destruct (login_Run md5 rid rch order auth IQN fuel (newLoginHandler conn 0)) as [l [[params cmd]|[e| |]]] eqn:Hl; try done.
  2: { intros [= <- <-]. apply rtc_once. exists fuel, rid, rch. cbn [fst snd task_next]. by rw Hl. }
  set (prm := set_TargetName params IQN). intros Hrest.
  eapply (rtc_l _ _ (s, TkCreate la l prm cmd)). { exists fuel, rid, rch. cbn [fst snd task_next]. by rw Hl. }
  clear Hl. unfold mbind at 1, M_bind at 1 in Hrest.
  destruct (attempt (on_sessions (CreateSession (lh_isid l) prm)) s) as [s1 [[p|e]|r]] eqn:Hc; [| |done].
  2: { injection Hrest as <- <-. apply rtc_once. exists fuel, rid, rch. cbn [fst snd task_next]. unfold mbind, M_bind. by rw Hc. }
  unfold serve_session in Hrest. set (tsih := default 0 _) in Hrest.
  eapply (rtc_l _ _ (s1, TkAttach la l prm cmd tsih p)).
  { exists fuel, rid, rch. cbn [fst snd task_next]. unfold mbind, M_bind. by rw Hc. }
  unfold serve in Hrest. cbv zeta in Hrest. set (c0 := c_set_sns _ _ _ _) in Hrest.
  destruct (Connection_Run h la fuel c0) as [c' o] eqn:Hrun. destruct o as [[]|]; [|done]. injection Hrest as <- <-.
  set (s2 := Build_Server (sv_device s1) _ _).
  eapply (rtc_l _ _ (s2, TkServe la tsih p (sv_nextConn s1) c0)); [by exists fuel, rid, rch|].
  etrans; [apply (serve_turns fuel la tsih p _ c0 c' s2); exact Hrun|].
  eapply (rtc_l _ _ (_, TkRemove tsih p (c_conn c'))); [by exists fuel, rid, rch|].
  eapply (rtc_l _ _ (_, TkDone (c_conn c'))); [by exists fuel, rid, rch|]. done.
Qed.

(** ** Shutting down *)
Definition quiet_listener (s : System B) : Prop :=
  sy_listener s = Some true ∧ ∀ la conn, sy_listen s ≠ LsAccepted la conn.

(** Once the listener is closed it stays so, and nothing more is accepted. *)
Lemma closed_step s s' : sy_listener s = Some true → sy_listen s ≠ LsStart → system_step s s' →
  sy_listener s' = Some true ∧ sy_listen s' ≠ LsStart ∧
  (∀ la conn, sy_listen s' = LsAccepted la conn → sy_listen s = LsAccepted la conn).
Proof using. intros Hln Hls Hstep. destruct Hstep; cbn in *; try done; by simplify_eq. Qed.

Lemma forallb_done (ts : list (task B)) i t t' (s s' : Server B) :
  forallb task_done ts = true → ts !! i = Some t → task_step (s, t) (s', t') → t' = t ∧ s' = s.
Proof using.
  intros Hdone Hi (fuel & rid & rch & Hstep). destruct (done_lookup ts i t Hdone Hi) as [conn ->]. cbn in Hstep. by injection Hstep as <- <-.
Qed.

Lemma quiet_step s s' : sy_listen s ≠ LsStart → quiet_listener s → forallb task_done (sy_tasks s) = true → system_step s s' →
  sy_listen s' ≠ LsStart ∧ quiet_listener s' ∧ sy_server s' = sy_server s ∧ sy_tasks s' = sy_tasks s.
Proof using.
  intros Hls [Hln Hacc] Hdone Hstep. destruct (closed_step s s' Hln Hls Hstep) as (Hln' & Hls' & Hacc').
  split; [done|]. split; [split; [done|]; intros la conn Heq; by apply (Hacc la conn), Hacc'|].
  destruct Hstep; cbn in *; try done; [by destruct (Hacc la conn)|].
  destruct (forallb_done ts i t t' s s' Hdone) as [-> ->]; [done|done|]. by rw list_insert_id.
Qed.

Lemma quiet_run s s' : sy_listen s ≠ LsStart → quiet_listener s → forallb task_done (sy_tasks s) = true →
  rtc system_step s s' → sy_server s' = sy_server s ∧ sy_tasks s' = sy_tasks s.
Proof using.
  intros Hls Hq Hdone Hrun. revert Hls Hq Hdone. induction Hrun as [s|s s1 s2 Hstep _ IH]; [done|]. intros Hls Hq Hdone.
  destruct (quiet_step s s1 Hls Hq Hdone Hstep) as (Hls1 & Hq1 & Hs & Ht). rw -Hs -Ht. apply IH; [done|done|by rw Ht].
Qed.

(** After [Shutdown] has returned without an error: at most one goroutine, of a
    connection that was accepted but not yet counted, is not done. *)
Definition late_one (ts : list (task B)) : Prop :=
  ∃ ts0 late, ts = ts0 ++ late ∧ forallb task_done ts0 = true ∧ (length late ≤ 1)%nat.
Record closing (s : System B) : Prop := {
  cl_listener : sy_listener s = Some true;
  cl_listen : sy_listen s ≠ LsStart;
  cl_shutdown : sy_shutdown s ≠ ShIdle;
  cl_tasks : sy_shutdown s = ShReturned None →
    forallb task_done (sy_tasks s) = true ∨ (quiet_listener s ∧ late_one (sy_tasks s));
}.

Lemma late_step (ts : list (task B)) i t t' (s s' : Server B) :
  late_one ts → ts !! i = Some t → task_step (s, t) (s', t') → late_one (<[i := t']> ts).
Proof using.
  intros (ts0 & late & -> & Hdone & Hlate) Hi Hstep. destruct (decide (i < length ts0)%nat) as [Hlt|Hge].
  - rw lookup_app_l // in Hi. destruct (forallb_done ts0 i t t' s s' Hdone Hi Hstep) as [-> _].
    exists ts0, late. by rw insert_app_l // list_insert_id.
  - exists ts0, (<[(i - length ts0)%nat := t']> late). rw insert_app_r_alt; [lia|]. by rw length_insert.
Qed.

Lemma closing_step s s' : closing s → system_step s s' → closing s'.
Proof using.
  intros [Hln Hls Hsh Htasks] Hstep. pose proof (closed_step s s' Hln Hls Hstep) as (Hln' & Hls' & Hacc').
  assert (Hsh' : sy_shutdown s' ≠ ShIdle) by (by destruct Hstep).
  split; [done|done|done|]. intros Hret.
  destruct (decide (sy_shutdown s = ShReturned None)) as [Hr|Hr].
  2: { left. by destruct Hstep; cbn in *. }
  destruct (Htasks Hr) as [Hdone|[[_ Hq] Hlate]].
  - destruct Hstep as [| | | |la conn sv ts ln ctx stop sh| | | | | |i t t' sv sv' ts ls ln ctx stop sh Hi Ht]; cbn in *; try by left.
    + right. split; [split; [done|by intros]|]. by exists ts, [TkLogin la conn].
    + left. destruct (forallb_done ts i t t' sv sv' Hdone Hi Ht) as [-> _]. by rw list_insert_id.
  - right. split; [split; [done|]; intros la conn Heq; by apply (Hq la conn), Hacc'|].
    destruct Hstep as [| | | |la conn sv ts ln ctx stop sh| | | | | |i t t' sv sv' ts ls ln ctx stop sh Hi Ht]; cbn in *; try done.
    + by destruct (Hq la conn).
    + by eapply late_step.
Qed.

Lemma closing_run s s' : closing s → rtc system_step s s' → closing s'.
Proof using. intros Hs Hrun. induction Hrun as [s|s s1 s2 Hstep _ IH]; [done|]. by apply IH, (closing_step s). Qed.

(** The listener is set by [Listen]. *)
Lemma listener_started s0 s : rtc system_step (NewSystem s0) s → sy_listener s ≠ None → sy_listen s ≠ LsStart.
Proof using.
  intros Hrun Hln Hls. enough (Hinv : sy_listen s = LsStart → sy_listener s = None) by by apply Hln, Hinv. clear Hln Hls.
  remember (NewSystem s0) as x eqn:Hx. assert (Hinit : sy_listen x = LsStart → sy_listener x = None) by by rw Hx.
  clear Hx. revert Hinit. induction Hrun as [x|x y z Hstep _ IH]; [done|]. intros Hx. apply IH.
  destruct Hstep; cbn in *; try done; intros Hl; specialize (Hx Hl); by simplify_eq/=.
Qed.

Lemma shutdown_closing s0 s s1 :
  rtc system_step (NewSystem s0) s → sy_listener s ≠ None → sy_shutdown s = ShIdle →
  system_step s s1 → sy_shutdown s1 = ShWaiting → closing s1.
Proof using.
  intros Hrun Hln Hidle Hstep Hw. pose proof (listener_started _ _ Hrun Hln) as Hls.
  destruct Hstep; cbn in *; simplify_eq. split; [by destruct ln|done|done|done].
Qed.

Lemma system_max s s' : system_step s s' →
  sm_maxSessions (sv_sessions (sy_server s')) = sm_maxSessions (sv_sessions (sy_server s)).
Proof using.
  intros Hstep. destruct Hstep as [| | | | | | | | | |i t t' sv sv' ts ls ln ctx stop sh Hi Ht]; try done. cbn.
  apply task_step_effect in Ht. destruct Ht as [|isid params m| | |]; try done.
  by destruct (CreateSession_cases isid params m) as [[_ ->]|[_ ->]].
Qed.

(** A goroutine's steps are steps of the server. *)
Lemma task_run_system i t t' (s s' : Server B) ts ls ln ctx stop sh :
  ts !! i = Some t → rtc task_step (s, t) (s', t') →
  rtc system_step (mkSystem s ts ls ln ctx stop sh) (mkSystem s' (<[i := t']> ts) ls ln ctx stop sh).
Proof using.
  intros Hi Hrun. remember (s, t) as x eqn:Hx. remember (s', t') as y eqn:Hy. revert s t ts Hi Hx Hy.
  induction Hrun as [x|x [s1 t1] y Hstep Hrun IH]; intros s t ts Hi -> Hy.
  - injection Hy as -> ->. by rw list_insert_id.
  - eapply rtc_l; [by apply (st_task _ _ _ _ _ i t t1 s s1)|].
    rw -(list_insert_insert_eq ts i t' t1). apply (IH s1 t1); [|done|done]. rw list_lookup_insert_eq; [by apply lookup_lt_Some in Hi|done].
Qed.
End tasks.

(** ** Sessions and goroutines *)

(** C15: sessions of a server.  In every state a server reaches, whatever the
    connections send and in whatever order their steps come: there are at most as
    many sessions as allowed, each number leads to a session that exactly one
    goroutine is serving, no session is left when all have ended; and as long as
    numbers have not begun again, a goroutine finds the session it was given under
    its number, with its own connection and no other. *)
Theorem server_sessions {B} `{BlockDevice B} h md5 order auth IQN dev maxSessions s :
  rtc (system_step h md5 order auth IQN) (NewSystem (Build_Server dev (NewSessionManager maxSessions) 0)) s →
  let m := sv_sessions (sy_server s) in
  let ts := sy_tasks s in
  (0 ≤ maxSessions → SessionCount m ≤ maxSessions) ∧
  (∀ n p, sm_sessions m !! n = Some p →
     1 ≤ n ≤ 65535 ∧ exists! i, ∃ t, ts !! i = Some t ∧ task_session t = Some (n, p)) ∧
  (forallb task_done ts = true → sm_sessions m = ∅) ∧
  (len (sm_heap m) ≤ 65535 → ∀ i t n p, ts !! i = Some t → task_session t = Some (n, p) →
     ∃ se, GetSession n m = Some se ∧ se_TSIH se = n ∧ se_connections se = task_connections t).
Proof.
  intros Hrun. pose proof (system_run_ok h md5 order auth IQN dev maxSessions s Hrun) as Hok.
  assert (Hmax : sm_maxSessions (sv_sessions (sy_server s)) = maxSessions).
  { remember (NewSystem _) as x eqn:Hx. assert (Hx' : sm_maxSessions (sv_sessions (sy_server x)) = maxSessions) by by rw Hx.
    clear Hx Hok. revert Hx'. induction Hrun as [x|x y z Hstep _ IH]; [done|]. intros Hx. apply IH.
    by rw (system_max _ _ _ _ _ _ _ Hstep). }
  destruct Hok as [Hm Howned Hobj Hdist Hnum]. cbv zeta. split_and!.
  - intros Hmx. rw -Hmax. apply Hm. by rw Hmax.
  - intros n p Hp. split; [by apply (so_number _ Hm n p)|]. destruct (Howned n p Hp) as (i & t & Hi & Ht).
    exists i. split; [by exists t|]. intros j (t' & Hj & Ht'). by apply (Hdist i j t t' n n p).
  - intros Hdone. by apply (all_done_no_sessions _ (sy_tasks s)).
  - intros Hlen i t n p Hi Ht. destruct (Hobj i t n p Hi Ht) as (se & Hse & Hn & Hc).
    destruct (Hnum Hlen) as (_ & _ & Hreg). exists se. unfold GetSession. by rw (Hreg i t n p Hi Ht) Hse.
Qed.

(** The connection of [small_input] accepted and served to its end. *)
Definition ram_step := system_step (B := Ram) ram_handler sum_digest (λ l, l) no_auth "iqn.t".
Definition accepted_system : System Ram :=
  mkSystem (sy_server (NewSystem small_server)) [TkLogin "10.0.0.1:3260" (quiet small_input)] LsAccept (Some false) false false ShIdle.

Lemma accepted_reached : rtc ram_step (NewSystem small_server) accepted_system.
Proof.
  eapply rtc_l; [apply st_listen|]. eapply rtc_l; [apply (st_accept _ _ _ _ _ "10.0.0.1:3260" (quiet small_input))|].
  apply rtc_once. apply (st_spawn _ _ _ _ _ "10.0.0.1:3260" (quiet small_input) small_server []).
Qed.

Lemma small_served : ∃ s n,
  handleConnection ram_handler sum_digest (λ l, l) no_auth "iqn.t" 8 None None "10.0.0.1:3260" (quiet small_input) small_server = (s, Ok n).
Proof. eexists _, _. vm_compute. reflexivity. Qed.

Lemma served_reached : ∃ s n, rtc ram_step (NewSystem small_server)
  (mkSystem s [TkDone n] LsAccept (Some false) false false ShIdle).
Proof.
  destruct small_served as (s & n & Hs). exists s, n. etrans; [exact accepted_reached|].
  apply (task_run_system _ _ _ _ _ 0 (TkLogin "10.0.0.1:3260" (quiet small_input)) (TkDone n) small_server s [_]); [done|].
  by eapply served_alone.
Qed.

Lemma server_sessions_witness :
  ∃ s, sy_tasks s ≠ [] ∧ rtc ram_step (NewSystem small_server) s ∧ sm_sessions (sv_sessions (sy_server s)) = ∅.
Proof.
  destruct served_reached as (s & n & Hrun). eexists. split; [|split; [exact Hrun|]]; [discriminate|].
  destruct (server_sessions ram_handler sum_digest (λ l, l) no_auth "iqn.t" (make_bytes 1024) 4 _ Hrun) as (_ & _ & Hdone & _).
  apply Hdone. reflexivity.
Defined.

(** C16: shutting down.  When [Shutdown], called with the listener set, returns without
    an error, every connection has been served to its end, except for at most one
    that was accepted but not yet counted; without such a one, nothing changes any
    more - not the device, not the sessions, of which none is left - so that what
    is flushed then is everything. *)
Theorem shutdown_waits {B} `{BlockDevice B} h md5 order auth IQN dev maxSessions s s1 s2 s3 :
  let step := system_step h md5 order auth IQN in
  rtc step (NewSystem (Build_Server dev (NewSessionManager maxSessions) 0)) s → sy_listener s ≠ None →
  sy_shutdown s = ShIdle → step s s1 → sy_shutdown s1 = ShWaiting →
  rtc step s1 s2 → sy_shutdown s2 = ShReturned None → rtc step s2 s3 →
  late_one (sy_tasks s2) ∧
  (forallb task_done (sy_tasks s2) = true → (∀ la conn, sy_listen s2 ≠ LsAccepted la conn) →
   sy_server s3 = sy_server s2 ∧ sy_tasks s3 = sy_tasks s2 ∧ sm_sessions (sv_sessions (sy_server s3)) = ∅).
Proof.
  intros step Hrun Hln Hidle Hcall Hw Hrun2 Hret Hrun3.
  pose proof (shutdown_closing _ _ _ _ _ _ s s1 Hrun Hln Hidle Hcall Hw) as Hc1.
  pose proof (closing_run _ _ _ _ _ s1 s2 Hc1 Hrun2) as [Hl2 Hls2 _ Ht2]. split.
  - destruct (Ht2 Hret) as [Hdone|[_ Hlate]]; [|done]. exists (sy_tasks s2), []. rw app_nil_r. split_and!; [done|done|cbn; lia].
  - intros Hdone Hacc. destruct (quiet_run _ _ _ _ _ s2 s3 Hls2 (conj Hl2 Hacc) Hdone Hrun3) as [Hs Ht].
    split_and!; [done|done|]. assert (Hreach : rtc step (NewSystem (Build_Server dev (NewSessionManager maxSessions) 0)) s3).
    { etrans; [exact Hrun|]. eapply rtc_l; [exact Hcall|]. by etrans. }
    apply (all_done_no_sessions _ (sy_tasks s3)); [by eapply system_run_ok|by rw Ht].
Qed.

Lemma shutdown_waits_witness : ∃ s, rtc ram_step (NewSystem small_server) s ∧ sy_shutdown s = ShReturned None ∧
  sm_sessions (sv_sessions (sy_server s)) = ∅.
Proof.
  destruct served_reached as (s & n & Hrun).
  set (s1 := mkSystem s [TkDone n] LsAccept (Some true) false true ShWaiting).
  set (s2 := mkSystem s [TkDone n] LsAccept (Some true) false true (ShReturned None)).
  assert (Hcall : ram_step (mkSystem s [TkDone n] LsAccept (Some false) false false ShIdle) s1) by apply st_shutdown.
  assert (Hdrain : rtc ram_step s1 s2) by (apply rtc_once, st_drained; reflexivity).
  exists s2. split; [etrans; [exact Hrun|]; eapply rtc_l; [exact Hcall|exact Hdrain]|]. split; [reflexivity|].
  destruct (shutdown_waits ram_handler sum_digest (λ l, l) no_auth "iqn.t" (make_bytes 1024) 4 _ s1 s2 s2 Hrun)
    as [_ Hfinal]; [discriminate|reflexivity|exact Hcall|reflexivity|exact Hdrain|reflexivity|apply rtc_refl|].
  apply Hfinal; [reflexivity|]. intros la conn. discriminate.
Defined.

(** The one that was not counted is served after [Shutdown] has returned. *)
Lemma late_connection la conn : ∃ s s', rtc ram_step (NewSystem small_server) s ∧ sy_shutdown s = ShReturned None ∧
  sy_tasks s = [] ∧ ram_step s s' ∧ sy_tasks s' = [TkLogin la conn].
Proof.
  exists (mkSystem small_server [] (LsAccepted la conn) (Some true) false true (ShReturned None)). eexists. split; [|split; [done|split; [done|]]].
  - eapply rtc_l; [apply st_listen|]. eapply rtc_l; [apply (st_accept _ _ _ _ _ la conn)|].
    eapply rtc_l; [apply st_shutdown|]. apply rtc_once. by apply st_drained.
  - split; [apply st_spawn|done].
Qed.

(** Called before [Listen] has its listener, [Shutdown] leaves it open. *)
Lemma early_shutdown la conn : ∃ s, rtc ram_step (NewSystem small_server) s ∧ sy_shutdown s = ShReturned None ∧
  sy_listen s = LsAccepted la conn.
Proof.
  exists (mkSystem small_server [] (LsAccepted la conn) (Some false) false true (ShReturned None)). split; [|done].
  eapply rtc_l; [apply st_shutdown|]. eapply rtc_l; [by apply st_drained|]. eapply rtc_l; [apply st_listen|].
  apply rtc_once, st_accept.
Qed.
