(* ===== verification/ScsiStore.v ===== *)
(** * The dispatcher on the translation layer

    The layer is the block device of the target.  Sequences of READ, WRITE,
    SYNCHRONIZE CACHE and UNMAP commands that are answered with GOOD return and
    leave what a flat array of sectors would. *)

From S2P Require Import Bytes Float64 Config Zbc Backend Segment Emulator ZoneManager WriteBuffer Gc Ztl ZtlInv ZtlSpec ZtlTheorems Scsi ScsiTheorems.

(** The choices of the run time a call of the layer depends on: the orders maps are
    iterated in, the fuel of emergency collection, the clock. *)
Record ZtlEnv := {
  env_p2l_order : list (p2lKey * Z) → list (p2lKey * Z);
  env_zone_order : list Z → list Z;
  env_fuel : nat;
  env_now : Z;
}.

(** A command of a driver: its block, its data, and what it means to the store. *)
Inductive scsi_cmd :=
| SRead (f : form) (lba count : Z)
| SWrite (f : form) (lba count : Z) (data : list byte)
| SSync
| SUnmap (lba count : Z).

Definition cmd_cdb (c : scsi_cmd) : list byte :=
  match c with
  | SRead f lba count => read_cdb f lba count
  | SWrite f lba count _ => write_cdb f lba count
  | SSync => byte_of_Z OpcodeSyncCache10 :: make_bytes 9
  | SUnmap lba count => unmap_cdb [(lba, count)]
  end.
Definition cmd_data (c : scsi_cmd) : list byte :=
  match c with
  | SWrite _ _ _ data => data
  | SUnmap lba count => unmap_list [(lba, count)]
  | _ => []
  end.
Definition cmd_io (sps : Z) (c : scsi_cmd) : io :=
  match c with
  | SRead _ lba count => IORead lba count
  | SWrite _ lba count data => IOWrite (lba / sps) (slice 0 (sectorSize * count) data)
  | SSync => IOFlush
  | SUnmap lba count => IOUnmap lba count
  end.
(** A command inside a store of [size] sectors; writes are whole segments. *)
Definition cmd_ok (size sps : Z) (c : scsi_cmd) : Prop :=
  match c with
  | SRead f lba count => fits f lba count ∧ lba + count ≤ size
  | SWrite f lba count data =>
      fits f lba count ∧ lba + count ≤ size ∧ sectorSize * count ≤ len data ∧
      lba `mod` sps = 0 ∧ count `mod` sps = 0
  | SSync => True
  | SUnmap lba count => 0 ≤ lba < 2^64 ∧ 0 < count < 2^32 ∧ lba + count ≤ size
  end.

Lemma respond_good {B A} (m : M B A) (f : A → list byte) b b' data :
  respond m f b = (b', Ok (good data)) → ∃ a, m b = (b', Ok a) ∧ data = f a.
Proof.
  unfold respond, mbind, M_bind, attempt. destruct (m b) as [b1 [a|[e| |]]]; intros Heq; try done.
  injection Heq as <- <-. by exists a.
Qed.

Section store.
Context {D J : Type} `{ZonedDeviceSpec D} `{JournalSpec J} {Old : OldZones} (env : ZtlEnv).
Implicit Types s : ZTL D J.

#[local] Instance ZTL_device : BlockDevice (ZTL D J) := {|
  bd_Read := ZTL_Read;
  bd_Write := ZTL_Write (env_p2l_order env) (env_fuel env) (env_now env);
  bd_Flush := ZTL_Flush (env_zone_order env);
  bd_Unmap := ZTL_Unmap;
  bd_BlockSize := ZTL_BlockSize;
  bd_Capacity := ZTL_Capacity;
|}.

(** Commands answered with GOOD, and the data of the reads. *)
Inductive scsi_run (h : Handler) : ZTL D J → list scsi_cmd → list (list byte) → ZTL D J → Prop :=
| scsi_nil s : scsi_run h s [] [] s
| scsi_cons s c data s1 cs outs s2 :
    cmd_ok (ztl_size s) (z_sectorsPerSeg s) c →
    z_emergencyFreeZones s ≤ FreeZoneCount (z_zm s) →
    Execute h (cmd_cdb c) (cmd_data c) s = (s1, Ok (good data)) →
    scsi_run h s1 cs outs s2 →
    scsi_run h s (c :: cs) ((if c is SRead _ _ _ then [data] else []) ++ outs) s2.

(** A command answered with GOOD is the step of the layer it stands for. *)
Lemma scsi_step h s c data s1 :
  0 < z_sectorsPerSeg s → (∀ l, env_zone_order env l ≡ₚ l) →
  cmd_ok (ztl_size s) (z_sectorsPerSeg s) c → z_emergencyFreeZones s ≤ FreeZoneCount (z_zm s) →
  Execute h (cmd_cdb c) (cmd_data c) s = (s1, Ok (good data)) →
  io_ok (ztl_size s) (z_sectorsPerSeg s) (cmd_io (z_sectorsPerSeg s) c) ∧
  ztl_step s (cmd_io (z_sectorsPerSeg s) c) (if c is SRead _ _ _ then [data] else []) s1.
Proof.
  intros Hsps Horder Hok Hfree Hex. destruct c as [f lba count|f lba count wdata| |lba count]; cbn in Hok.
  - destruct Hok as [Hfit Hsize]. cbn [cmd_cdb cmd_data cmd_io] in *.
    rw Execute_read (handleRead_decodes f _ lba count) in Hex; [apply Hfit|by apply transfer_decodes|].
    apply respond_good in Hex as (a & Hread & ->). split; [|by apply step_read].
    destruct Hfit as (H3 & H4 & Hfit). split; [done|]. split; [|done]. destruct f; lia.
  - destruct Hok as (Hfit & Hsize & Hlen & Hmod & Hcount). pose proof Hfit as (Hl0 & Hc0 & _).
    cbn [cmd_cdb cmd_data cmd_io] in *. rw Execute_write in Hex.
    destruct (handleWrite_decodes f (write_cdb f lba count) lba count wdata Hc0) as [short Hw];
      [by apply transfer_decodes|].
    rw Hw in Hex. unfold write_sectors in Hex. unfold sectorSize in Hlen.
    destruct (Z.ltb_spec (len wdata) (count * 512)); [lia|].
    apply respond_good in Hex as ([] & Hwrite & _).
    assert (Hlba : z_sectorsPerSeg s * (lba / z_sectorsPerSeg s) = lba) by (pose proof (Z.div_mod lba (z_sectorsPerSeg s)); lia).
    assert (Hcnt : z_sectorsPerSeg s * (count / z_sectorsPerSeg s) = count) by (pose proof (Z.div_mod count (z_sectorsPerSeg s)); lia).
    split; [split; [by apply Z.div_pos|]|].
    + exists (count / z_sectorsPerSeg s). unfold sectorSize. rw len_slice; [lia|lia|]. split; [nia|]. split; [lia|]. nia.
    + apply (step_write _ (env_p2l_order env) (env_fuel env) (env_now env)); [done|]. rw Hlba.
      replace (sectorSize * count) with (count * 512) by (unfold sectorSize; lia). exact Hwrite.
  - assert (Hsync : respond (bd_Flush (B := ZTL D J)) (λ _, []) s = (s1, Ok (good data))) by exact Hex.
    apply respond_good in Hsync as ([] & Hflush & _). split; [exact I|].
    by apply (step_flush _ (env_zone_order env)).
  - destruct Hok as (Hlba & Hcount & Hsize). cbn [cmd_cdb cmd_data cmd_io] in *.
    rw Execute_unmap in Hex; [repeat constructor; cbn; lia|done|].
    apply respond_good in Hex as ([] & Hun & _). split; [split; [lia|]; split; lia|].
    apply step_unmap. revert Hun. unfold unmap_ranges, when_, mbind, M_bind. cbn [for_each fst snd].
    destruct (Z.ltb_spec 0 count); [|lia]. unfold mbind, M_bind. cbn [bd_Unmap ZTL_device].
    destruct (ZTL_Unmap lba count s) as [s' [[]|r]]; intros Heq; by injection Heq as <-.
Qed.

Lemma scsi_run_ztl h s cs outs s' :
  ztl_wf s → (∀ l, env_zone_order env l ≡ₚ l) → scsi_run h s cs outs s' →
  ztl_run s (cmd_io (z_sectorsPerSeg s) <$> cs) outs s'.
Proof.
  intros Hwf Horder Hrun. induction Hrun as [s|s c data s1 cs outs s2 Hok Hfree Hex Hrun IH]; [constructor|].
  pose proof (mw_sps _ _ _ _ (zw_map _ Hwf)) as Hsps.
  destruct (scsi_step h s c data s1) as [Hio Hstep]; [lia|done..|]. cbn [fmap list_fmap].
  econstructor; [exact Hio|exact Hstep|].
  destruct (ztl_step_spec s (ztl_sector s) _ _ s1 Hwf ltac:(done) Hio Hstep) as [(Hwf1 & _ & Hsp & _) _].
  rw Hsp in IH. by apply IH.
Qed.
End store.

(** The target as a disk.  Any sequence of READ, WRITE (of whole segments),
    SYNCHRONIZE CACHE and UNMAP commands inside the store, in any form, that is
    answered with GOOD and does not start emergency collection returns exactly
    the data a flat array of sectors returns and leaves that array's contents,
    as long as zone 0 is not taken into use. *)
Theorem scsi_refines_store {D J} `{ZonedDeviceSpec D} `{JournalSpec J} {Old : OldZones} env h (s : ZTL D J) cs outs s' :
  ztl_wf s → zone0_unused s → zone0_kept s s' → (∀ l, env_zone_order env l ≡ₚ l) →
  scsi_run env h s cs outs s' →
  let spec := spec_run (z_sectorsPerSeg s) (ztl_sector s) (cmd_io (z_sectorsPerSeg s) <$> cs) in
  outs = spec.1 ∧ ∀ l, 0 ≤ l < ztl_size s → ztl_sector s' l = spec.2 l.
Proof.
  intros Hwf Hu Hk Horder Hrun. apply ztl_run_refines; [done..|]. by eapply scsi_run_ztl.
Qed.

Definition small_env : ZtlEnv := {| env_p2l_order := id; env_zone_order := id; env_fuel := 0; env_now := 0 |}.
Definition small_cmds : list scsi_cmd := [SWrite Form10 2 2 two_sectors; SSync; SRead Form6 1 3].
Definition small_final : ZTL Emulator Empty_set := (ZTL_Read 1 3 small_flushed).1.

Lemma small_scsi_run :
  scsi_run small_env ram_handler small_ztl small_cmds [zero_sector ++ two_sectors] small_final.
Proof.
  apply (scsi_cons _ _ _ (SWrite Form10 2 2 two_sectors) [] small_written _ [zero_sector ++ two_sectors]).
  - vm_compute. repeat split; discriminate.
  - vm_compute. discriminate.
  - apply injective_projections; vm_compute; reflexivity.
  - apply (scsi_cons _ _ _ SSync [] small_flushed _ [zero_sector ++ two_sectors]).
    + exact I.
    + vm_compute. discriminate.
    + apply injective_projections; vm_compute; reflexivity.
    + apply (scsi_cons _ _ _ (SRead Form6 1 3) (zero_sector ++ two_sectors) small_final _ []); [| | |constructor].
      * vm_compute. repeat split; discriminate.
      * vm_compute. discriminate.
      * apply injective_projections; vm_compute; reflexivity.
Qed.

Lemma scsi_refines_store_witness :
  [zero_sector ++ two_sectors] =
  (spec_run (z_sectorsPerSeg small_ztl) (ztl_sector small_ztl) (cmd_io (z_sectorsPerSeg small_ztl) <$> small_cmds)).1.
Proof.
  destruct small_ztl_wf as [Hwf Hu].
  destruct (scsi_refines_store small_env ram_handler small_ztl small_cmds [zero_sector ++ two_sectors] small_final)
    as [Houts _].
  - exact Hwf.
  - exact Hu.
  - right. vm_compute. left.
  - intros l. reflexivity.
  - exact small_scsi_run.
  - exact Houts.
Defined.
