(* ===== verification/IscsiStore.v ===== *)
(** * The target as a disk on the network

    The layers put together: an initiator's commands, carried by PDUs, over a
    connection, the dispatcher and the translation layer, against a flat array of
    sectors. *)

From S2P Require Import Bytes Float64 Config Zbc Backend Segment Emulator ZoneManager WriteBuffer Gc Ztl ZtlInv ZtlSpec ZtlTheorems Pdu Network Params DataTransfer Scsi ScsiTheorems ScsiStore Connection ConnectionTheorems.

(** A block in the sixteen bytes of a command PDU is read as before. *)
Lemma Execute_pad16 {B} `{BlockDevice B} h size sps c (b : B) :
  cmd_ok size sps c → Execute h (pad16 (cmd_cdb c)) (cmd_data c) b = Execute h (cmd_cdb c) (cmd_data c) b.
Proof.
  unfold pad16. generalize (make_bytes (16 - len (cmd_cdb c))) as pad. intros pad Hok.
  destruct c as [f lba count|f lba count data| |lba count]; cbn [cmd_cdb cmd_data cmd_ok] in *.
  - destruct Hok as [Hfit _]. rw Execute_read_pad Execute_read.
    rw !(handleRead_decodes f _ lba count) //; first [apply Hfit|by apply transfer_decodes_pad|by apply transfer_decodes].
  - destruct Hok as (Hfit & _ & Hlen & _). pose proof Hfit as (_ & Hcount & _). rw Execute_write_pad Execute_write.
    destruct (handleWrite_decodes f (write_cdb f lba count) lba count data Hcount) as [s1 ->]; [by apply transfer_decodes|].
    destruct (handleWrite_decodes f (write_cdb f lba count ++ pad) lba count data Hcount) as [s2 ->]; [by apply transfer_decodes_pad|].
    unfold write_sectors. unfold sectorSize in Hlen. by destruct (Z.ltb_spec (len data) (count * 512)); [lia|].
  - change (respond (handleSyncCache10 ((byte_of_Z OpcodeSyncCache10 :: make_bytes 9) ++ pad)) (λ _, []) b =
      respond (bd_Flush (B := B)) (λ _, []) b). unfold handleSyncCache10. pose proof (len_nonneg pad).
    rw (proj2 (Z.ltb_ge _ _)) //. rw len_app. change (len (byte_of_Z OpcodeSyncCache10 :: make_bytes 9)) with 10. lia.
  - by rw Execute_unmap_pad -(app_nil_r (unmap_cdb _)) Execute_unmap_pad.
Qed.

Definition is_read (c : scsi_cmd) : bool := if c is SRead _ _ _ then true else false.

(** A read of less than 4 GiB. *)
Definition read_fits (c : scsi_cmd) : Prop := if c is SRead _ _ count then sectorSize * count < 2^32 else True.

Section target.
Context {D J : Type} `{ZonedDeviceSpec D} `{JournalSpec J} {Old : OldZones} (env : ZtlEnv) (h : Handler) (localAddr : string).
#[local] Existing Instance ZTL_device.
Implicit Types c : Connection (ZTL D J).
#[local] Instance device : BlockDevice (ZTL D J) := ZTL_device env.

(** Commands an initiator sends, and whose answers it reads with status GOOD. *)
Inductive target_run : Connection (ZTL D J) → list scsi_cmd → list (list byte) → Connection (ZTL D J) → Prop :=
| target_nil c : target_run c [] [] c
| target_cons c itt cmd pdus c1 out data cmds outs c2 :
    let s := c_device c in
    cmd_ok (ztl_size s) (z_sectorsPerSeg s) cmd → read_fits cmd →
    z_emergencyFreeZones s ≤ FreeZoneCount (z_zm s) →
    carries_command itt (pad16 (cmd_cdb cmd)) (cmd_data cmd) (is_read cmd) pdus →
    for_each (λ _ p, dispatch h localAddr p) tt pdus c = (c1, Ok tt) →
    c_conn c1 = cn_append out (c_conn c) →
    answered itt out data StatusGood →
    target_run c1 cmds outs c2 →
    target_run c (cmd :: cmds) ((if is_read cmd then [data] else []) ++ outs) c2.

(** The data of an answer has the length the command asks for. *)
Lemma cmd_data_len s s1 cmd rsp :
  ztl_wf s → cmd_ok (ztl_size s) (z_sectorsPerSeg s) cmd → read_fits cmd →
  Execute h (cmd_cdb cmd) (cmd_data cmd) s = (s1, Ok rsp) → len (rsp_data rsp) < 2^32.
Proof using.
  intros Hwf Hok Hfit. assert (Hnil : ∀ (m : M (ZTL D J) unit) s0, respond m (λ _, []) s0 = (s1, Ok rsp) → len (rsp_data rsp) < 2^32).
  { intros m s0. unfold respond, mbind, M_bind, attempt. by destruct (m s0) as [? [?|[?| |]]]; intros [= _ <-]. }
  destruct cmd as [f lba count|f lba count data| |lba count]; cbn [cmd_cdb cmd_data cmd_ok read_fits] in *.
  - destruct Hok as [Hf Hsize]. pose proof Hf as (Hlba & Hcount & Hf').
    rw Execute_read (handleRead_decodes f _ lba count) //; [by apply transfer_decodes|].
    unfold respond, mbind, M_bind, attempt. destruct (bd_Read lba count s) as [s2 o] eqn:Hread.
    destruct o as [a|[e| |]]; intros [= _ <-]; [|done]. cbn [rsp_data good id].
    assert (Hc32 : 0 < count < 2^32) by (unfold sectorSize in Hfit; lia).
    pose proof (wp_ZTL_Read lba count _ s Hwf Hlba Hc32 Hsize
      (λ s' o H1' H2' H3' _, conj H2' H3')) as Hw. unfold wp in Hw.
    assert (Hread' : ZTL_Read lba count s = (s2, Ok a)) by exact Hread. rw Hread' in Hw.
    destruct Hw as [_ Hdata]. destruct (Hdata a eq_refl) as [Hlen _]. unfold id. lia.
  - rw Execute_write. apply Hnil.
  - apply (Hnil _ s).
  - rw -(app_nil_r (unmap_cdb _)) Execute_unmap_pad. apply Hnil.
Qed.

(** One exchange is one step of the store behind it. *)
Lemma target_step c itt cmd pdus c1 out data :
  cn_writes (c_conn c) = [] → pa_MaxRecvDataSegmentLength (c_params c) < 2^24 → ztl_wf (c_device c) →
  cmd_ok (ztl_size (c_device c)) (z_sectorsPerSeg (c_device c)) cmd → read_fits cmd →
  carries_command itt (pad16 (cmd_cdb cmd)) (cmd_data cmd) (is_read cmd) pdus →
  for_each (λ _ p, dispatch h localAddr p) tt pdus c = (c1, Ok tt) →
  c_conn c1 = cn_append out (c_conn c) →
  answered itt out data StatusGood →
  ∃ data', Execute h (cmd_cdb cmd) (cmd_data cmd) (c_device c) = (c_device c1, Ok (good data')) ∧
    (is_read cmd → data' = data) ∧ cn_writes (c_conn c1) = [] ∧ c_params c1 = c_params c.
Proof using.
  intros Hw Hmax Hwf Hok Hfit Hcarry Hrun Hconn Hans.
  pose proof (Execute_pad16 h _ _ cmd (c_device c) Hok) as Hpad.
  destruct (Execute h (cmd_cdb cmd) (cmd_data cmd) (c_device c)) as [b [rsp|r]] eqn:Hex.
  2: { by destruct (exchange_stops h localAddr itt _ _ _ pdus c b r c1 Hw Hcarry Hpad). }
  pose proof (Execute_ok _ _ _ _ _ _ Hex) as Hr.
  destruct (exchange h localAddr itt _ _ _ pdus c b rsp Hw Hmax Hcarry Hpad Hr) as (c1' & out' & Hrun' & Hdev & Hconn' & Hans' & _ & Hkept).
  { by eapply cmd_data_len. }
  rw Hrun in Hrun'. injection Hrun' as <-.
  assert (Hout : out' = out).
  { rw Hconn in Hconn'. apply (f_equal cn_out) in Hconn'. cbn in Hconn'. by apply app_inv_head in Hconn'. }
  rw Hout in Hans'. destruct (answered_unique _ _ _ _ _ _ Hans' Hans) as [Hd Hs].
  exists (rsp_data rsp). rw Hdev. split_and!.
  - destruct Hr as [d|sense]; [done|]. cbn in Hs. by unfold StatusCheckCondition, StatusGood in Hs.
  - intros Hrd. destruct (is_read cmd); [done|done].
  - by rw Hconn.
  - apply (ok_params _ _ _ Hkept).
Qed.

Lemma target_run_scsi c cmds outs c' :
  cn_writes (c_conn c) = [] → pa_MaxRecvDataSegmentLength (c_params c) < 2^24 → ztl_wf (c_device c) →
  (∀ l, env_zone_order env l ≡ₚ l) → target_run c cmds outs c' →
  scsi_run env h (c_device c) cmds outs (c_device c').
Proof using.
  intros Hw Hmax Hwf Horder Hrun. induction Hrun as [c|c itt cmd pdus c1 out data cmds outs c2 s Hok Hfit Hfree Hcarry Hd Hconn Hans Hrun IH];
    [constructor|]. subst s.
  destruct (target_step c itt cmd pdus c1 out data) as (data' & Hex & Hread & Hw1 & Hp1); [done..|].
  assert (Houts : (if is_read cmd then [data] else []) = (if cmd is SRead _ _ _ then [data'] else [])).
  { destruct cmd; [by rw Hread|done..]. }
  rw Houts. eapply scsi_cons; [exact Hok|exact Hfree|exact Hex|].
  pose proof (mw_sps _ _ _ _ (zw_map _ Hwf)) as Hsps.
  destruct (scsi_step env h (c_device c) cmd data' (c_device c1)) as [Hio Hstep]; [lia|done..|].
  destruct (ztl_step_spec (c_device c) (ztl_sector (c_device c)) _ _ (c_device c1) Hwf ltac:(done) Hio Hstep) as [(Hwf1 & _) _].
  apply IH; [done|by rw Hp1|done].
Qed.
End target.

(** The target as a disk on the network.  An initiator whose connection works
    sends READ, WRITE (of whole segments), SYNCHRONIZE CACHE and UNMAP commands in
    any form, the data of the writes in any pieces and order, and reads answers
    with status GOOD: the data it puts together is what a flat array of sectors
    returns, and the store behind the target ends with that array's contents, as
    long as no collection starts and zone 0 is not taken into use. *)
Theorem iscsi_refines_store {D J} `{ZonedDeviceSpec D} `{JournalSpec J} {Old : OldZones} env h localAddr
    (c c' : Connection (ZTL D J)) cmds outs :
  cn_writes (c_conn c) = [] → pa_MaxRecvDataSegmentLength (c_params c) < 2^24 →
  ztl_wf (c_device c) → zone0_unused (c_device c) → zone0_kept (c_device c) (c_device c') →
  (∀ l, env_zone_order env l ≡ₚ l) →
  target_run env h localAddr c cmds outs c' →
  let s := c_device c in
  let spec := spec_run (z_sectorsPerSeg s) (ztl_sector s) (cmd_io (z_sectorsPerSeg s) <$> cmds) in
  outs = spec.1 ∧ ∀ l, 0 ≤ l < ztl_size s → ztl_sector (c_device c') l = spec.2 l.
Proof.
  intros Hw Hmax Hwf Hu Hk Horder Hrun. apply ztl_run_refines; [done..|].
  eapply scsi_run_ztl; [done..|]. by apply target_run_scsi in Hrun.
Qed.

(** The three commands of the small layer, the write in two pieces. *)
Lemma target_run_one {D J} `{ZonedDeviceSpec D} `{JournalSpec J} env h localAddr (c : Connection (ZTL D J)) itt cmd pdus s1 data :
  cn_writes (c_conn c) = [] → pa_MaxRecvDataSegmentLength (c_params c) < 2^24 →
  cmd_ok (ztl_size (c_device c)) (z_sectorsPerSeg (c_device c)) cmd → read_fits cmd →
  z_emergencyFreeZones (c_device c) ≤ FreeZoneCount (z_zm (c_device c)) →
  carries_command itt (pad16 (cmd_cdb cmd)) (cmd_data cmd) (is_read cmd) pdus →
  Execute (H := ZTL_device env) h (cmd_cdb cmd) (cmd_data cmd) (c_device c) = (s1, Ok (good data)) → len data < 2^32 →
  ∃ c1, c_device c1 = s1 ∧ cn_writes (c_conn c1) = [] ∧ c_params c1 = c_params c ∧
    ∀ cmds outs c2, target_run env h localAddr c1 cmds outs c2 →
      target_run env h localAddr c (cmd :: cmds) ((if is_read cmd then [data] else []) ++ outs) c2.
Proof.
  intros Hw Hmax Hok Hfit Hfree Hcarry Hex Hlen.
  destruct (exchange (H := ZTL_device env) h localAddr itt _ _ _ pdus c s1 (good data) Hw Hmax Hcarry)
    as (c1 & out & Hrun & Hdev & Hconn & Hans & _ & Hkept); [by rw (Execute_pad16 _ _ _ _ _ Hok)|constructor|done|].
  exists c1. split; [done|]. split; [by rw Hconn|]. split; [apply (ok_params _ _ _ Hkept)|].
  intros cmds outs c2 Hrest. destruct (is_read cmd) eqn:Hrd.
  - pose proof (target_cons env h localAddr c itt cmd pdus c1 out data cmds outs c2) as Hcons. rw Hrd in Hcons. by apply Hcons.
  - pose proof (target_cons env h localAddr c itt cmd pdus c1 out [] cmds outs c2) as Hcons. rw Hrd in Hcons. by apply Hcons.
Qed.

Definition small_connection : Connection (ZTL Emulator Empty_set) :=
  newConnection (quiet []) true DefaultTargetParams small_ztl.
Definition small_write_pdus : list PDU :=
  command_pdu 1 0x20 1024 (pad16 (write_cdb Form10 2 2)) [] :: [data_out_pdu 1 0 512 false (slice 512 1024 two_sectors)]
    ++ [data_out_pdu 1 1 0 true (slice 0 512 two_sectors)].
Definition small_sync_pdus : list PDU := [command_pdu 2 0x80 0 (pad16 (cmd_cdb SSync)) []].
Definition small_read_pdus : list PDU := [command_pdu 3 0xC0 1536 (pad16 (read_cdb Form6 1 3)) []].

Lemma small_write_carry :
  carries_command 1 (pad16 (cmd_cdb (SWrite Form10 2 2 two_sectors))) two_sectors false small_write_pdus.
Proof.
  apply carries_in_pieces; [split; reflexivity|reflexivity|reflexivity|reflexivity|reflexivity|reflexivity|reflexivity|reflexivity| | | |].
  - intros p [->%list_elem_of_singleton| ->%list_elem_of_singleton]%elem_of_app;
      (split; [split; reflexivity|split; [|vm_compute; reflexivity]]); apply Z.leb_le; reflexivity.
  - intros p ->%list_elem_of_singleton. reflexivity.
  - reflexivity.
  - intros i Hi. change (0 ≤ i < 1024)%nat in Hi. destruct (decide (i < 512)%nat).
    + exists (data_out_pdu 1 1 0 true (slice 0 512 two_sectors)). split; [right; left|]. change (0 ≤ Z.of_nat i < 512). lia.
    + exists (data_out_pdu 1 0 512 false (slice 512 1024 two_sectors)). split; [left|]. change (512 ≤ Z.of_nat i < 1024). lia.
Qed.
Lemma small_sync_carry : carries_command 2 (pad16 (cmd_cdb SSync)) [] false small_sync_pdus.
Proof. apply carries_at_once; [split; reflexivity|reflexivity|reflexivity]. Qed.
Lemma small_read_carry : carries_command 3 (pad16 (cmd_cdb (SRead Form6 1 3))) [] true small_read_pdus.
Proof. apply carries_at_once; [split; reflexivity|reflexivity|reflexivity]. Qed.

Lemma small_target_run :
  ∃ c', c_device c' = small_final ∧
    target_run small_env ram_handler "10.0.0.1:3260" small_connection small_cmds [zero_sector ++ two_sectors] c'.
Proof.
  destruct (target_run_one small_env ram_handler "10.0.0.1:3260" small_connection 1 (SWrite Form10 2 2 two_sectors) small_write_pdus small_written [] eq_refl eq_refl)
    as (c1 & Hd1 & Hw1 & Hp1 & Hr1); [vm_compute; repeat split; discriminate|exact I|vm_compute; discriminate|exact small_write_carry|
      apply injective_projections; vm_compute; reflexivity|reflexivity|].
  destruct (target_run_one small_env ram_handler "10.0.0.1:3260" c1 2 SSync small_sync_pdus small_flushed [] Hw1)
    as (c2 & Hd2 & Hw2 & Hp2 & Hr2); [by rw Hp1|exact I|exact I|rw Hd1; vm_compute; discriminate|exact small_sync_carry|
      rw Hd1; apply injective_projections; vm_compute; reflexivity|reflexivity|].
  destruct (target_run_one small_env ram_handler "10.0.0.1:3260" c2 3 (SRead Form6 1 3) small_read_pdus small_final (zero_sector ++ two_sectors) Hw2)
    as (c3 & Hd3 & Hw3 & Hp3 & Hr3); [by rw Hp2 Hp1|rw Hd2; vm_compute; repeat split; discriminate|reflexivity|
      rw Hd2; vm_compute; discriminate|exact small_read_carry|rw Hd2; apply injective_projections; vm_compute; reflexivity|reflexivity|].
  exists c3. split; [done|]. apply (Hr1 _ [zero_sector ++ two_sectors]), (Hr2 _ [zero_sector ++ two_sectors]), (Hr3 _ []). constructor.
Qed.

Lemma iscsi_refines_store_witness :
  [zero_sector ++ two_sectors] =
  (spec_run (z_sectorsPerSeg small_ztl) (ztl_sector small_ztl) (cmd_io (z_sectorsPerSeg small_ztl) <$> small_cmds)).1.
Proof.
  destruct small_ztl_wf as [Hwf Hu]. destruct small_target_run as (c' & Hdev & Hrun).
  destruct (iscsi_refines_store small_env ram_handler "10.0.0.1:3260" small_connection c' small_cmds [zero_sector ++ two_sectors])
    as [Houts _].
  - reflexivity.
  - reflexivity.
  - exact Hwf.
  - exact Hu.
  - right. rw Hdev. vm_compute. left.
  - intros l. reflexivity.
  - exact Hrun.
  - exact Houts.
Defined.
