(* ===== verification/ZtlLimits.v ===== *)
(** * Where the translation layer departs from a flat store

    Runs of the layer on small emulated devices without a journal: zones of four
    sectors, segments of two.  Each states what a caller observes. *)

From S2P Require Import Bytes Float64 Config Zbc Backend Segment Emulator ZoneManager WriteBuffer Gc Ztl ZtlTheorems.

(** A fresh layer on three zones of which [maxOpen] may be open. *)
Definition fresh_layer (maxOpen : Z) : outcome (ZTL Emulator Empty_set) :=
  ZTL_New small_cfg (fresh_emulator 3 4 maxOpen) None.

(** A sequence of writes, each at its address, then a read. *)
Definition write_all (ws : list (Z * list byte)) (s : ZTL Emulator Empty_set)
    : ZTL Emulator Empty_set * outcome unit :=
  for_each (λ (_ : unit) w, ZTL_Write id 0 0 w.1 w.2) tt ws s.

Definition observe (maxOpen : Z) (ws : list (Z * list byte)) (lba count : Z)
    : outcome (outcome unit * outcome (list byte)) :=
  match fresh_layer maxOpen with
  | Ok s => let '(s', o) := write_all ws s in Ok (o, (ZTL_Read lba count s').2)
  | Stop r => Stop r
  end.

Definition four_sectors : list byte := two_sectors ++ two_sectors.

(** A write of part of a segment loses the rest of it.  Sectors 2 and 3 are
    written, then sector 3 alone; both writes succeed.  Read one at a time,
    sector 2 now holds the data written to sector 3 and sector 3 reads as zeros;
    read together, both are zeros. *)
Theorem partial_write_corrupts :
  let ws := [(2, two_sectors); (3, pattern_sector 5)] in
  observe 2 ws 2 1 = Ok (Ok tt, Ok (pattern_sector 5)) ∧
  observe 2 ws 3 1 = Ok (Ok tt, Ok zero_sector) ∧
  observe 2 ws 2 2 = Ok (Ok tt, Ok (zero_sector ++ zero_sector)).
Proof. vm_compute. repeat split. Qed.

(** The segment that lands on the first sector of zone 0 is lost: zones 2
    and 1 take the first eight sectors, the next write succeeds and reads back
    as zeros, because its physical address encodes as "unmapped". *)
Theorem zone_zero_segment_lost :
  observe 3 [(0, four_sectors); (4, four_sectors); (8, two_sectors)] 8 2 =
  Ok (Ok tt, Ok (zero_sector ++ zero_sector)).
Proof. vm_compute. reflexivity. Qed.

(** Full zones keep their place among the open zones.  Once as many zones
    have been filled as may be open, evicting the oldest of them fails, and so
    does every write that needs a new zone, although a free zone is left and no
    zone of the device is open. *)
Theorem full_zones_block_allocation :
  match fresh_layer 2 with
  | Ok s =>
      let '(s', o) := write_all [(0, four_sectors); (4, four_sectors)] s in
      o = Ok tt ∧ FreeZoneCount (z_zm s') = 1 ∧ OpenZoneCount (z_zm s') = 2 ∧
      e_openCount (md_dev (z_md s')) = 0 ∧
      (ZTL_Write id 0 0 8 two_sectors s').2 =
        Fail (Wrapf "writing segment %d: %w" (Wrapf "allocating write zone: %w"
          (Wrapf "AllocateFree: evict: %w" (Wrapf "closing zone %d for eviction: %w"
            (Errorf "cannot close zone %d in state %s")))))
  | Stop _ => False
  end.
Proof. vm_compute. repeat split. Qed.
