(* ===== verification/GcTheorems.v ===== *)
(** * Properties of the garbage collector *)

From S2P Require Import Bytes Float64 Config Zbc Backend Segment Emulator ZoneManager WriteBuffer Gc Ztl ZtlInv ZtlSpec GcSpec ZtlTheorems ZtlLimits.

Section collect.
Context {D J : Type} `{ZonedDeviceSpec D} `{JournalSpec J} {Old : OldZones}.
Implicit Types s : ZTL D J.

(** The states around a collection, for a caller of the layer. *)
Lemma gc_done_view v s s' :
  gc_pre v s → gc_done v s s' →
  ztl_wf s' ∧ ztl_size s' = ztl_size s ∧ v ∈ zm_freeList (z_zm s') ∧
  (zone0_kept s s' → ∀ lba, 0 ≤ lba < ztl_size s → ztl_sector s' lba = ztl_sector s lba).
Proof.
  intros Hpre (mid & [Hs Hwf Hb Ht Hsp Hf Hv]).
  assert (Hsize : ztl_size mid = ztl_size s) by (unfold ztl_size; by rw (gs_size _ _ _ Hs) (gs_sps _ _ _ Hs)).
  split; [done|]. split; [unfold ztl_size in *; by rw Ht Hsp|]. split; [rw Hf; set_solver|].
  intros Hk lba Hlba. rw Hv; [by rw Hsize|]. apply (gs_view _ _ _ Hs); [|done].
  destruct Hk as [Hk|Hk]; [by left|]. rw Hf elem_of_app list_elem_of_singleton in Hk.
  destruct Hk as [Hk| <-]; [by right|left]. apply (gp_used _ _ Hpre).
Qed.

Lemma gc_step_view v s s' :
  gc_step v s s' →
  ztl_wf s' ∧ ztl_size s' = ztl_size s ∧
  (zone0_kept s s' → ∀ lba, 0 ≤ lba < ztl_size s → ztl_sector s' lba = ztl_sector s lba).
Proof.
  intros Hs. split; [apply Hs|]. split; [unfold ztl_size; by rw (gs_size _ _ _ Hs) (gs_sps _ _ _ Hs)|].
  intros Hk lba. by apply Hs.
Qed.

Lemma wp_on_gc_collect v order (Q : ZTL D J → outcome unit → Prop) s :
  gc_pre v s → (∀ l, order l ≡ₚ l) →
  (∀ s' o, returns o → match o with Ok _ => gc_done v s s' | _ => gc_step v s s' end → Q s' o) →
  wp (on_gc (collectZone order v)) Q s.
Proof.
  intros Hpre Horder HQ. unfold on_gc. wp_step.
  assert (Hamb : z_set_gc (z_gc s) s = s) by (by destruct s).
  apply (wp_collect v s order); [by rw Hamb|done|]. intros g' o Hret Hg'. apply HQ; [done|].
  rw Hamb in Hg'. exact Hg'.
Qed.
End collect.

(** C9: collecting a zone keeps the store.  For a victim that is in use, has no
    data in the write buffer and does not take writes, every sector of the store
    reads the same after the collection as before, whether it succeeds or stops
    at an error of the device, the manager or the journal (unless zone 0 is
    taken into use); when it succeeds the victim is back on the free list. *)
Theorem collect_keeps_store {D J} `{ZonedDeviceSpec D} `{JournalSpec J} {Old : OldZones} (s : ZTL D J) v order s' o :
  gc_pre v s → (∀ l, order l ≡ₚ l) → on_gc (collectZone order v) s = (s', o) →
  returns o ∧ ztl_wf s' ∧ ztl_size s' = ztl_size s ∧
  (o = Ok tt → v ∈ zm_freeList (z_zm s')) ∧
  (zone0_kept s s' → ∀ lba, 0 ≤ lba < ztl_size s → ztl_sector s' lba = ztl_sector s lba).
Proof.
  intros Hpre Horder Heq.
  pose proof (wp_on_gc_collect v order _ s Hpre Horder (λ s' o a b, conj a b)) as Hw.
  apply (wp_elim _ _ _ _ _ Heq) in Hw. destruct Hw as [Hret Hg]. split; [done|].
  destruct o as [[]|r].
  - by destruct (gc_done_view v s s' Hpre Hg) as (? & ? & ? & ?).
  - by destruct (gc_step_view v s s' Hg) as (? & ? & ?).
Qed.

(** Zone 2 filled with two versions of segment 0. *)
Definition small_rewritten : ZTL Emulator Empty_set :=
  (write_all [(0, two_sectors); (0, pattern_sector 5 ++ pattern_sector 6)] small_ztl).1.

(** A one-segment write of a concrete state, checked by evaluation. *)
Ltac write_wf s seg data :=
  apply (ZTL_Write_wf s id 0 0 data seg 1 _ (Ok tt));
  [|vm_compute; discriminate|lia|lia|vm_compute; discriminate|vm_compute; reflexivity
   |apply injective_projections; vm_compute; reflexivity].

Lemma small_rewritten_wf : ztl_wf small_rewritten.
Proof.
  write_wf (ZTL_Write id 0 0 0 two_sectors small_ztl).1 0 (pattern_sector 5 ++ pattern_sector 6). write_wf small_ztl 0 two_sectors. apply small_ztl_wf.
Qed.

Lemma small_rewritten_pre : gc_pre 2 small_rewritten.
Proof.
  split; [apply small_rewritten_wf| | |by intros []|vm_compute; reflexivity|vm_compute; discriminate].
  - split; [lia|]. vm_compute. reflexivity.
  - vm_compute. intros Hin. repeat (apply elem_of_cons in Hin as [?|Hin]; [done|]). by apply not_elem_of_nil in Hin.
Qed.

Lemma collect_keeps_store_witness :
  let s' := (on_gc (collectZone id 2) small_rewritten).1 in
  2 ∈ zm_freeList (z_zm s') ∧ ztl_sector s' 1 = ztl_sector small_rewritten 1.
Proof.
  destruct (collect_keeps_store small_rewritten 2 id (on_gc (collectZone id 2) small_rewritten).1 (Ok tt))
    as (_ & _ & _ & Hfree & Hview).
  - exact small_rewritten_pre.
  - intros l. reflexivity.
  - apply injective_projections; vm_compute; reflexivity.
  - split; [by apply Hfree|]. apply Hview; [|split; [lia|vm_compute; reflexivity]].
    right. vm_compute. left.
Defined.

(** A cycle of the collector. *)
Lemma runCycle_view {D J} `{ZonedDeviceSpec D} `{JournalSpec J} {Old : OldZones} (s : ZTL D J) order s' o :
  ztl_wf s → (∀ v, SelectGCVictim (z_zm s) = (v, true) → gc_pre v s) → (∀ l, order l ≡ₚ l) →
  on_gc (runCycle order) s = (s', o) →
  o = Ok tt ∧ ztl_wf s' ∧ ztl_size s' = ztl_size s ∧
  (zone0_kept s s' → ∀ lba, 0 ≤ lba < ztl_size s → ztl_sector s' lba = ztl_sector s lba).
Proof.
  intros Hwf Hpre Horder Heq.
  set (P := λ s' (o : outcome unit), o = Ok tt ∧ ztl_wf s' ∧ ztl_size s' = ztl_size s ∧
    (zone0_kept s s' → ∀ lba, 0 ≤ lba < ztl_size s → ztl_sector s' lba = ztl_sector s lba)).
  enough (Hw : wp (on_gc (runCycle order)) P s) by exact (wp_elim _ _ _ _ _ Heq Hw).
  clear Heq. unfold on_gc, runCycle, stats_modify. wp_steps. apply wp_deferred. wp_steps.
  set (g1 := gc_set_stats _ (z_gc s)). set (g2 := gc_set_stats _ g1).
  assert (Hs : ∀ v, gc_step v s (z_set_gc g2 s)) by (intros v; by apply gc_step_same; try done; apply Hwf).
  change (the_zm g2) with (z_zm s). destruct (SelectGCVictim (z_zm s)) as [v [|]] eqn:Hv; cbn [negb]; wp_steps.
  2: { split; [done|]. apply (gc_step_view 0). by apply gc_step_same; try done; apply Hwf. }
  specialize (Hpre v eq_refl). pose proof (gc_pre_step _ _ _ Hpre (Hs v)) as Hpre2.
  apply (wp_collect v s order); [exact Hpre2|done|]. intros g' o' Hret Hg'.
  assert (Hfin : P (z_set_gc (gc_set_stats (stats_run 0 0 (gc_stats g')) g') s) (Ok tt)).
  { split; [done|]. destruct o' as [[]|r].
    - destruct (gc_done_view v s (z_set_gc (gc_set_stats (stats_run 0 0 (gc_stats g')) g') s) Hpre)
        as (? & ? & _ & ?); [|done].
      destruct Hg' as (mid & Hd). apply (gc_done_same v s s (z_set_gc g' s)); [|by apply gc_step_same; try done; apply Hd|done|done].
      exists mid. destruct Hd as [Hst ? ? ? ? ? ?]. split; try done. eapply gc_step_trans; [apply Hs|exact Hst].
    - apply (gc_step_view v). eapply gc_step_trans; [apply Hs|]. eapply gc_step_trans; [exact Hg'|].
      by apply gc_step_same; try done; apply Hg'. }
  destruct o' as [[]|[e| |]]; try done; wp_steps; exact Hfin.
Qed.

(** A background cycle never fails, and keeps the store provided the zone
    the selection picks may be collected. *)
Theorem run_cycle_keeps_store {D J} `{ZonedDeviceSpec D} `{JournalSpec J} {Old : OldZones} (s : ZTL D J) order s' o :
  ztl_wf s → (∀ v, SelectGCVictim (z_zm s) = (v, true) → gc_pre v s) → (∀ l, order l ≡ₚ l) →
  on_gc (runCycle order) s = (s', o) →
  o = Ok tt ∧ ztl_wf s' ∧ ztl_size s' = ztl_size s ∧
  (zone0_kept s s' → ∀ lba, 0 ≤ lba < ztl_size s → ztl_sector s' lba = ztl_sector s lba).
Proof. apply runCycle_view. Qed.

(** Five zones of five sectors, one open at a time: zone 4 holds two segments
    and is closed, zone 3 takes writes; everything is flushed. *)
Definition layer5 : ZTL Emulator Empty_set :=
  match ZTL_New small_cfg (fresh_emulator 5 5 1) None with Ok s => s | Stop _ => small_ztl end.
Definition layer5_written : ZTL Emulator Empty_set :=
  (write_all [(0, two_sectors); (2, two_sectors); (4, two_sectors)] layer5).1.
Definition layer5_flushed : ZTL Emulator Empty_set := (ZTL_Flush reverse layer5_written).1.

Lemma layer5_wf : ztl_wf layer5.
Proof.
  destruct (ZTL_New_wf small_cfg (fresh_emulator 5 5 1) None layer5) as [Hwf _]; try done.
  - by apply fresh_emulator_wf.
  - apply Forall_lookup. vm_compute. repeat constructor; done.
Qed.

Lemma layer5_flushed_wf : ztl_wf layer5_flushed.
Proof.
  assert (Hwf : ztl_wf layer5_written).
  { write_wf (write_all [(0, two_sectors); (2, two_sectors)] layer5).1 2 two_sectors.
    write_wf (write_all [(0, two_sectors)] layer5).1 1 two_sectors. write_wf layer5 0 two_sectors. apply layer5_wf. }
  assert (Heq : ZTL_Flush reverse layer5_written = (layer5_flushed, Ok tt))
    by (apply injective_projections; vm_compute; reflexivity).
  apply (wp_elim _ (λ s' _, ztl_wf s') _ _ _ Heq).
  apply wp_ZTL_Flush; [exact Hwf|apply reverse_Permutation|]. intros s' o _ Hn _ _. apply Hn.
Qed.

Lemma layer5_flushed_pre : gc_pre 4 layer5_flushed.
Proof.
  split; [exact layer5_flushed_wf| | |by intros []|vm_compute; reflexivity|vm_compute; discriminate].
  - split; [lia|]. vm_compute. reflexivity.
  - vm_compute. intros Hin. repeat (apply elem_of_cons in Hin as [?|Hin]; [done|]). by apply not_elem_of_nil in Hin.
Qed.

Lemma run_cycle_keeps_store_witness :
  SelectGCVictim (z_zm layer5_flushed) = (4, true) ∧
  ztl_sector (on_gc (runCycle id) layer5_flushed).1 1 = ztl_sector layer5_flushed 1.
Proof.
  assert (Hsel : SelectGCVictim (z_zm layer5_flushed) = (4, true)) by (vm_compute; reflexivity).
  split; [exact Hsel|].
  destruct (run_cycle_keeps_store layer5_flushed id (on_gc (runCycle id) layer5_flushed).1 (Ok tt))
    as (_ & _ & _ & Hview).
  - exact layer5_flushed_wf.
  - intros v Hv. rw Hsel in Hv. injection Hv as <-. exact layer5_flushed_pre.
  - intros l. reflexivity.
  - apply injective_projections; vm_compute; reflexivity.
  - apply Hview; [|split; [lia|vm_compute; reflexivity]]. right. vm_compute. left.
Defined.

(** A zone filled by writes stays open for the manager, so selection never
    offers it: after segment 0 is written eight times, four zones are full and
    hold one live segment between them, and there is still no victim. *)
Theorem full_zones_never_selected :
  match ZTL_New small_cfg (fresh_emulator 5 4 5) None with
  | Ok s =>
      let '(s1, o) := write_all (replicate 8 (0, two_sectors)) s in
      o = Ok tt ∧ FreeZoneCount (z_zm s1) = 1 ∧ P2LMap_Len (z_p2l s1) = 1 ∧
      SelectGCVictim (z_zm s1) = (0, false)
  | Stop _ => False
  end.
Proof. vm_compute. repeat split. Qed.

(** The collector reads its victim from the device only.  Zones of five
    sectors, one open at a time: two segments written to zone 4 leave one sector
    unused, the third write moves on and closes zone 4 with its data still in
    the write buffer; a collection then takes zone 4, copies zeros, and the two
    acknowledged segments are gone. *)
Theorem gc_loses_buffered_data :
  match ZTL_New small_cfg (fresh_emulator 5 5 1) None with
  | Ok s =>
      let '(s1, o) := write_all [(0, two_sectors); (2, two_sectors); (4, two_sectors)] s in
      let '(s2, o') := on_gc (runCycle id) s1 in
      o = Ok tt ∧ (ZTL_Read 0 2 s1).2 = Ok two_sectors ∧
      o' = Ok tt ∧ (ZTL_Read 0 2 s2).2 = Ok (zero_sector ++ zero_sector)
  | Stop _ => False
  end.
Proof. vm_compute. repeat split. Qed.

(** The zone that takes writes can be collected.  Flushing in another order
    leaves the write zone closed; the cycle picks it, resets it and puts it on the
    free list while the layer keeps writing to it. *)
Theorem write_zone_collected :
  let s := (ZTL_Flush id layer5_written).1 in
  let '(s', o) := on_gc (runCycle id) s in
  z_currentWriteZone s = 3 ∧ SelectGCVictim (z_zm s) = (3, true) ∧
  o = Ok tt ∧ z_currentWriteZone s' = 3 ∧ z_currentZoneOpen s' = true ∧
  last (zm_freeList (z_zm s')) = Some 3.
Proof. vm_compute. repeat split. Qed.
