(* ===== verification/Background.v ===== *)
(** * The layer with its background work

    Commands interleaved with what the layer does on its own: the collector's
    loop ([GCEngine.run]), the flushing of aged buffers and the journal's commit
    loop.  Every lock-protected operation is one step, and the steps come in any
    order. *)

From S2P Require Import Bytes Float64 Config Zbc Backend Segment Emulator ZoneManager WriteBuffer Gc Ztl ZtlInv ZtlSpec GcSpec ZtlTheorems ZtlLimits GcTheorems.

(** ** The collector's loop *)
Section gc_loop.
Context {D J : Type} `{ZonedDevice D} `{JournalOps J}.

(** What [select] wakes up for: a manual trigger or the ticker. *)
Inductive gc_wakeup := WakeTrigger | WakeTick.

Definition gc_wake (order : list (p2lKey * Z) → list (p2lKey * Z)) (w : gc_wakeup) : M (GCEngine D J) unit :=
  match w with
  | WakeTrigger => runCycle order
  | WakeTick => trigger ← gets shouldTrigger; if (trigger : bool) then runCycle order else mret tt
  end.

(** [TriggerManual] puts a token in a channel of capacity one; [run] takes a token
    or a tick, in either order, until it is stopped. *)
Inductive gc_run (order : list (p2lKey * Z) → list (p2lKey * Z)) : bool * GCEngine D J → bool * GCEngine D J → Prop :=
| run_stopped p g : gc_run order (p, g) (p, g)
| run_TriggerManual p g s : gc_run order (true, g) s → gc_run order (p, g) s
| run_trigger g g1 s : gc_wake order WakeTrigger g = (g1, Ok tt) → gc_run order (false, g1) s → gc_run order (true, g) s
| run_tick p g g1 s : gc_wake order WakeTick g = (g1, Ok tt) → gc_run order (p, g1) s → gc_run order (p, g) s.
End gc_loop.

Section background.
Context {D J : Type} `{ZonedDeviceSpec D} `{JournalSpec J} {Old : OldZones}.
Implicit Types s : ZTL D J.

(** ** Events *)
Inductive event :=
| EvIO (c : io)
| EvFlushZone (zoneID : Z)     (* one aged buffer, by [flushAged] *)
| EvCommit (ok : bool)         (* a tick of the commit loop, and whether it succeeds *)
| EvCollect (w : gc_wakeup).

Definition ev_io (e : event) : list io := match e with EvIO c => [c] | _ => [] end.

(** The zone the collector would pick may be collected. *)
Definition collectable s : Prop := ∀ v, SelectGCVictim (z_zm s) = (v, true) → gc_pre v s.

Inductive sys_step : ZTL D J → event → list (list byte) → ZTL D J → Prop :=
| sys_io s c out s' :
    io_ok (ztl_size s) (z_sectorsPerSeg s) c → ztl_step s c out s' → sys_step s (EvIO c) out s'
| sys_flush s zoneID s' :
    on_wbd (WriteBuffer_Flush zoneID) s = (s', Ok tt) → sys_step s (EvFlushZone zoneID) [] s'
| sys_commit s s' o : journal_commit s = (s', o) → sys_step s (EvCommit (is_ok o)) [] s'
| sys_collect s order w s' o :
    collectable s → (∀ l, order l ≡ₚ l) → on_gc (gc_wake order w) s = (s', o) → sys_step s (EvCollect w) [] s'.

(** Runs in which zone 0 stays out of use. *)
Inductive sys_run : ZTL D J → list event → list (list byte) → ZTL D J → Prop :=
| sys_nil s : sys_run s [] [] s
| sys_cons s e out s1 es outs s2 :
    sys_step s e out s1 → zone0_kept s s1 → sys_run s1 es outs s2 → sys_run s (e :: es) (out ++ outs) s2.

(** ** Background steps keep the store *)
Lemma wake_view order w s s' o :
  ztl_wf s → collectable s → (∀ l, order l ≡ₚ l) → on_gc (gc_wake order w) s = (s', o) →
  ztl_wf s' ∧ ztl_size s' = ztl_size s ∧
  (zone0_kept s s' → ∀ lba, 0 ≤ lba < ztl_size s → ztl_sector s' lba = ztl_sector s lba).
Proof.
  intros Hwf Hc Horder Heq.
  assert (Hcycle : on_gc (runCycle order) s = (s', o) → ztl_wf s' ∧ ztl_size s' = ztl_size s ∧
    (zone0_kept s s' → ∀ lba, 0 ≤ lba < ztl_size s → ztl_sector s' lba = ztl_sector s lba)).
  { intros Hr. by destruct (runCycle_view s order s' o Hwf Hc Horder Hr) as (_ & ? & ? & ?). }
  destruct w; [by apply Hcycle|]. unfold gc_wake, on_gc, zoom in Heq. M_unfold. cbn in Heq.
  unfold mbind, M_bind, gets in Heq. cbn in Heq.
  destruct (shouldTrigger (z_gc s)); [by apply Hcycle|]. cbn in Heq. injection Heq as <- _.
  assert (Hs : z_set_gc (z_gc s) s = s) by by destruct s. by rw Hs.
Qed.

Lemma on_gc_frame {A} (m : M (GCEngine D J) A) s s' o : on_gc m s = (s', o) →
  z_sectorsPerSeg s' = z_sectorsPerSeg s ∧ z_currentZoneOpen s' = z_currentZoneOpen s ∧
  z_currentWriteZone s' = z_currentWriteZone s.
Proof. unfold on_gc, zoom. destruct (m (z_gc s)). by intros [= <- _]. Qed.

(** A background step shows the same store. *)
Lemma background_step s e s' : ev_io e = [] → ztl_wf s → sys_step s e [] s' →
  ztl_wf s' ∧ ztl_size s' = ztl_size s ∧ z_sectorsPerSeg s' = z_sectorsPerSeg s ∧
  (zone0_unused s → zone0_kept s s' →
   zone0_unused s' ∧ ∀ l, 0 ≤ l < ztl_size s → ztl_sector s' l = ztl_sector s l).
Proof.
  intros He Hwf Hstep.
  assert (Hsame : ztl_same s s' → ztl_wf s' ∧ ztl_size s' = ztl_size s ∧ z_sectorsPerSeg s' = z_sectorsPerSeg s ∧
    (zone0_unused s → zone0_kept s s' → zone0_unused s' ∧ ∀ l, 0 ≤ l < ztl_size s → ztl_sector s' l = ztl_sector s l)).
  { intros (Hw & Ht & Hs & [_ Hf] & Hv). split_and!; [done|unfold ztl_size; by rw Ht Hs|done|].
    intros Hu Hk. split; [by apply Hf|done]. }
  inversion Hstep as [s0 c out s1 Hok Hio|s0 z s1 Heq|s0 s1 o Heq|s0 order w s1 o Hc Horder Heq]; subst; [done|..].
  - apply Hsame. pose proof (wp_ztl_flush z _ s Hwf (λ s' o _ _ Hs, Hs)) as Hw.
    by apply (wp_elim _ _ _ _ _ Heq) in Hw; apply Hw.
  - apply Hsame. unfold journal_commit in Heq.
    assert (Hw : wp (on_gc (with_journal GroupCommit)) (λ s' _, ztl_same s s') s).
    { unfold on_gc. wp_step. apply wp_with_journal; [apply Hwf|intros; by apply jr_GroupCommit|].
      intros oj o' Hoj _. by apply ztl_same_journal. }
    exact (wp_elim _ _ _ _ _ Heq Hw).
  - destruct (wake_view order w s s' o Hwf Hc Horder Heq) as (Hw & Hsz & Hv).
    destruct (on_gc_frame _ _ _ _ Heq) as (Hs & Ho & Hcur). split_and!; [done|done|done|].
    intros Hu Hk. split; [unfold zone0_unused in *; by rw Ho Hcur|by apply Hv].
Qed.

Lemma sys_run_from s es outs s' (st : store) :
  (∀ l, 0 ≤ l < ztl_size s → ztl_sector s l = st l) →
  ztl_wf s → zone0_unused s → sys_run s es outs s' →
  outs = (spec_run (z_sectorsPerSeg s) st (es ≫= ev_io)).1 ∧
  ∀ l, 0 ≤ l < ztl_size s → ztl_sector s' l = (spec_run (z_sectorsPerSeg s) st (es ≫= ev_io)).2 l.
Proof.
  intros Hst Hwf Hu Hrun. revert st Hst Hwf Hu.
  induction Hrun as [s|s e out s1 es outs s2 Hstep Hk Hrun IH]; intros st Hst Hwf Hu; [done|].
  destruct (decide (ev_io e = [])) as [He|He].
  - assert (out = []) as -> by by inversion Hstep; subst.
    destruct (background_step s e s1 He Hwf Hstep) as (Hwf1 & Hsz & Hs & Hv). destruct (Hv Hu Hk) as [Hu1 Hv1].
    cbn [mbind list_bind]. rw He. rw -Hsz -Hs. apply IH; [|done|done]. intros l Hl. rw Hsz in Hl. by rw Hv1 // Hst.
  - inversion Hstep as [s0 c out0 s1' Hok Hio| | |]; subst; try done.
    destruct (ztl_step_spec s st c out s1 Hwf Hst Hok Hio) as [Hn Hspec].
    destruct (Hspec Hu Hk) as [-> Hst1]. destruct Hn as (Hwf1 & Hsz & Hsps & Hf).
    assert (Hsize : ztl_size s1 = ztl_size s) by (unfold ztl_size; by rw Hsz Hsps).
    rw -Hsize in Hst1. destruct (IH _ Hst1 Hwf1) as [Houts Hs2]; [by apply Hf|].
    rw Hsize Hsps in Houts Hs2. cbn [mbind list_bind ev_io app spec_run].
    destruct (spec_run (z_sectorsPerSeg s) (spec_next (z_sectorsPerSeg s) st c) (es ≫= ev_io)) as [os st'] eqn:E.
    cbn in *. by rw Houts.
Qed.
End background.

(** C6: background work. Reads, flushes, unmaps and writes of whole segments, inside
    the store, that succeed and do not find an emergency collection due, are
    interleaved in any order with flushes of a buffer that succeed, commits of the
    journal that succeed or fail, and cycles of the collector, triggered or ticking,
    each of which - like each command - is one step of the model, on a zone that may
    be collected ([gc_pre]). The answers and the contents are those of a flat array
    of sectors to which the commands alone are applied, as long as zone 0 is not
    taken into use. *)
Theorem background_refines_store {D J} `{ZonedDeviceSpec D} `{JournalSpec J} {Old : OldZones} (s : ZTL D J) es outs s' :
  ztl_wf s → zone0_unused s → sys_run s es outs s' →
  let spec := spec_run (z_sectorsPerSeg s) (ztl_sector s) (es ≫= ev_io) in
  outs = spec.1 ∧ ∀ l, 0 ≤ l < ztl_size s → ztl_sector s' l = spec.2 l.
Proof. intros Hwf Hu Hrun. by apply sys_run_from. Qed.

(** The journal is committed and zone 4 collected before a read. *)
Definition layer5_collected : ZTL Emulator Empty_set := (on_gc (gc_wake id WakeTrigger) layer5_flushed).1.

Lemma background_refines_store_witness : (ZTL_Read 0 2 layer5_collected).2 = Ok two_sectors.
Proof.
  assert (Hread : ∃ data, (ZTL_Read 0 2 layer5_collected).2 = Ok data) by (vm_compute; by eexists).
  destruct Hread as [data Hread].
  assert (Hrun : sys_run layer5_flushed [EvCommit true; EvCollect WakeTrigger; EvIO (IORead 0 2)] [data] (ZTL_Read 0 2 layer5_collected).1).
  { apply (sys_cons _ _ [] layer5_flushed _ [data]).
    - apply (sys_commit _ _ (Ok tt)). apply injective_projections; vm_compute; reflexivity.
    - right. vm_compute. left.
    - apply (sys_cons _ _ [] layer5_collected _ [data]).
      + apply (sys_collect _ id _ _ (Ok tt)); [|reflexivity|apply injective_projections; vm_compute; reflexivity].
        intros v Hv. assert (Hsel : SelectGCVictim (z_zm layer5_flushed) = (4, true)) by (vm_compute; reflexivity).
        rw Hsel in Hv. injection Hv as <-. exact layer5_flushed_pre.
      + right. vm_compute. left.
      + apply (sys_cons _ _ [data] (ZTL_Read 0 2 layer5_collected).1 _ []); [|right; vm_compute; left|apply sys_nil].
        apply sys_io; [split; [lia|split; [lia|vm_compute; discriminate]]|].
        apply step_read. rw -Hread. apply surjective_pairing. }
  destruct (background_refines_store layer5_flushed _ _ _ layer5_flushed_wf ltac:(vm_compute; discriminate) Hrun) as [Hout _].
  assert (Hd : [data] = [two_sectors]) by (etransitivity; [exact Hout|vm_compute; reflexivity]).
  rewrite Hread. exact (f_equal (λ l, Ok (default [] (head l))) Hd).
Defined.
