(* ===== verification/Initiators.v ===== *)
(** * Several initiators at once

    Connections over one translation layer, their PDUs interleaved with each other
    and with the layer's background work.  The PDUs of a command before its last
    one do not touch the device; a command takes effect with its last. *)

From S2P Require Import Bytes Float64 Config Zbc Backend Segment Emulator ZoneManager WriteBuffer Gc Ztl ZtlInv ZtlSpec GcSpec ZtlTheorems ZtlLimits GcTheorems Background Pdu Network Params DataTransfer Scsi ScsiTheorems ScsiStore Connection ConnectionTheorems IscsiStore.

(** ** What does not touch the device *)
Section device_free.
Context {B : Type}.
Implicit Types c : Connection B.

(** The same whatever the device is, and the device is as before. *)
Definition device_free {A} (m : M (Connection B) A) : Prop :=
  ∀ d c, m (c_set_device d c) = (c_set_device d (m c).1, (m c).2).

Lemma device_free_ret {A} (a : A) : device_free (mret a).
Proof using. done. Qed.
Lemma device_free_bind {A A'} (m : M (Connection B) A) (k : A → M (Connection B) A') :
  device_free m → (∀ a, device_free (k a)) → device_free (m ≫= k).
Proof using.
  intros Hm Hk d c. unfold mbind, M_bind. rw (Hm d c). destruct (m c) as [c1 [a|r]]; [apply Hk|done].
Qed.
Lemma device_free_attempt {A} (m : M (Connection B) A) : device_free m → device_free (attempt m).
Proof using. intros Hm d c. unfold attempt. rw (Hm d c). by destruct (m c) as [c1 [a|[e| |]]]. Qed.
Lemma device_free_conn {A} (m : M Conn A) : device_free (on_conn m).
Proof using. intros d c. unfold on_conn, zoom. cbn [c_conn c_set_device]. by destruct (m (c_conn c)). Qed.
Lemma device_free_reassembly {A} (m : M ReassemblyMap A) : device_free (on_reassembly m).
Proof using. intros d c. unfold on_reassembly, zoom. cbn [c_reassembly c_set_device]. by destruct (m (c_reassembly c)). Qed.

(** Whatever runs before it, on any device. *)
Lemma device_free_at d d' c m : device_free (A := unit) m → 
  ∀ c1 o, m (c_set_device d c) = (c1, o) → c_device c1 = d ∧ m (c_set_device d' c) = (c_set_device d' c1, o).
Proof using.
  intros Hm c1 o Heq. rw (Hm d c) in Heq. injection Heq as <- <-. split; [done|]. by rw (Hm d' c).
Qed.

Lemma start_transfer_free req sn exp mx : device_free (start_transfer (B := B) req sn exp mx).
Proof using.
  unfold start_transfer. apply device_free_bind; [apply device_free_reassembly|intros []].
  apply device_free_bind; [|intros []; apply device_free_conn].
  case_match; [|done]. apply device_free_bind; [apply device_free_attempt, device_free_reassembly|intros []; done].
Qed.

Lemma addDataOut_pending p m m' o : dout_final p = false → addDataOut p m = (m', Ok o) → o = None.
Proof using.
  unfold addDataOut. M_unfold. intros Hf. destruct (m !! PDU_InitiatorTaskTag p) as [b|]; [|done].
  destruct (dataOutBuffer_add p b) as [[b' final]|] eqn:Hadd; [|done].
  assert (final = false) as ->.
  { revert Hadd. unfold dataOutBuffer_add. cbv zeta. fold (dout_final p). rw Hf.
    destruct (if u32 (db_cap b) <? _ then _ else _) as [data cap]. destruct (len data <? _); [done|]. by intros [= _ <-]. }
  by intros [= _ <-].
Qed.

Context `{BlockDevice B} (h : Handler) (la : string).

Lemma dispatch_piece_free p : PDU_Opcode p = OpcodeDataOut → dout_final p = false → device_free (dispatch h la p).
Proof using.
  intros Hop Hf d c.
  assert (Hd : ∀ c, dispatch h la p c = handleDataOut h p (c_expCmdSN c) (c_maxCmdSN c) c).
  { intros c'. unfold dispatch. by rw Hop. }
  rw !Hd. cbn [c_expCmdSN c_maxCmdSN c_set_device]. unfold handleDataOut, mbind, M_bind.
  rw (device_free_attempt _ (device_free_reassembly (addDataOut p)) d c).
  destruct (attempt (on_reassembly (addDataOut p)) c) as [c1 [[o|e]|r]] eqn:Hatt; [|done..].
  assert (o = None) as ->; [|done].
  unfold attempt, on_reassembly, zoom in Hatt. destruct (addDataOut p (c_reassembly c)) as [m' [o'|[e| |]]] eqn:Hadd; try done.
  injection Hatt as _ <-. by eapply addDataOut_pending.
Qed.

Lemma dispatch_start_free itt cdb req :
  is_command itt cdb req → req_flag SCSICmdFlagWrite req = true → req_flag SCSICmdFlagFinal req = false →
  (u32 (len (p_DataSegment req)) <? req_expectedLen req) = true → device_free (dispatch h la req).
Proof using.
  intros Hreq HW HF Hlt. 
  set (prep := λ c, c_set_pending (<[itt := cdb]> (c_pendingCDB c)) (<[itt := req]> (c_pendingReq c)) (after_command req c)).
  enough (Heq : ∀ c, dispatch h la req c =
    start_transfer req (c_statSN (prep c)) (c_expCmdSN (prep c)) (c_maxCmdSN (prep c)) (prep c)).
  { intros d c. rw !Heq. exact (start_transfer_free req _ _ _ d (prep c)). }
  intros c. rw (dispatch_command h la itt cdb req c Hreq). cbv zeta. rw HW Hlt. cbn [andb].
  unfold handleSCSICmd. rw (bind_ok _ _ _ _ _ (eq_refl : gets id _ = (_, Ok _))). cbv zeta. rw HW HF Hlt. cbn [orb negb andb].
  by destruct (negb _).
Qed.

(** The PDUs of a command but the last. *)
Lemma carries_prefix_free itt cdb D rd sent p q rest :
  carries_command itt cdb D rd (sent ++ p :: q :: rest) → device_free (dispatch h la p).
Proof using.
  intros Hc. remember (sent ++ p :: q :: rest) as pdus eqn:Hp.
  destruct Hc as [req _ _ _|req ps last Hreq _ HW HF Hexp HD Hlt _ Hps Hnf _ _].
  - by destruct sent as [|x [|]].
  - destruct sent as [|x sent].
    + injection Hp as <- _. eapply dispatch_start_free; [done..|]. rw Hexp u32_small; [|by apply Z.ltb_lt].
      pose proof (len_nonneg (p_DataSegment req)). lia.
    + injection Hp as _ Hp. assert (Hin : p ∈ ps).
      { destruct rest as [|r rest] using rev_ind.
        - change (p :: [q]) with ([p] ++ [q]) in Hp. rw app_assoc in Hp. apply app_inj_tail in Hp as [-> _]. set_solver.
        - clear IHrest. rw !app_comm_cons app_assoc in Hp. apply app_inj_tail in Hp as [-> _]. set_solver. }
      destruct (Hps p) as [[_ Hop _] _]; [set_solver|]. by apply dispatch_piece_free; [|apply Hnf].
Qed.
End device_free.

(** ** Initiators *)
Lemma for_each_snoc {S X} (f : unit → X → M S unit) xs x s s1 r :
  for_each f tt xs s = (s1, Ok tt) → f tt x s1 = r → for_each f tt (xs ++ [x]) s = r.
Proof. intros Hxs Hx. by rw (for_each_app _ _ _ _ _ _ _ Hxs) for_each_one. Qed.

Section initiators.
Context {D J : Type} `{ZonedDeviceSpec D} `{JournalSpec J} {Old : OldZones} (env : ZtlEnv) (h : Handler).
#[local] Instance initiators_device : BlockDevice (ZTL D J) := ZTL_device env.
Implicit Types s : ZTL D J.

(** A command on its way: what was sent before it, and its PDUs still to come. *)
Record progress := { pg_itt : Z; pg_cmd : scsi_cmd; pg_start : Conn; pg_rest : list PDU }.
(** An initiator, with its connection in the target; the device of the connection
    is the shared one, put in when a PDU arrives. *)
Record initiator := mkInitiator {
  in_addr : string; in_conn : Connection (ZTL D J); in_progress : option progress;
}.

Inductive action :=
| AcCommand (i : nat) (cmd : scsi_cmd)      (* initiator [i] has its answer *)
| AcBackground (e : event).
Definition action_event (sps : Z) (a : action) : event :=
  match a with AcCommand _ cmd => EvIO (cmd_io sps cmd) | AcBackground e => e end.

(** Every initiator has one command on its way at a time; the PDUs of all come in
    any order.  The actions are in the order in which commands are answered. *)
Inductive network_run : ZTL D J → list initiator → list action → list (list byte) → ZTL D J → list initiator → Prop :=
| nr_nil s ins : network_run s ins [] [] s ins
| nr_begin i la c itt cmd pdus s ins acts outs s' ins' :
    ins !! i = Some (mkInitiator la c None) →
    cmd_ok (ztl_size s) (z_sectorsPerSeg s) cmd → read_fits cmd →
    carries_command itt (pad16 (cmd_cdb cmd)) (cmd_data cmd) (is_read cmd) pdus →
    network_run s (<[i := mkInitiator la c (Some {| pg_itt := itt; pg_cmd := cmd; pg_start := c_conn c; pg_rest := pdus |})]> ins)
      acts outs s' ins' →
    network_run s ins acts outs s' ins'
| nr_pdu i la c itt cmd start p q rest c1 s ins acts outs s' ins' :
    ins !! i = Some (mkInitiator la c (Some {| pg_itt := itt; pg_cmd := cmd; pg_start := start; pg_rest := p :: q :: rest |})) →
    dispatch h la p (c_set_device s c) = (c1, Ok tt) →
    network_run (c_device c1)
      (<[i := mkInitiator la c1 (Some {| pg_itt := itt; pg_cmd := cmd; pg_start := start; pg_rest := q :: rest |})]> ins)
      acts outs s' ins' →
    network_run s ins acts outs s' ins'
| nr_answer i la c itt cmd start p c1 out data s ins acts outs s' ins' :
    ins !! i = Some (mkInitiator la c (Some {| pg_itt := itt; pg_cmd := cmd; pg_start := start; pg_rest := [p] |})) →
    z_emergencyFreeZones s ≤ FreeZoneCount (z_zm s) →
    dispatch h la p (c_set_device s c) = (c1, Ok tt) →
    c_conn c1 = cn_append out start → answered itt out data StatusGood →
    zone0_kept s (c_device c1) →
    network_run (c_device c1) (<[i := mkInitiator la c1 None]> ins) acts outs s' ins' →
    network_run s ins (AcCommand i cmd :: acts) ((if is_read cmd then [data] else []) ++ outs) s' ins'
| nr_background e s s1 ins acts outs s' ins' :
    ev_io e = [] → sys_step s e [] s1 → zone0_kept s s1 →
    network_run s1 ins acts outs s' ins' →
    network_run s ins (AcBackground e :: acts) outs s' ins'.

(** A connection that works. *)
Definition conn_ok (c : Connection (ZTL D J)) : Prop :=
  cn_writes (c_conn c) = [] ∧ pa_MaxRecvDataSegmentLength (c_params c) < 2^24.

(** What is on its way has been handled as by [dispatch] from the state the
    command found, on any device. *)
Inductive initiator_ok (size sps : Z) : initiator → Prop :=
| io_idle la c : conn_ok c → initiator_ok size sps (mkInitiator la c None)
| io_busy la c c0 itt cmd sent rest :
    conn_ok c0 → cmd_ok size sps cmd → read_fits cmd →
    carries_command itt (pad16 (cmd_cdb cmd)) (cmd_data cmd) (is_read cmd) (sent ++ rest) →
    (∀ d, for_each (λ _ p, dispatch h la p) tt sent (c_set_device d c0) = (c_set_device d c, Ok tt)) →
    initiator_ok size sps
      (mkInitiator la c (Some {| pg_itt := itt; pg_cmd := cmd; pg_start := c_conn c0; pg_rest := rest |})).

(** A PDU that is not the last of its command leaves the device alone. *)
Lemma initiator_pdu size sps la c itt cmd start p q rest c1 s :
  initiator_ok size sps (mkInitiator la c (Some {| pg_itt := itt; pg_cmd := cmd; pg_start := start; pg_rest := p :: q :: rest |})) →
  dispatch h la p (c_set_device s c) = (c1, Ok tt) →
  c_device c1 = s ∧
  initiator_ok size sps (mkInitiator la c1 (Some {| pg_itt := itt; pg_cmd := cmd; pg_start := start; pg_rest := q :: rest |})).
Proof using.
  intros Hok Hdisp. inversion Hok as [|la' c' c0 itt' cmd' sent rest' Hc0 Hcmd Hfit Hcarry Hsent]; subst.
  assert (Hfree : ∀ d, c_device c1 = s ∧ dispatch h la p (c_set_device d c) = (c_set_device d c1, Ok tt)).
  { intros d. apply (device_free_at s d c); [by eapply carries_prefix_free|done]. }
  split; [by apply (Hfree s)|].
  apply (io_busy size sps la c1 c0 itt cmd (sent ++ [p]) (q :: rest)); [done|done|done|by rw -app_assoc|].
  intros d. eapply for_each_snoc; [apply Hsent|]. by apply Hfree.
Qed.

(** The last PDU is a step of the layer. *)
Lemma initiator_answer la c itt cmd start p c1 out data s :
  ztl_wf s → (∀ l, env_zone_order env l ≡ₚ l) →
  initiator_ok (ztl_size s) (z_sectorsPerSeg s)
    (mkInitiator la c (Some {| pg_itt := itt; pg_cmd := cmd; pg_start := start; pg_rest := [p] |})) →
  z_emergencyFreeZones s ≤ FreeZoneCount (z_zm s) →
  dispatch h la p (c_set_device s c) = (c1, Ok tt) →
  c_conn c1 = cn_append out start → answered itt out data StatusGood →
  conn_ok c1 ∧ sys_step s (EvIO (cmd_io (z_sectorsPerSeg s) cmd)) (if is_read cmd then [data] else []) (c_device c1).
Proof using.
  intros Hwf Horder Hok Hfree Hdisp Hconn Hans.
  inversion Hok as [|la' c' c0 itt' cmd' sent rest' [Hw Hmax] Hcmd Hfit Hcarry Hsent]; subst.
  assert (Hrun : for_each (λ _ p, dispatch h la p) tt (sent ++ [p]) (c_set_device s c0) = (c1, Ok tt))
    by by eapply for_each_snoc.
  destruct (target_step env h la (c_set_device s c0) itt cmd (sent ++ [p]) c1 out data) as (data' & Hex & Hread & Hw1 & Hp1); [done..|].
  cbn [c_device c_set_device] in Hex. cbn [c_params c_set_device] in Hp1.
  split; [split; [done|by rw Hp1]|]. pose proof (mw_sps _ _ _ _ (zw_map _ Hwf)) as Hsps.
  destruct (scsi_step env h s cmd data' (c_device c1)) as [Hio Hstep]; [lia|done..|].
  apply sys_io; [done|].
  assert (Houts : (if is_read cmd then [data] else []) = (if cmd is SRead _ _ _ then [data'] else [])).
  { destruct cmd; [by rw Hread|done..]. }
  by rw Houts.
Qed.

Lemma initiators_insert size sps (ins : list initiator) i x :
  Forall (initiator_ok size sps) ins → initiator_ok size sps x → Forall (initiator_ok size sps) (<[i := x]> ins).
Proof using. intros Hins Hx. by apply Forall_insert. Qed.

(** A run of the network is a run of the layer. *)
Lemma network_run_sys s ins acts outs s' ins' :
  ztl_wf s → (∀ l, env_zone_order env l ≡ₚ l) → zone0_unused s →
  Forall (initiator_ok (ztl_size s) (z_sectorsPerSeg s)) ins → network_run s ins acts outs s' ins' →
  sys_run s (action_event (z_sectorsPerSeg s) <$> acts) outs s'.
Proof using.
  intros Hwf Horder Hu Hins Hrun. revert Hwf Hu Hins.
  induction Hrun as [s ins|i la c itt cmd pdus s ins acts outs s' ins' Hi Hcmd Hfit Hcarry _ IH
                    |i la c itt cmd start p q rest c1 s ins acts outs s' ins' Hi Hdisp _ IH
                    |i la c itt cmd start p c1 out data s ins acts outs s' ins' Hi Hfree Hdisp Hconn Hans Hk _ IH
                    |e s s1 ins acts outs s' ins' He Hstep Hk _ IH]; intros Hwf Hu Hins; [constructor|..].
  - apply IH; [done|done|]. apply initiators_insert; [done|].
    pose proof (Forall_lookup_1 _ _ _ _ Hins Hi) as Hc. inversion Hc; subst.
    by apply (io_busy _ _ la c c itt cmd []).
  - pose proof (Forall_lookup_1 _ _ _ _ Hins Hi) as Hc.
    destruct (initiator_pdu _ _ _ _ _ _ _ _ _ _ c1 s Hc Hdisp) as [Hdev Hc1]. rw Hdev in IH.
    apply IH; [done|done|by apply initiators_insert].
  - pose proof (Forall_lookup_1 _ _ _ _ Hins Hi) as Hc.
    destruct (initiator_answer la c itt cmd start p c1 out data s) as [Hc1 Hstep]; [done..|].
    inversion Hstep as [? ? ? ? Hio Hz| | |]; subst.
    destruct (ztl_step_spec s (ztl_sector s) _ _ _ Hwf ltac:(done) Hio Hz) as [(Hwf1 & Hsz & Hsps & Hf) _].
    assert (Hsize : ztl_size (c_device c1) = ztl_size s) by (unfold ztl_size; by rw Hsz Hsps).
    cbn [fmap list_fmap]. apply (sys_cons s _ _ (c_device c1)); [exact Hstep|done|]. rw Hsize Hsps in IH.
    apply IH; [done|by apply Hf|]. apply initiators_insert; [done|by constructor].
  - destruct (background_step s e s1 He Hwf Hstep) as (Hwf1 & Hsz & Hsps & Hv).
    cbn [fmap list_fmap]. apply (sys_cons s _ [] s1); [exact Hstep|done|]. rw Hsz Hsps in IH.
    apply IH; [done|by apply Hv|done].
Qed.
End initiators.

(** C2: several initiators. Any number of initiators send commands - READ, WRITE of
    whole segments (less than 4 GiB each), SYNCHRONIZE CACHE(10) and UNMAP of one
    range, inside the disk - over connections that work, and read answers with
    status GOOD. A command is sent in one of the forms the target supports
    ([carries_command]): one command PDU, with the F bit and all the data if it is a
    write; or, for a write, a command PDU without the F bit that carries less than
    all the data, and the rest in Data-Out PDUs in any order, the final bit on the
    last. (A write whose command PDU has the F bit and data still to come is
    refused, [solicited_write_refused]; one with all the data but no F bit is never
    carried out, [complete_write_stuck].) The PDUs of all initiators are interleaved
    in any way with each other and with the layer's background work - flushes of a
    buffer that succeed, commits that succeed or fail, cycles of the collector on a
    zone that may be collected ([gc_pre]); handling a PDU, and a piece of background
    work, is one step of the model. Then the data the reads return are those of a
    flat array of sectors to which each command is applied once, in the order of the
    answers, and the store ends with that array's contents; as long as no emergency
    collection is due and zone 0 is not taken into use. *)
Theorem initiators_refine_store {D J} `{ZonedDeviceSpec D} `{JournalSpec J} {Old : OldZones} env h (s s' : ZTL D J) conns acts outs ins' :
  ztl_wf s → zone0_unused s → (∀ l, env_zone_order env l ≡ₚ l) → Forall (λ x, conn_ok x.2) conns →
  network_run env h s ((λ x, mkInitiator x.1 x.2 None) <$> conns) acts outs s' ins' →
  let spec := spec_run (z_sectorsPerSeg s) (ztl_sector s) ((action_event (z_sectorsPerSeg s) <$> acts) ≫= ev_io) in
  outs = spec.1 ∧ ∀ l, 0 ≤ l < ztl_size s → ztl_sector s' l = spec.2 l.
Proof.
  intros Hwf Hu Horder Hconns Hrun. apply network_run_sys in Hrun; [by apply sys_run_from|done|done|done|].
  apply Forall_fmap. eapply Forall_impl; [exact Hconns|]. intros [la c] Hc. by constructor.
Qed.

(** A command in one PDU. *)
Lemma network_single {D J} `{ZonedDeviceSpec D} `{JournalSpec J} {Old : OldZones} env h i la (c : Connection (ZTL D J)) itt cmd p s s1 data ins :
  ins !! i = Some (mkInitiator la c None) → conn_ok c →
  cmd_ok (ztl_size s) (z_sectorsPerSeg s) cmd → read_fits cmd →
  z_emergencyFreeZones s ≤ FreeZoneCount (z_zm s) →
  carries_command itt (pad16 (cmd_cdb cmd)) (cmd_data cmd) (is_read cmd) [p] →
  Execute (H := ZTL_device env) h (cmd_cdb cmd) (cmd_data cmd) s = (s1, Ok (good data)) → len data < 2^32 → zone0_kept s s1 →
  ∃ c1, conn_ok c1 ∧ ∀ acts outs s' ins',
    network_run env h s1 (<[i := mkInitiator la c1 None]> ins) acts outs s' ins' →
    network_run env h s ins (AcCommand i cmd :: acts) ((if is_read cmd then [data] else []) ++ outs) s' ins'.
Proof.
  intros Hi [Hw Hmax] Hok Hfit Hfree Hcarry Hex Hlen Hk.
  destruct (exchange (H := ZTL_device env) h la itt _ _ _ [p] (c_set_device s c) s1 (good data) Hw Hmax Hcarry)
    as (c1 & out & Hrun & Hdev & Hconn & Hans & _ & Hkept); [by rw (Execute_pad16 _ _ _ _ _ Hok)|constructor|done|].
  rw for_each_one in Hrun. exists c1. split; [split; [by rw Hconn|by rw (ok_params _ _ _ Hkept)]|].
  intros acts outs s' ins' Hrest. pose proof (lookup_lt_Some _ _ _ Hi) as Hil.
  eapply (nr_begin env h i la c itt cmd [p]); [exact Hi|done|done|done|].
  assert (Hans' : answered itt out (if is_read cmd then data else []) StatusGood) by exact Hans.
  assert (Hstep := λ d, nr_answer env h i la c itt cmd (c_conn c) p c1 out d s
    (<[i := mkInitiator la c (Some {| pg_itt := itt; pg_cmd := cmd; pg_start := c_conn c; pg_rest := [p] |})]> ins)
    acts outs s' ins' (list_lookup_insert_eq _ _ _ Hil) Hfree Hrun Hconn).
  rw list_insert_insert_eq Hdev in Hstep. destruct (is_read cmd); [by apply (Hstep data)|by apply (Hstep [])].
Qed.

(** The first initiator writes in three PDUs; the second reads between them, and
    again after a tick of the commit loop. *)
Definition read_before : ZTL Emulator Empty_set := (ZTL_Read 1 3 small_ztl).1.
Definition write_done : ZTL Emulator Empty_set :=
  (Execute (H := ZTL_device small_env) ram_handler (cmd_cdb (SWrite Form10 2 2 two_sectors)) two_sectors read_before).1.
Definition write_committed : ZTL Emulator Empty_set := (journal_commit write_done).1.
Definition read_after : ZTL Emulator Empty_set := (ZTL_Read 1 3 write_committed).1.
Definition network_acts : list action :=
  [AcCommand 1 (SRead Form6 1 3); AcCommand 0 (SWrite Form10 2 2 two_sectors); AcBackground (EvCommit true); AcCommand 1 (SRead Form6 1 3)].
Definition network_outs : list (list byte) := [zero_sector ++ zero_sector ++ zero_sector; zero_sector ++ two_sectors].

(** The last two PDUs of the write. *)
Lemma network_write_ends (c : Connection (ZTL Emulator Empty_set)) p q r :
  conn_ok c → small_write_pdus = [p; q; r] →
  ∃ cp, dispatch (H := ZTL_device small_env) ram_handler "10.0.0.1:3260" p (c_set_device small_ztl c) = (cp, Ok tt) ∧
    ∀ x acts outs s',
    (∀ c1, ∃ ins', network_run small_env ram_handler write_done [mkInitiator "10.0.0.1:3260" c1 None; x] acts outs s' ins') →
    ∃ ins', network_run small_env ram_handler read_before
      [mkInitiator "10.0.0.1:3260" cp (Some {| pg_itt := 1; pg_cmd := SWrite Form10 2 2 two_sectors; pg_start := c_conn c; pg_rest := [q; r] |}); x]
      (AcCommand 0 (SWrite Form10 2 2 two_sectors) :: acts) outs s' ins'.
Proof.
  intros [Hw Hmax] Hp. pose proof small_write_carry as Hcarry. rw Hp in Hcarry.
  assert (Hex : Execute (H := ZTL_device small_env) ram_handler (pad16 (cmd_cdb (SWrite Form10 2 2 two_sectors))) two_sectors read_before =
    (write_done, Ok (good []))) by (apply injective_projections; vm_compute; reflexivity).
  destruct (exchange (H := ZTL_device small_env) ram_handler "10.0.0.1:3260" 1 _ _ _ [p; q; r] (c_set_device read_before c) write_done (good []) Hw Hmax Hcarry Hex)
    as (c1 & out & Hrun & Hdev & Hconn & Hans & _ & _); [constructor|done|].
  pose proof (carries_prefix_free (H := ZTL_device small_env) ram_handler "10.0.0.1:3260" 1 _ _ _ [] p q [r] Hcarry) as Hfp.
  pose proof (carries_prefix_free (H := ZTL_device small_env) ram_handler "10.0.0.1:3260" 1 _ _ _ [p] q r [] Hcarry) as Hfq.
  cbn [for_each] in Hrun. apply bind_inv in Hrun as (cp & [] & Hdp & Hrun).
  apply bind_inv in Hrun as (cq & [] & Hdq & Hrun). apply bind_inv in Hrun as (cr & [] & Hdr & [= <-]).
  destruct (device_free_at read_before small_ztl c _ Hfp cp (Ok tt) Hdp) as [Hcp Hdp'].
  exists (c_set_device small_ztl cp). split; [exact Hdp'|]. intros x acts outs s' Hrest. destruct (Hrest cr) as [ins' Hrest']. exists ins'.
  assert (Hdq' : dispatch (H := ZTL_device small_env) ram_handler "10.0.0.1:3260" q (c_set_device read_before (c_set_device small_ztl cp)) = (cq, Ok tt)).
  { rw -Hdq. f_equal. rw -Hcp. by destruct cp. }
  assert (Hcq : c_device cq = read_before) by by destruct (device_free_at _ read_before _ _ Hfq cq (Ok tt) Hdq').
  eapply (nr_pdu _ _ 0); [reflexivity|exact Hdq'|]. rw Hcq.
  apply (nr_answer small_env ram_handler 0 "10.0.0.1:3260" cq 1 (SWrite Form10 2 2 two_sectors) (c_conn c) r cr out []
    read_before _ acts outs); [reflexivity|vm_compute; discriminate| |exact Hconn|exact Hans|right; rw Hdev; vm_compute; left|].
  - rw -Hdr. f_equal. rw -Hcq. by destruct cq.
  - rw Hdev. exact Hrest'.
Qed.

Lemma network_small_read (c : Connection (ZTL Emulator Empty_set)) x s s1 data :
  conn_ok c → z_sectorsPerSeg s = 2 → ztl_size s = 12 → z_emergencyFreeZones s ≤ FreeZoneCount (z_zm s) →
  Execute (H := ZTL_device small_env) ram_handler (cmd_cdb (SRead Form6 1 3)) [] s = (s1, Ok (good data)) →
  len data < 2^32 → zone0_kept s s1 →
  ∃ c1, conn_ok c1 ∧ ∀ acts outs s' ins',
    network_run small_env ram_handler s1 [x; mkInitiator "10.0.0.1:3260" c1 None] acts outs s' ins' →
    network_run small_env ram_handler s [x; mkInitiator "10.0.0.1:3260" c None] (AcCommand 1 (SRead Form6 1 3) :: acts) (data :: outs) s' ins'.
Proof.
  intros Hc Hsps Hsize Hfree Hex Hlen Hk. pose proof small_read_carry as Hcarry. unfold small_read_pdus in Hcarry.
  apply (network_single small_env ram_handler 1 "10.0.0.1:3260" c 3 (SRead Form6 1 3)
    (command_pdu 3 0xC0 1536 (pad16 (read_cdb Form6 1 3)) []) s s1 data
    [x; mkInitiator "10.0.0.1:3260" c None] eq_refl Hc); [|reflexivity|exact Hfree|exact Hcarry|exact Hex|exact Hlen|exact Hk].
  rw Hsps Hsize. vm_compute. repeat split; discriminate.
Qed.

Lemma network_small_run : ∃ ins',
  network_run small_env ram_handler small_ztl
    ((λ x, mkInitiator x.1 x.2 None) <$> [("10.0.0.1:3260", small_connection); ("10.0.0.1:3260", small_connection)])
    network_acts network_outs read_after ins'.
Proof.
  assert (Hp : ∃ p q r, small_write_pdus = [p; q; r]) by (do 3 eexists; reflexivity).
  destruct Hp as (p & q & r & Hp). assert (Hok : conn_ok small_connection) by done.
  pose proof small_write_carry as Hcarry. rw Hp in Hcarry.
  destruct (network_write_ends small_connection p q r Hok Hp) as (cp & Hcp & Hwrite).
  destruct (network_small_read small_connection
    (mkInitiator "10.0.0.1:3260" cp (Some {| pg_itt := 1; pg_cmd := SWrite Form10 2 2 two_sectors; pg_start := c_conn small_connection; pg_rest := [q; r] |}))
    small_ztl read_before (zero_sector ++ zero_sector ++ zero_sector) Hok) as (c1 & Hc1 & Hread1);
    [reflexivity|reflexivity|vm_compute; discriminate|apply injective_projections; vm_compute; reflexivity|reflexivity|right; vm_compute; left|].
  destruct (Hwrite (mkInitiator "10.0.0.1:3260" c1 None) [AcBackground (EvCommit true); AcCommand 1 (SRead Form6 1 3)]
    [zero_sector ++ two_sectors] read_after) as [ins' Hrest].
  - intros c2.
    destruct (network_small_read c1 (mkInitiator "10.0.0.1:3260" c2 None) write_committed read_after (zero_sector ++ two_sectors) Hc1)
      as (c3 & _ & Hread2); [reflexivity|reflexivity|vm_compute; discriminate|apply injective_projections; vm_compute; reflexivity|reflexivity|right; vm_compute; left|].
    eexists. apply (nr_background _ _ (EvCommit true) _ write_committed); [reflexivity| |right; vm_compute; left|apply Hread2, nr_nil].
    apply (sys_commit _ _ (journal_commit write_done).2), surjective_pairing.
  - exists ins'. apply (nr_begin small_env ram_handler 0 "10.0.0.1:3260" small_connection 1 (SWrite Form10 2 2 two_sectors) [p; q; r]);
      [reflexivity|vm_compute; repeat split; discriminate|exact I|exact Hcarry|].
    eapply (nr_pdu _ _ 0); [reflexivity|exact Hcp|].
    assert (Hdev : c_device cp = small_ztl).
    { destruct (device_free_at small_ztl small_ztl small_connection _
        (carries_prefix_free (H := ZTL_device small_env) ram_handler "10.0.0.1:3260" 1 _ _ _ [] p q [r] Hcarry) cp (Ok tt) Hcp) as [Hd _]. exact Hd. }
    rw Hdev. apply Hread1, Hrest.
Qed.

Lemma initiators_refine_store_witness :
  network_outs = (spec_run (z_sectorsPerSeg small_ztl) (ztl_sector small_ztl)
    ((action_event (z_sectorsPerSeg small_ztl) <$> network_acts) ≫= ev_io)).1.
Proof.
  destruct small_ztl_wf as [Hwf Hu]. destruct network_small_run as [ins' Hrun].
  destruct (initiators_refine_store small_env ram_handler small_ztl read_after
    [("10.0.0.1:3260", small_connection); ("10.0.0.1:3260", small_connection)] network_acts network_outs ins') as [Houts _].
  - exact Hwf.
  - exact Hu.
  - intros l. reflexivity.
  - repeat constructor.
  - exact Hrun.
  - exact Houts.
Defined.
