(* ===== verification/Smr.v ===== *)
(** * [internal/backend/smr]: host-managed SMR drives behind SCSI pass-through

    Mirrors cdb.go, parse.go and smr.go over [ScsiTransport], the interface of
    scsi_transport.go; sgioctl.go and transport_linux.go are the instance for
    Linux over the [SG_IO] system call, spti.go and transport_windows.go the one
    for Windows over [DeviceIoControl]. *)

From S2P Require Import Bytes Zbc Backend.
#[global] Arguments be_put : simpl never.

(** ** [zbc] constants *)
Definition OpcodeReportZones : Z := 0x95.
Definition OpcodeZoneAction : Z := 0x9F.
Definition ZoneActionClose : Z := 0x01.
Definition ZoneActionFinish : Z := 0x02.
Definition ZoneActionOpen : Z := 0x03.
Definition ZoneActionReset : Z := 0x04.
Definition ReportingAll : Z := 0x00.
Definition ZoneDescriptorSize : Z := 64.
Definition ReportZonesHeaderSize : Z := 64.
Definition OpcodeInquiry : Z := 0x12.
Definition PeripheralDeviceTypeZBC : Z := 0x14.
Definition VPDPageBlockDeviceChar : Z := 0xB1.

Definition defaultTimeout : Z := 30000.
Definition reportZonesMaxLen : Z := 512 * 1024.

(** ** Command descriptor blocks *)
Definition cdb_byte (off v : Z) (cdb : list byte) : list byte := copy_at off [byte_of_Z v] cdb.
Definition cdb_u16 (off v : Z) (cdb : list byte) : list byte := copy_at off (be_put 2 v) cdb.
Definition cdb_u32 (off v : Z) (cdb : list byte) : list byte := copy_at off (be_put 4 v) cdb.
Definition cdb_u64 (off v : Z) (cdb : list byte) : list byte := copy_at off (be_put 8 v) cdb.

Definition buildReportZonesCDB (startLBA allocLen reportingOptions : Z) : list byte :=
  let cdb := cdb_byte 1 0x00 (cdb_byte 0 OpcodeReportZones (make_bytes 16)) in
  let cdb := cdb_u32 10 allocLen (cdb_u64 2 startLBA cdb) in
  cdb_byte 15 0x00 (cdb_byte 14 reportingOptions cdb).

Definition buildZoneActionCDB (action startLBA : Z) (all : bool) : list byte :=
  let cdb := cdb_byte 1 action (cdb_byte 0 OpcodeZoneAction (make_bytes 16)) in
  let cdb := cdb_u64 2 startLBA cdb in
  let cdb := if all then cdb_byte 14 0x01 cdb else cdb in
  cdb_byte 15 0x00 cdb.

Definition buildInquiryCDB (allocLen : Z) : list byte :=
  cdb_u16 3 allocLen (cdb_byte 0 OpcodeInquiry (make_bytes 6)).

Definition buildInquiryVPDCDB (pageCode allocLen : Z) : list byte :=
  let cdb := cdb_byte 1 0x01 (cdb_byte 0 OpcodeInquiry (make_bytes 6)) in
  cdb_u16 3 allocLen (cdb_byte 2 pageCode cdb).

Definition buildRead16CDB (lba count : Z) : list byte :=
  cdb_u32 10 count (cdb_u64 2 lba (cdb_byte 0 0x88 (make_bytes 16))).

Definition buildWrite16CDB (lba count : Z) : list byte :=
  cdb_u32 10 count (cdb_u64 2 lba (cdb_byte 0 0x8A (make_bytes 16))).

(** ** Parsing responses *)

(** [buf[i]] as an integer, for [i] within the buffer. *)
Definition byte_at (i : Z) (buf : list byte) : Z := default 0 (Z_of_byte <$> index buf i).

Definition parseInquiryBasic (buf : list byte) : outcome Z :=
  if len buf <? 5 then Fail (Errorf "INQUIRY response too short: %d < 5")
  else Ok (Z.land (byte_at 0 buf) 0x1F).

Definition parseVPDB1Zoned (buf : list byte) : outcome Z :=
  if len buf <? 9 then Fail (Errorf "VPD B1 response too short: %d < 9")
  else Ok (Z.land (Z.shiftr (byte_at 8 buf) 4) 0x03).

(** The [switch] that maps a zone condition to a zone state. *)
Definition state_of_condition (zoneCondition : Z) : ZoneState :=
  if zoneCondition =? ZoneConditionNotWritePointer then ZoneStateNotWritePointer
  else if zoneCondition =? ZoneConditionEmpty then ZoneStateEmpty
  else if zoneCondition =? ZoneConditionImplicitOpen then ZoneStateImplicitOpen
  else if zoneCondition =? ZoneConditionExplicitOpen then ZoneStateExplicitOpen
  else if zoneCondition =? ZoneConditionClosed then ZoneStateClosed
  else if zoneCondition =? ZoneConditionReadOnly then ZoneStateReadOnly
  else if zoneCondition =? ZoneConditionFull then ZoneStateFull
  else if zoneCondition =? ZoneConditionOffline then ZoneStateOffline
  else ZoneStateEmpty.

Definition parseZoneDescriptor (data : list byte) : outcome ZoneDescriptor :=
  if len data <? ZoneDescriptorSize then Fail (Errorf "zone descriptor too short: %d < %d") else
  let byte0 := byte_at 0 data in
  let byte1 := byte_at 1 data in
  let zoneCondition := Z.land (Z.shiftr byte0 4) 0x0F in
  Ok {| zd_ZoneType := Z.land byte0 0x0F;
        zd_ZoneState := state_of_condition zoneCondition;
        zd_ZoneCondition := zoneCondition;
        zd_Reset := negb (Z.land byte1 0x80 =? 0);
        zd_NonSeq := negb (Z.land byte1 0x40 =? 0);
        zd_ZoneLength := be_get (slice 8 16 data);
        zd_ZoneStartLBA := be_get (slice 16 24 data);
        zd_WritePointer := be_get (slice 24 32 data) |}.

(** The loop over the descriptors.  An iteration that does not stop it moves
    [offset] on by 64 bytes of the buffer: the buffer's length is enough fuel. *)
Fixpoint parse_zones (fuel : nat) (buf : list byte) (numZones i offset : Z)
    (zones : list ZoneDescriptor) : outcome (list ZoneDescriptor) :=
  if negb (i <? numZones) then Ok zones
  else if len buf <? offset + ZoneDescriptorSize then Ok zones
  else
    match fuel with
    | O => Stop Diverged
    | S fuel =>
        match parseZoneDescriptor (slice offset (offset + ZoneDescriptorSize) buf) with
        | Ok desc => parse_zones fuel buf numZones (i + 1) (offset + ZoneDescriptorSize) (zones ++ [desc])
        | Stop (Failed e) => Fail (Wrapf "parsing zone descriptor %d: %w" e)
        | Stop r => Stop r
        end
    end.

Definition parseReportZonesResponse (buf : list byte) : outcome (list ZoneDescriptor) :=
  if len buf <? ReportZonesHeaderSize then Fail (Errorf "report zones response too short: %d < %d") else
  let zoneListLen := be_get (slice 0 4 buf) in
  let numZones := zoneListLen / ZoneDescriptorSize in
  if numZones =? 0 then Ok []
  else parse_zones (length buf) buf numZones 0 ReportZonesHeaderSize [].

(** ** [ScsiTransport]

    [ScsiRead] takes the contents of the buffer it may overwrite and returns
    what is in the buffer afterwards. *)
Class ScsiTransport (T : Type) := {
  ScsiRead : list byte → list byte → Z → M T (list byte);
  ScsiWrite : list byte → list byte → Z → M T unit;
  ScsiNoData : list byte → Z → M T unit;
  Transport_Close : M T unit;
}.

(** A result computed without touching the state. *)
Definition lift_outcome {S A} (o : outcome A) : M S A :=
  match o with Ok a => mret a | Stop r => stop_with r end.

(** ** [SMRBackend] *)
Record SMRBackend (T : Type) := mkSMR {
  smr_transport : T;
  smr_zoneCount : Z;
  smr_zoneSectors : Z;
  smr_maxOpenZones : Z;
  smr_capacity : Z;
}.
Arguments mkSMR {T} _ _ _ _ _.
Arguments smr_transport {T} _.
Arguments smr_zoneCount {T} _.
Arguments smr_zoneSectors {T} _.
Arguments smr_maxOpenZones {T} _.
Arguments smr_capacity {T} _.

Section smr.
Context {T : Type} `{ScsiTransport T}.
Implicit Types s : SMRBackend T.

Definition smr_set_transport (t : T) s : SMRBackend T :=
  mkSMR t (smr_zoneCount s) (smr_zoneSectors s) (smr_maxOpenZones s) (smr_capacity s).
Definition smr_set_zoneCount (n : Z) s : SMRBackend T :=
  mkSMR (smr_transport s) n (smr_zoneSectors s) (smr_maxOpenZones s) (smr_capacity s).
Definition smr_set_zoneSectors (n : Z) s : SMRBackend T :=
  mkSMR (smr_transport s) (smr_zoneCount s) n (smr_maxOpenZones s) (smr_capacity s).
Definition smr_set_maxOpenZones (n : Z) s : SMRBackend T :=
  mkSMR (smr_transport s) (smr_zoneCount s) (smr_zoneSectors s) n (smr_capacity s).
Definition smr_set_capacity (n : Z) s : SMRBackend T :=
  mkSMR (smr_transport s) (smr_zoneCount s) (smr_zoneSectors s) (smr_maxOpenZones s) n.

Definition on_transport {A} (m : M T A) : M (SMRBackend T) A := zoom smr_transport smr_set_transport m.

Definition verifyDevice : M (SMRBackend T) unit :=
  inqBuf ← wrap "INQUIRY: %w" (on_transport (ScsiRead (buildInquiryCDB 96) (make_bytes 96) defaultTimeout));
  pdt ← wrap "parse INQUIRY: %w" (lift_outcome (parseInquiryBasic inqBuf));
  if pdt =? PeripheralDeviceTypeZBC then mret tt
  else if negb (pdt =? 0x00) then throw (Errorf "unsupported device type 0x%02x: not a zoned block device")
  else
    vpdBuf ← wrap "INQUIRY VPD 0xB1: %w"
      (on_transport (ScsiRead (buildInquiryVPDCDB VPDPageBlockDeviceChar 64) (make_bytes 64) defaultTimeout));
    zoned ← wrap "parse VPD B1: %w" (lift_outcome (parseVPDB1Zoned vpdBuf));
    if zoned =? 0x02 then mret tt
    else if zoned =? 0x01
    then throw (Errorf "Host-Aware zoned device is not supported; sequential write constraints are advisory, not mandatory")
    else if zoned =? 0x00 then throw (Errorf "device is not a zoned block device (VPD B1 zoned=0)")
    else throw (Errorf "unsupported zoned model 0x%02x in VPD B1").

Definition reportZones (startLBA maxZones : Z) : M (SMRBackend T) (list ZoneDescriptor) :=
  let allocLen := u32 (ReportZonesHeaderSize + maxZones * ZoneDescriptorSize) in
  let allocLen := if reportZonesMaxLen <? allocLen then reportZonesMaxLen else allocLen in
  buf ← wrap "REPORT ZONES: %w"
    (on_transport (ScsiRead (buildReportZonesCDB startLBA allocLen ReportingAll) (make_bytes allocLen) defaultTimeout));
  lift_outcome (parseReportZonesResponse buf).

Definition discover : M (SMRBackend T) unit :=
  wrap "device verification failed: %w" verifyDevice ;;
  zones ← wrap "discover: %w" (reportZones 0 1);
  match zones with
  | [] => throw (Errorf "discover: no zones reported by device")
  | zone0 :: _ =>
      modify (smr_set_zoneSectors (zd_ZoneLength zone0)) ;;
      allZones ← wrap "discover all zones: %w" (reportZones 0 65536);
      modify (smr_set_zoneCount (len allZones)) ;;
      modify (smr_set_capacity (u64 (len allZones * zd_ZoneLength zone0))) ;;
      modify (smr_set_maxOpenZones 14)
  end.

(** [newSMRBackend]: the backend is returned, or the transport is closed. *)
Definition newSMRBackend (transport : T) : SMRBackend T * outcome unit :=
  (r ← attempt discover;
   match r with
   | inl _ => mret tt
   | inr err => attempt (on_transport Transport_Close) ;; throw err
   end) (mkSMR transport 0 0 0 0).

Definition zoneAction (action startLBA : Z) (all : bool) : M (SMRBackend T) unit :=
  wrap "ZONE ACTION 0x%02x: %w"
    (on_transport (ScsiNoData (buildZoneActionCDB action startLBA all) defaultTimeout)).

Definition SMR_ReportZones (startLBA count : Z) : M (SMRBackend T) (list ZoneDescriptor) :=
  s ← gets id;
  let maxZones := if count <=? 0 then smr_zoneCount s else count in
  reportZones startLBA maxZones.

Definition SMR_OpenZone (zoneStartLBA : Z) : M (SMRBackend T) unit := zoneAction ZoneActionOpen zoneStartLBA false.
Definition SMR_CloseZone (zoneStartLBA : Z) : M (SMRBackend T) unit := zoneAction ZoneActionClose zoneStartLBA false.
Definition SMR_FinishZone (zoneStartLBA : Z) : M (SMRBackend T) unit := zoneAction ZoneActionFinish zoneStartLBA false.
Definition SMR_ResetZone (zoneStartLBA : Z) : M (SMRBackend T) unit := zoneAction ZoneActionReset zoneStartLBA false.

Definition SMR_ReadSectors (lba count : Z) : M (SMRBackend T) (list byte) :=
  wrap "ReadSectors lba=%d count=%d: %w"
    (on_transport (ScsiRead (buildRead16CDB lba count) (make_bytes (count * 512)) defaultTimeout)).

Definition SMR_WriteSectors (lba : Z) (data : list byte) : M (SMRBackend T) unit :=
  if negb (len data mod 512 =? 0) then throw (Wrapf "%w: data len %d" ErrAlignmentError) else
  let count := u32 (len data / 512) in
  wrap "WriteSectors lba=%d count=%d: %w"
    (on_transport (ScsiWrite (buildWrite16CDB lba count) data defaultTimeout)).

Definition SMR_Close : M (SMRBackend T) unit := on_transport Transport_Close.

#[export] Instance SMR_device : ZonedDevice (SMRBackend T) := {
  ReportZones := SMR_ReportZones;
  ZoneCount := smr_zoneCount;
  ZoneSize := smr_zoneSectors;
  OpenZone := SMR_OpenZone;
  CloseZone := SMR_CloseZone;
  FinishZone := SMR_FinishZone;
  ResetZone := SMR_ResetZone;
  ReadSectors := SMR_ReadSectors;
  WriteSectors := SMR_WriteSectors;
  Device_BlockSize := λ _, 512;
  Device_Capacity := smr_capacity;
  MaxOpenZones := smr_maxOpenZones;
}.
End smr.

(** ** Linux: [SG_IO]

    The header's pointers are the bytes they point to.  What the system call
    does is the kernel's: it is a parameter that takes the header and gives it
    back with the fields and the data the kernel has filled in, or fails with an
    [errno]. *)
Definition sgDxferNone : Z := -1.
Definition sgDxferToDev : Z := -2.
Definition sgDxferFromDev : Z := -3.

Record sgIOHdr := {
  sg_interfaceID : Z;
  sg_dxferDirection : Z;
  sg_cmdLen : Z;
  sg_mxSbLen : Z;
  sg_dxferLen : Z;
  sg_dxferp : list byte;
  sg_cmdp : list byte;
  sg_sbp : list byte;
  sg_timeout : Z;
  sg_status : Z;
}.

Section linux.
Context {K : Type} (ioctl_SG_IO : sgIOHdr → M K sgIOHdr).

Definition sgio (hdr : sgIOHdr) : M K sgIOHdr :=
  hdr ← wrap "SG_IO ioctl: %w" (ioctl_SG_IO hdr);
  if negb (sg_status hdr =? 0)
  then throw (Errorf "SCSI status 0x%02x, host_status 0x%02x, driver_status 0x%02x")
  else mret hdr.

(** The headers the three functions below build differ in the direction only. *)
Definition sg_header (direction : Z) (cdb buf : list byte) (timeoutMs : Z) : sgIOHdr :=
  {| sg_interfaceID := 0x53; sg_dxferDirection := direction; sg_cmdLen := u8 (len cdb); sg_mxSbLen := 32;
     sg_dxferLen := u32 (len buf); sg_dxferp := buf; sg_cmdp := cdb; sg_sbp := make_bytes 32;
     sg_timeout := timeoutMs; sg_status := 0 |}.

(** [&cdb[0]] *)
Definition need_cdb (cdb : list byte) : M K unit := if len cdb =? 0 then panic else mret tt.

Definition sgRead (cdb buf : list byte) (timeoutMs : Z) : M K (list byte) :=
  if len buf =? 0 then mret buf else
  need_cdb cdb ;;
  hdr ← sgio (sg_header sgDxferFromDev cdb buf timeoutMs);
  mret (sg_dxferp hdr).

Definition sgWrite (cdb buf : list byte) (timeoutMs : Z) : M K unit :=
  if len buf =? 0 then mret tt else
  need_cdb cdb ;; sgio (sg_header sgDxferToDev cdb buf timeoutMs) ;; mret tt.

Definition sgNoData (cdb : list byte) (timeoutMs : Z) : M K unit :=
  need_cdb cdb ;; sgio (sg_header sgDxferNone cdb [] timeoutMs) ;; mret tt.

Definition linuxTransport (close : M K unit) : ScsiTransport K := {|
  ScsiRead := sgRead;
  ScsiWrite := sgWrite;
  ScsiNoData := sgNoData;
  Transport_Close := close;
|}.
End linux.

(** ** Windows: [IOCTL_SCSI_PASS_THROUGH_DIRECT] *)
Definition scsiIoctlDataOut : Z := 0.
Definition scsiIoctlDataIn : Z := 1.
Definition scsiIoctlDataUnspec : Z := 2.

Record scsiPassThroughDirect := {
  sp_Length : Z;
  sp_ScsiStatus : Z;
  sp_CdbLength : Z;
  sp_SenseInfoLength : Z;
  sp_DataIn : Z;
  sp_DataTransferLength : Z;
  sp_TimeOutValue : Z;
  sp_DataBuffer : list byte;
  sp_SenseInfoOffset : Z;
  sp_Cdb : list byte;
}.

Section windows.
Context {K : Type} (DeviceIoControl : scsiPassThroughDirect → M K scsiPassThroughDirect).

(** The structure is 56 bytes on a 64-bit system, its sense buffer follows it. *)
Definition execute (cdb buf : list byte) (direction timeoutMs : Z) : M K (list byte) :=
  let sptd := {| sp_Length := 56; sp_ScsiStatus := 0; sp_CdbLength := u8 (len cdb); sp_SenseInfoLength := 32;
                 sp_DataIn := direction; sp_DataTransferLength := u32 (len buf);
                 sp_TimeOutValue := u32 (timeoutMs + 999) / 1000;
                 sp_DataBuffer := buf; sp_SenseInfoOffset := 56;
                 sp_Cdb := copy_at 0 cdb (make_bytes 16) |} in
  sptd ← wrap "IOCTL_SCSI_PASS_THROUGH_DIRECT (run as Administrator): %w" (DeviceIoControl sptd);
  if negb (sp_ScsiStatus sptd =? 0) then throw (Errorf "SCSI status 0x%02x (sense: % x)")
  else mret (sp_DataBuffer sptd).

Definition windowsTransport (CloseHandle : M K unit) : ScsiTransport K := {|
  ScsiRead := λ cdb buf timeoutMs, execute cdb buf scsiIoctlDataIn timeoutMs;
  ScsiWrite := λ cdb buf timeoutMs, execute cdb buf scsiIoctlDataOut timeoutMs ;; mret tt;
  ScsiNoData := λ cdb timeoutMs, execute cdb [] scsiIoctlDataUnspec timeoutMs ;; mret tt;
  Transport_Close := CloseHandle;
|}.
End windows.
