(* ===== verification/SmrTheorems.v ===== *)
(** * The SMR backend: parsing, discovery and the device contract

    [ZbcDrive] states what the backend relies on of a host-managed drive behind a
    transport: that READ and WRITE transfer sectors, that a write that fails stays
    within its range, that only a write or a reset changes sectors, and that the zones
    reported have one size.  Descriptors appear as the backend reads their bytes
    (layout of the design document, 2.4.2), and a zone action (2.4.3) may be refused:
    a drive with other descriptors is one whose zones are read otherwise, not one
    outside the contract (StandardDrive.v).  Over any such drive the backend
    discovers the geometry and implements [ZonedDeviceSpec], so that every theorem
    about the translation layer and the stack above it holds over it as it does over
    the emulator. *)

From S2P Require Import Bytes Zbc Backend Smr.

(** ** Zone descriptors on the wire *)

(** The 64 bytes [d] describe zone [z]. *)
Record describes (d : list byte) (z : ZoneDescriptor) : Prop := {
  ds_len : len d = ZoneDescriptorSize;
  ds_byte0 : byte_at 0 d = zd_ZoneType z + 16 * zd_ZoneCondition z;
  ds_reset : Z.testbit (byte_at 1 d) 7 = zd_Reset z;
  ds_nonSeq : Z.testbit (byte_at 1 d) 6 = zd_NonSeq z;
  ds_length : be_get (slice 8 16 d) = zd_ZoneLength z;
  ds_start : be_get (slice 16 24 d) = zd_ZoneStartLBA z;
  ds_wp : be_get (slice 24 32 d) = zd_WritePointer z;
}.

(** Two nibbles, and the state the condition stands for. *)
Definition desc_valid (z : ZoneDescriptor) : Prop :=
  0 ≤ zd_ZoneType z < 16 ∧ 0 ≤ zd_ZoneCondition z < 16 ∧
  zd_ZoneState z = state_of_condition (zd_ZoneCondition z).

(** A response to REPORT ZONES for the zones [zs]: the length of the whole list,
    and as many descriptors as fit. *)
Definition report_of (zs : list ZoneDescriptor) (bs : list byte) : Prop :=
  be_get (slice 0 4 bs) = ZoneDescriptorSize * len zs ∧
  ∀ i z, zs !! i = Some z → 64 * (Z.of_nat i + 2) ≤ len bs →
    describes (slice (64 * (Z.of_nat i + 1)) (64 * (Z.of_nat i + 2)) bs) z.

Lemma land_bit b k : 0 ≤ k → negb (Z.land b (2^k) =? 0) = Z.testbit b k.
Proof.
  intros Hk. destruct (Z.testbit b k) eqn:Hb.
  - destruct (Z.eqb_spec (Z.land b (2^k)) 0) as [E|]; [|done].
    apply (f_equal (λ z, Z.testbit z k)) in E.
    by rw Z.land_spec Hb Z.pow2_bits_true // Z.bits_0 in E.
  - destruct (Z.eqb_spec (Z.land b (2^k)) 0) as [|E]; [done|]. destruct E.
    apply Z.bits_inj'. intros i Hi. rw Z.land_spec Z.bits_0 Z.pow2_bits_eqb; [done|].
    destruct (Z.eqb_spec k i) as [->|]; [by rw Hb|apply andb_false_r].
Qed.

Lemma land_15 a : Z.land a 0x0F = a mod 16.
Proof. change 0x0F with (Z.ones 4). by rw Z.land_ones. Qed.

Lemma parse_describes d z : desc_valid z → describes d z → parseZoneDescriptor d = Ok z.
Proof.
  intros (Ht & Hc & Hs) [Hl H0 H7 H6 H1 H2 H3]. unfold parseZoneDescriptor. rw Hl H0 H1 H2 H3.
  change (ZoneDescriptorSize <? ZoneDescriptorSize) with false. cbn iota zeta.
  assert (Hcond : Z.land (Z.shiftr (zd_ZoneType z + 16 * zd_ZoneCondition z) 4) 15 = zd_ZoneCondition z).
  { rw land_15 Z.shiftr_div_pow2; [lia|]. change (2^4) with 16.
    rw (Z.mul_comm 16) Z.div_add; [lia|]. rw Z.div_small; [lia|]. rw Z.mod_small; lia. }
  assert (Htype : Z.land (zd_ZoneType z + 16 * zd_ZoneCondition z) 15 = zd_ZoneType z).
  { rw land_15 (Z.mul_comm 16) Z.mod_add; [lia|]. by rw Z.mod_small. }
  change 0x80 with (2^7). change 0x40 with (2^6). rw !land_bit; [lia..|].
  rw Hcond Htype H7 H6 -Hs. by destruct z.
Qed.

Section parse.
Context (bs : list byte) (zs : list ZoneDescriptor).
Hypothesis Hzs : ∀ i z, zs !! i = Some z → desc_valid z.
Hypothesis Hrep : report_of zs bs.

(** The loop from descriptor [k] on. *)
Lemma parse_zones_spec fuel k acc :
  (k ≤ length zs)%nat → len bs ≤ 64 * (Z.of_nat k + 1) + 64 * Z.of_nat fuel →
  parse_zones fuel bs (len zs) (Z.of_nat k) (64 * (Z.of_nat k + 1)) acc =
  Ok (acc ++ take (Z.to_nat (len bs / 64 - 1) - k) (drop k zs)).
Proof.
  revert k acc. induction fuel as [|fuel IH]; intros k acc Hk Hfuel; cbn [parse_zones];
    unfold ZoneDescriptorSize; unfold len at 1;
    (destruct (Z.ltb_spec (Z.of_nat k) (Z.of_nat (length zs))) as [Hlt|]; cbn [negb];
     [|rw drop_ge; [lia|]; by rw take_nil app_nil_r]);
    pose proof (Z.div_mod (len bs) 64 ltac:(lia)); pose proof (Z.mod_pos_bound (len bs) 64 ltac:(lia));
    (destruct (Z.ltb_spec (len bs) (64 * (Z.of_nat k + 1) + 64)) as [|Hfit];
     [replace (Z.to_nat (len bs / 64 - 1) - k)%nat with 0%nat by lia; by rw app_nil_r|]); [lia|].
  destruct (lookup_lt_is_Some_2 zs k) as [z Hz]; [lia|].
  pose proof (proj2 Hrep _ _ Hz ltac:(lia)) as Hd.
  replace (64 * (Z.of_nat k + 1) + 64) with (64 * (Z.of_nat k + 2)) by lia.
  rw (parse_describes _ z); [by eapply Hzs|done|].
  replace (Z.of_nat k + 1) with (Z.of_nat (S k)) by lia.
  replace (64 * (Z.of_nat k + 2)) with (64 * (Z.of_nat (S k) + 1)) by lia.
  rw IH; [lia|lia|]. rw -app_assoc. f_equal. f_equal.
  rw (drop_S zs z k) //.
  by replace (Z.to_nat (len bs / 64 - 1) - k)%nat with (S (Z.to_nat (len bs / 64 - 1) - S k)) by lia.
Qed.

Lemma parse_report : 64 ≤ len bs →
  parseReportZonesResponse bs = Ok (take (Z.to_nat (len bs / 64 - 1)) zs).
Proof.
  intros Hlen. unfold parseReportZonesResponse. change ReportZonesHeaderSize with 64.
  destruct (Z.ltb_spec (len bs) 64); [lia|]. rw (proj1 Hrep). unfold ZoneDescriptorSize.
  rw (Z.mul_comm 64) Z.div_mul; [done|]. destruct (Z.eqb_spec (len zs) 0) as [E|].
  { unfold len in E. destruct zs; [by rw take_nil|done]. }
  change 0 with (Z.of_nat 0). change 64 with (64 * (Z.of_nat 0 + 1)) at 1.
  rw parse_zones_spec; [lia|unfold len; lia|]. by rw Nat.sub_0_r drop_0.
Qed.
End parse.

(** ** The commands carry their arguments *)
Definition cdb_lba (cdb : list byte) : Z := be_get (slice 2 10 cdb).
Definition cdb_count (cdb : list byte) : Z := be_get (slice 10 14 cdb).

Lemma report_cdb lba n opts :
  let cdb := buildReportZonesCDB lba n opts in
  len cdb = 16 ∧ byte_at 0 cdb = OpcodeReportZones ∧ byte_at 14 cdb = u8 opts ∧
  cdb_lba cdb = u64 lba ∧ cdb_count cdb = u32 n.
Proof.
  split_and!; [done|done|exact (Z_of_byte_of_Z opts)|exact (be_get_put 8 lba)|exact (be_get_put 4 n)].
Qed.

Lemma action_cdb action lba (all : bool) :
  let cdb := buildZoneActionCDB action lba all in
  len cdb = 16 ∧ byte_at 0 cdb = OpcodeZoneAction ∧ byte_at 1 cdb = u8 action ∧
  byte_at 14 cdb = (if all then 1 else 0) ∧ cdb_lba cdb = u64 lba.
Proof.
  destruct all; split_and!; done || exact (Z_of_byte_of_Z action) || exact (be_get_put 8 lba).
Qed.

Lemma inquiry_cdb n :
  let cdb := buildInquiryCDB n in
  len cdb = 6 ∧ byte_at 0 cdb = OpcodeInquiry ∧ byte_at 1 cdb = 0 ∧ be_get (slice 3 5 cdb) = u16 n.
Proof. split_and!; [done..|exact (be_get_put 2 n)]. Qed.

Lemma read16_cdb lba n :
  let cdb := buildRead16CDB lba n in
  len cdb = 16 ∧ byte_at 0 cdb = 0x88 ∧ cdb_lba cdb = u64 lba ∧ cdb_count cdb = u32 n.
Proof. split_and!; [done..|exact (be_get_put 8 lba)|exact (be_get_put 4 n)]. Qed.

Lemma write16_cdb lba n :
  let cdb := buildWrite16CDB lba n in
  len cdb = 16 ∧ byte_at 0 cdb = 0x8A ∧ cdb_lba cdb = u64 lba ∧ cdb_count cdb = u32 n.
Proof. split_and!; [done..|exact (be_get_put 8 lba)|exact (be_get_put 4 n)]. Qed.

(** ** A host-managed drive behind a transport *)

(** Zone [i] of a drive whose zones all have [zs] sectors. *)
Definition drive_zone (zs : Z) (i : nat) (z : ZoneDescriptor) : Prop :=
  desc_valid z ∧ zd_ZoneStartLBA z = zs * Z.of_nat i ∧ zd_ZoneLength z = zs ∧
  (zd_ZoneState z = ZoneStateEmpty → zd_WritePointer z = zd_ZoneStartLBA z).

(** What no command changes but a write or a reset. *)
Definition drive_same {T} (wf : T → Prop) (zones : T → list ZoneDescriptor) (zoneSize : T → Z)
    (sector : T → Z → list byte) (t t' : T) : Prop :=
  wf t' ∧ zoneSize t' = zoneSize t ∧ len (zones t') = len (zones t) ∧
  ∀ l, 0 ≤ l < len (zones t) * zoneSize t → sector t' l = sector t l.

Class ZbcDrive (T : Type) `{ScsiTransport T} := {
  dr_wf : T → Prop;
  dr_zones : T → list ZoneDescriptor;      (* as the backend reads the descriptors *)
  dr_zoneSize : T → Z;
  dr_sector : T → Z → list byte;

  dr_geometry t : dr_wf t → 0 < dr_zoneSize t ∧ 0 < len (dr_zones t) < 2^26 ∧
    len (dr_zones t) * dr_zoneSize t < 2^54;
  dr_zone t i z : dr_wf t → dr_zones t !! i = Some z → drive_zone (dr_zoneSize t) i z;
  dr_open_limit t : dr_wf t → len (filter desc_open (dr_zones t)) ≤ 14;
  dr_sector_len t l : dr_wf t → 0 ≤ l < len (dr_zones t) * dr_zoneSize t → len (dr_sector t l) = sectorSize;

  (* INQUIRY, EVPD = 0: peripheral device type 0x14 *)
  dr_inquiry t cdb buf timeout : dr_wf t → len cdb = 6 → byte_at 0 cdb = OpcodeInquiry → byte_at 1 cdb = 0 →
    5 ≤ len buf → len buf = be_get (slice 3 5 cdb) →
    wp (ScsiRead cdb buf timeout) (λ t' o, returns o ∧ drive_same dr_wf dr_zones dr_zoneSize dr_sector t t' ∧
      ∀ bs, o = Ok bs → len bs = len buf ∧ Z.land (byte_at 0 bs) 0x1F = PeripheralDeviceTypeZBC) t;

  (* REPORT ZONES, all zones from the one that holds the address *)
  dr_report t cdb buf timeout : dr_wf t → len cdb = 16 → byte_at 0 cdb = OpcodeReportZones → byte_at 14 cdb = 0 →
    64 ≤ len buf → len buf = cdb_count cdb → cdb_lba cdb < len (dr_zones t) * dr_zoneSize t →
    wp (ScsiRead cdb buf timeout) (λ t' o, returns o ∧ drive_same dr_wf dr_zones dr_zoneSize dr_sector t t' ∧
      ∀ bs, o = Ok bs → len bs = len buf ∧
        report_of (drop (Z.to_nat (cdb_lba cdb / dr_zoneSize t)) (dr_zones t)) bs) t;

  (* the command the backend sends as ZONE ACTION, accepted or not: OPEN, CLOSE and
     FINISH keep the data, RESET touches those of one zone only *)
  dr_action t cdb timeout : dr_wf t → len cdb = 16 → byte_at 0 cdb = OpcodeZoneAction → byte_at 14 cdb = 0 →
    byte_at 1 cdb = ZoneActionOpen ∨ byte_at 1 cdb = ZoneActionClose ∨ byte_at 1 cdb = ZoneActionFinish →
    wp (ScsiNoData cdb timeout) (λ t' o, returns o ∧ drive_same dr_wf dr_zones dr_zoneSize dr_sector t t') t;
  dr_reset t cdb timeout : dr_wf t → len cdb = 16 → byte_at 0 cdb = OpcodeZoneAction → byte_at 14 cdb = 0 →
    byte_at 1 cdb = ZoneActionReset →
    wp (ScsiNoData cdb timeout) (λ t' o, returns o ∧
      dr_wf t' ∧ dr_zoneSize t' = dr_zoneSize t ∧ len (dr_zones t') = len (dr_zones t) ∧
      ∀ l, 0 ≤ l < len (dr_zones t) * dr_zoneSize t → l / dr_zoneSize t ≠ cdb_lba cdb / dr_zoneSize t →
           dr_sector t' l = dr_sector t l) t;

  (* READ(16) and WRITE(16); a write that fails may leave anything in its own range *)
  dr_read t cdb buf timeout : dr_wf t → len cdb = 16 → byte_at 0 cdb = 0x88 → byte_at 1 cdb = 0 →
    len buf = sectorSize * cdb_count cdb → 0 < cdb_count cdb →
    cdb_lba cdb + cdb_count cdb ≤ len (dr_zones t) * dr_zoneSize t →
    wp (ScsiRead cdb buf timeout) (λ t' o, returns o ∧ drive_same dr_wf dr_zones dr_zoneSize dr_sector t t' ∧
      ∀ bs, o = Ok bs → len bs = len buf ∧
        ∀ i, 0 ≤ i < cdb_count cdb → sec bs i = dr_sector t (cdb_lba cdb + i)) t;
  dr_write t cdb data timeout : dr_wf t → len cdb = 16 → byte_at 0 cdb = 0x8A → byte_at 1 cdb = 0 →
    len data = sectorSize * cdb_count cdb →
    wp (ScsiWrite cdb data timeout) (λ t' o, returns o ∧
      dr_wf t' ∧ dr_zoneSize t' = dr_zoneSize t ∧ len (dr_zones t') = len (dr_zones t) ∧
      (is_ok o → cdb_count cdb ≠ 0 → cdb_lba cdb + cdb_count cdb ≤ len (dr_zones t) * dr_zoneSize t) ∧
      ∀ l, 0 ≤ l < len (dr_zones t) * dr_zoneSize t →
        is_ok o ∨ ¬ (cdb_lba cdb ≤ l < cdb_lba cdb + cdb_count cdb) →
        dr_sector t' l =
        if bool_decide (cdb_lba cdb ≤ l < cdb_lba cdb + cdb_count cdb)
        then sec data (l - cdb_lba cdb) else dr_sector t l) t;
}.

(** A drive that answers INQUIRY and REPORT ZONES. *)
Class ReadyDrive (T : Type) `{ZbcDrive T} := {
  ready_inquiry t cdb buf timeout : dr_wf t → byte_at 0 cdb = OpcodeInquiry →
    wp (ScsiRead cdb buf timeout) (λ _ o, is_ok o) t;
  ready_report t cdb buf timeout : dr_wf t → byte_at 0 cdb = OpcodeReportZones → 64 ≤ len buf →
    wp (ScsiRead cdb buf timeout) (λ _ o, is_ok o) t;
}.

Section contract.
Context {T : Type} `{ZbcDrive T}.
Implicit Types (t : T) (s : SMRBackend T).

Definition dr_capacity t : Z := len (dr_zones t) * dr_zoneSize t.
Definition dr_same t t' : Prop := drive_same dr_wf dr_zones dr_zoneSize dr_sector t t'.

(** A backend whose fields agree with the drive.  Discovery sees no more than the
    8191 zones one response holds. *)
Record smr_wf s : Prop := {
  sw_drive : dr_wf (smr_transport s);
  sw_zoneSectors : smr_zoneSectors s = dr_zoneSize (smr_transport s);
  sw_zones : len (dr_zones (smr_transport s)) ≤ 8191;
  sw_zoneCount : smr_zoneCount s = len (dr_zones (smr_transport s));
  sw_capacity : smr_capacity s = smr_zoneCount s * smr_zoneSectors s;
  sw_maxOpenZones : smr_maxOpenZones s = 14;
}.

Lemma dr_same_refl t : dr_wf t → dr_same t t.
Proof. by intros. Qed.

Lemma dr_same_trans t1 t2 t3 : dr_same t1 t2 → dr_same t2 t3 → dr_same t1 t3.
Proof.
  intros (? & Hz & Hn & Hs) (? & Hz' & Hn' & Hs'). split_and!; [done|congruence|congruence|].
  intros l Hl. rw Hs'; [by rw Hz Hn|]. by apply Hs.
Qed.

Lemma smr_wf_transport s t' : smr_wf s →
  dr_wf t' → dr_zoneSize t' = dr_zoneSize (smr_transport s) →
  len (dr_zones t') = len (dr_zones (smr_transport s)) → smr_wf (smr_set_transport t' s).
Proof. intros [] ? Hz Hn. split; simpl; congruence. Qed.

Lemma smr_capacity_bounds s : smr_wf s →
  0 < smr_zoneSectors s ∧ 0 < smr_zoneCount s ≤ 8191 ∧
  smr_capacity s = dr_capacity (smr_transport s) ∧ smr_capacity s < 2^54.
Proof.
  intros [Hwf Hz Hmax Hn Hc _]. destruct (dr_geometry _ Hwf) as (? & ? & ?). unfold dr_capacity.
  rw Hc Hz Hn. split_and!; lia.
Qed.

(** The contents of the drive through the backend. *)
Definition smr_sector s (l : Z) : list byte := dr_sector (smr_transport s) l.

Lemma smr_same s t' : smr_wf s → dr_same (smr_transport s) t' →
  dev_same smr_wf smr_sector s (smr_set_transport t' s).
Proof.
  intros Hwf (? & ? & ? & Hs). split_and!; [by apply smr_wf_transport|done|done|].
  intros l Hl. apply Hs. destruct (smr_capacity_bounds s Hwf) as (_ & _ & Hc). simpl in Hl.
  fold (dr_capacity (smr_transport s)). lia.
Qed.

Lemma wp_on_transport {A} (m : M T A) (Q : SMRBackend T → outcome A → Prop) s :
  wp m (λ t' o, Q (smr_set_transport t' s) o) (smr_transport s) → wp (on_transport m) Q s.
Proof. apply wp_zoom. Qed.

Lemma wp_lift {S A} (o : outcome A) (Q : S → outcome A → Prop) (x : S) : Q x o → wp (lift_outcome o) Q x.
Proof. by destruct o. Qed.

Lemma wp_self {S A} (m : M S A) (Q : S → outcome A → Prop) (x : S) :
  wp m Q x → wp m (λ x' o, (x', o) = m x ∧ Q x' o) x.
Proof. rw /wp. by destruct (m x). Qed.

Definition report_ready t : Prop := ∀ cdb buf,
  byte_at 0 cdb = OpcodeReportZones → 64 ≤ len buf → is_ok (ScsiRead cdb buf defaultTimeout t).2.

(** A report of [n] descriptors from the start of the drive. *)
Lemma wp_reportZones n s (Q : SMRBackend T → outcome (list ZoneDescriptor) → Prop) :
  dr_wf (smr_transport s) → 1 ≤ n < 2^20 →
  (∀ t' o, returns o → dr_same (smr_transport s) t' →
    (∀ zs, o = Ok zs → zs = take (Z.to_nat (Z.min n 8191)) (dr_zones (smr_transport s))) →
    (report_ready (smr_transport s) → is_ok o) →
    Q (smr_set_transport t' s) o) →
  wp (reportZones 0 n) Q s.
Proof.
  intros Hwf Hn HQ. destruct (dr_geometry _ Hwf) as (? & ? & ?).
  unfold reportZones, ReportZonesHeaderSize, ZoneDescriptorSize, reportZonesMaxLen.
  rw u32_small; [lia|].
  set (len0 := if 512 * 1024 <? 64 + n * 64 then 512 * 1024 else 64 + n * 64).
  assert (Hlen : 64 ≤ len0 < 2^32 ∧ len0 / 64 - 1 = Z.min n 8191).
  { unfold len0. destruct (Z.ltb_spec (512 * 1024) (64 + n * 64)); [change (512 * 1024 / 64) with 8192; lia|].
    replace (64 + n * 64) with ((n + 1) * 64) by lia. rw Z.div_mul; [done|]. lia. }
  destruct (report_cdb 0 len0 ReportingAll) as (Hc1 & Hc2 & Hc3 & Hc4 & Hc5).
  wp_steps. apply wp_on_transport. cbn beta.
  eapply wp_mono; [apply wp_self, dr_report; try done|].
  - rw len_make_bytes; lia.
  - rw len_make_bytes; [lia|]. by rw Hc5 u32_small; [lia|].
  - rw Hc4. change (u64 0) with 0. nia.
  - cbn beta. intros t' [bs|[e| |]] (Hrun & Hret & Hsame & Hok); try done.
    2: { cbn beta iota. apply HQ; [done..|]. intros Hr.
         specialize (Hr _ (make_bytes len0) Hc2 ltac:(rw len_make_bytes; lia)). by rw -Hrun in Hr. }
    cbn beta iota. destruct (Hok bs) as [Hbs Hrep]; [done|]. rw len_make_bytes in Hbs; [lia|].
    rw Hc4 in Hrep. change (u64 0) with 0 in Hrep. rw Zdiv_0_l drop_0 in Hrep.
    apply wp_lift. rw (parse_report bs _ _ Hrep); [|lia|].
    { intros i z Hz. by apply (dr_zone _ _ _ Hwf Hz). }
    apply HQ; [done|done| |done]. intros zs [= <-]. rw Hbs. f_equal. lia.
Qed.

(** ** The backend implements the device contract *)
Lemma wp_zoneAction action lba s (Q : SMRBackend T → outcome unit → Prop) (P : T → Prop) :
  wp (ScsiNoData (buildZoneActionCDB action lba false) defaultTimeout) (λ t' o, returns o ∧ P t') (smr_transport s) →
  (∀ t' o, returns o → P t' → Q (smr_set_transport t' s) o) →
  wp (zoneAction action lba false) Q s.
Proof.
  intros Hm HQ. unfold zoneAction. wp_steps. apply wp_on_transport.
  eapply wp_mono; [exact Hm|]. intros t' [[]|[e| |]] [Hr HP]; try done; by apply HQ.
Qed.

Lemma smr_action action lba s :
  smr_wf s → action = ZoneActionOpen ∨ action = ZoneActionClose ∨ action = ZoneActionFinish →
  wp (zoneAction action lba false) (λ s' o, returns o ∧ dev_same smr_wf smr_sector s s') s.
Proof.
  intros Hwf Ha. destruct (action_cdb action lba false) as (H1 & H2 & H3 & H4 & _).
  apply (wp_zoneAction _ _ _ _ (dr_same (smr_transport s))).
  - apply dr_action; [apply Hwf|done|done|done|]. rw H3. by destruct Ha as [->|[->| ->]]; auto.
  - intros t' o Hr Hs. split; [done|by apply smr_same].
Qed.

Lemma smr_reset lba s : smr_wf s → 0 ≤ lba < 2^64 →
  wp (SMR_ResetZone lba) (λ s' o, returns o ∧
    smr_wf s' ∧ smr_capacity s' = smr_capacity s ∧ smr_zoneSectors s' = smr_zoneSectors s ∧
    ∀ l, 0 ≤ l < smr_capacity s → l / smr_zoneSectors s ≠ lba / smr_zoneSectors s →
         smr_sector s' l = smr_sector s l) s.
Proof.
  intros Hwf Hlba. destruct (action_cdb ZoneActionReset lba false) as (H1 & H2 & H3 & H4 & H5).
  destruct (smr_capacity_bounds s Hwf) as (_ & _ & Hcap).
  eapply (wp_zoneAction _ _ _ _ (λ t', dr_wf t' ∧ dr_zoneSize t' = _ ∧ len (dr_zones t') = _ ∧ ∀ l, _ → _ → dr_sector t' l = _)).
  - apply dr_reset; [apply Hwf|done..].
  - cbn beta. intros t' o Hr (Hw & Hz & Hn & Hs). rw H5 u64_small in Hs; [done|].
    split_and!; [done|by apply smr_wf_transport|done|done|].
    intros l Hl Hne. apply Hs; [fold (dr_capacity (smr_transport s)); lia|]. by rw -(sw_zoneSectors s Hwf).
Qed.

Lemma smr_read lba n s : smr_wf s → 0 ≤ lba → 0 < n < 2^32 → lba + n ≤ smr_capacity s →
  wp (SMR_ReadSectors lba n) (λ s' o, returns o ∧ dev_same smr_wf smr_sector s s' ∧
    ∀ bs, o = Ok bs → len bs = sectorSize * n ∧ ∀ i, 0 ≤ i < n → sec bs i = smr_sector s (lba + i)) s.
Proof.
  intros Hwf Hlba Hn Hfit. destruct (read16_cdb lba n) as (H1 & H2 & H3 & H4).
  destruct (smr_capacity_bounds s Hwf) as (_ & _ & Hcap).
  rw u64_small in H3; [lia|]. rw u32_small in H4; [lia|].
  assert (Hlen : len (make_bytes (n * 512)) = sectorSize * n) by (rw len_make_bytes; unfold sectorSize; lia).
  unfold SMR_ReadSectors. wp_steps. apply wp_on_transport.
  eapply wp_mono; [apply dr_read; [apply Hwf|exact H1|exact H2|done|by rw Hlen H4|rw H4; lia|]|].
  - rw H3 H4. fold (dr_capacity (smr_transport s)). lia.
  - intros t' [bs|[e| |]] (Hret & Hsame & Hok); try done;
      (split_and!; [done|by apply smr_same|]); [|done].
    intros bs' [= <-]. destruct (Hok bs) as [Hl Hs]; [done|]. split; [by rw Hl Hlen|].
    rw H3 H4 in Hs. exact Hs.
Qed.

Lemma smr_write lba data n s : smr_wf s → 0 ≤ lba < 2^64 → 0 ≤ n < 2^32 → len data = sectorSize * n →
  wp (SMR_WriteSectors lba data) (λ s' o, returns o ∧
    smr_wf s' ∧ smr_capacity s' = smr_capacity s ∧ smr_zoneSectors s' = smr_zoneSectors s ∧
    (is_ok o → n ≠ 0 → lba + n ≤ smr_capacity s) ∧
    ∀ l, 0 ≤ l < smr_capacity s → is_ok o ∨ ¬ (lba ≤ l < lba + n) →
      smr_sector s' l = if bool_decide (lba ≤ l < lba + n) then sec data (l - lba) else smr_sector s l) s.
Proof.
  intros Hwf Hlba Hn Hlen. destruct (smr_capacity_bounds s Hwf) as (_ & _ & Hcap).
  unfold SMR_WriteSectors. rw Hlen /sectorSize (Z.mul_comm 512) Z.mod_mul; [done|].
  rw Z.div_mul; [done|]. rw Z.eqb_refl u32_small; [done|]. cbn [negb].
  destruct (write16_cdb lba n) as (H1 & H2 & H3 & H4). rw u64_small in H3; [done|]. rw u32_small in H4; [done|].
  wp_steps. apply wp_on_transport. eapply wp_mono; [apply dr_write; [apply Hwf|exact H1|exact H2|done|by rw H4]|].
  rw H3 H4. intros t' o (Hret & Hw & Hz & Hnz & Hfit & Hs).
  assert (Hs' : ∀ l, 0 ≤ l < smr_capacity s → is_ok o ∨ ¬ (lba ≤ l < lba + n) → dr_sector t' l = _)
    by (intros l Hl; apply Hs; fold (dr_capacity (smr_transport s)); lia).
  unfold dr_capacity in Hcap. rw -(proj1 Hcap) in Hfit.
  destruct o as [[]|[e| |]]; try done; (split_and!; [done|by apply smr_wf_transport|done|done|exact Hfit|exact Hs']).
Qed.
End contract.

Section device.
Context {T : Type} `{ZbcDrive T}.
Implicit Types (t : T) (s : SMRBackend T).

Lemma smr_report s : smr_wf s →
  wp (SMR_ReportZones 0 0) (λ s' o, returns o ∧ dev_same smr_wf smr_sector s s' ∧
    ∀ descs, o = Ok descs → descs = dr_zones (smr_transport s)) s.
Proof.
  intros Hwf. destruct (smr_capacity_bounds s Hwf) as (_ & Hn & _).
  unfold SMR_ReportZones. wp_steps. change (0 <=? 0) with true. cbn iota.
  pose proof (sw_zoneCount s Hwf). apply wp_reportZones; [apply Hwf|lia|].
  intros t' o Hr Hs Ho _. split_and!; [done|by apply smr_same|]. intros descs Hd. rw (Ho _ Hd).
  apply take_ge. unfold len in *. lia.
Qed.

#[export] Program Instance SMR_spec : ZonedDeviceSpec (SMRBackend T) := {
  dev_wf := smr_wf;
  dev_sector := smr_sector;
}.
Next Obligation.
  intros s Hwf. simpl. destruct (smr_capacity_bounds s Hwf) as (? & ? & _ & ?).
  split; [done|]. split; [rw (sw_capacity s Hwf); nia|done].
Qed.
Next Obligation.
  intros s l Hwf Hl. simpl in Hl. destruct (smr_capacity_bounds s Hwf) as (_ & _ & Hc & _).
  rw Hc in Hl. apply dr_sector_len; [apply Hwf|done].
Qed.
Next Obligation.
  intros s Hwf. simpl. pose proof (sw_drive s Hwf) as Hd.
  eapply wp_mono; [by apply smr_report|]. intros s' o (Hr & Hs & Ho).
  split_and!; [done|done|]. intros descs ->%Ho. split.
  - intros i z Hz. destruct (dr_zone _ _ _ Hd Hz) as (_ & Hst & Hl & He).
    destruct (smr_capacity_bounds s Hwf) as (_ & _ & Hc & _). unfold dr_capacity in Hc.
    destruct (dr_geometry _ Hd) as (Hzs & _ & _). pose proof (lookup_lt_Some _ _ _ Hz).
    unfold desc_ok. simpl. rw (sw_zoneSectors s Hwf). split_and!; [done|lia|lia| |done].
    rw Hc Hst Hl. unfold len. nia.
  - rw (sw_maxOpenZones s Hwf). by apply dr_open_limit.
Qed.
Next Obligation. intros s lba Hwf Hlba. apply smr_action; auto. Qed.
Next Obligation. intros s lba Hwf Hlba. apply smr_action; auto. Qed.
Next Obligation. intros s lba Hwf Hlba. apply smr_action; auto. Qed.
Next Obligation. intros. by apply smr_reset. Qed.
Next Obligation. intros. by apply smr_read. Qed.
Next Obligation. intros. by apply smr_write. Qed.
End device.

(** ** Discovery *)

(** The drive is one the backend accepts: a zoned block device by its peripheral
    device type, or a disk whose VPD page B1 says host-managed. *)
Definition host_managed {T} `{ScsiTransport T} (t : T) : Prop :=
  ∃ t1 inq, ScsiRead (buildInquiryCDB 96) (make_bytes 96) defaultTimeout t = (t1, Ok inq) ∧
    (Z.land (byte_at 0 inq) 0x1F = PeripheralDeviceTypeZBC ∨
     Z.land (byte_at 0 inq) 0x1F = 0 ∧
     ∃ t2 vpd, ScsiRead (buildInquiryVPDCDB VPDPageBlockDeviceChar 64) (make_bytes 64) defaultTimeout t1 = (t2, Ok vpd) ∧
       Z.land (Z.shiftr (byte_at 8 vpd) 4) 0x03 = 2).

Section discovery.
Context {T : Type} `{ScsiTransport T}.
Implicit Types (t : T) (s : SMRBackend T).

Lemma verifyDevice_accepts s s' : verifyDevice s = (s', Ok tt) → host_managed (smr_transport s).
Proof.
  intros (s1 & inq & Hi & Hk)%bind_inv. apply wrap_inv, zoom_inv in Hi as (t1 & Hi & ->).
  apply bind_inv in Hk as (s2 & pdt & Hp & Hk). apply wrap_inv in Hp.
  unfold parseInquiryBasic in Hp. destruct (len inq <? 5); [done|]. injection Hp as <- <-.
  exists t1, inq. split; [done|].
  destruct (Z.eqb_spec (Z.land (byte_at 0 inq) 0x1F) PeripheralDeviceTypeZBC) as [|_]; [by left|right].
  destruct (Z.eqb_spec (Z.land (byte_at 0 inq) 0x1F) 0x00) as [Hz|]; [|done]. cbn [negb] in Hk. split; [done|].
  apply bind_inv in Hk as (s3 & vpd & Hv & Hk). apply wrap_inv, zoom_inv in Hv as (t2 & Hv & ->).
  apply bind_inv in Hk as (s4 & zoned & Hp & Hk). apply wrap_inv in Hp.
  unfold parseVPDB1Zoned in Hp. destruct (len vpd <? 9); [done|]. injection Hp as <- <-.
  exists t2, vpd. split; [done|].
  destruct (Z.eqb_spec (Z.land (Z.shiftr (byte_at 8 vpd) 4) 0x03) 2) as [|]; [done|].
  by repeat case_match.
Qed.

(** A transport that is not taken over is closed. *)
Lemma newSMRBackend_fails t s e : newSMRBackend t = (s, Fail e) →
  ∃ s0, discover (mkSMR t 0 0 0 0) = (s0, Fail e) ∧ smr_transport s = (Transport_Close (smr_transport s0)).1.
Proof.
  unfold newSMRBackend, attempt, mbind, M_bind, on_transport, zoom.
  destruct (discover _) as [s0 [[]|[e'| |]]]; try done.
  destruct (Transport_Close (smr_transport s0)) as [t' [[]|[e''| |]]] eqn:Hc; try done;
    (intros [= <- <-]; exists s0; by rw Hc).
Qed.

Lemma newSMRBackend_ok t s : newSMRBackend t = (s, Ok tt) → discover (mkSMR t 0 0 0 0) = (s, Ok tt).
Proof.
  unfold newSMRBackend, attempt, mbind, M_bind, on_transport, zoom.
  destruct (discover _) as [s0 [[]|[e'| |]]]; try done.
  by destruct (Transport_Close (smr_transport s0)) as [t' [[]|[e''| |]]]; cbn.
Qed.
End discovery.

(** In the ZBC standard the zone condition is in the upper half of byte 1, not of
    byte 0: a descriptor of that layout is read as having no write pointer. *)
Lemma standard_condition_lost d z :
  parseZoneDescriptor d = Ok z → byte_at 0 d < 16 → zd_ZoneState z = ZoneStateNotWritePointer.
Proof.
  unfold parseZoneDescriptor. case_match; [done|]. intros [= <-] Hb. cbn.
  assert (H0 : 0 ≤ byte_at 0 d).
  { unfold byte_at. destruct (index d 0) as [b|]; cbn; [apply Z_of_byte_range|done]. }
  replace (Z.shiftr (byte_at 0 d) 4) with 0; [done|]. rw Z.shiftr_div_pow2; [lia|]. by rw Z.div_small.
Qed.
