(* ===== verification/ZtlStart.v ===== *)
(** * Starting the translation layer

    When [ztl.New] succeeds, on any device that meets the contract and reports
    its zones; and the state it starts from. *)

From S2P Require Import Bytes Float64 Config Zbc Backend Segment ZoneManager WriteBuffer Gc Ztl ZtlInv ZtlSpec.

(** The sizes of the zones are those of the descriptors. *)
Lemma init_zone_sizes L ids descs zm :
  Forall (λ z, zi_SizeSectors z = L) (zm_zones zm) → Forall (λ d, zd_ZoneLength d = L) descs →
  Forall (λ z, zi_SizeSectors z = L) (zm_zones (foldl init_zone zm (zip ids descs))).
Proof.
  revert ids zm. induction descs as [|d descs IH]; intros [|k ids] zm Hzm Hds; try done.
  apply Forall_cons in Hds as [Hd Hds]. cbn [zip zip_with foldl]. apply IH; [|done].
  assert (Hsnoc : Forall (λ z, zi_SizeSectors z = L) (zm_zones zm ++ [zoneinfo_of_desc (u32 k) d]))
    by (apply Forall_app; split; [done|]; by constructor).
  unfold init_zone. by destruct (zd_ZoneState d).
Qed.

Section start.
Context {D J : Type} `{ZonedDeviceSpec D} `{JournalSpec J}.

Definition uniform (L : Z) (d : D) : Prop :=
  ∃ d' descs, ReportZones 0 0 d = (d', Ok descs) ∧ Forall (λ desc, zd_ZoneLength desc = L) descs.

Lemma Initialize_uniform L n d : uniform L d →
  ∃ md, ZoneManager_Initialize (mkZMD (NewZoneManager n) d) = (md, Ok tt) ∧
    md_dev md = (ReportZones 0 0 d).1 ∧ Forall (λ z, zi_SizeSectors z = L) (zm_zones (md_zm md)).
Proof using.
  intros (d' & descs & Hrep & Hds). unfold ZoneManager_Initialize, ZoneManager.on_device, zm_modify, wrap, zoom, mbind, M_bind.
  cbn. rw Hrep. cbn. eexists. split_and!; [done|done|]. cbn. apply init_zone_sizes; [constructor|done].
Qed.

(** A layer over a device whose zones all have its zone size. *)
Lemma ZTL_New_starts cfg (d : D) (jo : option J) :
  dev_wf d → uniform (ZoneSize d) d → ZoneSize d < 2^32 → Device_Capacity d ≤ 2^24 * ZoneSize d →
  0 < MaxOpenZones d → 0 < SectorsPerSegment cfg ≤ ZoneSize d → SectorsPerSegment cfg ≤ Device_Capacity d →
  journal_ok jo →
  ∃ z, ZTL_New cfg d jo = Ok z ∧ ztl_wf z ∧ zone0_unused z ∧ z_sectorsPerSeg z = SectorsPerSegment cfg ∧
    ztl_size z = Device_Capacity d / SectorsPerSegment cfg * SectorsPerSegment cfg ∧
    (∀ l, 0 ≤ l < ztl_size z → ztl_sector z l = zero_sector) ∧
    md_dev (z_md z) = (ReportZones 0 0 d).1 ∧
    ZoneManager_Initialize (mkZMD (NewZoneManager (MaxOpenZones d)) d) = (z_md z, Ok tt) ∧ gc_journal (z_gc z) = jo ∧ z_p2l z = ∅ ∧
    z_l2p z = NewL2PTable (Device_Capacity d / SectorsPerSegment cfg).
Proof using.
  intros Hd Hu Hzs Hcap Hmax Hsps Hfit Hj.
  destruct (Initialize_uniform _ (MaxOpenZones d) d Hu) as (md & Hinit & Hdev & Hsizes).
  assert (Hnew : ∃ z, ZTL_New cfg d jo = Ok z ∧ z_md z = md ∧ gc_journal (z_gc z) = jo ∧ z_p2l z = ∅ ∧
      z_l2p z = NewL2PTable (Device_Capacity d / SectorsPerSegment cfg)).
  { unfold ZTL_New, wrap. rw Hinit. destruct (Z.eqb_spec (SectorsPerSegment cfg) 0); [lia|].
    destruct (Z.eqb_spec (ZoneSize d) 0); [lia|].
    destruct (Z.eqb_spec (Device_Capacity d / SectorsPerSegment cfg) 0) as [E|]; [|by eexists].
    apply Z.div_small_iff in E; lia. }
  destruct Hnew as (z & Hnew & Hmd & Hj' & Hp & Hl). exists z.
  assert (Hzones : ∀ i zi, zm_zones (z_zm z) !! i = Some zi → SectorsPerSegment cfg ≤ zi_SizeSectors zi).
  { intros i zi Hi. unfold z_zm in Hi. rw Hmd in Hi. rw (Forall_lookup_1 _ _ _ _ Hsizes Hi). lia. }
  destruct (ZTL_New_wf cfg d jo z) as (Hwf & Hz0 & Hs & Hsize & _ & Hzero); [done|done|done|done|lia|done..|].
  split_and!; try done; by rw Hmd.
Qed.
End start.
