(* ===== verification/Boot.v ===== *)
(** * [cmd/zns-iscsi/main.go]: from the device and the journal to the layer, and back

    The steps of [main] between opening the device and serving it: the journal is
    opened, the layer is built over the device, and recovery fills its forward
    table from the journal; and the steps at its end.  The device is any
    [ZonedDevice]. *)

From S2P Require Import Bytes Config Zbc Backend Segment ZoneManager WriteBuffer Gc Journal Recovery Ztl.

Section boot.
Context {D : Type} `{ZonedDevice D}.

(** The journal, the table and the zone manager recovery works on are those the
    layer holds. *)
Definition z_recovered {J} (j : J) (t : L2PTable) (md : ZMD D) (z : ZTL D J) : ZTL D J :=
  z_set_gc (gc_set_journal (Some j) (gc_set_l2p t (gc_set_md md (z_gc z)))) z.

Definition runRecovery (j : Journal) : M (ZTL D Journal) unit := λ z,
  let '(r, o) := wrap "crash recovery: %w" Recover (mkRecovering j (z_l2p z) (z_md z)) in
  (z_recovered (rs_j r) (rs_l2p r) (rs_md r) z, o).

(** [file] is what [os.OpenFile] returns for the journal. *)
Definition power_on (cfg : Config) (dev : D) (file : outcome File) (clock : list Z) : outcome (ZTL D Journal) :=
  match Journal_Open file clock with
  | Stop r => Stop r
  | Ok j =>
  match ZTL_New cfg dev (Some j) with
  | Stop r => Stop r
  | Ok z =>
  match runRecovery j z with
  | (_, Stop r) => Stop r
  | (z, Ok _) => Ok z
  end end end.
(** The end of [main], after the servers have stopped: the layer is flushed, and
    then closed by the deferred calls with the journal; errors are logged. *)
Definition shutdown (order1 order2 : list Z → list Z) : M (ZTL D Journal) unit :=
  _ ← attempt (ZTL_Flush order1);
  _ ← attempt (ZTL_Close order2);
  _ ← attempt (on_gc (with_journal Journal_Close));
  mret tt.
End boot.
