(* ===== verification/Durable.v ===== *)
(** * What a restart finds on the device

    [DurableDevice] is what a zoned device keeps over a power cycle: its zone
    table, in which a zone that was written since its last reset does not count as
    empty.  What the journal adds to that is in Logged.v. *)

From S2P Require Import Bytes Config Zbc Backend Segment Emulator ZoneManager WriteBuffer Wal Gc Journal JournalSpec JournalTheorems Recovery RecoveryTheorems Ztl ZtlInv ZtlSpec ZtlTheorems.

(** ** Devices *)
Definition dev_shape {D} `{ZonedDevice D} (d d' : D) : Prop :=
  MaxOpenZones d' = MaxOpenZones d ∧ Device_Capacity d' = Device_Capacity d ∧ ZoneSize d' = ZoneSize d.
Definition dev_keeps {D} `{ZonedDevice D} (alive : D → Prop) (zones : D → list ZoneDescriptor)
    (used : D → Z → Prop) (d d' : D) : Prop :=
  alive d → alive d' ∧ zd_ZoneLength <$> zones d' = zd_ZoneLength <$> zones d ∧
  dev_shape d d' ∧ ∀ i, used d i → used d' i.

#[export] Instance dev_keeps_preorder {D} `{ZonedDevice D} alive zones used : PreOrder (dev_keeps (D := D) alive zones used).
Proof.
  split; [by intros d ?; split_and!|]. intros d1 d2 d3 H12 H23 H1. destruct (H12 H1) as (H2 & ? & ? & ?).
  destruct (H23 H2) as (? & ? & ? & ?). unfold dev_shape in *. split_and!; [done|intuition congruence..|auto].
Qed.

Class DurableDevice (D : Type) `{ZonedDeviceSpec D} := {
  dev_alive : D → Prop;
  dev_zones : D → list ZoneDescriptor;      (* what [ReportZones] reports *)
  dev_used : D → Z → Prop;                  (* the zone was written since it was reset *)

  du_alive d : dev_wf d → dev_alive d;
  du_used d i desc : dev_wf d → dev_used d (Z.of_nat i) → dev_zones d !! i = Some desc →
    zd_ZoneState desc ≠ ZoneStateEmpty;

  du_report d : dev_wf d → wp (ReportZones 0 0) (λ d' o, o = Ok (dev_zones d) ∧ dev_zones d' = dev_zones d ∧
    dev_keeps dev_alive dev_zones dev_used d d') d;
  du_open lba : always (dev_keeps dev_alive dev_zones dev_used) (OpenZone lba);
  du_close lba : always (dev_keeps dev_alive dev_zones dev_used) (CloseZone lba);
  du_finish lba : always (dev_keeps dev_alive dev_zones dev_used) (FinishZone lba);
  du_read lba count : always (dev_keeps dev_alive dev_zones dev_used) (ReadSectors lba count);
  du_write d lba data n : dev_wf d → 0 ≤ lba < 2^64 → 0 ≤ n < 2^32 → len data = sectorSize * n →
    wp (WriteSectors lba data) (λ d' o, dev_keeps dev_alive dev_zones dev_used d d' ∧
      (is_ok o → 0 < n → dev_used d' (lba / ZoneSize d))) d;
}.
#[export] Hint Resolve du_open du_close du_finish du_read : always.
Abbreviation keeps := (dev_keeps dev_alive dev_zones dev_used).

(** ** The emulator *)
Definition emu_desc (e : Emulator) (i : nat) (z : zoneState) : ZoneDescriptor :=
  {| zd_ZoneType := ZoneTypeSequentialWrite; zd_ZoneState := zs_state z; zd_ZoneCondition := 0;
     zd_Reset := false; zd_NonSeq := false; zd_ZoneLength := e_zoneSectors e;
     zd_ZoneStartLBA := zoneStartLBA e (Z.of_nat i); zd_WritePointer := zs_writePointer z |}.
Definition emu_zones (e : Emulator) : list ZoneDescriptor := imap (emu_desc e) (e_zones e).
Definition emu_used (e : Emulator) (i : Z) : Prop :=
  ∃ z, 0 ≤ i ∧ e_zones e !! Z.to_nat i = Some z ∧ zs_state z ≠ ZoneStateEmpty.

Lemma emu_report_zones e : emu_wf e → Emulator_ReportZones 0 0 e = (e, Ok (emu_zones e)).
Proof.
  intros Hwf. pose proof (wf_zoneSectors e Hwf). destruct (wf_zoneCount e Hwf) as [Hc Hlen].
  enough (wp (Emulator_ReportZones 0 0) (λ e' o, e' = e ∧ o = Ok (emu_zones e)) e) as H'.
  { unfold wp in H'. destruct (Emulator_ReportZones 0 0 e) as [e' o]; simpl in H'. by destruct H' as (-> & ->). }
  unfold Emulator_ReportZones. wp_steps. apply wp_checked_div; [lia|]. cbn beta iota.
  rw Zdiv_0_l. change (i64 0) with 0. destruct (Z.leb_spec (e_zoneCount e) 0); [lia|].
  rw /= Z.sub_0_r.
  apply wp_for_each with (I := λ done s descs, s = e ∧ descs = take (length done) (emu_zones e)); [done| |].
  - intros done x todo s descs Hsplit (-> & ->). wp_steps.
    assert (Hx : x = len done ∧ 0 ≤ x < e_zoneCount e).
    { assert (Hlk : seqZ 0 (e_zoneCount e) !! length done = Some x)
        by (rw Hsplit; by apply list_lookup_middle).
      apply lookup_seqZ in Hlk as [-> ?]. unfold len. lia. }
    destruct Hx as [Hx Hxr]. destruct (wf_zone_lookup e Hwf x) as [z Hz]; [done|].
    eapply wp_zone_at; [lia|done|]. cbn beta iota. wp_steps. split; [done|].
    rw length_app /= Nat.add_1_r. unfold len in Hx. assert (Hxn : Z.to_nat x = length done) by lia. rw Hxn in Hz.
    rw (take_S_r _ _ (emu_desc e (length done) z)); [by rw list_lookup_imap Hz|]. rw Hx. done.
  - intros s descs (-> & ->). split; [done|]. f_equal. rw length_seqZ.
    unfold emu_zones. rw take_ge; [|done]. rw length_imap. unfold len in Hlen. lia.
Qed.

(** No call but a reset makes a zone empty. *)
Definition emu_keeps (e e' : Emulator) : Prop :=
  e_zoneSectors e' = e_zoneSectors e ∧ length (e_zones e') = length (e_zones e) ∧
  (e_maxOpenZones e' = e_maxOpenZones e ∧ e_zoneCount e' = e_zoneCount e) ∧ ∀ i, emu_used e i → emu_used e' i.
#[local] Instance emu_keeps_preorder : PreOrder emu_keeps.
Proof.
  split; [done|]. intros e1 e2 e3 (? & ? & [??] & ?) (? & ? & [??] & ?). split_and!; [congruence..|auto].
Qed.

Lemma emu_keeps_zone_update idx f :
  (∀ z, zs_state (f z) = ZoneStateEmpty → zs_state z = ZoneStateEmpty) → always emu_keeps (zone_update idx f).
Proof.
  intros Hf. apply always_modify. intros e. split_and!; [done|apply length_alter|done|done|].
  intros i (z & Hi & Hz & Hne). unfold emu_used. cbn. destruct (decide (Z.to_nat idx = Z.to_nat i)) as [Heq|Hn].
  - exists (f z). rw Heq list_lookup_alter_eq Hz. split_and!; [done|done|auto].
  - exists z. by rw list_lookup_alter_ne.
Qed.
Lemma always_openCount n : always emu_keeps (openCount_add n).
Proof. by apply always_modify. Qed.
Lemma emu_keeps_zone_at idx : always emu_keeps (zone_at idx).
Proof. unfold zone_at, from_option. always. Qed.
Lemma emu_keeps_zoneIndex lba : always emu_keeps (zoneIndex lba).
Proof. unfold zoneIndex, checked_div, panic. always. Qed.
#[local] Hint Resolve always_openCount emu_keeps_zone_at emu_keeps_zoneIndex : always.
#[local] Hint Extern 1 (always emu_keeps (zone_update _ _)) => apply emu_keeps_zone_update; intros ?; cbn; try done : always.
#[local] Hint Extern 1 (∀ x, emu_keeps _ _) => done : always.

Lemma emu_keeps_openZoneLocked idx x : always emu_keeps (openZoneLocked idx x).
Proof.
  unfold openZoneLocked. always; apply emu_keeps_zone_update; intros z; cbn; by destruct x.
Qed.
#[local] Hint Resolve emu_keeps_openZoneLocked : always.

Lemma emu_keeps_write_open_zone idx lba data : always emu_keeps (write_open_zone idx lba data).
Proof. unfold write_open_zone, panic. always. Qed.

Lemma emu_write_keeps lba data : always emu_keeps (Emulator_WriteSectors lba data).
Proof. unfold Emulator_WriteSectors. always. apply emu_keeps_write_open_zone. Qed.

(** A successful write leaves its zone in use. *)
Lemma emu_write_used e lba data n :
  emu_wf e → 0 ≤ lba < 2^64 → 0 < n < 2^32 → len data = sectorSize * n →
  wp (Emulator_WriteSectors lba data) (λ e' o, is_ok o → emu_used e' (lba / e_zoneSectors e)) e.
Proof.
  intros Hwf Hlba Hn Hlen. unfold Emulator_WriteSectors. rw Hlen.
  destruct (Z.eqb_spec (sectorSize * n) 0); [unfold sectorSize in *; lia|].
  rw Z.mul_comm Z.mod_mul; [done|]. rw Z.eqb_refl. cbn [negb]. wp_steps.
  apply wp_zoneIndex; [done|done| |]; cbn beta iota; [|done].
  intros i z Hi Hq Hz. wp_steps. eapply wp_zone_at; [lia|done|]. cbn beta iota.
  destruct (lba =? zs_writePointer z); cbn [negb]; wp_steps; [|done].
  assert (Hin : ∀ e', emu_used e' i → wp (write_open_zone i lba data) (λ e'' o, is_ok o → emu_used e'' (lba / e_zoneSectors e)) e').
  { intros e' Hu. unfold wp. intros _. rw -Hq. by apply (emu_keeps_write_open_zone i lba data e'). }
  assert (Hop : ∀ e' (o : outcome unit), (is_ok o → zone_opened i z e') ∧ returns o ∧ dev_same emu_wf emu_sector e e' →
      match o with
      | Ok _ => wp (write_open_zone i lba data) (λ e'' o, is_ok o → emu_used e'' (lba / e_zoneSectors e)) e'
      | Stop r => is_ok (Stop (A := unit) r) → emu_used e' (lba / e_zoneSectors e)
      end).
  { intros e' [[]|r] [Ho _]; [|done]. apply Hin. destruct Ho as (z' & Hz' & Hopen & _); [done|].
    exists z'. split_and!; [lia|done|]. intros He. by rw He in Hopen. }
  destruct (zs_state z) eqn:Hst; wp_steps; try done;
    try (eapply wp_mono; [apply (wp_openZoneLocked e Hwf i z); [lia|done]|apply Hop]);
    apply Hin; exists z; (split_and!; [lia|done|by rw Hst]).
Qed.


Lemma emu_keeps_dev e e' : emu_keeps e e' → dev_keeps (λ _, True) emu_zones emu_used e e'.
Proof.
  intros (Hs & Hl & [Hm Hc] & Hu) _. split_and!; [done| | |done].
  2: { unfold dev_shape. cbn. unfold Emulator_Capacity. by rw Hs Hc Hm. }
  unfold emu_zones. rw !fmap_imap.
  assert (Hrep : ∀ x, imap (λ n, zd_ZoneLength ∘ emu_desc x n) (e_zones x) = replicate (length (e_zones x)) (e_zoneSectors x)).
  { intros x. apply list_eq. intros i. rw list_lookup_imap. destruct (e_zones x !! i) eqn:Hi; cbn.
    - symmetry. apply lookup_replicate. split; [done|by eapply lookup_lt_Some].
    - symmetry. apply lookup_replicate_None. by apply lookup_ge_None. }
  by rw !Hrep Hs Hl.
Qed.
Lemma always_keeps_dev {A} (m : M Emulator A) : always emu_keeps m → always (dev_keeps (λ _, True) emu_zones emu_used) m.
Proof. intros Hm e. apply emu_keeps_dev, Hm. Qed.

Lemma emu_ops_keep lba : always emu_keeps (Emulator_OpenZone lba) ∧ always emu_keeps (Emulator_CloseZone lba) ∧
  always emu_keeps (Emulator_FinishZone lba).
Proof. unfold Emulator_OpenZone, Emulator_CloseZone, Emulator_FinishZone. split_and!; always. Qed.

#[export] Program Instance Emulator_durable : DurableDevice Emulator := {|
  dev_alive := λ _, True; dev_zones := emu_zones; dev_used := emu_used |}.
Next Obligation. done. Qed.
Next Obligation.
  intros e i desc Hwf (z & _ & Hz & Hne). rw Nat2Z.id in Hz. unfold emu_zones. rw list_lookup_imap Hz. by intros [= <-].
Qed.
Next Obligation. intros e Hwf. unfold wp. cbn. by rw emu_report_zones. Qed.
Next Obligation. intros lba. apply always_keeps_dev, emu_ops_keep. Qed.
Next Obligation. intros lba. apply always_keeps_dev, emu_ops_keep. Qed.
Next Obligation. intros lba. apply always_keeps_dev, emu_ops_keep. Qed.
Next Obligation.
  intros lba count. apply always_keeps_dev. cbn. unfold Emulator_ReadSectors, panic. always.
Qed.
Next Obligation.
  intros e lba data n Hwf Hlba Hn Hlen. cbn in *. split; [apply always_keeps_dev, emu_write_keeps|].
  intros Ho Hpos. apply (emu_write_used e lba data n); [done|done|lia|done|done].
Qed.
