(* ===== verification/Logged.v ===== *)
(** * A layer and its journal

    [journal_safe] is a journal whose commits have all succeeded; [logged_state]
    a layer whose forward table is what its records give, with every mapped
    segment buffered or in a zone the device reports as used.  Each operation
    that succeeds keeps this, adding records for the segments it touches, and
    leaves what is already on the device there. *)

From S2P Require Import Bytes Config Zbc Backend Segment Emulator ZoneManager WriteBuffer Wal Gc Journal JournalSpec JournalTheorems Recovery RecoveryTheorems Ztl ZtlInv ZtlSpec ZtlTheorems Durable.

Lemma wp_both {S A} (m : M S A) (Q1 Q2 : S → outcome A → Prop) s :
  wp m Q1 s → wp m Q2 s → wp m (λ s' o, Q1 s' o ∧ Q2 s' o) s.
Proof. by split. Qed.
Lemma wp_always {S A} (R : relation S) (m : M S A) (Q : S → outcome A → Prop) s :
  always R m → wp m Q s → wp m (λ s' o, R s s' ∧ Q s' o) s.
Proof. intros Hm HQ. split; [apply Hm|exact HQ]. Qed.

(** ** The device under the zone manager and the write buffer *)
Section device.
Context {D : Type} `{DurableDevice D}.

Lemma always_on_device {A} (m : M D A) : always keeps m → always (on md_dev keeps) (on_device m).
Proof. intros Hm. by apply always_zoom. Qed.
Lemma always_zm_modify (f : ZoneManager → ZoneManager) : always (on md_dev keeps) (zm_modify f : M (ZMD D) unit).
Proof. unfold zm_modify. always. Qed.
#[local] Hint Resolve always_on_device always_zm_modify : always.
#[local] Hint Unfold zm_get zone_ref : always.
Lemma always_zm_get : always (on md_dev keeps) (zm_get : M (ZMD D) _).
Proof. unfold zm_get. always. Qed.
Lemma always_zone_ref zoneID : always (on md_dev keeps) (zone_ref zoneID : M (ZMD D) _).
Proof. unfold zone_ref, zm_get, from_option. always. Qed.
#[local] Hint Resolve always_zm_get always_zone_ref : always.

Lemma evict_keeps : always (on md_dev keeps) (evictOldestLocked : M (ZMD D) unit).
Proof. unfold evictOldestLocked. always. Qed.
#[local] Hint Resolve evict_keeps : always.
Lemma AllocateFree_keeps : always (on md_dev keeps) (AllocateFree : M (ZMD D) Z).
Proof. unfold AllocateFree, from_option. always. Qed.
Lemma GetOrOpen_keeps zoneID : always (on md_dev keeps) (GetOrOpen zoneID : M (ZMD D) unit).
Proof. unfold GetOrOpen. always. Qed.

Lemma keeps_used d d' i : dev_wf d → keeps d d' → dev_used d i → dev_used d' i.
Proof. intros Hd Hk. by apply (Hk (du_alive d Hd)). Qed.

Implicit Types w : WBD D.
Abbreviation wdev w := (md_dev (wd_md w)).
Abbreviation buffers w := (wb_buffers (wd_buf w)).

(** A flush that succeeds has used the zone. *)
Lemma Flush_used zoneID w :
  wbd_wf w →
  wp (WriteBuffer_Flush zoneID) (λ w' o, keeps (wdev w) (wdev w') ∧
    (is_ok o → is_Some (buffers w !! zoneID) → dev_used (wdev w') zoneID)) w.
Proof.
  intros Hwf. unfold WriteBuffer_Flush, on_buf, on_md. wp_steps.
  destruct (buffers w !! zoneID) as [b|] eqn:Hb.
  2: { wp_steps. split; [done|]. intros _ [b Hb']. congruence. }
  destruct (wbd_buf _ Hwf _ _ Hb) as ((_ & Hw0 & n & Hn & Hlen & Hfit) & Hid & Hni & z & Hz & Hstart & Hend & Hsz).
  rw (zb_end_eq b n Hlen) in Hend. wp_steps.
  destruct (Z.eqb_spec (len (zb_data b)) 0); [unfold sectorSize in *; lia|]. wp_steps.
  eapply wp_mono; [apply (wp_always _ _ (λ md' o, md_same (wd_md w) md' ∧ returns o) _ (GetOrOpen_keeps zoneID))|].
  { apply wp_GetOrOpen; [apply Hwf|done|done|]. by intros. }
  intros md o (Hk & Hsame & Hret). cbn [wd_md wd_buf] in *. unfold on in Hk.
  destruct o as [[]|[e| |]]; cbn beta iota; [|by split|done..].
  unfold on_device. wp_steps. cbn [wd_md].
  destruct Hsame as (Hmd' & _ & _ & Hc & Hzs & _).
  destruct (dev_geometry _ (md_dev_wf _ (wbd_md _ Hwf))).
  eapply wp_mono; [apply (du_write _ _ _ n); [apply Hmd'|lia|lia|done]|].
  intros d o (Hk2 & Hused). pose proof (transitivity Hk Hk2) as Hk'.
  destruct o as [[]|[e| |]]; try by split.
  cbn beta iota. unfold zm_modify. wp_steps. split; [exact Hk'|]. intros _ _. cbn.
  destruct (md_zone _ (wbd_md _ Hwf) _ _ Hz) as (Hs & Hszz & _). rw Z2Nat.id // in Hs.
  replace zoneID with (zb_writePointer b / ZoneSize (md_dev md)); [by apply Hused; [|lia]|].
  rw Hzs. symmetry. apply (Z.div_unique _ _ _ (zb_writePointer b - zi_StartLBA z)); lia.
Qed.

Lemma attempt_Flush_used zoneID w :
  wbd_wf w →
  wp (attempt (WriteBuffer_Flush zoneID)) (λ w' o, keeps (wdev w) (wdev w') ∧
    (o = Ok (inl tt) → is_Some (buffers w !! zoneID) → dev_used (wdev w') zoneID)) w.
Proof.
  intros Hwf. apply wp_attempt. eapply wp_mono; [by apply Flush_used|].
  intros w' [[]|[e| |]] [Hk Hu]; split; try done. intros _. by apply Hu.
Qed.

Lemma FlushAll_used order w :
  wbd_wf w → (∀ l, order l ≡ₚ l) →
  wp (FlushAll order) (λ w' o, keeps (wdev w) (wdev w') ∧
    (is_ok o → ∀ z, is_Some (buffers w !! z) → dev_used (wdev w') z)) w.
Proof.
  intros Hwf Horder. unfold FlushAll. wp_steps. set (ids := order _).
  assert (Hids : ∀ z, is_Some (buffers w !! z) → z ∈ ids).
  { intros z [b Hb]. unfold ids. rw Horder list_elem_of_fmap. exists (z, b). split; [done|]. by apply elem_of_map_to_list. }
  apply wp_for_each with (I := λ done w1 firstErr, flushed w done (no_error firstErr) w1 ∧ keeps (wdev w) (wdev w1) ∧
    (no_error firstErr → ∀ z, z ∈ done → is_Some (buffers w !! z) → dev_used (wdev w1) z)).
  - split; [by apply flushed_nil|]. split; [done|]. intros _ z Hz. by apply not_elem_of_nil in Hz.
  - intros done z todo w1 fe _ (Hfl & Hk & Hu). wp_step. pose proof (proj1 (proj1 Hfl)) as Hwf1.
    assert (Hd1 : dev_wf (wdev w1)) by apply (wbd_md _ Hwf1).
    eapply wp_mono; [apply (wp_both _ _ _ _ (attempt_Flush_used z w1 Hwf1)
      (wp_flushed_step w done _ z (λ w2 o, ∃ r, o = Ok r ∧
         flushed w (done ++ [z]) (no_error fe && if r is inl _ then true else false) w2) w1 Hfl (λ w2 r Hr, ex_intro _ r (conj eq_refl Hr))))|].
    intros w2 o [[Hk2 Hu2] (r & -> & Hfl2)]. cbn beta iota. wp_steps.
    split; [by destruct r, fe|]. split; [by etrans|]. intros Hne z' Hz' Hb.
    assert (no_error fe ∧ r = inl tt) as [Hfe ->] by (by destruct r as [[]|], fe).
    destruct (decide (z' ∈ done)) as [Hin|Hnin]; [by apply (keeps_used (wdev w1)), Hu|].
    apply elem_of_app in Hz' as [|Hz']; [done|]. apply list_elem_of_singleton in Hz' as ->. apply Hu2; [done|].
    by rw (proj2 Hfl z) decide_False.
  - intros w1 fe (_ & Hk & Hu). destruct fe; wp_steps; (split; [done|]); [done|]. intros _ z Hz. apply Hu; auto.
Qed.
End device.

(** ** A journal whose commits have succeeded *)
Definition numbered (recs : list Record_) : Prop :=
  ∀ i r, recs !! i = Some r → r_LSN r = u64 (Z.of_nat i + 1).

Record journal_safe (recs : list Record_) (j : Journal) : Prop := {
  js_idle : idle j;
  js_stream : j_file j ++ concat (j_pending j) = journal_bytes recs;
  js_synced : f_synced (w_file (j_writer j)) = len (j_file j);
  js_lsn : j_lsn j = u64 (len recs);
  js_clock : clock_ok j;
  js_recs : Forall record_ok recs;
  js_numbered : numbered recs;
}.

Lemma safe_holds recs j : journal_safe recs j → journal_holds (journal_bytes recs) j.
Proof. intros [[Hb He] Hs _ _ _ _ _]. split; [by rw Hb|]. rw He Hb. exact Hs. Qed.

Lemma numbered_snoc recs r : numbered recs → r_LSN r = u64 (len recs + 1) → numbered (recs ++ [r]).
Proof.
  intros Hn Hr i r' Hi. apply lookup_app_Some in Hi as [Hi|[Hge Hi]]; [by apply Hn|].
  apply list_lookup_singleton_Some in Hi as [Hi <-]. rw Hr. unfold len. do 2 f_equal. lia.
Qed.

Lemma journal_bytes_snoc recs r : journal_bytes (recs ++ [r]) = journal_bytes recs ++ frame (Record_MarshalBinary r).
Proof. rw journal_bytes_app. unfold journal_bytes at 2, frames. cbn. by rw app_nil_r. Qed.

(** What a log operation leaves: one more record, pending. *)
Lemma safe_append recs ty seg old new j :
  journal_safe recs j → 0 ≤ ty < 2^8 → 0 ≤ seg < 2^64 → 0 ≤ old < 2^64 → 0 ≤ new < 2^64 →
  journal_safe (recs ++ [logged_record j ty seg old new])
    {| j_writer := j_writer j; j_lsn := u64 (j_lsn j + 1);
       j_pending := j_pending j ++ [frame (Record_MarshalBinary (logged_record j ty seg old new))];
       j_clock := tail (j_clock j) |}.
Proof.
  intros [Hi Hs Hy Hl Hc Hr Hn] Hty Hseg Hold Hnew.
  assert (Hlsn : u64 (j_lsn j + 1) = u64 (len recs + 1)) by (rw Hl; unfold u64; by rw Zplus_mod_idemp_l).
  split; [done| |done| | | |].
  - rw journal_bytes_snoc -Hs concat_app app_assoc. cbn. by rw app_nil_r.
  - cbn. rw Hlsn len_app. done.
  - unfold clock_ok in *. cbn. destruct (j_clock j); [done|]. by apply Forall_cons in Hc as [_ ?].
  - apply Forall_app. split; [done|]. constructor; [|constructor].
    assert (Ht : -2^63 ≤ default 0 (head (j_clock j)) < 2^63).
    { unfold clock_ok in Hc. destruct (j_clock j); [done|]. by inversion Hc. }
    pose proof (u64_range (j_lsn j + 1)). by split.
  - by apply numbered_snoc.
Qed.

Lemma safe_LogL2PUpdate recs seg old new (Q : Journal → outcome Z → Prop) j :
  journal_safe recs j → 0 ≤ seg < 2^64 → 0 ≤ old < 2^64 → 0 ≤ new < 2^64 →
  (∀ j' lsn r, journal_safe (recs ++ [r]) j' → j_file j' = j_file j → r_Type r = RecordTypeL2PUpdate → r_SegmentID r = seg →
     r_NewPhysAddr r = new → Q j' (Ok lsn)) →
  wp (Journal_LogL2PUpdate seg old new) Q j.
Proof. intros Hj Hseg Hold Hnew HQ. exact (HQ _ _ _ (safe_append _ RecordTypeL2PUpdate _ _ _ _ Hj ltac:(done) Hseg Hold Hnew) eq_refl eq_refl eq_refl eq_refl). Qed.

Lemma safe_LogZoneOpen recs z (Q : Journal → outcome unit → Prop) j :
  journal_safe recs j → 0 ≤ z < 2^64 →
  (∀ j' r, journal_safe (recs ++ [r]) j' → j_file j' = j_file j → r_Type r = RecordTypeZoneOpen → Q j' (Ok tt)) →
  wp (Journal_LogZoneOpen z) Q j.
Proof. intros Hj Hz HQ. exact (HQ _ _ (safe_append _ RecordTypeZoneOpen z 0 0 _ Hj ltac:(done) Hz ltac:(done) ltac:(done)) eq_refl eq_refl). Qed.

Lemma GroupCommit_lsn : always (on j_lsn eq) Journal_GroupCommit.
Proof.
  assert (∀ A (m : M Writer A), always (on j_lsn eq) (on_writer m)) by (intros A m; by apply always_zoom_other).
  unfold Journal_GroupCommit. always; done.
Qed.

(** A successful commit leaves nothing pending. *)
Lemma safe_GroupCommit recs (Q : Journal → outcome unit → Prop) j :
  journal_safe recs j →
  (∀ j' o, (is_ok o → journal_safe recs j' ∧ j_pending j' = []) → Q j' o) →
  wp Journal_GroupCommit Q j.
Proof.
  intros Hj HQ. pose proof (safe_holds _ _ Hj) as Hh.
  enough (Hw : wp Journal_GroupCommit (λ j' o, is_ok o → journal_safe recs j' ∧ j_pending j' = []) j).
  { eapply wp_mono; [exact Hw|]. intros j' o. apply HQ. }
  pose proof (GroupCommit_lsn j) as Hlsn. pose proof (journal_do_clock OpCommit j) as Hclock. unfold on, flip in *.
  cbn [journal_do] in Hclock.
  enough (Hw : wp Journal_GroupCommit (λ j' o, is_ok o → j_lsn j = j_lsn j' → j_clock j' `suffix_of` j_clock j →
      journal_safe recs j' ∧ j_pending j' = []) j).
  { unfold wp in *. intros Ho. by apply Hw. }
  apply (wp_GroupCommit (journal_bytes recs)); [done|by intros|].
  intros j' o _ [_ Hh'] Hok Ho Hl [k Hk]. destruct (Hok Ho) as (Hp & Hf & Hsy & He). split; [|done].
  destruct Hj as [_ Hs _ Hlj Hc Hr Hn]. rw He Hp in Hh'. cbn in Hh'. rw app_nil_r in Hh'.
  assert (Hb : w_buf (j_writer j') = []).
  { unfold j_file in Hf. rw Hf in Hh'. apply (app_inv_head (journal_bytes recs)). by rw app_nil_r. }
  split; [done| | | | |done|done].
  - rw Hp. cbn. by rw app_nil_r.
  - by rw Hsy Hf.
  - by rw -Hl.
  - unfold clock_ok in *. rw Hk in Hc. by apply Forall_app in Hc as [_ ?].
Qed.

(** ** The layer *)
Definition rec_in (T : Z → Prop) (r : Record_) : Prop :=
  r_Type r = RecordTypeL2PUpdate ∧ T (r_SegmentID r) ∨ r_Type r = RecordTypeZoneOpen.

Lemma rec_in_mono (T T' : Z → Prop) r : (∀ x, T x → T' x) → rec_in T r → rec_in T' r.
Proof. intros HT [[Hty Hr]|Hr]; [left; auto|by right]. Qed.

Section logged.
Context {D : Type} `{DurableDevice D} {Old : OldZones}.
Implicit Types s : ZTL D Journal.
Abbreviation dev s := (md_dev (z_md s)).
Abbreviation bufs s := (wb_buffers (z_buf s)).

(** The segment at [p] is in a buffer, or in a zone that counts as used. *)
Definition kept s (p : Z) : Prop := dev_used (dev s) (PhysAddr_ZoneID p) ∨ is_Some (bufs s !! PhysAddr_ZoneID p).
(** The segment at [p] is on the device. *)
Definition on_medium s (p : Z) : Prop :=
  dev_used (dev s) (PhysAddr_ZoneID p) ∧
  ∀ b, bufs s !! PhysAddr_ZoneID p = Some b → phys_start (z_wbd s) p + z_sectorsPerSeg s ≤ zb_writePointer b.

Record logged_state (recs : list Record_) s : Prop := {
  ls_journal : ∃ j, gc_journal (z_gc s) = Some j ∧ journal_safe recs j;
  ls_table : l2p_entries (z_l2p s) = foldl update_entries (replicate (Z.to_nat (l2p_size (z_l2p s))) 0) recs;
  ls_recs : Forall (rec_in (λ seg, 0 ≤ seg < l2p_size (z_l2p s))) recs;
  ls_sizes : zi_SizeSectors <$> zm_zones (z_zm s) = zd_ZoneLength <$> dev_zones (dev s);
  ls_kept seg : 0 ≤ seg < l2p_size (z_l2p s) → L2PTable_Get seg (z_l2p s) ≠ 0 → kept s (L2PTable_Get seg (z_l2p s));
}.

(** The bytes of the journal file. *)
Definition durable s : Z := match gc_journal (z_gc s) with Some j => len (j_file j) | None => 0 end.

(** Between [s] and [s'] the records [more], for segments of [T], were added; what was
    on the device is where it was, and the journal file has grown. *)
Record advanced (T : Z → Prop) (recs more : list Record_) s s' : Prop := {
  ad_size : l2p_size (z_l2p s') = l2p_size (z_l2p s);
  ad_sps : z_sectorsPerSeg s' = z_sectorsPerSeg s;
  ad_logged : logged_state (recs ++ more) s';
  ad_recs : Forall (rec_in T) more;
  ad_durable : durable s ≤ durable s';
  ad_keeps : keeps (dev s) (dev s');
  ad_medium p : placed (z_wbd s) (z_sectorsPerSeg s) p → on_medium s p →
    placed (z_wbd s') (z_sectorsPerSeg s') p ∧ on_medium s' p ∧ phys_start (z_wbd s') p = phys_start (z_wbd s) p;
}.

Lemma advanced_refl T recs s : logged_state recs s → advanced T recs [] s s.
Proof. intros Hl. split; [done|done|by rw app_nil_r|constructor|done|done|done]. Qed.

Lemma advanced_trans (T1 T2 T : Z → Prop) recs more1 more2 s1 s2 s3 :
  (∀ x, T1 x → T x) → (∀ x, T2 x → T x) →
  advanced T1 recs more1 s1 s2 → advanced T2 (recs ++ more1) more2 s2 s3 → advanced T recs (more1 ++ more2) s1 s3.
Proof.
  intros HT1 HT2 [Hsz Hsp Hl Hin Hd Hk Hm] [Hsz' Hsp' Hl' Hin' Hd' Hk' Hm'].
  split; [congruence|congruence|by rw app_assoc| |lia|by etrans|].
  - apply Forall_app. split; (eapply Forall_impl; [done|]); intros r; by apply rec_in_mono.
  - intros p Hp Ho. destruct (Hm p Hp Ho) as (Hp2 & Ho2 & Heq). destruct (Hm' p Hp2 Ho2) as (? & ? & ?).
    split_and!; [done|done|congruence].
Qed.

Lemma advanced_mono (T T' : Z → Prop) recs more s s' :
  (∀ x, T x → T' x) → advanced T recs more s s' → advanced T' recs more s s'.
Proof.
  intros HT [Hsz Hsp Hl Hin Hd Hk Hm]. split; try done. eapply Forall_impl; [done|]. intros r. by apply rec_in_mono.
Qed.

Lemma geom_sizes (zm zm' : ZoneManager) :
  zi_geom <$> zm_zones zm' = zi_geom <$> zm_zones zm → zi_SizeSectors <$> zm_zones zm' = zi_SizeSectors <$> zm_zones zm.
Proof.
  intros Hg. apply (f_equal (fmap (λ g : Z * Z * Z * Z, g.2))) in Hg. by rw -!list_fmap_compose in Hg.
Qed.

(** The buffer, the manager and the device change in a way the map does not notice. *)
Lemma advanced_wbd P recs s w :
  logged_state recs s → ztl_wf s → wbd_frame P (z_wbd s) w →
  (∀ z b, wb_buffers (wd_buf w) !! z = Some b → bufs s !! z = Some b) →
  keeps (dev s) (md_dev (wd_md w)) →
  (∀ z, is_Some (bufs s !! z) → dev_used (md_dev (wd_md w)) z ∨ is_Some (wb_buffers (wd_buf w) !! z)) →
  advanced (λ _, False) recs [] s (z_set_wbd w s).
Proof.
  intros [Hj Ht Hr Hs Hk] Hwf Hf Hb Hkeep Hused. destruct w as [wb md].
  pose proof (wbd_md _ (mw_wbd _ _ _ _ (zw_map _ Hwf))) as Hmd.
  pose proof (Hkeep (du_alive _ (md_dev_wf _ Hmd))) as (_ & Hlen & _ & Hmono).
  split; [done|done| |constructor|done|exact Hkeep|].
  - rw app_nil_r. split; [done|done|done| |].
    + change (zi_SizeSectors <$> zm_zones (md_zm md) = zd_ZoneLength <$> dev_zones (md_dev md)).
      rw (geom_sizes _ _ (proj1 (proj2 Hf))) Hlen. exact Hs.
    + intros seg Hseg Hne. destruct (Hk seg Hseg Hne) as [Hu|Hu]; [left; by apply Hmono|]. by apply Hused.
  - intros p Hp [Hu Ho]. destruct (placed_frame P _ _ _ p Hf Hb Hp) as [Hp' Heq]. split; [exact Hp'|]. split; [|exact Heq].
    split; [by apply Hmono|]. intros b Hb'.
    change (phys_start (mkWBD wb md) p + z_sectorsPerSeg s ≤ zb_writePointer b). rw Heq. by apply Ho, Hb.
Qed.

Lemma update_entries_other t r : r_Type r ≠ RecordTypeL2PUpdate → update_entries t r = t.
Proof. unfold update_entries. by destruct (Z.eqb_spec (r_Type r) RecordTypeL2PUpdate). Qed.

Lemma foldl_zone_opens t rs : Forall (rec_in (λ _, False)) rs → foldl update_entries t rs = t.
Proof.
  intros Hrs. induction rs as [|r rs IH] in t, Hrs |- *; [done|]. apply Forall_cons in Hrs as [Hr Hrs].
  cbn [foldl]. rw IH //. destruct Hr as [[_ []]|Hr]. apply update_entries_other. by rw Hr.
Qed.

(** Only the journal changes, and no update is logged. *)
Lemma advanced_journal recs more s j' :
  logged_state recs s → journal_safe (recs ++ more) j' → durable s ≤ len (j_file j') →
  Forall (rec_in (λ _, False)) more →
  advanced (λ _, False) recs more s (z_set_gc (gc_set_journal (Some j') (z_gc s)) s).
Proof.
  intros [Hj Ht Hr Hs Hk] Hj' Hd Hmore. split; [done|done| |done|exact Hd|done|done].
  split; [by exists j'| | |done|done].
  - by rw foldl_app foldl_zone_opens.
  - apply Forall_app. split; [done|]. eapply Forall_impl; [done|]. intros r. by apply rec_in_mono.
Qed.

(** Logging one record, which never fails. *)
Lemma wp_log_one {A} (m : M Journal A) (P : Record_ → Prop) (Q : ZTL D Journal → outcome unit → Prop) recs s :
  logged_state recs s →
  (∀ j (Q' : Journal → outcome A → Prop), journal_safe recs j →
     (∀ j' a r, journal_safe (recs ++ [r]) j' → j_file j' = j_file j → P r → Q' j' (Ok a)) → wp m Q' j) →
  (∀ j' r, journal_safe (recs ++ [r]) j' → durable s ≤ len (j_file j') → P r → Q (z_set_gc (gc_set_journal (Some j') (z_gc s)) s) (Ok tt)) →
  wp (on_gc (with_journal m)) Q s.
Proof.
  intros [(j & Hj & Hsafe) _ _ _ _] Hm HQ. unfold on_gc. wp_step. unfold wp, with_journal. rw Hj.
  pose proof (Hm j (λ j' o, Q (z_set_gc (gc_set_journal (Some j') (z_gc s)) s)
    (match o with Ok _ => Ok tt | Stop r => Stop r end)) Hsafe
    ltac:(intros j' a r Hj' Hf; apply HQ; [done|unfold durable; by rw Hj Hf])) as Hw.
  unfold wp in Hw. by destruct (m j) as [j' [a|r]].
Qed.

Lemma wp_log_update seg old new (Q : ZTL D Journal → outcome unit → Prop) recs s :
  logged_state recs s → 0 ≤ seg < 2^64 → 0 ≤ old < 2^64 → 0 ≤ new < 2^64 →
  (∀ j' r, journal_safe (recs ++ [r]) j' → durable s ≤ len (j_file j') →
     r_Type r = RecordTypeL2PUpdate ∧ r_SegmentID r = seg ∧ r_NewPhysAddr r = new →
     Q (z_set_gc (gc_set_journal (Some j') (z_gc s)) s) (Ok tt)) →
  wp (on_gc (with_journal (LogL2PUpdate seg old new))) Q s.
Proof.
  intros Hl Hseg Hold Hnew HQ.
  apply (wp_log_one _ (λ r, r_Type r = RecordTypeL2PUpdate ∧ r_SegmentID r = seg ∧ r_NewPhysAddr r = new) _ recs s Hl); [|exact HQ].
  intros j Q' Hj HQ'. apply (safe_LogL2PUpdate recs); [done..|]. intros. by eapply HQ'.
Qed.

Lemma wp_log_open zone (Q : ZTL D Journal → outcome unit → Prop) recs s :
  logged_state recs s → 0 ≤ zone < 2^64 →
  (∀ j' r, journal_safe (recs ++ [r]) j' → durable s ≤ len (j_file j') → r_Type r = RecordTypeZoneOpen →
     Q (z_set_gc (gc_set_journal (Some j') (z_gc s)) s) (Ok tt)) →
  wp (on_gc (with_journal (LogZoneOpen zone))) Q s.
Proof.
  intros Hl Hz HQ. apply (wp_log_one _ (λ r, r_Type r = RecordTypeZoneOpen) _ recs s Hl); [|exact HQ].
  intros j Q' Hj HQ'. apply (safe_LogZoneOpen recs); [done..|]. intros. by eapply HQ'.
Qed.

Lemma update_entries_l2p t r new seg :
  r_Type r = RecordTypeL2PUpdate → r_SegmentID r = seg → r_NewPhysAddr r = new →
  update_entries t r = <[Z.to_nat seg := new]> t.
Proof. intros Hty <- <-. unfold update_entries. by rw Hty. Qed.

Lemma table_snoc recs r t :
  l2p_entries t = foldl update_entries (replicate (Z.to_nat (l2p_size t)) 0) recs →
  r_Type r = RecordTypeL2PUpdate →
  l2p_entries (l2p_store (r_SegmentID r) (r_NewPhysAddr r) t) =
  foldl update_entries (replicate (Z.to_nat (l2p_size t)) 0) (recs ++ [r]).
Proof. intros Ht Hty. rw foldl_app -Ht. cbn. symmetry. by apply update_entries_l2p. Qed.

(** A segment placed at the write pointer, logged before. *)
Lemma advanced_commit recs now seg data zoneID zi j' r s :
  let newPhys := EncodePhysAddr zoneID (zi_WritePointer zi - zi_StartLBA zi) in
  logged_state recs s → ztl_wf s → 0 ≤ seg < l2p_size (z_l2p s) →
  len data = sectorSize * z_sectorsPerSeg s →
  z_currentZoneOpen s = true → z_currentWriteZone s = zoneID →
  zm_zones (z_zm s) !! Z.to_nat zoneID = Some zi →
  zi_WritePointer zi + z_sectorsPerSeg s ≤ zi_StartLBA zi + zi_SizeSectors zi →
  journal_safe (recs ++ [r]) j' → durable s ≤ len (j_file j') →
  r_Type r = RecordTypeL2PUpdate → r_SegmentID r = seg → r_NewPhysAddr r = newPhys →
  advanced (λ x, x = seg) recs [r] s
    (ztl_commit now seg data zoneID (zi_WritePointer zi) newPhys (z_set_gc (gc_set_journal (Some j') (z_gc s)) s)).
Proof.
  intros newPhys [Hj Ht Hr Hs Hk] Hwf Hseg Hlen Hopen Hcur Hzi Hroom Hj' Hd Hty Hrs Hrn.
  set (s2 := z_set_gc (gc_set_journal (Some j') (z_gc s)) s).
  assert (Hwf2 : ztl_wf s2) by (apply ztl_same_journal; [done|by eexists; eapply safe_holds]).
  pose proof (commit_zone now seg data zoneID s2 zi Hwf2 Hseg Hlen Hopen Hcur Hzi Hroom) as Hzone.
  pose proof (commit_buffers now seg data zoneID s2 zi Hwf2 Hseg Hlen Hopen Hcur Hzi Hroom) as Hbufs.
  pose proof (commit_sizes now seg data zoneID s2 zi Hwf2 Hseg Hlen Hopen Hcur Hzi Hroom) as Hsizes.
  pose proof (commit_placed now seg data zoneID s2 zi Hwf2 Hseg Hlen Hopen Hcur Hzi Hroom) as Hplaced.
  fold newPhys in Hzone, Hbufs, Hsizes, Hplaced. set (s3 := ztl_commit _ _ _ _ _ _ s2) in *.
  split; [done|done| |by constructor; [left|]|exact Hd|done|].
  - split; [by exists j'| | |by rw Hsizes|].
    + change (z_l2p s3) with (l2p_store seg newPhys (z_l2p s)). cbn [l2p_size l2p_store].
      by rw -(table_snoc recs r (z_l2p s) Ht Hty) Hrs Hrn.
    + apply Forall_app. split; [done|]. constructor; [|constructor]. left. by rw Hrs.
    + intros seg' Hseg' Hne. change (z_l2p s3) with (l2p_store seg newPhys (z_l2p s)) in *.
      unfold kept. rw Hbufs. rw L2PTable_Get_store in Hne |- *; [apply Hwf|done|lia|].
      case_decide as Heq; [right; rw Hzone; by rw lookup_insert_eq|].
      destruct (Hk seg' Hseg' Hne) as [Hu|Hu]; [by left|right]. by apply lookup_insert_is_Some'; right.
  - intros p Hp [Hu Ho]. destruct (Hplaced p Hp) as [Hp' Heq]. split; [exact Hp'|]. split; [|exact Heq].
    split; [done|]. rw Hbufs. intros b. rw Heq. rw lookup_insert_Some. intros [[Hz <-]|[_ Hb]]; [|by apply Ho].
    cbn. destruct (bufs s !! zoneID) as [b0|] eqn:Hb0; cbn.
    + apply Ho. by rw -Hz.
    + destruct Hp as (_ & z & Hz' & _ & Ha & _). rw -Hz in Hz' Ha. cbn in Hz'.
      assert (z = zi) as -> by (unfold z_zm in Hzi; congruence).
      change (phys_start (z_wbd s2) p) with (phys_start (z_wbd s) p). 
      rw (phys_start_eq (z_wbd s) p zi); [by rw -Hz|]. apply Ha. rw -Hcur. by apply Hwf.
Qed.

Lemma advanced_current T recs more s s1 zone open :
  advanced T recs more s s1 → advanced T recs more s (z_set_current zone open s1).
Proof. intros [Hsz Hsp [Hj Ht Hr Hs Hk] Hm Hd Hkeep Hp]. split; [done|done|by split|done..]. Qed.

Lemma logged_current recs s zone open : logged_state recs s → logged_state recs (z_set_current zone open s).
Proof. by intros [Hj Ht Hr Hs Hk]. Qed.

Lemma advanced_one recs s r j' :
  logged_state recs s → journal_safe (recs ++ [r]) j' → durable s ≤ len (j_file j') → r_Type r = RecordTypeZoneOpen →
  advanced (λ _, False) recs [r] s (z_set_gc (gc_set_journal (Some j') (z_gc s)) s).
Proof. intros Hl Hj Hd Hr. apply (advanced_journal recs [r]); [done..|]. constructor; [by right|constructor]. Qed.

Lemma getWriteZone_logged recs s :
  ztl_wf s → logged_state recs s → wp getWriteZone (λ s' o, is_ok o → ∃ more, advanced (λ _, False) recs more s s') s.
Proof.
  intros Hwf Hl. unfold getWriteZone. wp_steps.
  match goal with |- context [if ?b then _ else _] => destruct b end; wp_steps; [intros _; exists []; by apply advanced_refl|].
  set (s1 := z_set_current (z_currentWriteZone s) false s). unfold on_gc at 1, on_zm. wp_steps.
  change (gc_md (z_gc s1)) with (z_md s).
  pose proof (mw_wbd _ _ _ _ (zw_map _ Hwf)) as Hw.
  eapply wp_mono; [apply (wp_always _ _ (λ md o, md_same (z_md s) md ∧ returns o ∧ alloc_post (z_md s) md o) _ AllocateFree_keeps)|].
  { apply wp_AllocateFree; [apply (wbd_md _ Hw)|]. by intros. }
  intros md o (Hkeep & Hmd & Hret & Halloc). unfold on in Hkeep. change (md_dev (z_md s)) with (dev s) in Hkeep.
  destruct o as [zoneID|[e| |]]; cbn beta iota; [|done..].
  destruct Halloc as [Hfl _]. assert (Hzone : zoneID ∈ zm_freeList (z_zm s)) by (unfold z_zm; rw Hfl; set_solver).
  assert (Hadv : advanced (λ _, False) recs [] s (z_set_wbd (mkWBD (z_buf s) md) s)).
  { apply (advanced_wbd (λ _, True)); [done|done| |done|done|by right].
    apply (wbd_md_same _ (z_wbd s)); [done|done|]. intros z Hz. cbn in Hz |- *. unfold z_md. rw Hfl. set_solver. }
  set (sA := z_set_current (z_currentWriteZone s) false (z_set_wbd (mkWBD (z_buf s) md) s)).
  apply advanced_current with (zone := z_currentWriteZone s) (open := false) in Hadv. fold sA in Hadv.
  pose proof (wf_free_range _ (md_zm_wf _ (wbd_md _ Hw)) _ Hzone) as Hrange.
  pose proof (md_count _ (wbd_md _ Hw)) as Hcount. cbn in Hrange, Hcount.
  wp_steps. change (z_set_gc (gc_set_md md (z_gc s1)) s1) with sA.
  pose proof (ad_logged _ _ _ _ _ Hadv) as HlA. apply (wp_log_open _ _ _ _ HlA); [lia|].
  intros j' r Hj' Hd Hr. cbn beta iota. wp_steps. intros _. exists ([] ++ [r]). apply advanced_current.
  apply (advanced_trans (λ _, False) (λ _, False) _ _ _ _ _ sA); [done|done|done|]. by apply advanced_one.
Qed.

(** Flushing one zone, and all of them. *)
Lemma flush_logged recs zoneID s :
  ztl_wf s → logged_state recs s →
  wp (on_wbd (WriteBuffer_Flush zoneID)) (λ s' o, is_ok o → ∃ more, advanced (λ _, False) recs more s s') s.
Proof.
  intros Hwf Hl. pose proof (mw_wbd _ _ _ _ (zw_map _ Hwf)) as Hw. unfold on_wbd. wp_step.
  eapply wp_mono; [apply wp_both; [by apply (Flush_used zoneID)|]|].
  { apply (wp_Flush zoneID (λ w o, wb_buffers (wd_buf w) = delete zoneID (bufs s) ∧ wbd_frame (λ z, is_ok o ∨ z ≠ zoneID) (z_wbd s) w));
      [done|]. by intros. }
  intros w o [[Hk Hu] [Hdel Hf]] Ho. exists [].
  apply (advanced_wbd _ recs s w Hl Hwf Hf); [|exact Hk|].
  - intros z b. rw Hdel. by intros [_ ?]%lookup_delete_Some.
  - intros z Hz. destruct (decide (z = zoneID)) as [->|Hne]; [left; by apply Hu|right]. by rw Hdel lookup_delete_ne.
Qed.

Lemma flush_if_full_logged recs zoneID full s :
  ztl_wf s → logged_state recs s →
  wp (flush_if_full zoneID full) (λ s' o, is_ok o → ∃ more, advanced (λ _, False) recs more s s') s.
Proof.
  intros Hwf Hl. unfold flush_if_full. wp_step. destruct full; [|intros _; exists []; by apply advanced_refl].
  wp_steps. eapply wp_mono; [by apply (flush_logged recs)|]. intros s' [[]|[e| |]] Ha; try done.
  wp_steps. intros _. destruct (Ha I) as [more Hadv]. exists more. by apply advanced_current.
Qed.

Lemma FlushAll_logged recs order s :
  ztl_wf s → logged_state recs s → (∀ l, order l ≡ₚ l) →
  wp (on_wbd (FlushAll order)) (λ s' o, is_ok o → ∃ more, advanced (λ _, False) recs more s s' ∧ bufs s' = ∅) s.
Proof.
  intros Hwf Hl Horder. pose proof (mw_wbd _ _ _ _ (zw_map _ Hwf)) as Hw. unfold on_wbd. wp_step.
  eapply wp_mono; [apply wp_both; [by apply (FlushAll_used order)|]|].
  { apply (wp_FlushAll order (λ w o, wb_buffers (wd_buf w) = ∅ ∧
      wbd_frame (λ z, is_ok o ∨ wb_buffers (wd_buf (z_wbd s)) !! z = None) (z_wbd s) w)); [done|done|]. by intros. }
  intros w o [[Hk Hu] [Hempty Hf]] Ho. exists []. split; [|done].
  apply (advanced_wbd _ recs s w Hl Hwf Hf); [|exact Hk|].
  - intros z b. by rw Hempty lookup_empty.
  - intros z Hz. left. by apply Hu.
Qed.

Lemma commit_logged recs s :
  logged_state recs s →
  wp journal_commit (λ s' o, is_ok o → advanced (λ _, False) recs [] s s' ∧ z_wbd s' = z_wbd s ∧
    ∃ j, gc_journal (z_gc s') = Some j ∧ j_pending j = []) s.
Proof.
  intros Hl. pose proof Hl as [(j & Hj & Hsafe) _ _ _ _]. unfold journal_commit, on_gc. wp_step.
  unfold wp, with_journal. rw Hj.
  enough (Hw : wp Journal_GroupCommit (λ j' o, is_ok o → journal_safe recs j' ∧ j_pending j' = []) j).
  { unfold wp in Hw. cbn [GroupCommit Journal_ops]. destruct (Journal_GroupCommit j) as [j' [a|r]]; cbn in *; [|done].
    intros _. destruct (Hw I) as [Hj' Hp]. split; [|by eauto].
    apply advanced_journal; [done|by rw app_nil_r| |constructor].
    pose proof (js_stream _ _ Hj') as Hst. rw Hp app_nil_r -(js_stream _ _ Hsafe) in Hst.
    unfold durable. rw Hj Hst len_app. pose proof (len_nonneg (concat (j_pending j))). lia. }
  apply (safe_GroupCommit recs); [done|]. intros j' o Ho. exact Ho.
Qed.

(** The address of a segment fits the journal's field. *)
Lemma mapped_range s seg : ztl_wf s → 0 ≤ seg < l2p_size (z_l2p s) → 0 ≤ L2PTable_Get seg (z_l2p s) < 2^64.
Proof.
  intros Hwf Hseg. destruct (decide (L2PTable_Get seg (z_l2p s) = 0)) as [->|Hne]; [done|].
  by destruct (mw_placed _ _ _ _ (zw_map _ Hwf) seg Hseg Hne).
Qed.

Lemma writeSegment_logged recs now seg data startLBA s :
  ztl_wf s → logged_state recs s → 0 ≤ seg < l2p_size (z_l2p s) → len data = sectorSize * z_sectorsPerSeg s →
  wp (writeSegment now seg data startLBA) (λ s' o, is_ok o → ∃ more, advanced (λ x, x = seg) recs more s s') s.
Proof.
  intros Hwf Hl Hseg Hlen. unfold writeSegment. wp_step.
  eapply wp_mono; [apply wp_both; [by apply (getWriteZone_logged recs)|]|].
  { apply (wp_getWriteZone (λ s' o, ztl_same s s' ∧ match o with Ok z => has_room s' z | _ => True end)); [done|]. by intros. }
  intros s1 o [Hadv [Hs1 Hroom]]. destruct o as [zoneID|[e| |]]; cbn beta iota; [|done..].
  destruct (Hadv I) as [more1 Hadv1]. clear Hadv. pose proof (ad_logged _ _ _ _ _ Hadv1) as Hl1.
  destruct Hroom as (Hopen & Hcur & zi & Hzi & Hroom). pose proof Hs1 as (Hwf1 & Ht1 & Hsps1 & _ & _).
  destruct (zw_current _ Hwf1 Hopen) as (z & Hz & Hid & Hni & Hwp). rw Hcur in Hz Hid Hni.
  assert (z = zi) as -> by congruence. clear Hz. destruct (zone_bounds _ _ _ Hwf1 Hzi) as (? & ? & ?).
  wp_steps. rw (proj2 (ZoneInfo_Some _ _ zi Hid) Hzi). wp_steps. rw (WritePointer_eq _ _ zi Hid Hzi).
  rw -Ht1 in Hseg. rw -Hsps1 in Hlen.
  assert (Hn : len data / 512 = z_sectorsPerSeg s1) by (rw Hlen; unfold sectorSize; rw Z.mul_comm Z.div_mul //).
  pose proof (mw_sps _ _ _ _ (zw_map _ Hwf1)) as Hsps. rw Hn !u64_small; [lia..|].
  set (newPhys := EncodePhysAddr zoneID (zi_WritePointer zi - zi_StartLBA zi)).
  destruct (mw_l2p _ _ _ _ (zw_map _ Hwf1)) as (_ & _ & Hmax).
  wp_steps. apply (wp_log_update _ _ _ _ _ s1 Hl1); [nia|by apply mapped_range|apply EncodePhysAddr_range|].
  intros j' r Hj' Hd (Hty & Hrs & Hrn). cbn beta iota. unfold on_gc, Gc.on_l2p. wp_steps.
  pose proof (advanced_commit (recs ++ more1) now seg data zoneID zi j' r s1 Hl1 Hwf1 Hseg Hlen Hopen Hcur Hzi Hroom Hj' Hd Hty Hrs Hrn) as Hadv2.
  set (s2 := z_set_gc (gc_set_journal (Some j') (z_gc s1)) s1) in *.
  assert (Hwf2 : ztl_wf s2) by (apply ztl_same_journal; [done|by eexists; eapply safe_holds]).
  apply (wp_L2PTable_Set seg newPhys _ (z_l2p s1)); [lia|]. cbn beta iota.
  assert (Htail : ∀ st, st = ztl_commit now seg data zoneID (zi_WritePointer zi) newPhys s2 →
    wp (flush_if_full zoneID (zi_StartLBA zi + zi_SizeSectors zi <=? zi_WritePointer zi + z_sectorsPerSeg s1))
      (λ s' o, is_ok o → ∃ more, advanced (λ x, x = seg) recs more s s') st).
  { intros st ->. pose proof (ztl_commit_wf now seg data zoneID s2 zi Hwf2 Hseg Hlen Hopen Hcur Hzi Hroom) as Hwf3.
    eapply wp_mono; [apply (flush_if_full_logged _ _ _ _ Hwf3 (ad_logged _ _ _ _ _ Hadv2))|].
    intros s' o Ho Hok. destruct (Ho Hok) as [more3 Hadv3]. exists (more1 ++ [r] ++ more3).
    apply (advanced_trans (λ _, False) (λ x, x = seg) _ _ _ _ _ s1); [done|done|done|].
    by apply (advanced_trans (λ x, x = seg) (λ _, False) _ _ _ _ _ _ _ (λ _ H, H) (λ _ (H : False), match H with end) Hadv2). }
  assert (Hadd : ∀ wb (Q' : WriteBuffer → outcome unit → Prop),
    Q' (wb_added now zoneID data (zi_WritePointer zi) wb) (Ok tt) →
    wp (WriteBuffer_Add now zoneID data (zi_WritePointer zi)) Q' wb).
  { intros wb Q' HQ'. unfold wp, wb_added in *. unfold WriteBuffer_Add in *. by case_match. }
  destruct (PhysAddr_IsUnmapped (L2PTable_Get seg (z_l2p s1))) eqn:Hu; cbn [negb];
    unfold zm_update, on_gc, on_zm, on_wb, p2l_modify, zm_modify; wp_steps; apply Hadd; cbn beta iota; apply: Htail;
    unfold ztl_commit, counted; change (z_l2p s2) with (z_l2p s1); rw Hu; reflexivity.
Qed.

(** ** Unmapping *)
Lemma unmap_segment_logged recs seg s :
  ztl_wf s → logged_state recs s → 0 ≤ seg < l2p_size (z_l2p s) →
  wp (unmap_segment tt seg) (λ s' o, is_ok o → ∃ more, advanced (λ x, x = seg) recs more s s') s.
Proof.
  intros Hwf Hl Hseg. unfold unmap_segment. wp_steps.
  destruct (PhysAddr_IsUnmapped _) eqn:Hu; wp_steps; [intros _; exists []; by apply advanced_refl|].
  destruct (mw_l2p _ _ _ _ (zw_map _ Hwf)) as (_ & _ & Hmax). pose proof (mw_sps _ _ _ _ (zw_map _ Hwf)) as Hsps.
  apply (wp_log_update _ _ _ _ _ s Hl); [nia|by apply mapped_range|done|].
  intros j' r Hj' Hd (Hty & Hrs & Hrn). cbn beta iota. unfold zm_update, on_gc, Gc.on_l2p, on_zm, p2l_modify, zm_modify. wp_steps.
  apply (wp_L2PTable_Set seg 0 _ (z_l2p s)); [lia|]. cbn beta iota. wp_steps. intros _. exists [r].
  destruct Hl as [Hj Ht Hr Hs Hk].
  set (zone := PhysAddr_ZoneID _). pose proof (wbd_md _ (mw_wbd _ _ _ _ (zw_map _ Hwf))) as Hmd.
  set (w := mkWBD (z_buf s) (mkZMD (DecrementValidSegs zone (z_zm s)) (dev s)) : WBD D).
  assert (Hf : wbd_frame (λ _, True) (z_wbd s) w).
  { apply (wbd_md_same _ (z_wbd s)); [apply (zw_map _ Hwf)|by apply (DecrementValidSegs_same (z_md s))|].
    cbn. unfold DecrementValidSegs. by case_match. }
  split; [done|done| |by constructor; [left|]|exact Hd|done|].
  - split; [by exists j'| | | |].
    + cbn. change (gc_l2p (z_gc s)) with (z_l2p s). by rw -(table_snoc recs r (z_l2p s) Ht Hty) Hrs Hrn.
    + apply Forall_app. split; [done|]. constructor; [|constructor]. left. cbn. by rw Hrs.
    + rw -Hs. exact (geom_sizes _ _ (proj1 (proj2 Hf))).
    + intros seg' Hseg' Hne. cbn [z_l2p z_gc gc_l2p] in *. cbn in Hne, Hseg' |- *.
      rw L2PTable_Get_store in Hne |- *; [apply Hwf|done|lia|]. case_decide; [done|]. by apply Hk.
  - intros p Hp [Hu' Ho]. destruct (placed_frame _ (z_wbd s) w _ p Hf ltac:(done) Hp) as [Hp' Heq].
    split; [exact Hp'|]. split; [|exact Heq]. split; [exact Hu'|]. intros b Hb.
    change (phys_start w p + z_sectorsPerSeg s ≤ zb_writePointer b). rw Heq. by apply Ho.
Qed.

(** ** Reading *)

(** Only the device moved. *)
Definition dev_only s s' : Prop :=
  keeps (dev s) (dev s') ∧ s' = z_set_gc (gc_set_md (mkZMD (z_zm s) (dev s')) (z_gc s)) s.
#[local] Instance dev_only_preorder : PreOrder dev_only.
Proof.
  split; [intros s; split; [done|by destruct s as [[? ? [] ? ? ? ? ?] ? ? ? ? ? ?]]|].
  intros s1 s2 s3 [Hk12 H12'] [Hk23 H23']. split; [by etrans|]. rw H23' H12'. done.
Qed.

Lemma advanced_dev recs s s' :
  logged_state recs s → ztl_wf s → dev_only s s' → advanced (λ _, False) recs [] s s'.
Proof.
  intros [Hj Ht Hr Hs Hk] Hwf [Hkeep ->]. 
  destruct (Hkeep (du_alive _ (md_dev_wf _ (wbd_md _ (mw_wbd _ _ _ _ (zw_map _ Hwf)))))) as (_ & Hlen & _ & Hmono).
  cbn in Hlen, Hmono. split; [done|done| |constructor|done|exact Hkeep|].
  - rw app_nil_r. split; [done|done|done| |].
    + cbn. rw Hlen. exact Hs.
    + intros seg Hseg Hne. destruct (Hk seg Hseg Hne) as [Hu|Hu]; [left; by apply Hmono|by right].
  - intros p Hp [Hu Ho]. split; [exact Hp|]. split; [|done]. split; [by apply Hmono|done].
Qed.

Lemma dev_only_read lba count : always dev_only (on_gc (on_zm (on_device (ReadSectors lba count))) : M (ZTL D Journal) _).
Proof.
  intros s. unfold on_gc, on_zm, on_device, zoom. pose proof (du_read lba count (dev s)) as Hr. cbn.
  change (gc_md (z_gc s)) with (z_md s). destruct (ReadSectors lba count (dev s)) as [d o]. by split.
Qed.
Lemma dev_only_lookup zone lba count : always dev_only (on_wb (WriteBuffer_Lookup zone lba count) : M (ZTL D Journal) _).
Proof.
  intros s. assert (Hl : ∀ b, (WriteBuffer_Lookup zone lba count b).1 = b).
  { intros b. assert (Ha : always eq (WriteBuffer_Lookup zone lba count)) by (unfold WriteBuffer_Lookup, from_option; always).
    symmetry. apply Ha. }
  unfold on_wb, zoom. specialize (Hl (z_buf s)). destruct (WriteBuffer_Lookup zone lba count (z_buf s)) as [b o].
  cbn in *. rw Hl. split; [done|]. by destruct s as [[? ? [] ? ? ? ? ?] ? ? ? ? ? ?].
Qed.
#[local] Hint Resolve dev_only_read dev_only_lookup : always.

Lemma ZTL_Read_dev_only lba count : always dev_only (ZTL_Read lba count : M (ZTL D Journal) _).
Proof. unfold ZTL_Read, read_segment, from_option. always. Qed.

(** ** The commands *)
Lemma wp_advanced {A} (T T' : Z → Prop) (m : M (ZTL D Journal) A) recs s s1 :
  (∀ x, T' x → T x) → (∃ more, advanced T recs more s s1) →
  (∀ recs1, logged_state recs1 s1 → wp m (λ s' o, is_ok o → ∃ more, advanced T' recs1 more s1 s') s1) →
  wp m (λ s' o, is_ok o → ∃ more, advanced T recs more s s') s1.
Proof.
  intros HT [more1 Hadv] Hm. eapply wp_mono; [apply (Hm (recs ++ more1)), Hadv|].
  intros s' o Ho Hok. destruct (Ho Hok) as [more2 Hadv2]. exists (more1 ++ more2).
  by apply (advanced_trans T T' _ _ _ _ _ s1).
Qed.

Lemma ZTL_Read_logged recs lba count s :
  ztl_wf s → logged_state recs s →
  wp (ZTL_Read lba count) (λ s' o, ∃ more, advanced (λ _, False) recs more s s') s.
Proof. intros Hwf Hl. exists []. apply advanced_dev; [done|done|]. apply ZTL_Read_dev_only. Qed.

Lemma write_segment_logged recs now data a k seg s :
  let sps := z_sectorsPerSeg s in
  ztl_wf s → logged_state recs s → len data = sectorSize * (sps * k) →
  0 ≤ a ≤ seg → seg < a + k → a + k ≤ l2p_size (z_l2p s) →
  wp (write_segment now (sps * a) (sps * (a + k)) data (sectorSize * (sps * (seg - a))) seg)
    (λ s' o, is_ok o → ∃ more, advanced (λ x, x = seg) recs more s s') s.
Proof.
  intros sps Hwf Hl Hlen Ha Hseg Hk. pose proof (mw_sps _ _ _ _ (zw_map _ Hwf)) as Hspos. fold sps in Hspos.
  destruct (mw_l2p _ _ _ _ (zw_map _ Hwf)) as (_ & _ & Hmax). fold sps in Hmax.
  unfold write_segment. wp_steps. fold sps. rw (aligned_overlap sps a k seg); [lia|lia|lia|nia|].
  replace (sps * (seg + 1) - sps * seg) with sps by lia. unfold sectorSize in *.
  rw (i64_small sps); [lia|]. rw i64_small; [lia|].
  replace (512 * (sps * (seg - a)) + sps * 512) with (512 * (sps * (seg - a + 1))) by lia.
  wp_steps. rw slice_checked_Some; [nia|nia|]. wp_steps.
  eapply wp_mono; [apply (writeSegment_logged recs); [done|done|lia|]|].
  { rw len_slice; [nia|nia|]. unfold sectorSize. fold sps. lia. }
  by intros s' [[]|[e| |]] Ho.
Qed.

Lemma ZTL_Write_logged recs order fuel now data a k s :
  let sps := z_sectorsPerSeg s in
  ztl_wf s → logged_state recs s → z_emergencyFreeZones s ≤ FreeZoneCount (z_zm s) →
  0 ≤ a → 0 < k → a + k ≤ l2p_size (z_l2p s) → len data = sectorSize * (sps * k) →
  wp (ZTL_Write order fuel now (sps * a) data)
    (λ s' o, is_ok o → ∃ more, advanced (λ x, a ≤ x < a + k) recs more s s') s.
Proof.
  intros sps Hwf Hl Hfree Ha Hk Hmax Hlen. unfold ZTL_Write.
  pose proof (mw_sps _ _ _ _ (zw_map _ Hwf)) as Hspos. fold sps in Hspos.
  destruct (mw_l2p _ _ _ _ (zw_map _ Hwf)) as (_ & _ & Hcap). fold sps in Hcap.
  destruct (Z.eqb_spec (len data) 0); [unfold sectorSize in *; nia|].
  assert (Hn : len data = (sps * k) * 512) by (unfold sectorSize in *; lia).
  rw Hn Z.mod_mul // Z.eqb_refl Z.div_mul //. cbn [negb].
  destruct (aligned_segments sps a k) as [Hend Hloop]; [lia|lia|lia|nia|].
  wp_steps. destruct (Z.ltb_spec (FreeZoneCount (z_zm s)) (z_emergencyFreeZones s)); [lia|].
  fold sps. wp_steps. rw Hend Hloop.
  apply wp_for_each with (I := λ done s' acc, (ztl_next s s' ∧
    acc = sectorSize * (sps * len done) ∧ written s s' data a (len done)) ∧
    ∃ more, advanced (λ x, a ≤ x < a + k) recs more s s').
  - split; [|by exists []; apply advanced_refl]. split; [by apply ztl_same_next, ztl_same_refl|]. split; [unfold len; simpl; lia|].
    split; [|intros _ _ seg Hseg; unfold len in *; simpl in *; lia].
    intros lba Hlba. case_decide; [unfold len in *; simpl in *; lia|done].
  - intros done seg todo s1 acc Hsplit [(Hnext & -> & Hw) Hadv].
    assert (Hseg : seg = a + len done ∧ len done < k).
    { assert (Hlk : seqZ a k !! length done = Some seg) by (rw Hsplit; by apply list_lookup_middle).
      apply lookup_seqZ in Hlk as [-> ?]. unfold len. lia. }
    destruct Hseg as [Hseg Hlt]. pose proof (len_nonneg done).
    replace (len done) with (seg - a) in Hw |- * by lia. pose proof Hnext as (Hwf1 & Hsz1 & Hsps1 & _).
    eapply wp_mono; [apply (wp_both _
      (λ s' o, ztl_next s s' ∧ (is_ok o → o = Ok (sectorSize * (sps * (seg - a + 1))) ∧ written s s' data a (seg - a + 1)))
      (λ s' o, is_ok o → ∃ more, advanced (λ x, a ≤ x < a + k) recs more s s'))|].
    + apply wp_write_segment; try done; lia.
    + apply (wp_advanced _ (λ x, x = seg)); [intros; lia|done|]. intros recs1 Hl1.
      unfold sps. rw -Hsps1. apply write_segment_logged; [done|done|by rw Hsps1|lia|lia|lia].
    + intros s2 o [[Hn2 Hw2] Hadv2]. destruct o as [acc|[e| |]]; try done. 
      destruct (Hw2 I) as [[= ->] Hw3]. split; [|by apply Hadv2]. split; [done|].
      rw len_app. replace (len done + len [seg]) with (seg - a + 1) by (unfold len at 2; simpl; lia). done.
  - intros s' acc [(Hnext & _ & _) Hadv]. wp_steps.
    eapply wp_mono; [apply (wp_advanced (λ x, a ≤ x < a + k) (λ _, False)); [|exact Hadv|]|].
    + done.
    + intros recs1 Hl1. eapply wp_mono; [by apply (commit_logged recs1)|]. intros s2 o Ho Hok. exists []. by apply Ho.
    + by intros s2 [[]|[e| |]] Ho.
Qed.

Lemma ZTL_Unmap_logged recs lba count s :
  let sps := z_sectorsPerSeg s in
  ztl_wf s → logged_state recs s → 0 ≤ lba → 0 < count → lba + count ≤ ztl_size s →
  wp (ZTL_Unmap lba count)
    (λ s' o, is_ok o → ∃ more, advanced (λ x, lba / sps ≤ x ≤ (lba + count - 1) / sps) recs more s s') s.
Proof.
  intros sps Hwf Hl Hlba Hcount Hsize. unfold ZTL_Unmap.
  pose proof (mw_sps _ _ _ _ (zw_map _ Hwf)) as Hsps. fold sps in Hsps.
  destruct (mw_l2p _ _ _ _ (zw_map _ Hwf)) as (_ & _ & Hmax). fold sps in Hmax.
  unfold ztl_size in Hsize. fold sps in Hsize.
  wp_steps. fold sps. rw (u64_small (lba + count)); [lia|]. rw u64_small; [lia|].
  unfold segment_loop, LBAToSegmentID. set (a := lba / sps). set (b := (lba + count - 1) / sps).
  assert (Hab : 0 ≤ a ≤ b) by (split; [apply Z.div_pos; lia|apply Z.div_le_mono; lia]).
  assert (Hb : b < l2p_size (z_l2p s)) by (apply Z.div_lt_upper_bound; lia).
  apply wp_for_each with (I := λ done s' _, ztl_next s s' ∧ ∃ more, advanced (λ x, a ≤ x ≤ b) recs more s s').
  - split; [by apply ztl_same_next, ztl_same_refl|]. exists []. by apply advanced_refl.
  - intros done seg todo s1 [] Hsplit [Hnext Hadv].
    assert (Hseg : a ≤ seg ≤ b).
    { assert (Hin : seg ∈ seqZ a (b - a + 1)) by (rw Hsplit; set_solver). apply elem_of_seqZ in Hin. lia. }
    pose proof Hnext as (Hwf1 & Hsz1 & _).
    eapply wp_mono; [apply (wp_both _ (λ s' o, ztl_next s s') (λ s' o, is_ok o → ∃ more, advanced (λ x, a ≤ x ≤ b) recs more s s'))|].
    + apply wp_unmap_segment; [done|lia|]. intros s2 o _ Hn _. by eapply ztl_next_trans.
    + apply (wp_advanced _ (λ x, x = seg)); [intros; lia|done|]. intros recs1 Hl1. apply unmap_segment_logged; [done|done|lia].
    + intros s2 [[]|[e| |]] [Hn Hadv2]; try done. split; [done|by apply Hadv2].
  - intros s1 [] [_ Hadv] _. done.
Qed.

(** After a flush nothing is buffered and nothing pending. *)
Lemma ZTL_Flush_logged recs order s :
  ztl_wf s → logged_state recs s → (∀ l, order l ≡ₚ l) →
  wp (ZTL_Flush order) (λ s' o, is_ok o → (∃ more, advanced (λ _, False) recs more s s') ∧ bufs s' = ∅ ∧
    ∃ j, gc_journal (z_gc s') = Some j ∧ j_pending j = []) s.
Proof.
  intros Hwf Hl Horder. unfold ZTL_Flush. wp_steps.
  eapply wp_mono; [by apply (FlushAll_logged recs)|]. intros s1 [[]|[e| |]] Ho; try done.
  destruct (Ho I) as (more & Hadv & Hbufs). cbn beta iota.
  eapply wp_mono; [apply (wp_both _ (λ s' o, is_ok o → z_wbd s' = z_wbd s1 ∧ ∃ j, gc_journal (z_gc s') = Some j ∧ j_pending j = [])
    (λ s' o, is_ok o → ∃ more, advanced (λ _, False) recs more s s'))|].
  - eapply wp_mono; [apply (commit_logged _ _ (ad_logged _ _ _ _ _ Hadv))|]. intros s2 o Hc Hok. by apply Hc.
  - apply (wp_advanced _ (λ _, False)); [done|by exists more|]. intros recs1 Hl1.
    eapply wp_mono; [by apply (commit_logged recs1)|]. intros s2 o Hc Hok. exists []. by apply Hc.
  - intros s2 o [Ha Hb] Hok. destruct (Ha Hok) as [Hw Hj]. split; [by apply Hb|]. split; [|done].
    pose proof (f_equal (λ w, wb_buffers (wd_buf w)) Hw) as Hbw. cbn in Hbw. by rw Hbw.
Qed.

(** The segments a command writes or discards. *)
Definition touched (sps : Z) (c : io) (seg : Z) : Prop :=
  match c with
  | IOWrite a data => a ≤ seg < a + len data / (sectorSize * sps)
  | IOUnmap lba count => lba / sps ≤ seg ≤ (lba + count - 1) / sps
  | _ => False
  end.

Lemma ztl_step_logged recs s c out s' :
  ztl_wf s → logged_state recs s → io_ok (ztl_size s) (z_sectorsPerSeg s) c → ztl_step s c out s' →
  ∃ more, advanced (touched (z_sectorsPerSeg s) c) recs more s s'.
Proof.
  intros Hwf Hl Hok Hstep. pose proof (mw_sps _ _ _ _ (zw_map _ Hwf)) as Hsps.
  destruct Hstep as [s lba count data s' Heq|s order fuel now a data s' Hfree Heq
                    |s order s' Horder Heq|s lba count s' Heq]; simpl in Hok.
  - exact (wp_elim _ _ _ _ _ Heq (ZTL_Read_logged recs lba count s Hwf Hl)).
  - destruct Hok as (Ha & k & Hk & Hlen & Hsize).
    assert (Hseg : a + k ≤ l2p_size (z_l2p s)) by (unfold ztl_size in Hsize; nia).
    pose proof (wp_elim _ _ _ _ _ Heq (ZTL_Write_logged recs order fuel now data a k s Hwf Hl Hfree Ha Hk Hseg Hlen) I) as [more Hadv].
    exists more. eapply advanced_mono; [|exact Hadv]. intros x. cbn. rw Hlen write_segments; lia.
  - by apply (wp_elim _ _ _ _ _ Heq (ZTL_Flush_logged recs order s Hwf Hl Horder) I).
  - destruct Hok as (Hlba & Hcount & Hsize).
    exact (wp_elim _ _ _ _ _ Heq (ZTL_Unmap_logged recs lba count s Hwf Hl Hlba Hcount Hsize) I).
Qed.
End logged.
