(* ===== verification/Restart.v ===== *)
(** * Starting again from the device and the journal

    What [power_on] builds from the medium and the journal file a run has left:
    recovery replays the records, the zones that count as written stay out of the
    free list, and the layer shows the store it showed before. *)

From S2P Require Import Bytes Config Zbc Backend Segment Emulator ZoneManager WriteBuffer Crc32c Wal Gc Journal JournalSpec JournalTheorems Recovery RecoveryTheorems Ztl ZtlInv ZtlSpec ZtlTheorems ZtlStart Boot Durable Logged.

(** ** The records of a journal that was never reset *)
Lemma len_journal_bytes recs : len (journal_bytes recs) = 53 * len recs.
Proof.
  induction recs as [|r recs IH]; [done|].
  change (journal_bytes (r :: recs)) with (frame (Record_MarshalBinary r) ++ journal_bytes recs).
  rw len_app len_frame len_Record_MarshalBinary IH. change (r :: recs) with ([r] ++ recs). rw len_app.
  unfold baseRecordSize. change (len [r]) with 1. lia.
Qed.

Lemma numbered_lsn recs i r : numbered recs → len recs < 2^64 → recs !! i = Some r → r_LSN r = Z.of_nat i + 1.
Proof.
  intros Hn Hlen Hi. pose proof (lookup_lt_Some _ _ _ Hi). rw (Hn _ _ Hi) u64_small; [unfold len in *; lia|done].
Qed.

Lemma numbered_app recs r : numbered (recs ++ [r]) → numbered recs.
Proof. intros Hn i r' Hi. apply Hn. by apply lookup_app_l_Some. Qed.

Lemma numbered_take k recs : numbered recs → numbered (take k recs).
Proof. intros Hn i r Hi. apply lookup_take_Some in Hi as [Hi _]. by apply Hn. Qed.

(** A length of four bytes is below the limit of the scan. *)
Lemma next_frame_scan l : next_frame (2^32) l = next_frame (2^32 - 1) l.
Proof.
  unfold next_frame. destruct (Z.ltb_spec (len l) 4) as [|Hl]; [done|].
  pose proof (be_get_range (slice 0 4 l)) as Hb. rw len_slice in Hb; [lia|lia|].
  destruct (Z.ltb_spec (2^32) (be_get (slice 0 4 l))), (Z.ltb_spec (2^32 - 1) (be_get (slice 0 4 l))); (done || lia).
Qed.

(** The scan of [Open] finds the last number. *)
Lemma scan_numbered recs torn fuel m :
  Forall record_ok recs → dead torn → (length (journal_bytes recs ++ torn) < fuel)%nat →
  scanMaxLSN_loop fuel m (journal_bytes recs ++ torn) =
  Ok (foldl (λ m r, if m <? r_LSN r then r_LSN r else m) m recs).
Proof.
  intros Hok Hdead. revert fuel m. induction Hok as [|r recs Hr Hok IH]; intros [|fuel] m Hfuel; try lia.
  { cbn [scanMaxLSN_loop foldl]. by rw next_frame_scan (Hdead (2^32 - 1)). }
  change (journal_bytes (r :: recs)) with (frame (Record_MarshalBinary r) ++ journal_bytes recs) in *.
  rw -app_assoc in Hfuel |- *. cbn [scanMaxLSN_loop foldl].
  destruct (payload_of_record r Hr) as [Hlen Hdec].
  rw next_frame_scan next_frame_app; [unfold baseRecordSize in *; lia|lia|]. rw Hdec.
  apply IH. rw length_app in Hfuel. pose proof (len_frame (Record_MarshalBinary r)). unfold len in *. lia.
Qed.

Lemma scanMaxLSN_numbered recs torn :
  Forall record_ok recs → dead torn → numbered recs → len recs < 2^64 →
  scanMaxLSN (journal_bytes recs ++ torn) = Ok (len recs).
Proof.
  intros Hok Hdead Hn Hlen. unfold scanMaxLSN. rw scan_numbered; [done|done|lia|]. f_equal. clear Hok.
  induction recs as [|r recs IH] using rev_ind; [done|]. rw len_app in Hlen |- *. pose proof (len_nonneg recs).
  change (len [r]) with 1 in *. rw foldl_app IH; [by eapply numbered_app|lia|]. cbn [foldl].
  rw (numbered_lsn _ (length recs) r Hn); [rw len_app; change (len [r]) with 1; lia|by rw lookup_app_r // Nat.sub_diag|].
  unfold len in *. by destruct (Z.ltb_spec (Z.of_nat (length recs)) (Z.of_nat (length recs) + 1)); [|lia].
Qed.

(** ** Recovery over the zones just read *)
(** Reconciling with the report the manager was initialized from changes nothing. *)
Lemma init_zones k descs zm :
  zm_zones (foldl init_zone zm (zip (seqZ k (len descs)) descs)) =
  zm_zones zm ++ zip_with (λ i d, zoneinfo_of_desc (u32 i) d) (seqZ k (len descs)) descs.
Proof.
  unfold len. revert k zm. induction descs as [|d descs IH]; intros k zm; [by rw app_nil_r|].
  rw seqZ_cons; [simpl; lia|]. cbn [zip zip_with foldl].
  replace (Z.pred (Z.of_nat (length (d :: descs)))) with (Z.of_nat (length descs)) by (simpl; lia).
  unfold zip in IH. rw IH (cons_middle _ (zm_zones zm)) app_assoc. f_equal.
  unfold init_zone. by destruct (zd_ZoneState d).
Qed.

Lemma list_alter_same {A} (f : A → A) i (l : list A) : (∀ x, l !! i = Some x → f x = x) → alter f i l = l.
Proof.
  intros Hf. apply list_eq. intros j. destruct (decide (i = j)) as [<-|Hne].
  - rw list_lookup_alter_eq. destruct (l !! i) as [x|] eqn:Hx; [|done]. cbn. f_equal. by apply Hf.
  - by rw list_lookup_alter_ne.
Qed.

Lemma reconcile_same k descs zm :
  0 ≤ k →
  (∀ (j : nat) z d, zm_zones zm !! (Z.to_nat k + j)%nat = Some z → descs !! j = Some d →
     zi_State z = zd_ZoneState d ∧ zi_WritePointer z = zd_WritePointer d) →
  foldl reconcile_zone zm (zip (seqZ k (len descs)) descs) = zm.
Proof.
  unfold len. revert k. induction descs as [|d descs IH]; intros k Hk Hsame; [done|].
  rw seqZ_cons; [simpl; lia|]. cbn [zip zip_with foldl].
  replace (Z.pred (Z.of_nat (length (d :: descs)))) with (Z.of_nat (length descs)) by (simpl; lia).
  assert (Hid : reconcile_zone zm (k, d) = zm).
  { unfold reconcile_zone, zm_alter_zone. rw list_alter_same; [|by destruct zm].
    intros z Hz. destruct (Hsame 0%nat z d) as [Hs Hw]; [by rw Nat.add_0_r|done|].
    destruct z. cbn in *. by rw -Hs -Hw. }
  rw Hid. apply IH; [lia|]. intros j z d' Hz Hd. apply (Hsame (S j)); [|done].
  by replace (Z.to_nat k + S j)%nat with (Z.to_nat (Z.succ k) + j)%nat by lia.
Qed.

Section recover.
Context {D : Type} `{ZonedDevice D}.

Lemma reconcile_initialized n (d d' d'' : D) descs md :
  ReportZones 0 0 d = (d', Ok descs) → ReportZones 0 0 d' = (d'', Ok descs) →
  ZoneManager_Initialize (mkZMD (NewZoneManager n) d) = (md, Ok tt) →
  ReconcileFromDevice md = (mkZMD (md_zm md) d'', Ok tt).
Proof.
  intros Hrep Hrep'. unfold ZoneManager_Initialize, ZoneManager.on_device, zm_modify, wrap, zoom, mbind, M_bind. cbn. rw Hrep. cbn.
  intros [= <-]. unfold ReconcileFromDevice, ZoneManager.on_device, zm_modify, wrap, zoom, mbind, M_bind. cbn. rw Hrep'. cbn.
  set (zm0 := zm_set_freeList [] _). unfold modify. cbn. f_equal. f_equal. apply reconcile_same; [done|].
  intros j z desc. change (Z.to_nat 0 + j)%nat with j. rw init_zones lookup_zip_with_Some.
  intros (i & desc' & -> & _ & Hd) Hd'. rw Hd in Hd'. by injection Hd' as ->.
Qed.

(** The records of a run without collection touch the forward table only. *)
Definition replay_table (recs : list Record_) (t : L2PTable) : L2PTable :=
  {| l2p_entries := foldl update_entries (l2p_entries t) recs; l2p_size := l2p_size t |}.

Lemma replay_updates recs (s : Recovering D) :
  Forall (rec_in (λ seg, 0 ≤ seg < l2p_size (rs_l2p s))) recs →
  for_each (λ (_ : unit) rec, replay_record rec) tt recs s =
  (mkRecovering (rs_j s) (replay_table recs (rs_l2p s)) (rs_md s), Ok tt).
Proof.
  intros Hrecs. enough (Hw : wp (for_each (λ (_ : unit) rec, replay_record rec) tt recs)
    (λ s' o, o = Ok tt ∧ s' = mkRecovering (rs_j s) (replay_table recs (rs_l2p s)) (rs_md s)) s).
  { unfold wp in Hw. destruct (for_each _ tt recs s) as [s' o]. cbn in Hw. by destruct Hw as [-> ->]. }
  apply wp_for_each with (I := λ done s' _, s' = mkRecovering (rs_j s) (replay_table done (rs_l2p s)) (rs_md s)).
  - by destruct s as [j [] md].
  - intros done r todo s' [] Hsplit ->. rw Hsplit in Hrecs. apply Forall_app in Hrecs as [_ Hrecs].
    apply Forall_cons in Hrecs as [Hr _]. unfold replay_record. destruct Hr as [[Hty Hseg]|Hty]; rw Hty.
    + change (RecordTypeL2PUpdate =? RecordTypeL2PUpdate) with true. cbn iota.
      unfold Recovery.on_l2p. wp_steps. apply wp_L2PTable_Set; [apply Hseg|]. cbn beta iota. cbn. f_equal.
      unfold replay_table, l2p_store. cbn. rw foldl_app. f_equal. cbn. by rw (update_entries_l2p _ r (r_NewPhysAddr r) (r_SegmentID r)).
    + change (RecordTypeZoneOpen =? RecordTypeL2PUpdate) with false. change (RecordTypeZoneOpen =? RecordTypeZoneReset) with false.
      cbn iota. wp_steps. f_equal. unfold replay_table. rw foldl_app. f_equal. cbn. rw update_entries_other; [by rw Hty|done].
  - by intros s' [] ->.
Qed.

Definition log_event (r : Record_) : event := EvRecord r.

Lemma latest_of_log recs : latest_checkpoint (log_event <$> recs) = None.
Proof. induction recs as [|r recs IH] using rev_ind; [done|]. by rw fmap_app latest_snoc IH. Qed.

Lemma log_history zones t0 recs :
  Forall record_ok recs → numbered recs → len recs < 2^64 → Forall (rec_in (λ seg, 0 ≤ seg < len t0)) recs →
  history zones t0 (log_event <$> recs).
Proof.
  intros Hok Hn Hlen Hin. induction recs as [|r recs IH] using rev_ind; [constructor|].
  rw len_app in Hlen. pose proof (len_nonneg recs). change (len [r]) with 1 in Hlen.
  apply Forall_app in Hok as [Hok Hr]. apply Forall_app in Hin as [Hin Hr'].
  inversion_clear Hr as [|? ? Hrok _]. inversion_clear Hr' as [|? ? Hrin _].
  assert (Hlsn : r_LSN r = len recs + 1).
  { rw (numbered_lsn _ (length recs) r Hn); [rw len_app; change (len [r]) with 1; lia|by rw lookup_app_r // Nat.sub_diag|done]. }
  pose proof (numbered_app _ _ Hn) as Hn'. rw fmap_app. cbn [fmap list_fmap log_event]. constructor.
  - apply IH; [done|done|lia|done].
  - done.
  - by destruct Hrin as [[Hty _]|Hty]; rw Hty.
  - split; intros Hty; destruct Hrin as [[Hty' Hseg]|Hty']; try (rw Hty in Hty'; done). apply Hseg.
  - lia.
  - apply Forall_fmap, Forall_lookup. intros i r' Hi. unfold compose, ev_lsn. cbn [ev_record log_event]. rw (numbered_lsn _ i r' Hn'); [lia|done|].
    pose proof (lookup_lt_Some _ _ _ Hi). unfold len in *. lia.
Qed.

Lemma newer_numbered recs : numbered recs → len recs < 2^64 → newer 0 recs = recs.
Proof.
  intros Hn Hlen. unfold newer. assert (Hpos : Forall (λ r, 0 < r_LSN r) recs).
  { apply Forall_lookup. intros i r Hi. rw (numbered_lsn _ i r Hn Hlen Hi). lia. }
  clear Hn Hlen. induction Hpos as [|r recs Hr Hpos IH]; [done|]. rw filter_cons decide_True //. by rw IH.
Qed.

(** Recovery of a log of updates changes the table, and reads the zones once more. *)
Lemma Recover_log recs torn d' d'' n (d : D) descs (s : Recovering D) :
  Forall record_ok recs → numbered recs → len recs < 2^64 →
  Forall (rec_in (λ seg, 0 ≤ seg < l2p_size (rs_l2p s))) recs → l2p_wf (rs_l2p s) →
  idle (rs_j s) → j_file (rs_j s) = journal_bytes recs ++ torn → dead torn →
  ReportZones 0 0 d = (d', Ok descs) → ReportZones 0 0 d' = (d'', Ok descs) →
  ZoneManager_Initialize (mkZMD (NewZoneManager n) d) = (rs_md s, Ok tt) →
  Recover s = (mkRecovering (rs_j s) (replay_table recs (rs_l2p s)) (mkZMD (md_zm (rs_md s)) d''), Ok tt).
Proof.
  intros Hok Hn Hlen Hin Hwf Hidle Hfile Hdead Hrep Hrep' Hinit. unfold Recover.
  assert (Hev : journal_bytes recs = frames (ev_payload <$> (log_event <$> recs))) by by rw -list_fmap_compose.
  assert (Hcp : ReadLatestCheckpoint (j_file (rs_j s)) = Ok (None, 0)).
  { rw Hfile Hev (ReadLatestCheckpoint_history 0 (l2p_entries (rs_l2p s))); [|done|by rw latest_of_log].
    apply log_history; [done..|]. by rw Hwf. }
  destruct s as [j t md]. cbn [rs_j rs_l2p rs_md] in *.
  unfold mbind at 1. unfold M_bind at 1. cbn [gets rs_j]. rw Hcp. unfold mbind, M_bind. cbn.
  unfold on_journal, wrap, zoom. cbn. rw (ReadAllRecords_idle 0 recs j Hidle).
  { rw Hfile (read_frames 0 recs); [by apply stored_records|done|]. by rw newer_numbered. }
  cbn. rw replay_updates; [done|]. cbn. unfold on_zones, zoom. cbn.
  by rw (reconcile_initialized n d d' d'' descs md).
Qed.
End recover.

(** ** The layer after a start *)

(** A zone is free after start-up only if the device reports it as empty. *)
Lemma init_free k descs zm i :
  0 ≤ k → k + len descs ≤ 2^32 →
  i ∈ zm_freeList (foldl init_zone zm (zip (seqZ k (len descs)) descs)) →
  i ∈ zm_freeList zm ∨ ∃ n desc, descs !! n = Some desc ∧ zd_ZoneState desc = ZoneStateEmpty ∧ i = k + Z.of_nat n.
Proof.
  unfold len. revert k zm. induction descs as [|d descs IH]; intros k zm Hk Hlen; [by left|].
  rw seqZ_cons; [simpl; lia|]. cbn [zip zip_with foldl].
  replace (Z.pred (Z.of_nat (length (d :: descs)))) with (Z.of_nat (length descs)) by (simpl; lia).
  intros Hi. cbn [length] in Hlen. destruct (IH (Z.succ k) _ ltac:(lia) ltac:(lia) Hi) as [Hin|(n & desc & Hn & He & ->)].
  2: { right. exists (S n), desc. split_and!; [done|done|lia]. }
  assert (Hcase : i ∈ zm_freeList zm ∨ zd_ZoneState d = ZoneStateEmpty ∧ i = u32 k).
  { unfold init_zone in Hin. destruct (zd_ZoneState d); try by left.
    cbn in Hin. apply elem_of_app in Hin as [Hin|Hin]; [by left|]. apply list_elem_of_singleton in Hin as ->. by right. }
  destruct Hcase as [|[He ->]]; [by left|]. right. exists 0%nat, d. split_and!; [done|done|]. rw u32_small; lia.
Qed.

(** What a start asks of the device. *)
Record device_fits {D} `{DurableDevice D} (sps : Z) (d : D) : Prop := {
  df_wf : dev_wf d;
  df_zone : ZoneSize d < 2^32;
  df_capacity : sps ≤ Device_Capacity d ≤ 2^24 * ZoneSize d;
  df_open : 0 < MaxOpenZones d;
  df_segment : 0 < sps < 2^32;
  df_zones : Forall (λ L, sps ≤ L) (zd_ZoneLength <$> dev_zones d);
}.

(** What a power cycle leaves of a device: the data, the zones, and which of them
    have been written. *)
Record same_medium {D} `{DurableDevice D} (d d' : D) : Prop := {
  sm_wf : dev_wf d';
  sm_lengths : zd_ZoneLength <$> dev_zones d' = zd_ZoneLength <$> dev_zones d;
  sm_shape : dev_shape d d';
  sm_used i : dev_used d i → dev_used d' i;
  sm_sector lba : 0 ≤ lba < Device_Capacity d → dev_sector d' lba = dev_sector d lba;
}.

Lemma same_medium_refl {D} `{DurableDevice D} (d : D) : dev_wf d → same_medium d d.
Proof. by split. Qed.

Lemma device_fits_keeps {D} `{DurableDevice D} sps (d d' : D) :
  device_fits sps d → keeps d d' → dev_wf d' → device_fits sps d'.
Proof.
  intros [Hd Hz Hc Ho Hs Hzs] Hk Hd'. destruct (Hk (du_alive d Hd)) as (_ & Hl & (Hm & Hcap & Hzone) & _).
  split; [done|by rw Hzone|by rw Hcap Hzone|by rw Hm|done|by rw Hl].
Qed.
Lemma device_fits_medium {D} `{DurableDevice D} sps (d d' : D) :
  device_fits sps d → same_medium d d' → device_fits sps d'.
Proof.
  intros [Hd Hz Hc Ho Hs Hzs] [Hd' Hl (Hm & Hcap & Hzone) _ _].
  split; [done|by rw Hzone|by rw Hcap Hzone|by rw Hm|done|by rw Hl].
Qed.

(** ** With nothing buffered or pending there is nothing left to do *)
Section shutdown.
Context {D : Type} `{ZonedDevice D}.
Implicit Types z : ZTL D Journal.

Lemma FlushAll_empty order z :
  (∀ l, order l ≡ₚ l) → wb_buffers (z_buf z) = ∅ → on_wbd (FlushAll order) z = (z, Ok tt).
Proof.
  intros Horder Hb. unfold on_wbd, zoom, FlushAll, on_buf, mbind, M_bind. cbn. rw Hb map_to_list_empty. cbn.
  pose proof (proj1 (Permutation_nil_r _) (Horder [])) as ->. cbn. by destruct z as [[? ? [] ? ? ? ? ?] [] ? ? ? ? ?].
Qed.

Lemma Close_empty z j : gc_journal (z_gc z) = Some j → j_pending j = [] →
  on_gc (with_journal Journal_Close) z = (z, Ok tt).
Proof.
  intros Hj Hp. assert (Hc : Journal_Close j = (j, Ok tt)).
  { unfold Journal_Close, Journal_GroupCommit, mbind, M_bind. cbn. by rw decide_True. }
  unfold on_gc, zoom, with_journal. rw Hj Hc. destruct z as [[] ? ? ? ? ? ?]. cbn in *. by rw -Hj.
Qed.
End shutdown.

Section restart.
Context {D : Type} `{DurableDevice D}.
Implicit Types s : ZTL D Journal.
Implicit Types d : D.
Abbreviation dev s := (md_dev (z_md s)).
Abbreviation bufs s := (wb_buffers (z_buf s)).

(** [s] is a layer just started on device [d] with forward table [t]. *)
Record booted (sps : Z) d (t : L2PTable) (j : Journal) s : Prop := {
  bt_l2p : z_l2p s = t;
  bt_p2l : z_p2l s = ∅;
  bt_bufs : bufs s = ∅;
  bt_sectors : wb_sectorSize (z_buf s) = 512;
  bt_closed : z_currentZoneOpen s = false;
  bt_sps : z_sectorsPerSeg s = sps;
  bt_gc_sps : gc_sectorsPerSeg (z_gc s) = sps;
  bt_journal : gc_journal (z_gc s) = Some j;
  bt_md : md_wf (z_md s);
  bt_sizes : zi_SizeSectors <$> zm_zones (z_zm s) = zd_ZoneLength <$> dev_zones d;
  bt_free i : i ∈ zm_freeList (z_zm s) → 0 ≤ i ∧
    ∃ desc, dev_zones d !! Z.to_nat i = Some desc ∧ zd_ZoneState desc = ZoneStateEmpty;
  bt_dev : same_medium d (dev s);
}.

Lemma report_zones d : dev_wf d → ∃ d', ReportZones 0 0 d = (d', Ok (dev_zones d)) ∧
  dev_zones d' = dev_zones d ∧ same_medium d d'.
Proof.
  intros Hd. pose proof (du_report d Hd) as Hr. pose proof (dev_report d Hd) as Hs. unfold wp in *.
  destruct (ReportZones 0 0 d) as [d' o]. cbn in *. destruct Hr as (-> & Hz & Hk), Hs as (_ & (Hd' & _ & _ & Hsec) & _).
  exists d'. split_and!; [done|done|]. destruct (Hk (du_alive d Hd)) as (_ & Hl & Hsh & Hu). by split.
Qed.

Lemma same_medium_trans d1 d2 d3 : same_medium d1 d2 → same_medium d2 d3 → same_medium d1 d3.
Proof.
  intros [_ Hl (? & Hc & ?) Hu Hs] [Hd Hl' (? & ? & ?) Hu' Hs']. unfold dev_shape in *.
  split; [done|congruence|split_and!; congruence|auto|]. intros lba Hlba. rw Hs'; [by rw Hc|by apply Hs].
Qed.

(** Building the layer: the zones are as reported. *)
Lemma Initialize_booted sps d : device_fits sps d →
  ∃ md d', ReportZones 0 0 d = (d', Ok (dev_zones d)) ∧ dev_zones d' = dev_zones d ∧ same_medium d d' ∧
    ZoneManager_Initialize (mkZMD (NewZoneManager (MaxOpenZones d)) d) = (md, Ok tt) ∧ md_wf md ∧ md_dev md = d' ∧
    zi_SizeSectors <$> zm_zones (md_zm md) = zd_ZoneLength <$> dev_zones d ∧
    ∀ i, i ∈ zm_freeList (md_zm md) → 0 ≤ i ∧ ∃ desc, dev_zones d !! Z.to_nat i = Some desc ∧ zd_ZoneState desc = ZoneStateEmpty.
Proof.
  intros [Hd Hz Hc Ho Hs Hzs].
  destruct (report_zones d Hd) as (d' & Hrep & Hz' & Hmed).
  assert (Hinit : ∃ md, ZoneManager_Initialize (mkZMD (NewZoneManager (MaxOpenZones d)) d) = (md, Ok tt) ∧ md_dev md = d' ∧
    md_zm md = foldl init_zone (zm_set_freeList [] (zm_set_zones [] (NewZoneManager (MaxOpenZones d))))
      (zip (seqZ 0 (len (dev_zones d))) (dev_zones d))).
  { unfold ZoneManager_Initialize, ZoneManager.on_device, zm_modify, wrap, zoom, mbind, M_bind. cbn. rw Hrep. cbn. by eexists. }
  destruct Hinit as (md & Hinit & Hdev & Hzm).
  destruct (Initialize_wf d (MaxOpenZones d) md) as [Hmd _]; [done|done|lia|done|done|done|].
  assert (Hzones : zi_SizeSectors <$> zm_zones (md_zm md) = zd_ZoneLength <$> dev_zones d).
  { rw Hzm init_zones. cbn. apply list_eq. intros i. rw !list_lookup_fmap lookup_zip_with.
    destruct (dev_zones d !! i) as [desc|] eqn:Hi; cbn.
    - rw lookup_seqZ_lt; [apply lookup_lt_Some in Hi; unfold len; lia|]. done.
    - by destruct (seqZ 0 (len (dev_zones d)) !! i). }
  exists md, d'. split_and!; try done.
  intros i Hi. rw Hzm in Hi. apply init_free in Hi; [|done|].
  - cbn in Hi. destruct Hi as [Hi|(n & desc & Hn & He & ->)]; [by apply not_elem_of_nil in Hi|].
    split; [lia|]. exists desc. rw Nat2Z.id. done.
  - pose proof (md_count _ Hmd) as Hcount. apply (f_equal length) in Hzones. rw !length_fmap in Hzones. unfold len in *. lia.
Qed.

(** What [time.Now] returns fits the records; a journal with nothing in it. *)
Definition clock_fits (clock : list Z) : Prop := Forall (λ t, -2^63 ≤ t < 2^63) clock.
Definition new_journal (f : File) : Prop := f_data f = [] ∧ f_synced f = 0.

(** The forward table the records give. *)
Definition log_table (size : Z) (recs : list Record_) : L2PTable := replay_table recs (NewL2PTable size).

Lemma log_table_wf size recs : 0 ≤ size → l2p_wf (log_table size recs).
Proof.
  intros Hs. unfold l2p_wf, log_table, replay_table, len. cbn.
  assert (Hl : ∀ t, length (foldl update_entries t recs) = length t).
  { induction recs as [|r recs IH]; intros t; [done|]. cbn [foldl]. by rw IH update_entries_length. }
  rw Hl length_replicate. lia.
Qed.

(** A journal file: records, and perhaps the beginning of one more. *)
Record log_file (size : Z) (recs : list Record_) (torn : list byte) (f : File) : Prop := {
  lf_data : f_data f = journal_bytes recs ++ torn;
  lf_torn : dead torn;
  lf_records : Forall record_ok recs;
  lf_numbered : numbered recs;
  lf_in : Forall (rec_in (λ seg, 0 ≤ seg < size)) recs;
  lf_length : len (f_data f) < 2^63;
}.

Lemma log_file_count size recs torn f : log_file size recs torn f → len recs < 2^64.
Proof.
  intros [Hd _ _ _ _ Hl]. rw Hd len_app len_journal_bytes in Hl.
  pose proof (len_nonneg torn). pose proof (len_nonneg recs). lia.
Qed.

Definition opened (f : File) (lsn : Z) (clock : list Z) : Journal :=
  {| j_writer := {| w_file := f; w_buf := []; w_err := None |}; j_lsn := lsn; j_pending := []; j_clock := clock |}.

Lemma Journal_Open_log size recs torn f clock :
  log_file size recs torn f → Journal_Open (Ok f) clock = Ok (opened f (len recs) clock).
Proof.
  intros Hf. pose proof (log_file_count _ _ _ _ Hf). destruct Hf as [Hd Ht Hr Hn _ _].
  unfold Journal_Open. by rw Hd scanMaxLSN_numbered.
Qed.

(** Starting from a device and a journal file succeeds, with the table the records give. *)
Lemma power_on_booted cfg d f clock recs torn :
  let sps := SectorsPerSegment cfg in
  let size := Device_Capacity d / sps in
  device_fits sps d → log_file size recs torn f →
  ∃ s, power_on cfg d (Ok f) clock = Ok s ∧ booted sps d (log_table size recs) (opened f (len recs) clock) s.
Proof.
  intros sps size Hfits Hf. pose proof (log_file_count _ _ _ _ Hf) as Hcount.
  destruct (Initialize_booted sps d Hfits) as (md & d' & Hrep & Hz' & Hmed & Hinit & Hmd & Hdev & Hsizes & Hfree).
  destruct Hfits as [Hd Hz Hc Ho Hs Hzs]. destruct (report_zones d' (sm_wf _ _ Hmed)) as (d'' & Hrep' & _ & Hmed').
  rw Hz' in Hrep'. unfold power_on. rw (Journal_Open_log size recs torn f clock Hf).
  set (j := opened f (len recs) clock).
  assert (Hsize : 0 < size) by (apply Z.div_str_pos; lia). destruct (dev_geometry _ Hd) as [Hzpos _].
  assert (Hnew : ∃ z, ZTL_New cfg d (Some j) = Ok z ∧ z_md z = md ∧ gc_journal (z_gc z) = Some j ∧ z_p2l z = ∅ ∧
      z_l2p z = NewL2PTable size ∧ z_buf z = NewWriteBuffer (ZoneSize d) (zc_BufferFlushAgeSec (cfg_ZTL cfg)) ∧
      z_currentZoneOpen z = false ∧ z_sectorsPerSeg z = sps ∧ gc_sectorsPerSeg (z_gc z) = sps).
  { unfold ZTL_New, wrap. rw Hinit. fold sps size. destruct (Z.eqb_spec sps 0); [lia|].
    destruct (Z.eqb_spec (ZoneSize d) 0); [lia|]. destruct (Z.eqb_spec size 0); [lia|]. by eexists. }
  destruct Hnew as (z & Hnew & Hmdz & Hjz & Hp & Hl & Hb & Hcl & Hsp & Hgsp). rw Hnew.
  unfold runRecovery, wrap. rw (Recover_log recs torn d' d'' (MaxOpenZones d) d (dev_zones d)); cbn [rs_j rs_l2p rs_md].
  - apply Hf.
  - apply Hf.
  - done.
  - rw Hl. apply Hf.
  - rw Hl. by apply NewL2PTable_wf, Z.lt_le_incl.
  - done.
  - apply Hf.
  - apply Hf.
  - done.
  - done.
  - by rw Hmdz.
  - eexists. split; [done|]. rw Hl Hmdz. set (md2 := mkZMD (md_zm md) d''). 
    assert (Hmd2 : md_wf md2).
    { destruct Hmed' as [Hd'' _ (_ & Hcap & Hzone) _ _]. destruct Hmd. rw Hdev in md_zone md_zoneSize.
      split; try done; cbn in *; rw ?Hcap ?Hzone //. }
    split; try done; cbn; [by rw Hb|by rw Hb|]. by eapply same_medium_trans.
Qed.

(** The store a map gives over the bare device. *)
Definition flat_sector d (sps : Z) (t : L2PTable) (lba : Z) : list byte :=
  let p := L2PTable_Get (lba / sps) t in
  if PhysAddr_IsUnmapped p then zero_sector
  else dev_sector d (ZoneSize d * PhysAddr_ZoneID p + PhysAddr_OffsetSectors p + lba `mod` sps).

(** Each mapped segment is in a zone of the device that has been written, none
    overlaps another. *)
Record mapping_ok d (sps : Z) (t : L2PTable) : Prop := {
  mo_wf : l2p_wf t ∧ 0 ≤ l2p_size t ∧ l2p_size t * sps ≤ 2^54;
  mo_placed seg : 0 ≤ seg < l2p_size t → L2PTable_Get seg t ≠ 0 →
    0 ≤ L2PTable_Get seg t < 2^64 ∧ dev_used d (PhysAddr_ZoneID (L2PTable_Get seg t)) ∧
    ∃ L, (zd_ZoneLength <$> dev_zones d) !! Z.to_nat (PhysAddr_ZoneID (L2PTable_Get seg t)) = Some L ∧
      PhysAddr_OffsetSectors (L2PTable_Get seg t) + sps ≤ L;
  mo_disjoint seg seg' : 0 ≤ seg < l2p_size t → 0 ≤ seg' < l2p_size t → seg ≠ seg' →
    L2PTable_Get seg t ≠ 0 → L2PTable_Get seg' t ≠ 0 →
    PhysAddr_ZoneID (L2PTable_Get seg t) = PhysAddr_ZoneID (L2PTable_Get seg' t) →
    PhysAddr_OffsetSectors (L2PTable_Get seg t) + sps ≤ PhysAddr_OffsetSectors (L2PTable_Get seg' t) ∨
    PhysAddr_OffsetSectors (L2PTable_Get seg' t) + sps ≤ PhysAddr_OffsetSectors (L2PTable_Get seg t);
}.

(** A layer shows its map over the bare device where nothing is buffered. *)
Lemma flat_on_medium s lba :
  let p := L2PTable_Get (lba / z_sectorsPerSeg s) (z_l2p s) in
  md_wf (z_md s) → 0 < z_sectorsPerSeg s →
  (p ≠ 0 → is_Some (zm_zones (z_zm s) !! Z.to_nat (PhysAddr_ZoneID p)) ∧
    ∀ b, bufs s !! PhysAddr_ZoneID p = Some b → phys_start (z_wbd s) p + z_sectorsPerSeg s ≤ zb_writePointer b) →
  ztl_sector s lba = flat_sector (dev s) (z_sectorsPerSeg s) (z_l2p s) lba.
Proof.
  intros p Hmd Hsps Hz. unfold ztl_sector, map_view, flat_sector. cbv zeta. fold p.
  destruct (PhysAddr_IsUnmapped p) eqn:Hu; [done|].
  destruct Hz as [[z Hz] Hb]; [unfold PhysAddr_IsUnmapped in Hu; lia|].
  pose proof (Z.mod_pos_bound lba (z_sectorsPerSeg s) Hsps) as Hmod.
  assert (Hph : phys_start (z_wbd s) p = ZoneSize (dev s) * PhysAddr_ZoneID p + PhysAddr_OffsetSectors p).
  { rw (phys_start_eq (z_wbd s) _ z Hz). destruct (md_zone _ Hmd _ _ Hz) as (Hst & _).
    rw Hst Z2Nat.id //. apply PhysAddr_ZoneID_range. }
  unfold phys_sector. change (wb_buffers (wd_buf (z_wbd s))) with (bufs s). rw Hph in Hb |- *.
  destruct (bufs s !! PhysAddr_ZoneID p) as [b|]; [|done]. specialize (Hb b eq_refl).
  rw bool_decide_false //. lia.
Qed.

Lemma ztl_sector_flat {Old : OldZones} s lba :
  ztl_wf s → bufs s = ∅ → 0 ≤ lba < ztl_size s →
  ztl_sector s lba = flat_sector (dev s) (z_sectorsPerSeg s) (z_l2p s) lba.
Proof.
  intros Hwf Hb Hlba. pose proof (mw_sps _ _ _ _ (zw_map _ Hwf)) as Hsps.
  apply flat_on_medium; [apply (wbd_md _ (mw_wbd _ _ _ _ (zw_map _ Hwf)))|lia|]. intros Hne. split.
  - destruct (mw_placed _ _ _ _ (zw_map _ Hwf) (lba / z_sectorsPerSeg s)) as (_ & z & Hz & _); [|done|by exists z].
    unfold ztl_size in Hlba. split; [apply Z.div_pos; lia|apply Z.div_lt_upper_bound; lia].
  - intros b. by rw Hb lookup_empty.
Qed.

Lemma mapping_of_layer {Old : OldZones} recs s :
  ztl_wf s → logged_state recs s → bufs s = ∅ → mapping_ok (dev s) (z_sectorsPerSeg s) (z_l2p s).
Proof.
  intros Hwf Hl Hb. split; [apply Hwf| |apply (mw_disjoint _ _ _ _ (zw_map _ Hwf))].
  intros seg Hseg Hne. destruct (mw_placed _ _ _ _ (zw_map _ Hwf) seg Hseg Hne) as (Hp & z & Hz & _ & Ha).
  split; [done|]. split.
  - destruct (ls_kept _ _ Hl seg Hseg Hne) as [|Hk]; [done|]. rw Hb lookup_empty in Hk. by destruct Hk.
  - exists (zi_SizeSectors z). destruct Ha as (_ & Ha & _). split; [|lia]. rw -(ls_sizes _ _ Hl) list_lookup_fmap.
    change (zm_zones (z_zm s)) with (zm_zones (md_zm (wd_md (z_wbd s)))). by rw Hz.
Qed.

Lemma mapping_medium d d' sps t : same_medium d d' → mapping_ok d sps t → mapping_ok d' sps t.
Proof.
  intros Hm [Hwf Hpl Hdis]. split; [done| |done]. intros seg Hseg Hne. destruct (Hpl seg Hseg Hne) as (? & Hu & L & HL & ?).
  split; [done|]. split; [by apply (sm_used _ _ Hm)|]. exists L. by rw (sm_lengths _ _ Hm).
Qed.

(** The zones in use after a start are those written before it. *)
Definition zones_before s : OldZones := λ i, 0 ≤ i ∧ i ∉ zm_freeList (z_zm s).

Lemma booted_placed sps d t j s seg :
  booted sps d t j s → dev_wf d → mapping_ok d sps t → 0 ≤ seg < l2p_size t → L2PTable_Get seg t ≠ 0 →
  zones_before s (PhysAddr_ZoneID (L2PTable_Get seg t)) ∧
  placed (Old := zones_before s) (z_wbd s) sps (L2PTable_Get seg t).
Proof.
  intros Hb Hd Hm Hseg Hne. destruct (mo_placed _ _ _ Hm seg Hseg Hne) as (Hp & Hu & L & HL & Hfit).
  set (p := L2PTable_Get seg t) in *. pose proof (PhysAddr_ZoneID_range p) as Hr.
  assert (Hold : PhysAddr_ZoneID p ∉ zm_freeList (z_zm s)).
  { intros Hin. destruct (bt_free _ _ _ _ _ Hb _ Hin) as (_ & desc & Hdesc & He).
    apply (du_used d (Z.to_nat (PhysAddr_ZoneID p)) desc); [done|by rw Z2Nat.id; [lia|]|done|done]. }
  split; [split; [lia|done]|]. split; [done|]. rw -(bt_sizes _ _ _ _ _ Hb) list_lookup_fmap in HL.
  apply fmap_Some in HL as (z & Hz & ->). exists z. split; [exact Hz|]. split; [exact Hold|]. split; [|split].
  - intros []. by split; [lia|].
  - lia.
  - intros b. change (wb_buffers (wd_buf (z_wbd s))) with (bufs s). by rw (bt_bufs _ _ _ _ _ Hb) lookup_empty.
Qed.

Lemma booted_wf sps d t j s :
  booted sps d t j s → device_fits sps d → mapping_ok d sps t → jr_wf j →
  ztl_wf (Old := zones_before s) s.
Proof.
  intros Hb Hfits Hm Hj. pose proof (df_wf _ _ Hfits) as Hd.
  pose proof (bt_l2p _ _ _ _ _ Hb) as Hl. pose proof (bt_sps _ _ _ _ _ Hb) as Hs. pose proof (bt_bufs _ _ _ _ _ Hb) as Hbufs.
  split; [split| | | |].
  - split; [apply (bt_md _ _ _ _ _ Hb)|apply (bt_sectors _ _ _ _ _ Hb)|].
    intros z b. change (wb_buffers (wd_buf (z_wbd s))) with (bufs s). by rw Hbufs lookup_empty.
  - rw Hs. apply Hfits.
  - intros i z Hz. rw Hs. pose proof (df_zones _ _ Hfits) as Hall. rw -(bt_sizes _ _ _ _ _ Hb) in Hall.
    apply (Forall_lookup_1 _ _ i _ Hall). rw list_lookup_fmap. by rw Hz.
  - rw Hl Hs. apply Hm.
  - rw Hl Hs. intros seg Hseg Hne. by apply (booted_placed sps d t j s).
  - rw Hl Hs. apply Hm.
  - intros z [_ Hz]. split; [done|]. change (wb_buffers (wd_buf (z_wbd s))) with (bufs s). by rw Hbufs lookup_empty.
  - intros k seg Hk. rw (bt_p2l _ _ _ _ _ Hb) lookup_empty Hl. split; [by intros [_ ?]|].
    intros (Hseg & Hne & Hkey). destruct Hk. rw -Hkey. by apply (booted_placed sps d t j s).
  - by rw (bt_closed _ _ _ _ _ Hb).
  - by rw (bt_closed _ _ _ _ _ Hb).
  - by rw (bt_journal _ _ _ _ _ Hb).
  - by rw Hs (bt_gc_sps _ _ _ _ _ Hb).
Qed.

Lemma booted_logged sps d size recs f clock s :
  0 ≤ size → booted sps d (log_table size recs) (opened f (len recs) clock) s → dev_wf d →
  mapping_ok d sps (log_table size recs) →
  log_file size recs [] f → f_synced f = len (f_data f) → clock_fits clock →
  logged_state recs s.
Proof.
  intros Hsize Hb Hd Hm Hf Hsync Hclock. pose proof (log_file_count _ _ _ _ Hf).
  pose proof (bt_l2p _ _ _ _ _ Hb) as Hl. split; rw ?Hl; try done.
  - exists (opened f (len recs) clock). split; [apply (bt_journal _ _ _ _ _ Hb)|].
    split; [done| |exact Hsync| |done|apply Hf|apply Hf].
    + cbn. rw app_nil_r. unfold j_file. cbn. rw (lf_data _ _ _ _ Hf). by rw app_nil_r.
    + cbn. rw u64_small //. pose proof (len_nonneg recs). lia.
  - apply Hf.
  - rw (bt_sizes _ _ _ _ _ Hb). symmetry. apply (sm_lengths _ _ (bt_dev _ _ _ _ _ Hb)).
  - intros seg Hseg Hne. left. apply (sm_used _ _ (bt_dev _ _ _ _ _ Hb)). by apply Hm.
Qed.

Lemma flat_medium {Old : OldZones} s d lba :
  ztl_wf s → same_medium (dev s) d → 0 ≤ lba < ztl_size s →
  flat_sector d (z_sectorsPerSeg s) (z_l2p s) lba = flat_sector (dev s) (z_sectorsPerSeg s) (z_l2p s) lba.
Proof.
  intros Hwf Hm Hlba. unfold flat_sector. cbv zeta. set (p := L2PTable_Get _ _).
  destruct (PhysAddr_IsUnmapped p) eqn:Hu; [done|]. pose proof (mw_sps _ _ _ _ (zw_map _ Hwf)) as Hsps.
  assert (Hpl : placed (z_wbd s) (z_sectorsPerSeg s) p).
  { apply (mw_placed _ _ _ _ (zw_map _ Hwf)).
    - unfold ztl_size in Hlba. split; [apply Z.div_pos; lia|apply Z.div_lt_upper_bound; lia].
    - fold p. unfold PhysAddr_IsUnmapped in Hu. lia. }
  destruct (placed_bounds s p Hwf Hpl) as (z & Hz & Hst & H0' & Hcap & _).
  destruct (md_zone _ (wbd_md _ (mw_wbd _ _ _ _ (zw_map _ Hwf))) _ _ Hz) as (Hzs & _).
  rw Hzs Z2Nat.id in Hst; [apply PhysAddr_ZoneID_range|]. change (wd_md (z_wbd s)) with (z_md s) in Hst.
  destruct (sm_shape _ _ Hm) as (_ & _ & Hzone). rw Hzone -Hst. apply (sm_sector _ _ Hm).
  pose proof (Z.mod_pos_bound lba (z_sectorsPerSeg s) ltac:(lia)). lia.
Qed.

(** A running layer, tied to its configuration, its journal and its device. *)
Record running {Old : OldZones} (cfg : Config) (recs : list Record_) s : Prop := {
  ru_wf : ztl_wf s;
  ru_logged : logged_state recs s;
  ru_zone0 : zone0_unused s;
  ru_sps : z_sectorsPerSeg s = SectorsPerSegment cfg;
  ru_size : l2p_size (z_l2p s) = Device_Capacity (dev s) / SectorsPerSegment cfg;
  ru_fits : device_fits (SectorsPerSegment cfg) (dev s);
}.

Lemma running_advanced {Old : OldZones} cfg T recs more s s' :
  running cfg recs s → advanced T recs more s s' → ztl_next s s' → zone0_unused s' → running cfg (recs ++ more) s'.
Proof.
  intros [Hwf Hl Hu Hs Hsz Hf] Ha (Hwf' & Hsz' & Hs' & Hfree) Hk.
  assert (Hd : dev_wf (dev s)) by apply Hf.
  assert (Hd' : dev_wf (dev s')) by apply (md_dev_wf _ (wbd_md _ (mw_wbd _ _ _ _ (zw_map _ Hwf')))).
  destruct (ad_keeps _ _ _ _ _ Ha (du_alive _ Hd)) as (_ & _ & (_ & Hcap & _) & _).
  split; [done|apply Ha|done|congruence|by rw Hsz' Hcap|]. eapply device_fits_keeps; [done|apply Ha|done].
Qed.

(** The first start, with an empty journal. *)
Lemma first_start cfg d f clock :
  device_fits (SectorsPerSegment cfg) d → new_journal f → clock_fits clock →
  ∃ s, power_on cfg d (Ok f) clock = Ok s ∧ running (Old := zones_before s) cfg [] s ∧
    ztl_size s = Device_Capacity d / SectorsPerSegment cfg * SectorsPerSegment cfg ∧
    ∀ lba, 0 ≤ lba < ztl_size s → ztl_sector s lba = zero_sector.
Proof.
  intros Hfits [Hdata Hsync] Hclock. set (sps := SectorsPerSegment cfg) in *. set (size := Device_Capacity d / sps).
  destruct (df_capacity _ _ Hfits) as [Hc _]. destruct (df_segment _ _ Hfits) as [Hs _].
  destruct (dev_geometry _ (df_wf _ _ Hfits)) as [_ Hcap].
  assert (Hsize : 0 ≤ size) by (apply Z.div_pos; lia).
  pose proof (Z.mul_div_le (Device_Capacity d) sps ltac:(lia)) as Hmul. fold size in Hmul.
  assert (Hlog : log_file size [] [] f) by (split; [done|done|constructor|done|constructor|by rw Hdata]).
  destruct (power_on_booted cfg d f clock [] [] Hfits Hlog) as (s & Hon & Hbt). fold sps size in Hbt.
  assert (Hget : ∀ seg, 0 ≤ seg → L2PTable_Get seg (log_table size []) = 0) by (intros; by apply NewL2PTable_Get).
  assert (Hmap : mapping_ok d sps (log_table size [])).
  { split; [split; [by apply log_table_wf|]; cbn; lia| |].
    - intros seg Hseg Hne. by rw Hget in Hne; [lia|].
    - intros seg seg' Hseg _ _ Hne. by rw Hget in Hne; [lia|]. }
  assert (Hl : logged_state [] s).
  { apply (booted_logged sps d size [] f clock s Hsize Hbt); [apply Hfits|done|done|by rw Hdata Hsync|done]. }
  assert (Hjw : jr_wf (opened f (len (@nil Record_)) clock)).
  { destruct (ls_journal _ _ Hl) as (j2 & Hj2 & Hsafe2). rw (bt_journal _ _ _ _ _ Hbt) in Hj2. injection Hj2 as <-.
    eexists. by eapply safe_holds. }
  pose proof (booted_wf sps d _ _ s Hbt Hfits Hmap Hjw) as Hwf. destruct (bt_dev _ _ _ _ _ Hbt) as [_ _ (_ & Hcap' & _) _ _].
  exists s. split; [done|]. split; [|split].
  - split; [done|done| |apply (bt_sps _ _ _ _ _ Hbt)| |].
    + intros Ho. by rw (bt_closed _ _ _ _ _ Hbt) in Ho.
    + by rw (bt_l2p _ _ _ _ _ Hbt) Hcap'.
    + eapply device_fits_medium; [done|apply (bt_dev _ _ _ _ _ Hbt)].
  - unfold ztl_size. by rw (bt_l2p _ _ _ _ _ Hbt) (bt_sps _ _ _ _ _ Hbt).
  - intros lba Hlba. unfold ztl_sector, map_view. rw (bt_l2p _ _ _ _ _ Hbt) Hget; [|done].
    apply Z.div_pos; [lia|]. by rw (bt_sps _ _ _ _ _ Hbt).
Qed.

(** ** A life with power cycles *)

(** What is left of a layer with nothing buffered or pending: the device, and the
    journal file, all of it synced. *)
Record shutdown_leaves s (d : D) (f : File) : Prop := {
  sl_journal : ∃ j, gc_journal (z_gc s) = Some j ∧ f_data f = j_file j;
  sl_synced : f_synced f = len (f_data f);
  sl_length : len (f_data f) < 2^63;
  sl_medium : same_medium (dev s) d;
}.

(** Switching off after a flush, and on again. *)
Definition power_cycle (cfg : Config) s s' : Prop :=
  ∃ order s1 d f clock, (∀ l, order l ≡ₚ l) ∧ ZTL_Flush order s = (s1, Ok tt) ∧
    shutdown_leaves s1 d f ∧ clock_fits clock ∧ power_on cfg d (Ok f) clock = Ok s'.

Lemma restart_running {Old : OldZones} cfg recs s d f clock :
  running cfg recs s → bufs s = ∅ → (∃ j, gc_journal (z_gc s) = Some j ∧ j_pending j = []) →
  shutdown_leaves s d f → clock_fits clock →
  ∃ s', power_on cfg d (Ok f) clock = Ok s' ∧ running (Old := zones_before s') cfg recs s' ∧
    ztl_size s' = ztl_size s ∧ ∀ lba, 0 ≤ lba < ztl_size s → ztl_sector s' lba = ztl_sector s lba.
Proof.
  intros [Hwf Hl Hu Hs Hsz Hf] Hb (j & Hj & Hp) [(j1 & Hj1 & Hdata) Hsync Hlen Hm] Hclock.
  assert (j1 = j) as -> by congruence. clear Hj1. set (sps := SectorsPerSegment cfg) in *.
  destruct (ls_journal _ _ Hl) as (j' & Hj' & Hsafe). assert (j' = j) as -> by congruence.
  destruct (sm_shape _ _ Hm) as (_ & Hcap & _). set (size := Device_Capacity d / sps).
  assert (Hsize : l2p_size (z_l2p s) = size) by (by unfold size; rw Hcap).
  assert (Htab : z_l2p s = log_table size recs).
  { pose proof (ls_table _ _ Hl) as Ht. rw Hsize in Ht. unfold log_table, replay_table. cbn.
    destruct (z_l2p s) as [es n]. cbn in *. by rw -Ht Hsize. }
  assert (Hlog : log_file size recs [] f).
  { split; [|done|apply Hsafe|apply Hsafe| |done].
    - rw Hdata app_nil_r -(js_stream _ _ Hsafe) Hp. cbn. by rw app_nil_r.
    - rw -Hsize. apply Hl. }
  assert (Hfits : device_fits sps d) by by eapply device_fits_medium.
  pose proof (mapping_of_layer recs s Hwf Hl Hb) as Hmap. rw Htab Hs in Hmap.
  pose proof (mapping_medium _ _ _ _ Hm Hmap) as Hmap'.
  destruct (power_on_booted cfg d f clock recs [] Hfits Hlog) as (s' & Hon & Hbt). fold sps size in Hbt.
  assert (Hs0 : 0 ≤ size) by (destruct (mo_wf _ _ _ Hmap') as (_ & ? & _); done).
  pose proof (booted_logged sps d size recs f clock s' Hs0 Hbt (df_wf _ _ Hfits) Hmap' Hlog Hsync Hclock) as Hl'.
  assert (Hjw : jr_wf (opened f (len recs) clock)).
  { destruct (ls_journal _ _ Hl') as (j2 & Hj2 & Hsafe2). rw (bt_journal _ _ _ _ _ Hbt) in Hj2. injection Hj2 as <-.
    eexists. by eapply safe_holds. }
  pose proof (booted_wf sps d _ _ s' Hbt Hfits Hmap' Hjw) as Hwf'.
  assert (Hl2p : z_l2p s' = z_l2p s) by (rw Htab; apply (bt_l2p _ _ _ _ _ Hbt)).
  assert (Hss : z_sectorsPerSeg s' = z_sectorsPerSeg s) by (rw Hs; apply (bt_sps _ _ _ _ _ Hbt)).
  assert (Hzsize : ztl_size s' = ztl_size s) by (unfold ztl_size; by rw Hl2p Hss).
  exists s'. split; [done|]. split; [|split; [done|]].
  - split; [done|done| |by rw Hss| |].
    + intros Ho. by rw (bt_closed _ _ _ _ _ Hbt) in Ho.
    + destruct (sm_shape _ _ (bt_dev _ _ _ _ _ Hbt)) as (_ & Hcap' & _). by rw Hl2p Hsize Hcap'.
    + eapply device_fits_medium; [done|apply (bt_dev _ _ _ _ _ Hbt)].
  - intros lba Hlba. assert (Hm' : same_medium (dev s) (dev s')) by (eapply same_medium_trans; [done|apply (bt_dev _ _ _ _ _ Hbt)]).
    rw (ztl_sector_flat (Old := zones_before s') s'); [done|apply (bt_bufs _ _ _ _ _ Hbt)|by rw Hzsize|].
    rw (ztl_sector_flat s) // Hss Hl2p. by apply flat_medium.
Qed.

(** The two periodic tasks: a flush of one zone, a group commit. *)
Definition background s s' : Prop :=
  (∃ zone, on_wbd (WriteBuffer_Flush zone) s = (s', Ok tt)) ∨ journal_commit s = (s', Ok tt).

(** Commands and background tasks, and between them steps of [cycle]. *)
Inductive life (cycle : relation (ZTL D Journal)) : ZTL D Journal → list io → list (list byte) → ZTL D Journal → Prop :=
| life_nil s : life cycle s [] [] s
| life_io s c out s1 cs outs s2 :
    io_ok (ztl_size s) (z_sectorsPerSeg s) c → ztl_step s c out s1 → zone0_kept s s1 →
    life cycle s1 cs outs s2 → life cycle s (c :: cs) (out ++ outs) s2
| life_background s s1 cs outs s2 : background s s1 → life cycle s1 cs outs s2 → life cycle s cs outs s2
| life_cycle s s1 cs outs s2 : cycle s s1 → life cycle s1 cs outs s2 → life cycle s cs outs s2.

(** A life between two power cycles. *)
Definition session : ZTL D Journal → list io → list (list byte) → ZTL D Journal → Prop := life (λ _ _, False).

Lemma background_running {Old : OldZones} cfg recs s s' :
  running cfg recs s → background s s' →
  ztl_same s s' ∧ ∃ more, advanced (λ _, False) recs more s s' ∧ running cfg (recs ++ more) s'.
Proof.
  intros Hr Hb. pose proof (ru_wf _ _ _ Hr) as Hwf. pose proof (ru_logged _ _ _ Hr) as Hl.
  assert (Hend : ∀ more, advanced (λ _, False) recs more s s' → ztl_same s s' →
    (z_currentZoneOpen s' = z_currentZoneOpen s ∧ z_currentWriteZone s' = z_currentWriteZone s) →
    ztl_same s s' ∧ ∃ more, advanced (λ _, False) recs more s s' ∧ running cfg (recs ++ more) s').
  { intros more Ha Hs [Ho Hc]. split; [done|]. exists more. split; [done|]. eapply running_advanced; [done|done|by apply ztl_same_next|].
    unfold zone0_unused. rw Ho Hc. apply Hr. }
  destruct Hb as [[zone Heq]|Heq].
  - destruct (wp_elim _ _ _ _ _ Heq (flush_logged recs zone s Hwf Hl) I) as [more Ha].
    pose proof (wp_elim _ _ _ _ _ Heq (wp_ztl_flush zone (λ s' o, is_ok o → ztl_same s s') s Hwf (λ _ _ _ _ H, H)) I) as Hs.
    apply (Hend more Ha Hs). unfold on_wbd, zoom in Heq. destruct (WriteBuffer_Flush zone (z_wbd s)). by injection Heq as <- _.
  - destruct (wp_elim _ _ _ _ _ Heq (commit_logged recs s Hl) I) as (Ha & _).
    assert (Hw : wp journal_commit (λ s' o, ztl_same s s') s).
    { apply wp_ztl_journal; [done|intros; by apply jr_GroupCommit|by intros]. }
    apply (Hend [] Ha (wp_elim _ _ _ _ _ Heq Hw)). unfold journal_commit, on_gc, zoom in Heq.
    destruct (with_journal GroupCommit (z_gc s)). by injection Heq as <- _.
Qed.

(** After a flush that succeeded. *)
Lemma flush_running {Old : OldZones} cfg recs s order s1 :
  running cfg recs s → (∀ l, order l ≡ₚ l) → ZTL_Flush order s = (s1, Ok tt) →
  ztl_same s s1 ∧ bufs s1 = ∅ ∧ (∃ j, gc_journal (z_gc s1) = Some j ∧ j_pending j = []) ∧
  ∃ recs', running cfg recs' s1.
Proof.
  intros Hr Horder Heq. pose proof (ru_wf _ _ _ Hr) as Hwf. pose proof (ru_logged _ _ _ Hr) as Hl.
  destruct (wp_elim _ _ _ _ _ Heq (ZTL_Flush_logged recs order s Hwf Hl Horder) I) as ([more Ha] & Hb & Hj).
  pose proof (wp_elim _ _ _ _ _ Heq (wp_ZTL_Flush order (λ s' o, is_ok o → ztl_same s s') s Hwf Horder (λ _ _ _ _ _ H, H)) I) as Hs.
  split_and!; try done. exists (recs ++ more). eapply running_advanced; [done|done|by apply ztl_same_next|].
  assert (Hcur : always (on (λ s, (z_currentZoneOpen s, z_currentWriteZone s)) eq) (ZTL_Flush order : M (ZTL D Journal) unit)).
  { assert (∀ A (m : M (WBD D) A), always (on (λ s : ZTL D Journal, (z_currentZoneOpen s, z_currentWriteZone s)) eq) (on_wbd m))
      by (intros A m; by apply always_zoom_other).
    assert (∀ A (m : M (GCEngine D Journal) A), always (on (λ s : ZTL D Journal, (z_currentZoneOpen s, z_currentWriteZone s)) eq) (on_gc m))
      by (intros A m; by apply always_zoom_other).
    unfold ZTL_Flush, journal_commit. always. }
  specialize (Hcur s). unfold on in Hcur. rw Heq in Hcur. injection Hcur as Ho Hc.
  unfold zone0_unused. rw -Ho -Hc. apply Hr.
Qed.

(** A shutdown whose flush succeeds is that flush: the deferred calls find nothing to do. *)
Lemma shutdown_flushed {Old : OldZones} cfg recs order1 order2 z z1 :
  running cfg recs z → (∀ l, order1 l ≡ₚ l) → (∀ l, order2 l ≡ₚ l) → ZTL_Flush order1 z = (z1, Ok tt) →
  shutdown order1 order2 z = (z1, Ok tt).
Proof.
  intros Hr H1' H2' Hf. destruct (flush_running cfg recs z order1 z1 Hr H1' Hf) as (_ & Hb & (j & Hj & Hp) & _).
  unfold shutdown, attempt, mbind, M_bind. rw Hf. unfold ZTL_Close, wrap. rw (FlushAll_empty order2 z1 H2' Hb).
  by rw (Close_empty z1 j Hj Hp).
Qed.

Lemma cycle_running {Old : OldZones} cfg recs s s' :
  running cfg recs s → power_cycle cfg s s' →
  ztl_size s' = ztl_size s ∧ (∀ lba, 0 ≤ lba < ztl_size s → ztl_sector s' lba = ztl_sector s lba) ∧
  ∃ recs', running (Old := zones_before s') cfg recs' s'.
Proof.
  intros Hr (order & s1 & d & f & clock & Horder & Heq & Hleft & Hclock & Hon).
  destruct (flush_running cfg recs s order s1 Hr Horder Heq) as (Hsame & Hb & Hj & recs1 & Hr1).
  pose proof Hsame as (_ & Ht & Hs & _ & Hv).
  assert (Hsz : ztl_size s1 = ztl_size s) by (unfold ztl_size; by rw Ht Hs).
  destruct (restart_running cfg recs1 s1 d f clock Hr1 Hb Hj Hleft Hclock) as (s2 & Hon2 & Hr2 & Hsz2 & Hv2).
  rw Hon in Hon2. injection Hon2 as <-. split; [congruence|]. split; [|by exists recs1].
  intros lba Hlba. rw Hv2; [by rw Hsz|by apply Hv].
Qed.

(** The simulation over a life. *)
Lemma life_spec {Old : OldZones} cfg recs s cs outs s' (st : store) :
  running cfg recs s → (∀ l, 0 ≤ l < ztl_size s → ztl_sector s l = st l) → life (power_cycle cfg) s cs outs s' →
  ztl_size s' = ztl_size s ∧ outs = (spec_run (SectorsPerSegment cfg) st cs).1 ∧
  (∀ l, 0 ≤ l < ztl_size s → ztl_sector s' l = (spec_run (SectorsPerSegment cfg) st cs).2 l) ∧
  ∃ Old' recs', running (Old := Old') cfg recs' s'.
Proof.
  intros Hr Hst Hlife. induction Hlife as [s|s c out s1 cs outs s2 Hok Hstep Hk Hlife IH
    |s s1 cs outs s2 Hb Hlife IH|s s1 cs outs s2 Hc Hlife IH] in Old, recs, st, Hr, Hst |- *.
  - split_and!; [done|done|done|by exists Old, recs].
  - pose proof (ru_wf _ _ _ Hr) as Hwf.
    destruct (ztl_step_spec s st c out s1 Hwf Hst Hok Hstep) as [Hn Hspec].
    destruct (ztl_step_logged recs s c out s1 Hwf (ru_logged _ _ _ Hr) Hok Hstep) as [more Ha].
    destruct (Hspec (ru_zone0 _ _ _ Hr) Hk) as [-> Hst1]. pose proof Hn as (Hwf1 & Hsz & Hsps & Hfree).
    assert (Hsize : ztl_size s1 = ztl_size s) by (unfold ztl_size; by rw Hsz Hsps).
    assert (Hr1 : running cfg (recs ++ more) s1) by (eapply running_advanced; [done|done|done|by apply Hfree; [apply Hr|]]).
    rw -Hsize in Hst1. destruct (IH _ _ _ Hr1 Hst1) as (Hsz2 & Houts & Hst2 & Hr2).
    rw Hsize in Hsz2 Hst2. rw (ru_sps _ _ _ Hr) in Houts Hst2. cbn [spec_run].
    destruct (spec_run (SectorsPerSegment cfg) (spec_next _ st c) cs) as [os st']. cbn in *. by rw Houts.
  - destruct (background_running cfg recs s s1 Hr Hb) as ((Hwf1 & Ht & Hs & _ & Hv) & more & _ & Hr1).
    assert (Hsize : ztl_size s1 = ztl_size s) by (unfold ztl_size; by rw Ht Hs).
    rw -Hsize. apply (IH _ (recs ++ more)); [done|]. intros l Hl. rw Hsize in Hl. by rw Hv; [|apply Hst].
  - destruct (cycle_running cfg recs s s1 Hr Hc) as (Hsize & Hv & recs1 & Hr1).
    rw -Hsize. apply (IH (zones_before s1) recs1); [done|]. intros l Hl. rw Hsize in Hl. by rw Hv; [|apply Hst].
Qed.
End restart.
