(* ===== verification/RestartTheorems.v ===== *)
(** * What survives a power cycle

    Any number of clean power cycles leaves the store as it was; after a power loss
    the segments not touched since the last flush are as they were at the flush.
    Two closed theorems show what a power loss does to the others, and a restart of
    the emulated device. *)

From S2P Require Import Bytes Float64 Config Zbc Backend Segment Emulator ZoneManager WriteBuffer Crc32c Wal Gc Journal JournalSpec JournalTheorems Recovery RecoveryTheorems Ztl ZtlInv ZtlSpec ZtlTheorems ZtlStart Boot Durable Logged Restart.

(** ** After a power loss *)
Lemma update_untouched T more (t : list Z) seg :
  Forall record_ok more → Forall (rec_in T) more → 0 ≤ seg → ¬ T seg →
  foldl update_entries t more !! Z.to_nat seg = t !! Z.to_nat seg.
Proof.
  intros Hok Hin Hseg HT. induction more as [|r more IH] in t, Hok, Hin |- *; [done|].
  apply Forall_cons in Hok as [Hr Hok]. apply Forall_cons in Hin as [Hri Hin]. cbn [foldl]. rw IH; [done|done|].
  destruct Hri as [[Hty Hri]|Hty]; [|by rw update_entries_other; [by rw Hty|]].
  rw (update_entries_l2p _ r (r_NewPhysAddr r) (r_SegmentID r)) // list_lookup_insert_ne //.
  pose proof (ro_seg _ Hr). intros Heq. apply HT. assert (seg = r_SegmentID r) as -> by lia. done.
Qed.

Lemma get_untouched T size recs more seg :
  Forall record_ok more → Forall (rec_in T) more → 0 ≤ seg → ¬ T seg →
  L2PTable_Get seg (log_table size (recs ++ more)) = L2PTable_Get seg (log_table size recs).
Proof.
  intros Hok Hin Hseg HT. unfold L2PTable_Get, log_table, replay_table. cbn. rw foldl_app.
  by rw (update_untouched T).
Qed.

Lemma spec_untouched sps (st : store) cs l :
  (∀ c, c ∈ cs → ¬ touched sps c (l / sps)) → (spec_run sps st cs).2 l = st l.
Proof.
  intros Hc. induction cs as [|c cs IH] in st, Hc |- *; [done|]. cbn [spec_run].
  specialize (IH (spec_next sps st c)). destruct (spec_run sps (spec_next sps st c) cs) as [os st']. cbn in *.
  rw IH; [intros c' Hin; apply Hc; by right|]. specialize (Hc c ltac:(by left)).
  destruct c as [lba count|a data| |lba count]; cbn in *; [done| |done|].
  - unfold store_write. by rw decide_False.
  - unfold store_unmap. by rw decide_False.
Qed.

Section crash.
Context {D : Type} `{DurableDevice D}.
Implicit Types s : ZTL D Journal.
Abbreviation dev s := (md_dev (z_md s)).
Abbreviation bufs s := (wb_buffers (z_buf s)).

(** A session from a running layer: what it logs, and what it does to the store. *)
Lemma session_spec {Old : OldZones} cfg recs s cs outs s' (st : store) :
  running cfg recs s → (∀ l, 0 ≤ l < ztl_size s → ztl_sector s l = st l) → session s cs outs s' →
  ∃ more, advanced (λ seg, ∃ c, c ∈ cs ∧ touched (SectorsPerSegment cfg) c seg) recs more s s' ∧
    running cfg (recs ++ more) s' ∧
    ∀ l, 0 ≤ l < ztl_size s → ztl_sector s' l = (spec_run (SectorsPerSegment cfg) st cs).2 l.
Proof.
  intros Hr Hst Hlife. unfold session in Hlife. induction Hlife as [s|s c out s1 cs outs s2 Hok Hstep Hk Hlife IH
    |s s1 cs outs s2 Hb Hlife IH|s s1 cs outs s2 [] _ _] in recs, st, Hr, Hst |- *.
  - exists []. rw app_nil_r. split; [apply advanced_refl, Hr|done].
  - pose proof (ru_wf _ _ _ Hr) as Hwf.
    destruct (ztl_step_spec s st c out s1 Hwf Hst Hok Hstep) as [Hn Hspec].
    destruct (ztl_step_logged recs s c out s1 Hwf (ru_logged _ _ _ Hr) Hok Hstep) as [more Ha].
    destruct (Hspec (ru_zone0 _ _ _ Hr) Hk) as [-> Hst1]. pose proof Hn as (Hwf1 & Hsz & Hsps & Hfree).
    assert (Hsize : ztl_size s1 = ztl_size s) by (unfold ztl_size; by rw Hsz Hsps).
    assert (Hr1 : running cfg (recs ++ more) s1) by (eapply running_advanced; [done|done|done|by apply Hfree; [apply Hr|]]).
    rw -Hsize in Hst1. destruct (IH _ _ Hr1 Hst1) as (more2 & Ha2 & Hr2 & Hst2). exists (more ++ more2). split; [|split].
    + rw (ru_sps _ _ _ Hr) in Ha. eapply advanced_trans; [| |exact Ha|exact Ha2].
      * intros x Hx. exists c. split; [by left|done].
      * intros x (c' & Hc' & Hx). exists c'. split; [by right|done].
    + by rw app_assoc.
    + rw Hsize (ru_sps _ _ _ Hr) in Hst2. cbn [spec_run].
      by destruct (spec_run (SectorsPerSegment cfg) (spec_next _ st c) cs) as [os st'].
  - destruct (background_running cfg recs s s1 Hr Hb) as ((Hwf1 & Ht & Hs & _ & Hv) & more & Ha & Hr1).
    assert (Hsize : ztl_size s1 = ztl_size s) by (unfold ztl_size; by rw Ht Hs).
    destruct (IH (recs ++ more) st Hr1) as (more2 & Ha2 & Hr2 & Hst2).
    { intros l Hl. rw Hsize in Hl. by rw Hv; [|apply Hst]. }
    exists (more ++ more2). split; [|split; [by rw app_assoc|by rw -Hsize]].
    eapply advanced_trans; [| |exact Ha|exact Ha2]; [by intros x []|done].
Qed.

(** What a power loss leaves: the device, and of the journal at least what was synced,
    perhaps with a part of what was being written. *)
Record crash_leaves s (d : D) (f : File) : Prop := {
  cl_journal : ∃ j, gc_journal (z_gc s) = Some j ∧
    f_data f `prefix_of` j_file j ++ concat (j_pending j) ∧ f_synced (w_file (j_writer j)) ≤ len (f_data f);
  cl_medium : same_medium (dev s) d;
  cl_length : len (f_data f) < 2^63;
}.

Lemma log_table_of {Old : OldZones} cfg recs s :
  running cfg recs s → z_l2p s = log_table (Device_Capacity (dev s) / SectorsPerSegment cfg) recs.
Proof.
  intros Hr. pose proof (ls_table _ _ (ru_logged _ _ _ Hr)) as Ht. pose proof (ru_size _ _ _ Hr) as Hs.
  rw Hs in Ht. unfold log_table, replay_table. cbn. destruct (z_l2p s) as [es n]. cbn in *. by rw -Ht Hs.
Qed.

(** The records a crash leaves: all up to the flush, and some of those after it. *)
Lemma crash_log {Old1 Old2 : OldZones} cfg T recs more s1 s2 d f :
  running (Old := Old1) cfg recs s1 → (∃ j, gc_journal (z_gc s1) = Some j ∧ j_pending j = []) →
  advanced (Old := Old1) T recs more s1 s2 → running (Old := Old2) cfg (recs ++ more) s2 → crash_leaves s2 d f →
  ∃ rest torn, rest `prefix_of` more ∧ log_file (Device_Capacity d / SectorsPerSegment cfg) (recs ++ rest) torn f.
Proof.
  intros Hr1 (j1 & Hj1 & Hp1) Ha Hr2 [(j2 & Hj2 & Hpre & Hsync) Hmed Hlen].
  destruct (ls_journal _ _ (ru_logged _ _ _ Hr1)) as (j & Hj & Hs1). assert (j = j1) as -> by congruence. clear Hj.
  destruct (ls_journal _ _ (ru_logged _ _ _ Hr2)) as (j & Hj & Hs2). assert (j = j2) as -> by congruence. clear Hj.
  pose proof (js_stream _ _ Hs1) as Hst1. rw Hp1 app_nil_r in Hst1.
  rw (js_stream _ _ Hs2) in Hpre. rw (js_synced _ _ Hs2) in Hsync.
  pose proof (ad_durable _ _ _ _ _ Ha) as Hdur. unfold durable in Hdur. rw Hj1 Hj2 Hst1 in Hdur.
  pose proof (js_recs _ _ Hs2) as Hok. pose proof (stored_records _ Hok) as Hstored.
  destruct (split_frames _ _ _ Hstored Hpre) as (k & torn & Hsplit & Hdead & Hmax).
  rw -fmap_take in Hsplit. change (frames (Record_MarshalBinary <$> take k (recs ++ more)))
    with (journal_bytes (take k (recs ++ more))) in Hsplit.
  assert (Hk : ∃ rest, rest `prefix_of` more ∧ take k (recs ++ more) = recs ++ rest).
  { assert (length recs ≤ k ∨ length (recs ++ more) ≤ k)%nat as [Hk|Hk].
    - rw -(length_fmap Record_MarshalBinary (recs ++ more)). apply Hmax. rw fmap_app take_app_length'; [by rw length_fmap|].
      apply (prefix_of_longer _ _ (journal_bytes (recs ++ more))); [|done|unfold journal_bytes in Hdur; lia].
      rw journal_bytes_app. by apply prefix_app_r.
    - exists (take (k - length recs) more). split; [apply prefix_take|]. by rw take_app_ge.
    - exists more. split; [done|]. by rw take_ge. }
  destruct Hk as (rest & Hrest & Htake). exists rest, torn. split; [done|]. rw Htake in Hsplit.
  rw -Htake in Hsplit |- *. destruct (sm_shape _ _ Hmed) as (_ & Hcap & _).
  split; [done|done|by apply Forall_take|by apply numbered_take, Hs2| |done].
  apply Forall_take. rw Hcap -(ru_size _ _ _ Hr2). apply (ru_logged _ _ _ Hr2).
Qed.

(** A segment the session did not touch: all three tables have it at the same place,
    and there it is on the device. *)
Lemma crash_map {Old1 Old2 : OldZones} cfg T recs more rest s1 s2 seg :
  let p := L2PTable_Get seg (z_l2p s1) in
  running (Old := Old1) cfg recs s1 → bufs s1 = ∅ →
  advanced (Old := Old1) T recs more s1 s2 → running (Old := Old2) cfg (recs ++ more) s2 → rest `prefix_of` more →
  0 ≤ seg < l2p_size (z_l2p s1) → ¬ T seg →
  L2PTable_Get seg (z_l2p s2) = p ∧
  L2PTable_Get seg (log_table (Device_Capacity (dev s2) / SectorsPerSegment cfg) (recs ++ rest)) = p ∧
  (p ≠ 0 → is_Some (zm_zones (z_zm s2) !! Z.to_nat (PhysAddr_ZoneID p)) ∧
    ∀ b, bufs s2 !! PhysAddr_ZoneID p = Some b → phys_start (z_wbd s2) p + z_sectorsPerSeg s2 ≤ zb_writePointer b).
Proof.
  intros p Hr1 Hb1 Ha Hr2 Hrest Hseg HT. pose proof (log_table_of cfg _ _ Hr2) as Ht2. pose proof (log_table_of cfg _ _ Hr1) as Ht1.
  assert (Hsz : l2p_size (z_l2p s2) = l2p_size (z_l2p s1)) by apply Ha. rw Ht1 Ht2 in Hsz. cbn in Hsz. rw -Hsz in Ht1.
  set (size := Device_Capacity (dev s2) / SectorsPerSegment cfg) in *.
  destruct (ls_journal _ _ (ru_logged _ _ _ Hr2)) as (j2 & _ & Hs2).
  pose proof (js_recs _ _ Hs2) as Hok. apply Forall_app in Hok as [_ Hok]. pose proof (ad_recs _ _ _ _ _ Ha) as Hin.
  split_and!.
  - unfold p. rw Ht1 Ht2. apply (get_untouched T); [done|done|lia|done].
  - destruct Hrest as [k ->]. apply Forall_app in Hok as [Hok _]. apply Forall_app in Hin as [Hin _].
    unfold p. rw Ht1. apply (get_untouched T); [done|done|lia|done].
  - intros Hne. destruct (ad_medium _ _ _ _ _ Ha p) as ((_ & z & Hz & _) & [_ Hon2] & _).
    + by apply (mw_placed _ _ _ _ (zw_map _ (ru_wf _ _ _ Hr1))).
    + split; [|intros b; by rw Hb1 lookup_empty].
      destruct (ls_kept _ _ (ru_logged _ _ _ Hr1) seg Hseg Hne) as [|Hk]; [done|]. rw Hb1 lookup_empty in Hk. by destruct Hk.
    + split; [by exists z|done].
Qed.

Lemma crash_restart {Old1 Old2 : OldZones} cfg T recs more s1 s2 d f clock :
  running (Old := Old1) cfg recs s1 → bufs s1 = ∅ → (∃ j, gc_journal (z_gc s1) = Some j ∧ j_pending j = []) →
  advanced (Old := Old1) T recs more s1 s2 → running (Old := Old2) cfg (recs ++ more) s2 → crash_leaves s2 d f →
  ∃ s3, power_on cfg d (Ok f) clock = Ok s3 ∧ ztl_size s3 = ztl_size s1 ∧
    ∀ lba, 0 ≤ lba < ztl_size s1 → ¬ T (lba / SectorsPerSegment cfg) → ztl_sector s3 lba = ztl_sector s2 lba.
Proof.
  intros Hr1 Hb1 Hj1 Ha Hr2 Hleft.
  destruct (crash_log cfg T recs more s1 s2 d f Hr1 Hj1 Ha Hr2 Hleft) as (rest & torn & Hrest & Hlog).
  destruct Hleft as [_ Hmed _]. destruct (sm_shape _ _ Hmed) as (_ & Hcap & _).
  assert (Hfits : device_fits (SectorsPerSegment cfg) d) by (eapply device_fits_medium; [apply Hr2|done]).
  destruct (power_on_booted cfg d f clock _ torn Hfits Hlog) as (s3 & Hon & Hbt). cbv zeta in Hbt. rw Hcap in Hbt.
  pose proof (df_segment _ _ Hfits) as Hsps. pose proof (ru_sps _ _ _ Hr2) as Hsp2.
  pose proof (bt_sps _ _ _ _ _ Hbt) as Hsp3. pose proof (bt_l2p _ _ _ _ _ Hbt) as Ht3.
  pose proof (ad_size _ _ _ _ _ Ha) as Hsz. pose proof (ad_sps _ _ _ _ _ Ha) as Hsp12.
  assert (Hsize : ztl_size s3 = ztl_size s1 ∧ ztl_size s2 = ztl_size s1).
  { unfold ztl_size. rw Hsz Hsp12 Hsp3 -Hsp2 Ht3. cbn. by rw -(ru_size _ _ _ Hr2) Hsz Hsp12. }
  destruct Hsize as (Hsize3 & Hsize2). exists s3. split; [done|]. split; [done|]. intros lba Hlba HT.
  set (sps := SectorsPerSegment cfg) in *. set (seg := lba / sps) in *.
  assert (Hseg : 0 ≤ seg < l2p_size (z_l2p s1)).
  { unfold ztl_size in Hlba. rw -Hsp12 Hsp2 in Hlba. split; [apply Z.div_pos; lia|apply Z.div_lt_upper_bound; lia]. }
  destruct (crash_map cfg T recs more rest s1 s2 seg Hr1 Hb1 Ha Hr2 Hrest Hseg HT) as (Hg2 & Hg3 & Hpl).
  fold sps in Hg3. rw -Ht3 in Hg3. set (p := L2PTable_Get seg (z_l2p s1)) in *. pose proof (ru_wf _ _ _ Hr2) as Hwf2.
  rw (flat_on_medium s2); [apply (wbd_md _ (mw_wbd _ _ _ _ (zw_map _ Hwf2)))|by rw Hsp2; lia| |].
  { rw Hsp2. fold seg. rw Hg2 -Hsp2. exact Hpl. }
  rw -(flat_medium (Old := Old2) s2 (dev s3)); [done|eapply same_medium_trans; [done|apply (bt_dev _ _ _ _ _ Hbt)]|by rw Hsize2|].
  rw (flat_on_medium s3); [apply (bt_md _ _ _ _ _ Hbt)|by rw Hsp3; lia| |].
  - rw Hsp3. fold seg. rw Hg3. intros Hne. destruct (Hpl Hne) as ([z Hz] & _). split.
    + assert (Hl : length (zm_zones (z_zm s3)) = length (zm_zones (z_zm s2))).
      { pose proof (bt_sizes _ _ _ _ _ Hbt) as Hz3. rw (sm_lengths _ _ Hmed) -(ls_sizes _ _ (ru_logged _ _ _ Hr2)) in Hz3.
        apply (f_equal length) in Hz3. by rw !length_fmap in Hz3. }
      apply lookup_lt_is_Some. rw Hl. by eapply lookup_lt_Some.
    + intros b. by rw (bt_bufs _ _ _ _ _ Hbt) lookup_empty.
  - unfold flat_sector. rw Hsp3 Hsp2. fold seg. by rw Hg2 Hg3.
Qed.
End crash.

(** ** The theorems *)
Section lives.
Context {D : Type} `{DurableDevice D} (cfg : Config) (d : D) (f : File) (clock : list Z).
Context (Hfits : device_fits (SectorsPerSegment cfg) d) (Hnew : new_journal f) (Hclock : clock_fits clock).
Implicit Types s : ZTL D Journal.

(** Everything a life from the first start can reach. *)
Lemma life_running s0 cs outs s :
  power_on cfg d (Ok f) clock = Ok s0 → life (power_cycle cfg) s0 cs outs s →
  let spec := spec_run (SectorsPerSegment cfg) (λ _, zero_sector) cs in
  ztl_size s = Device_Capacity d / SectorsPerSegment cfg * SectorsPerSegment cfg ∧ outs = spec.1 ∧
  (∀ l, 0 ≤ l < ztl_size s → ztl_sector s l = spec.2 l) ∧ ∃ (Old : OldZones) recs, running cfg recs s.
Proof using All.
  intros Hon Hlife. destruct (first_start cfg d f clock Hfits Hnew Hclock) as (s0' & Hon' & Hr & Hsize & Hzero).
  rw Hon in Hon'. injection Hon' as <-.
  destruct (life_spec (Old := zones_before s0) cfg [] s0 cs outs s (λ _, zero_sector) Hr Hzero Hlife) as (Hsz & Houts & Hs & Hr').
  cbv zeta. rw Hsz. split_and!; try done.
Qed.

(** C3: the store across restarts. A target that starts on a device with an empty
    journal, serves reads, whole-segment writes, flushes and unmaps, with background
    flushes of a buffer and commits in between that succeed, and is switched off
    after a flush and on again any number of times - each time built anew from what
    the device and the journal file hold - answers exactly what one flat array of
    sectors answers, in which an unmap discards every segment it touches, and has
    its contents; as long as the commands succeed, no collection runs and zone 0 is
    not taken into use. *)
Theorem restarts_keep_store s0 cs outs s :
  power_on cfg d (Ok f) clock = Ok s0 → life (power_cycle cfg) s0 cs outs s →
  outs = (spec_run (SectorsPerSegment cfg) (λ _, zero_sector) cs).1 ∧
  ∀ l, 0 ≤ l < ztl_size s → ztl_sector s l = (spec_run (SectorsPerSegment cfg) (λ _, zero_sector) cs).2 l.
Proof using All. intros Hon Hlife. by destruct (life_running s0 cs outs s Hon Hlife) as (_ & ? & ? & _). Qed.

(** C8: a restart succeeds.  Whatever such a target has done, after a flush that
    succeeded the next start from the device and the journal file it leaves does not
    fail, and the life goes on from there. *)
Theorem restart_succeeds s0 cs outs s order s1 d' f' clock' :
  power_on cfg d (Ok f) clock = Ok s0 → life (power_cycle cfg) s0 cs outs s →
  (∀ l, order l ≡ₚ l) → ZTL_Flush order s = (s1, Ok tt) → shutdown_leaves s1 d' f' → clock_fits clock' →
  ∃ s2, power_on cfg d' (Ok f') clock' = Ok s2 ∧ power_cycle cfg s s2 ∧
    ztl_size s2 = ztl_size s ∧ ∀ l, 0 ≤ l < ztl_size s → ztl_sector s2 l = ztl_sector s l.
Proof using All.
  intros Hon Hlife Horder Hflush Hleft Hclock'.
  destruct (life_running s0 cs outs s Hon Hlife) as (_ & _ & _ & Old & recs & Hr).
  destruct (flush_running cfg recs s order s1 Hr Horder Hflush) as ((_ & Ht & Hs & _ & Hv) & Hb & Hj & recs1 & Hr1).
  destruct (restart_running cfg recs1 s1 d' f' clock' Hr1 Hb Hj Hleft Hclock') as (s2 & Hon2 & _ & Hsz2 & Hv2).
  assert (Hsz : ztl_size s1 = ztl_size s) by (unfold ztl_size; by rw Ht Hs).
  exists s2. split; [done|]. split; [by exists order, s1, d', f', clock'|]. split; [congruence|].
  intros l Hl. rw Hv2; [by rw Hsz|by apply Hv].
Qed.

(** C4: power loss. After a life as in the claim on restarts and a flush that
    succeeded the target goes on, with reads, whole-segment writes, flushes and
    unmaps, and with background flushes of a buffer and commits, all of which
    succeed; no zone is collected, in the background or in an emergency, and zone 0
    is not taken into use. It then loses power: the device keeps what it was given,
    and of the journal at least the synced bytes are left, perhaps ending in the
    middle of a record. It starts again, and every segment that no command since the
    flush has written or discarded holds what it held at the flush. *)
Theorem crash_keeps_flushed s0 cs outs s order s1 cs' outs' s2 d' f' clock' :
  power_on cfg d (Ok f) clock = Ok s0 → life (power_cycle cfg) s0 cs outs s →
  (∀ l, order l ≡ₚ l) → ZTL_Flush order s = (s1, Ok tt) → session s1 cs' outs' s2 → crash_leaves s2 d' f' →
  ∃ s3, power_on cfg d' (Ok f') clock' = Ok s3 ∧ ztl_size s3 = ztl_size s ∧
    ∀ l, 0 ≤ l < ztl_size s → (∀ c, c ∈ cs' → ¬ touched (SectorsPerSegment cfg) c (l / SectorsPerSegment cfg)) →
      ztl_sector s3 l = (spec_run (SectorsPerSegment cfg) (λ _, zero_sector) cs).2 l.
Proof using All.
  intros Hon Hlife Horder Hflush Hses Hleft.
  destruct (life_running s0 cs outs s Hon Hlife) as (_ & _ & Hs0 & Old & recs & Hr).
  destruct (flush_running cfg recs s order s1 Hr Horder Hflush) as ((_ & Ht & Hs & _ & Hv) & Hb & Hj & recs1 & Hr1).
  assert (Hsz : ztl_size s1 = ztl_size s) by (unfold ztl_size; by rw Ht Hs).
  destruct (session_spec cfg recs1 s1 cs' outs' s2 (ztl_sector s1) Hr1 ltac:(done) Hses) as (more & Ha & Hr2 & Hs2).
  destruct (crash_restart cfg _ recs1 more s1 s2 d' f' clock' Hr1 Hb Hj Ha Hr2 Hleft) as (s3 & Hon3 & Hsz3 & Hs3).
  exists s3. split; [done|]. split; [congruence|]. rw -Hsz. intros l Hl Hun. rw Hs3 //.
  - intros (c & Hc & Htc). by apply (Hun c).
  - rw Hs2 // spec_untouched //. rw Hsz in Hl. by rw Hv // Hs0.
Qed.
End lives.

(** ** Examples: three zones of four sectors, segments of two sectors *)
Definition empty_file : File := {| f_data := []; f_synced := 0; f_writes := []; f_syncs := [] |}.

(** The layer a start returns; the default is not used. *)
Definition blank : ZTL Emulator Journal :=
  {| z_gc := NewGCEngine (NewL2PTable 0) ∅ (mkZMD (NewZoneManager 0) small_device) None GCStats_zero
       {| gcc_FreeTriggerRatio := float64_of_Z 0; gcc_EmergencyFreeZones := 0; gcc_SectorsPerSegment := 0 |};
     z_buf := NewWriteBuffer 0 0; z_sectorsPerSeg := 0; z_zoneSectors := 0; z_emergencyFreeZones := 0;
     z_currentWriteZone := 0; z_currentZoneOpen := false |}.
Definition started (o : outcome (ZTL Emulator Journal)) : ZTL Emulator Journal := match o with Ok s => s | Stop _ => blank end.

(** The journal file as it is, all of it on the disk. *)
Definition file_now {D} (s : ZTL D Journal) : File :=
  match gc_journal (z_gc s) with
  | Some j => {| f_data := j_file j; f_synced := len (j_file j); f_writes := []; f_syncs := [] |}
  | None => empty_file
  end.

Definition other_sectors : list byte := pattern_sector 11 ++ pattern_sector 13.
Definition write_seg (a : Z) (data : list byte) (s : ZTL Emulator Journal) : ZTL Emulator Journal := (ZTL_Write id 0 0 (2 * a) data s).1.
Definition flush (s : ZTL Emulator Journal) : ZTL Emulator Journal := (ZTL_Flush id s).1.
Definition again (s : ZTL Emulator Journal) : outcome (ZTL Emulator Journal) :=
  power_on small_cfg (md_dev (z_md s)) (Ok (file_now s)) [].

Definition day0 : ZTL Emulator Journal := started (power_on small_cfg small_device (Ok empty_file) []).
Definition day1 : ZTL Emulator Journal := started (again (flush (write_seg 1 two_sectors day0))).
Definition day2 : ZTL Emulator Journal := started (again (flush (write_seg 2 other_sectors day1))).
Definition day3 : ZTL Emulator Journal := (ZTL_Read 2 4 day2).1.

Lemma small_fits : device_fits (SectorsPerSegment small_cfg) small_device.
Proof.
  split; [by apply fresh_emulator_wf|done|by vm_compute|done|by vm_compute|]. vm_compute. repeat constructor; discriminate.
Qed.
Lemma empty_new : new_journal empty_file.
Proof. done. Qed.
Lemma no_clock : clock_fits [].
Proof. constructor. Qed.

Lemma day0_on : power_on small_cfg small_device (Ok empty_file) [] = Ok day0.
Proof. vm_compute. reflexivity. Qed.

(** Switching off now, and starting again. *)
Lemma now_left {Old : OldZones} recs s :
  running small_cfg recs s → len (f_data (file_now s)) < 2^63 → shutdown_leaves s (md_dev (z_md s)) (file_now s).
Proof.
  intros Hr Hlen. destruct (ls_journal _ _ (ru_logged _ _ _ Hr)) as (j & Hj & _). unfold file_now in *. rw Hj in Hlen |- *.
  split; [by exists j|done|done|]. apply same_medium_refl, (df_wf _ _ (ru_fits _ _ _ Hr)).
Qed.

Lemma now_cycle {Old : OldZones} recs s s' :
  running small_cfg recs s → ZTL_Flush id s = (flush s, Ok tt) → len (f_data (file_now (flush s))) < 2^63 →
  again (flush s) = Ok s' → power_cycle small_cfg s s'.
Proof.
  intros Hr Hf Hlen Hon. destruct (flush_running small_cfg recs s id (flush s) Hr ltac:(done) Hf) as (_ & _ & _ & recs' & Hr').
  exists id, (flush s), (md_dev (z_md (flush s))), (file_now (flush s)), []. split_and!; try done; [by eapply now_left|apply no_clock].
Qed.

Lemma life_app {D} `{ZonedDevice D} (R : relation (ZTL D Journal)) s cs outs s1 cs' outs' s2 :
  life R s cs outs s1 → life R s1 cs' outs' s2 → life R s (cs ++ cs') (outs ++ outs') s2.
Proof.
  intros Hl Hl'. induction Hl as [s|s c out s1 cs outs s2' Hok Hstep Hk Hl IH|s s1 cs outs s2' Hb Hl IH|s s1 cs outs s2' Hc Hl IH].
  - done.
  - rw -app_comm_cons -app_assoc. by eapply life_io; [..|apply IH].
  - by eapply life_background; [|apply IH].
  - by eapply life_cycle; [|apply IH].
Qed.

Lemma write_life R s a data :
  ztl_size s = 12 → z_sectorsPerSeg s = 2 → 0 ≤ a ≤ 4 → len data = 1024 →
  z_emergencyFreeZones s ≤ FreeZoneCount (z_zm s) → (ZTL_Write id 0 0 (2 * a) data s).2 = Ok tt →
  0 ∈ zm_freeList (z_zm (write_seg a data s)) → life R s [IOWrite a data] [] (write_seg a data s).
Proof.
  intros Hsz Hsp Ha Hlen Hfree Ho Hk. apply (life_io R s _ [] (write_seg a data s) [] []); [| | |constructor].
  - rw Hsz Hsp. split; [lia|]. exists 1. unfold sectorSize. split_and!; lia.
  - apply (step_write s id 0%nat 0); [done|]. rw Hsp -Ho. apply surjective_pairing.
  - by right.
Qed.

(** Its life so far, and one more power cycle. *)
Lemma small_again cs outs s s' :
  life (power_cycle small_cfg) day0 cs outs s → (ZTL_Flush id s).2 = Ok tt → len (f_data (file_now (flush s))) < 2^63 →
  again (flush s) = Ok s' → life (power_cycle small_cfg) day0 cs outs s'.
Proof.
  intros Hl Ho Hlen Hon.
  destruct (life_running small_cfg small_device empty_file [] small_fits empty_new no_clock day0 cs outs s day0_on Hl)
    as (_ & _ & _ & Old & recs & Hr).
  rw -(app_nil_r cs) -(app_nil_r outs). eapply life_app; [exact Hl|]. eapply life_cycle; [|constructor].
  eapply now_cycle; [exact Hr| |exact Hlen|exact Hon]. rw -Ho. apply surjective_pairing.
Qed.

Ltac day := first [lia | vm_compute; reflexivity | vm_compute; discriminate | vm_compute; left].

Lemma day1_life : life (power_cycle small_cfg) day0 [IOWrite 1 two_sectors] [] day1.
Proof. apply (small_again _ _ (write_seg 1 two_sectors day0)); [apply write_life|..]; day. Qed.

Lemma day2_life : life (power_cycle small_cfg) day0 [IOWrite 1 two_sectors; IOWrite 2 other_sectors] [] day2.
Proof.
  apply (small_again _ _ (write_seg 2 other_sectors day1)); [|day..].
  apply (life_app _ _ _ _ _ _ _ _ day1_life). apply write_life; day.
Qed.

(** Two segments written on two days, read on the third. *)
Lemma restarts_keep_store_witness : (ZTL_Read 2 4 day2).2 = Ok (two_sectors ++ other_sectors).
Proof.
  assert (Hread : ∃ data, (ZTL_Read 2 4 day2).2 = Ok data) by (vm_compute; by eexists). destruct Hread as [data Hread].
  assert (Hl : life (power_cycle small_cfg) day0 ([IOWrite 1 two_sectors; IOWrite 2 other_sectors] ++ [IORead 2 4]) ([] ++ [data]) day3).
  { apply (life_app _ _ _ _ _ _ _ _ day2_life). apply (life_io _ day2 _ [data] day3 [] []); [| | |constructor].
    - split; [lia|]. split; [lia|]. vm_compute. discriminate.
    - apply step_read. rw -Hread. apply surjective_pairing.
    - right. vm_compute. left. }
  destruct (restarts_keep_store small_cfg small_device empty_file [] small_fits empty_new no_clock day0 _ _ day3 day0_on Hl) as [Hout _].
  rw Hread. injection Hout as ->. vm_compute. reflexivity.
Defined.

Lemma restart_succeeds_witness : ∃ s, again (flush day2) = Ok s ∧ ztl_sector s 4 = ztl_sector day2 4.
Proof.
  destruct (life_running small_cfg small_device empty_file [] small_fits empty_new no_clock day0 _ _ day2 day0_on day2_life)
    as (_ & _ & _ & Old & recs & Hr).
  assert (Hf : ZTL_Flush id day2 = (flush day2, Ok tt)) by (apply injective_projections; vm_compute; reflexivity).
  destruct (flush_running small_cfg recs day2 id (flush day2) Hr ltac:(done) Hf) as (_ & _ & _ & recs' & Hr').
  destruct (restart_succeeds small_cfg small_device empty_file [] small_fits empty_new no_clock day0 _ _ day2 id (flush day2)
    (md_dev (z_md (flush day2))) (file_now (flush day2)) [] day0_on day2_life ltac:(done) Hf) as (s & Hon & _ & _ & Hs).
  - eapply now_left; [exact Hr'|]. vm_compute. reflexivity.
  - apply no_clock.
  - exists s. split; [exact Hon|]. apply Hs. split; [lia|]. vm_compute. reflexivity.
Defined.

(** After a flush segment 3 is written and segment 2 discarded; the power goes with a
    part of the last record on the disk. *)
Definition day1_flushed : ZTL Emulator Journal := flush (write_seg 2 other_sectors day1).
Definition day1_write : ZTL Emulator Journal := write_seg 3 two_sectors day1_flushed.
Definition day1_unmap : ZTL Emulator Journal := (ZTL_Unmap 4 2 day1_write).1.
Definition file_torn (s : ZTL Emulator Journal) : File :=
  match gc_journal (z_gc s) with
  | Some j => {| f_data := j_file j ++ slice 0 20 (concat (j_pending j)); f_synced := len (j_file j); f_writes := []; f_syncs := [] |}
  | None => empty_file
  end.

Lemma torn_left {Old : OldZones} recs s :
  running small_cfg recs s → len (f_data (file_torn s)) < 2^63 → crash_leaves s (md_dev (z_md s)) (file_torn s).
Proof.
  intros Hr Hlen. destruct (ls_journal _ _ (ru_logged _ _ _ Hr)) as (j & Hj & Hs). unfold file_torn in *. rw Hj in Hlen |- *.
  split; [|apply same_medium_refl, (df_wf _ _ (ru_fits _ _ _ Hr))|done]. exists j. split; [done|]. cbn [f_data].
  split; [apply prefix_app, slice_prefix|]. rw (js_synced _ _ Hs) len_app. pose proof (len_nonneg (slice 0 20 (concat (j_pending j)))). lia.
Qed.

Lemma day1_session : session day1_flushed ([IOWrite 3 two_sectors] ++ [IOUnmap 4 2]) ([] ++ []) day1_unmap.
Proof.
  apply (life_app _ _ _ _ day1_write); [apply write_life; day|].
  apply (life_io _ day1_write _ [] day1_unmap [] []); [| | |constructor].
  - split; [lia|]. split; [lia|]. vm_compute. discriminate.
  - apply step_unmap. apply injective_projections; vm_compute; reflexivity.
  - right. vm_compute. left.
Qed.

Lemma crash_keeps_flushed_witness :
  ∃ s, power_on small_cfg (md_dev (z_md day1_unmap)) (Ok (file_torn day1_unmap)) [] = Ok s ∧ ztl_sector s 2 = pattern_sector 7.
Proof.
  assert (Hl : life (power_cycle small_cfg) day0 ([IOWrite 1 two_sectors] ++ [IOWrite 2 other_sectors]) ([] ++ []) (write_seg 2 other_sectors day1)).
  { apply (life_app _ _ _ _ _ _ _ _ day1_life). apply write_life; day. }
  destruct (life_running small_cfg small_device empty_file [] small_fits empty_new no_clock day0 _ _ _ day0_on Hl)
    as (_ & _ & _ & Old & recs & Hr).
  assert (Hf : ZTL_Flush id (write_seg 2 other_sectors day1) = (day1_flushed, Ok tt)) by (apply injective_projections; vm_compute; reflexivity).
  destruct (flush_running small_cfg recs _ id day1_flushed Hr ltac:(done) Hf) as (_ & _ & _ & recs' & Hr').
  destruct (session_spec small_cfg recs' _ _ _ _ (ztl_sector day1_flushed) Hr' ltac:(done) day1_session) as (more & _ & Hr2 & _).
  destruct (crash_keeps_flushed small_cfg small_device empty_file [] small_fits empty_new no_clock day0 _ _ _ id day1_flushed
    _ _ day1_unmap (md_dev (z_md day1_unmap)) (file_torn day1_unmap) [] day0_on Hl ltac:(done) Hf day1_session) as (s & Hon & _ & Hs).
  - eapply torn_left; [exact Hr2|]. vm_compute. reflexivity.
  - exists s. split; [exact Hon|]. rw Hs.
    + split; [lia|]. vm_compute. reflexivity.
    + intros c Hc. apply elem_of_cons in Hc as [->|Hc]; [|apply list_elem_of_singleton in Hc as ->]; vm_compute; intuition congruence.
    + vm_compute. reflexivity.
Defined.

(** ** Where a power cycle goes wrong *)

(** The record of a write is committed before its data leave the write buffer: when a
    flushed segment is overwritten and the power goes before the next flush, recovery
    maps it to a place that was never written, and neither the new nor the flushed
    data are there. *)
Theorem overwrite_loses_both :
  ztl_sector day1 2 = pattern_sector 7 ∧
  let s := write_seg 1 other_sectors day1 in
  ZTL_Write id 0 0 2 other_sectors day1 = (s, Ok tt) ∧ crash_leaves s (md_dev (z_md s)) (file_torn s) ∧
  ∃ s', power_on small_cfg (md_dev (z_md s)) (Ok (file_torn s)) [] = Ok s' ∧ ztl_sector s' 2 = zero_sector.
Proof.
  split; [vm_compute; reflexivity|]. cbv zeta. split; [apply injective_projections; vm_compute; reflexivity|]. split.
  - assert (Hl : life (power_cycle small_cfg) day0 ([IOWrite 1 two_sectors] ++ [IOWrite 1 other_sectors]) ([] ++ []) (write_seg 1 other_sectors day1)).
    { apply (life_app _ _ _ _ _ _ _ _ day1_life). apply write_life; day. }
    destruct (life_running small_cfg small_device empty_file [] small_fits empty_new no_clock day0 _ _ _ day0_on Hl)
      as (_ & _ & _ & Old & recs & Hr).
    eapply torn_left; [exact Hr|]. vm_compute. reflexivity.
  - exists (started (power_on small_cfg (md_dev (z_md (write_seg 1 other_sectors day1))) (Ok (file_torn (write_seg 1 other_sectors day1))) [])).
    split; vm_compute; reflexivity.
Qed.

(** The emulated device is new at every start, and the journal is not: after a
    restart the table maps segments to zones that are empty, and the next write
    takes such a zone, so that segment 1, flushed before, reads what was written to
    segment 2 after it. *)
Theorem emulator_restart_aliases :
  ztl_sector (flush (write_seg 1 two_sectors day0)) 2 = pattern_sector 7 ∧
  ∃ s, power_on small_cfg small_device (Ok (file_now (flush (write_seg 1 two_sectors day0)))) [] = Ok s ∧
    (ZTL_Write id 0 0 4 other_sectors s).2 = Ok tt ∧ ztl_sector (write_seg 2 other_sectors s) 2 = pattern_sector 11.
Proof.
  split; [vm_compute; reflexivity|].
  exists (started (power_on small_cfg small_device (Ok (file_now (flush (write_seg 1 two_sectors day0)))) [])).
  split; [|split]; vm_compute; reflexivity.
Qed.
