(* ===== verification/SmrStore.v ===== *)
(** * Discovery, and the translation layer on an SMR drive

    What [newSMRBackend] makes of a transport: a backend of the drive's geometry,
    or a closed transport.  An emulated drive - the commands decoded onto the
    emulator - discharges the contract of SmrTheorems.v, so that its theorems are
    about something; the translation layer over the backend is a flat store. *)

From S2P Require Import Bytes Float64 Config Zbc Backend Segment Emulator ZoneManager WriteBuffer Gc Ztl ZtlInv ZtlSpec ZtlTheorems ZtlStart Smr SmrTheorems.

Section ready.
Context {T : Type} `{ReadyDrive T}.
Implicit Types (t : T) (s : SMRBackend T).

Lemma report_is_ready t : dr_wf t → report_ready t.
Proof. intros Hwf cdb buf Hc Hb. exact (ready_report t cdb buf defaultTimeout Hwf Hc Hb). Qed.

Lemma wp_verifyDevice s (Q : SMRBackend T → outcome unit → Prop) :
  dr_wf (smr_transport s) →
  (∀ t', dr_same (smr_transport s) t' → Q (smr_set_transport t' s) (Ok tt)) →
  wp verifyDevice Q s.
Proof.
  intros Hwf HQ. destruct (inquiry_cdb 96) as (H1' & H2' & H3' & H4').
  unfold verifyDevice. wp_steps. apply wp_on_transport.
  eapply wp_mono; [apply wp_self, dr_inquiry; [done|exact H1'|exact H2'|exact H3'|done|by rw H4']|].
  intros t' o (Hrun & Hret & Hsame & Hok).
  pose proof (ready_inquiry _ _ (make_bytes 96) defaultTimeout Hwf H2') as Hr. unfold wp in Hr. rw -Hrun in Hr.
  destruct o as [bs|r]; [|done]. destruct (Hok bs eq_refl) as [Hlen Hpdt].
  cbn beta iota. wp_steps. apply wp_lift. unfold parseInquiryBasic. rw Hlen. change (len (make_bytes 96) <? 5) with false.
  cbn iota. rw Hpdt. by apply HQ.
Qed.

Lemma first_zone t : dr_wf t → ∃ z rest, dr_zones t = z :: rest ∧ zd_ZoneLength z = dr_zoneSize t.
Proof.
  intros Hwf. destruct (dr_geometry t Hwf) as (_ & Hn & _).
  destruct (dr_zones t) as [|z rest] eqn:E; [unfold len in Hn; simpl in Hn; lia|]. exists z, rest. split; [done|].
  apply (dr_zone t 0%nat z Hwf). by rw E.
Qed.

(** Discovery of a drive that answers. *)
Lemma discover_drive t : dr_wf t → ∃ t', dr_same t t' ∧
  let n := Z.min 8191 (len (dr_zones t)) in
  newSMRBackend t = (mkSMR t' n (dr_zoneSize t) 14 (n * dr_zoneSize t), Ok tt).
Proof.
  intros Hwf. destruct (dr_geometry t Hwf) as (Hzs & Hn & Hcap).
  set (n := Z.min 8191 (len (dr_zones t))).
  enough (Hwp : wp discover (λ s' o, ∃ t', dr_same t t' ∧ s' = mkSMR t' n (dr_zoneSize t) 14 (n * dr_zoneSize t) ∧ o = Ok tt)
    (mkSMR t 0 0 0 0)).
  { unfold wp in Hwp. destruct (discover (mkSMR t 0 0 0 0)) as [s' o] eqn:Hd. simpl in Hwp.
    destruct Hwp as (t' & Hs & -> & ->). exists t'. split; [done|].
    unfold newSMRBackend, attempt, mbind, M_bind. by rw Hd. }
  unfold discover. wp_steps. apply wp_verifyDevice; [done|]. cbn [smr_transport]. intros t1 Hs1. wp_steps.
  apply wp_reportZones; [apply Hs1|lia|]. cbn [smr_transport smr_set_transport].
  intros t2 o Hr Hs2 Ho Hok. pose proof (Hok (report_is_ready _ (proj1 Hs1))) as Hok'. destruct o as [zs|]; [|done].
  cbn beta iota. rw (Ho zs eq_refl).
  destruct (first_zone t1 (proj1 Hs1)) as (z & rest & -> & Hz). change (Z.to_nat (1 `min` 8191)) with 1%nat. cbn [take].
  wp_steps. apply wp_reportZones; [apply Hs2|lia|]. cbn [smr_transport smr_set_transport smr_set_zoneSectors].
  intros t3 o3 Hr3 Hs3 Ho3 Hok3. pose proof (Hok3 (report_is_ready _ (proj1 Hs2))) as Hok3'. destruct o3 as [zs3|]; [|done].
  cbn beta iota. rw (Ho3 zs3 eq_refl). wp_steps. change (65536 `min` 8191) with 8191.
  assert (Hlen : len (take (Z.to_nat 8191) (dr_zones t2)) = n).
  { destruct Hs1 as (_ & _ & Hn1 & _). destruct Hs2 as (_ & _ & Hn2 & _).
    unfold n, len in *. rw length_take. lia. }
  assert (Hsize : zd_ZoneLength z = dr_zoneSize t) by (rw Hz; apply Hs1).
  exists t3. split; [eapply dr_same_trans; [exact Hs1|by eapply dr_same_trans]|].
  unfold smr_set_maxOpenZones, smr_set_capacity, smr_set_zoneCount, smr_set_transport. cbn.
  rw Hlen Hsize u64_small; [nia|done].
Qed.

Lemma discovered_wf t t' : dr_same t t' → len (dr_zones t) ≤ 8191 →
  let n := Z.min 8191 (len (dr_zones t)) in smr_wf (mkSMR t' n (dr_zoneSize t) 14 (n * dr_zoneSize t)).
Proof. intros (? & Hz & Hl & _) Hn. split; cbn; try done; lia. Qed.
End ready.

(** ** The bytes of a report *)
Lemma slice_app_high {A} (l1 l2 : list A) i j : len l1 ≤ i → slice i j (l1 ++ l2) = slice (i - len l1) (j - len l1) l2.
Proof.
  unfold len. intros Hi. unfold slice. rw drop_app_ge; [lia|]. f_equal; [lia|f_equal; lia].
Qed.

Lemma bind_slice {A} (f : A → list byte) k zs i z :
  0 ≤ k → (∀ x, len (f x) = k) → zs !! i = Some z →
  slice (k * Z.of_nat i) (k * (Z.of_nat i + 1)) (zs ≫= f) = f z.
Proof.
  intros Hk Hf. revert i. induction zs as [|x zs IH]; intros [|i] Hi; simplify_eq/=.
  - rw slice_app_low; [lia|rw Hf; lia|]. rw Z.mul_0_r Z.mul_1_r -(Hf z). apply slice_all.
  - rw slice_app_high; [rw Hf; lia|]. rw Hf -(IH i) //. f_equal; lia.
Qed.

Lemma slice_copy_0 i j (src dst : list byte) :
  0 ≤ i → j ≤ len src → j ≤ len dst → slice i j (copy_at 0 src dst) = slice i j src.
Proof.
  unfold len. intros Hi Hs Hd. apply list_eq. intros k. rw !lookup_slice. case_decide as Hk; [|done].
  unfold copy_at. change (Z.to_nat 0) with 0%nat. rw take_0 Nat.sub_0_r. cbn [app].
  rw lookup_app_l; [rw length_take; lia|]. rw lookup_take_lt //. lia.
Qed.

(** A report whose descriptors have a layout of 64 bytes. *)
Definition report_in (layout : ZoneDescriptor → list byte) (zs : list ZoneDescriptor) : list byte :=
  be_put 4 (ZoneDescriptorSize * len zs) ++ make_bytes 60 ++ (zs ≫= layout).

Lemma report_in_report layout (f : ZoneDescriptor → ZoneDescriptor) zs buf :
  (∀ z, len (layout z) = 64) → (∀ i z, zs !! i = Some z → describes (layout z) (f z)) → len zs < 2^26 → 64 ≤ len buf →
  report_of (f <$> zs) (copy_at 0 (report_in layout zs) buf).
Proof.
  intros Hl Hzs Hn Hbuf.
  assert (Hhdr : len (be_put 4 (ZoneDescriptorSize * len zs) ++ make_bytes 60) = 64) by done.
  assert (Hlen : len (report_in layout zs) = 64 + 64 * len zs).
  { unfold report_in. rw app_assoc len_app Hhdr. f_equal. clear -Hl. induction zs as [|z zs IH]; [done|].
    cbn [mbind list_bind]. rw len_app IH Hl. unfold len. simpl. lia. }
  assert (Hf : len (f <$> zs) = len zs) by (unfold len; by rw length_fmap).
  pose proof (len_nonneg zs). split.
  - rw slice_copy_0; [lia..|]. rw Hf. transitivity (be_get (be_put 4 (ZoneDescriptorSize * len zs))); [done|].
    apply be_get_put_small. unfold ZoneDescriptorSize. lia.
  - intros i z. rw list_lookup_fmap. destruct (zs !! i) as [z0|] eqn:Hz; [|done]. intros [= <-].
    rw len_copy_at; [lia|]. intros Hfit.
    pose proof (lookup_lt_Some _ _ _ Hz) as Hi.
    rw slice_copy_0; [lia|unfold len in *; lia|lia|].
    unfold report_in. rw app_assoc slice_app_high Hhdr; [lia|].
    replace (64 * (Z.of_nat i + 1) - 64) with (64 * Z.of_nat i) by lia.
    replace (64 * (Z.of_nat i + 2) - 64) with (64 * (Z.of_nat i + 1)) by lia.
    rw (bind_slice layout 64 zs i z0) //. by eapply Hzs.
Qed.

(** ** An emulated drive

    The commands decoded onto the emulator: a drive that keeps what the contract
    asks for. *)
Module EmulatedDrive.

(** The layout of the design document, 2.4.2. *)
Definition descriptor_bytes (z : ZoneDescriptor) : list byte :=
  byte_of_Z (zd_ZoneType z + 16 * zd_ZoneCondition z) ::
  byte_of_Z ((if zd_Reset z then 0x80 else 0) + (if zd_NonSeq z then 0x40 else 0)) ::
  make_bytes 6 ++ be_put 8 (zd_ZoneLength z) ++ be_put 8 (zd_ZoneStartLBA z) ++
  be_put 8 (zd_WritePointer z) ++ make_bytes 32.

Definition report_bytes : list ZoneDescriptor → list byte := report_in descriptor_bytes.

Definition zone_desc (zs : Z) (i : nat) (z : zoneState) : ZoneDescriptor :=
  {| zd_ZoneType := ZoneTypeSequentialWrite; zd_ZoneState := zs_state z;
     zd_ZoneCondition := ZoneState_value (zs_state z); zd_Reset := false; zd_NonSeq := false;
     zd_ZoneLength := zs; zd_ZoneStartLBA := zs * Z.of_nat i; zd_WritePointer := zs_writePointer z |}.
Definition zones (e : Emulator) : list ZoneDescriptor := imap (zone_desc (e_zoneSectors e)) (e_zones e).

Definition read_command (cdb buf : list byte) (timeout : Z) : M Emulator (list byte) :=
  e ← gets id;
  if byte_at 0 cdb =? OpcodeInquiry then
    mret (copy_at 0 [byte_of_Z PeripheralDeviceTypeZBC] buf)
  else if byte_at 0 cdb =? OpcodeReportZones then
    mret (copy_at 0 (report_bytes (drop (Z.to_nat (cdb_lba cdb / e_zoneSectors e)) (zones e))) buf)
  else if byte_at 0 cdb =? 0x88 then Emulator_ReadSectors (cdb_lba cdb) (cdb_count cdb)
  else throw (Errorf "illegal request").

Definition write_command (cdb data : list byte) (timeout : Z) : M Emulator unit :=
  if byte_at 0 cdb =? 0x8A then Emulator_WriteSectors (cdb_lba cdb) data else throw (Errorf "illegal request").

Definition action_command (cdb : list byte) (timeout : Z) : M Emulator unit :=
  if byte_at 1 cdb =? ZoneActionOpen then Emulator_OpenZone (cdb_lba cdb)
  else if byte_at 1 cdb =? ZoneActionClose then Emulator_CloseZone (cdb_lba cdb)
  else if byte_at 1 cdb =? ZoneActionFinish then Emulator_FinishZone (cdb_lba cdb)
  else if byte_at 1 cdb =? ZoneActionReset then Emulator_ResetZone (cdb_lba cdb)
  else throw (Errorf "illegal request").

#[export] Instance transport : ScsiTransport Emulator := {|
  ScsiRead := read_command;
  ScsiWrite := write_command;
  ScsiNoData := action_command;
  Transport_Close := mret tt;
|}.

(** A drive of fewer than 2^26 zones of which at most 14 are open. *)
Definition wf (e : Emulator) : Prop := emu_wf e ∧ e_maxOpenZones e ≤ 14 ∧ e_zoneCount e < 2^26.

(** No command changes the number of zones or of open zones allowed. *)
Definition limits (e : Emulator) : Z * Z := (e_maxOpenZones e, e_zoneCount e).

Lemma keeps {A} (m : M Emulator A) (Q : Emulator → outcome A → Prop) e :
  always (on limits eq) m → wf e → wp m Q e →
  wp m (λ e' o, limits e' = limits e ∧ Q e' o) e.
Proof. intros Ha _ Hw. split; [|exact Hw]. symmetry. apply Ha. Qed.

Lemma limits_wf e e' : wf e → emu_wf e' → limits e' = limits e → wf e'.
Proof. intros (_ & ? & ?) ? [= Hm Hc]. split_and!; [done|lia|lia]. Qed.

Lemma always_zoneIndex lba : always (on limits eq) (zoneIndex lba).
Proof. unfold zoneIndex, checked_div, panic. always. Qed.
Lemma always_zone_at i : always (on limits eq) (zone_at i).
Proof. unfold zone_at, from_option. always. Qed.
Lemma always_zone_update i f : always (on limits eq) (zone_update i f).
Proof. unfold zone_update. always. Qed.
Lemma always_openCount_add n : always (on limits eq) (openCount_add n).
Proof. unfold openCount_add. always. Qed.
#[local] Hint Resolve always_zoneIndex always_zone_at always_zone_update always_openCount_add : always.
Lemma always_openZoneLocked i b : always (on limits eq) (openZoneLocked i b).
Proof. unfold openZoneLocked. always. Qed.
Lemma always_write_open_zone i lba data : always (on limits eq) (write_open_zone i lba data).
Proof. unfold write_open_zone, panic. always. Qed.
#[local] Hint Resolve always_openZoneLocked always_write_open_zone : always.
Lemma always_open lba : always (on limits eq) (Emulator_OpenZone lba).
Proof. unfold Emulator_OpenZone. always. Qed.
Lemma always_close lba : always (on limits eq) (Emulator_CloseZone lba).
Proof. unfold Emulator_CloseZone. always. Qed.
Lemma always_finish lba : always (on limits eq) (Emulator_FinishZone lba).
Proof. unfold Emulator_FinishZone. always. Qed.
Lemma always_reset lba : always (on limits eq) (Emulator_ResetZone lba).
Proof. unfold Emulator_ResetZone. always. Qed.
Lemma always_write lba data : always (on limits eq) (Emulator_WriteSectors lba data).
Proof. unfold Emulator_WriteSectors. always. Qed.

(** ** The bytes of its reports *)
Lemma len_descriptor_bytes z : len (descriptor_bytes z) = 64.
Proof. done. Qed.

Definition wire_ok (z : ZoneDescriptor) : Prop :=
  desc_valid z ∧ 0 ≤ zd_ZoneLength z < 2^64 ∧ 0 ≤ zd_ZoneStartLBA z < 2^64 ∧ 0 ≤ zd_WritePointer z < 2^64.

Lemma descriptor_bytes_describes z : wire_ok z → describes (descriptor_bytes z) z.
Proof.
  intros ((Ht & Hc & _) & H1 & H2 & H3). split.
  - done.
  - change (Z_of_byte (byte_of_Z (zd_ZoneType z + 16 * zd_ZoneCondition z)) = zd_ZoneType z + 16 * zd_ZoneCondition z).
    rw Z_of_byte_of_Z. apply Z.mod_small. lia.
  - destruct z as [? ? ? [] []]; done.
  - destruct z as [? ? ? [] []]; done.
  - exact (be_get_put_small 8 _ H1).
  - exact (be_get_put_small 8 _ H2).
  - exact (be_get_put_small 8 _ H3).
Qed.

Lemma report_bytes_report zs buf :
  (∀ i z, zs !! i = Some z → wire_ok z) → len zs < 2^26 → 64 ≤ len buf →
  report_of zs (copy_at 0 (report_bytes zs) buf).
Proof.
  intros Hzs Hn Hbuf. rewrite -{1}(list_fmap_id zs). apply report_in_report; [done| |done|done].
  intros i z Hz. by eapply descriptor_bytes_describes, Hzs.
Qed.

(** ** Its zones *)
Lemma zones_len e : len (zones e) = len (e_zones e).
Proof. unfold zones, len. by rw length_imap. Qed.

Lemma zones_capacity e : emu_wf e → len (zones e) * e_zoneSectors e = Emulator_Capacity e.
Proof. intros Hwf. rw zones_len (wf_capacity_eq e Hwf). by rw (proj2 (wf_zoneCount e Hwf)). Qed.

Lemma zones_drive e i z : emu_wf e → zones e !! i = Some z → drive_zone (e_zoneSectors e) i z ∧ wire_ok z.
Proof.
  intros Hwf. unfold zones. rw list_lookup_imap. destruct (e_zones e !! i) as [zs|] eqn:Hz; [|done].
  intros [= <-]. destruct (zone_wf_lookup e Hwf _ _ Hz) as (Hd & Hwp & Hst).
  pose proof (wf_zone_lookup_lt e Hwf _ _ Hz). pose proof (wf_zoneSectors e Hwf). pose proof (wf_capacity e Hwf).
  assert (Hv : desc_valid (zone_desc (e_zoneSectors e) i zs)).
  { split_and!; cbn; try lia; [..|]; by destruct (zs_state zs). }
  split; [split_and!; [done|done|done|]|split_and!; [done|..]; cbn; nia].
  cbn. intros He. rw He in Hst. lia.
Qed.

Lemma zones_states e : zd_ZoneState <$> zones e = zs_state <$> e_zones e.
Proof.
  unfold zones. apply list_eq. intros i. rw !list_lookup_fmap list_lookup_imap. by destruct (e_zones e !! i).
Qed.

(** ** It keeps the contract *)
Definition same (e e' : Emulator) : Prop := drive_same wf zones e_zoneSectors emu_sector e e'.

Lemma same_refl e : wf e → same e e.
Proof. by intros. Qed.

(** What the emulator promises of an operation, read as what the drive promises. *)
Lemma dev_same_drive e e' : wf e → limits e' = limits e → dev_same emu_wf emu_sector e e' → same e e'.
Proof.
  intros Hwf Hl (Hwf' & Hc & Hz & Hs). simpl in Hc, Hz. pose proof (limits_wf e e' Hwf Hwf' Hl) as Hwf''.
  split_and!; [done|done| |].
  - rw !zones_len (proj2 (wf_zoneCount e (proj1 Hwf))) (proj2 (wf_zoneCount e' Hwf')). by injection Hl.
  - intros l. rw (zones_capacity e (proj1 Hwf)). apply Hs.
Qed.

Lemma keeps_same {A} (m : M Emulator A) e :
  always (on limits eq) m → wf e →
  wp m (λ e' o, returns o ∧ dev_same emu_wf emu_sector e e') e → wp m (λ e' o, returns o ∧ same e e') e.
Proof.
  intros Ha Hwf Hw. eapply wp_mono; [by apply (keeps m _ e Ha Hwf Hw)|].
  intros e' o (Hl & Hr & Hs). split; [done|by apply dev_same_drive].
Qed.

Lemma zones_count e e' : emu_wf e → emu_wf e' → limits e' = limits e → len (zones e') = len (zones e).
Proof.
  intros Hwf Hwf' Hl. rw !zones_len (proj2 (wf_zoneCount e Hwf)) (proj2 (wf_zoneCount e' Hwf')). by injection Hl.
Qed.

Lemma cdb_lba_range cdb : 0 ≤ cdb_lba cdb < 2^64.
Proof.
  unfold cdb_lba. pose proof (be_get_range (slice 2 10 cdb)) as Hr. split; [apply Hr|].
  eapply Z.lt_le_trans; [apply Hr|]. change (2^64) with (256^8). apply Z.pow_le_mono_r; [done|].
  unfold len, slice. rw length_take. lia.
Qed.
Lemma cdb_count_range cdb : 0 ≤ cdb_count cdb < 2^32.
Proof.
  unfold cdb_count. pose proof (be_get_range (slice 10 14 cdb)) as Hr. split; [apply Hr|].
  eapply Z.lt_le_trans; [apply Hr|]. change (2^32) with (256^4). apply Z.pow_le_mono_r; [done|].
  unfold len, slice. rw length_take. lia.
Qed.

Lemma action_spec cdb timeout e : wf e →
  byte_at 1 cdb = ZoneActionOpen ∨ byte_at 1 cdb = ZoneActionClose ∨ byte_at 1 cdb = ZoneActionFinish →
  wp (action_command cdb timeout) (λ e' o, returns o ∧ same e e') e.
Proof.
  intros Hwf Ha. pose proof (cdb_lba_range cdb).
  unfold action_command. destruct Ha as [->|[->| ->]]; cbn.
  - apply keeps_same; [apply always_open|done|]. by apply emu_open; [apply Hwf|].
  - apply keeps_same; [apply always_close|done|]. by apply emu_close; [apply Hwf|].
  - apply keeps_same; [apply always_finish|done|]. by apply emu_finish; [apply Hwf|].
Qed.

#[export] Program Instance drive : ZbcDrive Emulator := {
  dr_wf := wf;
  dr_zones := zones;
  dr_zoneSize := e_zoneSectors;
  dr_sector := emu_sector;
}.
Next Obligation.
  intros e Hwf. rw (zones_capacity e (proj1 Hwf)) zones_len (proj2 (wf_zoneCount e (proj1 Hwf))).
  destruct Hwf as (Hwf & _ & Hn). rw (wf_capacity_eq e Hwf).
  pose proof (wf_zoneSectors e Hwf). pose proof (wf_capacity e Hwf). destruct (wf_zoneCount e Hwf). lia.
Qed.
Next Obligation. intros e i z Hwf Hz. by apply zones_drive; [apply Hwf|]. Qed.
Next Obligation.
  intros e (Hwf & Hmax & _). rw (open_total_filter _ (e_zones e) (zones_states e)).
  pose proof (wf_openCount e Hwf). pose proof (wf_maxOpen e Hwf). lia.
Qed.
Next Obligation.
  intros e l Hwf. rw (zones_capacity e (proj1 Hwf)). intros Hl. exact (dev_sector_len (D := Emulator) e l (proj1 Hwf) Hl).
Qed.
Next Obligation.
  intros e cdb buf timeout Hwf _ Hc _ Hb _. unfold wp. cbn. unfold read_command, mbind, M_bind. cbn. rw Hc. cbn.
  split_and!; [done|by apply same_refl|]. intros bs [= <-]. destruct buf as [|b buf]; [done|]. split.
  - apply len_copy_at. pose proof (len_nonneg (b :: buf)). lia.
  - done.
Qed.
Next Obligation.
  intros e cdb buf timeout Hwf _ Hc _ Hb Hcount Hlba. unfold wp. cbn. unfold read_command, mbind, M_bind. cbn. rw Hc. cbn.
  split_and!; [done|by apply same_refl|]. intros bs [= <-]. split; [apply len_copy_at; lia|].
  apply report_bytes_report; [|..|done].
  - intros i z. rw lookup_drop. intros Hz. by apply (zones_drive e _ z (proj1 Hwf)) in Hz as [_ ?].
  - unfold len. rw length_drop. destruct Hwf as (Hw & _ & Hn). pose proof (proj2 (wf_zoneCount e Hw)) as Hl.
    rw -zones_len in Hl. unfold len in Hl. lia.
Qed.
Next Obligation. intros e cdb timeout Hwf _ _ _ Ha. by apply action_spec. Qed.
Next Obligation.
  intros e cdb timeout Hwf _ _ _ Ha. pose proof (zones_capacity e (proj1 Hwf)) as Hcap. pose proof (proj1 Hwf) as Hw.
  cbn. unfold action_command. rw Ha. cbn.
  eapply wp_mono; [exact (keeps _ _ e (always_reset _) Hwf (emu_reset e _ Hw (cdb_lba_range cdb)))|].
  intros e' o (Hl & Hr & Hw' & _ & Hz & Hs). split_and!; [done|by eapply limits_wf|done|by apply zones_count|].
  intros l Hlr. apply Hs. lia.
Qed.
Next Obligation.
  intros e cdb buf timeout Hwf _ Hc _ Hb Hn Hfit. rw (zones_capacity e (proj1 Hwf)) in Hfit.
  destruct (emu_read e (cdb_lba cdb) (cdb_count cdb)) as (bs & Hrun & Hlen & Hs);
    [apply Hwf|apply cdb_lba_range|pose proof (cdb_count_range cdb); lia|done|].
  apply (wp_of_eq _ _ _ e (Ok bs)); [|split_and!; [done|by apply same_refl|]].
  - cbn. unfold read_command, mbind, M_bind. cbn. rw Hc. cbn. exact Hrun.
  - intros bs' [= <-]. split; [by rw Hb|done].
Qed.
Next Obligation.
  intros e cdb data timeout Hwf _ Hc _ Hb. pose proof (zones_capacity e (proj1 Hwf)) as Hcap. pose proof (proj1 Hwf) as Hw.
  cbn. unfold write_command. rw Hc. cbn.
  eapply wp_mono; [exact (keeps _ _ e (always_write _ _) Hwf
    (emu_write e _ _ _ Hw (cdb_lba_range cdb) (cdb_count_range cdb) Hb))|].
  intros e' o (Hl & Hr & Hw' & _ & Hz & Hfit & Hs).
  split_and!; [done|by eapply limits_wf|done|by apply zones_count|by rw Hcap|].
  intros l. rw Hcap. intros Hlr Ho. rw Hs //. by apply write_untouched.
Qed.

#[export] Instance ready : ReadyDrive Emulator.
Proof.
  split; intros e cdb buf timeout Hwf Hc; [|intros _]; unfold wp; cbn;
    unfold read_command, mbind, M_bind; cbn; by rw Hc.
Qed.
End EmulatedDrive.

(** ** Discovery *)

(** C25: discovery.  A drive that answers INQUIRY and REPORT ZONES is taken over with
    its zone size and as many of its zones as one response of 512 KiB holds -
    8191 - and the backend then agrees with the drive if these are all of them; a
    transport is taken over only if it reports a zoned block device type, or a
    disk with the host-managed model in VPD page B1, and is closed otherwise. *)
Theorem smr_discover {T} `{ReadyDrive T} (t : T) s o :
  newSMRBackend t = (s, o) →
  (dr_wf t → o = Ok tt ∧ dr_same t (smr_transport s) ∧ smr_zoneSectors s = dr_zoneSize t ∧
     smr_zoneCount s = Z.min 8191 (len (dr_zones t)) ∧ smr_capacity s = smr_zoneCount s * dr_zoneSize t ∧
     (len (dr_zones t) ≤ 8191 → smr_wf s)) ∧
  (o = Ok tt → host_managed t) ∧
  (∀ e, o = Fail e → ∃ t', smr_transport s = (Transport_Close t').1).
Proof.
  intros Hnew. split_and!.
  - intros Hwf. destruct (discover_drive t Hwf) as (t' & Hsame & Heq). cbv zeta in Heq. rw Hnew in Heq.
    injection Heq as -> ->. split_and!; [done..|]. by apply discovered_wf.
  - intros ->. apply newSMRBackend_ok in Hnew.
    unfold discover in Hnew. apply bind_inv in Hnew as (s1 & [] & Hv & _).
    by apply wrap_inv, verifyDevice_accepts in Hv.
  - intros e ->. destruct (newSMRBackend_fails t s e Hnew) as (s0 & _ & ->). eauto.
Qed.

#[local] Existing Instance EmulatedDrive.transport.
#[local] Existing Instance EmulatedDrive.drive.
#[local] Existing Instance EmulatedDrive.ready.
Definition small_drive : Emulator := fresh_emulator 3 4 2.
Lemma small_drive_wf : EmulatedDrive.wf small_drive.
Proof. split_and!; [by apply fresh_emulator_wf|done|done]. Qed.

Lemma smr_discover_witness : ∃ s, newSMRBackend small_drive = (s, Ok tt) ∧ smr_capacity s = 12.
Proof.
  destruct (newSMRBackend small_drive) as [s o] eqn:Hnew. exists s.
  destruct (smr_discover small_drive s o Hnew) as [Hd _].
  destruct (Hd small_drive_wf) as (-> & _ & _ & Hn & Hc & _). split; [done|]. rw Hc Hn. reflexivity.
Defined.

(** ** The translation layer on a drive *)
Section store.
Context {T J : Type} `{ReadyDrive T} `{JournalSpec J}.
Implicit Types (t : T) (s : SMRBackend T).

Lemma smr_uniform s : smr_wf s → uniform (ZoneSize s) s.
Proof using All.
  intros Hwf. pose proof (sw_drive s Hwf) as Hd. destruct (smr_capacity_bounds s Hwf) as (_ & Hn & _).
  pose proof (sw_zoneCount s Hwf) as Hc.
  enough (Hw : wp (SMR_ReportZones 0 0) (λ s' o, ∃ descs, o = Ok descs ∧ descs = dr_zones (smr_transport s)) s).
  { unfold wp in Hw. destruct (SMR_ReportZones 0 0 s) as [s' o] eqn:Hr. destruct Hw as (descs & Ho & Hds). simpl in Ho.
    exists s', descs. split; [cbn; rw Hr; by rw Ho|]. rw Hds. apply Forall_lookup. intros i z Hz.
    cbn. rw (sw_zoneSectors s Hwf). apply (dr_zone _ _ _ Hd Hz). }
  unfold SMR_ReportZones. wp_steps. change (0 <=? 0) with true. cbn iota. apply wp_reportZones; [done|lia|].
  intros t' o Hr Hs Ho Hok. specialize (Hok (report_is_ready _ Hd)). destruct o as [descs|]; [|done].
  exists descs. split; [done|]. rw (Ho descs eq_refl). apply take_ge. unfold len in *. lia.
Qed.
End store.

(** C7: the layer on a drive. On a drive of at most 8191 equal zones, of less than
    2^32 sectors and no shorter than a segment, that answers INQUIRY and REPORT
    ZONES, the backend is discovered and a new layer over it starts, as large as the
    drive's whole segments; and every run of it of reads, flushes, unmaps and writes
    of whole segments, inside the store, that succeed without an emergency
    collection being due answers what a flat array of zero sectors answers and
    leaves the contents that array has, as long as zone 0 is not taken into use. Of
    the drive is asked ([ZbcDrive], [ReadyDrive]) that READ(16) and WRITE(16) read
    and write sectors, that a write that fails changes no sector outside its range,
    that a reset changes sectors of its zone only and other commands none, and that
    no more than 14 zones read as open; a zone action may be refused. Zones are
    those the backend reads in the descriptors, so that drives with the layout of
    the design document and with that of the ZBC standard meet it. *)
Theorem smr_refines_store {T J} `{ReadyDrive T} `{JournalSpec J} cfg (t : T) (jo : option J) :
  dr_wf t → len (dr_zones t) ≤ 8191 → dr_zoneSize t < 2^32 →
  0 < SectorsPerSegment cfg ≤ dr_zoneSize t → journal_ok jo →
  ∃ s z, newSMRBackend t = (s, Ok tt) ∧ ZTL_New cfg s jo = Ok z ∧
    ztl_size z = dr_capacity t / SectorsPerSegment cfg * SectorsPerSegment cfg ∧
    ∀ cs outs z', zone0_kept z z' → ztl_run z cs outs z' →
      let spec := spec_run (SectorsPerSegment cfg) (λ _, zero_sector) cs in
      outs = spec.1 ∧ ∀ l, 0 ≤ l < ztl_size z → ztl_sector z' l = spec.2 l.
Proof.
  intros Hd Hn Hzs Hsps Hj. destruct (discover_drive t Hd) as (t' & Hsame & Hnew). cbv zeta in Hnew.
  destruct (dr_geometry t Hd) as (Hzs0 & Hn0 & _).
  set (s := mkSMR t' _ _ _ _) in Hnew.
  pose proof (discovered_wf t t' Hsame Hn) as Hwf. fold s in Hwf.
  assert (Hcap : smr_capacity s = dr_capacity t) by (cbn; unfold dr_capacity; f_equal; lia).
  destruct (ZTL_New_starts cfg s jo) as (z & Hz' & Hzw & Hu & Hs & Hsize & Hzero & _); try done.
  - by apply smr_uniform.
  - cbn. nia.
  - cbn. unfold dr_capacity. nia.
  - exists s, z. split_and!; [done|done|by rw -Hcap|]. intros cs outs z2 Hk Hrun.
    rw -Hs. by apply ztl_run_from.
Qed.

(** A write and a read of a layer over the small drive. *)
Abbreviation drive_layer := (ZTL (SMRBackend Emulator) Empty_set).
Definition layer_written (z : drive_layer) : drive_layer := (ZTL_Write id 5 0 2 two_sectors z).1.
Definition layer_runs (z : drive_layer) : bool :=
  bool_decide (ztl_size z = 12) && bool_decide (ztl_size (layer_written z) = 12) && bool_decide (z_sectorsPerSeg z = 2) &&
  (z_emergencyFreeZones z <=? FreeZoneCount (z_zm z)) && is_ok (ZTL_Write id 5 0 2 two_sectors z).2 &&
  is_ok (ZTL_Read 2 1 (layer_written z)).2 && bool_decide (0 ∈ zm_freeList (z_zm (ZTL_Read 2 1 (layer_written z)).1)).
Lemma small_layer_runs :
  match ZTL_New small_cfg (newSMRBackend small_drive).1 (None : option Empty_set) with Ok z => layer_runs z | Stop _ => false end = true.
Proof. vm_compute. reflexivity. Qed.

Lemma layer_run z : layer_runs z = true →
  ∃ data z', (ZTL_Read 2 1 (layer_written z)).2 = Ok data ∧ zone0_kept z z' ∧ ztl_run z [IOWrite 1 two_sectors; IORead 2 1] [data] z'.
Proof.
  unfold layer_runs. rewrite !andb_true_iff !bool_decide_eq_true Z.leb_le. intros ((((((Hsz & Hsz1) & Hsp) & Hfree) & Hw) & Hr) & Hk).
  destruct (ZTL_Read 2 1 (layer_written z)) as [z' [data|]] eqn:Hread; [|done]. exists data, z'. split; [done|]. split; [by right|].
  assert (Hwrite : ZTL_Write id 5 0 2 two_sectors z = (layer_written z, Ok tt)).
  { unfold layer_written. by destruct (ZTL_Write id 5 0 2 two_sectors z) as [z1 [[]|]]. }
  assert (Hin : io_ok (ztl_size z) (z_sectorsPerSeg z) (IOWrite 1 two_sectors)).
  { rewrite Hsz Hsp. split; [lia|]. exists 1. split_and!; [lia|by vm_compute|lia]. }
  assert (Hstep : ztl_step z (IOWrite 1 two_sectors) [] (layer_written z)).
  { apply (step_write z id 5 0); [done|]. by rewrite Hsp. }
  apply (run_cons z _ [] (layer_written z) _ [data]); [exact Hin|exact Hstep|].
  apply (run_cons _ _ [data] z' [] []); [|by apply step_read|constructor].
  rewrite Hsz1. split_and!; lia.
Qed.

(** The segment written is what is read. *)
Lemma smr_refines_store_witness : ∃ s z z', newSMRBackend small_drive = (s, Ok tt) ∧
  ZTL_New small_cfg s (None : option Empty_set) = Ok z ∧ ztl_size z = 12 ∧
  ztl_run z [IOWrite 1 two_sectors; IORead 2 1] [pattern_sector 7] z'.
Proof.
  destruct (smr_refines_store small_cfg small_drive (None : option Empty_set)) as (s & z & Hnew & Hz & Hsize & Hrun);
    [exact small_drive_wf|by vm_compute..|exact I|].
  pose proof small_layer_runs as Hl. rewrite Hnew in Hl. cbn [fst] in Hl. rewrite Hz in Hl.
  destruct (layer_run z Hl) as (data & z' & _ & Hk & Hr). exists s, z, z'.
  split; [exact Hnew|]. split; [exact Hz|]. split; [rewrite Hsize; vm_compute; reflexivity|].
  destruct (Hrun _ _ _ Hk Hr) as [Houts _].
  assert (Hd : data = pattern_sector 7) by (injection Houts as ->; vm_compute; reflexivity). rewrite -Hd. exact Hr.
Defined.
