(* ===== verification/Device.v ===== *)
(** * A [backend.ZonedDevice] value

    The program holds its backend behind the interface: either implementation, a
    call going to the one it holds.  What both promise, the value promises. *)

From S2P Require Import Bytes Zbc Backend.

Section either.
Context {D1 D2 : Type}.

Definition on_either {A} (m1 : M D1 A) (m2 : M D2 A) : M (D1 + D2) A := λ d,
  match d with
  | inl d => let '(d', o) := m1 d in (inl d', o)
  | inr d => let '(d', o) := m2 d in (inr d', o)
  end.
Definition either {A} (f1 : D1 → A) (f2 : D2 → A) (d : D1 + D2) : A :=
  match d with inl d => f1 d | inr d => f2 d end.

Lemma wp_on_either_l {A} (m1 : M D1 A) (m2 : M D2 A) (Q : D1 + D2 → outcome A → Prop) d :
  wp m1 (λ d' o, Q (inl d') o) d → wp (on_either m1 m2) Q (inl d).
Proof. unfold wp, on_either. by destruct (m1 d). Qed.
Lemma wp_on_either_r {A} (m1 : M D1 A) (m2 : M D2 A) (Q : D1 + D2 → outcome A → Prop) d :
  wp m2 (λ d' o, Q (inr d') o) d → wp (on_either m1 m2) Q (inr d).
Proof. unfold wp, on_either. by destruct (m2 d). Qed.

#[export] Instance Either_device `{ZonedDevice D1} `{ZonedDevice D2} : ZonedDevice (D1 + D2) := {
  ReportZones startLBA count := on_either (ReportZones startLBA count) (ReportZones startLBA count);
  ZoneCount := either ZoneCount ZoneCount;
  ZoneSize := either ZoneSize ZoneSize;
  OpenZone lba := on_either (OpenZone lba) (OpenZone lba);
  CloseZone lba := on_either (CloseZone lba) (CloseZone lba);
  FinishZone lba := on_either (FinishZone lba) (FinishZone lba);
  ResetZone lba := on_either (ResetZone lba) (ResetZone lba);
  ReadSectors lba count := on_either (ReadSectors lba count) (ReadSectors lba count);
  WriteSectors lba data := on_either (WriteSectors lba data) (WriteSectors lba data);
  Device_BlockSize := either Device_BlockSize Device_BlockSize;
  Device_Capacity := either Device_Capacity Device_Capacity;
  MaxOpenZones := either MaxOpenZones MaxOpenZones;
}.
End either.

(** An operation of the value is that of the implementation it holds. *)
Ltac either_op l r :=
  intros [d|d]; cbn [either]; intros; [apply wp_on_either_l; by apply l|apply wp_on_either_r; by apply r].

#[export] Program Instance Either_spec {D1 D2} `{ZonedDeviceSpec D1} `{ZonedDeviceSpec D2} : ZonedDeviceSpec (D1 + D2) := {
  dev_wf := either dev_wf dev_wf;
  dev_sector := either dev_sector dev_sector;
}.
Next Obligation. intros D1 D2 ? ? ? ? [d|d]; cbn; [apply (dev_geometry (D := D1))|apply (dev_geometry (D := D2))]. Qed.
Next Obligation. intros D1 D2 ? ? ? ? [d|d]; cbn; [apply (dev_sector_len (D := D1))|apply (dev_sector_len (D := D2))]. Qed.
Next Obligation. intros D1 D2 ? ? ? ?. either_op (dev_report (D := D1)) (dev_report (D := D2)). Qed.
Next Obligation. intros D1 D2 ? ? ? ?. either_op (dev_open (D := D1)) (dev_open (D := D2)). Qed.
Next Obligation. intros D1 D2 ? ? ? ?. either_op (dev_close (D := D1)) (dev_close (D := D2)). Qed.
Next Obligation. intros D1 D2 ? ? ? ?. either_op (dev_finish (D := D1)) (dev_finish (D := D2)). Qed.
Next Obligation. intros D1 D2 ? ? ? ?. either_op (dev_reset (D := D1)) (dev_reset (D := D2)). Qed.
Next Obligation. intros D1 D2 ? ? ? ?. either_op (dev_read (D := D1)) (dev_read (D := D2)). Qed.
Next Obligation. intros D1 D2 ? ? ? ?. either_op (dev_write (D := D1)) (dev_write (D := D2)). Qed.
