(* ===== verification/SmrDurable.v ===== *)
(** * A drive keeps what it was given

    [DurableDrive] adds to the contract of a host-managed drive which zones count as
    written; over such a drive the backend is a [DurableDevice], and so is a backend
    value that is either of the two.  The emulated drive discharges it; the drive of
    StandardDrive.v does too. *)

From S2P Require Import Bytes Config Zbc Backend Segment Emulator ZoneManager WriteBuffer Gc Ztl Smr SmrTheorems Durable SmrStore Device.

Definition drive_keeps {T} `{ZbcDrive T} (used : T → Z → Prop) (t t' : T) : Prop :=
  dr_same t t' ∧ ∀ i, used t i → used t' i.

Class DurableDrive (T : Type) `{ReadyDrive T} := {
  dr_used : T → Z → Prop;      (* the zone was written since it was reset *)

  dd_used t i z : dr_wf t → dr_used t (Z.of_nat i) → dr_zones t !! i = Some z → zd_ZoneState z ≠ ZoneStateEmpty;
  (* INQUIRY and REPORT ZONES change nothing *)
  dd_scan t cdb buf timeout : dr_wf t → byte_at 0 cdb = OpcodeInquiry ∨ byte_at 0 cdb = OpcodeReportZones →
    wp (ScsiRead cdb buf timeout) (λ t' _, drive_keeps dr_used t t' ∧ dr_zones t' = dr_zones t) t;
  (* nor does a READ(16), inside the drive or not, discard anything *)
  dd_read t cdb buf timeout : dr_wf t → byte_at 0 cdb = 0x88 →
    wp (ScsiRead cdb buf timeout) (λ t' _, drive_keeps dr_used t t') t;
  dd_action t cdb timeout : dr_wf t → len cdb = 16 → byte_at 0 cdb = OpcodeZoneAction →
    byte_at 1 cdb = ZoneActionOpen ∨ byte_at 1 cdb = ZoneActionClose ∨ byte_at 1 cdb = ZoneActionFinish →
    wp (ScsiNoData cdb timeout) (λ t' _, ∀ i, dr_used t i → dr_used t' i) t;
  dd_write t cdb data timeout : dr_wf t → len cdb = 16 → byte_at 0 cdb = 0x8A → byte_at 1 cdb = 0 →
    len data = sectorSize * cdb_count cdb →
    wp (ScsiWrite cdb data timeout) (λ t' o, (∀ i, dr_used t i → dr_used t' i) ∧
      (is_ok o → 0 < cdb_count cdb → dr_used t' (cdb_lba cdb / dr_zoneSize t))) t;
}.

Section device.
Context {T : Type} `{DurableDrive T}.
Implicit Types (t : T) (s : SMRBackend T).

Definition smr_zones s : list ZoneDescriptor := dr_zones (smr_transport s).
Definition smr_used s (i : Z) : Prop := dr_used (smr_transport s) i.

Lemma drive_lengths t t' : dr_wf t → dr_wf t' → dr_zoneSize t' = dr_zoneSize t → len (dr_zones t') = len (dr_zones t) →
  zd_ZoneLength <$> dr_zones t' = zd_ZoneLength <$> dr_zones t.
Proof.
  intros Hwf Hwf' Hz Hn.
  assert (Hrep : ∀ x, dr_wf x → zd_ZoneLength <$> dr_zones x = replicate (length (dr_zones x)) (dr_zoneSize x)).
  { intros x Hx. apply list_eq. intros i. rw list_lookup_fmap. destruct (dr_zones x !! i) as [z|] eqn:Hi; cbn.
    - symmetry. apply lookup_replicate. destruct (dr_zone x i z Hx Hi) as (_ & _ & Hl & _).
      split; [done|by eapply lookup_lt_Some].
    - symmetry. apply lookup_replicate_None. by apply lookup_ge_None. }
  rw !Hrep // Hz. f_equal. unfold len in Hn. lia.
Qed.

Lemma smr_keeps s t' : smr_wf s → dr_wf t' → dr_zoneSize t' = dr_zoneSize (smr_transport s) →
  len (dr_zones t') = len (dr_zones (smr_transport s)) → (∀ i, dr_used (smr_transport s) i → dr_used t' i) →
  dev_keeps smr_wf smr_zones smr_used s (smr_set_transport t' s).
Proof.
  intros Hwf Ht' Hz Hn Hu _. split; [by apply smr_wf_transport|]. split; [|done].
  apply drive_lengths; [apply Hwf|done..].
Qed.

(** An operation of the backend is a command. *)
Lemma always_smr {A} (m : M (SMRBackend T) A) :
  (∀ s, smr_wf s → wp m (λ s' _, dev_keeps smr_wf smr_zones smr_used s s') s) → always (dev_keeps smr_wf smr_zones smr_used) m.
Proof. intros Hm s Hs. by apply (Hm s Hs). Qed.

Lemma smr_action_keeps action lba :
  action = ZoneActionOpen ∨ action = ZoneActionClose ∨ action = ZoneActionFinish →
  always (dev_keeps smr_wf smr_zones smr_used) (zoneAction action lba false : M (SMRBackend T) unit).
Proof.
  intros Ha. apply always_smr. intros s Hs. destruct (action_cdb action lba false) as (H1' & H2' & H3' & H4' & _).
  assert (Ha' : u8 action = action) by (by destruct Ha as [->|[->| ->]]). rw Ha' in H3'. rw -H3' in Ha.
  apply (wp_zoneAction _ _ _ _ (λ t', dr_same (smr_transport s) t' ∧ ∀ i, dr_used (smr_transport s) i → dr_used t' i)).
  - pose proof (dr_action _ _ defaultTimeout (sw_drive s Hs) H1' H2' H4' Ha) as Hd.
    pose proof (dd_action _ _ defaultTimeout (sw_drive s Hs) H1' H2' Ha) as Hu. unfold wp in *. by destruct Hd.
  - intros t' o _ [(? & ? & ? & _) Hu]. by apply smr_keeps.
Qed.

(** Discovery and reports only scan the drive. *)
Definition scanned s s' : Prop :=
  dr_wf (smr_transport s) → drive_keeps dr_used (smr_transport s) (smr_transport s') ∧ smr_zones s' = smr_zones s.
#[local] Instance scanned_preorder : PreOrder scanned.
Proof.
  split; [intros s Hs; split; [split; [by apply dr_same_refl|done]|done]|].
  intros s1 s2 s3 H12 H23 H1'. destruct (H12 H1') as [[Hs Hu] Hz]. destruct (H23 (proj1 Hs)) as [[Hs' Hu'] Hz'].
  split; [split; [by eapply dr_same_trans|auto]|congruence].
Qed.

Lemma scan_command cdb buf timeout :
  byte_at 0 cdb = OpcodeInquiry ∨ byte_at 0 cdb = OpcodeReportZones →
  always scanned (Smr.on_transport (ScsiRead cdb buf timeout) : M (SMRBackend T) _).
Proof.
  intros Hc s Hs. pose proof (dd_scan _ cdb buf timeout Hs Hc) as Hw. unfold wp in Hw. unfold Smr.on_transport, zoom.
  by destruct (ScsiRead cdb buf timeout (smr_transport s)).
Qed.
#[local] Hint Extern 1 (always scanned (Smr.on_transport _)) => apply scan_command; first [by left | by right] : always.

Lemma scan_lift {A} (o : outcome A) : always scanned (lift_outcome o : M (SMRBackend T) A).
Proof. destruct o; unfold lift_outcome; always. Qed.
#[local] Hint Resolve scan_lift : always.

Lemma scan_reportZones lba n : always scanned (reportZones lba n : M (SMRBackend T) _).
Proof. unfold reportZones. always. Qed.
#[local] Hint Resolve scan_reportZones : always.

Lemma scan_discover : always scanned (discover : M (SMRBackend T) _).
Proof. unfold discover, verifyDevice. always; intros Hs; split; (done || by split; [apply dr_same_refl|]). Qed.

#[export] Program Instance SMR_durable : DurableDevice (SMRBackend T) := {
  dev_alive := smr_wf; dev_zones := smr_zones; dev_used := smr_used }.
Next Obligation. done. Qed.
Next Obligation. intros s i desc Hwf Hu Hi. by apply (dd_used (smr_transport s) i desc); [apply Hwf| |]. Qed.
Next Obligation.
  intros s Hwf. pose proof (sw_drive s Hwf) as Hd. cbn. destruct (smr_capacity_bounds s Hwf) as (_ & Hn & _).
  pose proof (scan_reportZones 0 (smr_zoneCount s) s Hd) as [[(Hd' & Hz & Hn' & _) Hu] Hzs]. pose proof (sw_zoneCount s Hwf).
  unfold SMR_ReportZones. wp_steps. change (0 <=? 0) with true. cbn iota.
  eapply wp_mono; [apply wp_self, (wp_reportZones (smr_zoneCount s) s (λ s' o, (is_ok o ∧ (∀ zs, o = Ok zs → zs = smr_zones s)) ∧ ∃ t', s' = smr_set_transport t' s)); [done|lia|]|].
  - intros t' o _ _ Ho Hok. split; [|by exists t']. split; [by apply Hok, report_is_ready|].
    intros zs Hzs'. rw (Ho zs Hzs'). change (smr_zones s) with (dr_zones (smr_transport s)). apply take_ge. rw Z.min_l; [lia|]. rw H3. unfold len. by rw Nat2Z.id.
  - intros s' o (Hrun & [Hok Ho] & t' & ->). rw -Hrun in Hd' Hz Hn' Hu Hzs. cbn in Hd', Hz, Hn', Hu, Hzs.
    split_and!; [destruct o as [zs|]; [by rw (Ho zs eq_refl)|done]|done|by apply smr_keeps].
Qed.
Next Obligation. intros lba. apply smr_action_keeps. auto. Qed.
Next Obligation. intros lba. apply smr_action_keeps. auto. Qed.
Next Obligation. intros lba. apply smr_action_keeps. auto. Qed.
Next Obligation.
  intros lba count. apply always_smr. intros s Hs. cbn. unfold SMR_ReadSectors. wp_steps. apply wp_on_transport.
  eapply wp_mono; [apply dd_read; [apply Hs|done]|]. intros t' o [(? & ? & ? & _) Hu].
  destruct o as [a|[e| |]]; by apply smr_keeps.
Qed.
Next Obligation.
  intros s lba data n Hwf Hlba Hn Hlen. cbn. unfold SMR_WriteSectors. rw Hlen /sectorSize (Z.mul_comm 512) Z.mod_mul; [done|].
  rw Z.div_mul; [done|]. rw Z.eqb_refl u32_small; [done|]. cbn [negb].
  destruct (write16_cdb lba n) as (H1' & H2' & H3' & H4'). rw u64_small in H3'; [done|]. rw u32_small in H4'; [done|].
  assert (Hl : len data = sectorSize * cdb_count (buildWrite16CDB lba n)) by by rw H4'.
  wp_steps. apply wp_on_transport.
  pose proof (dr_write _ _ data defaultTimeout (sw_drive s Hwf) H1' H2' eq_refl Hl) as Hd.
  pose proof (dd_write _ _ data defaultTimeout (sw_drive s Hwf) H1' H2' eq_refl Hl) as Hu. unfold wp in *.
  destruct (ScsiWrite _ data defaultTimeout (smr_transport s)) as [t' o]. cbn in Hd, Hu |- *.
  destruct Hd as (_ & Hw & Hz & Hnn & _), Hu as [Hu Hok]. rw H3' H4' in Hok.
  assert (Hk : dev_keeps smr_wf smr_zones smr_used s (smr_set_transport t' s)) by by apply smr_keeps.
  unfold smr_used at 2. cbn. rw (sw_zoneSectors s Hwf).
  destruct o as [a|[e| |]]; (split; [exact Hk|done]).
Qed.
End device.


(** ** A backend value *)
Section either.
Context {D1 D2 : Type} `{DurableDevice D1} `{DurableDevice D2}.

Definition either_used : D1 + D2 → Z → Prop := either dev_used dev_used.
Abbreviation eithers := (dev_keeps (either (dev_alive (D := D1)) (dev_alive (D := D2))) (either dev_zones dev_zones) either_used).

Lemma always_either {A} (m1 : M D1 A) (m2 : M D2 A) : always keeps m1 → always keeps m2 → always eithers (on_either m1 m2).
Proof.
  intros Hm1 Hm2 [d|d] Ha; unfold on_either; [specialize (Hm1 d Ha); destruct (m1 d)|specialize (Hm2 d Ha); destruct (m2 d)]; done.
Qed.

#[export] Program Instance Either_durable : DurableDevice (D1 + D2) := {
  dev_alive := either dev_alive dev_alive; dev_zones := either dev_zones dev_zones; dev_used := either_used }.
Next Obligation. intros [d|d]; cbn; [apply (du_alive (D := D1))|apply (du_alive (D := D2))]. Qed.
Next Obligation. intros [d|d] i desc; cbn; [apply (du_used (D := D1))|apply (du_used (D := D2))]. Qed.
Next Obligation. either_op (du_report (D := D1)) (du_report (D := D2)). Qed.
Next Obligation. intros lba. by apply always_either; apply du_open. Qed.
Next Obligation. intros lba. by apply always_either; apply du_close. Qed.
Next Obligation. intros lba. by apply always_either; apply du_finish. Qed.
Next Obligation. intros lba count. by apply always_either; apply du_read. Qed.
Next Obligation. either_op (du_write (D := D1)) (du_write (D := D2)). Qed.
End either.

(** ** The emulated drive *)
#[local] Existing Instance EmulatedDrive.transport.
#[local] Existing Instance EmulatedDrive.drive.
#[local] Existing Instance EmulatedDrive.ready.

#[export] Program Instance emulated_durable : DurableDrive Emulator := {| dr_used := emu_used |}.
Next Obligation.
  intros e i z Hwf (zs & _ & Hz & Hne). rw Nat2Z.id in Hz. cbn. unfold EmulatedDrive.zones. rw list_lookup_imap Hz.
  by intros [= <-].
Qed.
Next Obligation.
  intros e cdb buf timeout Hwf Hc. unfold wp. cbn. unfold EmulatedDrive.read_command, mbind, M_bind. cbn.
  destruct Hc as [-> | ->]; cbn; (split; [split; [by apply EmulatedDrive.same_refl|done]|done]).
Qed.
Next Obligation.
  intros e cdb buf timeout Hwf Hc. unfold wp. cbn. unfold EmulatedDrive.read_command, mbind, M_bind. cbn. rw Hc. cbn.
  assert (Ha : always eq (Emulator_ReadSectors (cdb_lba cdb) (cdb_count cdb))) by (unfold Emulator_ReadSectors, panic; always).
  rw -(Ha e). split; [by apply EmulatedDrive.same_refl|done].
Qed.
Next Obligation.
  intros e cdb timeout Hwf _ _ Ha. unfold wp. cbn. unfold EmulatedDrive.action_command.
  destruct Ha as [->|[->| ->]]; cbn; by apply emu_ops_keep.
Qed.
Next Obligation.
  intros e cdb data timeout Hwf _ Hc _ Hl. cbn. unfold EmulatedDrive.write_command. rw Hc. cbn.
  split; [by apply emu_write_keeps|]. intros Ho Hpos. pose proof (EmulatedDrive.cdb_count_range cdb).
  apply (emu_write_used e (cdb_lba cdb) data (cdb_count cdb)); [apply Hwf|apply EmulatedDrive.cdb_lba_range|lia|done|done].
Qed.
