(* ===== verification/StandardDrive.v ===== *)
(** * A drive with the descriptors of the ZBC standard

    The design document (2.4.2, 2.4.3) puts the condition of a zone into byte 0 of
    its descriptor and sends zone actions under opcode 0x9F; in the ZBC standard the
    condition is in byte 1 and the opcode is 0x94.  The contract of SmrTheorems.v
    asks for neither: it speaks of the zones as the backend reads the bytes, and
    lets a drive refuse a zone action.  The drive of this file keeps to the
    standard, with any number of open zones, and meets the contract - so that what
    is proved of the backend and of the layer over it holds for it too. *)

From S2P Require Import Bytes Float64 Config Zbc Backend Segment Emulator ZoneManager WriteBuffer Gc Journal JournalSpec Ztl ZtlSpec ZtlTheorems ZtlStart Smr SmrTheorems Durable SmrStore Device SmrDurable.

Module StandardDrive.

(** The zones and sectors are those of the emulator. *)
Record Drive := mkDrive { sd_emulator : Emulator }.
Definition on_emulator {A} (m : M Emulator A) : M Drive A := zoom sd_emulator (λ e _, mkDrive e) m.

(** Zone type in byte 0, condition in the upper half of byte 1. *)
Definition zbc_descriptor (z : ZoneDescriptor) : list byte :=
  byte_of_Z (zd_ZoneType z) ::
  byte_of_Z (16 * zd_ZoneCondition z + (if zd_NonSeq z then 2 else 0) + (if zd_Reset z then 1 else 0)) ::
  make_bytes 6 ++ be_put 8 (zd_ZoneLength z) ++ be_put 8 (zd_ZoneStartLBA z) ++
  be_put 8 (zd_WritePointer z) ++ make_bytes 32.

(** What the backend makes of it: a zone without a write pointer. *)
Definition as_read (z : ZoneDescriptor) : ZoneDescriptor :=
  {| zd_ZoneType := zd_ZoneType z; zd_ZoneState := ZoneStateNotWritePointer; zd_ZoneCondition := ZoneConditionNotWritePointer;
     zd_Reset := Z.testbit (zd_ZoneCondition z) 3; zd_NonSeq := Z.testbit (zd_ZoneCondition z) 2;
     zd_ZoneLength := zd_ZoneLength z; zd_ZoneStartLBA := zd_ZoneStartLBA z; zd_WritePointer := zd_WritePointer z |}.

Definition zones (d : Drive) : list ZoneDescriptor := as_read <$> EmulatedDrive.zones (sd_emulator d).

Definition read_command (cdb buf : list byte) (timeout : Z) : M Drive (list byte) :=
  d ← gets sd_emulator;
  if byte_at 0 cdb =? OpcodeInquiry then
    mret (copy_at 0 [byte_of_Z PeripheralDeviceTypeZBC] buf)
  else if byte_at 0 cdb =? OpcodeReportZones then
    mret (copy_at 0 (report_in zbc_descriptor (drop (Z.to_nat (cdb_lba cdb / e_zoneSectors d)) (EmulatedDrive.zones d))) buf)
  else if byte_at 0 cdb =? 0x88 then on_emulator (Emulator_ReadSectors (cdb_lba cdb) (cdb_count cdb))
  else throw (Errorf "illegal request").

Definition write_command (cdb data : list byte) (timeout : Z) : M Drive unit :=
  if byte_at 0 cdb =? 0x8A then on_emulator (Emulator_WriteSectors (cdb_lba cdb) data) else throw (Errorf "illegal request").

(** ZBC OUT is 0x94. *)
Definition action_command (cdb : list byte) (timeout : Z) : M Drive unit :=
  if byte_at 0 cdb =? 0x94 then on_emulator (EmulatedDrive.action_command cdb timeout) else throw (Errorf "illegal request").

#[export] Instance transport : ScsiTransport Drive := {|
  ScsiRead := read_command;
  ScsiWrite := write_command;
  ScsiNoData := action_command;
  Transport_Close := mret tt;
|}.

Definition wf (d : Drive) : Prop := emu_wf (sd_emulator d) ∧ e_zoneCount (sd_emulator d) < 2^26.
Definition zone_size (d : Drive) : Z := e_zoneSectors (sd_emulator d).
Definition sector (d : Drive) (l : Z) : list byte := emu_sector (sd_emulator d) l.
Definition same (d d' : Drive) : Prop := drive_same wf zones zone_size sector d d'.

Lemma std_same_refl d : wf d → same d d.
Proof. by intros. Qed.

(** ** Its zones *)
Lemma std_zones_len d : len (zones d) = len (EmulatedDrive.zones (sd_emulator d)).
Proof. unfold len, zones. by rw length_fmap. Qed.

Lemma std_zones_capacity d : wf d → len (zones d) * zone_size d = Emulator_Capacity (sd_emulator d).
Proof. intros [Hwf _]. rw std_zones_len. by apply EmulatedDrive.zones_capacity. Qed.

Lemma zones_lookup d i z : zones d !! i = Some z → ∃ z0, EmulatedDrive.zones (sd_emulator d) !! i = Some z0 ∧ z = as_read z0.
Proof. unfold zones. rw list_lookup_fmap. destruct (_ !! i) as [z0|]; [|done]. intros [= <-]. by exists z0. Qed.

Lemma emulator_condition e i z : EmulatedDrive.zones e !! i = Some z →
  zd_Reset z = false ∧ zd_NonSeq z = false.
Proof.
  unfold EmulatedDrive.zones. rw list_lookup_imap. destruct (e_zones e !! i) as [x|]; [|done]. by intros [= <-].
Qed.

Lemma testbit_nibble c k : 0 ≤ k → Z.testbit (16 * c + 0 + 0) (4 + k) = Z.testbit c k.
Proof.
  intros Hk. replace (16 * c + 0 + 0) with (c * 2^4) by lia. rw Z.mul_pow2_bits; [lia|]. f_equal. lia.
Qed.

Lemma zbc_describes e i z : emu_wf e → EmulatedDrive.zones e !! i = Some z → describes (zbc_descriptor z) (as_read z).
Proof.
  intros Hwf Hz. destruct (emulator_condition e i z Hz) as [Hr Hs].
  destruct (EmulatedDrive.zones_drive e i z Hwf Hz) as [_ ((Ht & Hc & _) & H1 & H2 & H3)]. split.
  - done.
  - change (Z_of_byte (byte_of_Z (zd_ZoneType z)) = zd_ZoneType z + 16 * 0). rw Z_of_byte_of_Z. transitivity (zd_ZoneType z); [apply Z.mod_small; lia|lia].
  - change (Z.testbit (Z_of_byte (byte_of_Z (16 * zd_ZoneCondition z + (if zd_NonSeq z then 2 else 0) + (if zd_Reset z then 1 else 0)))) 7 = Z.testbit (zd_ZoneCondition z) 3).
    rw Z_of_byte_of_Z Hr Hs. unfold u8. rw Z.mod_small; [lia|]. by apply (testbit_nibble _ 3).
  - change (Z.testbit (Z_of_byte (byte_of_Z (16 * zd_ZoneCondition z + (if zd_NonSeq z then 2 else 0) + (if zd_Reset z then 1 else 0)))) 6 = Z.testbit (zd_ZoneCondition z) 2).
    rw Z_of_byte_of_Z Hr Hs. unfold u8. rw Z.mod_small; [lia|]. by apply (testbit_nibble _ 2).
  - exact (be_get_put_small 8 _ H1).
  - exact (be_get_put_small 8 _ H2).
  - exact (be_get_put_small 8 _ H3).
Qed.

Lemma std_zones_drive d i z : wf d → zones d !! i = Some z → drive_zone (zone_size d) i z.
Proof.
  intros [Hwf _] (z0 & Hz & ->)%zones_lookup.
  destruct (EmulatedDrive.zones_drive _ i z0 Hwf Hz) as [((Ht & _) & Hs & Hl & _) _].
  unfold drive_zone, desc_valid. cbn. unfold ZoneConditionNotWritePointer. split_and!; try done; lia.
Qed.

(** ** It keeps the contract *)
#[export] Program Instance drive : ZbcDrive Drive := {
  dr_wf := wf;
  dr_zones := zones;
  dr_zoneSize := zone_size;
  dr_sector := sector;
}.
Next Obligation.
  intros d Hwf. rw (std_zones_capacity d Hwf) std_zones_len EmulatedDrive.zones_len (proj2 (wf_zoneCount _ (proj1 Hwf))).
  destruct Hwf as (Hwf & Hn). rw (wf_capacity_eq _ Hwf). unfold zone_size.
  pose proof (wf_zoneSectors _ Hwf). pose proof (wf_capacity _ Hwf). destruct (wf_zoneCount _ Hwf). lia.
Qed.
Next Obligation. intros d i z. apply std_zones_drive. Qed.
Next Obligation.
  intros d _. replace (filter desc_open (zones d)) with ([] : list ZoneDescriptor); [done|].
  symmetry. unfold zones. induction (EmulatedDrive.zones (sd_emulator d)) as [|z zs IH]; [done|]. cbn [fmap list_fmap].
  rw filter_cons_False; [by intros Ho; vm_compute in Ho|exact IH].
Qed.
Next Obligation.
  intros d l Hwf. rw (std_zones_capacity d Hwf). intros Hl. exact (dev_sector_len (D := Emulator) _ l (proj1 Hwf) Hl).
Qed.
Next Obligation.
  intros d cdb buf timeout Hwf _ Hc _ Hb _. unfold wp. cbn. unfold read_command, mbind, M_bind. cbn. rw Hc. cbn.
  split_and!; [done|by apply std_same_refl|]. intros bs [= <-]. destruct buf as [|b buf]; [done|]. split.
  - apply len_copy_at. pose proof (len_nonneg (b :: buf)). lia.
  - done.
Qed.
Next Obligation.
  intros d cdb buf timeout Hwf _ Hc _ Hb Hcount Hlba. unfold wp. cbn. unfold read_command, mbind, M_bind. cbn. rw Hc. cbn.
  split_and!; [done|by apply std_same_refl|]. intros bs [= <-]. split; [apply len_copy_at; lia|].
  unfold zones, zone_size. rw -fmap_drop. apply report_in_report; [done|..|done].
  - intros i z. rw lookup_drop. by apply zbc_describes, Hwf.
  - unfold len. rw length_drop. destruct Hwf as (Hw & Hn). pose proof (proj2 (wf_zoneCount _ Hw)) as Hl.
    rw -EmulatedDrive.zones_len in Hl. unfold len in Hl. lia.
Qed.
Next Obligation.
  intros d cdb timeout Hwf _ Hc _ Ha. unfold wp. cbn. unfold action_command. rw Hc. cbn. by split.
Qed.
Next Obligation.
  intros d cdb timeout Hwf _ Hc _ Ha. unfold wp. cbn. unfold action_command. rw Hc. cbn. by split_and!.
Qed.
Next Obligation.
  intros d cdb buf timeout Hwf _ Hc _ Hb Hn Hfit. rw (std_zones_capacity d Hwf) in Hfit.
  destruct (emu_read (sd_emulator d) (cdb_lba cdb) (cdb_count cdb)) as (bs & Hrun & Hlen & Hs);
    [apply Hwf|apply EmulatedDrive.cdb_lba_range|pose proof (EmulatedDrive.cdb_count_range cdb); lia|done|].
  apply (wp_of_eq _ _ _ d (Ok bs)); [|split_and!; [done|by apply std_same_refl|]].
  - cbn. unfold read_command, mbind, M_bind. cbn. rw Hc. cbn. unfold on_emulator, zoom. rw Hrun. by destruct d.
  - intros bs' [= <-]. split; [by rw Hb|done].
Qed.
Next Obligation.
  intros d cdb data timeout Hwf _ Hc _ Hb. pose proof (std_zones_capacity d Hwf) as Hcap. pose proof (proj1 Hwf) as Hw.
  cbn. unfold write_command. rw Hc. cbn. apply wp_zoom.
  pose proof (EmulatedDrive.always_write (cdb_lba cdb) data (sd_emulator d)) as Hl.
  pose proof (emu_write (sd_emulator d) _ data _ Hw (EmulatedDrive.cdb_lba_range cdb) (EmulatedDrive.cdb_count_range cdb) Hb) as Hpost.
  unfold wp in *. destruct (Emulator_WriteSectors (cdb_lba cdb) data (sd_emulator d)) as [e' o]. unfold on in Hl. cbn in Hl, Hpost |- *.
  destruct Hpost as (Hr & Hw' & _ & Hz & Hfit & Hs). injection Hl as Hm Hn.
  split_and!; [done|by split; [|cbn; rw -Hn; apply Hwf]|done| |by rw Hcap|].
  - rw !std_zones_len. by apply EmulatedDrive.zones_count; [done|done|unfold EmulatedDrive.limits; cbn; congruence].
  - intros l. rw Hcap. intros Hlr Ho. unfold sector. rw Hs //. by apply write_untouched.
Qed.

#[export] Instance ready : ReadyDrive Drive.
Proof.
  split; intros d cdb buf timeout Hwf Hc; [|intros _]; unfold wp; cbn;
    unfold read_command, mbind, M_bind; cbn; by rw Hc.
Qed.

(** It keeps over a power cycle what it was given. *)
#[export] Program Instance durable : DurableDrive Drive := {| dr_used := λ d, emu_used (sd_emulator d) |}.
Next Obligation. by intros d i z _ _ (z0 & _ & ->)%zones_lookup. Qed.
Next Obligation.
  intros d cdb buf timeout Hwf Hc. unfold wp. cbn. unfold read_command, mbind, M_bind. cbn.
  destruct Hc as [-> | ->]; cbn; (split; [split; [by apply std_same_refl|done]|done]).
Qed.
Next Obligation.
  intros d cdb buf timeout Hwf Hc. unfold wp. cbn. unfold read_command, mbind, M_bind. cbn. rw Hc. cbn.
  assert (Ha : always eq (Emulator_ReadSectors (cdb_lba cdb) (cdb_count cdb))) by (unfold Emulator_ReadSectors, panic; always).
  unfold on_emulator, zoom. pose proof (Ha (sd_emulator d)) as Hd.
  destruct (Emulator_ReadSectors _ _ (sd_emulator d)) as [e o]. cbn in Hd |- *. subst e. destruct d. split; [by apply std_same_refl|done].
Qed.
Next Obligation. intros d cdb timeout Hwf _ Hc _. unfold wp. cbn. unfold action_command. rw Hc. cbn. auto. Qed.
Next Obligation.
  intros d cdb data timeout Hwf _ Hc _ Hl. cbn. unfold write_command. rw Hc. cbn. apply wp_zoom. split; [by apply emu_write_keeps|].
  intros Ho Hpos. pose proof (EmulatedDrive.cdb_count_range cdb).
  apply (emu_write_used (sd_emulator d) (cdb_lba cdb) data (cdb_count cdb)); [apply Hwf|apply EmulatedDrive.cdb_lba_range|lia|done|done].
Qed.
End StandardDrive.

(** ** What the layer is worth on such a drive

    It starts, but finds no zone it takes for empty, and refuses the first write. *)
#[local] Existing Instance StandardDrive.transport.
Definition standard_drive : StandardDrive.Drive := StandardDrive.mkDrive small_drive.
Definition refuses_writes (o : SMRBackend StandardDrive.Drive * outcome unit) : bool :=
  match o with
  | (s, Ok _) =>
      match ZTL_New small_cfg s (None : option Empty_set) with
      | Ok z => bool_decide (zm_freeList (z_zm z) = []) &&
                match (ZTL_Write id 5 0 2 two_sectors z).2 with Stop (Failed _) => true | _ => false end
      | Stop _ => false
      end
  | _ => false
  end.
Lemma standard_drive_refused : StandardDrive.wf standard_drive ∧ refuses_writes (newSMRBackend standard_drive) = true.
Proof. split; [split; [apply small_drive_wf|reflexivity]|vm_compute; reflexivity]. Qed.
