(* ===== verification/Program.v ===== *)
(** * [cmd/zns-iscsi/main.go]: putting the target together

    From a configuration file to a target that serves: the backend, the journal,
    the translation layer, recovery, the SCSI handler and the LUN.  The
    filesystem, the YAML parser and the opening of a device are parameters;
    flags, logging and signals are not modelled. *)

From S2P Require Import Bytes Float64 Config Zbc Backend Segment Emulator ZoneManager WriteBuffer Gc Journal JournalSpec JournalTheorems Recovery RecoveryTheorems Ztl ZtlInv ZtlSpec ZtlTheorems ZtlStart Boot Durable Logged Restart Params Scsi Smr SmrTheorems SmrStore Device Session.
From Stdlib.Strings Require Import Ascii.
Local Open Scope string_scope.
Local Open Scope list_scope.
Local Open Scope Z_scope.

(** ** Paths *)

(** The loop of [journalDirOf], at index [n - 1]. *)
Fixpoint journalDir_loop (n : nat) (path : string) : string :=
  match n with
  | O => ""
  | S i =>
      match String.get i path with
      | Some c =>
          if bool_decide (c = "/"%char) || bool_decide (c = "\"%char) then String.substring 0 i path
          else journalDir_loop i path
      | None => journalDir_loop i path
      end
  end.
Definition journalDirOf (path : string) : string := journalDir_loop (String.length path) path.

(** ** Start-up *)
Record Running (T : Type) := {
  rn_cfg : Config;
  rn_ztl : ZTL (Emulator + SMRBackend T) Journal;
  rn_handler : Handler;
  rn_target : Target;
}.
Arguments rn_cfg {T} _. Arguments rn_ztl {T} _. Arguments rn_handler {T} _. Arguments rn_target {T} _.

Section program.
Context {T : Type} `{ScsiTransport T}.
Variables (file_exists : string → bool) (ReadFile : string → outcome (list byte)).
Variable (Unmarshal : list byte → Config → outcome Config).
Variable (openTransport : string → outcome T).
Variables (MkdirAll : string → option error) (OpenFile : string → outcome File) (clock : list Z).

Definition loadConfig (path : string) : outcome Config :=
  if negb (file_exists path) then Ok DefaultConfig
  else wrap_outcome "loading config from %q: %w" (Config_Load ReadFile Unmarshal path).

(** [smr.Open] *)
Definition SMR_Open (devicePath : string) : outcome (SMRBackend T) :=
  match wrap_outcome "opening SMR device %q: %w" (openTransport devicePath) with
  | Stop r => Stop r
  | Ok transport =>
      match newSMRBackend transport with
      | (s, Ok _) => Ok s
      | (_, Stop r) => Stop r
      end
  end.

Definition createBackend (cfg : Config) : outcome (Emulator + SMRBackend T) :=
  let d := cfg_Device cfg in
  if bool_decide (dv_Backend d = "emulator") then
    match wrap_outcome "creating emulator backend: %w"
            (Emulator_New {| ec_ZoneCount := dec_ZoneCount (dv_Emulator d);
                             ec_ZoneSizeMB := dec_ZoneSizeMB (dv_Emulator d);
                             ec_MaxOpenZones := dec_MaxOpenZones (dv_Emulator d) |}) with
    | Ok em => Ok (inl em)
    | Stop r => Stop r
    end
  else if bool_decide (dv_Backend d = "smr") then
    match SMR_Open (dv_Path d) with Ok s => Ok (inr s) | Stop r => Stop r end
  else Fail (Errorf "unknown backend %q").

(** [main], up to the point where it starts the servers. *)
Definition start (configPath : string) : outcome (Running T) :=
  match loadConfig configPath with
  | Stop r => Stop r
  | Ok cfg =>
  match createBackend cfg with
  | Stop r => Stop r
  | Ok dev =>
  let journalDir := journalDirOf (jc_Path (cfg_Journal cfg)) in
  match (if bool_decide (journalDir = "") then None else MkdirAll journalDir) with
  | Some e => Fail e
  | None =>
  match power_on cfg dev (OpenFile (jc_Path (cfg_Journal cfg))) clock with
  | Stop r => Stop r
  | Ok z =>
      let serialNumber := String.list_byte_of_string "ZNS-ISCSI-001" in
      let devID := copy_at 0 (String.list_byte_of_string "zns-iscsi-target") (make_bytes 16) in
      let target := NewTarget (tg_IQN (cfg_Target cfg)) (tg_Portal (cfg_Target cfg)) in
      Ok {| rn_cfg := cfg; rn_ztl := z; rn_handler := NewHandler serialNumber devID;
            rn_target := AddLUN 0 (ZTL_BlockSize z) (ZTL_Capacity z) target |}
  end end end end.
End program.

(** [setupLogger]: the level and the format of the log. *)
Inductive LogLevel := LevelDebug | LevelInfo | LevelWarn | LevelError.
Inductive LogHandler := JSONHandler | TextHandler.
Definition setupLogger (level format : string) : LogHandler * LogLevel :=
  let lvl := if bool_decide (level = "debug") then LevelDebug
             else if bool_decide (level = "warn") || bool_decide (level = "warning") then LevelWarn
             else if bool_decide (level = "error") then LevelError
             else LevelInfo in
  (if bool_decide (format = "json") then JSONHandler else TextHandler, lvl).

(** [iscsi.NewServer], over the layer as its block device. *)
Definition NewServer {B} (cfg : Config) (dev : B) : Server B :=
  Build_Server dev (NewSessionManager (tg_MaxSessions (cfg_Target cfg))) 0.

Example journalDirOf_examples :
  journalDirOf "/var/lib/zns-iscsi/journal.wal" = "/var/lib/zns-iscsi" ∧
  journalDirOf "journal.wal" = "" ∧ journalDirOf "/journal.wal" = "" ∧ journalDirOf "a\b/c\d" = "a\b/c".
Proof. by vm_compute. Qed.

(** ** Starting on a new device *)

Section new_device.
Context {D : Type} `{ZonedDevice D}.

(** Recovery with an empty journal. *)
Lemma Recover_empty (s : Recovering D) : idle (rs_j s) → j_file (rs_j s) = [] →
  ReconcileFromDevice (rs_md s) = (rs_md s, Ok tt) → Recover s = (s, Ok tt).
Proof.
  intros Hidle Hfile Hrec. unfold Recover. destruct s as [j t md]. cbn in *.
  unfold mbind at 1. unfold M_bind at 1. cbn [gets rs_j]. rw Hfile.
  change (ReadLatestCheckpoint []) with (Ok (@None (list Z), 0)).
  unfold mbind, M_bind. cbn. unfold on_journal, on_zones, zoom, wrap. cbn.
  rw (ReadAllRecords_idle 0 [] j Hidle); [by rw Hfile|]. cbn. by rw Hrec.
Qed.
End new_device.

(** The zones of the emulator all have its zone size. *)
Lemma emu_uniform e descs : ReportZones 0 0 e = (e, Ok descs) →
  Forall (λ d, zd_ZoneLength d = e_zoneSectors e) descs.
Proof.
  intros Hrep. enough (Hw : wp (Emulator_ReportZones 0 0) (λ s' o, ∀ ds, o = Ok ds → Forall (λ d, zd_ZoneLength d = e_zoneSectors e) ds) e).
  { change (Emulator_ReportZones 0 0 e = (e, Ok descs)) in Hrep. unfold wp in Hw. rw Hrep in Hw. by apply Hw. }
  unfold Emulator_ReportZones, checked_div. wp_steps. destruct (e_zoneSectors e =? 0); wp_steps; [done|].
  case_match; wp_steps; [done|].
  apply wp_for_each with (I := λ _ s ds, s = e ∧ Forall (λ d, zd_ZoneLength d = e_zoneSectors e) ds); [done| |].
  - intros done x todo s ds _ [-> Hds]. unfold zone_at. wp_steps. destruct (index _ _); wp_steps; [|done].
    split; [done|]. apply Forall_app. split; [done|]. by constructor.
  - intros s ds [_ Hds] ds' [= <-]. done.
Qed.

(** ** What a restart knows of the zones *)
Definition uncounted (zm : ZoneManager) : Prop := Forall (λ z, zi_TotalSegs z = 0) (zm_zones zm).

Lemma uncounted_no_victim zm : uncounted zm → SelectGCVictim zm = (0, false).
Proof.
  unfold uncounted, SelectGCVictim. intros Hz.
  enough (Hf : ∀ zs best, Forall (λ z, zi_TotalSegs z = 0) zs → foldl (gc_scan_step zm) best zs = best) by by rw Hf.
  induction zs as [|z zs IH]; intros [[b s] f] Hzs; [done|]. apply Forall_cons in Hzs as [H0 Hzs]. cbn [foldl].
  assert (Hstep : gc_scan_step zm (b, s, f) z = (b, s, f)).
  { unfold gc_scan_step, gc_eligible. by rw H0 andb_false_r. }
  rw Hstep. by apply IH.
Qed.

Section restart.
Context {D : Type} `{ZonedDevice D}.

(** No step of recovery counts a segment. *)
Definition keeps_uncounted (s s' : Recovering D) : Prop := uncounted (md_zm (rs_md s)) → uncounted (md_zm (rs_md s')).
#[local] Instance keeps_uncounted_preorder : PreOrder keeps_uncounted.
Proof. split; unfold keeps_uncounted; [auto|intros x y z Hxy Hyz Hx; auto]. Qed.

Lemma uncounted_alter zoneID f zm : (∀ z, zi_TotalSegs z = 0 → zi_TotalSegs (f z) = 0) →
  uncounted zm → uncounted (zm_alter_zone zoneID f zm).
Proof.
  intros Hf Hz. unfold uncounted. cbn. apply Forall_lookup. intros i z Hi.
  destruct (decide (Z.to_nat zoneID = i)) as [<-|Hne].
  - rw list_lookup_alter_eq in Hi. apply fmap_Some in Hi as (z0 & Hz0 & ->). apply Hf. by apply (Forall_lookup_1 _ _ _ _ Hz Hz0).
  - rw list_lookup_alter_ne in Hi; [done|]. by apply (Forall_lookup_1 _ _ _ _ Hz Hi).
Qed.

Lemma uncounted_drop_open zoneID zm : uncounted zm → uncounted (zm_drop_open zoneID zm).
Proof. unfold uncounted. by rw (proj1 (zm_drop_open_zones zm zoneID)). Qed.

Lemma always_zones {A} (m : M (ZMD D) A) :
  (∀ md, uncounted (md_zm md) → uncounted (md_zm (m md).1)) → always keeps_uncounted (on_zones m).
Proof. intros Hm s Hs. unfold on_zones, zoom. specialize (Hm (rs_md s) Hs). by destruct (m (rs_md s)). Qed.
Lemma always_l2p {A} (m : M L2PTable A) : always keeps_uncounted (on_l2p m).
Proof. intros s Hs. unfold on_l2p, zoom. by destruct (m (rs_l2p s)). Qed.
Lemma always_journal {A} (m : M Journal A) : always keeps_uncounted (on_journal m).
Proof. intros s Hs. unfold on_journal, zoom. by destruct (m (rs_j s)). Qed.

Lemma always_MarkEmpty zoneID : always keeps_uncounted (on_zones (MarkEmpty zoneID)).
Proof.
  apply always_zones. intros md Hmd. unfold MarkEmpty, zm_get, zm_modify, mbind, M_bind. cbn.
  case_match; [done|]. cbn. unfold uncounted. cbn. apply uncounted_drop_open.
  by apply uncounted_alter; [intros z|].
Qed.

Lemma uncounted_reconcile descs zm : uncounted zm → uncounted (foldl reconcile_zone zm descs).
Proof.
  revert zm. induction descs as [|[k d] descs IH]; intros zm Hzm; [done|]. cbn [foldl]. apply IH.
  by apply uncounted_alter; [intros z|].
Qed.

Lemma always_reconcile : always keeps_uncounted (on_zones ReconcileFromDevice).
Proof.
  apply always_zones. intros [zm d] Hmd. unfold ReconcileFromDevice, ZoneManager.on_device, zm_modify, wrap, zoom, mbind, M_bind.
  cbn. destruct (ReportZones 0 0 d) as [d' [descs|[e| |]]]; cbn; try done. by apply uncounted_reconcile.
Qed.

Lemma Recover_uncounted : always keeps_uncounted Recover.
Proof.
  unfold Recover, replay_record. always; auto using always_l2p, always_journal, always_MarkEmpty, always_reconcile.
Qed.

Lemma Initialize_uncounted n (d : D) md :
  ZoneManager_Initialize (mkZMD (NewZoneManager n) d) = (md, Ok tt) → uncounted (md_zm md).
Proof.
  unfold ZoneManager_Initialize, ZoneManager.on_device, zm_modify, wrap, zoom, mbind, M_bind. cbn.
  destruct (ReportZones 0 0 d) as [d' [descs|[e| |]]]; cbn; try done. intros [= <-]. unfold uncounted. cbn.
  rw init_zones. cbn. apply Forall_lookup. intros i z. rw lookup_zip_with_Some. by intros (? & ? & -> & _).
Qed.
End restart.

Section main.
Context {T : Type} `{ScsiTransport T}.
Variables (file_exists : string → bool) (ReadFile : string → outcome (list byte)).
Variable (Unmarshal : list byte → Config → outcome Config).
Variable (openTransport : string → outcome T).
Variables (MkdirAll : string → option error) (OpenFile : string → outcome File) (clock : list Z).
#[local] Abbreviation start := (start file_exists ReadFile Unmarshal openTransport MkdirAll OpenFile clock).

(** A layer [start] returns is a new one after recovery. *)
Lemma start_inv path r : start path = Ok r →
  ∃ cfg dev j z, loadConfig file_exists ReadFile Unmarshal path = Ok cfg ∧
    Journal_Open (OpenFile (jc_Path (cfg_Journal cfg))) clock = Ok j ∧
    ZTL_New cfg dev (Some j) = Ok z ∧ runRecovery j z = (rn_ztl r, Ok tt).
Proof.
  unfold Program.start. destruct (loadConfig _ _ _ path) as [cfg|] eqn:Hc; [|done].
  destruct (createBackend openTransport cfg) as [dev|] eqn:Hd; [|done].
  destruct (if bool_decide _ then _ else _); [done|]. unfold power_on.
  destruct (Journal_Open _ clock) as [j|] eqn:Hj; [|done]. destruct (ZTL_New cfg dev (Some j)) as [z|] eqn:Hz; [|done].
  destruct (runRecovery j z) as [z' [[]|]] eqn:Hr; [|done]. intros [= <-]. by exists cfg, dev, j, z.
Qed.

(** Right after a start, whatever the journal and the device hold, the reverse map
    is empty and no zone is a candidate for collection: the space of the zones
    written before a restart is not reclaimed. *)
Lemma restart_forgets path r : start path = Ok r →
  z_p2l (rn_ztl r) = ∅ ∧ SelectGCVictim (z_zm (rn_ztl r)) = (0, false).
Proof.
  intros (cfg & dev & j & z & _ & _ & Hz & Hr)%start_inv.
  assert (Hnew : z_p2l z = ∅ ∧ uncounted (z_zm z)).
  { unfold ZTL_New in Hz. repeat case_match; try done. injection Hz as <-. split; [done|].
    match goal with E : wrap _ _ _ = (_, Ok ?u) |- _ => destruct u; by apply wrap_inv, Initialize_uncounted in E end. }
  destruct Hnew as [Hp Hu]. unfold runRecovery in Hr.
  pose proof (always_wrap keeps_uncounted "crash recovery: %w" Recover Recover_uncounted (mkRecovering j (z_l2p z) (z_md z)) Hu) as Hr'.
  destruct (wrap "crash recovery: %w" Recover _) as [s o]. injection Hr as <- ->. split; [done|].
  by apply uncounted_no_victim.
Qed.
End main.

(** ** The target starts *)

(** The configuration of an emulated device the arithmetic has room for. *)
Record emulator_cfg (cfg : Config) : Prop := {
  ec_backend : dv_Backend (cfg_Device cfg) = "emulator";
  ec_size : dec_ZoneSizeMB (dv_Emulator (cfg_Device cfg)) < 2^20 ∧ dec_ZoneCount (dv_Emulator (cfg_Device cfg)) ≤ 2^22;
  ec_segment : zc_SegmentSizeKB (cfg_ZTL cfg) ≤ 1024 * dec_ZoneSizeMB (dv_Emulator (cfg_Device cfg));
}.

Lemma Emulator_New_ok cfg :
  0 < ec_ZoneCount cfg → 0 < ec_ZoneSizeMB cfg → 0 < ec_MaxOpenZones cfg → ∃ e, Emulator_New cfg = Ok e.
Proof.
  intros. unfold Emulator_New. rw !(proj2 (Z.leb_gt _ _)) //. by eexists.
Qed.

Lemma createBackend_emulator {T} `{ScsiTransport T} (openTransport : string → outcome T) cfg :
  emulator_cfg cfg → config_ok cfg →
  let em := dv_Emulator (cfg_Device cfg) in
  ∃ e, createBackend openTransport cfg = Ok (inl e) ∧ emu_wf e ∧
    e = fresh_emulator (dec_ZoneCount em) (dec_ZoneSizeMB em * 2048) (dec_MaxOpenZones em).
Proof.
  intros [Hb [Hs Hn] _] [_ _ _ (Hc & Hm & Ho) _ _ _]. cbv zeta. unfold createBackend. rw bool_decide_true //.
  set (ec := Build_EmulatorConfig _ _ _). destruct (Emulator_New_ok ec Hc Hm Ho) as [e He]. rw He. exists e.
  destruct (Emulator_New_fresh ec e He) as [Heq Hwf]; [cbn; nia|]. by split_and!.
Qed.

(** A layer over a new emulator with an empty journal: recovery finds nothing to do. *)
Lemma fresh_layer {T} `{ZbcDrive T} cfg e j :
  emu_wf e → 0 < e_maxOpenZones e → e_zoneSectors e < 2^32 → e_zoneCount e ≤ 2^24 →
  0 < SectorsPerSegment cfg ≤ e_zoneSectors e → idle j → j_file j = [] → jr_wf j →
  let d : Emulator + SMRBackend T := inl e in
  ∃ z, ZTL_New cfg d (Some j) = Ok z ∧ runRecovery j z = (z, Ok tt) ∧ ztl_wf z ∧ zone0_unused z ∧
    z_sectorsPerSeg z = SectorsPerSegment cfg ∧
    ztl_size z = Emulator_Capacity e / SectorsPerSegment cfg * SectorsPerSegment cfg ∧
    (∀ l, 0 ≤ l < ztl_size z → ztl_sector z l = zero_sector) ∧ md_dev (z_md z) = d.
Proof.
  intros He Hmax Hzs Hzc Hsps Hidle Hjf Hjw d. destruct (emu_report e He) as (descs & Hrep & _).
  assert (Hrep' : ReportZones 0 0 d = (d, Ok descs)).
  { change (on_either (Emulator_ReportZones 0 0) (SMR_ReportZones 0 0) (inl e) = (d, Ok descs)). cbn. by rw Hrep. }
  pose proof (wf_capacity_eq e He) as Hcap. destruct (wf_zoneCount e He) as [Hc0 _].
  destruct (ZTL_New_starts cfg d (Some j)) as (z & Hnew & Hwf & Hu & Hs & Hsize & Hzero & Hdev & Hinit & Hjz & _ & _); try done.
  - exists d, descs. split; [done|]. by apply emu_uniform.
  - cbn. rw Hcap. nia.
  - cbn. rw Hcap. nia.
  - exists z. rw Hrep' in Hdev. split_and!; try done.
    unfold runRecovery, wrap. rw Recover_empty; [done|done| |].
    + cbn. rw (reconcile_initialized _ _ _ _ _ _ Hrep' Hrep' Hinit). cbn in Hdev. rw -Hdev. by destruct (z_md z).
    + cbn. f_equal. destruct z as [[]]. cbn in Hjz. by subst.
Qed.

(** C26: start-up.  With a valid configuration of an emulated device, whose sizes fit,
    and an empty journal, the program starts: the layer is consistent, zone 0 is
    not in use, the store reads as zeros, and the target shows one LUN of the
    device's size - what the theorems about the layer and the stack above it ask
    of the state they begin with. *)
Theorem start_fresh {T} `{ZbcDrive T} file_exists ReadFile Unmarshal (openTransport : string → outcome T)
    MkdirAll OpenFile clock path cfg f :
  loadConfig file_exists ReadFile Unmarshal path = Ok cfg → emulator_cfg cfg →
  (∀ d, MkdirAll d = None) → OpenFile (jc_Path (cfg_Journal cfg)) = Ok f → f_data f = [] →
  ∃ r, start file_exists ReadFile Unmarshal openTransport MkdirAll OpenFile clock path = Ok r ∧
    let z := rn_ztl r in
    let sectors := dec_ZoneCount (dv_Emulator (cfg_Device cfg)) * (dec_ZoneSizeMB (dv_Emulator (cfg_Device cfg)) * 2048) in
    let sps := 2 * zc_SegmentSizeKB (cfg_ZTL cfg) in
    rn_cfg r = cfg ∧ ztl_wf z ∧ zone0_unused z ∧ z_sectorsPerSeg z = sps ∧ ztl_size z = sectors / sps * sps ∧
    (∀ l, 0 ≤ l < ztl_size z → ztl_sector z l = zero_sector) ∧
    t_LUNs (rn_target r) = [{| lun_ID := 0; lun_BlockSize := 512; lun_NumBlocks := sectors |}].
Proof.
  intros Hload Hcfg Hmk Hopen Hempty.
  assert (Hok : config_ok cfg).
  { unfold loadConfig in Hload. destruct (file_exists path).
    - cbn in Hload. destruct (Config_Load ReadFile Unmarshal path) as [c|[e| |]] eqn:Hl; try done.
      injection Hload as <-. by apply (config_load_valid ReadFile Unmarshal path).
    - injection Hload as <-. apply Config_Validate_iff. by vm_compute. }
  destruct (createBackend_emulator openTransport cfg Hcfg Hok) as (e & Hback & He & Heq).
  destruct Hcfg as [_ [Hmb Hcount] Hseg]. pose proof (ok_zones cfg Hok) as (Hc0 & Hm0 & Ho0). pose proof (ok_segment cfg Hok) as Hs0.
  set (em := dv_Emulator (cfg_Device cfg)) in *.
  assert (Hsps : SectorsPerSegment cfg = 2 * zc_SegmentSizeKB (cfg_ZTL cfg)) by (apply SectorsPerSegment_eq; lia).
  assert (Hzs : e_zoneSectors e = dec_ZoneSizeMB em * 2048) by by rw Heq.
  assert (Hzc : e_zoneCount e = dec_ZoneCount em) by by rw Heq.
  assert (Hmo : e_maxOpenZones e = dec_MaxOpenZones em) by by rw Heq.
  assert (Hcap : Emulator_Capacity e = dec_ZoneCount em * (dec_ZoneSizeMB em * 2048)) by by rw (wf_capacity_eq e He) Hzs Hzc.
  assert (Hj : ∃ j, Journal_Open (Ok f) clock = Ok j ∧ j_file j = [] ∧ idle j ∧ jr_wf j).
  { unfold Journal_Open. rw Hempty. cbn. eexists. split; [done|]. split; [done|]. split; [done|].
    exists []. split; cbn; [done|]. by rw Hempty. }
  destruct Hj as (j & Hj & Hjf & Hidle & Hjw).
  destruct (fresh_layer (T := T) cfg e j He) as (z & Hnew & Hrec & Hwf & Hu & Hs & Hsize & Hzero & Hdev); try done; try lia.
  eexists. split.
  - unfold start. rw Hload Hback Hmk Hopen. cbv zeta. unfold power_on.
    destruct (bool_decide _); rw Hj Hnew Hrec; reflexivity.
  - cbn. rw -Hsps -Hcap. split_and!; try done. unfold ZTL_BlockSize, ZTL_Capacity. by rw Hdev.
Qed.

(** No configuration file: the defaults, on an emulated device. *)
#[local] Existing Instance EmulatedDrive.transport.
#[local] Existing Instance EmulatedDrive.drive.

Lemma start_fresh_witness :
  ∃ r, start (T := Emulator) (λ _, false) (λ _, Ok []) (λ _ c, Ok c) (λ _, Ok small_drive) (λ _, None)
         (λ _, Ok {| f_data := []; f_synced := 0; f_writes := []; f_syncs := [] |}) [] "config.yaml" = Ok r ∧
    ztl_size (rn_ztl r) = 33554432.
Proof.
  destruct (start_fresh (T := Emulator) (λ _, false) (λ _, Ok []) (λ _ c, Ok c) (λ _, Ok small_drive) (λ _, None)
    (λ _, Ok {| f_data := []; f_synced := 0; f_writes := []; f_syncs := [] |}) [] "config.yaml" DefaultConfig
    {| f_data := []; f_synced := 0; f_writes := []; f_syncs := [] |}) as (r & Hr & _ & _ & _ & _ & Hsize & _).
  - reflexivity.
  - split; [reflexivity|split; reflexivity || by vm_compute|by vm_compute].
  - done.
  - reflexivity.
  - reflexivity.
  - exists r. split; [exact Hr|]. rw Hsize. reflexivity.
Defined.
