(* ===== verification/ProgramRestart.v ===== *)
(** * The program over restarts

    [main] on a drive: start, serve, shut down, and start again with the drive and
    the journal file that are left. *)

From S2P Require Import Bytes Float64 Config Zbc Backend Segment Emulator ZoneManager WriteBuffer Gc Wal Journal JournalSpec JournalTheorems Recovery RecoveryTheorems Ztl ZtlInv ZtlSpec ZtlTheorems ZtlStart Boot Durable Logged Restart RestartTheorems Params Scsi Smr SmrTheorems SmrStore Device SmrDurable Session Program.
Local Open Scope string_scope.
Local Open Scope list_scope.
Local Open Scope Z_scope.

(** ** The drive *)
Section drive.
Context {T : Type} `{DurableDrive T}.
Implicit Types (t : T) (s : SMRBackend T).

(** Discovery takes over what is on the drive. *)
Lemma rediscovered s t' :
  smr_wf s → drive_keeps dr_used (smr_transport s) t' →
  ∃ s', newSMRBackend t' = (s', Ok tt) ∧ same_medium s s'.
Proof.
  intros Hwf [Hs Hu]. destruct Hs as (Hwf' & Hz & Hn & Hsec). destruct (discover_drive t' Hwf') as (t2 & Hs2 & Hnew).
  cbv zeta in Hnew. eexists. split; [exact Hnew|].
  pose proof (newSMRBackend_ok _ _ Hnew) as Hd. pose proof (scan_discover (mkSMR t' 0 0 0 0) Hwf') as Hscan.
  rw Hd in Hscan. cbn in Hscan. destruct Hscan as [[_ Hu2] _]. pose proof Hs2 as (Hwf2 & Hz2 & Hn2 & Hsec2).
  pose proof (sw_zones s Hwf) as Hmax. destruct (smr_capacity_bounds s Hwf) as (_ & _ & Hcap & _). unfold dr_capacity in Hcap.
  split.
  - apply discovered_wf; [done|lia].
  - apply drive_lengths; [apply Hwf|done|cbn; congruence|cbn; congruence].
  - split; [cbn; by rw (sw_maxOpenZones s Hwf)|]. split; cbn; [|by rw Hz (sw_zoneSectors s Hwf)].
    rw (sw_capacity s Hwf) (sw_zoneCount s Hwf) (sw_zoneSectors s Hwf) Hz -Hn. f_equal. lia.
  - intros i Hi. apply Hu2, Hu, Hi.
  - intros lba Hlba. cbn in Hlba. rw Hcap in Hlba. cbn. unfold smr_sector. cbn. rw Hsec2; [by rw Hn Hz|by apply Hsec].
Qed.

Lemma inr_medium s s' : same_medium s s' → same_medium (inr s : Emulator + SMRBackend T) (inr s').
Proof. by intros [? ? ? ? ?]. Qed.

(** A drive whose zones hold a segment is one the layer can start on. *)
Lemma drive_fits sps s :
  smr_wf s → dr_zoneSize (smr_transport s) < 2^32 → 0 < sps ≤ dr_zoneSize (smr_transport s) →
  device_fits sps (inr s : Emulator + SMRBackend T).
Proof.
  intros Hwf Hz Hsps. destruct (smr_capacity_bounds s Hwf) as (Hz0 & Hn & Hcap & _). rw -(sw_zoneSectors s Hwf) in Hz Hsps.
  split; cbn; [exact Hwf|done| |by rw (sw_maxOpenZones s Hwf)|lia|].
  - rw (sw_capacity s Hwf). nia.
  - unfold smr_zones. apply Forall_lookup. intros i L. rw list_lookup_fmap. destruct (dr_zones (smr_transport s) !! i) as [z|] eqn:Hi; [|done].
    intros [= <-]. destruct (dr_zone _ i z (sw_drive s Hwf) Hi) as (_ & _ & -> & _). rw -(sw_zoneSectors s Hwf). lia.
Qed.
End drive.

(** ** The program *)
Section program.
Context {T : Type} `{DurableDrive T}.
Context (file_exists : string → bool) (ReadFile : string → outcome (list byte)).
Context (Unmarshal : list byte → Config → outcome Config) (path : string) (cfg : Config).
Context (Hload : loadConfig file_exists ReadFile Unmarshal path = Ok cfg) (Hsmr : dv_Backend (cfg_Device cfg) = "smr").
Let sps : Z := SectorsPerSegment cfg.

(** What the surroundings of the program hold: the drive behind its device path, the
    journal file, and directories can be made. *)
Record surroundings := { sr_drive : T; sr_journal : File; sr_clock : list Z }.
Definition start_in (e : surroundings) : outcome (Running T) :=
  start file_exists ReadFile Unmarshal (λ _, Ok (sr_drive e)) (λ _, None) (λ _, Ok (sr_journal e)) (sr_clock e) path.

Lemma start_in_eq e s z :
  newSMRBackend (sr_drive e) = (s, Ok tt) →
  power_on cfg (inr s : Emulator + SMRBackend T) (Ok (sr_journal e)) (sr_clock e) = Ok z →
  ∃ r, start_in e = Ok r ∧ rn_ztl r = z ∧
    t_LUNs (rn_target r) = [{| lun_ID := 0; lun_BlockSize := 512; lun_NumBlocks := ZTL_Capacity z |}].
Proof using All.
  intros Hnew Hon. unfold start_in, start. rw Hload. unfold createBackend. rw Hsmr. rw bool_decide_false //.
  rw bool_decide_true //. unfold SMR_Open, wrap_outcome. rw Hnew. cbv zeta.
  match goal with |- context [if ?b then None else None] => destruct b end; rw Hon; eexists; (split; [done|]); (split; [done|]); cbn;
    unfold ZTL_BlockSize; by destruct (md_dev (z_md z)).
Qed.

(** What a target that has ended leaves: its drive, and the journal file as written. *)
Record target_leaves (z : ZTL (Emulator + SMRBackend T) Journal) (e : surroundings) : Prop := {
  tl_drive : ∃ s, md_dev (z_md z) = inr s ∧ drive_keeps dr_used (smr_transport s) (sr_drive e);
  tl_journal : ∃ j, gc_journal (z_gc z) = Some j ∧ f_data (sr_journal e) = j_file j;
  tl_synced : f_synced (sr_journal e) = len (f_data (sr_journal e));
  tl_length : len (f_data (sr_journal e)) < 2^63;
  tl_clock : clock_fits (sr_clock e);
}.

Lemma start_first e :
  dr_wf (sr_drive e) → len (dr_zones (sr_drive e)) ≤ 8191 → dr_zoneSize (sr_drive e) < 2^32 →
  0 < sps ≤ dr_zoneSize (sr_drive e) → new_journal (sr_journal e) → clock_fits (sr_clock e) →
  ∃ r s, start_in e = Ok r ∧ device_fits sps (inr s : Emulator + SMRBackend T) ∧
    power_on cfg (inr s : Emulator + SMRBackend T) (Ok (sr_journal e)) (sr_clock e) = Ok (rn_ztl r) ∧
    ztl_size (rn_ztl r) = dr_capacity (sr_drive e) / sps * sps.
Proof using All.
  intros Hd Hn Hz Hsps Hnew Hclock. destruct (discover_drive (sr_drive e) Hd) as (t' & Hsame & Hs). cbv zeta in Hs.
  set (s := mkSMR t' _ _ _ _) in Hs. pose proof (discovered_wf _ _ Hsame Hn) as Hwf. fold s in Hwf.
  assert (Hfits : device_fits sps (inr s : Emulator + SMRBackend T)).
  { destruct Hsame as (_ & Hz' & _). apply drive_fits; [done|cbn; by rw Hz'|cbn; by rw Hz']. }
  destruct (first_start cfg _ _ _ Hfits Hnew Hclock) as (z & Hon & _ & Hsize & _).
  destruct (start_in_eq e s z Hs Hon) as (r & Hr & <- & _). exists r, s. split_and!; [done..|].
  rw Hsize. cbn. unfold dr_capacity. rw Z.min_r; [lia|done].
Qed.

(** After a shutdown the program comes up again on what it left. *)
Lemma restart_after {Old : OldZones} recs z order1 order2 z1 e :
  running cfg recs z → (∀ l, order1 l ≡ₚ l) → (∀ l, order2 l ≡ₚ l) →
  (ZTL_Flush order1 z).2 = Ok tt → (shutdown order1 order2 z).1 = z1 → target_leaves z1 e →
  ∃ r recs', start_in e = Ok r ∧ running (Old := zones_before (rn_ztl r)) cfg recs' (rn_ztl r) ∧
    ztl_size (rn_ztl r) = ztl_size z ∧ ∀ l, 0 ≤ l < ztl_size z → ztl_sector (rn_ztl r) l = ztl_sector z l.
Proof using All.
  intros Hr Ho1 Ho2 Hok Hz1 Hleft.
  assert (Hf : ZTL_Flush order1 z = ((ZTL_Flush order1 z).1, Ok tt)) by (rw -Hok; apply surjective_pairing).
  rw (shutdown_flushed cfg recs order1 order2 z _ Hr Ho1 Ho2 Hf) in Hz1. cbn in Hz1. rw Hz1 in Hf.
  destruct (flush_running cfg recs z order1 z1 Hr Ho1 Hf) as ((_ & Ht & Hs & _ & Hv) & Hb & Hj & recs1 & Hr1).
  destruct Hleft as [(s1 & Hs1 & Hkeep) Hjf Hsync Hlen Hclock1].
  assert (Hwf1 : smr_wf s1) by (pose proof (df_wf _ _ (ru_fits _ _ _ Hr1)) as Hw; by rw Hs1 in Hw).
  destruct (rediscovered s1 (sr_drive e) Hwf1 Hkeep) as (s2 & Hnew2 & Hmed).
  assert (Hsl : shutdown_leaves z1 (inr s2) (sr_journal e)) by (split; [done|done|done|rw Hs1; by apply inr_medium]).
  destruct (restart_running cfg recs1 z1 _ _ _ Hr1 Hb Hj Hsl Hclock1) as (z2 & Hon2 & Hr2 & Hsz2 & Hv2).
  destruct (start_in_eq e s2 z2 Hnew2 Hon2) as (r & Hst & <- & _). exists r, recs1.
  assert (Hsz1 : ztl_size z1 = ztl_size z) by (unfold ztl_size; by rw Ht Hs).
  split_and!; [done|done|congruence|]. intros l Hl. rw Hv2; [by rw Hsz1|by apply Hv].
Qed.

(** The program over a restart.  On a drive of at most 8191 zones with an empty
    journal the program starts.  Whatever commands it then serves, and however often
    it was restarted before: after a shutdown whose flush succeeds, the program
    started again - the drive discovered, the journal opened, recovery run - comes
    up and shows what one flat array of sectors holds after the commands served, as
    long as these succeed, no collection runs and zone 0 is not taken into use. *)
Theorem target_restarts e0 :
  dr_wf (sr_drive e0) → len (dr_zones (sr_drive e0)) ≤ 8191 → dr_zoneSize (sr_drive e0) < 2^32 →
  0 < sps ≤ dr_zoneSize (sr_drive e0) → new_journal (sr_journal e0) → clock_fits (sr_clock e0) →
  ∃ r, start_in e0 = Ok r ∧ ztl_size (rn_ztl r) = dr_capacity (sr_drive e0) / sps * sps ∧
    ∀ cs outs z order1 order2 z1 e1,
      life (power_cycle cfg) (rn_ztl r) cs outs z → (∀ l, order1 l ≡ₚ l) → (∀ l, order2 l ≡ₚ l) →
      (ZTL_Flush order1 z).2 = Ok tt → (shutdown order1 order2 z).1 = z1 → target_leaves z1 e1 →
      ∃ r', start_in e1 = Ok r' ∧ ztl_size (rn_ztl r') = ztl_size (rn_ztl r) ∧
        ∀ l, 0 ≤ l < ztl_size (rn_ztl r) →
          ztl_sector (rn_ztl r') l = (spec_run sps (λ _, zero_sector) cs).2 l.
Proof using All.
  intros Hd Hn Hz Hsps Hnew Hclock. destruct (start_first e0 Hd Hn Hz Hsps Hnew Hclock) as (r & s & Hr & Hfits & Hon & Hcap).
  exists r. split; [done|]. split; [done|]. intros cs outs z order1 order2 z1 e1 Hlife Ho1 Ho2 Hok Hz1 Hleft.
  destruct (life_running cfg _ _ _ Hfits Hnew Hclock (rn_ztl r) [] [] (rn_ztl r) Hon ltac:(constructor)) as (Hsz0 & _).
  destruct (life_running cfg _ _ _ Hfits Hnew Hclock (rn_ztl r) cs outs z Hon Hlife) as (Hsz & _ & Hst & Old & recs & Hrz).
  destruct (restart_after recs z order1 order2 z1 e1 Hrz Ho1 Ho2 Hok Hz1 Hleft) as (r' & _ & Hr' & _ & Hsz' & Hv).
  exists r'. split; [done|]. split; [congruence|]. rw Hsz0 -Hsz. intros l Hl. by rw Hv // Hst.
Qed.
End program.

(** ** A drive of three zones *)
#[local] Existing Instance EmulatedDrive.transport.
#[local] Existing Instance EmulatedDrive.drive.
#[local] Existing Instance EmulatedDrive.ready.

Definition smr_cfg : Config := {|
  cfg_Target := cfg_Target DefaultConfig;
  cfg_Device := {| dv_Backend := "smr"; dv_Path := "/dev/sg0"; dv_Emulator := dv_Emulator (cfg_Device DefaultConfig) |};
  cfg_ZTL := {| zc_SegmentSizeKB := 1; zc_BufferSizeMB := 1; zc_BufferFlushAgeSec := 5;
    zc_GCTriggerFreeRatio := zc_GCTriggerFreeRatio (cfg_ZTL DefaultConfig); zc_GCEmergencyFreeZones := 1 |};
  cfg_Journal := cfg_Journal DefaultConfig;
  cfg_API_Listen := ""; cfg_Log_Level := ""; cfg_Log_Format := "" |}.

Abbreviation smr_start := (start_in (T := Emulator) (λ _, true) (λ _, Ok []) (λ _ _, Ok smr_cfg) "config.yaml").
Definition first_day : surroundings (T := Emulator) := {| sr_drive := small_drive; sr_journal := empty_file; sr_clock := [] |}.

(** What is left when a layer over the drive has ended. *)
Definition left_by (z : ZTL (Emulator + SMRBackend Emulator) Journal) : surroundings :=
  {| sr_drive := match md_dev (z_md z) with inr s => smr_transport s | inl _ => small_drive end;
     sr_journal := file_now z;
     sr_clock := [] |}.

(** A day: a segment is written, the program shut down. *)
Definition written_day (r : Running Emulator) : ZTL (Emulator + SMRBackend Emulator) Journal := (ZTL_Write id 0 0 2 two_sectors (rn_ztl r)).1.
Definition end_of_day (r : Running Emulator) : ZTL (Emulator + SMRBackend Emulator) Journal := (shutdown id id (written_day r)).1.

Definition ok_unit (o : outcome unit) : bool := match o with Ok _ => true | Stop _ => false end.
Lemma ok_unit_eq o : ok_unit o = true → o = Ok tt.
Proof. by destruct o as [[]|]. Qed.

(** What the day needs, checked on the first start. *)
Definition day_fits (r : Running Emulator) : bool :=
  let z := written_day r in
  bool_decide (ztl_size (rn_ztl r) = 12) && bool_decide (z_sectorsPerSeg (rn_ztl r) = 2) &&
  (z_emergencyFreeZones (rn_ztl r) <=? FreeZoneCount (z_zm (rn_ztl r))) &&
  ok_unit (ZTL_Write id 0 0 2 two_sectors (rn_ztl r)).2 && bool_decide (0 ∈ zm_freeList (z_zm z)) &&
  ok_unit (ZTL_Flush id z).2 && (len (f_data (sr_journal (left_by (end_of_day r)))) <? 2^63) &&
  match md_dev (z_md (end_of_day r)), gc_journal (z_gc (end_of_day r)) with inr _, Some _ => true | _, _ => false end.
Lemma first_day_fits : match smr_start first_day with Ok r => day_fits r | Stop _ => false end = true.
Proof. vm_compute. reflexivity. Qed.

Lemma first_day_ok :
  dr_wf (sr_drive first_day) ∧ len (dr_zones (sr_drive first_day)) ≤ 8191 ∧ dr_zoneSize (sr_drive first_day) < 2^32 ∧
  0 < SectorsPerSegment smr_cfg ≤ dr_zoneSize (sr_drive first_day) ∧ new_journal (sr_journal first_day) ∧
  clock_fits (sr_clock first_day).
Proof.
  split_and!; [exact small_drive_wf|by vm_compute|by vm_compute|by vm_compute|by vm_compute|apply empty_new..|apply no_clock].
Qed.

Lemma day_fits_spec r : day_fits r = true →
  ztl_size (rn_ztl r) = 12 ∧ z_sectorsPerSeg (rn_ztl r) = 2 ∧
  z_emergencyFreeZones (rn_ztl r) ≤ FreeZoneCount (z_zm (rn_ztl r)) ∧
  (ZTL_Write id 0 0 2 two_sectors (rn_ztl r)).2 = Ok tt ∧ 0 ∈ zm_freeList (z_zm (written_day r)) ∧
  (ZTL_Flush id (written_day r)).2 = Ok tt ∧ len (f_data (sr_journal (left_by (end_of_day r)))) < 2^63 ∧
  (∃ s, md_dev (z_md (end_of_day r)) = inr s) ∧ ∃ j, gc_journal (z_gc (end_of_day r)) = Some j.
Proof.
  unfold day_fits. rewrite !andb_true_iff !bool_decide_eq_true Z.leb_le Z.ltb_lt. cbv zeta.
  intros (((((((H1' & H2') & H3') & H4') & H5') & H6') & H7') & H8'). split_and!; try done; try by apply ok_unit_eq.
  - by destruct (md_dev (z_md (end_of_day r))) as [|s]; [|exists s].
  - destruct (md_dev (z_md (end_of_day r))); [done|]. by destruct (gc_journal (z_gc (end_of_day r))) as [j|]; [exists j|].
Qed.

Lemma day_life r : day_fits r = true → life (power_cycle smr_cfg) (rn_ztl r) [IOWrite 1 two_sectors] [] (written_day r).
Proof.
  intros (Hsz & Hsp & Hfree & Ho & H0' & _)%day_fits_spec. unfold written_day in *.
  apply (life_io _ _ _ [] (ZTL_Write id 0 0 2 two_sectors (rn_ztl r)).1 [] []); [| | |constructor].
  - rw Hsz Hsp. split; [lia|]. exists 1. unfold sectorSize. split_and!; [lia|by vm_compute|lia].
  - apply (step_write _ id 0%nat 0); [done|]. rw Hsp. change (2 * 1) with 2. rw -Ho. apply surjective_pairing.
  - by right.
Qed.

(** What is left after a flush, on the emulated drive. *)
Lemma left_ok {Old : OldZones} recs z :
  let z1 := (shutdown id id z).1 in
  running smr_cfg recs z → (ZTL_Flush id z).2 = Ok tt → len (f_data (sr_journal (left_by z1))) < 2^63 →
  (∃ s, md_dev (z_md z1) = inr s) → (∃ j, gc_journal (z_gc z1) = Some j) → target_leaves z1 (left_by z1).
Proof.
  intros z1 Hr Hok Hlen [s Hs] [j Hj].
  assert (Hf : ZTL_Flush id z = ((ZTL_Flush id z).1, Ok tt)) by (rw -Hok; apply surjective_pairing).
  assert (Hz1 : z1 = (ZTL_Flush id z).1).
  { unfold z1. by rw (shutdown_flushed smr_cfg recs id id z _ Hr ltac:(done) ltac:(done) Hf). }
  destruct (flush_running smr_cfg recs z id _ Hr ltac:(done) Hf) as (_ & _ & _ & recs1 & Hr1). rw -Hz1 in Hr1.
  pose proof (df_wf _ _ (ru_fits _ _ _ Hr1)) as Hw. rw Hs in Hw. unfold left_by, file_now in *. rw Hs Hj in Hlen |- *.
  split; [|exists j; split; [exact Hj|reflexivity]|reflexivity|exact Hlen|apply no_clock].
  exists s. split; [exact Hs|]. split; [apply dr_same_refl; apply Hw|auto].
Qed.

Lemma day_left r : smr_start first_day = Ok r → day_fits r = true → target_leaves (end_of_day r) (left_by (end_of_day r)).
Proof.
  intros Hr Hf. pose proof (day_life r Hf) as Hl. apply day_fits_spec in Hf as (_ & _ & _ & _ & _ & Hflush & Hlen & Hs & Hj).
  destruct first_day_ok as (Hd & Hn & Hz & Hsps & Hnew & Hclock).
  destruct (start_first (T := Emulator) (λ _, true) (λ _, Ok []) (λ _ _, Ok smr_cfg) "config.yaml" smr_cfg ltac:(vm_compute; reflexivity) eq_refl
    first_day Hd Hn Hz Hsps Hnew Hclock) as (r' & s & Hr' & Hfits & Hon & _). rw Hr in Hr'. injection Hr' as <-.
  destruct (life_running smr_cfg _ _ _ Hfits Hnew Hclock (rn_ztl r) _ _ _ Hon Hl) as (_ & _ & _ & Old & recs & Hrun).
  exact (left_ok recs (written_day r) Hrun Hflush Hlen Hs Hj).
Qed.

(** The segment written on the first day is there on the second. *)
Lemma target_restarts_witness :
  ∃ r r', smr_start first_day = Ok r ∧ smr_start (left_by (end_of_day r)) = Ok r' ∧
    ztl_sector (rn_ztl r') 2 = pattern_sector 7 ∧ ztl_sector (rn_ztl r') 3 = pattern_sector 9.
Proof.
  destruct first_day_ok as (Hd & Hn & Hz & Hsps & Hnew & Hclock).
  destruct (target_restarts (T := Emulator) (λ _, true) (λ _, Ok []) (λ _ _, Ok smr_cfg) "config.yaml" smr_cfg ltac:(vm_compute; reflexivity) eq_refl
    first_day Hd Hn Hz Hsps Hnew Hclock) as (r & Hr & _ & Hnext).
  pose proof first_day_fits as Hf. rw Hr in Hf. pose proof (day_fits_spec r Hf) as (Hsz & _ & _ & _ & _ & Hflush & _).
  destruct (Hnext _ _ (written_day r) id id (end_of_day r) _ (day_life r Hf) ltac:(done) ltac:(done) Hflush eq_refl
    (day_left r Hr Hf)) as (r' & Hr' & _ & Hv).
  exists r, r'. split; [exact Hr|]. split; [exact Hr'|].
  rw !Hv ?Hsz; [lia|lia|]. vm_compute. split; reflexivity.
Defined.
