(* ===== verification/Days.v ===== *)
(** * The target from day to day

    The layer is started from a device and a journal file, initiators send commands
    over their connections, background tasks run in between, the program is shut
    down, and the next day it starts on what it left: first over any device that
    keeps what it was given, then the program from its configuration on a drive. *)

From S2P Require Import Bytes Float64 Config Zbc Backend Segment Emulator ZoneManager WriteBuffer Gc Wal Journal JournalSpec JournalTheorems Recovery RecoveryTheorems Ztl ZtlInv ZtlSpec GcSpec ZtlTheorems ZtlLimits GcTheorems Background Pdu Network Params DataTransfer Scsi ScsiTheorems ScsiStore Connection ConnectionTheorems IscsiStore Initiators ZtlStart Boot Durable Logged Restart RestartTheorems Smr SmrTheorems SmrStore Device SmrDurable Session Program ProgramRestart.
Local Open Scope string_scope.
Local Open Scope list_scope.
Local Open Scope Z_scope.

(** ** Runs of the network as lives of the layer *)

(** No collection, and commits that succeed. *)
Definition calm (e : event) : bool :=
  match e with EvCommit ok => ok | EvCollect _ => false | EvIO _ | EvFlushZone _ => true end.
Definition calm_action (a : action) : bool := match a with AcCommand _ _ => true | AcBackground e => calm e end.

(** The commands of a run, for the store. *)
Definition commands (sps : Z) (acts : list action) : list io := (action_event sps <$> acts) ≫= ev_io.

Lemma commands_app sps acts acts' : commands sps (acts ++ acts') = commands sps acts ++ commands sps acts'.
Proof. unfold commands. by rewrite fmap_app bind_app. Qed.

Lemma calm_events sps acts : Forall calm_action acts → Forall calm (action_event sps <$> acts).
Proof. intros Ha. apply Forall_fmap. eapply Forall_impl; [exact Ha|]. by intros [|]. Qed.

Lemma spec_run_app sps (st : store) cs cs' :
  spec_run sps st (cs ++ cs') =
  ((spec_run sps st cs).1 ++ (spec_run sps (spec_run sps st cs).2 cs').1, (spec_run sps (spec_run sps st cs).2 cs').2).
Proof.
  induction cs as [|c cs IH] in st |- *; cbn [spec_run app]; [apply surjective_pairing|]. rw IH.
  destruct (spec_run sps (spec_next sps st c) cs) as [os st1]. cbn. by rw app_assoc.
Qed.

Section lives.
Context {D : Type} `{DurableDevice D} (R : relation (ZTL D Journal)).
Implicit Types s : ZTL D Journal.

Lemma calm_step {Old : OldZones} s e out s1 cs outs s2 :
  sys_step s e out s1 → calm e → zone0_kept s s1 → life R s1 cs outs s2 → life R s (ev_io e ++ cs) (out ++ outs) s2.
Proof.
  intros Hstep Hc Hk Hl. inversion Hstep as [? c ? ? Hok Hio|? zone ? Hf|? ? o Hj|]; subst; [| | |done].
  - cbn. by eapply life_io.
  - eapply life_background; [|exact Hl]. left. by exists zone.
  - eapply life_background; [|exact Hl]. right. by destruct o as [[]|].
Qed.

Lemma sys_run_life {Old : OldZones} s es outs s' : sys_run s es outs s' → Forall calm es → life R s (es ≫= ev_io) outs s'.
Proof.
  intros Hrun. induction Hrun as [s|s e out s1 es outs s2 Hstep Hk Hrun IH]; [constructor|].
  intros [Hc Hes]%Forall_cons. cbn. eapply calm_step; [done..|by apply IH].
Qed.

(** Without collection it does not matter which zones are from before the start. *)
Lemma calm_old {Old1 Old2 : OldZones} s e out s' :
  sys_step (Old := Old1) s e out s' → calm e → sys_step (Old := Old2) s e out s'.
Proof using. intros Hstep Hc. destruct Hstep; [by apply sys_io|by apply sys_flush|by apply sys_commit|done]. Qed.

Lemma network_run_old {Old1 Old2 : OldZones} env h s s' ins acts outs ins' :
  network_run (Old := Old1) env h s ins acts outs s' ins' → Forall calm_action acts →
  network_run (Old := Old2) env h s ins acts outs s' ins'.
Proof using.
  intros Hrun. induction Hrun as [| | |i la c itt cmd start p c1 out data s ins acts outs s' ins' Hi Hfree Hdisp Hconn Hans Hk _ IH
    |e s s1 ins acts outs s' ins' He Hstep Hk _ IH]; intros Ha.
  - constructor.
  - eapply nr_begin; [done..|]. by apply IHHrun.
  - eapply nr_pdu; [done..|]. by apply IHHrun.
  - apply Forall_cons in Ha as [_ Ha]. eapply nr_answer; [done..|]. by apply IH.
  - apply Forall_cons in Ha as [Hc Ha]. eapply nr_background; [done|exact (calm_old (Old1 := Old1) _ _ _ _ Hstep Hc)|done|]. by apply IH.
Qed.

(** A day of a running layer. *)
Lemma network_life {Old : OldZones} cfg recs env h s s' conns acts outs ins' :
  running cfg recs s → (∀ l, env_zone_order env l ≡ₚ l) → Forall (λ x, conn_ok x.2) conns → Forall calm_action acts →
  network_run env h s ((λ x, mkInitiator x.1 x.2 None) <$> conns) acts outs s' ins' →
  life R s (commands (SectorsPerSegment cfg) acts) outs s'.
Proof.
  intros Hr Horder Hconns Ha Hrun. apply network_run_sys in Hrun; [|apply Hr|done|apply Hr|].
  - rw (ru_sps _ _ _ Hr) in Hrun. unfold commands. apply sys_run_life; [done|by apply calm_events].
  - apply Forall_fmap. eapply Forall_impl; [exact Hconns|]. intros [la c] Hc. by constructor.
Qed.
End lives.

(** ** Days of a device *)

(** What is left when the program is off: the device, the journal file, and a clock. *)
Record machine (D : Type) := mkMachine { mc_device : D; mc_journal : File; mc_clock : list Z }.
Arguments mkMachine {D} _ _ _. Arguments mc_device {D} _. Arguments mc_journal {D} _. Arguments mc_clock {D} _.

Section device_days.
Context {D : Type} `{DurableDevice D} (cfg : Config).
Implicit Types (z : ZTL D Journal) (m : machine D).
Let sps : Z := SectorsPerSegment cfg.
Abbreviation boot m := (power_on cfg (mc_device m) (Ok (mc_journal m)) (mc_clock m)).

(** The layer is started, serves initiators that have logged in, and is shut down. *)
Inductive device_day m (acts : list action) (outs : list (list byte)) m' : Prop :=
| a_device_day (Old : OldZones) h z env conns z1 ins' order1 order2 :
    boot m = Ok z →
    (∀ l, env_zone_order env l ≡ₚ l) → Forall (λ x, conn_ok x.2) conns → Forall calm_action acts →
    network_run env h z ((λ x, mkInitiator x.1 x.2 None) <$> conns) acts outs z1 ins' →
    (∀ l, order1 l ≡ₚ l) → (∀ l, order2 l ≡ₚ l) → (ZTL_Flush order1 z1).2 = Ok tt →
    shutdown_leaves (shutdown order1 order2 z1).1 (mc_device m') (mc_journal m') → clock_fits (mc_clock m') →
    device_day m acts outs m'.

Inductive device_days : machine D → list action → list (list byte) → machine D → Prop :=
| device_days_nil m : device_days m [] [] m
| device_days_cons m acts outs m1 acts' outs' m2 :
    device_day m acts outs m1 → device_days m1 acts' outs' m2 → device_days m (acts ++ acts') (outs ++ outs') m2.

(** The layer comes up, and shows [st]. *)
Definition boots m (size : Z) (st : store) : Prop :=
  ∃ z (Old : OldZones) recs, boot m = Ok z ∧ running cfg recs z ∧ ztl_size z = size ∧ ∀ l, 0 ≤ l < size → ztl_sector z l = st l.

Lemma device_day_up m size st acts outs m' :
  boots m size st → device_day m acts outs m' →
  outs = (spec_run sps st (commands sps acts)).1 ∧ boots m' size (spec_run sps st (commands sps acts)).2.
Proof.
  intros (z & Old & recs & Hz & Hrun & <- & Hst) [Old' h z' env conns z1 ins' order1 order2 Hz' Henv Hconns Ha Hnet Ho1 Ho2 Hok Hleft Hclock].
  rw Hz in Hz'. injection Hz' as <-.
  pose proof (network_life (power_cycle cfg) cfg recs env _ _ z1 conns acts outs ins' Hrun Henv Hconns Ha
    (network_run_old _ _ _ _ _ _ _ _ Hnet Ha)) as Hlife.
  destruct (life_spec cfg recs _ _ _ z1 st Hrun Hst Hlife) as (Hsz & Houts & Hz1 & Old1 & recs1 & Hr1). split; [done|].
  assert (Hf : ZTL_Flush order1 z1 = ((ZTL_Flush order1 z1).1, Ok tt)) by (rw -Hok; apply surjective_pairing).
  rw (shutdown_flushed cfg recs1 order1 order2 z1 _ Hr1 Ho1 Ho2 Hf) in Hleft. cbn in Hleft.
  destruct (flush_running cfg recs1 z1 order1 _ Hr1 Ho1 Hf) as ((_ & Ht & Hs & _ & Hv) & Hb & Hj & recs2 & Hr2).
  destruct (restart_running cfg recs2 _ _ _ _ Hr2 Hb Hj Hleft Hclock) as (z3 & Hon3 & Hr3 & Hsz3 & Hv3).
  assert (Hsz2 : ztl_size (ZTL_Flush order1 z1).1 = ztl_size z1) by (unfold ztl_size; by rw Ht Hs).
  exists z3, (zones_before z3), recs2. split_and!; [done|done|congruence|].
  intros l Hl. rw Hv3; [by rw Hsz2 Hsz|]. rw Hv; [by rw Hsz|by apply Hz1].
Qed.

Lemma device_days_up m size st acts outs m' :
  boots m size st → device_days m acts outs m' →
  outs = (spec_run sps st (commands sps acts)).1 ∧ boots m' size (spec_run sps st (commands sps acts)).2.
Proof.
  intros Hup Hdays. induction Hdays as [m|m acts outs m1 acts' outs' m2 Hday _ IH] in st, Hup |- *; [done|].
  destruct (device_day_up _ _ _ _ _ _ Hup Hday) as [-> Hup1]. destruct (IH _ Hup1) as [-> Hup2].
  by rw commands_app spec_run_app.
Qed.

Lemma boots_first m : device_fits sps (mc_device m) → new_journal (mc_journal m) → clock_fits (mc_clock m) →
  boots m (Device_Capacity (mc_device m) / sps * sps) (λ _, zero_sector).
Proof.
  intros Hfits Hnew Hclock. destruct (first_start cfg _ _ _ Hfits Hnew Hclock) as (z & Hz & Hr & Hsz & Hzero).
  exists z, (zones_before z), []. split_and!; [done|done|done|by rw -Hsz].
Qed.

(** C1: the target from day to day, over any device that keeps what it was given
    ([DurableDevice]), has room for a segment in every zone ([device_fits]), and
    comes with an empty journal. Each day the layer is started - journal opened,
    layer built, recovery run -, initiators send commands over connections that
    work, their PDUs interleaved with each other and with background flushes of a
    buffer and commits, all of which succeed, and the program shuts down with a
    flush that succeeds, leaving the device and the journal file to the next day. A
    command is a READ, a WRITE of whole segments (less than 4 GiB each), a
    SYNCHRONIZE CACHE(10) or an UNMAP of one range, inside the disk, answered with
    status GOOD; its PDUs are one command PDU, with all the data and the F bit if it
    writes, or a command PDU without the F bit and with data outstanding, followed
    by Data-Out PDUs of which the last is final; handling a PDU is one step. No zone
    is collected, in the background or in an emergency, and zone 0 is not taken into
    use. Then, over all the days, the reads return what one flat array of sectors
    returns to all the commands in the order they are answered - an unmap discards
    every segment it touches - and the layer always comes up again, as large as the
    device's whole segments and with that array's contents. *)
Theorem device_days_keep_store m acts outs m' :
  device_fits sps (mc_device m) → new_journal (mc_journal m) → clock_fits (mc_clock m) →
  device_days m acts outs m' →
  let spec := spec_run sps (λ _, zero_sector) (commands sps acts) in
  let size := Device_Capacity (mc_device m) / sps * sps in
  outs = spec.1 ∧ ∃ z, boot m' = Ok z ∧ ztl_size z = size ∧ ∀ l, 0 ≤ l < size → ztl_sector z l = spec.2 l.
Proof.
  intros Hfits Hnew Hclock Hdays.
  destruct (device_days_up _ _ _ _ _ _ (boots_first m Hfits Hnew Hclock) Hdays) as [Houts (z & _ & _ & Hz & _ & Hsz & Hv)].
  split; [done|]. by exists z.
Qed.
End device_days.

(** ** Days of the program *)
Section days.
Context {T : Type} `{DurableDrive T}.
Context (file_exists : string → bool) (ReadFile : string → outcome (list byte)).
Context (Unmarshal : list byte → Config → outcome Config) (path : string) (cfg : Config).
Context (Hload : loadConfig file_exists ReadFile Unmarshal path = Ok cfg) (Hsmr : dv_Backend (cfg_Device cfg) = "smr").
Let sps : Z := SectorsPerSegment cfg.
Abbreviation main := (start_in file_exists ReadFile Unmarshal path).

(** The program starts, serves initiators that have logged in, and shuts down. *)
Inductive day (e : surroundings) (acts : list action) (outs : list (list byte)) (e' : surroundings) : Prop :=
| a_day r env conns z ins' order1 order2 z1 :
    main e = Ok r →
    (∀ l, env_zone_order env l ≡ₚ l) → Forall (λ x, conn_ok x.2) conns → Forall calm_action acts →
    network_run env (rn_handler r) (rn_ztl r) ((λ x, mkInitiator x.1 x.2 None) <$> conns) acts outs z ins' →
    (∀ l, order1 l ≡ₚ l) → (∀ l, order2 l ≡ₚ l) →
    (ZTL_Flush order1 z).2 = Ok tt → (shutdown order1 order2 z).1 = z1 → target_leaves z1 e' →
    day e acts outs e'.

Inductive days : surroundings → list action → list (list byte) → surroundings → Prop :=
| days_nil e : days e [] [] e
| days_cons e acts outs e1 acts' outs' e2 :
    day e acts outs e1 → days e1 acts' outs' e2 → days e (acts ++ acts') (outs ++ outs') e2.

(** The program comes up, and shows [st]. *)
Definition comes_up (e : surroundings) (size : Z) (st : store) : Prop :=
  ∃ r (Old : OldZones) recs, main e = Ok r ∧ running cfg recs (rn_ztl r) ∧ ztl_size (rn_ztl r) = size ∧
    ∀ l, 0 ≤ l < size → ztl_sector (rn_ztl r) l = st l.

Lemma day_up e size st acts outs e' :
  comes_up e size st → day e acts outs e' →
  outs = (spec_run sps st (commands sps acts)).1 ∧ comes_up e' size (spec_run sps st (commands sps acts)).2.
Proof using Hload Hsmr.
  intros (r & Old & recs & Hr & Hrun & <- & Hst) [r' env conns z ins' order1 order2 z1 Hr' Henv Hconns Ha Hnet Ho1 Ho2 Hok Hz1 Hleft].
  rw Hr in Hr'. injection Hr' as <-.
  pose proof (network_life (power_cycle cfg) cfg recs env _ _ z conns acts outs ins' Hrun Henv Hconns Ha
    (network_run_old _ _ _ _ _ _ _ _ Hnet Ha)) as Hlife.
  destruct (life_spec cfg recs _ _ _ z st Hrun Hst Hlife) as (Hsz & Houts & Hz & Old' & recs' & Hrz).
  destruct (restart_after _ _ _ _ _ Hload Hsmr recs' z order1 order2 z1 e' Hrz Ho1 Ho2 Hok Hz1 Hleft)
    as (r2 & recs2 & Hr2 & Hrun2 & Hsz2 & Hv2).
  split; [done|]. exists r2, (zones_before (rn_ztl r2)), recs2. split_and!; [done|done|congruence|].
  intros l Hl. rw Hv2; [by rw Hsz|by apply Hz].
Qed.

Lemma days_up e size st acts outs e' :
  comes_up e size st → days e acts outs e' →
  outs = (spec_run sps st (commands sps acts)).1 ∧ comes_up e' size (spec_run sps st (commands sps acts)).2.
Proof using Hload Hsmr.
  intros Hup Hdays. induction Hdays as [e|e acts outs e1 acts' outs' e2 Hday _ IH] in st, Hup |- *; [done|].
  destruct (day_up _ _ _ _ _ _ Hup Hday) as [-> Hup1]. destruct (IH _ Hup1) as [-> Hup2].
  by rw commands_app spec_run_app.
Qed.

(** The same of the program from its configuration file on, on a drive of at most 8191
    zones that meets [DurableDrive] - the drive discovered anew each day. *)
Theorem target_days e0 acts outs e :
  dr_wf (sr_drive e0) → len (dr_zones (sr_drive e0)) ≤ 8191 → dr_zoneSize (sr_drive e0) < 2^32 →
  0 < sps ≤ dr_zoneSize (sr_drive e0) → new_journal (sr_journal e0) → clock_fits (sr_clock e0) →
  days e0 acts outs e →
  let spec := spec_run sps (λ _, zero_sector) (commands sps acts) in
  let size := dr_capacity (sr_drive e0) / sps * sps in
  outs = spec.1 ∧ ∃ r, main e = Ok r ∧ ztl_size (rn_ztl r) = size ∧ ∀ l, 0 ≤ l < size → ztl_sector (rn_ztl r) l = spec.2 l.
Proof using Hload Hsmr.
  intros Hd Hn Hz Hsps Hnew Hclock Hdays.
  destruct (start_first _ _ _ _ _ Hload Hsmr e0 Hd Hn Hz Hsps Hnew Hclock) as (r & s & Hr & Hfits & Hon & Hsize).
  destruct (first_start cfg _ _ _ Hfits Hnew Hclock) as (z & Hon' & Hrun & _ & Hzero). rw Hon in Hon'. injection Hon' as <-.
  destruct (days_up e0 (ztl_size (rn_ztl r)) (λ _, zero_sector) acts outs e) as [Houts (r' & _ & _ & Hr' & _ & Hsz & Hv)].
  - by exists r, (zones_before (rn_ztl r)), [].
  - done.
  - split; [done|]. rw Hsize in Hsz Hv. by exists r'.
Qed.
End days.

(** ** A day with one command *)
Definition good_with (data : list byte) (o : outcome Response) : bool :=
  match o with
  | Ok {| rsp_data := d; rsp_status := status; rsp_sense := None |} => bool_decide (d = data) && (status =? StatusGood)
  | _ => false
  end.
Lemma good_with_eq data o : good_with data o = true → o = Ok (good data).
Proof.
  destruct o as [[d status []]|]; [done| |done]. cbn. intros [->%bool_decide_eq_true ->%Z.eqb_eq]%andb_true_iff. done.
Qed.

Section one_command.
Context {D : Type} `{DurableDevice D} (h : Handler).
Implicit Types z : ZTL D Journal.

Definition executed z (cmd : scsi_cmd) : ZTL D Journal * outcome Response :=
  Execute (H := ZTL_device small_env) h (cmd_cdb cmd) (cmd_data cmd) z.
Definition end_of z (cmd : scsi_cmd) : ZTL D Journal := (shutdown id id (executed z cmd).1).1.

Definition one_command (cmd : scsi_cmd) (data : list byte) z : bool :=
  bool_decide (ztl_size z = 12) && (z_emergencyFreeZones z <=? FreeZoneCount (z_zm z)) &&
  good_with data (executed z cmd).2 && bool_decide (0 ∈ zm_freeList (z_zm (executed z cmd).1)) &&
  ok_unit (ZTL_Flush id (executed z cmd).1).2 && (len (f_data (file_now (end_of z cmd))) <? 2^63).

Record one_command_ok cmd data z : Prop := {
  oc_size : ztl_size z = 12;
  oc_free : z_emergencyFreeZones z ≤ FreeZoneCount (z_zm z);
  oc_executed : executed z cmd = ((executed z cmd).1, Ok (good data));
  oc_zone0 : zone0_kept z (executed z cmd).1;
  oc_flush : (ZTL_Flush id (executed z cmd).1).2 = Ok tt;
  oc_length : len (f_data (file_now (end_of z cmd))) < 2^63;
}.
Lemma one_command_spec cmd data z : one_command cmd data z = true → one_command_ok cmd data z.
Proof using.
  unfold one_command. rewrite !andb_true_iff !bool_decide_eq_true Z.leb_le Z.ltb_lt.
  intros (((((H1' & H2') & H3') & H4') & H5') & H6').
  split; [exact H1'|exact H2'| |by right|by apply ok_unit_eq|exact H6'].
  rewrite -(good_with_eq _ _ H3'). apply surjective_pairing.
Qed.

Definition a_connection z : Connection (ZTL D Journal) := newConnection (quiet []) true DefaultTargetParams z.
Definition an_initiator z : string * Connection (ZTL D Journal) := ("10.0.0.1:3260", a_connection z).

Lemma command_network {Old : OldZones} z itt cmd p data :
  one_command_ok cmd data z → cmd_ok 12 2 cmd → z_sectorsPerSeg z = 2 → read_fits cmd →
  carries_command itt (pad16 (cmd_cdb cmd)) (cmd_data cmd) (is_read cmd) [p] → len data < 2^32 →
  ∃ ins', network_run small_env h z ((λ x, mkInitiator x.1 x.2 None) <$> [an_initiator z]) [AcCommand 0 cmd]
    (if is_read cmd then [data] else []) (executed z cmd).1 ins'.
Proof using.
  intros [Hsz Hfree Hex Hk _ _] Hok Hsps Hfit Hcarry Hlen. rewrite -Hsz -Hsps in Hok.
  destruct (network_single small_env h 0 "10.0.0.1:3260" (a_connection z) itt cmd p z (executed z cmd).1 data
    [mkInitiator "10.0.0.1:3260" (a_connection z) None] eq_refl) as (c1 & _ & Hrun);
    [done|exact Hok|exact Hfit|exact Hfree|exact Hcarry|exact Hex|exact Hlen|exact Hk|].
  eexists. rewrite -(app_nil_r (if is_read cmd then [data] else [])). apply Hrun. constructor.
Qed.

Lemma one_calm cmd : Forall calm_action [AcCommand 0 cmd].
Proof using. repeat constructor. Qed.
Lemma one_connection z : Forall (λ x : string * Connection (ZTL D Journal), conn_ok x.2) [an_initiator z].
Proof using. repeat constructor. Qed.

(** The layer after the command, at the end of the day. *)
Lemma command_running {Old : OldZones} cfg recs z itt cmd p data :
  running cfg recs z → SectorsPerSegment cfg = 2 → one_command_ok cmd data z → cmd_ok 12 2 cmd → read_fits cmd →
  carries_command itt (pad16 (cmd_cdb cmd)) (cmd_data cmd) (is_read cmd) [p] → len data < 2^32 →
  (∃ ins', network_run small_env h z ((λ x, mkInitiator x.1 x.2 None) <$> [an_initiator z]) [AcCommand 0 cmd]
    (if is_read cmd then [data] else []) (executed z cmd).1 ins') ∧
  ∃ (Old' : OldZones) recs', running cfg recs' (executed z cmd).1.
Proof using.
  intros Hrun Hsps Hoc Hok Hfit Hcarry Hlen. pose proof (ru_sps _ _ _ Hrun) as Hss. rw Hsps in Hss.
  destruct (command_network z itt cmd p data Hoc Hok Hss Hfit Hcarry Hlen) as [ins' Hnet]. split; [by exists ins'|].
  pose proof (network_life (power_cycle cfg) cfg recs small_env _ _ _ _ _ _ ins' Hrun ltac:(done) (one_connection z) (one_calm cmd)
    (network_run_old _ _ _ _ _ _ _ _ Hnet (one_calm cmd))) as Hlife.
  by destruct (life_spec cfg recs _ _ _ _ (ztl_sector z) Hrun ltac:(done) Hlife) as (_ & _ & _ & ?).
Qed.
End one_command.

(** Both commands come in one PDU. *)
Definition write_command : scsi_cmd := SWrite Form10 2 2 two_sectors.
Definition read_command : scsi_cmd := SRead Form10 2 2.
Definition write_pdu : PDU := command_pdu 1 0xA0 1024 (pad16 (write_cdb Form10 2 2)) two_sectors.
Definition read_pdu : PDU := command_pdu 3 0xC0 1024 (pad16 (read_cdb Form10 2 2)) [].
Lemma write_pdu_carries : carries_command 1 (pad16 (cmd_cdb write_command)) (cmd_data write_command) false [write_pdu].
Proof. apply carries_at_once; [split; vm_compute; reflexivity|vm_compute; reflexivity|vm_compute; repeat split; discriminate]. Qed.
Lemma read_pdu_carries : carries_command 3 (pad16 (cmd_cdb read_command)) (cmd_data read_command) true [read_pdu].
Proof. apply carries_at_once; [split; vm_compute; reflexivity|vm_compute; reflexivity|vm_compute; reflexivity]. Qed.
Lemma commands_ok : cmd_ok 12 2 write_command ∧ cmd_ok 12 2 read_command.
Proof. vm_compute. repeat split; discriminate. Qed.
Lemma data_short : len two_sectors < 2^32.
Proof. vm_compute. reflexivity. Qed.
Definition two_commands : list action := [AcCommand 0 write_command; AcCommand 0 read_command].

(** ** Two days of a device of three zones *)
Definition machine0 : machine Emulator := mkMachine small_device empty_file [].
Definition machine_after (z : ZTL Emulator Journal) : machine Emulator := mkMachine (md_dev (z_md z)) (file_now z) [].
Definition booted (m : machine Emulator) : ZTL Emulator Journal := started (power_on small_cfg (mc_device m) (Ok (mc_journal m)) (mc_clock m)).
Definition machine1 : machine Emulator := machine_after (end_of ram_handler (booted machine0) write_command).
Definition machine2 : machine Emulator := machine_after (end_of ram_handler (booted machine1) read_command).

Lemma machine0_fits : one_command ram_handler write_command [] (booted machine0) = true.
Proof. vm_compute. reflexivity. Qed.
Lemma machine1_fits : one_command ram_handler read_command two_sectors (booted machine1) = true.
Proof. vm_compute. reflexivity. Qed.

Lemma machine_day m st cmd itt p data :
  boots small_cfg m 12 st → one_command ram_handler cmd data (booted m) = true →
  cmd_ok 12 2 cmd → read_fits cmd → carries_command itt (pad16 (cmd_cdb cmd)) (cmd_data cmd) (is_read cmd) [p] → len data < 2^32 →
  device_day small_cfg m [AcCommand 0 cmd] (if is_read cmd then [data] else []) (machine_after (end_of ram_handler (booted m) cmd)).
Proof.
  intros (z & Old & recs & Hz & Hrun & _ & _) Hoc%one_command_spec Hok Hfit Hcarry Hlen.
  assert (Hb : booted m = z) by (unfold booted; by rewrite Hz). rewrite Hb in Hoc |- *.
  destruct (command_running ram_handler small_cfg recs z itt cmd p data Hrun eq_refl Hoc Hok Hfit Hcarry Hlen)
    as ([ins' Hnet] & Old' & recs' & Hr').
  pose proof (oc_flush _ _ _ _ Hoc) as Hflush.
  assert (Hf : ZTL_Flush id (executed ram_handler z cmd).1 = ((ZTL_Flush id (executed ram_handler z cmd).1).1, Ok tt))
    by (rewrite -Hflush; apply surjective_pairing).
  pose proof (f_equal fst (shutdown_flushed small_cfg recs' id id _ _ Hr' ltac:(done) ltac:(done) Hf)) as Hend. cbn in Hend.
  destruct (flush_running small_cfg recs' _ id _ Hr' ltac:(done) Hf) as (_ & _ & _ & recs1 & Hr1). rewrite -Hend in Hr1.
  apply (a_device_day _ _ _ _ _ Old ram_handler z small_env [an_initiator z] (executed ram_handler z cmd).1 ins' id id);
    [exact Hz|done|apply one_connection|apply one_calm|exact Hnet|done|done|exact Hflush| |apply no_clock].
  exact (now_left recs1 _ Hr1 (oc_length _ _ _ _ Hoc)).
Qed.

Lemma two_machine_days : device_days small_cfg machine0 two_commands [two_sectors] machine2.
Proof.
  pose proof (boots_first small_cfg machine0 small_fits empty_new no_clock) as Hup.
  pose proof (machine_day _ _ write_command 1 write_pdu [] Hup machine0_fits (proj1 commands_ok) I write_pdu_carries eq_refl) as Hd1.
  destruct (device_day_up small_cfg _ _ _ _ _ _ Hup Hd1) as [_ Hup1].
  pose proof (machine_day _ _ read_command 3 read_pdu two_sectors Hup1 machine1_fits (proj2 commands_ok) eq_refl read_pdu_carries data_short) as Hd2.
  exact (device_days_cons _ _ _ _ _ _ _ _ Hd1 (device_days_cons _ _ _ _ _ _ _ _ Hd2 (device_days_nil _ _))).
Qed.

(** What was written on the first day and read on the second is there on the third. *)
Lemma device_days_keep_store_witness :
  ∃ z, power_on small_cfg (mc_device machine2) (Ok (mc_journal machine2)) (mc_clock machine2) = Ok z ∧ ztl_sector z 2 = pattern_sector 7.
Proof.
  destruct (device_days_keep_store small_cfg machine0 _ _ machine2 small_fits empty_new no_clock two_machine_days)
    as (_ & z & Hz & _ & Hv).
  exists z. split; [exact Hz|]. rewrite Hv; [split; [lia|vm_compute; reflexivity]|]. vm_compute. reflexivity.
Defined.

(** ** Two days of a drive of three zones *)
#[local] Existing Instance EmulatedDrive.transport.
#[local] Existing Instance EmulatedDrive.drive.
#[local] Existing Instance EmulatedDrive.ready.

Abbreviation smr_days := (days (T := Emulator) (λ _, true) (λ _, Ok []) (λ _ _, Ok smr_cfg) "config.yaml").
Abbreviation smr_day := (day (T := Emulator) (λ _, true) (λ _, Ok []) (λ _ _, Ok smr_cfg) "config.yaml").
Abbreviation smr_up := (comes_up (T := Emulator) (λ _, true) (λ _, Ok []) (λ _ _, Ok smr_cfg) "config.yaml" smr_cfg).

Definition smr_end (r : Running Emulator) (cmd : scsi_cmd) : ZTL (Emulator + SMRBackend Emulator) Journal :=
  end_of (rn_handler r) (rn_ztl r) cmd.
Definition smr_command (cmd : scsi_cmd) (data : list byte) (r : Running Emulator) : bool :=
  one_command (rn_handler r) cmd data (rn_ztl r) &&
  match md_dev (z_md (smr_end r cmd)), gc_journal (z_gc (smr_end r cmd)) with inr _, Some _ => true | _, _ => false end.

Definition second_day (r1 : Running Emulator) : surroundings := left_by (smr_end r1 write_command).
Lemma first_fits : match smr_start first_day with Ok r1 => smr_command write_command [] r1 | Stop _ => false end = true.
Proof. vm_compute. reflexivity. Qed.
Lemma second_fits :
  match smr_start first_day with
  | Ok r1 => match smr_start (second_day r1) with Ok r2 => smr_command read_command two_sectors r2 | Stop _ => false end
  | Stop _ => false
  end = true.
Proof. vm_compute. reflexivity. Qed.

Lemma smr_command_spec cmd data r : smr_command cmd data r = true →
  one_command_ok (rn_handler r) cmd data (rn_ztl r) ∧
  (∃ s, md_dev (z_md (smr_end r cmd)) = inr s) ∧ ∃ j, gc_journal (z_gc (smr_end r cmd)) = Some j.
Proof.
  unfold smr_command. rewrite andb_true_iff. intros [Hoc%one_command_spec Hm]. split; [exact Hoc|].
  destruct (md_dev (z_md (smr_end r cmd))) as [|s]; [done|]. split; [by exists s|].
  by destruct (gc_journal (z_gc (smr_end r cmd))) as [j|]; [exists j|].
Qed.

Lemma command_day e st r cmd itt p data :
  smr_up e 12 st → smr_start e = Ok r → smr_command cmd data r = true →
  cmd_ok 12 2 cmd → read_fits cmd → carries_command itt (pad16 (cmd_cdb cmd)) (cmd_data cmd) (is_read cmd) [p] → len data < 2^32 →
  smr_day e [AcCommand 0 cmd] (if is_read cmd then [data] else []) (left_by (smr_end r cmd)).
Proof.
  intros (r' & Old & recs & Hr' & Hrun & _ & _) Hr (Hoc & Hs & Hj)%smr_command_spec Hok Hfit Hcarry Hlen.
  rw Hr in Hr'. injection Hr' as <-.
  destruct (command_running (rn_handler r) smr_cfg recs _ itt cmd p data Hrun eq_refl Hoc Hok Hfit Hcarry Hlen)
    as ([ins' Hnet] & Old' & recs' & Hr').
  apply (a_day _ _ _ _ _ _ _ _ r small_env [an_initiator (rn_ztl r)] (executed (rn_handler r) (rn_ztl r) cmd).1 ins' id id (smr_end r cmd));
    [exact Hr|done|apply one_connection|apply one_calm| |done|done|exact (oc_flush _ _ _ _ Hoc)|reflexivity|].
  - exact (network_run_old _ _ _ _ _ _ _ _ Hnet (one_calm cmd)).
  - exact (left_ok recs' (executed (rn_handler r) (rn_ztl r) cmd).1 Hr' (oc_flush _ _ _ _ Hoc) (oc_length _ _ _ _ Hoc) Hs Hj).
Qed.

Lemma smr_loads : loadConfig (λ _, true) (λ _, Ok []) (λ _ _, Ok smr_cfg) "config.yaml" = Ok smr_cfg.
Proof. vm_compute. reflexivity. Qed.

Lemma first_up : smr_up first_day 12 (λ _, zero_sector).
Proof.
  destruct first_day_ok as (Hd & Hn & Hz & Hsps & Hnew & Hclock).
  destruct (start_first (T := Emulator) (λ _, true) (λ _, Ok []) (λ _ _, Ok smr_cfg) "config.yaml" smr_cfg smr_loads eq_refl
    first_day Hd Hn Hz Hsps Hnew Hclock) as (r & s & Hr & Hfits & Hon & Hsize).
  destruct (first_start smr_cfg _ _ _ Hfits Hnew Hclock) as (z & Hon' & Hrun & _ & Hzero). rw Hon in Hon'. injection Hon' as <-.
  exists r, (zones_before (rn_ztl r)), []. split_and!; [exact Hr|exact Hrun|rw Hsize; by vm_compute|].
  rw Hsize in Hzero. exact Hzero.
Qed.

Lemma write_day r : smr_start first_day = Ok r → smr_command write_command [] r = true →
  smr_day first_day [AcCommand 0 write_command] [] (second_day r).
Proof.
  intros Hr Hf. exact (command_day _ _ r write_command 1 write_pdu [] first_up Hr Hf (proj1 commands_ok) I write_pdu_carries eq_refl).
Qed.
Lemma read_day e st r : smr_up e 12 st → smr_start e = Ok r → smr_command read_command two_sectors r = true →
  smr_day e [AcCommand 0 read_command] [two_sectors] (left_by (smr_end r read_command)).
Proof.
  intros Hup Hr Hf. exact (command_day _ _ r read_command 3 read_pdu two_sectors Hup Hr Hf (proj2 commands_ok) eq_refl read_pdu_carries data_short).
Qed.

Definition shown_after_write : store := (spec_run 2 (λ _, zero_sector) (commands 2 [AcCommand 0 write_command])).2.
Lemma second_up r : smr_start first_day = Ok r → smr_command write_command [] r = true →
  smr_up (second_day r) 12 shown_after_write.
Proof.
  intros Hr Hf. pose proof (write_day r Hr Hf) as Hday.
  exact (proj2 (day_up (T := Emulator) _ _ _ _ smr_cfg smr_loads eq_refl first_day 12 (λ _, zero_sector) _ _ _ first_up Hday)).
Qed.

Lemma two_days_days : ∃ e, smr_days first_day two_commands [two_sectors] e.
Proof.
  destruct first_up as (r1 & _ & _ & Hr1 & _). pose proof first_fits as Hf1. rw Hr1 in Hf1.
  pose proof (second_up r1 Hr1 Hf1) as Hup. pose proof Hup as (r2 & _ & _ & Hr2 & _).
  pose proof second_fits as Hf2. rw Hr1 Hr2 in Hf2.
  pose proof (read_day _ _ r2 Hup Hr2 Hf2) as Hday2. exists (left_by (smr_end r2 read_command)).
  exact (days_cons _ _ _ _ _ _ _ _ _ _ _ (write_day r1 Hr1 Hf1) (days_cons _ _ _ _ _ _ _ _ _ _ _ Hday2 (days_nil _ _ _ _ _))).
Qed.

(** What was written on the first day and read on the second is there on the third. *)
Lemma drive_days :
  ∃ e r, smr_days first_day two_commands [two_sectors] e ∧
    smr_start e = Ok r ∧ ztl_sector (rn_ztl r) 2 = pattern_sector 7.
Proof.
  destruct first_day_ok as (Hd & Hn & Hz & Hsps & Hnew & Hclock). destruct two_days_days as [e Hdays].
  destruct (target_days (T := Emulator) (λ _, true) (λ _, Ok []) (λ _ _, Ok smr_cfg) "config.yaml" smr_cfg smr_loads eq_refl
    first_day _ _ e Hd Hn Hz Hsps Hnew Hclock Hdays) as (_ & r & Hr & _ & Hv).
  exists e, r. split; [exact Hdays|]. split; [exact Hr|]. rw Hv; [split; [lia|by vm_compute]|]. vm_compute. reflexivity.
Defined.
