(* ===== verification/Api.v ===== *)
(** * [internal/api]: what the HTTP handlers report

    The values the handlers encode.  Each handler reads the state of the layer and the configuration
    and changes neither. *)

From S2P Require Import Bytes Float64 Config Zbc Backend Segment ZoneManager WriteBuffer Gc Journal Ztl Session.
Local Open Scope string_scope.
Local Open Scope list_scope.
Local Open Scope Z_scope.

(** ** Responses (types.go) *)
Record HealthResponse := { hr_Status : string }.
Record ZoneDetail := {
  ad_ID : Z; ad_State : string; ad_Type : string; ad_WritePointerLBA : Z; ad_ZoneStartLBA : Z;
  ad_ZoneLengthLBA : Z; ad_ValidSegments : Z; ad_TotalSegments : Z; ad_GCScore : spec_float;
}.
Record ZoneListResponse := { zl_Zones : list ZoneDetail; zl_Total : Z }.
Record ISCSIStats := {
  is_ActiveSessions : Z; is_ReadBytesTotal : Z; is_WriteBytesTotal : Z; is_ReadOpsTotal : Z; is_WriteOpsTotal : Z;
  is_ReadLatencyP99 : spec_float; is_WriteLatencyP99 : spec_float;
}.
Record GCStatsResponse := { gr_Running : bool; gr_ZonesReclaimed : Z; gr_BytesMigrated : Z; gr_RunCount : Z }.
Record BufferStats := { bs_DirtyBytes : Z; bs_MaxBytes : Z; bs_PendingFlushes : Z }.
Record JournalStats := { js_CurrentLSN : Z; js_CheckpointLSN : Z; js_SizeBytes : Z }.
Record DeviceStatsResponse := {
  ds_Backend : string; ds_Path : string; ds_ZoneCount : Z; ds_ZoneSizeMB : Z; ds_TotalCapacity : Z; ds_MaxOpenZones : Z;
}.
Record StatsResponse := {
  sr_ISCSI : ISCSIStats; sr_GC : GCStatsResponse; sr_Buffer : BufferStats; sr_Journal : JournalStats;
  sr_Device : DeviceStatsResponse;
}.
Record ConfigTargetResponse := {
  ct_IQN : string; ct_Portal : string; ct_MaxSessions : Z; ct_AuthEnabled : bool; ct_CHAPUser : string;
}.
Record ConfigDeviceResponse := {
  cd_Backend : string; cd_Path : string; cd_ZoneCount : Z; cd_ZoneSizeMB : Z; cd_MaxOpenZones : Z;
}.
Record ConfigZTLResponse := {
  cz_SegmentSizeKB : Z; cz_BufferSizeMB : Z; cz_BufferFlushAgeSec : Z; cz_GCTriggerFreeRatio : spec_float;
  cz_GCEmergencyFreeZones : Z;
}.
Record ConfigResponse := {
  cr_Target : ConfigTargetResponse; cr_Device : ConfigDeviceResponse; cr_ZTL : ConfigZTLResponse; cr_APIListen : string;
}.

(** ** Providers (interfaces.go and the adapters of main.go)

    A provider is what its methods return at the time of the request. *)
Definition noopISCSIStats : ISCSIStats :=
  {| is_ActiveSessions := 0; is_ReadBytesTotal := 0; is_WriteBytesTotal := 0; is_ReadOpsTotal := 0;
     is_WriteOpsTotal := 0; is_ReadLatencyP99 := float64_of_Z 0; is_WriteLatencyP99 := float64_of_Z 0 |}.
Definition noopJournalStats : JournalStats := {| js_CurrentLSN := 0; js_CheckpointLSN := 0; js_SizeBytes := 0 |}.

(** [iscsiStatsAdapter]: the sessions, and nothing else. *)
Definition iscsiStatsAdapter (m : SessionManager) : ISCSIStats :=
  {| is_ActiveSessions := SessionCount m; is_ReadBytesTotal := 0; is_WriteBytesTotal := 0; is_ReadOpsTotal := 0;
     is_WriteOpsTotal := 0; is_ReadLatencyP99 := float64_of_Z 0; is_WriteLatencyP99 := float64_of_Z 0 |}.
(** [journalStatsAdapter] and [journalSizeBytes]; [stat] is [os.Stat] of the journal's path. *)
Definition journalSizeBytes (stat : option Z) : Z := match stat with Some size => u64 size | None => 0 end.
Definition journalStatsAdapter (stat : option Z) (j : Journal) : JournalStats :=
  {| js_CurrentLSN := CurrentLSN j; js_CheckpointLSN := 0; js_SizeBytes := journalSizeBytes stat |}.

Record ApiHandler := { ah_cfg : Config; ah_iscsi : ISCSIStats; ah_journal : JournalStats }.
Definition NewApiHandler (cfg : Config) (iscsi : option ISCSIStats) (journal : option JournalStats) : ApiHandler :=
  {| ah_cfg := cfg;
     ah_iscsi := match iscsi with Some p => p | None => noopISCSIStats end;
     ah_journal := match journal with Some p => p | None => noopJournalStats end |}.

(** ** Handlers *)
Definition zoneStateName (state : ZoneState) : string :=
  match state with
  | ZoneStateEmpty => "empty"
  | ZoneStateImplicitOpen => "implicit_open"
  | ZoneStateExplicitOpen => "explicit_open"
  | ZoneStateClosed => "closed"
  | ZoneStateFull => "full"
  | ZoneStateReadOnly => "read_only"
  | ZoneStateOffline => "offline"
  | ZoneStateNotWritePointer => "unknown"
  end.

Definition zone_detail (zi : ZoneInfo) : ZoneDetail :=
  {| ad_ID := zi_ID zi; ad_State := zoneStateName (zi_State zi); ad_Type := "sequential";
     ad_WritePointerLBA := zi_WritePointer zi; ad_ZoneStartLBA := zi_StartLBA zi;
     ad_ZoneLengthLBA := zi_SizeSectors zi; ad_ValidSegments := zi_ValidSegs zi;
     ad_TotalSegments := zi_TotalSegs zi; ad_GCScore := GCScore zi |}.

(** [GCStats.Snapshot] *)
Definition Snapshot (st : GCStats) : GCStatsResponse :=
  {| gr_Running := negb (st_Running st =? 0); gr_ZonesReclaimed := u64 (st_ZonesReclaimed st);
     gr_BytesMigrated := u64 (st_BytesMigrated st); gr_RunCount := u64 (st_RunCount st) |}.

Section handlers.
Context {D J : Type}.
Implicit Types z : ZTL D J.

Definition ListZones z : ZoneListResponse :=
  let details := zone_detail <$> AllZones (z_zm z) in
  {| zl_Zones := details; zl_Total := len details |}.

Definition GetStats (h : ApiHandler) z : StatsResponse :=
  let zm := z_zm z in
  let buf := z_buf z in
  let cfg := ah_cfg h in
  let em := dv_Emulator (cfg_Device cfg) in
  {| sr_ISCSI := ah_iscsi h;
     sr_GC := Snapshot (gc_stats (z_gc z));
     sr_Buffer := {| bs_DirtyBytes := u64 (DirtyBytes buf);
                     bs_MaxBytes := u64 (u64 (u64 (zc_BufferSizeMB (cfg_ZTL cfg)) * 1024) * 1024);
                     bs_PendingFlushes := WriteBuffer_ZoneCount buf |};
     sr_Journal := ah_journal h;
     sr_Device := {| ds_Backend := dv_Backend (cfg_Device cfg); ds_Path := dv_Path (cfg_Device cfg);
                     ds_ZoneCount := TotalZoneCount zm; ds_ZoneSizeMB := dec_ZoneSizeMB em;
                     ds_TotalCapacity := u64 (u64 (u64 (u64 (TotalZoneCount zm) * u64 (dec_ZoneSizeMB em)) * 1024) * 1024);
                     ds_MaxOpenZones := dec_MaxOpenZones em |} |}.

Definition GetConfig (h : ApiHandler) : ConfigResponse :=
  let cfg := ah_cfg h in
  let t := cfg_Target cfg in
  let d := cfg_Device cfg in
  let z := cfg_ZTL cfg in
  {| cr_Target := {| ct_IQN := tg_IQN t; ct_Portal := tg_Portal t; ct_MaxSessions := tg_MaxSessions t;
                     ct_AuthEnabled := au_Enabled (tg_Auth t); ct_CHAPUser := au_CHAPUser (tg_Auth t) |};
     cr_Device := {| cd_Backend := dv_Backend d; cd_Path := dv_Path d;
                     cd_ZoneCount := dec_ZoneCount (dv_Emulator d); cd_ZoneSizeMB := dec_ZoneSizeMB (dv_Emulator d);
                     cd_MaxOpenZones := dec_MaxOpenZones (dv_Emulator d) |};
     cr_ZTL := {| cz_SegmentSizeKB := zc_SegmentSizeKB z; cz_BufferSizeMB := zc_BufferSizeMB z;
                  cz_BufferFlushAgeSec := zc_BufferFlushAgeSec z; cz_GCTriggerFreeRatio := zc_GCTriggerFreeRatio z;
                  cz_GCEmergencyFreeZones := zc_GCEmergencyFreeZones z |};
     cr_APIListen := cfg_API_Listen cfg |}.
End handlers.

(** ** The secret *)
Definition with_secret (secret : string) (cfg : Config) : Config :=
  let t := cfg_Target cfg in
  {| cfg_Target := {| tg_IQN := tg_IQN t; tg_Portal := tg_Portal t; tg_MaxSessions := tg_MaxSessions t;
       tg_Auth := {| au_Enabled := au_Enabled (tg_Auth t); au_CHAPUser := au_CHAPUser (tg_Auth t); au_CHAPSecret := secret |} |};
     cfg_Device := cfg_Device cfg; cfg_ZTL := cfg_ZTL cfg; cfg_Journal := cfg_Journal cfg;
     cfg_API_Listen := cfg_API_Listen cfg; cfg_Log_Level := cfg_Log_Level cfg; cfg_Log_Format := cfg_Log_Format cfg |}.

(** No response depends on the CHAP secret. *)
Lemma api_hides_secret {D J} (z : ZTL D J) cfg secret iscsi journal :
  let h := NewApiHandler cfg iscsi journal in
  let h' := NewApiHandler (with_secret secret cfg) iscsi journal in
  GetConfig h' = GetConfig h ∧ GetStats h' z = GetStats h z.
Proof. done. Qed.

(** ** The device's size

    What the statistics say of the device is computed from the configuration of
    the emulator, also for a drive. *)
Lemma stats_capacity {D J} (h : ApiHandler) (z : ZTL D J) :
  let em := dv_Emulator (cfg_Device (ah_cfg h)) in
  TotalZoneCount (z_zm z) < 2^24 → 0 ≤ dec_ZoneSizeMB em < 2^20 →
  ds_TotalCapacity (sr_Device (GetStats h z)) = TotalZoneCount (z_zm z) * dec_ZoneSizeMB em * 1024 * 1024.
Proof.
  cbn. intros Hn Hm. assert (0 ≤ TotalZoneCount (z_zm z)) by apply len_nonneg.
  rw (u64_small (TotalZoneCount _)); [lia|]. rw (u64_small (dec_ZoneSizeMB _)); [lia|]. rw !u64_small; nia.
Qed.
