(* ===== verification/ApiServer.v ===== *)
(** * [internal/api]: the server, its requests and the metrics

    The routes a server is made with, what a request does and answers, and the
    metrics it registers.  The router, the Prometheus registry, the network and the
    file systems are libraries: parameters, with their documented behaviour as laws. *)

From S2P Require Import Bytes Float64 Config Zbc Backend Segment ZoneManager WriteBuffer Gc Journal Ztl GcSpec Background Session Api.
Local Open Scope string_scope.
Local Open Scope list_scope.
Local Open Scope Z_scope.

(** ** Metrics (metrics.go) *)
Inductive MetricKind := KindCounter | KindGauge | KindHistogram (buckets : list spec_float).
Record MetricOpts := mkOpts { mo_Kind : MetricKind; mo_Name : string; mo_Help : string }.

(** [prometheus.Registerer] with [promauto.With]: a metric is made and registered
    under its name; [C] is what a metric is, [Set_] the method of a gauge. *)
Class Registerer (R C : Type) := {
  reg_names : R → list string;
  promauto_New : MetricOpts → M R C;
  Set_ : spec_float → C → C;
}.

(** What the registry takes for a name, and for buckets: strictly ascending. *)
Definition name_char (c : Ascii.ascii) : bool :=
  let n := Z.of_N (Ascii.N_of_ascii c) in
  ((97 <=? n) && (n <=? 122)) || ((65 <=? n) && (n <=? 90)) || ((48 <=? n) && (n <=? 57)) || (n =? 95) || (n =? 58).
Definition name_ok (name : string) : bool :=
  match String.list_ascii_of_string name with
  | [] => false
  | c :: cs => let n := Z.of_N (Ascii.N_of_ascii c) in
               negb ((48 <=? n) && (n <=? 57)) && forallb name_char (c :: cs)
  end.
Fixpoint ascending (l : list spec_float) : bool :=
  match l with
  | x :: (y :: _) as l' => float64_lt x y && ascending l'
  | _ => true
  end.
Definition opts_ok (m : MetricOpts) : bool :=
  name_ok (mo_Name m) && match mo_Kind m with KindHistogram b => ascending b | _ => true end.

Class RegistererSpec (R C : Type) `{Registerer R C} := {
  reg_fresh m r : opts_ok m = true → mo_Name m ∉ reg_names r →
    wp (promauto_New m) (λ r' o, is_ok o ∧ reg_names r' = mo_Name m :: reg_names r) r;
  (* a name that is taken: a panic *)
  reg_taken m r : mo_Name m ∈ reg_names r → (promauto_New m r).2 = Panic;
}.

Record Metrics (C : Type) := {
  ISCSIReadBytesTotal : C; ISCSIWriteBytesTotal : C; ISCSIReadOpsTotal : C;
  ISCSIWriteOpsTotal : C; ISCSIReadLatency : C; ISCSIWriteLatency : C;
  ISCSIActiveSessions : C;
  ZTLFreeZones : C; ZTLOpenZones : C; ZTLTotalZones : C;
  GCReclaimedZonesTotal : C; GCMigratedBytesTotal : C; GCRunning : C;
  BufferDirtyBytes : C; BufferPendingFlushes : C;
  JournalLSN : C; JournalSizeBytes : C; JournalCheckpointLSN : C;
}.
Arguments ISCSIReadBytesTotal {C} _.
Arguments ISCSIWriteBytesTotal {C} _.
Arguments ISCSIReadOpsTotal {C} _.
Arguments ISCSIWriteOpsTotal {C} _.
Arguments ISCSIReadLatency {C} _.
Arguments ISCSIWriteLatency {C} _.
Arguments ISCSIActiveSessions {C} _.
Arguments ZTLFreeZones {C} _.
Arguments ZTLOpenZones {C} _.
Arguments ZTLTotalZones {C} _.
Arguments GCReclaimedZonesTotal {C} _.
Arguments GCMigratedBytesTotal {C} _.
Arguments GCRunning {C} _.
Arguments BufferDirtyBytes {C} _.
Arguments BufferPendingFlushes {C} _.
Arguments JournalLSN {C} _.
Arguments JournalSizeBytes {C} _.
Arguments JournalCheckpointLSN {C} _.

(** [0.001] and the like are the floats nearest to the fractions. *)
Definition latencyBuckets : list spec_float :=
  (λ ms, float64_div (float64_of_Z ms) (float64_of_Z 1000)) <$> [1; 5; 10; 50; 100; 500].

Section metrics.
Context {R C : Type} `{Registerer R C}.

Definition NewCounter (name help : string) : M R C := promauto_New (mkOpts KindCounter name help).
Definition NewGauge (name help : string) : M R C := promauto_New (mkOpts KindGauge name help).
Definition NewHistogram (name help : string) : M R C := promauto_New (mkOpts (KindHistogram latencyBuckets) name help).

Definition NewMetrics : M R (Metrics C) :=
  m1 ← NewCounter "zns_iscsi_read_bytes_total" "Total bytes read via iSCSI.";
  m2 ← NewCounter "zns_iscsi_write_bytes_total" "Total bytes written via iSCSI.";
  m3 ← NewCounter "zns_iscsi_read_operations_total" "Total read operations via iSCSI.";
  m4 ← NewCounter "zns_iscsi_write_operations_total" "Total write operations via iSCSI.";
  m5 ← NewHistogram "zns_iscsi_read_latency_seconds" "Read latency distribution in seconds.";
  m6 ← NewHistogram "zns_iscsi_write_latency_seconds" "Write latency distribution in seconds.";
  m7 ← NewGauge "zns_iscsi_active_sessions" "Number of currently active iSCSI sessions.";
  m8 ← NewGauge "zns_ztl_free_zones" "Number of free (empty) zones.";
  m9 ← NewGauge "zns_ztl_open_zones" "Number of currently open zones.";
  m10 ← NewGauge "zns_ztl_total_zones" "Total number of zones on the device.";
  m11 ← NewCounter "zns_gc_reclaimed_zones_total" "Total zones reclaimed by garbage collection.";
  m12 ← NewCounter "zns_gc_migrated_bytes_total" "Total bytes migrated by garbage collection.";
  m13 ← NewGauge "zns_gc_running" "1 if garbage collection is currently running, 0 otherwise.";
  m14 ← NewGauge "zns_buffer_dirty_bytes" "Bytes currently buffered (not yet flushed to device).";
  m15 ← NewGauge "zns_buffer_pending_flushes" "Number of zones with pending buffer flushes.";
  m16 ← NewGauge "zns_journal_lsn" "Current Log Sequence Number of the WAL journal.";
  m17 ← NewGauge "zns_journal_size_bytes" "Current size of the WAL journal file in bytes.";
  m18 ← NewGauge "zns_journal_checkpoint_lsn" "LSN of the last checkpoint.";
  mret (Build_Metrics C m1 m2 m3 m4 m5 m6 m7 m8 m9 m10 m11 m12 m13 m14 m15 m16 m17 m18).

(** [UpdateFromZTL] and [UpdateFromISCSI]: the gauges take over the present state. *)
Definition UpdateFromZTL {D J} (z : ZTL D J) (m : Metrics C) : Metrics C :=
  let zm := z_zm z in
  let gcSnap := Snapshot (gc_stats (z_gc z)) in
  let buf := z_buf z in
  {| ISCSIReadBytesTotal := ISCSIReadBytesTotal m; ISCSIWriteBytesTotal := ISCSIWriteBytesTotal m;
     ISCSIReadOpsTotal := ISCSIReadOpsTotal m; ISCSIWriteOpsTotal := ISCSIWriteOpsTotal m;
     ISCSIReadLatency := ISCSIReadLatency m; ISCSIWriteLatency := ISCSIWriteLatency m;
     ISCSIActiveSessions := ISCSIActiveSessions m;
     ZTLFreeZones := Set_ (float64_of_Z (FreeZoneCount zm)) (ZTLFreeZones m);
     ZTLOpenZones := Set_ (float64_of_Z (OpenZoneCount zm)) (ZTLOpenZones m);
     ZTLTotalZones := Set_ (float64_of_Z (TotalZoneCount zm)) (ZTLTotalZones m);
     GCReclaimedZonesTotal := GCReclaimedZonesTotal m; GCMigratedBytesTotal := GCMigratedBytesTotal m;
     GCRunning := Set_ (if gr_Running gcSnap then float64_of_Z 1 else float64_of_Z 0) (GCRunning m);
     BufferDirtyBytes := Set_ (float64_of_Z (DirtyBytes buf)) (BufferDirtyBytes m);
     BufferPendingFlushes := Set_ (float64_of_Z (WriteBuffer_ZoneCount buf)) (BufferPendingFlushes m);
     JournalLSN := JournalLSN m; JournalSizeBytes := JournalSizeBytes m;
     JournalCheckpointLSN := JournalCheckpointLSN m |}.

Definition UpdateFromISCSI (iscsi : ISCSIStats) (m : Metrics C) : Metrics C :=
  {| ISCSIReadBytesTotal := ISCSIReadBytesTotal m; ISCSIWriteBytesTotal := ISCSIWriteBytesTotal m;
     ISCSIReadOpsTotal := ISCSIReadOpsTotal m; ISCSIWriteOpsTotal := ISCSIWriteOpsTotal m;
     ISCSIReadLatency := ISCSIReadLatency m; ISCSIWriteLatency := ISCSIWriteLatency m;
     ISCSIActiveSessions := Set_ (float64_of_Z (is_ActiveSessions iscsi)) (ISCSIActiveSessions m);
     ZTLFreeZones := ZTLFreeZones m; ZTLOpenZones := ZTLOpenZones m; ZTLTotalZones := ZTLTotalZones m;
     GCReclaimedZonesTotal := GCReclaimedZonesTotal m; GCMigratedBytesTotal := GCMigratedBytesTotal m;
     GCRunning := GCRunning m; BufferDirtyBytes := BufferDirtyBytes m;
     BufferPendingFlushes := BufferPendingFlushes m; JournalLSN := JournalLSN m;
     JournalSizeBytes := JournalSizeBytes m; JournalCheckpointLSN := JournalCheckpointLSN m |}.

End metrics.

(** ** The server (server.go) *)
Inductive WebFS := WebDirFS (dir : string) | EmbeddedFS.
Inductive HandlerMethod := HHealth | HListZones | HGetStats | HTriggerGC | HGetConfig.
Inductive Route := RHandler (m : HandlerMethod) | RMetrics | RFileServer (fs : WebFS) | RNotFound.
(** [r.Get] and [r.Post] register for one HTTP method, [r.Handle] for all. *)
Definition Pattern : Type := option string * string.

(** A provider looks at the program at the time of the request, through [E]. *)
Record ServerConfig (E : Type) := {
  sc_ListenAddr : string; sc_Config : Config;
  sc_ISCSI : option (E → ISCSIStats); sc_Journal : option (E → JournalStats);
  sc_WebDir : string;
}.
Arguments sc_ListenAddr {E} _. Arguments sc_Config {E} _. Arguments sc_ISCSI {E} _. Arguments sc_Journal {E} _.
Arguments sc_WebDir {E} _.

Record ApiServer (E C : Type) := {
  as_handler : E → ApiHandler; as_metrics : Metrics C; as_routes : list (Pattern * Route);
  as_middleware : list string; as_Addr : string; as_ReadHeaderTimeout : Z;
}.
Arguments as_handler {E C} _ _. Arguments as_metrics {E C} _. Arguments as_routes {E C} _. Arguments as_middleware {E C} _.
Arguments as_Addr {E C} _. Arguments as_ReadHeaderTimeout {E C} _.

(** The file system of the web pages; [stat] is [os.Stat] and says whether the name
    is a directory, [embedded] whether the embedded tree has a directory [web]. *)
Definition web_fs (stat : string → option bool) (embedded : bool) (WebDir : string) : option WebFS :=
  let webFS := if bool_decide (WebDir = "") then None
               else match stat WebDir with Some true => Some (WebDirFS WebDir) | _ => None end in
  match webFS with
  | Some fs => Some fs
  | None => if embedded then Some EmbeddedFS else None
  end.

(** The address the server listens on. *)
Definition api_listen_addr (ListenAddr : string) (cfg : Config) : string :=
  if bool_decide (ListenAddr = "") then cfg_API_Listen cfg else ListenAddr.

Definition api_routes (webFS : option WebFS) : list (Pattern * Route) :=
  [((Some "GET", "/api/v1/health"), RHandler HHealth);
   ((Some "GET", "/api/v1/zones"), RHandler HListZones);
   ((Some "GET", "/api/v1/stats"), RHandler HGetStats);
   ((Some "POST", "/api/v1/gc/trigger"), RHandler HTriggerGC);
   ((Some "GET", "/api/v1/config"), RHandler HGetConfig);
   ((None, "/metrics"), RMetrics);
   ((None, "/*"), match webFS with Some fs => RFileServer fs | None => RNotFound end)].

(** [reg.(prometheus.Gatherer)], if it is one. *)
Definition prometheusGathererFrom {G} (as_gatherer : option G) (DefaultGatherer : G) : G :=
  match as_gatherer with Some g => g | None => DefaultGatherer end.

Definition NewApiServer {R C E} `{Registerer R C} (stat : string → option bool) (embedded : bool) (cfg : ServerConfig E)
    : M R (ApiServer E C) :=
  metrics ← NewMetrics;
  mret {| as_handler := λ e, NewApiHandler (sc_Config cfg) ((λ p, p e) <$> sc_ISCSI cfg) ((λ p, p e) <$> sc_Journal cfg);
          as_metrics := metrics;
          as_routes := api_routes (web_fs stat embedded (sc_WebDir cfg));
          as_middleware := ["RequestID"; "Logger"; "Recoverer"];
          as_Addr := api_listen_addr (sc_ListenAddr cfg) (sc_Config cfg);
          as_ReadHeaderTimeout := 10 * 1000000000 |}.

(** [Serve] returns only with an error. *)
Definition Server_Start {E C L} (Listen : string → outcome L) (Serve : L → error) (s : ApiServer E C) : outcome error :=
  match Listen (as_Addr s) with
  | Ok ln => Ok (Serve ln)
  | Stop r => Stop r
  end.

(** What [main] makes its server with. *)
Definition main_api {E} (cfg : Config) (sessions : E → SessionManager) (journal : E → Journal) (stat : E → option Z)
    : ServerConfig E :=
  {| sc_ListenAddr := cfg_API_Listen cfg; sc_Config := cfg;
     sc_ISCSI := Some (λ e, iscsiStatsAdapter (sessions e));
     sc_Journal := Some (λ e, journalStatsAdapter (stat e) (journal e));
     sc_WebDir := "/var/lib/zns-iscsi/web" |}.

(** ** Requests (handlers.go) *)

(** [GCEngine.TriggerManual]: the trigger is a channel of capacity one. *)
Definition TriggerManual : M bool unit := modify (λ queued : bool, if queued then queued (* already triggered *) else true).

Inductive ApiBody :=
| BHealth (r : HealthResponse) | BZones (r : ZoneListResponse) | BStats (r : StatsResponse) | BConfig (r : ConfigResponse)
| BEmpty.

Section requests.
Context {D J : Type}.

(** The layer and the collector's trigger. *)
Definition Triggered : Type := bool * ZTL D J.
Definition ZTL_TriggerGC : M Triggered unit := zoom fst (λ t s, (t, s.2)) TriggerManual.

(** A handler writes a status and a body. *)
Definition Health : Z * ApiBody := (200, BHealth {| hr_Status := "ok" |}).
Definition TriggerGC : M Triggered (Z * ApiBody) := ZTL_TriggerGC ;; mret (202, BEmpty).
Definition handle (h : ApiHandler) (m : HandlerMethod) : M Triggered (Z * ApiBody) :=
  match m with
  | HHealth => mret Health
  | HListZones => z ← gets snd; mret (200, BZones (ListZones z))
  | HGetStats => z ← gets snd; mret (200, BStats (GetStats h z))
  | HTriggerGC => TriggerGC
  | HGetConfig => mret (200, BConfig (GetConfig h))
  end.

(** A request to a handler; the others are answered by the libraries. [router] is
    how chi finds the route. *)
Definition request {E C} (router : list (Pattern * Route) → string → string → option Route) (s : ApiServer E C) (e : E)
    (method path : string) : M Triggered (option (Z * ApiBody)) :=
  match router (as_routes s) method path with
  | Some (RHandler m) => r ← handle (as_handler s e) m; mret (Some r)
  | _ => mret None
  end.
End requests.

(** ** Starting *)
Section register.
Context {R C : Type} `{RegistererSpec R C}.

Definition metric_names : list string :=
  ["zns_iscsi_read_bytes_total"; "zns_iscsi_write_bytes_total"; "zns_iscsi_read_operations_total";
   "zns_iscsi_write_operations_total"; "zns_iscsi_read_latency_seconds"; "zns_iscsi_write_latency_seconds";
   "zns_iscsi_active_sessions"; "zns_ztl_free_zones"; "zns_ztl_open_zones"; "zns_ztl_total_zones";
   "zns_gc_reclaimed_zones_total"; "zns_gc_migrated_bytes_total"; "zns_gc_running"; "zns_buffer_dirty_bytes";
   "zns_buffer_pending_flushes"; "zns_journal_lsn"; "zns_journal_size_bytes"; "zns_journal_checkpoint_lsn"].

Lemma wp_register m names old (Q : R → outcome C → Prop) r :
  (∀ n, n ∈ metric_names → n ∉ old) → reg_names r = names ++ old →
  opts_ok m && bool_decide (mo_Name m ∈ metric_names) && bool_decide (mo_Name m ∉ names) = true →
  (∀ r' c, reg_names r' = (mo_Name m :: names) ++ old → Q r' (Ok c)) → wp (promauto_New m) Q r.
Proof.
  intros Hold Hr Hc HQ. apply andb_true_iff in Hc as [[Hok Hin%bool_decide_eq_true]%andb_true_iff Hn%bool_decide_eq_true].
  eapply wp_mono; [apply reg_fresh; [exact Hok|]|].
  - rewrite Hr elem_of_app. intros [?|?]; [done|by eapply Hold].
  - intros r' o [Ho Hr']. destruct o as [c|]; [|done]. apply HQ. by rewrite Hr' Hr.
Qed.

(** On a registry that has none of its names the metrics register without a panic. *)
Lemma NewMetrics_registers r :
  (∀ n, n ∈ metric_names → n ∉ reg_names r) →
  wp NewMetrics (λ r' o, is_ok o ∧ reg_names r' = reverse metric_names ++ reg_names r) r.
Proof.
  intros Hold. assert (∃ old, reg_names r = [] ++ old) as [old Hr] by by eexists.
  change ([] ++ old) with old in Hr. rewrite Hr in Hold |- *. change old with ([] ++ old) in Hr. unfold NewMetrics.
  do 18 (apply wp_bind; eapply wp_register;
    [exact Hold|exact Hr|vm_compute; reflexivity|clear Hr; clear r; intros r ? Hr; cbn beta iota]).
  apply wp_ret. split; [done|]. exact Hr.
Qed.

(** A second server on the same registry does not start: it panics. *)
Lemma NewMetrics_twice r : "zns_iscsi_read_bytes_total" ∈ reg_names r → (NewMetrics r).2 = Panic.
Proof.
  intros Hin. set (m := mkOpts KindCounter "zns_iscsi_read_bytes_total" "Total bytes read via iSCSI.").
  pose proof (reg_taken m r Hin) as Ht. unfold NewMetrics.
  change (NewCounter "zns_iscsi_read_bytes_total" "Total bytes read via iSCSI.") with (promauto_New m).
  match goal with |- ((_ ≫= ?k) _).2 = _ => generalize k end. intros k. unfold mbind, M_bind.
  destruct (promauto_New m r) as [r' o]. cbn in Ht. by subst o.
Qed.
End register.

(** ** What requests can do *)
Section effects.
Context {D J : Type}.
Implicit Types st : bool * ZTL D J.

(** The router finds a route that was registered for the method. *)
Context (router : list (Pattern * Route) → string → string → option Route).
Context (Hrouter : ∀ rs method path r, router rs method path = Some r →
  ∃ meth pat, ((meth, pat), r) ∈ rs ∧ (meth = None ∨ meth = Some method)).

(** No request changes the layer, and none but a POST pulls the trigger. *)
Lemma request_effect {R C E} `{RegistererSpec R C} stat embedded (cfg : ServerConfig E) r r' s e method path st :
  NewApiServer stat embedded cfg r = (r', Ok s) →
  wp (request router s e method path) (λ st' o, is_ok o ∧ st'.2 = st.2 ∧
    (st'.1 = st.1 ∨ (method = "POST" ∧ st'.1 = true))) st.
Proof using All.
  intros Hnew. assert (Hroutes : as_routes s = api_routes (web_fs stat embedded (sc_WebDir cfg))).
  { unfold NewApiServer, mbind, M_bind in Hnew. destruct (NewMetrics r) as [? [m|]]; [|done]. by injection Hnew as _ <-. }
  unfold request. destruct (router (as_routes s) method path) as [rt|] eqn:Hrt; [|by split; [|split; [|left]]].
  destruct (Hrouter _ _ _ _ Hrt) as (meth & pat & Hin & Hmeth). rw Hroutes in Hin.
  destruct rt as [m| | |]; try by split; [|split; [|left]].
  destruct m; try by split; [|split; [|left]].
  assert (meth = Some "POST") as ->.
  { unfold api_routes in Hin. destruct (web_fs _ _ _); set_solver. }
  unfold wp, handle, TriggerGC, ZTL_TriggerGC, zoom, TriggerManual, mbind, M_bind, modify, mret, M_ret. cbn.
  split; [done|]. split; [done|]. right. destruct Hmeth as [|[= ->]]; [done|]. split; [done|]. by destruct (st.1).
Qed.

(** For the collector's loop a request is nothing, or a manual trigger. *)
Lemma request_gc_run {E C} `{ZonedDevice D} `{JournalOps J} order (s : ApiServer E C) e method path st (p : bool) g g' :
  (p, g) = (st.1, z_gc st.2) →
  gc_run order (((request router s e method path st).1).1, z_gc ((request router s e method path st).1).2) g' →
  gc_run order (p, g) g'.
Proof using.
  intros [= -> ->] Hrun. destruct st as [t z]. unfold request in Hrun.
  destruct (router _ _ _) as [[[]| | |]|]; try exact Hrun.
  cbn in Hrun. apply run_TriggerManual. by destruct t.
Qed.
End effects.

(** ** A registry that is a list of names *)
#[export] Instance names_registerer : Registerer (list string) (MetricOpts * spec_float) := {|
  reg_names := id;
  promauto_New m := λ r,
    if opts_ok m && bool_decide (mo_Name m ∉ r) then (mo_Name m :: r, Ok (m, float64_of_Z 0)) else (r, Panic);
  Set_ v c := (c.1, v) |}.
#[export] Instance names_registerer_spec : RegistererSpec (list string) (MetricOpts * spec_float).
Proof.
  split; intros m r; cbn.
  - intros Hok Hn. unfold wp. cbn. rewrite Hok bool_decide_true //.
  - intros Hin. rewrite bool_decide_false ?andb_false_r //. by intros Hn.
Qed.

(** The process's own metrics do not get in the way; a second server does not start. *)
Example main_metrics :
  let r := NewMetrics ["go_goroutines"; "process_cpu_seconds_total"] in
  is_ok r.2 = true ∧ (NewMetrics r.1).2 = Panic.
Proof. by vm_compute. Qed.
